(* ===== verification/_CoqProject ===== *)
-Q . S2P
Prelude.v
External.v
Machine.v
Platform.v
Allocator.v
ApicId.v
Segment.v
Tables.v
Paging.v
Npts.v
Mtrr.v
Epts.v
Host.v
Vmcb.v
Svm.v
SvmProofs.v
Vmx.v
VmxProofs.v
Sipi.v
System.v
Hypervisor.v
Startup.v
Layout.v
Widths.v
WidthProofs.v
Assembly.v
Dump.v
Support.v
Logger.v
Drivers.v
Vendor.v
Xtask.v
