(* ===== verification/Prelude.v ===== *)
(** * Barevisor in Rocq

    Barevisor is a thin hypervisor for Intel and AMD processors, written in
    Rust.  A driver (a UEFI runtime driver or a Windows kernel driver) makes the
    running system the guest: each logical processor goes on where it was, as a
    guest, over an identity-mapped nested translation.  The core, the crate
    hvcore, is shared by both drivers; paths below are under src/src/, and the
    files of the core under hvcore/src/hypervisor/.

    ** The program and its parts

    [virtualize_system] (mod.rs) numbers the processors (apic_id.rs), stores the
    data the host depends on, and runs a callback on every processor through
    the operations of the platform (platform_ops.rs, implemented in
    uefi/uefi_hv/src/ops.rs and windows/win_hv/src/ops.rs).  The callback
    captures the registers, changes to a new stack (switch_stack.rs, from the
    allocator of allocator.rs) and enters [host::main] (host.rs), which enables
    the virtualization extension, makes a guest and runs it in a loop that
    handles the exits.  The extensions and guests are those of amd/ (svm.rs,
    guest.rs, npts.rs) and intel/ (vmx.rs, guest.rs, epts.rs, mtrr.rs).  Both
    read segment descriptors (segment.rs), and use the page tables
    (paging_structures.rs), GDTs and TSSs (gdt_tss.rs) and the IDT
    (interrupt_handlers.rs) made for the host.  A hypercall (hypercall.rs)
    takes a processor out of the host again.

    ** The files

    - Prelude (this file): panics as the type [outcome], the state monad [M]
      with panics, machine integers ([wrap], [in_width], [add_w] and the like,
      with the overflow checks of the build profile as the class [Profile]),
      bit fields, structures of integer fields as functions ([fset], [assign]),
      loops ([foreach], [for_range], [mmap]) and the lemmas they share.
    - External: the crates the core calls, as classes with their documented
      laws (bit fields, bit arrays, x86 selectors and control registers);
      Module [Reference] has an instance of each.
    - Machine: a logical processor (system registers, MSRs, memory for
      descriptor tables, APIC registers, VMX mode and VMCSs) and the wrappers
      of x86_instructions.rs and of the VMX instructions.
    - Platform: the class [PlatformOps] and its implementations under UEFI and
      Windows, over the documented behaviour of the firmware and the kernel.
    - Allocator (allocator.rs): two pools of blocks with a bitmap each.
    - ApicId (apic_id.rs), Segment (segment.rs and the helpers in amd/guest.rs),
      Tables (gdt_tss.rs, interrupt_handlers.rs).
    - Paging (paging_structures.rs): the identity map, against a page walk;
      Npts (amd/npts.rs): the nested tables and the split of the APIC page.
    - Mtrr (intel/mtrr.rs) and Epts (intel/epts.rs): memory types, and the
      extended page tables that carry them.
    - Host (host.rs, registers.rs): the classes [Guest] and [Extension] that
      the architectures implement, the exit handlers, the loop and [main],
      proved against the classes.
    - Vmcb, Svm, SvmProofs: AMD (the control block of amd/guest.rs, the
      operations, the theorems).  Vmx, VmxProofs: Intel.
    - Sipi: the INIT-SIPI protocol of the AMD guests, with the atomic accesses
      of all processors interleaved as a step relation.
    - System (mod.rs, switch_stack.rs): all processors together, proved
      against the classes and the class [Setup].
    - Hypervisor: both architectures in one world (views of a common record),
      the discharge of [Setup] for both, and a concrete run of two processors.
    - Startup: what the processors and the heap must have for
      [virtualize_system] to return: the class [Startable], its discharge for
      both architectures, and a run of two Intel processors.
    - Layout: the offsets of the structures the processor and the assembly read.
    - Widths, WidthProofs: every value of the model fits the integer type or
      the register the source keeps it in (the class [Typed]).
    - Assembly: the .S files and the code of switch_stack.rs as programs of a
      small x86-64 machine.
    - Dump: the [Debug] output of a VMCS (intel/guest.rs), with what core::fmt
      makes of it.
    - Support (support.rs, panic.rs): zeroed boxes over the allocator, the
      panic handler as a step relation, how many processors the heap reaches.
    - Logger (serial_logger.rs, the guard of support.rs, win_hv eprintln.rs and
      logger.rs) and Drivers (uefi_hv main.rs, win_hv lib.rs, platform_ops.rs).
    - Vendor: the two check_hv_vendor tools over the processors of System.
    - Xtask (uefi/xtask): the assistant that builds the driver and tests it in
      Bochs and VMware, over the class [Os] of what the system answers.

    ** How the state corresponds

    A Rust struct of integers is a function from field names (the VMCB areas,
    the VMCS, the registers) or a Record; integers are in Z, with the width and
    the wrap-around written out where the code computes; a table is a list of
    64-bit entries; a static is a field of the state of the component that owns
    it, and the [Once] cells and locks are options and atomic steps.  A panic
    (assertion, unwrap, index, overflow in a checked build, a fault the host
    takes) is [Panic].  Addresses of boxes are parameters; [pa] translates them.

    What the hypervisor cannot see is a parameter of a run: the execution of a
    guest between two exits is an event (a function on the registers, the
    control block and the world), and the loop of host.rs runs over a list of
    events.  The list is the fuel: a run over a list that ends is the state of
    the system after those exits, and each theorem about leaving the loop says
    which event it left at.  In the same way [wait_for_sipi] takes what the
    other processors do between two looks, and the UART what the line status
    reads; [svm_init_sipi], [sipi_starts] and [serial_log_writes] say that a
    vector, or readiness, that does come ends the wait.  Loops over tables are
    structural and have the counts of the code (512 entries, 256 gates).
    [exec] runs an assembly program with one unit of fuel per instruction; 200
    is enough for each, as the theorems show by where they end.  The wait of
    the assistant for a log file has [polls] looks; all else it does is
    finite, and [main_stops] says that it stops at the first action that fails.

    ** The theorems

    - Composition: [virtualize_system_succeeds] (and [virtualize_system_installs]
      against the classes), [devirtualize_system_leaves],
      [uefi_main_spec] and [driver_entry_spec] (from the entry of a driver to
      all processors hosted, and every early return), [loop_leaves_on_hypercall],
      [guest_sees_our_hypervisor], [init_numbers_processors], [checkers_tell].
    - Address translation: [host_identity_map], [nested_identity_map],
      [ept_identity_map], [split_apic_page_translation], each for a walk of the
      tables as the processor does it; memory types in
      [find_from_variable_sdm], [convert_from_raw_variable_spec],
      [find_from_fixed_page], [ept_short_mtrr_panics].
    - Processor setup and exits: [svm_initialize_spec], [vmx_initialize_spec],
      [vmx_enable_disable], [adjust_vmx_control_spec], [vmx_run_exits],
      [handle_cpuid_spec], [handle_xsetbv_spec], [svm_devirtualize],
      [vmx_devirtualize], [apic_write_emulated], [prepare_tss_ready],
      [full_gdt_is_rejected].
    - World switches: [run_svm_guest_spec], [run_vmx_guest_spec],
      [capture_restore_registers], [interrupt_stub_frame].
    - Types: [main_keeps_widths] (no value of either architecture is cut off,
      through any number of exits) and [layouts].
    - INIT and SIPI: [svm_init_sipi], [vmx_init_sipi], [sipi_emulated] for one
      processor; [sipi_protocol_safe], [sipi_starts] and the refinements
      [security_exception_refines], [emulated_sipi_refines] for all of them.
    - The heap: [heap_safe], [heap_never_panics], [alloc_first_fit],
      [alloc_dealloc_roundtrip], [zeroed_box_spec], [heap_capacity].
    - Output: [serial_log_writes], [print_spec], [vmcs_dump_spec],
      [panic_impl_never_returns].  The assistant: [main_plan], [main_stops].

    Several theorems state behaviour that differs from what the code means to
    do (the split of the APIC page, the order of the fixed MTRR bytes, EFER on
    AMD when leaving, SS after INIT, the length asked for a 1 GB page, strings
    longer than 255 bytes in the Windows debug output, a TSS above 4 GB, the
    stubs of vectors 29 and 30 on AMD, a heap for fewer processors than the
    255 activity states); they are stated the way the code is.

    ** Not modelled

    The contents of log messages and their formatting by core::fmt, the dump
    of a VMCS apart: a log call is the strings handed to [write_str], or
    nothing where its output is not the subject.  Parsing of command lines (by
    the crate clap) and the threads of the assistant that only copy the output
    of another program.  Unit tests.  The instructions of the common exception
    stub after its handler, which never returns.  Memory is modelled where the
    code reads structures it did not build (descriptor tables, APIC registers),
    in the assembly and in [zeroed_box]; the tables the code builds are values.
    Interrupts and NMIs in the middle of the host's code are not modelled. *)

From stdpp Require Export base gmap list numbers strings.
From Stdlib Require Export ZArith Lia.

#[export] Set Default Goal Selector "!".
Global Open Scope Z_scope.

(** Bit operations are computed by [vm_compute], never by [simpl]. *)
#[global] Arguments Z.pow : simpl never.
#[global] Arguments Z.modulo : simpl never.
#[global] Arguments Z.div : simpl never.
#[global] Arguments Z.shiftl : simpl never.
#[global] Arguments Z.shiftr : simpl never.
#[global] Arguments Z.land : simpl never.
#[global] Arguments Z.lor : simpl never.
#[global] Arguments Z.ldiff : simpl never.
#[global] Arguments Z.testbit : simpl never.
#[global] Arguments Z.ones : simpl never.

(** ** Panics

    Rust code that cannot continue panics: a failed [assert!], an [unwrap] of
    [None] or [Err], an explicit [panic!], or an arithmetic overflow in a
    build with overflow checks.  A fallible function returns an [outcome]. *)
Inductive outcome (A : Type) : Type :=
  | Ok (a : A)
  | Panic (why : string).
Arguments Ok {A} _.
Arguments Panic {A} _.

Definition obind {A B : Type} (m : outcome A) (k : A -> outcome B) : outcome B :=
  match m with
  | Ok a => k a
  | Panic why => Panic why
  end.

Definition oassert (b : bool) (why : string) : outcome unit :=
  if b then Ok tt else Panic why.

Definition unwrap {A : Type} (o : option A) (why : string) : outcome A :=
  match o with
  | Some a => Ok a
  | None => Panic why
  end.

Definition is_ok {A : Type} (m : outcome A) : bool :=
  match m with
  | Ok _ => true
  | Panic _ => false
  end.

Declare Scope hv_scope.
Delimit Scope hv_scope with hv.
Notation "'let?' x := m 'in' k" := (obind m (fun x => k))
  (at level 10, x pattern, m at level 100, k at level 200) : hv_scope.
Global Open Scope hv_scope.

(** ** Stateful code

    [M St A] is code that reads and updates a state [St], may panic, and
    returns an [A]. *)
Definition M (St A : Type) : Type := St -> outcome (A * St).

Definition ret {St A : Type} (a : A) : M St A := fun s => Ok (a, s).

Definition bind {St A B : Type} (m : M St A) (k : A -> M St B) : M St B :=
  fun s => match m s with
           | Ok (a, s') => k a s'
           | Panic why => Panic why
           end.

Definition gets {St A : Type} (f : St -> A) : M St A := fun s => Ok (f s, s).
Definition modify {St : Type} (f : St -> St) : M St unit := fun s => Ok (tt, f s).
Definition mpanic {St A : Type} (why : string) : M St A := fun _ => Panic why.
Definition lift {St A : Type} (m : outcome A) : M St A :=
  fun s => match m with
           | Ok a => Ok (a, s)
           | Panic why => Panic why
           end.
Definition massert {St : Type} (b : bool) (why : string) : M St unit :=
  lift (oassert b why).

Notation "'let!' x := m 'in' k" := (bind m (fun x => k))
  (at level 10, x pattern, m at level 100, k at level 200) : hv_scope.
Notation "m ;;! k" := (bind m (fun _ => k))
  (at level 199, right associativity) : hv_scope.

(** A loop that pushes one result per element. *)
Fixpoint mmap {St A B : Type} (f : A -> M St B) (l : list A) : M St (list B) :=
  match l with
  | [] => ret []
  | a :: l' => let! b := f a in let! bs := mmap f l' in ret (b :: bs)
  end.

(** A loop over the elements of an array with a loop-carried state: each
    element is rewritten, and the first panic stops the loop. *)
Fixpoint foreach {St A B : Type} (f : St -> A -> outcome (St * B)) (s : St) (l : list A)
    : outcome (St * list B) :=
  match l with
  | [] => Ok (s, [])
  | a :: l' =>
      let? (s1, b) := f s a in
      let? (s2, bs) := foreach f s1 l' in
      Ok (s2, b :: bs)
  end.

(** A counted loop that only updates a state. *)
Fixpoint for_range {St : Type} (f : nat -> St -> outcome St) (start count : nat) (s : St)
    : outcome St :=
  match count with
  | O => Ok s
  | S n =>
      let? s' := f start s in
      for_range f (S start) n s'
  end.

(** ** Machine integers

    An unsigned integer of width [w] is a [Z] in [0, 2^w).  A cast [x as uN]
    truncates; arithmetic panics on overflow when the build checks for it
    (the dev profile) and wraps otherwise (the release profile). *)
Class Profile : Set := overflow_checks : bool.

Definition wrap (w x : Z) : Z := x mod 2 ^ w.
#[global] Arguments wrap : simpl never.
Definition in_width (w x : Z) : Prop := 0 <= x < 2 ^ w.

Definition arith {P : Profile} (w x : Z) : outcome Z :=
  if (0 <=? x) && (x <? 2 ^ w) then Ok x
  else if overflow_checks then Panic "arithmetic overflow" else Ok (wrap w x).

Definition add_w {P : Profile} (w a b : Z) : outcome Z := arith w (a + b).
Definition sub_w {P : Profile} (w a b : Z) : outcome Z := arith w (a - b).
Definition mul_w {P : Profile} (w a b : Z) : outcome Z := arith w (a * b).

(** [a << n]: bits leave at the top; a shift amount of the width or more is
    an overflow, and without checks only its low bits count. *)
Definition shl_w {P : Profile} (w a n : Z) : outcome Z :=
  if n <? w then Ok (wrap w (Z.shiftl a n))
  else if overflow_checks then Panic "shift overflow"
  else Ok (wrap w (Z.shiftl a (n mod w))).

(** [!a] of a [w]-bit integer. *)
Definition not_w (w a : Z) : Z := 2 ^ w - 1 - a.

Definition u64_max : Z := 2 ^ 64 - 1.

Definition b2z (b : bool) : Z := if b then 1 else 0.

(** ** Structures of integer fields

    A structure whose fields are all integers (the VMCB areas, the VMCS, the
    system registers) is a function from the names of its fields; [fset]
    assigns one field and [assign] a block of assignments in order. *)
Section Fields.
Context {F : Type} {Fdec : EqDecision F}.

Definition fset (f : F) (v : Z) (s : F -> Z) : F -> Z :=
  fun g => if decide (f = g) then v else s g.

Definition assign (l : list (F * Z)) (s : F -> Z) : F -> Z :=
  foldl (fun s '(f, v) => fset f v s) s l.

Lemma fset_same f v s : fset f v s f = v.
Proof. unfold fset. by rewrite decide_True. Qed.

Lemma fset_other f g v s : f <> g -> fset f v s g = s g.
Proof. intros. unfold fset. by rewrite decide_False. Qed.

Lemma assign_other l s g : g ∉ l.*1 -> assign l s g = s g.
Proof.
  revert s. induction l as [|[f v] l IH]; intros s Hg; [done|].
  rewrite fmap_cons, not_elem_of_cons in Hg. destruct Hg as [Hf Hg]. simpl in Hf |- *.
  rewrite IH by exact Hg. by apply fset_other.
Qed.
End Fields.

(** Decidable equality of an enumeration, from the positions of its names. *)
Definition by_index_dec {F : Type} (idx : F -> nat) (all : list F)
    (H : forall f, all !! idx f = Some f) : EqDecision F :=
  fun x y =>
    match decide (idx x = idx y) with
    | left e =>
        left (Some_inj _ _ (eq_trans (eq_sym (H x))
                (eq_trans (f_equal (fun i => all !! i) e) (H y))))
    | right ne => right (fun e => ne (f_equal idx e))
    end.

(** ** One step of stateful code *)

Lemma bind_gets {St A B : Type} (f : St -> A) (k : A -> M St B) s : bind (gets f) k s = k (f s) s.
Proof. done. Qed.

Lemma bind_modify {St B : Type} (f : St -> St) (k : unit -> M St B) s : bind (modify f) k s = k tt (f s).
Proof. done. Qed.

Lemma bind_lift_ok {St A B : Type} (a : A) (k : A -> M St B) s : bind (lift (Ok a)) k s = k a s.
Proof. done. Qed.

Lemma bind_ret {St A B : Type} (a : A) (k : A -> M St B) s : bind (ret a) k s = k a s.
Proof. done. Qed.

Lemma bind_massert {St B : Type} b why (k : unit -> M St B) s :
  b = true -> bind (massert b why) k s = k tt s.
Proof. by intros ->. Qed.

Lemma lift_ok {St A : Type} (x : outcome A) a (s s' : St) : lift x s = Ok (a, s') -> x = Ok a /\ s' = s.
Proof. unfold lift. destruct x; [|done]. intros H. by simplify_eq. Qed.

(** An assertion that was passed held. *)
Lemma bind_massert_ok {St B : Type} b why (k : unit -> M St B) s r :
  bind (massert b why) k s = Ok r -> b = true /\ k tt s = Ok r.
Proof. by destruct b. Qed.

(** ** Lemmas on outcomes and loops *)

Lemma obind_ok {A B : Type} (m : outcome A) (k : A -> outcome B) (b : B) :
  obind m k = Ok b -> exists a, m = Ok a /\ k a = Ok b.
Proof. destruct m; simpl; [eauto | discriminate]. Qed.

Lemma oassert_true (b : bool) (why : string) : b = true -> oassert b why = Ok tt.
Proof. by intros ->. Qed.

Lemma oassert_ok (b : bool) (why : string) u : oassert b why = Ok u -> b = true.
Proof. by destruct b. Qed.

(** [foreach] from its loop invariant: with the state after [i] iterations
    given by [I i], the [i]-th element becomes [g i]. *)
Lemma foreach_spec {St A B : Type} (f : St -> A -> outcome (St * B)) (I : nat -> St)
    (g : nat -> B) (l : list A) (k : nat) :
  (forall i a, l !! i = Some a -> f (I (k + i)%nat) a = Ok (I (S (k + i)), g (k + i)%nat)) ->
  foreach f (I k) l = Ok (I (k + length l)%nat, map g (seq k (length l))).
Proof.
  revert k. induction l as [|a l IH]; intros k Hf; simpl.
  - by rewrite Nat.add_0_r.
  - pose proof (Hf 0%nat a eq_refl) as H0. rewrite Nat.add_0_r in H0. rewrite H0. simpl.
    rewrite (IH (S k)); [simpl; by rewrite Nat.add_succ_r|].
    intros i b Hi. rewrite Nat.add_succ_comm. by apply Hf.
Qed.

Lemma foreach_all {St A B : Type} (f : St -> A -> outcome (St * B)) (I : nat -> St)
    (g : nat -> B) (l : list A) (n : nat) :
  length l = n ->
  (forall i a, l !! i = Some a -> (i < n)%nat -> f (I i) a = Ok (I (S i), g i)) ->
  foreach f (I 0%nat) l = Ok (I n, map g (seq 0 n)).
Proof.
  intros <- Hf. apply (foreach_spec f I g l 0). intros i a Hi. apply Hf; [done|].
  by eapply lookup_lt_Some.
Qed.

Lemma foreach_length {St A B : Type} (f : St -> A -> outcome (St * B)) s l s' l' :
  foreach f s l = Ok (s', l') -> length l' = length l.
Proof.
  revert s s' l'. induction l as [|a l IH]; intros s s' l' H; simpl in H.
  - by simplify_eq.
  - apply obind_ok in H as ([s1 b] & _ & H). apply obind_ok in H as ([s2 bs] & Hl & H).
    simplify_eq. simpl. f_equal. eauto.
Qed.

(** When the loop-carried state does not depend on the elements, a loop that
    ends normally ran every iteration normally, and its last state is known. *)
Lemma foreach_ok_iteration {St A B : Type} (f : St -> A -> outcome (St * B)) (I : nat -> St) l k s' bs :
  (forall i a s' b, l !! i = Some a -> f (I (k + i)%nat) a = Ok (s', b) -> s' = I (S (k + i))) ->
  foreach f (I k) l = Ok (s', bs) ->
  s' = I (k + length l)%nat /\
  forall i a, l !! i = Some a -> exists b, f (I (k + i)%nat) a = Ok b.
Proof.
  revert k bs. induction l as [|a l IH]; intros k bs Hstep H; cbn [foreach] in H.
  - injection H as <- _. by rewrite Nat.add_0_r.
  - apply obind_ok in H as ([s1 b] & Hf & H). apply obind_ok in H as ([s2 bs'] & Hl & H).
    injection H as -> _. pose proof (Hstep 0%nat a s1 b eq_refl) as H0. rewrite Nat.add_0_r in H0.
    rewrite (H0 Hf) in Hl. destruct (IH (S k) bs') as [Hs Hi]; [|done|].
    { intros i x s3 b3 Hx Hfx. rewrite Nat.add_succ_comm in Hfx |- *.
      by apply (Hstep (S i) x s3 b3 Hx Hfx). }
    split; [by rewrite Hs; cbn [length]; rewrite Nat.add_succ_comm|].
    intros [|i] x Hx; [injection Hx as ->; rewrite Nat.add_0_r; eauto|].
    rewrite <- Nat.add_succ_comm. by apply Hi.
Qed.

Lemma lookup_map_seq {B : Type} (g : nat -> B) (n i : nat) :
  (i < n)%nat -> map g (seq 0 n) !! i = Some (g i).
Proof.
  intros Hi. change (map g) with (fmap (M := list) g).
  rewrite list_lookup_fmap, lookup_seq_lt by done. done.
Qed.

Lemma lookup_map_seq_from {B : Type} (g : nat -> B) (k n i : nat) :
  (i < n)%nat -> map g (seq k n) !! i = Some (g (k + i)%nat).
Proof.
  intros Hi. change (map g) with (fmap (M := list) g).
  rewrite list_lookup_fmap, lookup_seq_lt by done. done.
Qed.

(** [mmap] of a function that only reads. *)
Lemma mmap_reads {St A B : Type} (f : A -> M St B) (g : A -> B) (l : list A) (s : St) :
  (forall a, a ∈ l -> f a s = Ok (g a, s)) -> mmap f l s = Ok (map g l, s).
Proof.
  induction l as [|a l IH]; intros Hf; [done|]. cbn. unfold bind.
  rewrite Hf by left. rewrite IH; [done|]. intros b Hb. apply Hf. by right.
Qed.

Lemma foldl_map_seq_S {A B : Type} (f : A -> B -> A) (g : nat -> B) (a : A) (k : nat) :
  foldl f a (map g (seq 0 (S k))) = f (foldl f a (map g (seq 0 k))) (g k).
Proof. rewrite seq_S, map_app, foldl_app. done. Qed.

Lemma fmap_map {A B C : Type} (f : A -> B) (g : B -> C) (l : list A) :
  g <$> map f l = map (fun x => g (f x)) l.
Proof. induction l as [|a l IH]; [done|]. cbn. by rewrite IH. Qed.

(** ** Lemmas on machine integers *)

Lemma wrap_small w x : in_width w x -> wrap w x = x.
Proof. apply Z.mod_small. Qed.

Lemma wrap_range w x : 0 <= w -> in_width w (wrap w x).
Proof. intros ?. apply Z.mod_pos_bound. apply Z.pow_pos_nonneg; lia. Qed.

Lemma arith_small {P : Profile} w x : in_width w x -> arith w x = Ok x.
Proof.
  intros [H1 H2]. unfold arith.
  by rewrite (proj2 (Z.leb_le _ _) H1), (proj2 (Z.ltb_lt _ _) H2).
Qed.

Lemma add_w_small {P : Profile} w a b : in_width w (a + b) -> add_w w a b = Ok (a + b).
Proof. apply arith_small. Qed.

Lemma sub_w_small {P : Profile} w a b : in_width w (a - b) -> sub_w w a b = Ok (a - b).
Proof. apply arith_small. Qed.

Lemma mul_w_small {P : Profile} w a b : in_width w (a * b) -> mul_w w a b = Ok (a * b).
Proof. apply arith_small. Qed.

(** ** Bits

    [bits] rewrites [Z.testbit] of the bitwise operations; [bitblast] proves
    an equality of two such terms position by position. *)
Lemma testbit_shiftl a n i : 0 <= n ->
  Z.testbit (Z.shiftl a n) i = (n <=? i) && Z.testbit a (i - n).
Proof.
  intros Hn. destruct (Z.leb_spec n i).
  - rewrite Z.shiftl_spec_high by lia. done.
  - destruct (Z.leb_spec 0 i).
    + by rewrite Z.shiftl_spec_low by lia.
    + by rewrite Z.testbit_neg_r by lia.
Qed.

Lemma testbit_shiftr a n i : 0 <= i -> Z.testbit (Z.shiftr a n) i = Z.testbit a (i + n).
Proof. intros. by apply Z.shiftr_spec. Qed.

Lemma testbit_above w x i : in_width w x -> w <= i -> Z.testbit x i = false.
Proof.
  intros [H0 H1] Hi. destruct (Z.leb_spec 0 w).
  - rewrite <- (Z.mod_small x (2 ^ w)) by lia. apply Z.mod_pow2_bits_high. lia.
  - rewrite Z.pow_neg_r in H1 by lia. lia.
Qed.

Lemma in_width_bits w x : 0 <= w -> 0 <= x ->
  (forall i, w <= i -> Z.testbit x i = false) -> in_width w x.
Proof.
  intros Hw Hx Hbits. split; [done|]. destruct (Z.ltb_spec x (2 ^ w)) as [|Hge]; [done|].
  exfalso. assert (0 < x) by (pose proof (Z.pow_pos_nonneg 2 w); lia).
  assert (w <= Z.log2 x) as Hlog by (apply Z.log2_le_pow2; lia).
  specialize (Hbits _ Hlog). rewrite Z.bit_log2 in Hbits by lia. done.
Qed.

Lemma testbit_b2z b i : Z.testbit (b2z b) i = (i =? 0) && b.
Proof.
  destruct b; simpl; [|by rewrite Z.testbit_0_l, andb_false_r].
  rewrite andb_true_r. change 1 with (2 ^ 0). rewrite Z.pow2_bits_eqb by lia.
  apply Z.eqb_sym.
Qed.

Create Rewrite HintDb bits.
#[export] Hint Rewrite Z.land_spec Z.lor_spec Z.lxor_spec Z.ldiff_spec Z.testbit_0_l
  testbit_b2z : bits.
#[export] Hint Rewrite testbit_shiftl testbit_shiftr Z.testbit_ones Z.testbit_mod_pow2
  using lia : bits.

Ltac zcases :=
  repeat match goal with
  | |- context [?a <=? ?b] => destruct (Z.leb_spec a b); try lia
  | |- context [?a <? ?b] => destruct (Z.ltb_spec a b); try lia
  | |- context [?a =? ?b] => destruct (Z.eqb_spec a b); try lia
  end.

Ltac bitblast_tail :=
  simpl; rewrite ?andb_true_r, ?andb_false_r, ?orb_false_r, ?orb_true_r, ?andb_true_l; simpl;
  try done; try (f_equal; lia).

Ltac bitblast_step := progress (autorewrite with bits; zcases; cbn [andb orb negb xorb]).
Ltac bitblast :=
  apply Z.bits_inj'; let i := fresh "i" in let Hi := fresh "Hi" in intros i Hi;
  unfold wrap; repeat bitblast_step; bitblast_tail.

(** ** Fields of words *)

(** A field of [n] bits at bit [lo]. *)
Definition field (x lo n : Z) : Z := wrap n (Z.shiftr x lo).

Lemma field_range x lo n : 0 <= n -> in_width n (field x lo n).
Proof. intros. by apply wrap_range. Qed.

Lemma field_testbit x lo n i : 0 <= n -> 0 <= i ->
  Z.testbit (field x lo n) i = (i <? n) && Z.testbit x (i + lo).
Proof. intros. unfold field, wrap. by autorewrite with bits. Qed.

Lemma field_split x lo n k : 0 <= lo -> 0 <= n -> 0 <= k ->
  field x lo (n + k) = field x lo n + field x (lo + n) k * 2 ^ n.
Proof.
  intros. unfold field, wrap. rewrite Z.pow_add_r, Z.rem_mul_r by lia.
  rewrite <- Z.shiftr_div_pow2, Z.shiftr_shiftr by lia. lia.
Qed.

Lemma field_bit x n : field x n 1 = b2z (Z.testbit x n).
Proof.
  unfold field, wrap. rewrite Z.testbit_odd. change (2 ^ 1) with 2. rewrite Zmod_odd. done.
Qed.

Lemma lor_add a b n : 0 <= n -> in_width n a -> 0 <= b -> Z.lor a (b * 2 ^ n) = a + b * 2 ^ n.
Proof.
  intros Hn Ha Hb. rewrite <- Z.shiftl_mul_pow2 by done. symmetry. apply Z.add_nocarry_lor.
  bitblast. by rewrite (testbit_above n a i) by done.
Qed.

Lemma field_div_mod x lo n : 0 <= lo -> field x lo n = x / 2 ^ lo mod 2 ^ n.
Proof. intros. unfold field, wrap. by rewrite Z.shiftr_div_pow2. Qed.

(** [x & (1 << n) != 0] *)
Lemma flag_set x n : 0 <= n -> negb (Z.land x (2 ^ n) =? 0) = Z.testbit x n.
Proof.
  intros Hn. assert (Z.land x (2 ^ n) = if Z.testbit x n then 2 ^ n else 0) as ->.
  { apply Z.bits_inj'. intros i Hi. rewrite Z.land_spec, Z.pow2_bits_eqb by done.
    destruct (Z.eqb_spec n i) as [<-|Hne].
    - destruct (Z.testbit x n); [by rewrite Z.pow2_bits_true|by rewrite Z.testbit_0_l].
    - rewrite andb_false_r. destruct (Z.testbit x n); [|by rewrite Z.testbit_0_l].
      by rewrite Z.pow2_bits_false. }
  pose proof (Z.pow_pos_nonneg 2 n). destruct (Z.testbit x n); [|done].
  apply negb_true_iff, Z.eqb_neq. lia.
Qed.

(** [x & !0xfff] *)
Lemma page_base x : in_width 64 x -> Z.land x (not_w 64 0xfff) = x / 0x1000 * 0x1000.
Proof.
  intros Hx. change (not_w 64 0xfff) with (Z.shiftl (Z.ones 52) 12). change 0x1000 with (2 ^ 12).
  rewrite <- Z.shiftr_div_pow2, <- Z.shiftl_mul_pow2 by done. apply Z.bits_inj'. intros i Hi.
  rewrite Z.land_spec, !testbit_shiftl by done.
  destruct (Z.leb_spec 12 i); cbn [andb]; [|by rewrite andb_false_r]. rewrite testbit_shiftr by lia.
  rewrite Z.testbit_ones by lia. replace (0 <=? i - 12) with true by (symmetry; apply Z.leb_le; lia).
  replace (i - 12 + 12) with i by lia. cbn [andb].
  destruct (Z.ltb_spec (i - 12) 52); [by rewrite andb_true_r|]. rewrite andb_false_r. symmetry.
  apply (testbit_above 64); [done|lia].
Qed.

(** [zconst] evaluates sums and differences of numerals. *)
Ltac is_znum a := lazymatch a with Z0 => idtac | Zpos _ => idtac | Zneg _ => idtac end.
Ltac zconst :=
  repeat match goal with
  | |- context [Z.add ?a ?b] =>
      is_znum a; is_znum b; let c := eval compute in (Z.add a b) in change (Z.add a b) with c
  | |- context [Z.sub ?a ?b] =>
      is_znum a; is_znum b; let c := eval compute in (Z.sub a b) in change (Z.sub a b) with c
  end.

(** ** Strings *)

Lemma append_assoc (a b c : string) : (a +:+ b) +:+ c = a +:+ (b +:+ c).
Proof. induction a as [|x a IH]; [done|]. exact (f_equal (String x) IH). Qed.

Lemma append_nil (a : string) : a +:+ "" = a.
Proof. induction a as [|x a IH]; [done|]. exact (f_equal (String x) IH). Qed.

(** [list_cases] splits a goal [forall x, x ∈ l -> P x] over a concrete [l];
    [in_list] proves [x ∈ l]. *)
Ltac list_cases := apply Forall_forall; repeat (apply Forall_cons_2; [|]); try apply Forall_nil_2.
Ltac in_list := solve [repeat first [left | right]].

(** ** Tactics for panicking and stateful code *)
Ltac invert_ok :=
  repeat match goal with
  | H : obind _ _ = Ok _ |- _ => apply obind_ok in H as (? & ? & ?)
  | H : Ok _ = Ok _ |- _ => injection H as H; simplify_eq
  | H : Panic _ = Ok _ |- _ => discriminate H
  | H : (let '(_, _) := ?p in _) = Ok _ |- _ => destruct p
  | H : oassert _ _ = Ok _ |- _ => apply oassert_ok in H
  end.

Ltac simpl_m :=
  unfold massert, oassert, modify, gets, ret, lift, mpanic, bind; simpl.

(** A name that is not in a concrete list. *)
Ltac notin := rewrite !not_elem_of_cons; repeat split; (done || apply not_elem_of_nil).
