(* ===== verification/External.v ===== *)
(** * The code outside the repository

    What the source calls but does not define: the crates it depends on and
    the constants of the x86-64 architecture.  Each crate is a class of
    operations together with the documented behaviour the source relies on;
    every definition that uses a crate takes the class as a parameter, and
    the module [Reference] gives one concrete implementation of each. *)

From S2P Require Import Prelude.

(** ** Constants of the architecture, under the names the x86 crate gives them *)

Definition BASE_PAGE_SHIFT : Z := 12.
Definition BASE_PAGE_SIZE : Z := 0x1000.
Definition LARGE_PAGE_SIZE : Z := 0x20_0000.
Definition HUGE_PAGE_SIZE : Z := 0x4000_0000.
Definition PML4_SLOT_SIZE : Z := 0x80_0000_0000.

Definition FLAGS_CF : Z := 0x1.
Definition FLAGS_A1 : Z := 0x2.
Definition FLAGS_ZF : Z := 0x40.

Definition CR0_PROTECTED_MODE : Z := 0x1.
Definition CR0_EXTENSION_TYPE : Z := 0x10.
Definition CR0_ENABLE_PAGING : Z := 0x8000_0000.
Definition CR4_ENABLE_VMX : Z := 0x2000.
Definition CR4_ENABLE_OS_XSAVE : Z := 0x4_0000.

Definition IA32_APIC_BASE : Z := 0x1b.
Definition IA32_FEATURE_CONTROL : Z := 0x3a.
Definition IA32_MTRRCAP : Z := 0xfe.
Definition IA32_SYSENTER_CS : Z := 0x174.
Definition IA32_SYSENTER_ESP : Z := 0x175.
Definition IA32_SYSENTER_EIP : Z := 0x176.
Definition IA32_MTRR_PHYSBASE (n : Z) : Z := 0x200 + 2 * n.
Definition IA32_MTRR_PHYSMASK (n : Z) : Z := 0x201 + 2 * n.
Definition IA32_MTRR_FIX64K_00000 : Z := 0x250.
Definition IA32_MTRR_FIX16K_80000 : Z := 0x258.
Definition IA32_MTRR_FIX16K_A0000 : Z := 0x259.
Definition IA32_MTRR_FIX4K_C0000 : Z := 0x268.
Definition IA32_MTRR_FIX4K_C8000 : Z := 0x269.
Definition IA32_MTRR_FIX4K_D0000 : Z := 0x26a.
Definition IA32_MTRR_FIX4K_D8000 : Z := 0x26b.
Definition IA32_MTRR_FIX4K_E0000 : Z := 0x26c.
Definition IA32_MTRR_FIX4K_E8000 : Z := 0x26d.
Definition IA32_MTRR_FIX4K_F0000 : Z := 0x26e.
Definition IA32_MTRR_FIX4K_F8000 : Z := 0x26f.
Definition IA32_PAT : Z := 0x277.
Definition IA32_MTRR_DEF_TYPE : Z := 0x2ff.
Definition IA32_VMX_BASIC : Z := 0x480.
Definition IA32_VMX_PINBASED_CTLS : Z := 0x481.
Definition IA32_VMX_PROCBASED_CTLS : Z := 0x482.
Definition IA32_VMX_EXIT_CTLS : Z := 0x483.
Definition IA32_VMX_ENTRY_CTLS : Z := 0x484.
Definition IA32_VMX_CR0_FIXED0 : Z := 0x486.
Definition IA32_VMX_CR0_FIXED1 : Z := 0x487.
Definition IA32_VMX_CR4_FIXED0 : Z := 0x488.
Definition IA32_VMX_CR4_FIXED1 : Z := 0x489.
Definition IA32_VMX_PROCBASED_CTLS2 : Z := 0x48b.
Definition IA32_VMX_TRUE_PINBASED_CTLS : Z := 0x48d.
Definition IA32_VMX_TRUE_PROCBASED_CTLS : Z := 0x48e.
Definition IA32_VMX_TRUE_EXIT_CTLS : Z := 0x48f.
Definition IA32_VMX_TRUE_ENTRY_CTLS : Z := 0x490.
Definition IA32_EFER : Z := 0xc000_0080.
Definition IA32_FS_BASE : Z := 0xc000_0100.
Definition IA32_GS_BASE : Z := 0xc000_0101.

(** The four fields of VMX controls the source asks for. *)
Definition EXIT_HOST_ADDRESS_SPACE_SIZE : Z := 0x200.
Definition ENTRY_IA32E_MODE_GUEST : Z := 0x200.
Definition PRIMARY_USE_MSR_BITMAPS : Z := 0x1000_0000.
Definition PRIMARY_SECONDARY_CONTROLS : Z := 0x8000_0000.
Definition SECONDARY_ENABLE_EPT : Z := 0x2.
Definition SECONDARY_ENABLE_RDTSCP : Z := 0x8.
Definition SECONDARY_UNRESTRICTED_GUEST : Z := 0x80.
Definition SECONDARY_ENABLE_INVPCID : Z := 0x1000.
Definition SECONDARY_ENABLE_XSAVES_XRSTORS : Z := 0x10_0000.
Definition SECONDARY_ENABLE_USER_WAIT_PAUSE : Z := 0x400_0000.

(** ** The [bitfield] crate

    The accessors that [bitfield!] generates for the field [hi, lo] (a range
    of bits of the integer) and for a one-bit field. *)
Class BitfieldMacro : Type := {
  bf_get : Z -> Z -> Z -> Z;
  bf_set : Z -> Z -> Z -> Z -> Z;
  bf_get_bit : Z -> Z -> bool;
  bf_set_bit : Z -> Z -> bool -> Z;
  bf_get_spec : forall hi lo x, 0 <= lo <= hi -> 0 <= x ->
    bf_get hi lo x = wrap (hi - lo + 1) (Z.shiftr x lo);
  bf_set_nonneg : forall hi lo x v, 0 <= lo <= hi -> 0 <= x -> 0 <= v ->
    0 <= bf_set hi lo x v;
  bf_set_testbit : forall hi lo x v i, 0 <= lo <= hi -> 0 <= x -> 0 <= v -> 0 <= i ->
    Z.testbit (bf_set hi lo x v) i =
      if (lo <=? i) && (i <=? hi) then Z.testbit v (i - lo) else Z.testbit x i;
  bf_get_bit_spec : forall n x, 0 <= n -> 0 <= x -> bf_get_bit n x = Z.testbit x n;
  bf_set_bit_nonneg : forall n x b, 0 <= n -> 0 <= x -> 0 <= bf_set_bit n x b;
  bf_set_bit_testbit : forall n x b i, 0 <= n -> 0 <= x -> 0 <= i ->
    Z.testbit (bf_set_bit n x b) i = if i =? n then b else Z.testbit x i;
}.

(** ** The [bit_field] crate: [x.get_bit(n)] and [x.get_bits(lo..=hi)] *)
Class BitFieldTrait : Type := {
  get_bit : Z -> Z -> bool;
  get_bits : Z -> Z -> Z -> Z;
  get_bit_spec : forall x n, 0 <= n -> 0 <= x -> get_bit x n = Z.testbit x n;
  get_bits_spec : forall x lo hi, 0 <= lo <= hi -> 0 <= x ->
    get_bits x lo hi = wrap (hi - lo + 1) (Z.shiftr x lo);
}.

(** ** The [bitvec] crate: [BitArray]s of a fixed length *)
Class BitArray (B : Type) : Type := {
  ba_iter : B -> list bool;
  ba_get : B -> nat -> option bool;
  ba_set : B -> nat -> bool -> B;
  ba_zero : nat -> B;
  ba_get_spec : forall b i, ba_get b i = ba_iter b !! i;
  ba_set_spec : forall b i v, (i < length (ba_iter b))%nat ->
    ba_iter (ba_set b i v) = <[i:=v]> (ba_iter b);
  ba_zero_spec : forall n, ba_iter (ba_zero n) = replicate n false;
}.

(** ** The [x86] crate: segment selectors *)
Class X86Segmentation : Type := {
  sel_index : Z -> Z;
  sel_is_ldt : Z -> bool;
  sel_new : Z -> Z -> Z;
  sel_index_spec : forall s, in_width 16 s -> sel_index s = Z.shiftr s 3;
  sel_is_ldt_spec : forall s, in_width 16 s -> sel_is_ldt s = Z.testbit s 2;
  sel_new_spec : forall i rpl, 0 <= i < 2 ^ 13 -> 0 <= rpl < 4 ->
    sel_new i rpl = i * 8 + rpl;
}.

(** The bits [Xcr0::from_bits] knows: it returns [None] when any other bit is set. *)
Class X86Xcr0 : Type := { xcr0_all : Z; xcr0_all_nonneg : 0 <= xcr0_all }.

(** The flags the crate names in [Cr0]; the complement [!] of a set of flags is
    taken among them. *)
Class X86Cr0 : Type := {
  cr0_all : Z;
  cr0_all_width : in_width 64 cr0_all;
}.

(** ** What the accessors compute *)
Section Bitfields.
Context {BF : BitfieldMacro}.

Lemma bf_get_nonneg hi lo x : 0 <= lo <= hi -> 0 <= x -> 0 <= bf_get hi lo x.
Proof. intros. rewrite bf_get_spec by lia. apply wrap_range. lia. Qed.

Lemma bf_get_testbit hi lo x i : 0 <= lo <= hi -> 0 <= x -> 0 <= i ->
  Z.testbit (bf_get hi lo x) i = (i <=? hi - lo) && Z.testbit x (i + lo).
Proof.
  intros. rewrite bf_get_spec by lia. unfold wrap. autorewrite with bits. zcases; done.
Qed.

Lemma bf_get_set_same hi lo x v : 0 <= lo <= hi -> 0 <= x -> 0 <= v ->
  bf_get hi lo (bf_set hi lo x v) = wrap (hi - lo + 1) v.
Proof.
  intros. apply Z.bits_inj'. intros i Hi. unfold wrap.
  rewrite bf_get_testbit, bf_set_testbit, Z.testbit_mod_pow2
    by (try apply bf_set_nonneg; lia).
  zcases; bitblast_tail.
Qed.

Lemma bf_get_set_other hi lo hi' lo' x v :
  0 <= lo <= hi -> 0 <= lo' <= hi' -> 0 <= x -> 0 <= v -> hi < lo' \/ hi' < lo ->
  bf_get hi lo (bf_set hi' lo' x v) = bf_get hi lo x.
Proof.
  intros. apply Z.bits_inj'. intros i Hi.
  rewrite !bf_get_testbit by (try apply bf_set_nonneg; lia).
  rewrite bf_set_testbit by lia. zcases; done.
Qed.

Lemma bf_get_set_bit hi lo n x b :
  0 <= lo <= hi -> 0 <= n -> 0 <= x -> n < lo \/ hi < n ->
  bf_get hi lo (bf_set_bit n x b) = bf_get hi lo x.
Proof.
  intros. apply Z.bits_inj'. intros i Hi.
  rewrite !bf_get_testbit by (try apply bf_set_bit_nonneg; lia).
  rewrite bf_set_bit_testbit by lia. zcases; done.
Qed.

Lemma bf_bit_set_bit_same n x b : 0 <= n -> 0 <= x ->
  bf_get_bit n (bf_set_bit n x b) = b.
Proof.
  intros. rewrite bf_get_bit_spec by (try apply bf_set_bit_nonneg; lia).
  rewrite bf_set_bit_testbit, Z.eqb_refl by lia. done.
Qed.

Lemma bf_bit_set_bit_other n m x b : 0 <= n -> 0 <= m -> 0 <= x -> n <> m ->
  bf_get_bit n (bf_set_bit m x b) = bf_get_bit n x.
Proof.
  intros. rewrite !bf_get_bit_spec by (try apply bf_set_bit_nonneg; lia).
  rewrite bf_set_bit_testbit by lia. zcases; done.
Qed.

Lemma bf_bit_set n hi lo x v : 0 <= n -> 0 <= lo <= hi -> 0 <= x -> 0 <= v ->
  n < lo \/ hi < n -> bf_get_bit n (bf_set hi lo x v) = bf_get_bit n x.
Proof.
  intros. rewrite !bf_get_bit_spec by (try apply bf_set_nonneg; lia).
  rewrite bf_set_testbit by lia. zcases; done.
Qed.

Lemma bf_get_zero hi lo : 0 <= lo <= hi -> bf_get hi lo 0 = 0.
Proof. intros. rewrite bf_get_spec, Z.shiftr_0_l by lia. done. Qed.

Lemma bf_bit_zero n : 0 <= n -> bf_get_bit n 0 = false.
Proof. intros. by rewrite bf_get_bit_spec, Z.testbit_0_l by lia. Qed.
(** An architectural field of an entry built by setters. *)
Lemma field_bf_set hi lo x v a n : 0 <= lo <= hi -> 0 <= x -> 0 <= v -> lo <= a -> 0 <= n ->
  a + n <= hi + 1 -> field (bf_set hi lo x v) a n = field v (a - lo) n.
Proof.
  intros. apply Z.bits_inj'. intros i Hi.
  rewrite !field_testbit, bf_set_testbit by lia. zcases. cbn [andb]. f_equal. lia.
Qed.
End Bitfields.

(** [bf_nonneg] shows that an entry built by setters is non-negative, [bf]
    evaluates the getters of such an entry. *)
Ltac bf_nonneg :=
  repeat first [ lia | apply bf_set_nonneg | apply bf_set_bit_nonneg | apply bf_get_nonneg ].

(** [entry_bits] evaluates one bit of such an entry. *)
Ltac entry_bits :=
  repeat first [ rewrite bf_set_testbit by bf_nonneg | rewrite bf_set_bit_testbit by bf_nonneg ];
  rewrite ?Z.testbit_0_l; reflexivity.

Create Rewrite HintDb bf.
#[export] Hint Rewrite @bf_get_set_same @bf_get_set_other @bf_get_set_bit @bf_bit_set_bit_same
  @bf_bit_set_bit_other @bf_bit_set @bf_get_zero @bf_bit_zero using (solve [bf_nonneg]) : bf.

(** ** One implementation of each crate *)
Module Reference.
#[export, refine] Instance bitfield_macro : BitfieldMacro := {
  bf_get hi lo x := Z.land (Z.shiftr x lo) (Z.ones (hi - lo + 1));
  bf_set hi lo x v :=
    Z.lor (Z.ldiff x (Z.shiftl (Z.ones (hi - lo + 1)) lo))
          (Z.shiftl (Z.land v (Z.ones (hi - lo + 1))) lo);
  bf_get_bit n x := Z.testbit x n;
  bf_set_bit n x b := Z.lor (Z.ldiff x (Z.shiftl 1 n)) (Z.shiftl (b2z b) n)
}.
Proof.
  - intros. unfold wrap. by rewrite Z.land_ones by lia.
  - intros. apply Z.lor_nonneg. rewrite Z.ldiff_nonneg, Z.shiftl_nonneg, Z.land_nonneg. lia.
  - intros. autorewrite with bits. zcases; bitblast_tail.
  - done.
  - intros. apply Z.lor_nonneg. rewrite Z.ldiff_nonneg, Z.shiftl_nonneg. destruct b; simpl; lia.
  - intros. change 1 with (b2z true). autorewrite with bits. zcases; bitblast_tail.
Defined.

#[export, refine] Instance bit_field_trait : BitFieldTrait := {
  get_bit x n := Z.testbit x n;
  get_bits x lo hi := Z.land (Z.shiftr x lo) (Z.ones (hi - lo + 1))
}.
Proof.
  - done.
  - intros. unfold wrap. by rewrite Z.land_ones by lia.
Defined.

#[export, refine] Instance bit_array : BitArray (list bool) := {
  ba_iter b := b;
  ba_get b i := b !! i;
  ba_set b i v := <[i:=v]> b;
  ba_zero n := replicate n false
}.
Proof.
  - done.
  - done.
  - done.
Defined.

#[export, refine] Instance x86_segmentation : X86Segmentation := {
  sel_index s := Z.shiftr s 3;
  sel_is_ldt s := Z.testbit s 2;
  sel_new i rpl := i * 8 + rpl
}.
Proof.
  - done.
  - done.
  - done.
Defined.

#[export, refine] Instance x86_xcr0 : X86Xcr0 := { xcr0_all := 0x2ff }.
Proof. done. Defined.

#[export, refine] Instance x86_cr0 : X86Cr0 := { cr0_all := 0xe005_003f }.
Proof. done. Defined.
End Reference.
