(* ===== verification/Machine.v ===== *)
(** * The processor (hvcore x86_instructions.rs, intel/vmx.rs and intel/guest.rs wrappers)

    The part of one logical processor the source touches: system registers,
    model-specific registers, memory reads of descriptor tables, memory-mapped
    APIC registers, and the state of VMX operation with its VMCSs.  Each
    wrapper function of the source is an operation of the monad
    [M Machine]; an instruction that would raise a fault panics, since the
    host IDT turns every exception into a panic. *)

From S2P Require Import Prelude External.

Record CpuidResult : Type := mk_cpuid { eax : Z; ebx : Z; ecx : Z; edx : Z }.

(** System registers, and the visible parts of the segment registers. *)
Inductive SysReg : Set :=
  | CR0 | CR2 | CR3 | CR4 | XCR0 | DR0 | DR1 | DR2 | DR3 | DR6 | DR7 | ES | CS | SS | DS | FS
    | GS | TR | LDTR | GDTR_BASE | GDTR_LIMIT | IDTR_BASE | IDTR_LIMIT.

Definition SysReg_index (f : SysReg) : nat :=
  match f with
  | CR0 => 0 | CR2 => 1 | CR3 => 2 | CR4 => 3 | XCR0 => 4 | DR0 => 5 | DR1 => 6 | DR2 => 7
    | DR3 => 8 | DR6 => 9 | DR7 => 10 | ES => 11 | CS => 12 | SS => 13 | DS => 14 | FS => 15
    | GS => 16 | TR => 17 | LDTR => 18 | GDTR_BASE => 19 | GDTR_LIMIT => 20 | IDTR_BASE => 21
    | IDTR_LIMIT => 22
  end.

Definition SysReg_all : list SysReg :=
  [CR0; CR2; CR3; CR4; XCR0; DR0; DR1; DR2; DR3; DR6; DR7; ES; CS; SS; DS; FS; GS; TR; LDTR;
    GDTR_BASE; GDTR_LIMIT; IDTR_BASE; IDTR_LIMIT].

#[export] Instance SysReg_eq_dec : EqDecision SysReg.
Proof. apply (by_index_dec SysReg_index SysReg_all). by intros []. Defined.

(** The VMCS fields the source names ([vmcs::guest::*], [host], [control], [ro]). *)
Inductive VmcsField : Set :=
  | guest_ES_SELECTOR | guest_CS_SELECTOR | guest_SS_SELECTOR | guest_DS_SELECTOR
    | guest_FS_SELECTOR | guest_GS_SELECTOR | guest_LDTR_SELECTOR | guest_TR_SELECTOR
    | guest_ES_BASE | guest_CS_BASE | guest_SS_BASE | guest_DS_BASE | guest_FS_BASE
    | guest_GS_BASE | guest_LDTR_BASE | guest_TR_BASE | guest_ES_LIMIT | guest_CS_LIMIT
    | guest_SS_LIMIT | guest_DS_LIMIT | guest_FS_LIMIT | guest_GS_LIMIT | guest_LDTR_LIMIT
    | guest_TR_LIMIT | guest_ES_ACCESS_RIGHTS | guest_CS_ACCESS_RIGHTS | guest_SS_ACCESS_RIGHTS
    | guest_DS_ACCESS_RIGHTS | guest_FS_ACCESS_RIGHTS | guest_GS_ACCESS_RIGHTS
    | guest_LDTR_ACCESS_RIGHTS | guest_TR_ACCESS_RIGHTS | guest_GDTR_BASE | guest_GDTR_LIMIT
    | guest_IDTR_BASE | guest_IDTR_LIMIT | guest_IA32_SYSENTER_CS | guest_IA32_SYSENTER_ESP
    | guest_IA32_SYSENTER_EIP | guest_IA32_EFER_FULL | guest_LINK_PTR_FULL
    | guest_ACTIVITY_STATE | guest_CR0 | guest_CR3 | guest_CR4 | guest_RSP | guest_RIP
    | guest_RFLAGS | host_ES_SELECTOR | host_CS_SELECTOR | host_SS_SELECTOR | host_DS_SELECTOR
    | host_FS_SELECTOR | host_GS_SELECTOR | host_TR_SELECTOR | host_CR0 | host_CR3 | host_CR4
    | host_FS_BASE | host_GS_BASE | host_TR_BASE | host_GDTR_BASE | host_IDTR_BASE | host_RSP
    | host_RIP | control_VMEXIT_CONTROLS | control_VMENTRY_CONTROLS
    | control_PINBASED_EXEC_CONTROLS | control_PRIMARY_PROCBASED_EXEC_CONTROLS
    | control_SECONDARY_PROCBASED_EXEC_CONTROLS | control_MSR_BITMAPS_ADDR_FULL
    | control_EPTP_FULL | control_CR0_READ_SHADOW | control_CR4_READ_SHADOW | ro_EXIT_REASON
    | ro_EXIT_QUALIFICATION | ro_VMEXIT_INSTRUCTION_LEN | ro_VM_INSTRUCTION_ERROR.

Definition VmcsField_index (f : VmcsField) : nat :=
  match f with
  | guest_ES_SELECTOR => 0 | guest_CS_SELECTOR => 1 | guest_SS_SELECTOR => 2
    | guest_DS_SELECTOR => 3 | guest_FS_SELECTOR => 4 | guest_GS_SELECTOR => 5
    | guest_LDTR_SELECTOR => 6 | guest_TR_SELECTOR => 7 | guest_ES_BASE => 8
    | guest_CS_BASE => 9 | guest_SS_BASE => 10 | guest_DS_BASE => 11 | guest_FS_BASE => 12
    | guest_GS_BASE => 13 | guest_LDTR_BASE => 14 | guest_TR_BASE => 15 | guest_ES_LIMIT => 16
    | guest_CS_LIMIT => 17 | guest_SS_LIMIT => 18 | guest_DS_LIMIT => 19 | guest_FS_LIMIT => 20
    | guest_GS_LIMIT => 21 | guest_LDTR_LIMIT => 22 | guest_TR_LIMIT => 23
    | guest_ES_ACCESS_RIGHTS => 24 | guest_CS_ACCESS_RIGHTS => 25 | guest_SS_ACCESS_RIGHTS => 26
    | guest_DS_ACCESS_RIGHTS => 27 | guest_FS_ACCESS_RIGHTS => 28 | guest_GS_ACCESS_RIGHTS => 29
    | guest_LDTR_ACCESS_RIGHTS => 30 | guest_TR_ACCESS_RIGHTS => 31 | guest_GDTR_BASE => 32
    | guest_GDTR_LIMIT => 33 | guest_IDTR_BASE => 34 | guest_IDTR_LIMIT => 35
    | guest_IA32_SYSENTER_CS => 36 | guest_IA32_SYSENTER_ESP => 37
    | guest_IA32_SYSENTER_EIP => 38 | guest_IA32_EFER_FULL => 39 | guest_LINK_PTR_FULL => 40
    | guest_ACTIVITY_STATE => 41 | guest_CR0 => 42 | guest_CR3 => 43 | guest_CR4 => 44
    | guest_RSP => 45 | guest_RIP => 46 | guest_RFLAGS => 47 | host_ES_SELECTOR => 48
    | host_CS_SELECTOR => 49 | host_SS_SELECTOR => 50 | host_DS_SELECTOR => 51
    | host_FS_SELECTOR => 52 | host_GS_SELECTOR => 53 | host_TR_SELECTOR => 54 | host_CR0 => 55
    | host_CR3 => 56 | host_CR4 => 57 | host_FS_BASE => 58 | host_GS_BASE => 59
    | host_TR_BASE => 60 | host_GDTR_BASE => 61 | host_IDTR_BASE => 62 | host_RSP => 63
    | host_RIP => 64 | control_VMEXIT_CONTROLS => 65 | control_VMENTRY_CONTROLS => 66
    | control_PINBASED_EXEC_CONTROLS => 67 | control_PRIMARY_PROCBASED_EXEC_CONTROLS => 68
    | control_SECONDARY_PROCBASED_EXEC_CONTROLS => 69 | control_MSR_BITMAPS_ADDR_FULL => 70
    | control_EPTP_FULL => 71 | control_CR0_READ_SHADOW => 72 | control_CR4_READ_SHADOW => 73
    | ro_EXIT_REASON => 74 | ro_EXIT_QUALIFICATION => 75 | ro_VMEXIT_INSTRUCTION_LEN => 76
    | ro_VM_INSTRUCTION_ERROR => 77
  end.

Definition VmcsField_all : list VmcsField :=
  [guest_ES_SELECTOR; guest_CS_SELECTOR; guest_SS_SELECTOR; guest_DS_SELECTOR;
    guest_FS_SELECTOR; guest_GS_SELECTOR; guest_LDTR_SELECTOR; guest_TR_SELECTOR; guest_ES_BASE;
    guest_CS_BASE; guest_SS_BASE; guest_DS_BASE; guest_FS_BASE; guest_GS_BASE; guest_LDTR_BASE;
    guest_TR_BASE; guest_ES_LIMIT; guest_CS_LIMIT; guest_SS_LIMIT; guest_DS_LIMIT;
    guest_FS_LIMIT; guest_GS_LIMIT; guest_LDTR_LIMIT; guest_TR_LIMIT; guest_ES_ACCESS_RIGHTS;
    guest_CS_ACCESS_RIGHTS; guest_SS_ACCESS_RIGHTS; guest_DS_ACCESS_RIGHTS;
    guest_FS_ACCESS_RIGHTS; guest_GS_ACCESS_RIGHTS; guest_LDTR_ACCESS_RIGHTS;
    guest_TR_ACCESS_RIGHTS; guest_GDTR_BASE; guest_GDTR_LIMIT; guest_IDTR_BASE;
    guest_IDTR_LIMIT; guest_IA32_SYSENTER_CS; guest_IA32_SYSENTER_ESP; guest_IA32_SYSENTER_EIP;
    guest_IA32_EFER_FULL; guest_LINK_PTR_FULL; guest_ACTIVITY_STATE; guest_CR0; guest_CR3;
    guest_CR4; guest_RSP; guest_RIP; guest_RFLAGS; host_ES_SELECTOR; host_CS_SELECTOR;
    host_SS_SELECTOR; host_DS_SELECTOR; host_FS_SELECTOR; host_GS_SELECTOR; host_TR_SELECTOR;
    host_CR0; host_CR3; host_CR4; host_FS_BASE; host_GS_BASE; host_TR_BASE; host_GDTR_BASE;
    host_IDTR_BASE; host_RSP; host_RIP; control_VMEXIT_CONTROLS; control_VMENTRY_CONTROLS;
    control_PINBASED_EXEC_CONTROLS; control_PRIMARY_PROCBASED_EXEC_CONTROLS;
    control_SECONDARY_PROCBASED_EXEC_CONTROLS; control_MSR_BITMAPS_ADDR_FULL; control_EPTP_FULL;
    control_CR0_READ_SHADOW; control_CR4_READ_SHADOW; ro_EXIT_REASON; ro_EXIT_QUALIFICATION;
    ro_VMEXIT_INSTRUCTION_LEN; ro_VM_INSTRUCTION_ERROR].

#[export] Instance VmcsField_eq_dec : EqDecision VmcsField.
Proof. apply (by_index_dec VmcsField_index VmcsField_all). by intros []. Defined.

(** VMX operation of the processor: off, or root operation entered with a
    VMXON region and at most one current VMCS, named by physical address. *)
Inductive VmxMode : Type :=
  | VmxOff
  | VmxRoot (vmxon_region : Z) (current : option Z).

Record Machine : Type := mk_machine {
  sys : SysReg -> Z;
  msrs : gmap Z Z;
  mem : Z -> Z;                        (* 64-bit loads, used on descriptor tables *)
  mmio : Z -> Z;                       (* 32-bit memory-mapped APIC registers *)
  vmx : VmxMode;
  vmcss : gmap Z (VmcsField -> Z);     (* the data of each VMCS region *)
  hw_cpuid : Z -> Z -> CpuidResult;    (* CPUID of a leaf and a sub-leaf *)
  hw_lsl : Z -> Z * Z;                 (* LSL of a selector: limit and RFLAGS *)
  hw_lar : Z -> Z * Z;                 (* LAR of a selector: rights and RFLAGS *)
}.

Definition set_sys (f : (SysReg -> Z) -> SysReg -> Z) (m : Machine) : Machine :=
  mk_machine (f (sys m)) (msrs m) (mem m) (mmio m) (vmx m) (vmcss m)
    (hw_cpuid m) (hw_lsl m) (hw_lar m).
Definition set_msrs (f : gmap Z Z -> gmap Z Z) (m : Machine) : Machine :=
  mk_machine (sys m) (f (msrs m)) (mem m) (mmio m) (vmx m) (vmcss m)
    (hw_cpuid m) (hw_lsl m) (hw_lar m).
Definition set_mmio (f : (Z -> Z) -> Z -> Z) (m : Machine) : Machine :=
  mk_machine (sys m) (msrs m) (mem m) (f (mmio m)) (vmx m) (vmcss m)
    (hw_cpuid m) (hw_lsl m) (hw_lar m).
Definition set_vmx (v : VmxMode) (m : Machine) : Machine :=
  mk_machine (sys m) (msrs m) (mem m) (mmio m) v (vmcss m)
    (hw_cpuid m) (hw_lsl m) (hw_lar m).
Definition set_vmcss (f : gmap Z (VmcsField -> Z) -> gmap Z (VmcsField -> Z)) (m : Machine) : Machine :=
  mk_machine (sys m) (msrs m) (mem m) (mmio m) (vmx m) (f (vmcss m))
    (hw_cpuid m) (hw_lsl m) (hw_lar m).

(** ** x86_instructions.rs *)

(** RDMSR and WRMSR of an MSR the processor does not have raise #GP(0). *)
Definition rdmsr (msr : Z) : M Machine Z := fun m =>
  match msrs m !! msr with
  | Some v => Ok (v, m)
  | None => Panic "#GP(0)"
  end.

Definition wrmsr (msr value : Z) : M Machine unit := fun m =>
  match msrs m !! msr with
  | Some _ => Ok (tt, set_msrs <[msr := value]> m)
  | None => Panic "#GP(0)"
  end.

Definition sys_read (r : SysReg) : M Machine Z := gets (fun m => sys m r).
Definition sys_write (r : SysReg) (v : Z) : M Machine unit := modify (set_sys (fset r v)).

Definition cr0 : M Machine Z := sys_read CR0.
Definition cr0_write (val : Z) : M Machine unit := sys_write CR0 val.
Definition cr2 : M Machine Z := sys_read CR2.
Definition write_cr2 (val : Z) : M Machine unit := sys_write CR2 val.
Definition cr3 : M Machine Z := sys_read CR3.
Definition cr3_write (val : Z) : M Machine unit := sys_write CR3 val.
Definition cr4 : M Machine Z := sys_read CR4.
Definition cr4_write (val : Z) : M Machine unit := sys_write CR4 val.
Definition tr : M Machine Z := sys_read TR.
Definition ldtr : M Machine Z := sys_read LDTR.

Record DescriptorTablePointer : Type := mk_dtp { dtp_base : Z; dtp_limit : Z }.

Definition sgdt : M Machine DescriptorTablePointer :=
  gets (fun m => mk_dtp (sys m GDTR_BASE) (sys m GDTR_LIMIT)).
Definition sidt : M Machine DescriptorTablePointer :=
  gets (fun m => mk_dtp (sys m IDTR_BASE) (sys m IDTR_LIMIT)).
Definition lgdt (gdtr : DescriptorTablePointer) : M Machine unit :=
  modify (set_sys (assign [(GDTR_BASE, dtp_base gdtr); (GDTR_LIMIT, dtp_limit gdtr)])).
Definition lidt (idtr : DescriptorTablePointer) : M Machine unit :=
  modify (set_sys (assign [(IDTR_BASE, dtp_base idtr); (IDTR_LIMIT, dtp_limit idtr)])).

(** LSL and LAR report a valid selector in ZF. *)
Definition lsl (selector : Z) : M Machine Z := fun m =>
  let '(limit, flags) := hw_lsl m selector in
  Ok (if Z.land flags FLAGS_ZF =? FLAGS_ZF then wrap 32 limit else 0, m).
Definition lar (selector : Z) : M Machine Z := fun m =>
  let '(access_rights, flags) := hw_lar m selector in
  Ok (if Z.land flags FLAGS_ZF =? FLAGS_ZF then wrap 32 access_rights else 0, m).

Definition xsetbv (xcr val : Z) : M Machine unit :=
  massert (xcr =? 0) "xcr == 0" ;;!
  sys_write XCR0 val.

Definition cpuid (leaf sub_leaf : Z) : M Machine CpuidResult :=
  gets (fun m => hw_cpuid m leaf sub_leaf).

(** ** VMX instructions

    An instruction executed outside its mode fails; the wrappers unwrap the
    failure. *)

(** The bits of CR0 and CR4 that VMX operation fixes. *)
Definition fixed_bits_ok (fixed0 fixed1 cr : Z) : bool :=
  (Z.ldiff fixed0 cr =? 0) && (Z.ldiff cr fixed1 =? 0).

Definition vmx_fixed_ok (m : Machine) : bool :=
  let msr i := default 0 (msrs m !! i) in
  fixed_bits_ok (msr IA32_VMX_CR0_FIXED0) (msr IA32_VMX_CR0_FIXED1) (sys m CR0) &&
  fixed_bits_ok (msr IA32_VMX_CR4_FIXED0) (msr IA32_VMX_CR4_FIXED1) (sys m CR4).

(** VMXON needs CR4.VMXE, the fixed bits, IA32_FEATURE_CONTROL locked with
    VMXON allowed outside SMX, and a region with the right revision. *)
Definition vmxon (pa revision_id : Z) : M Machine unit := fun m =>
  match vmx m with
  | VmxOff =>
      if (Z.land (sys m CR4) CR4_ENABLE_VMX =? CR4_ENABLE_VMX) && vmx_fixed_ok m &&
         (Z.land (default 0 (msrs m !! IA32_FEATURE_CONTROL)) 5 =? 5) &&
         (revision_id =? wrap 32 (default 0 (msrs m !! IA32_VMX_BASIC)))
      then Ok (tt, set_vmx (VmxRoot pa None) m)
      else Panic "vmxon"
  | VmxRoot _ _ => Panic "vmxon"
  end.

Definition vmxoff : M Machine unit := fun m =>
  match vmx m with
  | VmxOff => Panic "vmxoff"
  | VmxRoot _ _ => Ok (tt, set_vmx VmxOff m)
  end.

(** The data of a region; a region that was never written is zeroed. *)
Definition vmcs_data (m : Machine) (pa : Z) : VmcsField -> Z :=
  default (fun _ => 0) (vmcss m !! pa).

(** VMCLEAR writes the data of the VMCS to its region and makes it not
    current. *)
Definition vmclear (pa : Z) : M Machine unit := fun m =>
  match vmx m with
  | VmxOff => Panic "vmclear"
  | VmxRoot r cur =>
      Ok (tt, set_vmx (VmxRoot r (if decide (cur = Some pa) then None else cur))
                (set_vmcss <[pa := vmcs_data m pa]> m))
  end.

(** VMPTRLD checks the revision identifier of the region it is given. *)
Definition vmptrld (pa revision_id : Z) : M Machine unit := fun m =>
  match vmx m with
  | VmxOff => Panic "vmptrld"
  | VmxRoot r _ =>
      if revision_id =? wrap 32 (default 0 (msrs m !! IA32_VMX_BASIC))
      then Ok (tt, set_vmx (VmxRoot r (Some pa)) m)
      else Panic "vmptrld"
  end.

Definition current_vmcs (m : Machine) : option Z :=
  match vmx m with
  | VmxOff => None
  | VmxRoot _ cur => cur
  end.

Definition vmread (encoding : VmcsField) : M Machine Z := fun m =>
  match current_vmcs m with
  | Some pa => Ok (vmcs_data m pa encoding, m)
  | None => Panic "vmread"
  end.

Definition vmwrite (encoding : VmcsField) (value : Z) : M Machine unit := fun m =>
  match current_vmcs m with
  | Some pa => Ok (tt, set_vmcss <[pa := fset encoding value (vmcs_data m pa)]> m)
  | None => Panic "vmwrite"
  end.

(** ** Well-formedness and lemmas *)

(** Register contents have the width of their registers. *)
Record machine_wf (m : Machine) : Prop := {
  wf_sys : forall r, in_width 64 (sys m r);
  wf_msrs : forall i v, msrs m !! i = Some v -> in_width 64 v;
  wf_mem : forall a, in_width 64 (mem m a);
  wf_mmio : forall a, in_width 32 (mmio m a);
  wf_cpuid : forall leaf sub, let r := hw_cpuid m leaf sub in
    in_width 32 (eax r) /\ in_width 32 (ebx r) /\ in_width 32 (ecx r) /\ in_width 32 (edx r);
}.

Lemma rdmsr_some msr v m : msrs m !! msr = Some v -> rdmsr msr m = Ok (v, m).
Proof. intros H. unfold rdmsr. by rewrite H. Qed.

Lemma wrmsr_some msr v old m :
  msrs m !! msr = Some old -> wrmsr msr v m = Ok (tt, set_msrs <[msr := v]> m).
Proof. intros H. unfold wrmsr. by rewrite H. Qed.

Lemma rdmsr_ok msr v m m' : rdmsr msr m = Ok (v, m') -> m' = m /\ msrs m !! msr = Some v.
Proof. unfold rdmsr. destruct (msrs m !! msr); intros; by simplify_eq. Qed.

Lemma wrmsr_ok msr v u m m' : wrmsr msr v m = Ok (u, m') ->
  m' = set_msrs <[msr := v]> m /\ is_Some (msrs m !! msr).
Proof. unfold wrmsr. destruct (msrs m !! msr); intros; simplify_eq. split; [done|by eexists]. Qed.

Lemma vmread_current f pa m : current_vmcs m = Some pa -> vmread f m = Ok (vmcs_data m pa f, m).
Proof. intros H. unfold vmread. by rewrite H. Qed.

Lemma vmwrite_current f v pa m : current_vmcs m = Some pa ->
  vmwrite f v m =
    Ok (tt, set_vmcss <[pa := fset f v (vmcs_data m pa)]> m).
Proof. intros H. unfold vmwrite. by rewrite H. Qed.

Lemma bind_ok {St A B : Type} (x : M St A) (k : A -> M St B) s b s' :
  bind x k s = Ok (b, s') -> exists a s1, x s = Ok (a, s1) /\ k a s1 = Ok (b, s').
Proof. unfold bind. destruct (x s) as [[a s1]|]; [eauto|done]. Qed.

Lemma bind_intro {St A B : Type} (x : M St A) (k : A -> M St B) s a s1 :
  x s = Ok (a, s1) -> bind x k s = k a s1.
Proof. intros H. unfold bind. by rewrite H. Qed.

(** A processor at rest with the given MSRs, for concrete runs. *)
Definition idle_machine (l : list (Z * Z)) : Machine := {|
  sys _ := 0; msrs := list_to_map l; mem _ := 0; mmio _ := 0; vmx := VmxOff;
  vmcss := ∅; hw_cpuid _ _ := mk_cpuid 0 0 0 0; hw_lsl _ := (0, 0); hw_lar _ := (0, 0)
|}.
