(* ===== verification/Platform.v ===== *)
(** * The platform interface (hvcore platform_ops.rs)

    [PlatformOps] is the trait the core requires from the operating system
    or firmware it is loaded by: [pa] translates the linear address of an
    object of the hypervisor to its physical address, and
    [run_on_all_processors] runs a callback on each logical processor in
    turn.  The implementations of both drivers are here; the entry points of
    the core are proved against the class. *)

From S2P Require Import Prelude External.

(** The callback runs on the processors of the list, one by one. *)
Fixpoint run_one_by_one {Proc St : Type} (callback : Proc -> M St unit) (l : list Proc)
    : M St unit :=
  match l with
  | [] => ret tt
  | p :: l' => callback p ;;! run_one_by_one callback l'
  end.

Class PlatformOps (Proc : Type) : Type := {
  pa : Z -> Z;
  processors : list Proc;
  run_on_all_processors : forall {St : Type}, (Proc -> M St unit) -> M St unit;
  run_on_all_spec : forall (St : Type) (callback : Proc -> M St unit) (s : St),
    run_on_all_processors callback s = run_one_by_one callback processors s;
}.

(** ** UEFI (uefi_hv ops.rs)

    The firmware's [startup_all_aps] runs the callback on every other enabled
    processor, and reports NOT_STARTED when there is none. *)
Inductive EfiStatus : Type := NOT_STARTED | OtherError (code : Z).

Definition uefi_run_on_all_processors {Proc St : Type} (bsp : Proc)
    (startup_all_aps : (Proc -> M St unit) -> M St (option EfiStatus))
    (callback : Proc -> M St unit) : M St unit :=
  callback bsp ;;!
  let! r := startup_all_aps callback in
  match r with
  | None => ret tt
  | Some NOT_STARTED => ret tt
  | Some (OtherError _) => mpanic "e.status() == Status::NOT_STARTED"
  end.

Definition uefi_pa (va : Z) : Z := va.

(** The documented behaviour of the firmware service. *)
Definition firmware_startup_all_aps {Proc St : Type} (aps : list Proc)
    (callback : Proc -> M St unit) : M St (option EfiStatus) :=
  match aps with
  | [] => ret (Some NOT_STARTED)
  | _ => run_one_by_one callback aps ;;! ret None
  end.

Lemma run_one_by_one_app {Proc St : Type} (callback : Proc -> M St unit) l1 l2 s :
  run_one_by_one callback (l1 ++ l2) s =
    (run_one_by_one callback l1 ;;! run_one_by_one callback l2) s.
Proof.
  revert s. induction l1 as [|p l1 IH]; intros s; [done|]. simpl. unfold bind.
  destruct (callback p s) as [[[] s1]|]; [|done]. rewrite IH. done.
Qed.

(** UEFI implements the interface: the boot processor first, then the others. *)
#[refine] Definition UefiOps {Proc : Type} (bsp : Proc) (aps : list Proc) : PlatformOps Proc := {|
  pa := uefi_pa;
  processors := bsp :: aps;
  run_on_all_processors St :=
    uefi_run_on_all_processors bsp (firmware_startup_all_aps aps)
|}.
Proof.
  intros St callback s. unfold uefi_run_on_all_processors, firmware_startup_all_aps. simpl.
  unfold bind. destruct (callback bsp s) as [[[] s1]|]; [|done]. destruct aps as [|p aps]; [done|].
  cbn [run_one_by_one]. unfold bind. destruct (callback p s1) as [[[] s2]|]; [|done].
  destruct (run_one_by_one callback aps s2) as [[[] s3]|]; done.
Defined.

(** ** Windows (win_hv ops.rs)

    The thread that runs the loop moves itself from processor to processor:
    its group affinity and its IRQL are part of the state of the loop. *)
Record Thread : Type := mk_thread { affinity : Z * Z; irql : Z }.

Definition DISPATCH_LEVEL : Z := 2.

Section Windows.
Context {P : Profile} {Proc St : Type}.
(** The kernel: the number of active processors, the group and number of the
    processor with an index, and where a thread of an affinity runs. *)
Context (processor_count : nat) (number_from_index : nat -> option (Z * Z)) (processor_at : Z * Z -> option Proc).

Definition KeSetSystemGroupAffinityThread (a : Z * Z) : M (Thread * St) (Z * Z) :=
  fun '(t, s) => Ok (affinity t, (mk_thread a (irql t), s)).
Definition KeRevertToUserGroupAffinityThread (a : Z * Z) : M (Thread * St) unit :=
  fun '(t, s) => Ok (tt, (mk_thread a (irql t), s)).
Definition KfRaiseIrql (new : Z) : M (Thread * St) Z := fun '(t, s) => Ok (irql t, (mk_thread (affinity t) new, s)).
Definition KeLowerIrql (new : Z) : M (Thread * St) unit := fun '(t, s) => Ok (tt, (mk_thread (affinity t) new, s)).

(** The callback, on the processor the thread is on. *)
Definition call_here (callback : Proc -> M St unit) : M (Thread * St) unit := fun '(t, s) =>
  let? p := unwrap (processor_at (affinity t)) "no processor of this affinity" in
  let? (_, s) := callback p s in
  Ok (tt, (t, s)).

Definition windows_iteration (callback : Proc -> M St unit) (index : nat) : M (Thread * St) unit :=
  let! (group, number) := lift (unwrap (number_from_index index) "NT_SUCCESS(status)") in
  let! mask := lift (shl_w 64 1 number) in
  let! old_affinity := KeSetSystemGroupAffinityThread (group, mask) in
  let! old_irql := KfRaiseIrql DISPATCH_LEVEL in
  call_here callback ;;!
  KeLowerIrql old_irql ;;!
  KeRevertToUserGroupAffinityThread old_affinity.

Definition windows_run_on_all_processors (callback : Proc -> M St unit) : M (Thread * St) unit :=
  run_one_by_one (windows_iteration callback) (seq 0 processor_count).

(** The documented behaviour: the processor of each index has a group and a
    number below 64, and a thread bound to them runs there. *)
Definition kernel_numbers (l : list Proc) : Prop :=
  processor_count = length l /\
  forall i p, l !! i = Some p -> exists group number, number_from_index i = Some (group, number) /\
    0 <= number < 64 /\ processor_at (group, 2 ^ number) = Some p.

(** One iteration runs the callback on the processor of the index and leaves
    the thread as it was. *)
Lemma windows_iteration_ok callback i group number p t s :
  number_from_index i = Some (group, number) -> 0 <= number < 64 -> processor_at (group, 2 ^ number) = Some p ->
  windows_iteration callback i (t, s) =
    match callback p s with Ok (_, s') => Ok (tt, (t, s')) | Panic why => Panic why end.
Proof.
  intros Hi Hn Hp. unfold windows_iteration, bind, lift, call_here. rewrite Hi. cbn [unwrap].
  unfold shl_w. rewrite (proj2 (Z.ltb_lt number 64)) by lia. rewrite Z.shiftl_1_l, wrap_small.
  2: { split; [lia|apply Z.pow_lt_mono_r; lia]. }
  cbn [KeSetSystemGroupAffinityThread KfRaiseIrql affinity irql obind]. rewrite Hp. cbn [unwrap obind].
  destruct (callback p s) as [[[] s']|]; [|done]. by destruct t.
Qed.

Lemma windows_loop callback l l0 t s : (forall i p, l !! i = Some p -> exists group number,
    number_from_index (l0 + i)%nat = Some (group, number) /\ 0 <= number < 64 /\
    processor_at (group, 2 ^ number) = Some p) ->
  run_one_by_one (windows_iteration callback) (seq l0 (length l)) (t, s) =
    match run_one_by_one callback l s with Ok (_, s') => Ok (tt, (t, s')) | Panic why => Panic why end.
Proof.
  revert l0 s. induction l as [|p l IH]; intros l0 s Hl; [done|]. cbn [length seq run_one_by_one].
  destruct (Hl 0%nat p eq_refl) as (group & number & Hi & Hn & Hp). rewrite Nat.add_0_r in Hi.
  unfold bind. rewrite (windows_iteration_ok _ _ _ _ p) by done.
  destruct (callback p s) as [[[] s1]|]; [|done]. apply IH. intros i q Hq.
  rewrite Nat.add_succ_comm. by apply (Hl (S i) q).
Qed.
End Windows.

(** Windows implements the interface, and gives the thread back as it was. *)
#[refine] Definition WindowsOps {P : Profile} {Proc : Type} (MmGetPhysicalAddress : Z -> Z)
    (number_from_index : nat -> option (Z * Z)) (processor_at : Z * Z -> option Proc) (l : list Proc)
    (K : kernel_numbers (length l) number_from_index processor_at l) (t : Thread) : PlatformOps Proc := {|
  pa := MmGetPhysicalAddress;
  processors := l;
  run_on_all_processors St callback s :=
    let? (_, (_, s')) := windows_run_on_all_processors (length l) number_from_index processor_at callback (t, s) in
    Ok (tt, s')
|}.
Proof.
  intros St callback s. destruct K as [_ K]. unfold windows_run_on_all_processors.
  rewrite (windows_loop _ _ _ l) by (cbn; exact K).
  by destruct (run_one_by_one callback l s) as [[[] s']|].
Defined.

(** The Windows loop runs the callback once on each active processor, in the
    order of the indices, and whatever the callback does (unless it panics) the
    thread ends with the affinity and IRQL it had. *)
Lemma windows_visits_all {P : Profile} {Proc St : Type} (callback : Proc -> M St unit) number_from_index processor_at
    (l : list Proc) t s :
  kernel_numbers (length l) number_from_index processor_at l ->
  windows_run_on_all_processors (length l) number_from_index processor_at callback (t, s) =
    match run_one_by_one callback l s with Ok (_, s') => Ok (tt, (t, s')) | Panic why => Panic why end.
Proof. intros [_ K]. unfold windows_run_on_all_processors. by apply windows_loop. Qed.

Module PlatformExample.
#[local] Instance checked : Profile := true.

(** Two groups of one processor each. *)
Definition number_from_index (i : nat) : option (Z * Z) := if (i <? 2)%nat then Some (Z.of_nat i, 0) else None.
Definition processor_at (a : Z * Z) : option nat := if a.2 =? 1 then Some (Z.to_nat a.1) else None.

Lemma kernel_ok : kernel_numbers 2 number_from_index processor_at [0%nat; 1%nat].
Proof.
  split; [done|]. intros [|[|i]] p Hp; [injection Hp as <-|injection Hp as <-|done]; eexists _, _;
    (split; [reflexivity|]; split; [lia|reflexivity]).
Qed.

(** A counter that each processor adds to. *)
Lemma windows_visits_all_witness :
  windows_run_on_all_processors 2 number_from_index processor_at
    (fun p : nat => modify (fun l : list nat => l ++ [p])) (mk_thread (0, 3) 0, []) =
  Ok (tt, (mk_thread (0, 3) 0, [0%nat; 1%nat])).
Proof. exact (windows_visits_all _ _ _ [0%nat; 1%nat] (mk_thread (0, 3) 0) [] kernel_ok). Defined.
End PlatformExample.
