(* ===== verification/Allocator.v ===== *)
(** * The global allocator (hvcore allocator.rs)

    A pre-allocated heap of [ALLOCATION_BYTES] bytes split into 4096-byte and
    128-byte blocks, with one bitmap per pool.  [Allocator] holds the code;
    [Heap] is the abstract specification: the list of live allocations, kept
    by any sequence of allocations and deallocations. *)

From S2P Require Import Prelude External.

Definition ALLOCATION_BYTES : Z := 0xa0_0000.
Definition ALLOCATION_PAGES : Z := ALLOCATION_BYTES / 0x1000.

Definition NUMBER_OF_BLOCK_4096 : Z := 0x900.
Definition NUMBER_OF_BLOCK_128 : Z := 0x2000.
Definition BLOCK_SIZE_4096 : Z := 4096.
Definition BLOCK_SIZE_128 : Z := 128.

Record Layout : Type := mk_layout { layout_size : Z; layout_align : Z }.

(** [repr(C)] layout of [Blocks]: the 128-byte blocks follow the 4096-byte ones. *)
Definition block4096 (blocks : Z) : Z := blocks.
Definition block128 (blocks : Z) : Z := blocks + NUMBER_OF_BLOCK_4096 * BLOCK_SIZE_4096.
Definition size_of_Blocks : Z :=
  NUMBER_OF_BLOCK_4096 * BLOCK_SIZE_4096 + NUMBER_OF_BLOCK_128 * BLOCK_SIZE_128.

(** [align_of::<Metadata>()]: a pointer followed by byte arrays. *)
Definition align_of_Metadata : Z := 8.

Section Allocator.
Context {P : Profile} {B : Type} {BA : BitArray B}.

Record Metadata : Type := mk_metadata {
  blocks : Z;
  bitmap4096 : B;
  bitmap128 : B;
}.

Definition Metadata_new (ptr : Z) : outcome Metadata :=
  let? _ := oassert (negb (ptr =? 0)) "!ptr.is_null()" in
  let? _ := oassert (ptr mod align_of_Metadata =? 0) "ptr is aligned" in
  Ok {| blocks := ptr;
        bitmap4096 := ba_zero (Z.to_nat NUMBER_OF_BLOCK_4096);
        bitmap128 := ba_zero (Z.to_nat NUMBER_OF_BLOCK_128) |}.

(** The state is the [Once] cell [METADATA]; a second [init] does nothing. *)
Definition init (ptr : Z) : M (option Metadata) unit := fun st =>
  match st with
  | Some _ => Ok (tt, st)
  | None => let? m := Metadata_new ptr in Ok (tt, Some m)
  end.

Definition round_up_by (number size : Z) : Z :=
  let round_down := number / size in
  if negb (number mod size =? 0) then round_down + 1 else round_down.

(** The scan of [find_empty_blocks] over the remaining bits. *)
Fixpoint find_empty_blocks_from (bits : list bool) (index empty_block_count start count : nat)
    : option nat :=
  match bits with
  | [] => None
  | bit :: rest =>
      let start' := if bit then start
                    else if (empty_block_count =? 0)%nat then index else start in
      let empty_block_count' := if bit then 0%nat else S empty_block_count in
      if (empty_block_count' =? count)%nat then Some start'
      else find_empty_blocks_from rest (S index) empty_block_count' start' count
  end.

Definition find_empty_blocks (bitmap : B) (count : nat) : option nat :=
  find_empty_blocks_from (ba_iter bitmap) 0 0 0 count.

(** [assert!(bitmap.get(index).unwrap() == old); bitmap.set(index, new)] *)
Definition flip_block (old new : bool) (index : nat) (bitmap : B) : outcome B :=
  let? bit := unwrap (ba_get bitmap index) "bitmap.get(index)" in
  let? _ := oassert (Bool.eqb bit old) "bitmap bit" in
  Ok (ba_set bitmap index new).

Definition alloc_internal (block_count block_size : Z) (layout : Layout) (blocks : Z)
    (bitmap : B) : outcome (Z * B) :=
  let required_block_count := Z.to_nat (round_up_by (layout_size layout) block_size) in
  match find_empty_blocks bitmap required_block_count with
  | None => Ok (0, bitmap)
  | Some start =>
      let? bitmap' := for_range (flip_block false true) start required_block_count bitmap in
      let? _ := oassert (Z.of_nat start <? block_count) "blocks[start]" in
      Ok (blocks + Z.of_nat start * block_size, bitmap')
  end.

Definition dealloc_internal (block_size : Z) (ptr : Z) (layout : Layout) (blocks : Z)
    (bitmap : B) : outcome B :=
  let? offset := sub_w 64 ptr blocks in
  let start := Z.to_nat (offset / block_size) in
  let block_count := Z.to_nat (round_up_by (layout_size layout) block_size) in
  for_range (flip_block true false) start block_count bitmap.

(** [GlobalAlloc::alloc]: returns a pointer, null when no blocks are left. *)
Definition alloc (layout : Layout) : M (option Metadata) Z := fun st =>
  let? meta := unwrap st "init() is not called" in
  if BLOCK_SIZE_4096 <=? layout_size layout then
    let? (p, bm) := alloc_internal NUMBER_OF_BLOCK_4096 BLOCK_SIZE_4096 layout
                      (block4096 (blocks meta)) (bitmap4096 meta) in
    Ok (p, Some {| blocks := blocks meta; bitmap4096 := bm; bitmap128 := bitmap128 meta |})
  else
    let? (p, bm) := alloc_internal NUMBER_OF_BLOCK_128 BLOCK_SIZE_128 layout
                      (block128 (blocks meta)) (bitmap128 meta) in
    Ok (p, Some {| blocks := blocks meta; bitmap4096 := bitmap4096 meta; bitmap128 := bm |}).

(** [GlobalAlloc::dealloc] *)
Definition dealloc (ptr : Z) (layout : Layout) : M (option Metadata) unit := fun st =>
  let? meta := unwrap st "init() is not called" in
  if BLOCK_SIZE_4096 <=? layout_size layout then
    let? bm := dealloc_internal BLOCK_SIZE_4096 ptr layout
                 (block4096 (blocks meta)) (bitmap4096 meta) in
    Ok (tt, Some {| blocks := blocks meta; bitmap4096 := bm; bitmap128 := bitmap128 meta |})
  else
    let? bm := dealloc_internal BLOCK_SIZE_128 ptr layout
                 (block128 (blocks meta)) (bitmap128 meta) in
    Ok (tt, Some {| blocks := blocks meta; bitmap4096 := bitmap4096 meta; bitmap128 := bm |}).
End Allocator.
Arguments Metadata B : clear implicits.

(** ** First fit *)

(** The [n] blocks from [s] on are all free. *)
Definition free_run (l : list bool) (s n : nat) : Prop :=
  forall i, (s <= i < s + n)%nat -> l !! i = Some false.

Definition first_fit (l : list bool) (n : nat) (r : option nat) : Prop :=
  match r with
  | Some s => free_run l s n /\ forall s', (s' < s)%nat -> ~ free_run l s' n
  | None => forall s', ~ free_run l s' n
  end.

Lemma find_empty_blocks_from_spec (all bits : list bool) (index empty start n : nat) :
  (0 < n)%nat -> drop index all = bits -> (index <= length all)%nat ->
  (empty <= index)%nat -> (empty < n)%nat ->
  free_run all (index - empty) empty ->
  (forall s', (s' < index - empty)%nat -> ~ free_run all s' n) ->
  (empty = 0%nat \/ start = (index - empty)%nat) ->
  first_fit all n (find_empty_blocks_from bits index empty start n).
Proof.
  revert index empty start. induction bits as [|bit rest IH];
    intros index empty start Hn Hdrop Hlen Hle Hlt Hrun Hnone Hstart; cbn -[Nat.eqb].
  - intros s' Hs'. assert (length all <= index)%nat as Hend.
    { pose proof (f_equal length Hdrop) as HH. rewrite length_drop in HH. simpl in HH. lia. }
    destruct (decide (s' < index - empty)%nat) as [|Hge]; [by eapply Hnone|].
    specialize (Hs' (s' + n - 1)%nat ltac:(lia)).
    apply lookup_lt_Some in Hs'. lia.
  - assert (all !! index = Some bit) as Hbit.
    { rewrite <- (Nat.add_0_r index), <- lookup_drop, Hdrop. done. }
    assert (drop (S index) all = rest) as Hdrop'.
    { rewrite <- Nat.add_1_r, <- drop_drop, Hdrop. done. }
    apply lookup_lt_Some in Hbit as Hidx.
    destruct bit; cbn -[Nat.eqb].
    + destruct (Nat.eqb_spec 0 n); [lia|]. apply IH; try lia; try done.
      * intros i. lia.
      * intros s' Hs' Hfree. destruct (decide (s' < index - empty)%nat); [by eapply Hnone|].
        specialize (Hfree index ltac:(lia)). congruence.
    + assert (free_run all (index - empty) (S empty)) as Hrun'.
      { intros i Hi. destruct (decide (i = index)) as [->|]; [done|]. apply Hrun. lia. }
      assert ((if (empty =? 0)%nat then index else start) = (index - empty)%nat) as ->.
      { destruct (Nat.eqb_spec empty 0); lia. }
      destruct (Nat.eqb_spec (S empty) n) as [<-|]; [by split|].
      apply IH; try lia; replace (S index - S empty)%nat with (index - empty)%nat by lia; auto.
Qed.

Section FirstFit.
Context {P : Profile} {B : Type} {BA : BitArray B}.

Lemma find_empty_blocks_spec (bitmap : B) (n : nat) : (0 < n)%nat ->
  first_fit (ba_iter bitmap) n (find_empty_blocks bitmap n).
Proof.
  intros Hn. apply find_empty_blocks_from_spec; try lia; auto.
  intros i. lia.
Qed.

(** ** The marking loop *)

(** The bits with [s, s+n) set to [v]. *)
Definition set_range (l : list bool) (s n : nat) (v : bool) : list bool :=
  imap (fun i b => if decide (s <= i < s + n)%nat then v else b) l.

Lemma set_range_lookup l s n v i :
  set_range l s n v !! i = (fun b => if decide (s <= i < s + n)%nat then v else b) <$> l !! i.
Proof. apply list_lookup_imap. Qed.

Lemma set_range_length l s n v : length (set_range l s n v) = length l.
Proof. apply length_imap. Qed.

Lemma flip_blocks_spec (old new : bool) (n s : nat) (bitmap : B) :
  (forall i, (s <= i < s + n)%nat -> ba_iter bitmap !! i = Some old) ->
  exists bitmap', for_range (flip_block old new) s n bitmap = Ok bitmap' /\
    ba_iter bitmap' = set_range (ba_iter bitmap) s n new.
Proof.
  revert s bitmap. induction n as [|n IH]; intros s bitmap Hold; simpl.
  - exists bitmap. split; [done|]. apply list_eq. intros i. rewrite set_range_lookup.
    destruct (_ !! i); [|done]. simpl. by case_decide; [lia|].
  - pose proof (Hold s ltac:(lia)) as Hs. unfold flip_block at 1.
    rewrite ba_get_spec, Hs. simpl. rewrite Bool.eqb_reflx. simpl.
    apply lookup_lt_Some in Hs as Hlen.
    destruct (IH (S s) (ba_set bitmap s new)) as (bitmap' & Hf & Hi).
    { intros i Hi. rewrite ba_set_spec by done. rewrite list_lookup_insert_ne by lia.
      apply Hold. lia. }
    exists bitmap'. split; [done|]. rewrite Hi, ba_set_spec by done.
    apply list_eq. intros i. rewrite !set_range_lookup.
    destruct (decide (i = s)) as [->|Hne].
    + rewrite list_lookup_insert_eq by done. rewrite Hs. simpl.
      by rewrite decide_False, decide_True by lia.
    + rewrite list_lookup_insert_ne by done. destruct (_ !! i); [|done]. simpl.
      repeat case_decide; done || lia.
Qed.

Lemma round_up_by_spec size bs : 0 < bs -> 0 < size ->
  0 < round_up_by size bs /\ size <= round_up_by size bs * bs < size + bs.
Proof.
  intros Hbs Hsize. unfold round_up_by. pose proof (Z.div_mod size bs ltac:(lia)) as Hd.
  pose proof (Z.mod_pos_bound size bs Hbs) as Hm.
  destruct (Z.eqb_spec (size mod bs) 0); simpl; nia.
Qed.
End FirstFit.

(** ** The abstract heap

    What a client of the allocator may rely on is stated on the list of live
    allocations (a pointer with the layout it was requested for). *)
Inductive pool : Type := P4096 | P128.

#[export] Instance pool_eq_dec : EqDecision pool.
Proof. solve_decision. Defined.

Definition pool_of (l : Layout) : pool :=
  if BLOCK_SIZE_4096 <=? layout_size l then P4096 else P128.
Definition bsize (q : pool) : Z :=
  match q with P4096 => BLOCK_SIZE_4096 | P128 => BLOCK_SIZE_128 end.
Definition bcount (q : pool) : Z :=
  match q with P4096 => NUMBER_OF_BLOCK_4096 | P128 => NUMBER_OF_BLOCK_128 end.
Definition pbase (base : Z) (q : pool) : Z :=
  match q with P4096 => block4096 base | P128 => block128 base end.
Definition nblocks (l : Layout) : nat :=
  Z.to_nat (round_up_by (layout_size l) (bsize (pool_of l))).

Abbreviation live := (list (Z * Layout)).

Definition first_block (base : Z) (a : Z * Layout) : nat :=
  Z.to_nat ((a.1 - pbase base (pool_of a.2)) / bsize (pool_of a.2)).

Definition covers (base : Z) (q : pool) (i : nat) (a : Z * Layout) : bool :=
  bool_decide (pool_of a.2 = q /\
               (first_block base a <= i < first_block base a + nblocks a.2)%nat).

(** How many live allocations use block [i] of pool [q]. *)
Fixpoint covered (base : Z) (q : pool) (i : nat) (lv : live) : nat :=
  match lv with
  | [] => 0
  | a :: lv' => (if covers base q i a then 1 else 0) + covered base q i lv'
  end.

(** A live allocation starts at a block and ends inside its pool. *)
Definition placed (base : Z) (a : Z * Layout) : Prop :=
  0 < layout_size a.2 /\
  a.1 = pbase base (pool_of a.2) + Z.of_nat (first_block base a) * bsize (pool_of a.2) /\
  (first_block base a + nblocks a.2 <= Z.to_nat (bcount (pool_of a.2)))%nat.

(** Two allocations share no byte. *)
Definition disjoint_allocs (a b : Z * Layout) : Prop :=
  a.1 + layout_size a.2 <= b.1 \/ b.1 + layout_size b.2 <= a.1.

Implicit Types (lv : live) (l : Layout).

Section Heap.
Context {P : Profile} {B : Type} {BA : BitArray B}.

Definition bitmap (q : pool) (m : Metadata B) : B :=
  match q with P4096 => bitmap4096 m | P128 => bitmap128 m end.

Definition with_bitmap (q : pool) (bm : B) (m : Metadata B) : Metadata B :=
  match q with
  | P4096 => mk_metadata (blocks m) bm (bitmap128 m)
  | P128 => mk_metadata (blocks m) (bitmap4096 m) bm
  end.

Record heap_inv (m : Metadata B) (lv : live) : Prop := {
  inv_base : 0 < blocks m /\ blocks m + ALLOCATION_BYTES <= 2 ^ 64;
  inv_len : forall q, length (ba_iter (bitmap q m)) = Z.to_nat (bcount q);
  inv_cover : forall q (i : nat) (b : bool), ba_iter (bitmap q m) !! i = Some b ->
    covered (blocks m) q i lv = if b then 1%nat else 0%nat;
  inv_placed : Forall (placed (blocks m)) lv;
}.

(** The clients: allocations of a non-zero size, as the [GlobalAlloc]
    contract demands, and deallocations of live allocations. *)
Inductive heap_step : option (Metadata B) * live -> option (Metadata B) * live -> Prop :=
| step_alloc st st' lv l p :
    0 < layout_size l -> alloc l st = Ok (p, st') ->
    heap_step (st, lv) (st', if p =? 0 then lv else (p, l) :: lv)
| step_dealloc st st' lv k p l :
    lv !! k = Some (p, l) -> dealloc p l st = Ok (tt, st') ->
    heap_step (st, lv) (st', delete k lv).

Lemma pool_consts q : 0 < bsize q /\ 0 < bcount q.
Proof. by destruct q. Qed.

Lemma pbase_pos base q : 0 < base -> 0 < pbase base q.
Proof.
  intros. destruct q; unfold pbase, block4096, block128, NUMBER_OF_BLOCK_4096, BLOCK_SIZE_4096;
    lia.
Qed.

Lemma blocks_with_bitmap q bm (m : Metadata B) : blocks (with_bitmap q bm m) = blocks m.
Proof. by destruct q. Qed.

Lemma bitmap_with_bitmap q q' bm (m : Metadata B) :
  bitmap q' (with_bitmap q bm m) = if decide (q = q') then bm else bitmap q' m.
Proof. by destruct q, q'. Qed.

Lemma alloc_unfold l (m : Metadata B) :
  alloc l (Some m) =
    let? (p, bm) := alloc_internal (bcount (pool_of l)) (bsize (pool_of l)) l
                      (pbase (blocks m) (pool_of l)) (bitmap (pool_of l) m) in
    Ok (p, Some (with_bitmap (pool_of l) bm m)).
Proof. unfold alloc, pool_of. simpl. by destruct (_ <=? _). Qed.

Lemma dealloc_unfold p l (m : Metadata B) :
  dealloc p l (Some m) =
    let? bm := dealloc_internal (bsize (pool_of l)) p l
                 (pbase (blocks m) (pool_of l)) (bitmap (pool_of l) m) in
    Ok (tt, Some (with_bitmap (pool_of l) bm m)).
Proof. unfold dealloc, pool_of. simpl. by destruct (_ <=? _). Qed.

Lemma nblocks_pos l : 0 < layout_size l -> (0 < nblocks l)%nat.
Proof.
  intros Hs. pose proof (round_up_by_spec (layout_size l) (bsize (pool_of l))
    (proj1 (pool_consts _)) Hs). unfold nblocks. lia.
Qed.

Lemma nblocks_bytes l : 0 < layout_size l ->
  layout_size l <= Z.of_nat (nblocks l) * bsize (pool_of l).
Proof.
  intros Hs. pose proof (round_up_by_spec (layout_size l) (bsize (pool_of l))
    (proj1 (pool_consts _)) Hs). unfold nblocks. rewrite Z2Nat.id by lia. lia.
Qed.

Lemma covered_delete base q i lv k a :
  lv !! k = Some a ->
  covered base q i lv = ((if covers base q i a then 1 else 0) + covered base q i (delete k lv))%nat.
Proof.
  revert k. induction lv as [|b lv IH]; intros k Hk; [done|].
  destruct k as [|k]; [by injection Hk as ->|].
  change (delete (S k) (b :: lv)) with (b :: delete k lv). cbn [covered].
  rewrite (IH k Hk). apply Nat.add_shuffle3.
Qed.

Lemma covered_pos base q i lv k a :
  lv !! k = Some a -> covers base q i a = true -> (1 <= covered base q i lv)%nat.
Proof. intros Hk Hc. rewrite (covered_delete _ _ _ _ _ _ Hk), Hc. lia. Qed.

Lemma covered_two base q i lv j k a b :
  j <> k -> lv !! j = Some a -> lv !! k = Some b ->
  covers base q i a = true -> covers base q i b = true -> (2 <= covered base q i lv)%nat.
Proof.
  intros Hne Hj Hk Ha Hb. rewrite (covered_delete _ _ _ _ _ _ Hk), Hb.
  enough (1 <= covered base q i (delete k lv))%nat by lia.
  destruct (decide (j < k)%nat).
  - eapply (covered_pos _ _ _ _ j); [|exact Ha]. rewrite list_lookup_delete_lt by lia. done.
  - eapply (covered_pos _ _ _ _ (j - 1)%nat); [|exact Ha].
    rewrite list_lookup_delete_ge by lia. by replace (S (j - 1)) with j by lia.
Qed.
End Heap.

Section HeapOperations.
Context {P : Profile} {B : Type} {BA : BitArray B}.
Implicit Types (m : Metadata B).

(** What one allocation does to a pool, in terms of the first fit. *)
Lemma alloc_spec m lv l : heap_inv m lv -> 0 < layout_size l ->
  let q := pool_of l in
  match find_empty_blocks (bitmap q m) (nblocks l) with
  | None => alloc l (Some m) = Ok (0, Some m)
  | Some s =>
      (s + nblocks l <= Z.to_nat (bcount q))%nat /\
      exists bm, ba_iter bm = set_range (ba_iter (bitmap q m)) s (nblocks l) true /\
        alloc l (Some m) =
          Ok (pbase (blocks m) q + Z.of_nat s * bsize q, Some (with_bitmap q bm m))
  end.
Proof.
  intros [_ Hlen _ _] Hsize q. rewrite alloc_unfold. fold q. unfold alloc_internal.
  change (Z.to_nat (round_up_by (layout_size l) (bsize q))) with (nblocks l).
  pose proof (nblocks_pos l Hsize) as Hn.
  pose proof (find_empty_blocks_spec (bitmap q m) (nblocks l) Hn) as Hff.
  destruct (find_empty_blocks _ _) as [s|] eqn:Hfind.
  - destruct Hff as [Hfree _].
    assert (s + nblocks l <= Z.to_nat (bcount q))%nat as Hin.
    { pose proof (Hfree (s + nblocks l - 1)%nat ltac:(lia)) as Hlast.
      apply lookup_lt_Some in Hlast. rewrite Hlen in Hlast. lia. }
    split; [done|].
    destruct (flip_blocks_spec false true (nblocks l) s (bitmap q m) Hfree) as (bm & Hf & Hbm).
    exists bm. split; [done|]. cbv beta iota zeta. rewrite Hf. cbn [obind].
    rewrite oassert_true by (apply Z.ltb_lt; lia). done.
  - simpl. f_equal. f_equal. f_equal. destruct m; by destruct q.
Qed.

Lemma dealloc_spec m lv k p l : heap_inv m lv -> lv !! k = Some (p, l) ->
  exists bm, ba_iter bm = set_range (ba_iter (bitmap (pool_of l) m))
                            (first_block (blocks m) (p, l)) (nblocks l) false /\
    dealloc p l (Some m) = Ok (tt, Some (with_bitmap (pool_of l) bm m)).
Proof.
  intros [[Hb0 Hb1] Hlen Hcov Hplaced] Hk. rewrite dealloc_unfold.
  apply (Forall_lookup_1 _ _ _ _ Hplaced) in Hk as Hpl. destruct Hpl as (Hsize & Hp & Hin).
  set (q := pool_of l) in *. set (s := first_block (blocks m) (p, l)) in *.
  simpl in Hsize, Hp, Hin. fold q in Hp, Hin.
  destruct (flip_blocks_spec true false (nblocks l) s (bitmap q m)) as (bm & Hf & Hbm).
  { intros i Hi.
    assert (i < length (ba_iter (bitmap q m)))%nat as Hi' by (rewrite Hlen; lia).
    apply lookup_lt_is_Some_2 in Hi' as [b Hbit]. rewrite Hbit. f_equal.
    pose proof (Hcov q i b Hbit) as Hc.
    assert (covers (blocks m) q i (p, l) = true) as Hcv by (apply bool_decide_eq_true; done).
    pose proof (covered_pos _ _ _ _ _ _ Hk Hcv). destruct b; [done|lia]. }
  exists bm. split; [done|]. unfold dealloc_internal.
  pose proof (pool_consts q) as [Hbs Hbc].
  rewrite sub_w_small; [cbn [obind]|].
  - change (Z.to_nat ((p - pbase (blocks m) q) / bsize q)) with s.
    change (Z.to_nat (round_up_by (layout_size l) (bsize q))) with (nblocks l).
    by rewrite Hf.
  - rewrite Hp. unfold in_width, ALLOCATION_BYTES in *.
    assert (bcount q * bsize q <= 0x90_0000) by (destruct q; done). nia.
Qed.

Lemma covers_fresh base q s l i : (0 < bsize (pool_of l)) ->
  first_block base (pbase base (pool_of l) + Z.of_nat s * bsize (pool_of l), l) = s /\
  covers base q i (pbase base (pool_of l) + Z.of_nat s * bsize (pool_of l), l) =
    bool_decide (pool_of l = q /\ (s <= i < s + nblocks l)%nat).
Proof.
  intros Hbs.
  assert (first_block base (pbase base (pool_of l) + Z.of_nat s * bsize (pool_of l), l) = s)
    as Hfirst.
  { unfold first_block. simpl. rewrite Z.add_simpl_l, Z.div_mul by lia. lia. }
  split; [done|]. unfold covers. by rewrite Hfirst.
Qed.

Lemma alloc_inv m lv l p st' : heap_inv m lv -> 0 < layout_size l ->
  alloc l (Some m) = Ok (p, st') ->
  exists m', st' = Some m' /\ blocks m' = blocks m /\
             heap_inv m' (if p =? 0 then lv else (p, l) :: lv).
Proof.
  intros Hinv Hsize Halloc. pose proof (alloc_spec m lv l Hinv Hsize) as Hspec.
  cbv zeta in Hspec. pose proof (nblocks_pos l Hsize) as Hn.
  pose proof (find_empty_blocks_spec (bitmap (pool_of l) m) (nblocks l) Hn) as Hff.
  set (q := pool_of l) in *. destruct (find_empty_blocks _ _) as [s|].
  2: { rewrite Halloc in Hspec. simplify_eq. exists m. simpl. done. }
  destruct Hff as [Hfree _]. destruct Hspec as (Hin & bm & Hbm & Heq).
  rewrite Halloc in Heq. simplify_eq. pose proof (pool_consts q) as [Hbs Hbc].
  exists (with_bitmap q bm m). rewrite blocks_with_bitmap. split; [done|]. split; [done|].
  destruct Hinv as [[Hb0 Hb1] Hlen Hcov Hplaced].
  pose proof (pbase_pos (blocks m) q Hb0) as Hpb.
  rewrite (proj2 (Z.eqb_neq _ _)) by nia.
  split; rewrite ?blocks_with_bitmap; [done|..].
  - intros q'. rewrite bitmap_with_bitmap. case_decide; [|apply Hlen].
    subst q'. rewrite Hbm, set_range_length. apply Hlen.
  - intros q' i b Hbit. cbn [covered].
    pose proof (covers_fresh (blocks m) q' s l i Hbs) as [_ Hcf]. fold q in Hcf. rewrite Hcf.
    rewrite bitmap_with_bitmap in Hbit. case_decide as Hq.
    + subst q'. rewrite Hbm, set_range_lookup in Hbit.
      destruct (ba_iter (bitmap q m) !! i) as [b0|] eqn:Hb; [|done]. simpl in Hbit.
      specialize (Hcov _ _ _ Hb). case_decide as Hr; simplify_eq.
      * rewrite bool_decide_true by done. rewrite (Hfree i Hr) in Hb. simplify_eq. lia.
      * rewrite bool_decide_false by tauto. done.
    + rewrite bool_decide_false by tauto. by apply Hcov.
  - constructor; [|done]. split; [done|]. simpl. fold q.
    pose proof (covers_fresh (blocks m) q s l 0 Hbs) as [Hfb _]. fold q in Hfb.
    rewrite Hfb. done.
Qed.

Lemma dealloc_inv m lv k p l st' : heap_inv m lv -> lv !! k = Some (p, l) ->
  dealloc p l (Some m) = Ok (tt, st') ->
  exists m', st' = Some m' /\ blocks m' = blocks m /\ heap_inv m' (delete k lv).
Proof.
  intros Hinv Hk Hd. destruct (dealloc_spec m lv k p l Hinv Hk) as (bm & Hbm & Heq).
  rewrite Hd in Heq. simplify_eq. set (q := pool_of l) in *.
  exists (with_bitmap q bm m). rewrite blocks_with_bitmap. split; [done|]. split; [done|].
  destruct Hinv as [Hb Hlen Hcov Hplaced].
  split; rewrite ?blocks_with_bitmap; [done|..].
  - intros q'. rewrite bitmap_with_bitmap. case_decide; [|apply Hlen].
    subst q'. rewrite Hbm, set_range_length. apply Hlen.
  - intros q' i b Hbit. rewrite bitmap_with_bitmap in Hbit.
    assert (forall b0 : bool, ba_iter (bitmap q' m) !! i = Some b0 ->
      ((if covers (blocks m) q' i (p, l) then 1 else 0) +
        covered (blocks m) q' i (delete k lv))%nat = if b0 then 1%nat else 0%nat) as Hc.
    { intros b0 Hb0. rewrite <- (covered_delete _ _ _ _ _ _ Hk). by apply Hcov. }
    case_decide as Hq.
    + subst q'. rewrite Hbm, set_range_lookup in Hbit.
      destruct (ba_iter (bitmap q m) !! i) as [b0|] eqn:Hb0; [|done]. simpl in Hbit.
      specialize (Hc _ eq_refl). unfold covers in Hc. simpl in Hc. fold q in Hc.
      case_decide as Hr; simplify_eq.
      * rewrite bool_decide_true in Hc by done. destruct b0; lia.
      * rewrite bool_decide_false in Hc by tauto. done.
    + specialize (Hc _ Hbit). unfold covers in Hc. simpl in Hc. fold q in Hc.
      rewrite bool_decide_false in Hc by tauto. done.
  - by apply Forall_delete.
Qed.
End HeapOperations.

Section HeapTheorems.
Context {P : Profile} {B : Type} {BA : BitArray B}.
Implicit Types (m : Metadata B).

Lemma heap_inv_init base m : in_width 64 base -> base + ALLOCATION_BYTES <= 2 ^ 64 ->
  init base None = Ok (tt, Some m) -> blocks m = base /\ heap_inv m [].
Proof.
  intros [Hb0 Hb1] Hb2 Hinit. unfold init, Metadata_new in Hinit.
  destruct (Z.eqb_spec base 0) as [->|]; [done|]. simpl in Hinit.
  destruct (base mod align_of_Metadata =? 0); [|done]. simpl in Hinit. simplify_eq. simpl.
  split; [done|]. split; simpl; [lia|..].
  - intros []; simpl; by rewrite ba_zero_spec, length_replicate.
  - intros q i b. destruct q; simpl; rewrite ba_zero_spec; intros Hi;
      apply lookup_replicate in Hi as [-> _]; done.
  - constructor.
Qed.

Lemma heap_step_inv m lv st' lv' :
  heap_inv m lv -> heap_step (Some m, lv) (st', lv') ->
  exists m', st' = Some m' /\ blocks m' = blocks m /\ heap_inv m' lv'.
Proof.
  intros Hinv Hstep. inversion Hstep; subst.
  - by eapply alloc_inv.
  - by eapply dealloc_inv.
Qed.

Lemma heap_reachable base st0 st lv :
  in_width 64 base -> base + ALLOCATION_BYTES <= 2 ^ 64 ->
  init base None = Ok (tt, st0) -> rtc heap_step (st0, []) (st, lv) ->
  exists m, st = Some m /\ blocks m = base /\ heap_inv m lv.
Proof.
  intros Hb0 Hb1 Hinit Hrtc.
  assert (exists m0, st0 = Some m0) as [m0 ->].
  { unfold init in Hinit. apply obind_ok in Hinit as (m0 & _ & Heq). simplify_eq. by exists m0. }
  destruct (heap_inv_init _ _ Hb0 Hb1 Hinit) as [Hbase Hinv].
  remember (Some m0, @nil (Z * Layout)) as x eqn:Hx. remember (st, lv) as y eqn:Hy.
  assert (exists m, x.1 = Some m /\ blocks m = base /\ heap_inv m x.2) as Hx'.
  { exists m0. subst x. done. }
  clear Hx Hinit Hbase Hinv m0. revert Hx'. induction Hrtc as [x|x z y Hstep _ IH]; intros Hx'.
  - subst x. done.
  - apply IH; [done|]. destruct Hx' as (m & Hm & Hbase & Hinv). destruct x as [st1 lv1], z.
    simpl in *. subst st1. apply heap_step_inv in Hstep as (m' & -> & Hb' & Hinv'); [|done].
    exists m'. rewrite Hb'. done.
Qed.

Lemma placed_bytes base a : 0 < base -> placed base a ->
  pbase base (pool_of a.2) <= a.1 /\
  a.1 + layout_size a.2 <=
    pbase base (pool_of a.2) + Z.of_nat (first_block base a + nblocks a.2) * bsize (pool_of a.2).
Proof.
  intros Hb (Hs & Hp & _). pose proof (nblocks_bytes a.2 Hs).
  pose proof (pool_consts (pool_of a.2)). rewrite Nat2Z.inj_add. nia.
Qed.

Lemma placed_in_pool base a : 0 < base -> placed base a ->
  pbase base (pool_of a.2) <= a.1 /\
  a.1 + layout_size a.2 <= pbase base (pool_of a.2) + bcount (pool_of a.2) * bsize (pool_of a.2).
Proof.
  intros Hb Hpl. destruct (placed_bytes _ _ Hb Hpl) as [H1 H2]. destruct Hpl as (_ & _ & Hin).
  pose proof (pool_consts (pool_of a.2)). split; [done|]. nia.
Qed.

Lemma pools_apart base : pbase base P4096 + bcount P4096 * bsize P4096 = pbase base P128 /\
  pbase base P4096 = base /\
  pbase base P128 + bcount P128 * bsize P128 = base + ALLOCATION_BYTES /\
  base <= pbase base P128 <= base + ALLOCATION_BYTES.
Proof.
  unfold pbase, block4096, block128, bcount, bsize, NUMBER_OF_BLOCK_4096, NUMBER_OF_BLOCK_128,
    BLOCK_SIZE_4096, BLOCK_SIZE_128, ALLOCATION_BYTES. lia.
Qed.

Lemma heap_inv_disjoint m lv j k a b : heap_inv m lv -> j <> k ->
  lv !! j = Some a -> lv !! k = Some b -> disjoint_allocs a b.
Proof.
  intros [[Hb0 Hb1] Hlen Hcov Hpl] Hne Hj Hk.
  pose proof (Forall_lookup_1 _ _ _ _ Hpl Hj) as Ha.
  pose proof (Forall_lookup_1 _ _ _ _ Hpl Hk) as Hb.
  set (base := blocks m) in *.
  destruct (placed_in_pool _ _ Hb0 Ha) as [Ha1 Ha2].
  destruct (placed_in_pool _ _ Hb0 Hb) as [Hc1 Hc2].
  destruct (pools_apart base) as (Hpa & Hpb & Hpc & _).
  destruct (decide (pool_of a.2 = pool_of b.2)) as [Hq|Hq].
  2: { unfold disjoint_allocs. destruct (pool_of a.2), (pool_of b.2); try done; lia. }
  destruct (placed_bytes _ _ Hb0 Ha) as [_ Ha3]. destruct (placed_bytes _ _ Hb0 Hb) as [_ Hc3].
  destruct Ha as (Hsa & Hpa' & Hina), Hb as (Hsb & Hpb' & Hinb).
  rewrite <- Hq in *. set (q := pool_of a.2) in *.
  set (fa := first_block base a) in *. set (fb := first_block base b) in *.
  assert (fa + nblocks a.2 <= fb \/ fb + nblocks b.2 <= fa)%nat as Hsep.
  { destruct (decide (fa + nblocks a.2 <= fb)%nat); [by left|].
    destruct (decide (fb + nblocks b.2 <= fa)%nat); [by right|]. exfalso.
    set (i := (fa `max` fb)%nat).
    assert (i < length (ba_iter (bitmap q m)))%nat as Hi by (rewrite Hlen; lia).
    apply lookup_lt_is_Some_2 in Hi as [bit Hbit]. specialize (Hcov q i bit Hbit).
    pose proof (nblocks_pos _ Hsa). pose proof (nblocks_pos _ Hsb).
    assert (2 <= covered base q i lv)%nat; [|destruct bit; lia].
    eapply (covered_two _ _ _ _ j k); [done..|apply bool_decide_eq_true|apply bool_decide_eq_true].
    - split; [done|]. fold fa. lia.
    - split; [done|]. fold fb. lia. }
  pose proof (pool_consts q). unfold disjoint_allocs.
  destruct Hsep; [left|right]; nia.
Qed.


(** C24: in every reachable state no allocation of a non-zero size and no
    deallocation of a live allocation panics: the assertions on the bitmap
    hold and every index is in range. *)
Theorem heap_never_panics base st0 st lv :
  in_width 64 base -> base + ALLOCATION_BYTES <= 2 ^ 64 ->
  init base None = Ok (tt, st0) -> rtc heap_step (st0, []) (st, lv) ->
  (forall l, 0 < layout_size l -> is_ok (alloc l st) = true) /\
  (forall k p l, lv !! k = Some (p, l) -> is_ok (dealloc p l st) = true).
Proof.
  intros Hb0 Hb1 Hinit Hr.
  destruct (heap_reachable _ _ _ _ Hb0 Hb1 Hinit Hr) as (m & -> & Hbase & Hinv). split.
  - intros l Hl. pose proof (alloc_spec m lv l Hinv Hl) as Hs. cbv zeta in Hs.
    destruct (find_empty_blocks _ _); [destruct Hs as (_ & bm & _ & ->)|rewrite Hs]; done.
  - intros k p l Hk. destruct (dealloc_spec m lv k p l Hinv Hk) as (bm & _ & ->). done.
Qed.

(** An allocation is first fit: it takes the lowest free run of enough
    blocks of its pool, marks exactly those blocks and returns the address
    of the first; it returns null, leaving the heap as it was, only when no
    free run is long enough. *)
Lemma alloc_first_fit m lv l p m' :
  heap_inv m lv -> 0 < layout_size l -> alloc l (Some m) = Ok (p, Some m') ->
  (p = 0 /\ m' = m /\ forall s, ~ free_run (ba_iter (bitmap (pool_of l) m)) s (nblocks l)) \/
  (exists s, p = pbase (blocks m) (pool_of l) + Z.of_nat s * bsize (pool_of l) /\
     free_run (ba_iter (bitmap (pool_of l) m)) s (nblocks l) /\
     (forall s', (s' < s)%nat -> ~ free_run (ba_iter (bitmap (pool_of l) m)) s' (nblocks l)) /\
     ba_iter (bitmap (pool_of l) m') =
       set_range (ba_iter (bitmap (pool_of l) m)) s (nblocks l) true /\
     forall q, q <> pool_of l -> bitmap q m' = bitmap q m).
Proof.
  intros Hinv Hl Ha. pose proof (alloc_spec m lv l Hinv Hl) as Hs. cbv zeta in Hs.
  pose proof (find_empty_blocks_spec (bitmap (pool_of l) m) _ (nblocks_pos l Hl)) as Hff.
  destruct (find_empty_blocks _ _) as [s|].
  - right. destruct Hs as (_ & bm & Hbm & Heq). rewrite Ha in Heq. simplify_eq.
    exists s. destruct Hff as [Hfree Hfirst]. split_and!; try done.
    + rewrite bitmap_with_bitmap, decide_True by done. done.
    + intros q Hq. rewrite bitmap_with_bitmap, decide_False by done. done.
  - left. rewrite Ha in Hs. simplify_eq. done.
Qed.

(** C37: freeing what was just allocated restores both bitmaps. *)
Theorem alloc_dealloc_roundtrip m lv l p m1 :
  heap_inv m lv -> 0 < layout_size l -> alloc l (Some m) = Ok (p, Some m1) -> p <> 0 ->
  exists m2, dealloc p l (Some m1) = Ok (tt, Some m2) /\ blocks m2 = blocks m /\
    forall q, ba_iter (bitmap q m2) = ba_iter (bitmap q m).
Proof.
  intros Hinv Hl Ha Hp. pose proof (alloc_spec m lv l Hinv Hl) as Hs. cbv zeta in Hs.
  destruct (alloc_inv m lv l p _ Hinv Hl Ha) as (m' & Heq & Hbl & Hinv'). simplify_eq.
  rewrite (proj2 (Z.eqb_neq _ _) Hp) in Hinv'.
  pose proof (find_empty_blocks_spec (bitmap (pool_of l) m) _ (nblocks_pos l Hl)) as Hff.
  destruct (dealloc_spec m' _ 0 p l Hinv' eq_refl) as (bm' & Hbm' & Hd).
  destruct (find_empty_blocks _ _) as [s|]; [|rewrite Ha in Hs; simplify_eq].
  destruct Hs as (_ & bm & Hbm & Heq). rewrite Ha in Heq. simplify_eq.
  rewrite blocks_with_bitmap in *. rewrite (bitmap_with_bitmap (pool_of l)), decide_True in Hbm' by done.
  pose proof (covers_fresh (blocks m) P128 s l 0 (proj1 (pool_consts (pool_of l)))) as [Hfb _].
  rewrite Hfb in Hbm'. eexists. split; [exact Hd|].
  rewrite !blocks_with_bitmap. split; [done|]. intros q. rewrite !bitmap_with_bitmap.
  case_decide; [|done]. subst q. rewrite Hbm', Hbm. apply list_eq. intros i.
  rewrite !set_range_lookup. destruct (_ !! i) as [b|] eqn:Hb; [|done]. simpl. f_equal.
  case_decide as Hr; [|done]. destruct Hff as [Hfree _]. rewrite (Hfree i Hr) in Hb. congruence.
Qed.
End HeapTheorems.

(** ** Witnesses: a heap at 0x10000 with three allocations and one release *)
Module AllocatorExample.
Import Reference.
#[local] Instance checked : Profile := true.

Definition run_alloc (l : Layout) (st : option (Metadata (list bool)))
    : Z * option (Metadata (list bool)) :=
  match alloc l st with Ok r => r | Panic _ => (0, None) end.

Definition page2 : Layout := mk_layout 5000 4096.
Definition small : Layout := mk_layout 200 8.

Definition st0 : option (Metadata (list bool)) :=
  match init 0x10000 None with Ok (_, st) => st | Panic _ => None end.
Definition st1 := (run_alloc page2 st0).2.
Definition st2 := (run_alloc small st1).2.
Definition st3 := (run_alloc small st2).2.
Definition live3 : live := [(0x910100, small); (0x910000, small); (0x10000, page2)].

Lemma st0_init : init 0x10000 None = Ok (tt, st0).
Proof. vm_compute. reflexivity. Qed.

Lemma live3_reachable : rtc heap_step (st0, []) (st3, live3).
Proof.
  eapply rtc_l.
  { apply (step_alloc st0 st1 [] page2 0x10000); [done|vm_compute; reflexivity]. }
  eapply rtc_l.
  { apply (step_alloc st1 st2 _ small 0x910000); [done|vm_compute; reflexivity]. }
  eapply rtc_l; [|apply rtc_refl].
  apply (step_alloc st2 st3 _ small 0x910100); [done|vm_compute; reflexivity].
Qed.

Lemma st0_inv m : st0 = Some m -> heap_inv m [].
Proof.
  intros H. apply (heap_inv_init 0x10000 m); [done|done|]. rewrite <- H. apply st0_init.
Qed.


Lemma heap_never_panics_witness :
  is_ok (alloc small st3) = true /\ is_ok (dealloc 0x910000 small st3) = true.
Proof.
  destruct (heap_never_panics 0x10000 st0 st3 live3) as [H1 H2];
    [done|done|apply st0_init|apply live3_reachable|].
  split; [by apply H1|]. by apply (H2 1%nat 0x910000 small).
Defined.

Definition m0 : Metadata (list bool) := 
  mk_metadata 0x10000 (replicate (Z.to_nat 0x900) false) (replicate (Z.to_nat 0x2000) false).

Lemma m0_inv : heap_inv m0 [].
Proof. apply st0_inv. vm_compute. reflexivity. Qed.

Definition m1 : Metadata (list bool) :=
  match (run_alloc page2 (Some m0)).2 with Some m => m | None => m0 end.

Lemma alloc_first_fit_witness :
  alloc page2 (Some m0) = Ok (0x10000, Some m1) /\
  exists s, 0x10000 = 0x10000 + Z.of_nat s * 4096 /\
    free_run (bitmap4096 m0) s 2.
Proof.
  assert (alloc page2 (Some m0) = Ok (0x10000, Some m1)) as Ha by (vm_compute; reflexivity).
  split; [exact Ha|].
  destruct (alloc_first_fit m0 [] page2 0x10000 m1 m0_inv ltac:(done) Ha)
    as [[Hp _]|(s & Hs & Hfree & _)]; [discriminate Hp|].
  exists s. split; [exact Hs|exact Hfree].
Defined.

Lemma alloc_dealloc_roundtrip_witness :
  exists m2, dealloc 0x10000 page2 (Some m1) = Ok (tt, Some m2) /\
    bitmap P4096 m2 = bitmap4096 m0.
Proof.
  destruct (alloc_dealloc_roundtrip m0 [] page2 0x10000 m1 m0_inv ltac:(done))
    as (m2 & Hd & _ & Hb); [vm_compute; reflexivity|done|].
  exists m2. split; [exact Hd|apply (Hb P4096)].
Defined.
End AllocatorExample.
