(* ===== verification/ApicId.v ===== *)
(** * Processor numbering (hvcore apic_id.rs)

    The map from APIC identifiers to processor numbers built by [init], one
    processor at a time, and consulted by [processor_id_from]. *)

From S2P Require Import Prelude External Machine Platform.

(** The two statics [APIC_ID_MAP] and [PROCESSOR_COUNT]. *)
Record ApicState : Type := mk_apic { APIC_ID_MAP : gmap Z Z; PROCESSOR_COUNT : Z }.

Definition apic_state0 : ApicState := mk_apic ∅ 0.

Section ApicId.
Context {PO : PlatformOps Machine}.

(** [(cpuid!(0x1).ebx >> 24) as u8] on the processor [m]. *)
Definition get (m : Machine) : Z := wrap 8 (Z.shiftr (ebx (hw_cpuid m 1 0)) 24).

(** The closure [init] runs on each processor, under the write lock. *)
Definition init_callback (m : Machine) : M ApicState unit := fun st =>
  let id := PROCESSOR_COUNT st in
  let? _ := oassert (bool_decide (APIC_ID_MAP st !! get m = None)) "map.insert(..).is_none()" in
  Ok (tt, mk_apic (<[get m := id]> (APIC_ID_MAP st)) (id + 1)).

Definition init : M ApicState unit := fun st =>
  let? _ := oassert (PROCESSOR_COUNT st =? 0) "PROCESSOR_COUNT == 0" in
  run_on_all_processors init_callback st.

Definition processor_id_from (apic_id : Z) (st : ApicState) : option Z :=
  APIC_ID_MAP st !! apic_id.
End ApicId.

#[local] Opaque get.

(** ** Lemmas *)

(** The map after numbering the processors [l] from [k] on. *)
Fixpoint numbered (l : list Machine) (k : Z) (map : gmap Z Z) : gmap Z Z :=
  match l with
  | [] => map
  | m :: l' => numbered l' (k + 1) (<[get m := k]> map)
  end.

Lemma numbered_other l k map id : id ∉ get <$> l -> numbered l k map !! id = map !! id.
Proof.
  revert k map. induction l as [|m l IH]; intros k map Hid; [done|]. cbn [numbered].
  rewrite fmap_cons, not_elem_of_cons in Hid. destruct Hid as [Hne Hid].
  rewrite IH by exact Hid. by apply lookup_insert_ne.
Qed.

Lemma numbered_lookup l k map i m : NoDup (get <$> l) -> l !! i = Some m ->
  numbered l k map !! get m = Some (k + Z.of_nat i).
Proof.
  revert k map i. induction l as [|m' l IH]; intros k map i Hnd Hi; [done|].
  apply NoDup_cons in Hnd as [Hnot Hnd]. destruct i as [|i]; simpl in *.
  - simplify_eq. rewrite numbered_other by done. rewrite lookup_insert_eq. f_equal. lia.
  - rewrite (IH _ _ i) by done. f_equal. lia.
Qed.

Lemma init_callbacks_ok l st :
  NoDup (get <$> l) -> (forall m, m ∈ l -> APIC_ID_MAP st !! get m = None) ->
  run_one_by_one init_callback l st =
    Ok (tt, mk_apic (numbered l (PROCESSOR_COUNT st) (APIC_ID_MAP st))
                    (PROCESSOR_COUNT st + Z.of_nat (length l))).
Proof.
  revert st. induction l as [|m l IH]; intros st Hnd Hfresh.
  - simpl. rewrite Z.add_0_r. by destruct st.
  - apply NoDup_cons in Hnd as [Hnot Hnd]. simpl. unfold bind, init_callback at 1.
    rewrite bool_decide_true by (apply Hfresh; by left). simpl.
    rewrite IH; simpl; [|done|].
    + do 3 f_equal. lia.
    + intros m' Hm'. rewrite lookup_insert_ne; [apply Hfresh; by right|].
      intros Heq. apply Hnot. rewrite Heq. apply list_elem_of_fmap_2. done.
Qed.

Lemma init_callbacks_dup l st st' :
  run_one_by_one init_callback l st = Ok (tt, st') ->
  NoDup (get <$> l) /\ forall m, m ∈ l -> APIC_ID_MAP st !! get m = None.
Proof.
  revert st. induction l as [|m l IH]; intros st Hrun.
  - split; [constructor|]. by intros m Hm%not_elem_of_nil.
  - simpl in Hrun. apply bind_ok in Hrun as ([] & s1 & Hm & Hl).
    unfold init_callback in Hm. case_bool_decide as Hnone; [|done]. simpl in Hm. simplify_eq.
    destruct (IH _ Hl) as [Hnd Hfresh]. simpl in Hfresh. split.
    + rewrite fmap_cons. constructor; [|done]. intros Hin.
      apply list_elem_of_fmap_1 in Hin as (m' & Heq & Hin). specialize (Hfresh m' Hin).
      rewrite Heq, lookup_insert_eq in Hfresh. done.
    + intros m' Hm'. apply elem_of_cons in Hm' as [->|Hin]; [done|].
      specialize (Hfresh m' Hin). apply lookup_insert_None in Hfresh. tauto.
Qed.

Section ApicIdTheorems.
Context {PO : PlatformOps Machine}.

Lemma init_fresh st : init apic_state0 = Ok (tt, st) <->
  NoDup (get <$> processors) /\
  st = mk_apic (numbered processors 0 ∅) (Z.of_nat (length processors)).
Proof.
  unfold init. simpl. rewrite run_on_all_spec. split.
  - intros Hrun. destruct (init_callbacks_dup _ _ _ Hrun) as [Hnd _].
    rewrite init_callbacks_ok in Hrun by (simpl; done). by simplify_eq.
  - intros [Hnd ->]. by rewrite init_callbacks_ok by (simpl; done).
Qed.

(** [init] on a fresh state succeeds exactly when the APIC identifiers
    of the processors are distinct; then identifiers and numbers correspond
    one to one: the i-th processor the callback ran on has number i, and
    every other identifier is unknown. *)
Lemma init_numbers_processors :
  (NoDup (get <$> processors) <-> exists st, init apic_state0 = Ok (tt, st)) /\
  (forall st, init apic_state0 = Ok (tt, st) ->
     PROCESSOR_COUNT st = Z.of_nat (length processors) /\
     (forall i m, processors !! i = Some m -> processor_id_from (get m) st = Some (Z.of_nat i)) /\
     (forall id n, processor_id_from id st = Some n ->
        exists m, processors !! Z.to_nat n = Some m /\ get m = id)).
Proof.
  split.
  - split; [intros Hnd; eexists; by apply init_fresh|]. intros [st Hst].
    apply init_fresh in Hst as [Hnd _]. exact Hnd.
  - intros st [Hnd ->]%init_fresh. unfold processor_id_from. simpl. split_and!; [done| |].
    + intros i m Hi. rewrite (numbered_lookup _ _ _ i) by done. done.
    + intros id n Hid. destruct (decide (id ∈ get <$> processors)) as [Hin|Hout].
      * apply list_elem_of_fmap_1 in Hin as (m & -> & Hin).
        apply list_elem_of_lookup_1 in Hin as [i Hi].
        rewrite (numbered_lookup _ _ _ i) in Hid by done. simplify_eq. exists m.
        by rewrite Z.add_0_l, Nat2Z.id.
      * rewrite numbered_other in Hid by done. done.
Qed.

(** A second [init] on a numbered system panics: the hypervisor cannot be
    installed again after it was removed. *)
Lemma init_twice_panics st st' : processors <> [] ->
  init apic_state0 = Ok (tt, st) -> init st <> Ok (tt, st').
Proof.
  intros Hne [_ ->]%init_fresh. unfold init. simpl. destruct processors; [done|]. by simpl.
Qed.
End ApicIdTheorems.

(** ** Witness: two processors under UEFI, with APIC identifiers 0 and 4 *)
Module ApicIdExample.
Definition cpu (apic_id : Z) : Machine :=
  mk_machine (fun _ => 0) ∅ (fun _ => 0) (fun _ => 0) VmxOff ∅
    (fun leaf _ => mk_cpuid 0 (Z.shiftl apic_id 24) 0 0) (fun _ => (0, 0)) (fun _ => (0, 0)).

#[local] Instance two_processors : PlatformOps Machine := UefiOps (cpu 0) [cpu 4].

Definition numbered2 : ApicState := mk_apic {[ 0 := 0; 4 := 1 ]} 2.

Lemma init_numbers_processors_witness :
  init apic_state0 = Ok (tt, numbered2) /\ processor_id_from (get (cpu 4)) numbered2 = Some 1.
Proof.
  assert (init apic_state0 = Ok (tt, numbered2)) as Hrun by (vm_compute; reflexivity).
  split; [exact Hrun|].
  destruct init_numbers_processors as [_ H]. destruct (H _ Hrun) as (_ & Hid & _).
  exact (Hid 1%nat (cpu 4) eq_refl).
Defined.
End ApicIdExample.
