(* ===== verification/Segment.v ===== *)
(** * Segment descriptors (hvcore segment.rs, and the helpers of amd/guest.rs)

    Reading a descriptor table through its GDTR, decoding the base of an 8-
    or 16-byte descriptor, and the attributes and limits SVM wants. *)

From S2P Require Import Prelude External Machine.

(** System descriptor types in 64-bit mode. *)
Definition TssAvailable : Z := 9.
Definition TssBusy : Z := 11.

Inductive SegmentError : Type :=
  | NullDescriptor (selector : Z)
  | LdtAccess (selector : Z)
  | OutOfGdtAccess (index : Z)
  | InvalidGdtEntry (index entry : Z).

Record SegmentDescriptor : Type := mk_sd { low64 : Z; upper_base : option Z }.

(** [Result<SegmentDescriptor, SegmentError>] *)
Inductive result (T E : Type) : Type := ROk (t : T) | RErr (e : E).
Arguments ROk {T E} _.
Arguments RErr {T E} _.

Section Segment.
Context {P : Profile} {BT : BitFieldTrait} {XS : X86Segmentation}.

(** [SegmentDescriptorRaw::is_16byte] *)
Definition is_16byte (raw : Z) : bool :=
  let high32 := get_bits raw 32 63 in
  let system := get_bit high32 12 in
  let type_ := wrap 8 (get_bits high32 8 11) in
  negb system && ((type_ =? TssAvailable) || (type_ =? TssBusy)).

(** [SegmentDescriptorRaw::base], with the [unwrap] of [u32::try_from]. *)
Definition raw_base (raw : Z) : outcome Z :=
  let low32 := get_bits raw 0 31 in
  let high32 := get_bits raw 32 63 in
  let base_high := wrap 64 (Z.shiftl (get_bits high32 24 31) 24) in
  let base_middle := wrap 64 (Z.shiftl (get_bits high32 0 7) 16) in
  let base_low := get_bits low32 16 31 in
  let b := Z.lor (Z.lor base_high base_middle) base_low in
  if b <? 2 ^ 32 then Ok b else Panic "u32::try_from".

(** [slice::from_raw_parts(gdtr.base, usize::from(gdtr.limit + 1) / 8)];
    the sum is computed in 16 bits. *)
Definition gdt_slice (mem : Z -> Z) (gdtr : DescriptorTablePointer) : outcome (list Z) :=
  let? size := add_w 16 (dtp_limit gdtr) 1 in
  Ok (map (fun i => mem (dtp_base gdtr + 8 * Z.of_nat i)) (seq 0 (Z.to_nat (size / 8)))).

Definition try_from_gdtr (mem : Z -> Z) (gdtr : DescriptorTablePointer) (selector : Z)
    : outcome (result SegmentDescriptor SegmentError) :=
  if sel_is_ldt selector then Ok (RErr (LdtAccess selector)) else
  let index := sel_index selector in
  if index =? 0 then Ok (RErr (NullDescriptor selector)) else
  let? gdt := gdt_slice mem gdtr in
  match gdt !! Z.to_nat index with
  | None => Ok (RErr (OutOfGdtAccess index))
  | Some raw =>
      if is_16byte raw then
        let index := index + 1 in
        match gdt !! Z.to_nat index with
        | None => Ok (RErr (OutOfGdtAccess index))
        | Some raw2 =>
            if raw2 <? 2 ^ 32 then Ok (ROk (mk_sd raw (Some raw2)))
            else Ok (RErr (InvalidGdtEntry index raw2))
        end
      else Ok (ROk (mk_sd raw None))
  end.

(** [SegmentDescriptor::base] *)
Definition descriptor_base (d : SegmentDescriptor) : outcome Z :=
  let? b := raw_base (low64 d) in
  match upper_base d with
  | Some u => Ok (Z.lor b (wrap 64 (Z.shiftl u 32)))
  | None => Ok b
  end.

(** ** The helpers of amd/guest.rs *)

Definition get_segment_descriptor_value (mem : Z -> Z) (table_base selector : Z) : outcome Z :=
  let? off := mul_w 16 (sel_index selector) 8 in
  let? descriptor_addr := add_w 64 table_base off in
  Ok (mem descriptor_addr).

Definition get_segment_access_right (mem : Z -> Z) (table_base selector : Z) : outcome Z :=
  let? descriptor_value := get_segment_descriptor_value mem table_base selector in
  let ar := wrap 16 (Z.shiftr descriptor_value 40) in
  let upper_ar := Z.land (Z.shiftr ar 4) 0xf00 in
  let lower_ar := Z.land ar 0xff in
  Ok (Z.lor lower_ar upper_ar).

Definition get_segment_limit (mem : Z -> Z) (table_base selector : Z) : outcome Z :=
  if (sel_index selector =? 0) && (Z.shiftr selector 2 =? 0) then Ok 0 else
  let? descriptor_value := get_segment_descriptor_value mem table_base selector in
  let limit_low := Z.land descriptor_value 0xffff in
  let limit_high := Z.land (Z.shiftr descriptor_value (32 + 16)) 0xf in
  let limit := Z.lor limit_low (wrap 64 (Z.shiftl limit_high 16)) in
  if negb (Z.land (Z.shiftr descriptor_value (32 + 23)) 1 =? 0) then
    let? l1 := add_w 64 limit 1 in
    let? l2 := shl_w 64 l1 BASE_PAGE_SHIFT in
    let? l3 := sub_w 64 l2 1 in
    Ok (wrap 32 l3)
  else Ok (wrap 32 limit).
End Segment.

(** ** The architecture's layout of a descriptor *)

(** Base of a descriptor: bits 16-39 and 56-63. *)
Definition spec_base (raw : Z) : Z := field raw 16 24 + field raw 56 8 * 2 ^ 24.

(** Limit of a descriptor: bits 0-15 and 48-51, in pages when bit 55 is set. *)
Definition spec_limit (raw : Z) : Z :=
  let l := field raw 0 16 + field raw 48 4 * 2 ^ 16 in
  if Z.testbit raw 55 then l * 4096 + 4095 else l.

(** A 64-bit available or busy TSS. *)
Definition spec_is_tss (raw : Z) : bool :=
  (field raw 40 5 =? 9) || (field raw 40 5 =? 11).

(** The base a selector designates, or why it designates none: the source's
    [SegmentError]s over the architecture's descriptor layout. *)
Definition spec_segment (mem : Z -> Z) (gdtr : DescriptorTablePointer) (selector : Z)
    : result Z SegmentError :=
  let entries := (dtp_limit gdtr + 1) / 8 in
  let entry i := mem (dtp_base gdtr + 8 * i) in
  let i := selector / 8 in
  if Z.testbit selector 2 then RErr (LdtAccess selector)
  else if i =? 0 then RErr (NullDescriptor selector)
  else if entries <=? i then RErr (OutOfGdtAccess i)
  else if spec_is_tss (entry i) then
    if entries <=? i + 1 then RErr (OutOfGdtAccess (i + 1))
    else if entry (i + 1) <? 2 ^ 32 then ROk (spec_base (entry i) + entry (i + 1) * 2 ^ 32)
    else RErr (InvalidGdtEntry (i + 1) (entry (i + 1)))
  else ROk (spec_base (entry i)).

Section SegmentTheorems.
Context {P : Profile} {BT : BitFieldTrait} {XS : X86Segmentation}.

Lemma get_bits_field x lo hi : 0 <= lo <= hi -> 0 <= x ->
  get_bits x lo hi = field x lo (hi - lo + 1).
Proof. intros. by rewrite get_bits_spec by done. Qed.

Lemma field_field x lo n lo' n' : 0 <= x -> 0 <= lo -> 0 <= n -> 0 <= lo' -> 0 <= n' ->
  lo' + n' <= n -> field (field x lo n) lo' n' = field x (lo + lo') n'.
Proof.
  intros. apply Z.bits_inj'. intros i Hi. rewrite !field_testbit by lia.
  destruct (Z.ltb_spec i n'); simpl; [|done]. rewrite (proj2 (Z.ltb_lt _ _)) by lia.
  simpl. f_equal. lia.
Qed.

Lemma spec_base_width raw : in_width 32 (spec_base raw).
Proof.
  unfold spec_base. pose proof (field_range raw 16 24 ltac:(done)) as H1.
  pose proof (field_range raw 56 8 ltac:(done)) as H2. unfold in_width in *. lia.
Qed.

Lemma raw_base_spec raw : in_width 64 raw -> raw_base raw = Ok (spec_base raw).
Proof.
  intros [H0 H1]. unfold raw_base.
  rewrite !get_bits_field by (try lia; rewrite ?get_bits_field by lia; apply field_range; lia).
  rewrite !field_field by lia. zconst.
  pose proof (field_range raw 56 8 ltac:(done)) as Hh. pose proof (field_range raw 32 8 ltac:(done)) as Hm.
  pose proof (field_range raw 16 16 ltac:(done)) as Hw. unfold in_width in *.
  rewrite !Z.shiftl_mul_pow2 by lia. rewrite !wrap_small by (unfold in_width; lia).
  rewrite Z.lor_comm, (Z.lor_comm (field raw 56 8 * _)), Z.lor_assoc.
  rewrite (lor_add (field raw 16 16)) by (unfold in_width; lia).
  rewrite lor_add by (unfold in_width; lia).
  pose proof (field_split raw 16 16 8) as Hs. change (16 + 8) with 24 in Hs.
  change (16 + 16) with 32 in Hs. rewrite <- Hs by lia. fold (spec_base raw).
  rewrite (proj2 (Z.ltb_lt _ _)) by apply spec_base_width. done.
Qed.

Lemma is_16byte_spec raw : in_width 64 raw -> is_16byte raw = spec_is_tss raw.
Proof.
  intros [H0 H1]. unfold is_16byte, spec_is_tss.
  rewrite get_bit_spec by (try lia; rewrite ?get_bits_field by lia; apply field_range; lia).
  rewrite !get_bits_field by (try lia; rewrite ?get_bits_field by lia; apply field_range; lia).
  rewrite field_field, field_testbit by lia. zconst.
  pose proof (field_range raw 40 4 ltac:(done)) as Hr. unfold in_width in Hr.
  rewrite wrap_small by (unfold in_width; lia).
  pose proof (field_split raw 40 4 1) as Hs. change (4 + 1) with 5 in Hs.
  change (40 + 4) with 44 in Hs. rewrite Hs by lia.
  rewrite (field_bit raw 44).
  destruct (Z.testbit raw 44).
  - change (b2z true * 2 ^ 4) with 16. cbn [negb andb]. zcases; done.
  - change (b2z false * 2 ^ 4) with 0. rewrite Z.add_0_r. done.
Qed.

Lemma limit_of_raw raw : in_width 64 raw ->
  (let limit_low := Z.land raw 0xffff in
   let limit_high := Z.land (raw / 2 ^ (32 + 16)) 0xf in
   let limit := Z.lor limit_low (wrap 64 (Z.shiftl limit_high 16)) in
   if negb (Z.land (raw / 2 ^ (32 + 23)) 1 =? 0) then
     let? l1 := add_w 64 limit 1 in
     let? l2 := shl_w 64 l1 BASE_PAGE_SHIFT in
     let? l3 := sub_w 64 l2 1 in
     Ok (wrap 32 l3)
   else Ok (wrap 32 limit)) = Ok (spec_limit raw).
Proof.
  intros Hraw. cbv zeta. rewrite <- !Z.shiftr_div_pow2 by done.
  change 0xffff with (Z.ones 16). change 0xf with (Z.ones 4). change (Z.land ?x 1) with (Z.land x (Z.ones 1)).
  rewrite !Z.land_ones by done. change (32 + 16) with 48. change (32 + 23) with 55.
  fold (wrap 4 (Z.shiftr raw 48)) (wrap 1 (Z.shiftr raw 55)).
  fold (field raw 48 4) (field raw 55 1).
  replace (raw mod 2 ^ 16) with (field raw 0 16) by (unfold field; by rewrite Z.shiftr_0_r).
  pose proof (field_range raw 48 4 ltac:(done)) as Hh.
  pose proof (field_range raw 0 16 ltac:(done)) as Hl. unfold in_width in Hh, Hl.
  rewrite Z.shiftl_mul_pow2, wrap_small by (unfold in_width; lia).
  rewrite lor_add by (unfold in_width; lia). rewrite field_bit. unfold spec_limit.
  set (l := field raw 0 16 + field raw 48 4 * 2 ^ 16) in *.
  assert (0 <= l < 2 ^ 20) as Hlim by (subst l; lia). clearbody l.
  destruct (Z.testbit raw 55); cbn [b2z Z.eqb negb].
  - rewrite add_w_small by (unfold in_width; lia). cbn [obind]. unfold shl_w, BASE_PAGE_SHIFT.
    change (12 <? 64) with true. cbv iota.
    rewrite Z.shiftl_mul_pow2, wrap_small by (unfold in_width; lia). cbn [obind].
    rewrite sub_w_small by (unfold in_width; lia). cbn [obind].
    rewrite wrap_small by (unfold in_width; lia). f_equal. lia.
  - rewrite wrap_small by (unfold in_width; lia). done.
Qed.

Lemma gdt_slice_lookup mem gdtr i : 0 <= dtp_limit gdtr < 0xffff -> 0 <= i ->
  exists gdt, gdt_slice mem gdtr = Ok gdt /\
    gdt !! Z.to_nat i = if (dtp_limit gdtr + 1) / 8 <=? i then None
                        else Some (mem (dtp_base gdtr + 8 * i)).
Proof.
  intros Hl Hi. unfold gdt_slice. rewrite add_w_small by (unfold in_width; lia). simpl.
  eexists. split; [done|]. destruct (Z.leb_spec ((dtp_limit gdtr + 1) / 8) i).
  - apply lookup_ge_None. rewrite length_map, length_seq. lia.
  - rewrite lookup_map_seq by lia. rewrite Z2Nat.id by lia. done.
Qed.

Lemma try_from_gdtr_base mem gdtr selector :
  (forall a, in_width 64 (mem a)) -> 0 <= dtp_limit gdtr < 0xffff -> in_width 16 selector ->
  match try_from_gdtr mem gdtr selector with
  | Ok (ROk d) => exists b, spec_segment mem gdtr selector = ROk b /\ descriptor_base d = Ok b
  | Ok (RErr e) => spec_segment mem gdtr selector = RErr e
  | Panic _ => False
  end.
Proof.
  intros Hmem Hl Hsel. unfold try_from_gdtr, spec_segment.
  rewrite sel_is_ldt_spec, sel_index_spec by done. destruct (Z.testbit selector 2); [done|].
  rewrite Z.shiftr_div_pow2 by done. change (2 ^ 3) with 8.
  assert (0 <= selector / 8) as Hi by (apply Z.div_pos; [apply Hsel|done]).
  set (i := selector / 8) in *. destruct (i =? 0); [done|].
  destruct (gdt_slice_lookup mem gdtr i Hl Hi) as (gdt & Hg & Hlook).
  destruct (gdt_slice_lookup mem gdtr (i + 1) Hl ltac:(lia)) as (gdt' & Hg' & Hlook').
  rewrite Hg in Hg'. injection Hg' as <-. rewrite Hg. cbn [obind]. rewrite Hlook, Hlook'.
  destruct (_ <=? i); [done|].
  rewrite is_16byte_spec by done. destruct (spec_is_tss _).
  2: { eexists. split; [done|]. unfold descriptor_base. cbn [low64 upper_base].
       rewrite raw_base_spec by done. done. }
  destruct (_ <=? i + 1); [done|]. destruct (Z.ltb_spec (mem (dtp_base gdtr + 8 * (i + 1))) (2 ^ 32))
    as [Hu|]; [|done].
  eexists. split; [done|]. unfold descriptor_base. cbn [low64 upper_base].
  rewrite raw_base_spec by done. cbn [obind]. do 2 f_equal.
  pose proof (Hmem (dtp_base gdtr + 8 * (i + 1))) as [Hu0 _].
  rewrite Z.shiftl_mul_pow2, wrap_small by (unfold in_width; lia).
  apply lor_add; [done|apply spec_base_width|done].
Qed.

(** Following a selector through the GDTR either yields the base the
    descriptor holds, 64 bits of it for a TSS, or exactly the error that
    describes why the selector designates no descriptor; nothing panics
    as long as the table limit is below 0xffff. *)
Lemma descriptor_base_spec mem gdtr selector :
  (forall a, in_width 64 (mem a)) -> 0 <= dtp_limit gdtr < 0xffff -> in_width 16 selector ->
  match try_from_gdtr mem gdtr selector with
  | Ok (ROk d) => exists b, spec_segment mem gdtr selector = ROk b /\ descriptor_base d = Ok b
  | Ok (RErr e) => spec_segment mem gdtr selector = RErr e
  | Panic _ => False
  end.
Proof. apply try_from_gdtr_base. Qed.

(** A GDT of the maximal size, limit 0xffff, defeats the computation
    of its number of entries: with overflow checks following any selector
    panics, and without them the table looks empty. *)
Lemma full_gdt_is_rejected mem gdtr selector :
  dtp_limit gdtr = 0xffff -> in_width 16 selector ->
  Z.testbit selector 2 = false -> 8 <= selector ->
  try_from_gdtr mem gdtr selector =
    if overflow_checks then Panic "arithmetic overflow"
    else Ok (RErr (OutOfGdtAccess (selector / 8))).
Proof.
  intros Hl Hsel Hldt H8. unfold try_from_gdtr.
  rewrite sel_is_ldt_spec, sel_index_spec, Hldt by done.
  rewrite Z.shiftr_div_pow2 by done. change (2 ^ 3) with 8.
  assert (1 <= selector / 8) by (apply Z.div_le_lower_bound; lia).
  rewrite (proj2 (Z.eqb_neq _ _)) by lia. unfold gdt_slice, add_w, arith. rewrite Hl.
  change ((0 <=? 0xffff + 1) && (0xffff + 1 <? 2 ^ 16)) with false. cbv iota.
  destruct overflow_checks; [done|]. cbn [obind].
  change (wrap 16 (0xffff + 1) / 8) with 0. reflexivity.
Qed.

Lemma descriptor_value_ok mem table_base selector :
  in_width 16 selector -> 0 <= table_base -> table_base + 0x1_0000 <= 2 ^ 64 ->
  get_segment_descriptor_value mem table_base selector = Ok (mem (table_base + 8 * (selector / 8))).
Proof.
  intros [H0 H1] Ht0 Ht1. unfold get_segment_descriptor_value.
  rewrite sel_index_spec, Z.shiftr_div_pow2 by done. change (2 ^ 3) with 8.
  pose proof (Z.mul_div_le selector 8 ltac:(lia)).
  assert (0 <= selector / 8) by (apply Z.div_pos; lia).
  rewrite mul_w_small by (unfold in_width; lia). cbn [obind].
  rewrite add_w_small by (unfold in_width; lia). cbn [obind]. do 3 f_equal. lia.
Qed.

(** The attributes and the limit SVM wants, from the table in memory. *)
Definition segment_attributes (mem : Z -> Z) (table_base selector : Z) : Z :=
  let raw := mem (table_base + 8 * (selector / 8)) in field raw 40 8 + field raw 52 4 * 2 ^ 8.
Definition segment_limit (mem : Z -> Z) (table_base selector : Z) : Z :=
  if selector <? 4 then 0 else spec_limit (mem (table_base + 8 * (selector / 8))).

Lemma segment_attributes_ok mem table_base selector :
  (forall a, in_width 64 (mem a)) -> in_width 16 selector ->
  0 <= table_base -> table_base + 0x1_0000 <= 2 ^ 64 ->
  get_segment_access_right mem table_base selector = Ok (segment_attributes mem table_base selector) /\
  get_segment_limit mem table_base selector = Ok (segment_limit mem table_base selector).
Proof.
  intros Hmem Hsel Ht0 Ht1. unfold segment_attributes, segment_limit.
  set (raw := mem (table_base + 8 * (selector / 8))). split.
  - unfold get_segment_access_right. rewrite descriptor_value_ok by done. cbn [obind].
    fold raw. f_equal. rewrite <- lor_add by (try apply field_range; lia).
    rewrite <- Z.shiftl_mul_pow2 by lia. f_equal.
    + change 0xff with (Z.ones 8). unfold field, wrap. bitblast.
    + change 0xf00 with (Z.shiftl (Z.ones 4) 8). unfold field, wrap. bitblast.
  - unfold get_segment_limit. rewrite descriptor_value_ok by done. cbn [obind]. fold raw.
    rewrite sel_index_spec, !Z.shiftr_div_pow2 by (try done; lia).
    change (2 ^ 3) with 8. change (2 ^ 2) with 4.
    destruct (Z.ltb_spec selector 4) as [Hs|Hs].
    + rewrite !Z.div_small by (unfold in_width in Hsel; lia). done.
    + rewrite (proj2 (Z.eqb_neq (selector / 4) 0)), andb_false_r.
      2: { pose proof (Z.div_le_lower_bound selector 4 1). lia. }
      apply limit_of_raw, Hmem.
Qed.
(** The attributes written to the VMCB are bits 40-47 (type, S, DPL, P)
    and 52-55 (AVL, L, D/B, G) of the descriptor, packed; the limit is the
    architecture's, scaled by the granularity bit; a null GDT selector gets
    limit 0; neither computation overflows. *)
Theorem segment_attributes_spec mem table_base selector :
  (forall a, in_width 64 (mem a)) -> in_width 16 selector ->
  0 <= table_base -> table_base + 0x1_0000 <= 2 ^ 64 ->
  let raw := mem (table_base + 8 * (selector / 8)) in
  get_segment_access_right mem table_base selector =
    Ok (field raw 40 8 + field raw 52 4 * 2 ^ 8) /\
  get_segment_limit mem table_base selector =
    Ok (if selector <? 4 then 0 else spec_limit raw).
Proof. intros Hmem Hsel Ht0 Ht1 raw. by apply segment_attributes_ok. Qed.
End SegmentTheorems.

(** ** Witnesses: the GDT of the unit test in segment.rs *)
Module SegmentExample.
Import Reference.
#[local] Instance checked : Profile := true.

Definition test_gdt : list Z :=
  [0x0000000000000000; 0x0000000000000000; 0x00209b0000000000; 0x0040930000000000;
   0x00cffb000000ffff; 0x00cff3000000ffff; 0x0020fb0000000000; 0x0000000000000000;
   0x71008be7b0000067; 0x00000000fffff805; 0x0040f30000003c00; 0x0000000000000000;
   0x0000000000000000; 0x0000000000000000].

Definition test_mem (a : Z) : Z := default 0 (test_gdt !! Z.to_nat ((a - 0x1000) / 8)).

Lemma test_mem_wf a : in_width 64 (test_mem a).
Proof.
  unfold test_mem. destruct (test_gdt !! _) as [x|] eqn:Hx; [|done]. simpl.
  assert (Forall (fun x => (0 <=? x) && (x <? 2 ^ 64) = true) test_gdt) as Hall
    by (repeat constructor).
  pose proof (Forall_lookup_1 _ _ _ _ Hall Hx) as H. cbv beta in H.
  apply andb_true_iff in H as [H1%Z.leb_le H2%Z.ltb_lt]. done.
Qed.

Definition test_gdtr : DescriptorTablePointer := mk_dtp 0x1000 0x6f.

(** The test itself: the bases of CS, SS, DS, TR and FS. *)
Definition base_test : outcome unit :=
  let base selector :=
    let? r := try_from_gdtr test_mem test_gdtr selector in
    match r with
    | ROk d => descriptor_base d
    | RErr _ => Panic "try_from_gdtr(..).unwrap()"
    end in
  let assert_base selector expected := let? b := base selector in oassert (b =? expected) "assert_eq!" in
  let cs := 0x10 in
  let ss := 0x18 in
  let ds := 0x2b in
  let tr := 0x40 in
  let fs := 0x53 in
  let? _ := assert_base cs 0 in
  let? _ := assert_base ss 0 in
  let? _ := assert_base ds 0 in
  let? _ := assert_base tr 0xfffff80571e7b000 in
  assert_base fs 0.

Example base_test_passes : base_test = Ok tt.
Proof. vm_compute. reflexivity. Qed.

Lemma descriptor_base_spec_witness :
  exists d, try_from_gdtr test_mem test_gdtr 0x40 = Ok (ROk d) /\
            descriptor_base d = Ok 0xfffff80571e7b000.
Proof.
  pose proof (descriptor_base_spec test_mem test_gdtr 0x40 test_mem_wf ltac:(done) ltac:(done)) as H.
  destruct (try_from_gdtr test_mem test_gdtr 0x40) as [[d|e]|why] eqn:Hd;
    [|vm_compute in Hd; discriminate Hd|destruct H].
  exists d. split; [done|]. destruct H as (b & Hb & ->).
  vm_compute in Hb. injection Hb as <-. done.
Defined.

Lemma full_gdt_is_rejected_witness :
  try_from_gdtr test_mem (mk_dtp 0x1000 0xffff) 0x40 = Panic "arithmetic overflow".
Proof.
  pose proof (full_gdt_is_rejected test_mem (mk_dtp 0x1000 0xffff) 0x40 ltac:(done) ltac:(done)
    ltac:(reflexivity) ltac:(done)) as H. exact H.
Defined.

Lemma segment_attributes_spec_witness :
  get_segment_access_right test_mem 0x1000 0x23 = Ok 0xcfb /\
  get_segment_limit test_mem 0x1000 0x23 = Ok 0xffffffff.
Proof.
  destruct (segment_attributes_spec test_mem 0x1000 0x23 test_mem_wf ltac:(done) ltac:(done)
    ltac:(done)) as [-> ->].
  split; vm_compute; reflexivity.
Defined.
End SegmentExample.
