(* ===== verification/Tables.v ===== *)
(** * Descriptor tables of the host (hvcore gdt_tss.rs and interrupt_handlers.rs)

    Cloning the current GDT with a TSS appended to it, applying it, and
    building the host IDT. *)

From S2P Require Import Prelude External Machine Segment.

(** ** GDT and TSS *)

(** The [x86] crate's task state segment and its descriptor builder: the low
    64 bits of a present 64-bit TSS descriptor of privilege level 0, which
    have room for 32 bits of the base. *)
Class X86Task : Type := {
  TaskStateSegment : Type;
  size_of_tss : Z;
  tss_descriptor : Z -> Z -> Z;
  tss_descriptor_width : forall base limit, in_width 64 (tss_descriptor base limit);
  tss_descriptor_is_tss : forall base limit, spec_is_tss (tss_descriptor base limit) = true;
  tss_descriptor_base : forall base limit, spec_base (tss_descriptor base limit) = wrap 32 base;
}.

Inductive GdtTssError : Type := TssAlreadyInUse.

Section GdtTss.
Context {P : Profile} {BT : BitFieldTrait} {XS : X86Segmentation} {XT : X86Task}.

Record GdtTssRaw : Type := mk_gdt_tss {
  gdt : list Z;
  cs : Z;
  tss : option TaskStateSegment;
  tr_sel : option Z;
}.

(** [sgdt] of a fresh pointer. *)
Definition gdt_tss_sgdt : M Machine DescriptorTablePointer := sgdt.

Definition task_segment_descriptor (tss_addr : Z) : Z :=
  let base := tss_addr in
  let limit := size_of_tss - 1 in
  tss_descriptor base limit.

(** [load] reads the TSS at an address. *)
Definition new_from_current (load : Z -> TaskStateSegment) : M Machine GdtTssRaw := fun m =>
  let? (gdtr, m) := gdt_tss_sgdt m in
  let? gdt := gdt_slice (mem m) gdtr in
  let tr := if sys m TR =? 0 then None else Some (sys m TR) in
  let? tss := match tr with
              | Some tr =>
                  let? r := try_from_gdtr (mem m) gdtr tr in
                  match r with
                  | ROk sg => let? b := descriptor_base sg in Ok (Some (load b))
                  | RErr _ => Panic "try_from_gdtr(..).unwrap()"
                  end
              | None => Ok None
              end in
  Ok (mk_gdt_tss gdt (sys m CS) tss tr, m).

(** [tss_addr] is the address of the field [tss] of the structure. *)
Definition append_tss (tss_addr : Z) (new_tss : TaskStateSegment) (g : GdtTssRaw) : GdtTssRaw :=
  match tss g, tr_sel g with
  | None, None =>
      let index := wrap 16 (Z.of_nat (length (gdt g))) in
      let descriptor := task_segment_descriptor tss_addr in
      mk_gdt_tss (gdt g ++ [descriptor; 0]) (cs g) (Some new_tss) (Some (sel_new index 0))
  | _, _ => g
  end.

(** [gdt_addr] is the address of the vector; [load_tr] marks nothing else. *)
Definition apply (gdt_addr : Z) (g : GdtTssRaw) : M Machine (result unit GdtTssError) :=
  let! t := tr in
  if negb (t =? 0) then ret (RErr TssAlreadyInUse)
  else
    lgdt (mk_dtp gdt_addr (wrap 16 (8 * Z.of_nat (length (gdt g)) - 1))) ;;!
    match tr_sel g with
    | Some t => sys_write TR t ;;! ret (ROk tt)
    | None => ret (ROk tt)
    end.
End GdtTss.

(** ** IDT *)

Record InterruptDescriptorTableEntry : Type := mk_gate {
  offset_low : Z;
  selector : Z;
  reserved_1 : Z;
  gate_type : Z;
  offset_high : Z;
  offset_upper : Z;
  reserved_2 : Z;
}.

Definition INTERRUPT_GATE : Z := 0x8e.

(** [InterruptDescriptorTableEntry::new] *)
Definition gate_new (handler cs : Z) : InterruptDescriptorTableEntry :=
  {| offset_low := wrap 16 handler;
     selector := cs;
     reserved_1 := 0;
     gate_type := INTERRUPT_GATE;
     offset_high := wrap 16 (Z.shiftr handler 16);
     offset_upper := wrap 32 (Z.shiftr handler 32);
     reserved_2 := 0 |}.

(** [InterruptDescriptorTable::new]: [handler0] is the address of the first
    assembly stub; the loop bound is the length of the array. *)
Definition idt_new {P : Profile} (handler0 cs : Z) : outcome (list InterruptDescriptorTableEntry) :=
  let? r := foreach (fun (i : Z) (_ : unit) =>
              let? off := mul_w 64 0x10 i in
              let? handler := add_w 64 handler0 off in
              Ok (i + 1, gate_new handler cs)) 0 (replicate 0x100 tt) in
  Ok r.2.

Definition size_of_gate : Z := 16.

(** [InterruptDescriptorTable::idtr], with the [unwrap] of [u16::try_from]. *)
Definition idtr (addr : Z) (idt : list InterruptDescriptorTableEntry) : outcome DescriptorTablePointer :=
  let size := size_of_gate * Z.of_nat (length idt) - 1 in
  if size <? 2 ^ 16 then Ok (mk_dtp addr size) else Panic "u16::try_from".

(** The architecture's reading of a gate: the 64-bit offset of its handler. *)
Definition gate_offset (g : InterruptDescriptorTableEntry) : Z :=
  offset_low g + offset_high g * 2 ^ 16 + offset_upper g * 2 ^ 32.

(** ** Shared host data (hvcore mod.rs)

    What the host depends on: the address of its paging structures, its IDT
    with the address of the table, and per processor the address of the GDT
    vector and the GDT with its TSS; [None] keeps the current ones. *)
Record SharedHostData {XT : X86Task} : Type := mk_shared_host {
  host_pt : option Z;
  host_idt : option (Z * list InterruptDescriptorTableEntry);
  host_gdts : option (list (Z * GdtTssRaw));
}.
#[global] Arguments mk_shared_host {XT}.

(** ** Host exceptions *)

(** What the assembly stubs leave on the stack. *)
Record HostExceptionStack : Type := mk_host_exception_stack {
  hes_r15 : Z; hes_r14 : Z; hes_r13 : Z; hes_r12 : Z; hes_r11 : Z; hes_r10 : Z; hes_r9 : Z;
  hes_r8 : Z; hes_rdi : Z; hes_rsi : Z; hes_rbp : Z; hes_rbx : Z; hes_rdx : Z; hes_rcx : Z;
  hes_rax : Z;
  exception_number : Z;
  error_code : Z;
  hes_rip : Z; hes_cs : Z; hes_rflags : Z; hes_rsp : Z; hes_ss : Z;
}.

(** The host takes no exception on purpose: each one is a panic, with CR2 for
    a page fault ([None] is the null pointer). *)
Definition handle_host_exception (stack : option HostExceptionStack) : M Machine Empty_set :=
  massert (bool_decide (is_Some stack)) "!stack.is_null()" ;;!
  let! _ := cr2 in
  mpanic "Exception occurred in host".

(** ** Theorems *)

Lemma gate_new_offset handler cs : in_width 64 handler -> gate_offset (gate_new handler cs) = handler.
Proof.
  intros [H0 H1]. unfold gate_offset, gate_new. cbn [offset_low offset_high offset_upper].
  fold (field handler 16 16) (field handler 32 32).
  replace (wrap 16 handler) with (field handler 0 16) by (unfold field; by rewrite Z.shiftr_0_r).
  pose proof (field_split handler 0 16 16) as Hs1. pose proof (field_split handler 0 32 32) as Hs2.
  change (0 + 16) with 16 in Hs1. change (16 + 16) with 32 in Hs1.
  change (0 + 32) with 32 in Hs2. change (32 + 32) with 64 in Hs2.
  rewrite <- Hs1, <- Hs2 by lia. unfold field. rewrite Z.shiftr_0_r. by apply wrap_small.
Qed.

Section IdtTheorems.
Context {P : Profile}.

(** The host IDT has 256 gates; gate i leads to the i-th 16-byte stub
    after the first, through the given code segment, as a present
    interrupt gate of privilege level 0; the IDTR covers exactly them. *)
Lemma idt_gates handler0 cs addr :
  0 <= handler0 -> handler0 + 0x1000 <= 2 ^ 64 ->
  exists idt, idt_new handler0 cs = Ok idt /\ idtr addr idt = Ok (mk_dtp addr 0xfff) /\
    forall i : nat, (i < 256)%nat -> exists g, idt !! i = Some g /\
      gate_offset g = handler0 + 16 * Z.of_nat i /\ selector g = cs /\
      gate_type g = 0x8e /\ reserved_1 g = 0 /\ reserved_2 g = 0.
Proof.
  intros H0 H1. unfold idt_new.
  pose proof (foreach_spec (fun (i : Z) (_ : unit) =>
    let? off := mul_w 64 0x10 i in let? handler := add_w 64 handler0 off in
    Ok (i + 1, gate_new handler cs)) Z.of_nat
    (fun i => gate_new (handler0 + 16 * Z.of_nat i) cs) (replicate 0x100 tt) 0) as Hloop.
  change (Z.of_nat 0) with 0 in Hloop. rewrite Hloop; clear Hloop.
  - cbn [obind snd]. rewrite length_replicate. eexists. split; [done|]. split.
    + unfold idtr. rewrite length_map, length_seq. done.
    + intros i Hi. rewrite lookup_map_seq by done. eexists. split; [done|].
      split; [apply gate_new_offset; unfold in_width; lia|done].
  - intros i [] Hi. apply lookup_replicate in Hi as [_ Hi]. cbn [Nat.add].
    rewrite mul_w_small by (unfold in_width; lia). cbn [obind].
    rewrite add_w_small by (unfold in_width; lia). cbn [obind]. do 3 f_equal. lia.
Qed.
End IdtTheorems.

Section GdtTssTheorems.
Context {P : Profile} {BT : BitFieldTrait} {XS : X86Segmentation} {XT : X86Task}.

(** A TSS appended to a GDT without one is found again through the new
    selector in the enlarged table, with the base the descriptor can hold:
    the low 32 bits of the address of the TSS (the upper half pushed is
    zero). *)
Lemma append_tss_found g tss_addr t mem0 addr :
  let g' := append_tss tss_addr t g in
  tss g = None -> tr_sel g = None -> 1 <= Z.of_nat (length (gdt g)) < 8000 ->
  (forall a, in_width 64 (mem0 a)) ->
  (forall i x, gdt g' !! i = Some x -> mem0 (addr + 8 * Z.of_nat i) = x) ->
  exists sel d, tr_sel g' = Some sel /\ sel = 8 * Z.of_nat (length (gdt g)) /\
    try_from_gdtr mem0 (mk_dtp addr (8 * Z.of_nat (length (gdt g')) - 1)) sel = Ok (ROk d) /\
    descriptor_base d = Ok (wrap 32 tss_addr).
Proof.
  intros g' Htss Htr Hlen Hwf Hmem. subst g'. unfold append_tss, task_segment_descriptor in *. rewrite Htss, Htr in *.
  cbn [gdt tr_sel] in *. set (n := length (gdt g)) in *.
  pose proof (Hmem n _ ltac:(by apply list_lookup_middle)) as Hn.
  assert (mem0 (addr + 8 * (Z.of_nat n + 1)) = 0) as Hn1.
  { replace (Z.of_nat n + 1) with (Z.of_nat (S n)) by lia. apply Hmem.
    rewrite lookup_app_r by (unfold n; lia). by replace (S n - length (gdt g))%nat with 1%nat by (unfold n; lia). }
  rewrite wrap_small by (unfold in_width; lia).
  pose proof (sel_new_spec (Z.of_nat n) 0 ltac:(lia) ltac:(lia)) as Hsel. rewrite Hsel.
  rewrite length_app. cbn [length]. fold n.
  set (gdtr := mk_dtp addr (8 * Z.of_nat (n + 2) - 1)). set (sel := Z.of_nat n * 8 + 0).
  exists sel.
  assert (in_width 16 sel) as Hw by (unfold sel, in_width; lia).
  assert (spec_segment mem0 gdtr sel = ROk (wrap 32 tss_addr)) as Hspec.
  { unfold spec_segment, gdtr. cbn [dtp_base dtp_limit].
    replace (Z.testbit sel 2) with false.
    2: { symmetry. unfold sel. rewrite Z.add_0_r. apply (Z.mul_pow2_bits_low _ 3 2). lia. }
    assert (sel / 8 = Z.of_nat n) as -> by (unfold sel; rewrite Z.add_0_r; apply Z.div_mul; lia).
    rewrite (proj2 (Z.eqb_neq _ _)) by lia.
    replace (8 * Z.of_nat (n + 2) - 1 + 1) with (Z.of_nat (n + 2) * 8) by lia.
    rewrite Z.div_mul by lia. rewrite !(proj2 (Z.leb_gt _ _)) by lia.
    rewrite Hn, Hn1, tss_descriptor_is_tss. change (0 <? 2 ^ 32) with true. cbv iota.
    rewrite tss_descriptor_base. f_equal. lia. }
  pose proof (try_from_gdtr_base mem0 gdtr sel Hwf ltac:(unfold gdtr; cbn [dtp_limit]; lia) Hw) as H.
  rewrite Hspec in H. destruct (try_from_gdtr mem0 gdtr sel) as [[d|e]|]; [|discriminate H|done].
  destruct H as (b & Hb & Hd). exists d. split; [done|]. split; [unfold sel, n; lia|]. split; [done|]. congruence.
Qed.

(** A GDT that has a TSS already is not changed, and a table is not
    applied over a loaded task register. *)
Theorem tss_in_use g tss_addr t m addr :
  (is_Some (tss g) \/ is_Some (tr_sel g) -> append_tss tss_addr t g = g) /\
  (sys m TR <> 0 -> apply addr g m = Ok (RErr TssAlreadyInUse, m)) /\
  (sys m TR = 0 -> exists m', apply addr g m = Ok (ROk tt, m') /\
     sys m' GDTR_BASE = addr /\ sys m' GDTR_LIMIT = wrap 16 (8 * Z.of_nat (length (gdt g)) - 1) /\
     sys m' TR = default 0 (tr_sel g)).
Proof.
  split_and!.
  - unfold append_tss. intros [[x ->]|[x ->]]; [done|]. by destruct (tss g).
  - intros Hne. unfold apply, tr, sys_read, gets, bind. by rewrite (proj2 (Z.eqb_neq _ _) Hne).
  - intros Htr. unfold apply, tr, sys_read, gets, bind. rewrite Htr. cbn [Z.eqb negb].
    destruct (tr_sel g); eexists; (split; [reflexivity|]); split_and!; try reflexivity. exact Htr.
Qed.
End GdtTssTheorems.

(** ** Witnesses *)
Module TablesExample.
Import Reference.
#[local] Instance checked : Profile := true.

(** A 104-byte TSS; its descriptor has type 9, S 0, DPL 0 and P 1. *)
Definition example_descriptor (base limit : Z) : Z :=
  field limit 0 16 + field base 0 24 * 2 ^ 16 + 0x89 * 2 ^ 40 + field limit 16 4 * 2 ^ 48 +
  field base 24 8 * 2 ^ 56.

Lemma packed_fields a b c d : 0 <= a < 2 ^ 16 -> 0 <= b < 2 ^ 24 -> 0 <= c < 2 ^ 4 -> 0 <= d < 2 ^ 8 ->
  let x := a + b * 2 ^ 16 + 0x89 * 2 ^ 40 + c * 2 ^ 48 + d * 2 ^ 56 in
  in_width 64 x /\ field x 16 24 = b /\ field x 40 5 = 9 /\ field x 56 8 = d.
Proof.
  intros. subst x. rewrite !field_div_mod by done. unfold in_width.
  split_and!; try lia; Z.to_euclidean_division_equations; lia.
Qed.

Lemma example_descriptor_fields base limit :
  in_width 64 (example_descriptor base limit) /\
  field (example_descriptor base limit) 16 24 = field base 0 24 /\
  field (example_descriptor base limit) 40 5 = 9 /\
  field (example_descriptor base limit) 56 8 = field base 24 8.
Proof. apply packed_fields; apply field_range; done. Qed.

#[local, refine] Instance x86_task : X86Task := {
  TaskStateSegment := unit;
  size_of_tss := 0x68;
  tss_descriptor := example_descriptor
}.
Proof.
  - apply example_descriptor_fields.
  - intros. unfold spec_is_tss. by rewrite (proj1 (proj2 (proj2 (example_descriptor_fields _ _)))).
  - intros. unfold spec_base. destruct (example_descriptor_fields base limit) as (_ & -> & _ & ->).
    pose proof (field_split base 0 24 8) as Hs. change (0 + 24) with 24 in Hs.
    change (24 + 8) with 32 in Hs. rewrite <- Hs by done.
    unfold field. by rewrite Z.shiftr_0_r.
Defined.

(** A two-entry GDT whose TSS is appended at 0x1_2345_6000. *)
Definition small_gdt : GdtTssRaw := mk_gdt_tss [0; 0x00209b0000000000] 0x8 None None.
Definition with_tss : GdtTssRaw := append_tss 0x1_2345_6000 tt small_gdt.
Definition gdt_memory (a : Z) : Z := default 0 (gdt with_tss !! Z.to_nat ((a - 0x1000) / 8)).

Lemma gdt_memory_wf a : in_width 64 (gdt_memory a).
Proof.
  unfold gdt_memory. destruct (gdt with_tss !! _) as [x|] eqn:Hx; [|done]. simpl.
  assert (Forall (fun x => (0 <=? x) && (x <? 2 ^ 64) = true) (gdt with_tss)) as Hall
    by (repeat constructor).
  pose proof (Forall_lookup_1 _ _ _ _ Hall Hx) as H. cbv beta in H.
  apply andb_true_iff in H as [H1%Z.leb_le H2%Z.ltb_lt]. done.
Qed.

Lemma gdt_memory_holds i x : gdt with_tss !! i = Some x -> gdt_memory (0x1000 + 8 * Z.of_nat i) = x.
Proof.
  intros Hi. unfold gdt_memory. replace (0x1000 + 8 * Z.of_nat i - 0x1000) with (Z.of_nat i * 8) by lia.
  rewrite Z.div_mul, Nat2Z.id, Hi by lia. done.
Qed.

Lemma append_tss_found_witness : exists d,
  try_from_gdtr gdt_memory (mk_dtp 0x1000 0x1f) 0x10 = Ok (ROk d) /\ descriptor_base d = Ok 0x2345_6000.
Proof.
  destruct (append_tss_found small_gdt 0x1_2345_6000 tt gdt_memory 0x1000 eq_refl eq_refl
    ltac:(cbn; lia) gdt_memory_wf gdt_memory_holds) as (sel & d & Hsel & _ & Hd & Hb).
  vm_compute in Hsel. injection Hsel as <-. exists d. split; [exact Hd|exact Hb].
Defined.

Lemma idt_gates_witness : exists idt,
  idt_new 0x1000 0x8 = Ok idt /\ idtr 0x9000 idt = Ok (mk_dtp 0x9000 0xfff).
Proof.
  destruct (idt_gates 0x1000 0x8 0x9000 ltac:(lia) ltac:(lia)) as (idt & H1 & H2 & _).
  exists idt. split; [exact H1|exact H2].
Defined.
End TablesExample.
