(* ===== verification/Paging.v ===== *)
(** * Host paging structures (hvcore paging_structures.rs)

    The identity map of the first 512 GB that the host runs on, and that the
    AMD nested page tables start from; with the processor's page walk as the
    specification of what a set of tables means. *)

From S2P Require Import Prelude External Platform.

(** ** The page walk of the architecture

    [frames] is physical memory as 4 KB frames of 512 entries.  [walk 3] goes
    from a PML4 down to a page; it returns the entries it used and the
    physical address.  [present] differs between ordinary and extended page
    tables; a large page is not allowed in a PML4. *)
Definition level_shift (n : nat) : Z := 12 + 9 * Z.of_nat n.

Fixpoint walk (present : Z -> bool) (frames : Z -> option (list Z)) (n : nat) (table va : Z)
    : option (list Z * Z) :=
  match frames table with
  | None => None
  | Some t =>
      match t !! Z.to_nat (field va (level_shift n) 9) with
      | None => None
      | Some e =>
          if negb (present e) then None else
          match n with
          | O => Some ([e], field e 12 40 * 2 ^ 12 + va mod 2 ^ 12)
          | S n' =>
              if Z.testbit e 7 then
                if (n <=? 2)%nat then
                  let sh := level_shift n in
                  Some ([e], field e sh (52 - sh) * 2 ^ sh + va mod 2 ^ sh)
                else None
              else
                match walk present frames n' (field e 12 40) va with
                | None => None
                | Some (path, target) => Some (e :: path, target)
                end
          end
      end
  end.

(** One step of the walk through a table that holds [e] at the index of [va]. *)
Lemma walk_dir present frames n table va t e :
  frames table = Some t -> t !! Z.to_nat (field va (level_shift (S n)) 9) = Some e ->
  present e = true -> Z.testbit e 7 = false ->
  walk present frames (S n) table va =
    match walk present frames n (field e 12 40) va with
    | None => None
    | Some (path, target) => Some (e :: path, target)
    end.
Proof. intros Ht He Hp Hl. cbn [walk]. by rewrite Ht, He, Hp, Hl. Qed.

Lemma walk_large present frames n table va t e :
  frames table = Some t -> t !! Z.to_nat (field va (level_shift (S n)) 9) = Some e ->
  present e = true -> Z.testbit e 7 = true -> (S n <= 2)%nat ->
  walk present frames (S n) table va =
    let sh := level_shift (S n) in Some ([e], field e sh (52 - sh) * 2 ^ sh + va mod 2 ^ sh).
Proof.
  intros Ht He Hp Hl Hn. cbn [walk]. rewrite Ht, He, Hp, Hl. cbn [negb].
  by rewrite (proj2 (Nat.leb_le _ _) Hn).
Qed.

Lemma walk_page present frames table va t e :
  frames table = Some t -> t !! Z.to_nat (field va (level_shift 0) 9) = Some e ->
  present e = true ->
  walk present frames 0 table va = Some ([e], field e 12 40 * 2 ^ 12 + va mod 2 ^ 12).
Proof. intros Ht He Hp. cbn [walk]. by rewrite Ht, He, Hp. Qed.

Lemma walk_absent present frames n table va t e :
  frames table = Some t -> t !! Z.to_nat (field va (level_shift n) 9) = Some e ->
  present e = false -> walk present frames n table va = None.
Proof. intros Ht He Hp. destruct n; cbn [walk]; by rewrite Ht, He, Hp. Qed.

(** The index of a level, as a list position. *)
Lemma level_index va lo : (Z.to_nat (field va lo 9) < 512)%nat.
Proof. pose proof (field_range va lo 9 ltac:(lia)) as H. unfold in_width in H. lia. Qed.

(** An address of 39 bits is its three upper indices and its page offset. *)
Lemma address_split va : 0 <= va < 2 ^ 39 ->
  va = field va 30 9 * 2 ^ 30 + field va 21 9 * 2 ^ 21 + va mod 2 ^ 21 /\
  va mod 2 ^ 21 = field va 12 9 * 2 ^ 12 + va mod 2 ^ 12.
Proof.
  intros Hva. rewrite !field_div_mod by done.
  split; Z.to_euclidean_division_equations; lia.
Qed.

(** Access rights are the conjunction over the path. *)
Definition all_set (bit : Z) (path : list Z) : bool := forallb (fun e => Z.testbit e bit) path.
Definition none_set (bit : Z) (path : list Z) : bool :=
  forallb (fun e => negb (Z.testbit e bit)) path.

(** ** The structures *)

Record PagingStructuresRaw : Type := mk_ps {
  pml4 : list Z;
  pdpt : list Z;
  pd : list (list Z);
  pt : list Z;
  pt_apic : list Z;
}.

Definition zero_table : list Z := replicate 512 0.

(** [zeroed_box::<PagingStructuresRaw>()] *)
Definition PagingStructures_new : PagingStructuresRaw :=
  mk_ps zero_table zero_table (replicate 512 zero_table) zero_table zero_table.

(** The tables in memory order, each one page ([repr(C, align(4096))]). *)
Definition nth_table (ps : PagingStructuresRaw) (o : nat) : option (list Z) :=
  (pml4 ps :: pdpt ps :: pd ps ++ [pt ps; pt_apic ps]) !! o.

Definition addr_of_pdpt (ps_addr : Z) : Z := ps_addr + 0x1000.
Definition addr_of_pd (ps_addr : Z) (i : nat) : Z := ps_addr + 0x2000 + 0x1000 * Z.of_nat i.
Definition addr_of_pt (ps_addr : Z) : Z := ps_addr + 0x20_2000.
Definition addr_of_pt_apic (ps_addr : Z) : Z := ps_addr + 0x20_3000.

(** ** The entries: [bitfield!] accessors of [Entry] *)
Section Entry.
Context {BF : BitfieldMacro}.

Definition present (e : Z) : bool := bf_get_bit 0 e.
Definition writable (e : Z) : bool := bf_get_bit 1 e.
Definition user (e : Z) : bool := bf_get_bit 2 e.
Definition large (e : Z) : bool := bf_get_bit 7 e.
Definition pfn (e : Z) : Z := bf_get 51 12 e.
Definition set_present (b : bool) (e : Z) : Z := bf_set_bit 0 e b.
Definition set_writable (b : bool) (e : Z) : Z := bf_set_bit 1 e b.
Definition set_user (b : bool) (e : Z) : Z := bf_set_bit 2 e b.
Definition set_large (b : bool) (e : Z) : Z := bf_set_bit 7 e b.
Definition set_pfn (v e : Z) : Z := bf_set 51 12 e v.
End Entry.

(** ** build_identity_internal *)
Section Build.
Context {P : Profile} {BF : BitfieldMacro} {Proc : Type} {OPS : PlatformOps Proc}.

(** One iteration of the loop over the entries of the page table. *)
Definition build_pte (us : bool) (cur pte : Z) : outcome (Z * Z) :=
  let pte := set_present true pte in
  let pte := set_writable true pte in
  let pte := set_user us pte in
  let pte := set_pfn (Z.shiftr cur BASE_PAGE_SHIFT) pte in
  let? cur := add_w 64 cur BASE_PAGE_SIZE in
  Ok (cur, pte).

(** One iteration of the loop over a page directory; [cur] is the running
    physical address, [t] the page table for the first 2 MB. *)
Definition build_pde (npt us : bool) (ps_addr : Z) (st : Z * list Z) (pde : Z)
    : outcome ((Z * list Z) * Z) :=
  let '(cur, t) := st in
  if (cur =? 0) && negb npt then
    let pde := set_present true pde in
    let pde := set_writable true pde in
    let pde := set_user us pde in
    let pde := set_pfn (Z.shiftr (pa (addr_of_pt ps_addr)) BASE_PAGE_SHIFT) pde in
    let? (cur, t) := foreach (build_pte us) cur t in
    let t := alter (set_present false) 0%nat t in
    Ok ((cur, t), pde)
  else
    let pde := set_present true pde in
    let pde := set_writable true pde in
    let pde := set_user us pde in
    let pde := set_large true pde in
    let pde := set_pfn (Z.shiftr cur BASE_PAGE_SHIFT) pde in
    let? cur := add_w 64 cur LARGE_PAGE_SIZE in
    Ok ((cur, t), pde).

(** One iteration of the loop over the PDPT, with the page directory of the
    same index. *)
Definition build_pdpte (npt us : bool) (ps_addr : Z) (st : nat * (Z * list Z))
    (entry : Z * list Z) : outcome ((nat * (Z * list Z)) * (Z * list Z)) :=
  let '(i, st) := st in
  let '(pdpte, dir) := entry in
  let pdpte := set_present true pdpte in
  let pdpte := set_writable true pdpte in
  let pdpte := set_user us pdpte in
  let pdpte := set_pfn (Z.shiftr (pa (addr_of_pd ps_addr i)) BASE_PAGE_SHIFT) pdpte in
  let? (st, dir) := foreach (build_pde npt us ps_addr) st dir in
  Ok ((S i, st), (pdpte, dir)).

Definition build_identity_internal (ps_addr : Z) (npt : bool) (ps : PagingStructuresRaw)
    : outcome PagingStructuresRaw :=
  let us := npt in
  let first e :=
    let e := set_present true e in
    let e := set_writable true e in
    let e := set_user us e in
    set_pfn (Z.shiftr (pa (addr_of_pdpt ps_addr)) BASE_PAGE_SHIFT) e in
  let pml4' := alter first 0%nat (pml4 ps) in
  let? (st, l) := foreach (build_pdpte npt us ps_addr) (0%nat, (0, pt ps)) (zip (pdpt ps) (pd ps)) in
  let '(_, (_, pt')) := st in
  Ok (mk_ps pml4' l.*1 l.*2 pt' (pt_apic ps)).

(** [PagingStructuresRaw::build_identity] *)
Definition build_identity (ps_addr : Z) (ps : PagingStructuresRaw) : outcome PagingStructuresRaw :=
  build_identity_internal ps_addr false ps.

(** ** What the loops leave in the tables *)

Definition dir_entry (us : bool) (v : Z) : Z :=
  set_pfn v (set_user us (set_writable true (set_present true 0))).
Definition leaf_entry (us : bool) (v : Z) : Z :=
  set_pfn v (set_large true (set_user us (set_writable true (set_present true 0)))).

Definition frame_of (va : Z) : Z := Z.shiftr (pa va) BASE_PAGE_SHIFT.

Definition built_pt (us : bool) : list Z :=
  alter (set_present false) 0%nat (map (fun k => dir_entry us (Z.of_nat k)) (seq 0 512)).

Definition built_pde (npt us : bool) (ps_addr : Z) (i k : nat) : Z :=
  if (i =? 0)%nat && (k =? 0)%nat && negb npt then dir_entry us (frame_of (addr_of_pt ps_addr))
  else leaf_entry us (Z.of_nat i * 2 ^ 18 + Z.of_nat k * 2 ^ 9).

Definition built_pd (npt us : bool) (ps_addr : Z) (i : nat) : list Z :=
  map (built_pde npt us ps_addr i) (seq 0 512).

Definition built (npt : bool) (ps_addr : Z) : PagingStructuresRaw :=
  mk_ps (dir_entry npt (frame_of (addr_of_pdpt ps_addr)) :: replicate 511 0)
    (map (fun i => dir_entry npt (frame_of (addr_of_pd ps_addr i))) (seq 0 512))
    (map (built_pd npt npt ps_addr) (seq 0 512))
    (if npt then zero_table else built_pt false) zero_table.

Lemma dir_entry_spec us v : 0 <= v ->
  let e := dir_entry us v in
  0 <= e /\ Z.testbit e 0 = true /\ Z.testbit e 1 = true /\ Z.testbit e 2 = us /\
  Z.testbit e 7 = false /\ field e 12 40 = field v 0 40.
Proof.
  intros Hv e. subst e. unfold dir_entry, set_pfn, set_user, set_writable, set_present.
  split_and!; [bf_nonneg|entry_bits..|]. rewrite field_bf_set by bf_nonneg. done.
Qed.

Lemma leaf_entry_spec us v : 0 <= v ->
  let e := leaf_entry us v in
  0 <= e /\ Z.testbit e 0 = true /\ Z.testbit e 1 = true /\ Z.testbit e 2 = us /\
  Z.testbit e 7 = true /\ field e 21 31 = field v 9 31.
Proof.
  intros Hv e. subst e. unfold leaf_entry, set_pfn, set_large, set_user, set_writable, set_present.
  split_and!; [bf_nonneg|entry_bits..|]. rewrite field_bf_set by bf_nonneg. done.
Qed.

Lemma shiftr_page a : Z.shiftr (a * 0x1000) BASE_PAGE_SHIFT = a.
Proof. rewrite Z.shiftr_div_pow2 by done. apply Z.div_mul. done. Qed.

Lemma build_pt_loop us : foreach (build_pte us) 0 zero_table =
  Ok (LARGE_PAGE_SIZE, map (fun k => dir_entry us (Z.of_nat k)) (seq 0 512)).
Proof.
  apply (foreach_all (build_pte us) (fun k => Z.of_nat k * 0x1000)
    (fun k => dir_entry us (Z.of_nat k)) zero_table 512); [done|].
  intros i e Hi Hlt. apply lookup_replicate in Hi as [-> _]. unfold build_pte.
  rewrite shiftr_page. unfold BASE_PAGE_SIZE.
  rewrite add_w_small by (unfold in_width; lia). cbn [obind]. do 2 f_equal. lia.
Qed.

(** The page table after the first [n] of all the page directory entries. *)
Definition pt_after (npt us : bool) (n : nat) (t : list Z) : list Z :=
  if negb npt && (0 <? n)%nat then built_pt us else t.

Lemma pt_after_end npt :
  pt_after npt npt (512 * 512) zero_table = if npt then zero_table else built_pt false.
Proof.
  unfold pt_after. rewrite (proj2 (Nat.ltb_lt 0 (512 * 512))) by lia. by destruct npt.
Qed.

Lemma build_pde_spec npt us a (i k : nat) : (i < 512)%nat -> (k < 512)%nat ->
  let n := (512 * i + k)%nat in
  build_pde npt us a (Z.of_nat n * LARGE_PAGE_SIZE, pt_after npt us n zero_table) 0 =
    Ok ((Z.of_nat (S n) * LARGE_PAGE_SIZE, pt_after npt us (S n) zero_table),
        built_pde npt us a i k).
Proof.
  intros Hi Hk n. assert (n = 512 * i + k)%nat as Hn by done. clearbody n.
  unfold build_pde, built_pde, LARGE_PAGE_SIZE. destruct (Z.eqb_spec (Z.of_nat n * 0x20_0000) 0) as [H0|H0].
  - assert (i = 0%nat /\ k = 0%nat) as [-> ->] by lia. assert (n = 0)%nat as -> by lia.
    unfold pt_after. destruct npt; cbn [andb negb Nat.eqb Nat.ltb Nat.leb].
    + unfold add_w. rewrite arith_small by done. done.
    + rewrite build_pt_loop. done.
  - assert ((i =? 0)%nat && (k =? 0)%nat = false) as -> by (apply andb_false_iff; rewrite !Nat.eqb_neq; lia).
    cbn [andb]. rewrite add_w_small by (unfold in_width; lia). cbn [obind].
    assert (pt_after npt us (S n) zero_table = pt_after npt us n zero_table) as ->.
    { unfold pt_after. destruct n; [lia|done]. }
    replace (Z.of_nat n * 0x20_0000 + 0x20_0000) with (Z.of_nat (S n) * 0x20_0000) by lia.
    f_equal. f_equal.
    unfold leaf_entry. f_equal.
    replace (Z.of_nat n * 0x20_0000) with ((Z.of_nat n * 2 ^ 9) * 0x1000) by lia.
    rewrite shiftr_page. lia.
Qed.

Lemma build_pd_loop npt us a (i : nat) : (i < 512)%nat ->
  foreach (build_pde npt us a)
    (Z.of_nat (512 * i) * LARGE_PAGE_SIZE, pt_after npt us (512 * i) zero_table) zero_table =
    Ok ((Z.of_nat (512 * S i) * LARGE_PAGE_SIZE, pt_after npt us (512 * S i) zero_table),
        built_pd npt us a i).
Proof.
  intros Hi.
  pose proof (foreach_all (build_pde npt us a) (fun k => (Z.of_nat (512 * i + k) * LARGE_PAGE_SIZE,
    pt_after npt us (512 * i + k) zero_table)) (built_pde npt us a i) zero_table 512) as H.
  cbv beta in H. rewrite Nat.add_0_r in H.
  replace (512 * i + 512)%nat with (512 * S i)%nat in H by lia. apply H; [done|].
  intros k e Hk Hlt. apply lookup_replicate in Hk as [-> _].
  rewrite build_pde_spec by done. by rewrite Nat.add_succ_r.
Qed.

(** From zeroed tables, [build_identity_internal] returns the tables [built]:
    no addition overflows and every entry of the four levels is set. *)
Lemma build_identity_internal_built npt a :
  build_identity_internal a npt PagingStructures_new = Ok (built npt a).
Proof.
  unfold build_identity_internal, PagingStructures_new. cbn [pml4 pdpt pd pt pt_apic].
  pose proof (foreach_all (build_pdpte npt npt a)
    (fun i => (i, (Z.of_nat (512 * i) * LARGE_PAGE_SIZE, pt_after npt npt (512 * i) zero_table)))
    (fun i => (dir_entry npt (frame_of (addr_of_pd a i)), built_pd npt npt a i))
    (zip zero_table (replicate 512 zero_table)) 512) as H.
  cbv beta in H. rewrite Nat.mul_0_r in H. change (Z.of_nat 0 * LARGE_PAGE_SIZE) with 0 in H.
  replace (pt_after npt npt 0 zero_table) with zero_table in H by (by destruct npt).
  rewrite H; clear H; [|done|].
  - cbn [obind]. unfold built. f_equal. f_equal. apply pt_after_end.
  - intros i [e d] Hi Hlt. apply lookup_zip_with_Some in Hi as (x & y & Hxy & Hx & Hy).
    injection Hxy as -> ->. apply lookup_replicate in Hx as [-> _].
    apply lookup_replicate in Hy as [-> _]. unfold build_pdpte.
    rewrite build_pd_loop by done. done.
Qed.
End Build.

(** ** What the processor reads through the tables *)

Definition page_present (e : Z) : bool := Z.testbit e 0.

(** Physical memory holds the tables of the structure allocated at [ps_addr]. *)
Definition holds {Proc : Type} {OPS : PlatformOps Proc} (frames : Z -> option (list Z))
    (ps_addr : Z) (ps : PagingStructuresRaw) : Prop :=
  forall o t, nth_table ps o = Some t -> frames (frame_of (ps_addr + 0x1000 * Z.of_nat o)) = Some t.

(** The structure lies in memory whose frame numbers fit an entry. *)
Definition addressable {Proc : Type} {OPS : PlatformOps Proc} (ps_addr : Z) : Prop :=
  forall o, (o < 516)%nat -> in_width 40 (frame_of (ps_addr + 0x1000 * Z.of_nat o)).

Section Walks.
Context {P : Profile} {BF : BitfieldMacro} {Proc : Type} {OPS : PlatformOps Proc}.
Context (frames : Z -> option (list Z)) (ps_addr : Z) (npt : bool) (ps : PagingStructuresRaw).
Context (Hholds : holds frames ps_addr ps) (Haddr : addressable ps_addr).
Context (Hpml4 : pml4 ps = pml4 (built npt ps_addr)) (Hpdpt : pdpt ps = pdpt (built npt ps_addr)).
Context (Hpd : length (pd ps) = 512%nat).

Let root_entry : Z := dir_entry npt (frame_of (addr_of_pdpt ps_addr)).
Let pdpt_entry (i : nat) : Z := dir_entry npt (frame_of (addr_of_pd ps_addr i)).

Lemma holds_pml4 : frames (frame_of ps_addr) = Some (pml4 ps).
Proof. pose proof (Hholds 0%nat _ eq_refl) as H. by rewrite Z.add_0_r in H. Qed.

Lemma holds_pdpt : frames (frame_of (addr_of_pdpt ps_addr)) = Some (pdpt ps).
Proof. exact (Hholds 1%nat _ eq_refl). Qed.

Lemma nth_table_pd i d : pd ps !! i = Some d -> nth_table ps (S (S i)) = Some d.
Proof. intros Hi. unfold nth_table. cbn. by apply lookup_app_l_Some. Qed.

Lemma holds_pd i d : pd ps !! i = Some d -> frames (frame_of (addr_of_pd ps_addr i)) = Some d.
Proof.
  intros Hi. pose proof (Hholds _ _ (nth_table_pd i d Hi)) as H.
  unfold addr_of_pd. replace (ps_addr + 0x2000 + 0x1000 * Z.of_nat i)
    with (ps_addr + 0x1000 * Z.of_nat (S (S i))) by lia. exact H.
Qed.

Lemma nth_table_tail k : nth_table ps (514 + k)%nat = [pt ps; pt_apic ps] !! k.
Proof.
  change (nth_table ps (514 + k)%nat) with ((pd ps ++ [pt ps; pt_apic ps]) !! (512 + k)%nat).
  rewrite lookup_app_r by lia. f_equal. lia.
Qed.

Lemma holds_pt : frames (frame_of (addr_of_pt ps_addr)) = Some (pt ps).
Proof. exact (Hholds (514 + 0)%nat _ (nth_table_tail 0)). Qed.

Lemma holds_pt_apic : frames (frame_of (addr_of_pt_apic ps_addr)) = Some (pt_apic ps).
Proof. exact (Hholds (514 + 1)%nat _ (nth_table_tail 1)). Qed.

Lemma frame_40 o : (o < 516)%nat ->
  field (frame_of (ps_addr + 0x1000 * Z.of_nat o)) 0 40 = frame_of (ps_addr + 0x1000 * Z.of_nat o).
Proof. intros Ho. unfold field. rewrite Z.shiftr_0_r. apply wrap_small, Haddr, Ho. Qed.

(** The first two levels lead to the page directory of the gigabyte. *)
Lemma walk_to_pd va i d : 0 <= va < 2 ^ 39 -> i = Z.to_nat (field va 30 9) -> pd ps !! i = Some d ->
  frames (frame_of (addr_of_pd ps_addr i)) = Some d /\
  walk page_present frames 3%nat (frame_of ps_addr) va =
    match walk page_present frames 1%nat (frame_of (addr_of_pd ps_addr i)) va with
    | None => None
    | Some (path, target) => Some (root_entry :: pdpt_entry i :: path, target)
    end.
Proof.
  intros Hva -> Hd. split; [by apply holds_pd|].
  pose proof (level_index va 30) as Hi. set (i := Z.to_nat (field va 30 9)) in *.
  assert (0 <= frame_of (addr_of_pdpt ps_addr)) as H1 by (apply (Haddr 1%nat); lia).
  assert (in_width 40 (frame_of (addr_of_pd ps_addr i))) as H2.
  { unfold addr_of_pd. replace (ps_addr + 0x2000 + 0x1000 * Z.of_nat i)
      with (ps_addr + 0x1000 * Z.of_nat (S (S i))) by lia. apply Haddr. lia. }
  destruct (dir_entry_spec npt _ H1) as (_ & Hp & _ & _ & Hl & Hf).
  destruct (dir_entry_spec npt _ (proj1 H2)) as (_ & Hp2 & _ & _ & Hl2 & Hf2).
  rewrite (walk_dir _ _ _ _ va (pml4 ps) root_entry); [|exact holds_pml4| |exact Hp|exact Hl].
  2: { rewrite Hpml4. change (level_shift 3) with 39.
       replace (field va 39 9) with 0; [done|]. rewrite field_div_mod by done.
       rewrite Z.div_small by lia. done. }
  unfold root_entry at 1. rewrite Hf.
  replace (field (frame_of (addr_of_pdpt ps_addr)) 0 40) with (frame_of (addr_of_pdpt ps_addr))
    by (symmetry; exact (frame_40 1%nat ltac:(lia))).
  rewrite (walk_dir _ _ _ _ va (pdpt ps) (pdpt_entry i)); [|exact holds_pdpt| |exact Hp2|exact Hl2].
  2: { rewrite Hpdpt. change (level_shift 2) with 30. by apply lookup_map_seq. }
  unfold pdpt_entry at 1. rewrite Hf2.
  replace (field (frame_of (addr_of_pd ps_addr i)) 0 40) with (frame_of (addr_of_pd ps_addr i)).
  2: { unfold field. rewrite Z.shiftr_0_r. by rewrite wrap_small. }
  by destruct (walk _ _ 1%nat _ va) as [[path target]|].
Qed.

(** Beyond 512 GB nothing is mapped. *)
Lemma walk_beyond va : 2 ^ 39 <= va < 2 ^ 48 -> walk page_present frames 3%nat (frame_of ps_addr) va = None.
Proof.
  intros Hva. apply (walk_absent _ _ _ _ _ (pml4 ps) 0); [exact holds_pml4| |done].
  rewrite Hpml4. change (level_shift 3) with 39.
  assert (1 <= field va 39 9 < 512) as Hi.
  { rewrite field_div_mod by done. Z.to_euclidean_division_equations. lia. }
  unfold built. cbn [pml4]. destruct (Z.to_nat (field va 39 9)) as [|k] eqn:Hk; [lia|].
  change (replicate 511 0 !! k = Some 0). apply lookup_replicate. split; [done|lia].
Qed.
End Walks.

(** ** The tables of [build_identity_internal] *)
Section BuiltWalks.
Context {P : Profile} {BF : BitfieldMacro} {Proc : Type} {OPS : PlatformOps Proc}.
Context (frames : Z -> option (list Z)) (ps_addr : Z) (npt : bool).

(** A page directory entry of the built tables that is a 2 MB page maps its
    2 MB identically. *)
Lemma walk_leaf va d : 0 <= va < 2 ^ 39 -> let i := Z.to_nat (field va 30 9) in
  frames (frame_of (addr_of_pd ps_addr i)) = Some d ->
  d !! Z.to_nat (field va 21 9) =
    Some (leaf_entry npt (field va 30 9 * 2 ^ 18 + field va 21 9 * 2 ^ 9)) ->
  exists path, walk page_present frames 1%nat (frame_of (addr_of_pd ps_addr i)) va = Some (path, va) /\
    all_set 1 path = true /\ (if npt then all_set 2 path else none_set 2 path) = true.
Proof.
  intros Hva i Hd He.
  pose proof (field_range va 30 9 ltac:(lia)) as Hi1. pose proof (field_range va 21 9 ltac:(lia)) as Hi2.
  unfold in_width in Hi1, Hi2. set (v := field va 30 9 * 2 ^ 18 + field va 21 9 * 2 ^ 9) in *.
  destruct (leaf_entry_spec npt v ltac:(lia)) as (_ & Hp & Hw & Hu & Hl & Hf).
  rewrite (walk_large page_present frames 0%nat _ va d _ Hd He Hp Hl ltac:(lia)).
  cbv zeta. change (level_shift 1) with 21. change (52 - 21) with 31. rewrite Hf.
  replace (field v 9 31) with (field va 30 9 * 2 ^ 9 + field va 21 9).
  2: { rewrite (field_div_mod v) by done. unfold v.
       replace (field va 30 9 * 2 ^ 18 + field va 21 9 * 2 ^ 9)
         with ((field va 30 9 * 2 ^ 9 + field va 21 9) * 2 ^ 9) by lia.
       rewrite Z.div_mul, Z.mod_small by lia. done. }
  eexists. split; [f_equal; f_equal; pose proof (proj1 (address_split va Hva)); lia|].
  unfold all_set, none_set. cbn [forallb]. rewrite Hw, Hu. by destruct npt.
Qed.

Lemma built_pde_leaf va : 0 <= va < 2 ^ 39 -> npt = true \/ 2 ^ 21 <= va ->
  built_pd npt npt ps_addr (Z.to_nat (field va 30 9)) !! Z.to_nat (field va 21 9) =
    Some (leaf_entry npt (field va 30 9 * 2 ^ 18 + field va 21 9 * 2 ^ 9)).
Proof.
  intros Hva Hn. unfold built_pd. rewrite lookup_map_seq by apply level_index. f_equal.
  pose proof (field_range va 30 9 ltac:(lia)) as Hi1. pose proof (field_range va 21 9 ltac:(lia)) as Hi2.
  unfold in_width in Hi1, Hi2. unfold built_pde. rewrite !Z2Nat.id by lia.
  destruct Hn as [->|Hn]; [by rewrite andb_false_r|].
  replace ((Z.to_nat (field va 30 9) =? 0)%nat && (Z.to_nat (field va 21 9) =? 0)%nat) with false; [done|].
  symmetry. apply andb_false_iff. rewrite !Nat.eqb_neq.
  pose proof (proj1 (address_split va Hva)). pose proof (Z.mod_pos_bound va (2 ^ 21)). lia.
Qed.
End BuiltWalks.

Section Theorems.
Context {P : Profile} {BF : BitfieldMacro} {Proc : Type} {OPS : PlatformOps Proc}.

Lemma pd_frame_nonneg ps_addr va : addressable ps_addr ->
  0 <= frame_of (addr_of_pd ps_addr (Z.to_nat (field va 30 9))).
Proof.
  intros Ha. pose proof (level_index va 30). unfold addr_of_pd.
  replace (ps_addr + 0x2000 + 0x1000 * Z.of_nat (Z.to_nat (field va 30 9)))
    with (ps_addr + 0x1000 * Z.of_nat (S (S (Z.to_nat (field va 30 9))))) by lia. apply Ha. lia.
Qed.

Lemma built_pd_lookup npt ps_addr va :
  pd (built npt ps_addr) !! Z.to_nat (field va 30 9) =
    Some (built_pd npt npt ps_addr (Z.to_nat (field va 30 9))).
Proof. apply lookup_map_seq, level_index. Qed.

Lemma built_pd_length npt ps_addr : length (pd (built npt ps_addr)) = 512%nat.
Proof. unfold built. cbn [pd]. by rewrite length_map, length_seq. Qed.

(** An address mapped by a 2 MB page of the built tables. *)
Lemma built_walk_large frames npt ps_addr va :
  holds frames ps_addr (built npt ps_addr) -> addressable ps_addr ->
  0 <= va < 2 ^ 39 -> npt = true \/ 2 ^ 21 <= va ->
  exists path, walk page_present frames 3%nat (frame_of ps_addr) va = Some (path, va) /\
    all_set 1 path = true /\ (if npt then all_set 2 path else none_set 2 path) = true.
Proof.
  intros Hh Ha Hva Hn.
  destruct (walk_to_pd frames ps_addr npt _ Hh Ha eq_refl eq_refl (built_pd_length _ _) va _ _ Hva eq_refl
    (built_pd_lookup npt ps_addr va)) as [Hd ->].
  destruct (walk_leaf frames ps_addr npt va _ Hva Hd (built_pde_leaf ps_addr npt va Hva Hn))
    as (path & -> & Hw & Hu).
  eexists. split; [done|].
  destruct (dir_entry_spec npt (frame_of (addr_of_pdpt ps_addr))) as (_ & _ & Hw1 & Hu1 & _); [apply (Ha 1%nat); lia|].
  destruct (dir_entry_spec npt (frame_of (addr_of_pd ps_addr (Z.to_nat (field va 30 9)))))
    as (_ & _ & Hw2 & Hu2 & _); [by apply pd_frame_nonneg|].
  unfold all_set, none_set in *. cbn [forallb]. rewrite Hw1, Hu1, Hw2, Hu2.
  split; [exact Hw|]. destruct npt; exact Hu.
Qed.

(** The first 2 MB of the host go through the page table. *)
Lemma built_walk_small frames ps_addr va :
  holds frames ps_addr (built false ps_addr) -> addressable ps_addr -> 0 <= va < 2 ^ 21 ->
  exists e3 e2 e1, all_set 1 [e3; e2; e1] = true /\ none_set 2 [e3; e2; e1] = true /\
    walk page_present frames 3%nat (frame_of ps_addr) va =
      match walk page_present frames 0%nat (frame_of (addr_of_pt ps_addr)) va with
      | None => None
      | Some (path, target) => Some (e3 :: e2 :: e1 :: path, target)
      end.
Proof.
  intros Hh Ha Hva.
  assert (field va 30 9 = 0 /\ field va 21 9 = 0) as [Hi3 Hi2].
  { rewrite !field_div_mod by done. rewrite !Z.div_small by lia. done. }
  destruct (walk_to_pd frames ps_addr false _ Hh Ha eq_refl eq_refl (built_pd_length _ _) va _ _ ltac:(lia)
    eq_refl (built_pd_lookup false ps_addr va)) as [Hd ->]. rewrite Hi3 in *.
  pose proof (Ha 1%nat ltac:(lia)) as H1. pose proof (Ha 2%nat ltac:(lia)) as H2.
  pose proof (Ha 514%nat ltac:(lia)) as H514.
  change (ps_addr + 0x1000 * Z.of_nat 1) with (addr_of_pdpt ps_addr) in H1.
  change (ps_addr + 0x1000 * Z.of_nat 514) with (addr_of_pt ps_addr) in H514.
  replace (ps_addr + 0x1000 * Z.of_nat 2) with (addr_of_pd ps_addr 0) in H2 by (unfold addr_of_pd; lia).
  destruct (dir_entry_spec false _ (proj1 H1)) as (_ & _ & Hw1 & Hu1 & _).
  destruct (dir_entry_spec false _ (proj1 H2)) as (_ & _ & Hw2 & Hu2 & _).
  destruct (dir_entry_spec false _ (proj1 H514)) as (_ & Hp & Hw3 & Hu3 & Hl & Hf).
  rewrite (walk_dir page_present frames 0%nat _ va _ (dir_entry false (frame_of (addr_of_pt ps_addr))) Hd).
  2: { change (level_shift 1) with 21. rewrite Hi2. unfold built_pd.
       rewrite lookup_map_seq by (change (Z.to_nat 0) with 0%nat; lia). done. }
  2: { exact Hp. } 2: { exact Hl. }
  rewrite Hf. replace (field (frame_of (addr_of_pt ps_addr)) 0 40) with (frame_of (addr_of_pt ps_addr)).
  2: { unfold field. rewrite Z.shiftr_0_r. by rewrite wrap_small. }
  eexists _, _, _. split; [|split; [|by destruct (walk _ _ 0%nat _ va) as [[path target]|]]].
  - unfold all_set. cbn [forallb]. change (Z.to_nat 0) with 0%nat. by rewrite Hw1, Hw2, Hw3.
  - unfold none_set. cbn [forallb]. change (Z.to_nat 0) with 0%nat. by rewrite Hu1, Hu2, Hu3.
Qed.

Lemma built_pt_lookup us k : (k < 512)%nat ->
  built_pt us !! k = Some ((if (k =? 0)%nat then set_present false else id) (dir_entry us (Z.of_nat k))).
Proof.
  intros Hk. unfold built_pt. destruct (Nat.eqb_spec k 0) as [->|Hne].
  - rewrite list_lookup_alter, lookup_map_seq by done. done.
  - rewrite list_lookup_alter_ne, lookup_map_seq by (try done; lia). done.
Qed.

Lemma built_walk_pt frames ps_addr va :
  holds frames ps_addr (built false ps_addr) -> 0 <= va < 2 ^ 21 ->
  walk page_present frames 0%nat (frame_of (addr_of_pt ps_addr)) va =
    if va <? 0x1000 then None else Some ([dir_entry false (field va 12 9)], va).
Proof.
  intros Hh Hva. pose proof (level_index va 12) as Hlt. pose proof (field_range va 12 9 ltac:(lia)) as [Hi _].
  pose proof (built_pt_lookup false _ Hlt) as He. rewrite Z2Nat.id in He by done.
  destruct (dir_entry_spec false _ Hi) as (Hnn & Hp & _ & _ & _ & Hf).
  assert (va = field va 12 9 * 2 ^ 12 + va mod 2 ^ 12) as Hsplit.
  { rewrite field_div_mod by done. Z.to_euclidean_division_equations. lia. }
  pose proof (Z.mod_pos_bound va (2 ^ 12) ltac:(lia)) as Hoff.
  destruct (Nat.eqb_spec (Z.to_nat (field va 12 9)) 0) as [H0|H0].
  - rewrite (proj2 (Z.ltb_lt va 0x1000)) by lia.
    apply (walk_absent page_present frames 0%nat _ va _ _ (holds_pt frames ps_addr false _ Hh (built_pd_length _ _)) He).
    unfold page_present, set_present. rewrite bf_set_bit_testbit by (try done; lia). done.
  - rewrite (proj2 (Z.ltb_ge va 0x1000)) by lia.
    rewrite (walk_page page_present frames _ va _ _ (holds_pt frames ps_addr false _ Hh (built_pd_length _ _)) He Hp).
    unfold id. rewrite Hf. f_equal. f_equal.
    replace (field (field va 12 9) 0 40) with (field va 12 9); [lia|].
    unfold field at 2. rewrite Z.shiftr_0_r. symmetry. apply wrap_small.
    pose proof (field_range va 12 9 ltac:(lia)) as Hr. unfold in_width in *. lia.
Qed.

(** C26: the host's tables map the first 512 GB to themselves, writable and
    never user-accessible, except the null page, which is not mapped (a null
    pointer access faults), and nothing above; building them does not panic. *)
Theorem host_identity_map ps_addr :
  exists ps, build_identity ps_addr PagingStructures_new = Ok ps /\
    forall frames, holds frames ps_addr ps -> addressable ps_addr -> forall va,
      (0x1000 <= va < 2 ^ 39 -> exists path,
         walk page_present frames 3%nat (frame_of ps_addr) va = Some (path, va) /\
         all_set 1 path = true /\ none_set 2 path = true) /\
      (0 <= va < 0x1000 \/ 2 ^ 39 <= va < 2 ^ 48 ->
         walk page_present frames 3%nat (frame_of ps_addr) va = None).
Proof.
  eexists. split; [apply build_identity_internal_built|]. intros frames Hh Ha va. split; intros Hva.
  - destruct (Z.ltb_spec va (2 ^ 21)).
    + destruct (built_walk_small frames ps_addr va Hh Ha ltac:(lia)) as (e3 & e2 & e1 & Hw & Hu & ->).
      rewrite (built_walk_pt frames ps_addr va Hh), (proj2 (Z.ltb_ge va 0x1000)) by lia.
      eexists. split; [done|]. destruct (dir_entry_spec false (field va 12 9)) as (_ & _ & Hw1 & Hu1 & _).
      { apply field_range. lia. }
      unfold all_set, none_set in *. cbn [forallb] in *. by rewrite Hw1, Hu1.
    + apply (built_walk_large frames false ps_addr va Hh Ha); [lia|by right].
  - destruct Hva as [Hva|Hva].
    + destruct (built_walk_small frames ps_addr va Hh Ha ltac:(lia)) as (e3 & e2 & e1 & _ & _ & ->).
      rewrite (built_walk_pt frames ps_addr va Hh), (proj2 (Z.ltb_lt va 0x1000)) by lia. done.
    + by apply (walk_beyond frames ps_addr false _ Hh).
Qed.

(** C25: the nested page tables (and any structure built with [npt]) map the
    first 512 GB of guest-physical addresses to themselves, writable and
    user-accessible at every level, and nothing above; building them does
    not panic. *)
Theorem nested_identity_map ps_addr :
  exists ps, build_identity_internal ps_addr true PagingStructures_new = Ok ps /\
    forall frames, holds frames ps_addr ps -> addressable ps_addr -> forall va,
      (0 <= va < 2 ^ 39 -> exists path,
         walk page_present frames 3%nat (frame_of ps_addr) va = Some (path, va) /\
         all_set 1 path = true /\ all_set 2 path = true) /\
      (2 ^ 39 <= va < 2 ^ 48 -> walk page_present frames 3%nat (frame_of ps_addr) va = None).
Proof.
  eexists. split; [apply build_identity_internal_built|]. intros frames Hh Ha va. split; intros Hva.
  - apply (built_walk_large frames true ps_addr va Hh Ha Hva). by left.
  - by apply (walk_beyond frames ps_addr true _ Hh).
Qed.
End Theorems.

(** ** Witness: tables at 1 MB, in the identity-mapped memory of UEFI *)
Module PagingExample.
Import Reference.
#[local] Instance checked : Profile := true.
#[local] Instance ops : PlatformOps nat := UefiOps 0%nat [].

Lemma frame_at o : frame_of (0x10_0000 + 0x1000 * Z.of_nat o) = 0x100 + Z.of_nat o.
Proof.
  unfold frame_of. change (pa (0x10_0000 + 0x1000 * Z.of_nat o)) with (0x10_0000 + 0x1000 * Z.of_nat o).
  replace (0x10_0000 + 0x1000 * Z.of_nat o) with ((0x100 + Z.of_nat o) * 0x1000) by lia.
  apply shiftr_page.
Qed.

(** Physical memory with the structure in it and nothing else. *)
Definition memory_of (ps : PagingStructuresRaw) (f : Z) : option (list Z) :=
  if f <? 0x100 then None else nth_table ps (Z.to_nat (f - 0x100)).

Lemma memory_of_holds ps : holds (memory_of ps) 0x10_0000 ps.
Proof.
  intros o t Ho. unfold memory_of. rewrite frame_at, (proj2 (Z.ltb_ge _ _)) by lia.
  by replace (Z.to_nat (0x100 + Z.of_nat o - 0x100)) with o by lia.
Qed.

Lemma memory_addressable : addressable 0x10_0000.
Proof. intros o Ho. rewrite frame_at. unfold in_width. lia. Qed.

Lemma host_identity_map_witness : exists ps path,
  build_identity 0x10_0000 PagingStructures_new = Ok ps /\
  walk page_present (memory_of ps) 3%nat 0x100 0x1234_5678 = Some (path, 0x1234_5678) /\
  walk page_present (memory_of ps) 3%nat 0x100 0x10 = None.
Proof.
  destruct (host_identity_map 0x10_0000) as (ps & Hb & H).
  specialize (H (memory_of ps) (memory_of_holds ps) memory_addressable).
  destruct (H 0x1234_5678) as [H1 _]. destruct (H 0x10) as [_ H2].
  destruct (H1 ltac:(lia)) as (path & Hp & _). exists ps, path.
  split; [exact Hb|]. split; [exact Hp|]. exact (H2 ltac:(lia)).
Defined.

Lemma nested_identity_map_witness : exists ps path,
  build_identity_internal 0x10_0000 true PagingStructures_new = Ok ps /\
  walk page_present (memory_of ps) 3%nat 0x100 0x10 = Some (path, 0x10) /\ all_set 2 path = true.
Proof.
  destruct (nested_identity_map 0x10_0000) as (ps & Hb & H).
  specialize (H (memory_of ps) (memory_of_holds ps) memory_addressable).
  destruct (H 0x10) as [H1 _]. destruct (H1 ltac:(lia)) as (path & Hp & _ & Hu).
  exists ps, path. split; [exact Hb|]. split; [exact Hp|exact Hu].
Defined.
End PagingExample.
