(* ===== verification/Npts.v ===== *)
(** * Nested page tables (hvcore amd/npts.rs)

    The 2 MB page that holds the local APIC is split into 4 KB pages, so that
    the guest's accesses to it can be intercepted. *)

From S2P Require Import Prelude External Machine Platform Paging.

Section Npts.
Context {P : Profile} {BF : BitfieldMacro} {BT : BitFieldTrait} {Proc : Type}
  {OPS : PlatformOps Proc}.

(** [NestedPageTables::build_identity] *)
Definition npt_build_identity (ps_addr : Z) (ps : PagingStructuresRaw) : outcome PagingStructuresRaw :=
  build_identity_internal ps_addr true ps.

(** One iteration of the loop of [split_2mb]; the state is the running [pfn]. *)
Definition split_pte (w us : bool) (frame pte : Z) : outcome (Z * Z) :=
  let? _ := oassert (negb (present pte)) "!pte.present()" in
  let pte := set_present true pte in
  let pte := set_writable w pte in
  let pte := set_user us pte in
  let pte := set_large false pte in
  let pte := set_pfn frame pte in
  let? frame := add_w 64 frame BASE_PAGE_SIZE in
  Ok (frame, pte).

(** [split_2mb]: the entry and the page table, updated; [pt_addr] is the
    address of the page table. *)
Definition split_2mb (pt_addr pde : Z) (t : list Z) : outcome (Z * list Z) :=
  let? _ := oassert (present pde) "pde.present()" in
  let? _ := oassert (large pde) "pde.large()" in
  let w := writable pde in
  let us := user pde in
  let? (_, t) := foreach (split_pte w us) (pfn pde) t in
  let pt_pa := pa pt_addr in
  let pde := set_pfn (Z.shiftr pt_pa BASE_PAGE_SHIFT) pde in
  let pde := set_large false pde in
  Ok (pde, t).

Definition split_apic_page (ps_addr : Z) (ps : PagingStructuresRaw) : M Machine PagingStructuresRaw :=
  let! apic_base_raw := rdmsr IA32_APIC_BASE in
  massert (negb (get_bit apic_base_raw 10)) "x2APIC is enabled" ;;!
  massert (get_bit apic_base_raw 11) "APIC is disabled" ;;!
  let apic_base := Z.land apic_base_raw (not_w 64 0xfff) in
  let pdpt_index := Z.to_nat (get_bits apic_base 30 38) in
  let pd_index := Z.to_nat (get_bits apic_base 21 29) in
  let! dir := lift (unwrap (pd ps !! pdpt_index) "index out of bounds") in
  let! pde := lift (unwrap (dir !! pd_index) "index out of bounds") in
  let! (pde, t) := lift (split_2mb (addr_of_pt_apic ps_addr) pde (pt_apic ps)) in
  ret (mk_ps (pml4 ps) (pdpt ps) (<[pdpt_index := <[pd_index := pde]> dir]> (pd ps)) (pt ps) t).
End Npts.

Section NptsTheorems.
Context {P : Profile} {BF : BitfieldMacro} {BT : BitFieldTrait} {Proc : Type}
  {OPS : PlatformOps Proc}.

(** The page table entry for the frame [v], and the entry that leads to it. *)
Definition split_entry (v : Z) : Z :=
  set_pfn v (set_large false (set_user true (set_writable true (set_present true 0)))).
Definition split_pde (pde frame : Z) : Z := set_large false (set_pfn frame pde).

Lemma split_entry_spec v : 0 <= v ->
  let e := split_entry v in
  Z.testbit e 0 = true /\ Z.testbit e 1 = true /\ Z.testbit e 2 = true /\ field e 12 40 = field v 0 40.
Proof.
  intros Hv e. subst e. unfold split_entry, set_pfn, set_large, set_user, set_writable, set_present.
  split_and!; [entry_bits..|]. rewrite field_bf_set by bf_nonneg. done.
Qed.

Lemma split_pde_spec v frame : 0 <= v -> 0 <= frame ->
  let e := split_pde (leaf_entry true v) frame in
  Z.testbit e 0 = true /\ Z.testbit e 1 = true /\ Z.testbit e 2 = true /\ Z.testbit e 7 = false /\
  field e 12 40 = field frame 0 40.
Proof.
  intros Hv Hf e. subst e. destruct (leaf_entry_spec true v Hv) as (Hnn & H0 & H1 & H2 & _).
  unfold split_pde, set_large, set_pfn.
  assert (0 <= bf_set 51 12 (leaf_entry true v) frame) as Hnn2 by (apply bf_set_nonneg; lia).
  assert (forall i, 0 <= i < 12 -> i <> 7 ->
    Z.testbit (bf_set_bit 7 (bf_set 51 12 (leaf_entry true v) frame) false) i = Z.testbit (leaf_entry true v) i) as Hbits.
  { intros i Hi Hi7. rewrite bf_set_bit_testbit, bf_set_testbit by lia. zcases; done. }
  rewrite !Hbits by lia. split_and!; try done.
  - rewrite bf_set_bit_testbit by lia. done.
  - apply Z.bits_inj'. intros i Hi. rewrite !field_testbit, bf_set_bit_testbit, bf_set_testbit by lia.
    zcases; cbn [andb]; try done. f_equal. lia.
Qed.

Lemma leaf_entry_getters v : in_width 40 v ->
  present (leaf_entry true v) = true /\ large (leaf_entry true v) = true /\
  writable (leaf_entry true v) = true /\ user (leaf_entry true v) = true /\
  pfn (leaf_entry true v) = v.
Proof.
  intros Hv. destruct (leaf_entry_spec true v (proj1 Hv)) as (Hnn & H0 & H1 & H2 & H7 & _).
  unfold present, large, writable, user. rewrite !bf_get_bit_spec by lia. split_and!; try done.
  unfold pfn, leaf_entry, set_pfn, set_large, set_user, set_writable, set_present.
  pose proof (proj1 Hv). rewrite bf_get_set_same by bf_nonneg. change (51 - 12 + 1) with 40. by apply wrap_small.
Qed.

(** The source's stride: entry [k] gets frame [v + k * BASE_PAGE_SIZE]. *)
Lemma split_loop v : 0 <= v < 2 ^ 40 ->
  foreach (split_pte true true) v zero_table =
    Ok (v + 512 * 0x1000, map (fun k => split_entry (v + Z.of_nat k * 0x1000)) (seq 0 512)).
Proof.
  intros Hv.
  pose proof (foreach_all (split_pte true true) (fun k => v + Z.of_nat k * 0x1000)
    (fun k => split_entry (v + Z.of_nat k * 0x1000)) zero_table 512 eq_refl) as H.
  cbv beta in H. rewrite Z.add_0_r in H. apply H. clear H.
  intros k e Hk Hlt. apply lookup_replicate in Hk as [-> _]. unfold split_pte, present.
  rewrite bf_get_bit_spec, Z.testbit_0_l by done. cbn [negb oassert obind].
  unfold BASE_PAGE_SIZE. rewrite add_w_small by (unfold in_width; lia). cbn [obind].
  do 2 f_equal. lia.
Qed.

Lemma split_2mb_built a v : in_width 40 v ->
  split_2mb a (leaf_entry true v) zero_table =
    Ok (split_pde (leaf_entry true v) (frame_of a),
        map (fun k => split_entry (v + Z.of_nat k * 0x1000)) (seq 0 512)).
Proof.
  intros Hv. unfold split_2mb. destruct (leaf_entry_getters v Hv) as (-> & -> & -> & -> & ->).
  cbn [oassert obind]. rewrite split_loop by (unfold in_width in Hv; lia). done.
Qed.
(** The tables after a successful split of the page that holds [apic_base]. *)
Definition split_at (ps_addr apic_base : Z) : PagingStructuresRaw :=
  let i := Z.to_nat (field apic_base 30 9) in
  let k := Z.to_nat (field apic_base 21 9) in
  let v := field apic_base 30 9 * 2 ^ 18 + field apic_base 21 9 * 2 ^ 9 in
  let ps := built true ps_addr in
  mk_ps (pml4 ps) (pdpt ps)
    (<[i := <[k := split_pde (leaf_entry true v) (frame_of (addr_of_pt_apic ps_addr))]>
       (built_pd true true ps_addr i)]> (pd ps))
    (pt ps) (map (fun k => split_entry (v + Z.of_nat k * 0x1000)) (seq 0 512)).

Lemma apic_base_fields raw : in_width 64 raw ->
  let apic_base := Z.land raw (not_w 64 0xfff) in
  get_bits apic_base 30 38 = field raw 30 9 /\ get_bits apic_base 21 29 = field raw 21 9 /\
  0 <= apic_base.
Proof.
  intros Hraw apic_base.
  assert (0 <= apic_base) as H0 by (apply Z.land_nonneg; left; apply Hraw).
  rewrite !get_bits_spec by lia. split_and!; [..|done]; unfold apic_base, not_w, field.
  - change (2 ^ 64 - 1 - 0xfff) with (Z.shiftl (Z.ones 52) 12). change (38 - 30 + 1) with 9. bitblast.
  - change (2 ^ 64 - 1 - 0xfff) with (Z.shiftl (Z.ones 52) 12). change (29 - 21 + 1) with 9. bitblast.
Qed.

Lemma region_frame_width b : in_width 40 (field b 30 9 * 2 ^ 18 + field b 21 9 * 2 ^ 9).
Proof.
  pose proof (field_range b 30 9 ltac:(lia)). pose proof (field_range b 21 9 ltac:(lia)).
  unfold in_width in *. lia.
Qed.

(** [split_apic_page] on the freshly built tables, with the local APIC
    enabled in xAPIC mode. *)
Lemma split_apic_page_built ps_addr raw m :
  msrs m !! IA32_APIC_BASE = Some raw -> in_width 64 raw ->
  Z.testbit raw 10 = false -> Z.testbit raw 11 = true ->
  split_apic_page ps_addr (built true ps_addr) m = Ok (split_at ps_addr raw, m).
Proof.
  intros Hraw Hw H10 H11. unfold split_apic_page. rewrite (bind_intro _ _ _ _ _ (rdmsr_some _ _ _ Hraw)).
  unfold massert. rewrite !get_bit_spec, H10, H11 by (try apply Hw; lia).
  destruct (apic_base_fields raw Hw) as (-> & -> & _).
  cbn [negb oassert]. unfold bind at 1 2, lift at 1 2. cbn [built pd].
  rewrite lookup_map_seq by apply level_index. unfold bind at 1, lift at 1. cbn [unwrap].
  unfold built_pd. rewrite lookup_map_seq by apply level_index.
  unfold bind at 1, lift at 1. cbn [unwrap].
  pose proof (field_range raw 30 9 ltac:(lia)) as Hi. pose proof (field_range raw 21 9 ltac:(lia)) as Hk.
  unfold built_pde at 1. rewrite andb_false_r, !Z2Nat.id by (unfold in_width in *; lia).
  cbn [pt_apic]. rewrite split_2mb_built by apply region_frame_width. done.
Qed.
(** *** Walks through the split tables *)

Definition same_region (va b : Z) : bool :=
  (field va 30 9 =? field b 30 9) && (field va 21 9 =? field b 21 9).

Lemma split_pd_length ps_addr raw : length (pd (split_at ps_addr raw)) = 512%nat.
Proof. unfold split_at. cbn [pd]. by rewrite length_insert, built_pd_length. Qed.

Lemma field_inj_nat a b lo lo' : Z.to_nat (field a lo 9) = Z.to_nat (field b lo' 9) -> field a lo 9 = field b lo' 9.
Proof.
  pose proof (field_range a lo 9 ltac:(lia)). pose proof (field_range b lo' 9 ltac:(lia)).
  unfold in_width in *. lia.
Qed.

(** The page directory the walk reads, and its entry, in and out of the region. *)
Lemma split_pd_entry ps_addr raw va :
  exists d, pd (split_at ps_addr raw) !! Z.to_nat (field va 30 9) = Some d /\
    d !! Z.to_nat (field va 21 9) =
      let v := field va 30 9 * 2 ^ 18 + field va 21 9 * 2 ^ 9 in
      Some (if same_region va raw then split_pde (leaf_entry true v) (frame_of (addr_of_pt_apic ps_addr))
            else leaf_entry true v).
Proof.
  assert (forall i, built_pd true true ps_addr i !! Z.to_nat (field va 21 9) =
    Some (leaf_entry true (Z.of_nat i * 2 ^ 18 + field va 21 9 * 2 ^ 9))) as Hbuilt.
  { intros i. unfold built_pd. rewrite lookup_map_seq by apply level_index.
    unfold built_pde. rewrite andb_false_r, Z2Nat.id; [done|]. apply field_range. lia. }
  assert (Z.of_nat (Z.to_nat (field va 30 9)) = field va 30 9) as Hid.
  { apply Z2Nat.id, field_range. lia. }
  unfold split_at, same_region. cbn [pd].
  destruct (Z.eqb_spec (field va 30 9) (field raw 30 9)) as [He3|He3]; cbn [andb].
  - rewrite He3. rewrite list_lookup_insert_eq by (rewrite built_pd_length; apply level_index).
    eexists. split; [done|]. destruct (Z.eqb_spec (field va 21 9) (field raw 21 9)) as [He2|He2].
    + rewrite He2. rewrite list_lookup_insert_eq; [done|].
      unfold built_pd. rewrite length_map, length_seq. apply level_index.
    + rewrite list_lookup_insert_ne by (intros H; by apply He2, eq_sym, field_inj_nat).
      rewrite Hbuilt, <- He3, Hid. done.
  - rewrite list_lookup_insert_ne by (intros H; by apply He3, eq_sym, field_inj_nat).
    rewrite built_pd_lookup. eexists. split; [done|]. by rewrite Hbuilt, Hid.
Qed.

(** The level-1 walk in the split region: page [k] is found at 4096 times the
    distance it should be. *)
Lemma split_walk_page frames ps_addr raw va d :
  holds frames ps_addr (split_at ps_addr raw) -> addressable ps_addr -> 0 <= va < 2 ^ 39 ->
  same_region va raw = true ->
  let i := Z.to_nat (field va 30 9) in
  frames (frame_of (addr_of_pd ps_addr i)) = Some d -> pd (split_at ps_addr raw) !! i = Some d ->
  exists path, walk page_present frames 1%nat (frame_of (addr_of_pd ps_addr i)) va =
      Some (path, va + field va 12 9 * (2 ^ 24 - 2 ^ 12)) /\
    all_set 1 path = true /\ all_set 2 path = true.
Proof.
  intros Hh Ha Hva Hin i Hd Hpd.
  destruct (split_pd_entry ps_addr raw va) as (d' & Hd' & He).
  fold i in Hd'. rewrite Hpd in Hd'. injection Hd' as <-. cbv zeta in He. rewrite Hin in He.
  set (v := field va 30 9 * 2 ^ 18 + field va 21 9 * 2 ^ 9) in *.
  assert (in_width 40 v) as Hv by apply region_frame_width.
  pose proof (Ha 515%nat ltac:(lia)) as H515.
  change (ps_addr + 0x1000 * Z.of_nat 515) with (addr_of_pt_apic ps_addr) in H515.
  destruct (split_pde_spec v _ (proj1 Hv) (proj1 H515)) as (Hp & Hw & Hu & Hl & Hf).
  rewrite (walk_dir page_present frames 0%nat _ va d _ Hd He Hp Hl), Hf.
  replace (field (frame_of (addr_of_pt_apic ps_addr)) 0 40) with (frame_of (addr_of_pt_apic ps_addr)).
  2: { unfold field. rewrite Z.shiftr_0_r. by rewrite wrap_small. }
  pose proof (field_range va 12 9 ltac:(lia)) as Hj. unfold in_width in Hj.
  pose proof (field_range va 30 9 ltac:(lia)) as H3. pose proof (field_range va 21 9 ltac:(lia)) as H2.
  unfold in_width in H2, H3.
  destruct (split_entry_spec (v + field va 12 9 * 0x1000) ltac:(unfold in_width in Hv; lia)) as (Hp0 & Hw0 & Hu0 & Hf0).
  apply andb_true_iff in Hin as [He3%Z.eqb_eq He2%Z.eqb_eq].
  rewrite (walk_page page_present frames _ va (pt_apic (split_at ps_addr raw))
    (split_entry (v + field va 12 9 * 0x1000))); [|by eapply holds_pt_apic, split_pd_length| |exact Hp0].
  2: { unfold split_at. cbn [pt_apic]. rewrite <- He3, <- He2. fold v. change (level_shift 0) with 12.
       rewrite lookup_map_seq by apply level_index. rewrite Z2Nat.id by lia. done. }
  rewrite Hf0. eexists. split.
  - f_equal. f_equal. unfold field at 1. rewrite Z.shiftr_0_r, wrap_small by (unfold in_width, v; lia).
    destruct (address_split va Hva). unfold v. lia.
  - unfold all_set. cbn [forallb]. by rewrite Hw, Hu, Hw0, Hu0.
Qed.

(** C6: splitting the page of the local APIC: with the APIC enabled in xAPIC
    mode it does not panic, every address outside the 2 MB region stays
    mapped to itself, and inside the region page [k] is mapped [k] times
    2^24 - 2^12 bytes too high, because the running frame number is advanced
    by the page size in bytes; only the first page, where the APIC registers
    normally are, stays in place.  All of it remains writable and
    user-accessible. *)
Theorem split_apic_page_translation ps_addr raw m :
  msrs m !! IA32_APIC_BASE = Some raw -> in_width 64 raw ->
  Z.testbit raw 10 = false -> Z.testbit raw 11 = true ->
  exists ps, split_apic_page ps_addr (built true ps_addr) m = Ok (ps, m) /\
    forall frames, holds frames ps_addr ps -> addressable ps_addr ->
    forall va, 0 <= va < 2 ^ 39 -> exists path,
      walk page_present frames 3%nat (frame_of ps_addr) va =
        Some (path, if same_region va raw then va + field va 12 9 * (2 ^ 24 - 2 ^ 12) else va) /\
      all_set 1 path = true /\ all_set 2 path = true.
Proof.
  intros Hraw Hw H10 H11. eexists. split; [by apply split_apic_page_built|].
  intros frames Hh Ha va Hva. destruct (split_pd_entry ps_addr raw va) as (d & Hd & He).
  destruct (walk_to_pd frames ps_addr true _ Hh Ha eq_refl eq_refl (split_pd_length _ _) va _ d Hva eq_refl Hd)
    as [Hfd ->].
  assert (exists path, walk page_present frames 1%nat (frame_of (addr_of_pd ps_addr (Z.to_nat (field va 30 9)))) va =
      Some (path, if same_region va raw then va + field va 12 9 * (2 ^ 24 - 2 ^ 12) else va) /\
      all_set 1 path = true /\ all_set 2 path = true) as (path & -> & Hw1 & Hu1).
  { destruct (same_region va raw) eqn:Hin; [by eapply split_walk_page|].
    cbv zeta in He. by apply (walk_leaf frames ps_addr true va d Hva Hfd). }
  eexists. split; [done|].
  destruct (dir_entry_spec true (frame_of (addr_of_pdpt ps_addr))) as (_ & _ & Hw2 & Hu2 & _);
    [apply (Ha 1%nat); lia|].
  destruct (dir_entry_spec true (frame_of (addr_of_pd ps_addr (Z.to_nat (field va 30 9)))))
    as (_ & _ & Hw3 & Hu3 & _); [by apply pd_frame_nonneg|].
  unfold all_set in *. cbn [forallb]. by rewrite Hw2, Hw3, Hu2, Hu3.
Qed.
End NptsTheorems.

(** ** Witness: the local APIC at its power-on address 0xfee0_0000 *)
Module NptsExample.
Import Reference PagingExample.
#[local] Instance checked : Profile := true.
#[local] Existing Instance ops.

Definition apic_machine : Machine := idle_machine [(IA32_APIC_BASE, 0xfee0_0900)].

Lemma split_apic_page_translation_witness : exists ps path path',
  split_apic_page 0x10_0000 (built true 0x10_0000) apic_machine = Ok (ps, apic_machine) /\
  walk page_present (memory_of ps) 3%nat 0x100 0xfee0_0300 = Some (path, 0xfee0_0300) /\
  walk page_present (memory_of ps) 3%nat 0x100 0xfee0_1000 = Some (path', 0xffe0_0000).
Proof.
  destruct (split_apic_page_translation 0x10_0000 0xfee0_0900 apic_machine ltac:(reflexivity)
    ltac:(done) ltac:(reflexivity) ltac:(reflexivity)) as (ps & Hs & H).
  specialize (H (memory_of ps) (memory_of_holds ps) memory_addressable).
  destruct (H 0xfee0_0300 ltac:(lia)) as (p1 & H1 & _).
  destruct (H 0xfee0_1000 ltac:(lia)) as (p2 & H2 & _).
  exists ps, p1, p2. split; [exact Hs|]. split; [exact H1|exact H2].
Defined.
End NptsExample.
