(* ===== verification/Mtrr.v ===== *)
(** * Memory type range registers (hvcore intel/mtrr.rs)

    Reading the MTRRs, converting them to ranges, and looking up the memory
    type of a range of physical addresses. *)

From S2P Require Import Prelude External Machine.

Inductive MemoryType : Type :=
  | Uncachable
  | WriteCombining
  | WriteThrough
  | WriteProtected
  | WriteBack
  | UncachableMinus.

#[export] Instance MemoryType_eq_dec : EqDecision MemoryType.
Proof. solve_decision. Defined.

(** [memory_type as u64] *)
Definition MemoryType_value (t : MemoryType) : Z :=
  match t with
  | Uncachable => 0
  | WriteCombining => 1
  | WriteThrough => 4
  | WriteProtected => 5
  | WriteBack => 6
  | UncachableMinus => 7
  end.

(** [<MemoryType as FromPrimitive>::from_u8] *)
Definition MemoryType_from_u8 (b : Z) : option MemoryType :=
  match b with
  | 0 => Some Uncachable
  | 1 => Some WriteCombining
  | 4 => Some WriteThrough
  | 5 => Some WriteProtected
  | 6 => Some WriteBack
  | 7 => Some UncachableMinus
  | _ => None
  end.

Record MemoryTypeRange : Type := mk_range { memory_type : MemoryType; start : Z; end_ : Z }.

(** [Range::contains] *)
Definition contains (r : MemoryTypeRange) (x : Z) : bool := (start r <=? x) && (x <? end_ r).

Record RawVariableMtrr : Type := mk_raw_variable { raw_base : Z; raw_mask : Z }.

Record RawMtrrs : Type := mk_raw_mtrrs {
  raw_default_memory_type : MemoryType;
  raw_fixed : list Z;
  raw_variable : list RawVariableMtrr;
}.

Record Mtrr : Type := mk_mtrr {
  default_memory_type : MemoryType;
  fixed : list MemoryTypeRange;
  variable : list MemoryTypeRange;
}.

(** ** Reading the registers *)

Definition IA32_MTRR_DEF_TYPE_FIXED_RANGE_MTRR_ENABLE_FLAG : Z := 0x400.
Definition IA32_MTRR_DEF_TYPE_MTRR_ENABLE_FLAG : Z := 0x800.
Definition IA32_MTRR_PHYSMASK_VALID_FLAG : Z := 0x800.

Definition FIXED_MTRRS : list Z :=
  [IA32_MTRR_FIX64K_00000; IA32_MTRR_FIX16K_80000; IA32_MTRR_FIX16K_A0000;
   IA32_MTRR_FIX4K_C0000; IA32_MTRR_FIX4K_C8000; IA32_MTRR_FIX4K_D0000;
   IA32_MTRR_FIX4K_D8000; IA32_MTRR_FIX4K_E0000; IA32_MTRR_FIX4K_E8000;
   IA32_MTRR_FIX4K_F0000; IA32_MTRR_FIX4K_F8000].

(** The ten pairs of [VARIABLE_MTRRS]. *)
Definition VARIABLE_MTRRS : list (Z * Z) :=
  map (fun k => (IA32_MTRR_PHYSBASE (Z.of_nat k), IA32_MTRR_PHYSMASK (Z.of_nat k))) (seq 0 10).

Definition from_u8_unwrap (b : Z) : outcome MemoryType :=
  unwrap (MemoryType_from_u8 b) "from_u8(..).unwrap()".

(** [RawMtrrs::new]: the pairs at even positions [2 * k] below
    [variable_mtrr_count * 2] are read, the others are skipped. *)
Definition RawMtrrs_new : M Machine RawMtrrs :=
  let! default_type := rdmsr IA32_MTRR_DEF_TYPE in
  massert (negb (Z.land default_type IA32_MTRR_DEF_TYPE_MTRR_ENABLE_FLAG =? 0))
    "MTRRs not enabled" ;;!
  massert (negb (Z.land default_type IA32_MTRR_DEF_TYPE_FIXED_RANGE_MTRR_ENABLE_FLAG =? 0))
    "Fixed range MTRRs not enabled" ;;!
  let! default_memory_type := lift (from_u8_unwrap (wrap 8 default_type)) in
  let! fixed := mmap rdmsr FIXED_MTRRS in
  let! capabilities := rdmsr IA32_MTRRCAP in
  let variable_mtrr_count := Z.to_nat (Z.land capabilities 0xff) in
  let! variable := mmap (fun '(b, k) => let! base := rdmsr b in let! mask := rdmsr k in
                                       ret (mk_raw_variable base mask))
                        (take variable_mtrr_count VARIABLE_MTRRS) in
  ret (mk_raw_mtrrs default_memory_type fixed variable).

(** ** Conversion to ranges *)
Section Convert.
Context {P : Profile}.

Definition set_last (l : list MemoryTypeRange) (r : MemoryTypeRange) : list MemoryTypeRange :=
  take (length l - 1) l ++ [r].

Definition update_combined_ranges (combined_ranges : list MemoryTypeRange) (range : MemoryTypeRange)
    : list MemoryTypeRange :=
  match last combined_ranges with
  | Some last_range =>
      if decide (memory_type last_range = memory_type range) then
        if end_ last_range =? start range then
          set_last combined_ranges (mk_range (memory_type last_range) (start last_range) (end_ range))
        else if start last_range =? end_ range then
          set_last combined_ranges (mk_range (memory_type last_range) (start range) (end_ last_range))
        else combined_ranges ++ [range]
      else combined_ranges ++ [range]
  | None => combined_ranges ++ [range]
  end.

(** Base and size of the subranges of each fixed MTRR. *)
Definition FIXED_MTRR_RANGES : list (Z * Z) :=
  [(0x0, 0x10000); (0x80000, 0x4000); (0xa0000, 0x4000); (0xc0000, 0x1000);
   (0xc8000, 0x1000); (0xd0000, 0x1000); (0xd8000, 0x1000); (0xe0000, 0x1000);
   (0xe8000, 0x1000); (0xf0000, 0x1000); (0xf8000, 0x1000)].

(** [u64::to_be_bytes] *)
Definition to_be_bytes (v : Z) : list Z :=
  map (fun j => field v (8 * (7 - Z.of_nat j)) 8) (seq 0 8).

(** One iteration of the inner loop: byte [j] of the MTRR whose subranges
    start at [base] and have size [size]. *)
Definition convert_fixed_byte (base size : Z) (st : Z * list MemoryTypeRange) (byte : Z)
    : outcome ((Z * list MemoryTypeRange) * unit) :=
  let '(j, combined_ranges) := st in
  let? memory_type := from_u8_unwrap byte in
  let? off := mul_w 64 size j in
  let? b := add_w 64 base off in
  let? e := add_w 64 b size in
  Ok ((j + 1, update_combined_ranges combined_ranges (mk_range memory_type b e)), tt).

Definition convert_from_raw_fixed (raw_fixed_mtrrs : list Z) : outcome (list MemoryTypeRange) :=
  let? _ := oassert (bool_decide (length raw_fixed_mtrrs = length FIXED_MTRR_RANGES))
              "raw_fixed_mtrrs.len() == FIXED_MTRR_RANGES.len()" in
  let? (combined_ranges, _) :=
    foreach (fun combined_ranges '(raw, (base, size)) =>
               let? (st, _) := foreach (convert_fixed_byte base size) (0, combined_ranges)
                                 (to_be_bytes raw) in
               Ok (st.2, tt))
      [] (zip raw_fixed_mtrrs FIXED_MTRR_RANGES) in
  Ok combined_ranges.

(** BSF leaves its destination as it was when the source is zero:
    [bsf_zero] is what the register held. *)
Context (bsf_zero : Z).

Definition bit_scan_forward (value : Z) : Z :=
  if value =? 0 then bsf_zero else Z.log2 (Z.land value (- value)).

Definition convert_variable (combined_ranges : list MemoryTypeRange) (raw : RawVariableMtrr)
    : outcome (list MemoryTypeRange * unit) :=
  if negb (Z.land (raw_mask raw) IA32_MTRR_PHYSMASK_VALID_FLAG =? 0) then
    let pfn := Z.shiftr (raw_mask raw) BASE_PAGE_SHIFT in
    let length := bit_scan_forward pfn in
    let? size_in_pages := shl_w 64 1 length in
    let? size_in_bytes := shl_w 64 size_in_pages BASE_PAGE_SHIFT in
    let? memory_type := from_u8_unwrap (wrap 8 (raw_base raw)) in
    let base := Z.land (raw_base raw) (not_w 64 0xfff) in
    let? e := add_w 64 base size_in_bytes in
    Ok (update_combined_ranges combined_ranges (mk_range memory_type base e), tt)
  else Ok (combined_ranges, tt).

Definition convert_from_raw_variable (raw_variable_mtrrs : list RawVariableMtrr)
    : outcome (list MemoryTypeRange) :=
  let? (combined_ranges, _) := foreach convert_variable [] raw_variable_mtrrs in
  Ok combined_ranges.

Definition Mtrr_new : M Machine Mtrr :=
  let! raw_mtrrs := RawMtrrs_new in
  let! fixed := lift (convert_from_raw_fixed (raw_fixed raw_mtrrs)) in
  let! variable := lift (convert_from_raw_variable (raw_variable raw_mtrrs)) in
  ret (mk_mtrr (raw_default_memory_type raw_mtrrs) fixed variable).
End Convert.

(** ** Lookup of the memory type of [[lo, hi)] *)
Section Find.
Context {P : Profile}.

(** [self.fixed.iter().find(..)]; [hi - 1] is computed only for a range that
    contains [lo]. *)
Fixpoint find_from_fixed (l : list MemoryTypeRange) (lo hi : Z) : outcome (option MemoryType) :=
  match l with
  | [] => Ok None
  | mtrr :: l' =>
      if contains mtrr lo then
        let? last := sub_w 64 hi 1 in
        if contains mtrr last then Ok (Some (memory_type mtrr)) else find_from_fixed l' lo hi
      else find_from_fixed l' lo hi
  end.

(** The loop of [find_from_variable] from [return_memory_type], and what
    follows it. *)
Fixpoint find_variable_loop (default : MemoryType) (return_memory_type : option MemoryType)
    (l : list MemoryTypeRange) (lo hi : Z) : outcome (option MemoryType) :=
  match l with
  | [] =>
      Ok (match return_memory_type with
          | None => Some default
          | Some t => Some t
          end)
  | mtrr :: l' =>
      if contains mtrr lo then
        let? last := sub_w 64 hi 1 in
        if negb (contains mtrr last) then Ok None
        else if decide (memory_type mtrr = Uncachable) then Ok (Some (memory_type mtrr))
        else
          let return_memory_type :=
            match return_memory_type with
            | Some t =>
                if bool_decide (t = WriteBack) && bool_decide (memory_type mtrr = WriteThrough)
                then Some (memory_type mtrr)
                else Some t
            | None => Some (memory_type mtrr)
            end in
          find_variable_loop default return_memory_type l' lo hi
      else find_variable_loop default return_memory_type l' lo hi
  end.

Definition find_from_variable (mtrr : Mtrr) (lo hi : Z) : outcome (option MemoryType) :=
  find_variable_loop (default_memory_type mtrr) None (variable mtrr) lo hi.

Definition find (mtrr : Mtrr) (lo hi : Z) : outcome (option MemoryType) :=
  if lo <? 0x10_0000 then
    if 0x10_0000 <? hi then Ok None else find_from_fixed (fixed mtrr) lo hi
  else find_from_variable mtrr lo hi.
End Find.

(** ** What the ranges say

    [covers l x t]: some range of [l] gives address [x] the type [t]. *)
Definition covers (l : list MemoryTypeRange) (x : Z) (t : MemoryType) : Prop :=
  exists r, r ∈ l /\ memory_type r = t /\ contains r x = true.

Definition proper_range (r : MemoryTypeRange) : Prop :=
  start r < end_ r /\ start r mod 0x1000 = 0 /\ end_ r mod 0x1000 = 0.

Lemma contains_spec r x : contains r x = true <-> start r <= x < end_ r.
Proof. unfold contains. rewrite andb_true_iff, Z.leb_le, Z.ltb_lt. done. Qed.

Lemma covers_app l r x t :
  covers (l ++ [r]) x t <-> covers l x t \/ (memory_type r = t /\ contains r x = true).
Proof.
  unfold covers. split.
  - intros (q & Hq & Ht & Hc). apply elem_of_app in Hq as [Hq|Hq]; [left; eauto|].
    apply list_elem_of_singleton in Hq as ->. by right.
  - intros [(q & Hq & H)|H].
    + exists q. split; [apply elem_of_app; by left|done].
    + exists r. split; [apply elem_of_app; right; by apply list_elem_of_singleton|done].
Qed.

Lemma last_split {A} (l : list A) a : last l = Some a -> l = take (length l - 1) l ++ [a].
Proof.
  intros H. apply last_Some in H as [l' ->].
  rewrite length_app, take_app_le by (cbn; lia). cbn.
  by rewrite firstn_all2 by lia.
Qed.

(** Appending a range, merged into the last one or not, adds its addresses
    with its type and nothing else. *)
Lemma update_covers l r x t : Forall proper_range l -> proper_range r ->
  covers (update_combined_ranges l r) x t <->
    covers l x t \/ (memory_type r = t /\ contains r x = true).
Proof.
  intros Hl Hr. unfold update_combined_ranges.
  destruct (last l) as [q|] eqn:Hlast; [|apply covers_app].
  destruct (decide _) as [Ht|_]; [|apply covers_app].
  pose proof (last_split _ _ Hlast) as Hsplit.
  assert (proper_range q) as (Hq & _ & _).
  { rewrite Forall_forall in Hl. apply Hl. by apply last_Some_elem_of. }
  destruct Hr as (Hr & _ & _). unfold set_last.
  destruct (Z.eqb_spec (end_ q) (start r)) as [He|_];
    [|destruct (Z.eqb_spec (start q) (end_ r)) as [He|_]; [|apply covers_app]].
  all: rewrite Hsplit at 3; rewrite !covers_app, !contains_spec; cbn [memory_type start end_];
    rewrite Ht;
    match goal with |- (_ \/ _ /\ ?A) <-> ((_ \/ _ /\ ?B) \/ _ /\ ?C) =>
      assert (A <-> B \/ C) by lia; tauto end.
Qed.

Lemma update_proper l r : Forall proper_range l -> proper_range r ->
  Forall proper_range (update_combined_ranges l r).
Proof.
  intros Hl Hr. unfold update_combined_ranges.
  assert (Forall proper_range (l ++ [r])) as Happ by (apply Forall_app; split; [done|by apply Forall_singleton]).
  destruct (last l) as [q|] eqn:Hlast; [|done].
  destruct (decide _) as [Ht|_]; [|done].
  pose proof (last_split _ _ Hlast) as Hsplit. rewrite Hsplit in Hl.
  apply Forall_app in Hl as [Htake (Hq & Hq1 & Hq2)%Forall_singleton].
  destruct Hr as (Hr & Hr1 & Hr2). unfold set_last.
  destruct (Z.eqb_spec (end_ q) (start r)) as [He|_];
    [|destruct (Z.eqb_spec (start q) (end_ r)) as [He|_]; [|done]].
  all: apply Forall_app; split; [done|]; apply Forall_singleton; unfold proper_range;
    cbn [start end_]; lia.
Qed.

(** A sequence of ranges, combined. *)
Definition combine_all (l : list MemoryTypeRange) : list MemoryTypeRange :=
  foldl update_combined_ranges [] l.

Lemma combine_from l acc : Forall proper_range acc -> Forall proper_range l ->
  let l' := foldl update_combined_ranges acc l in
  Forall proper_range l' /\ forall x t, covers l' x t <-> covers acc x t \/ covers l x t.
Proof.
  revert acc. induction l as [|r l IH]; intros acc Hacc Hl; simpl.
  - split; [done|]. intros x t. split; [by left|]. intros [H|(r & Hr & _)]; [done|].
    by apply elem_of_nil in Hr.
  - inversion Hl as [|? ? Hr Hl']; subst.
    destruct (IH _ (update_proper _ _ Hacc Hr) Hl') as [Hp Hc]. split; [done|].
    intros x t. rewrite Hc, update_covers by done.
    assert (covers (r :: l) x t <-> (memory_type r = t /\ contains r x = true) \/ covers l x t) as ->.
    { unfold covers. split.
      - intros (q & [->|Hq]%elem_of_cons & H); [by left|right; by exists q].
      - intros [H|(q & Hq & H)]; [exists r|exists q]; (split; [|done]); [by left|by right]. }
    tauto.
Qed.

Lemma combine_all_covers l x t : Forall proper_range l ->
  covers (combine_all l) x t <-> covers l x t.
Proof.
  intros Hl. destruct (combine_from l [] (Forall_nil_2 _) Hl) as [_ H]. rewrite (H x t).
  split; [intros [(r & Hr & _)|]; [by apply elem_of_nil in Hr|done]|by right].
Qed.

Lemma combine_all_proper l : Forall proper_range l -> Forall proper_range (combine_all l).
Proof. intros Hl. by destruct (combine_from l [] (Forall_nil_2 _) Hl). Qed.

(** ** Variable ranges: the SDM's rule for overlapping ranges

    [types] are the types of the ranges that contain an address.  UC wins;
    otherwise the types must agree or mix WT and WB, which gives WT; any other
    overlap is undefined ([None]). *)
Definition sdm_combine (default : MemoryType) (types : list MemoryType) : option MemoryType :=
  match types with
  | [] => Some default
  | t :: types' =>
      if decide (Uncachable ∈ types) then Some Uncachable
      else if decide (Forall (eq t) types') then Some t
      else if decide (Forall (fun t => t = WriteThrough \/ t = WriteBack) types) then Some WriteThrough
      else None
  end.

Definition matching_types (l : list MemoryTypeRange) (x : Z) : list MemoryType :=
  memory_type <$> filter (fun r => contains r x = true) l.

(** The accumulator of the loop. *)
Definition merge_type (acc : option MemoryType) (t : MemoryType) : option MemoryType :=
  match acc with
  | Some a => if bool_decide (a = WriteBack) && bool_decide (t = WriteThrough) then Some t else Some a
  | None => Some t
  end.

Lemma matching_types_cons r l x : matching_types (r :: l) x =
  if contains r x then memory_type r :: matching_types l x else matching_types l x.
Proof.
  unfold matching_types. rewrite filter_cons. destruct (contains r x).
  - by rewrite decide_True.
  - by rewrite decide_False.
Qed.

Lemma find_variable_loop_fold {P : Profile} d l acc lo hi :
  (forall r, r ∈ l -> contains r lo = true -> contains r (hi - 1) = true) -> in_width 64 (hi - 1) ->
  let types := matching_types l lo in
  find_variable_loop d acc l lo hi =
    Ok (Some (if decide (Uncachable ∈ types) then Uncachable
              else match foldl merge_type acc types with
                   | Some t => t
                   | None => d
                   end)).
Proof.
  intros Hfull Hhi. revert acc. induction l as [|r l IH]; intros acc types; subst types.
  - cbn. rewrite decide_False by apply not_elem_of_nil. by destruct acc.
  - cbn [find_variable_loop]. rewrite matching_types_cons. destruct (contains r lo) eqn:Hc.
    + rewrite sub_w_small by done. cbn [obind].
      rewrite Hfull by (try done; left). cbn [negb].
      destruct (decide (memory_type r = Uncachable)) as [Hu|Hu].
      * rewrite decide_True by (rewrite Hu; left). by rewrite Hu.
      * rewrite IH by (intros q Hq; apply Hfull; by right). cbn [foldl].
        f_equal. f_equal.
        destruct (decide (Uncachable ∈ matching_types l lo)) as [Hin|Hin].
        -- by rewrite decide_True by (by right).
        -- rewrite decide_False; [|by rewrite elem_of_cons; intros [|]]. by destruct acc.
    + apply IH. intros q Hq. apply Hfull. by right.
Qed.

Lemma merge_same t types : Forall (eq t) types -> foldl merge_type (Some t) types = Some t.
Proof.
  induction types as [|u types IH]; intros H; [done|]. inversion H as [|? ? Hu H']; subst.
  cbn [foldl]. replace (merge_type (Some u) u) with (Some u); [by apply IH|].
  unfold merge_type. by destruct (_ && _).
Qed.

Lemma merge_wt_wb t types :
  Forall (fun t => t = WriteThrough \/ t = WriteBack) (t :: types) ->
  foldl merge_type (Some t) types =
    Some (if decide (WriteThrough ∈ t :: types) then WriteThrough else WriteBack).
Proof.
  revert t. induction types as [|u types IH]; intros t H; inversion H as [|? ? Ht H']; subst.
  - cbn. destruct Ht as [->| ->].
    + by rewrite decide_True by left.
    + rewrite decide_False; [done|]. by rewrite list_elem_of_singleton.
  - inversion H' as [|? ? Hu H'']; subst. cbn [foldl].
    assert (forall a, a = WriteThrough \/ a = WriteBack ->
      foldl merge_type (Some a) types = Some (if decide (WriteThrough ∈ a :: types) then WriteThrough else WriteBack)) as IH'.
    { intros a Ha. apply IH. by constructor. }
    clear H H' H'' IH. destruct Ht as [->| ->], Hu as [->| ->].
    + change (merge_type (Some WriteThrough) WriteThrough) with (Some WriteThrough).
      rewrite IH' by tauto. by rewrite !decide_True by left.
    + change (merge_type (Some WriteThrough) WriteBack) with (Some WriteThrough).
      rewrite IH' by tauto. by rewrite !decide_True by left.
    + change (merge_type (Some WriteBack) WriteThrough) with (Some WriteThrough).
      rewrite IH' by tauto. rewrite !decide_True; [done|right; left|left].
    + change (merge_type (Some WriteBack) WriteBack) with (Some WriteBack).
      rewrite IH' by tauto. f_equal. apply decide_ext.
      rewrite !elem_of_cons. intuition congruence.
Qed.

Lemma sdm_combine_merge d types t : Uncachable ∉ types -> sdm_combine d types = Some t ->
  match foldl merge_type None types with Some a => a | None => d end = t.
Proof.
  intros Hnu H. destruct types as [|a types]; [by injection H as <-|].
  cbn [sdm_combine] in H. rewrite decide_False in H by done. cbn [foldl merge_type].
  destruct (decide (Forall (eq a) types)) as [Ha|Ha].
  - injection H as <-. by rewrite merge_same.
  - destruct (decide (Forall _ (a :: types))) as [Hw|]; [|done]. injection H as <-.
    rewrite merge_wt_wb by done. rewrite decide_True; [done|].
    destruct (decide (WriteThrough ∈ a :: types)) as [|Hn]; [done|]. exfalso. apply Ha.
    rewrite elem_of_cons in Hn. inversion Hw as [|? ? Hwa Hw']; subst.
    rewrite Forall_forall in Hw' |- *. intros u Hu. specialize (Hw' u Hu).
    destruct Hwa as [->| ->]; [by destruct Hn; left|]. destruct Hw' as [->| ->]; [|done].
    destruct Hn. by right.
Qed.

(** ** Variable MTRRs as the architecture reads them *)

(** Bits 12 and up of PHYSMASK; an address is in the range of an enabled pair
    when it agrees with PHYSBASE on them. *)
Definition phys_mask (raw : RawVariableMtrr) : Z := Z.ldiff (raw_mask raw) (Z.ones 12).
Definition enabled (raw : RawVariableMtrr) : bool := Z.testbit (raw_mask raw) 11.
Definition in_raw_range (raw : RawVariableMtrr) (x : Z) : bool :=
  Z.land x (phys_mask raw) =? Z.land (raw_base raw) (phys_mask raw).

(** A pair as firmware sets it up on a processor with [w]-bit physical
    addresses: the mask has ones from bit [s] to [w - 1], the base is a
    multiple of [2^s] and names a memory type. *)
Record raw_ok (w : Z) (raw : RawVariableMtrr) (t : MemoryType) (s b : Z) : Prop := {
  rok_s : 12 <= s < w;
  rok_w : w <= 52;
  rok_mask : raw_mask raw = (2 ^ (w - s) - 1) * 2 ^ s + 2 ^ 11;
  rok_base : raw_base raw = b * 2 ^ s + MemoryType_value t;
  rok_b : 0 <= b < 2 ^ (w - s);
}.

Lemma land_opp_odd m : Z.odd m = true -> Z.land m (- m) = 1.
Proof.
  intros Hodd. assert (- m = Z.lnot (m - 1)) as -> by (unfold Z.lnot; lia).
  rewrite <- Z.ldiff_land. apply Z.odd_spec in Hodd as [q ->].
  replace (2 * q + 1 - 1) with (2 * q) by lia. apply Z.bits_inj'. intros i Hi.
  rewrite Z.ldiff_spec. destruct (Z.eqb_spec i 0) as [->|Hne].
  - rewrite Z.testbit_odd_0, Z.testbit_even_0. done.
  - replace i with (Z.succ (i - 1)) by lia.
    rewrite Z.testbit_odd_succ, Z.testbit_even_succ by lia. rewrite andb_negb_r.
    change 1 with (2 ^ 0). rewrite Z.pow2_bits_eqb by done. symmetry. apply Z.eqb_neq. lia.
Qed.

Lemma bit_scan_forward_spec z m k : 0 <= k -> Z.odd m = true ->
  bit_scan_forward z (m * 2 ^ k) = k.
Proof.
  intros Hk Hm. unfold bit_scan_forward. rewrite (proj2 (Z.eqb_neq _ _)).
  - rewrite <- Z.mul_opp_l, <- !Z.shiftl_mul_pow2, <- Z.shiftl_land, land_opp_odd by done.
    rewrite Z.shiftl_1_l. by apply Z.log2_pow2.
  - pose proof (Z.pow_pos_nonneg 2 k). assert (m <> 0) by (by intros ->). nia.
Qed.

Lemma odd_ones n : 0 < n -> Z.odd (2 ^ n - 1) = true.
Proof.
  intros Hn. rewrite Z.odd_sub, Z.odd_pow by lia. done.
Qed.

Section VariableSpec.
Context {P : Profile} (z w s b : Z) (raw : RawVariableMtrr) (t : MemoryType).
Context (Hok : raw_ok w raw t s b).

Lemma type_value_range : 0 <= MemoryType_value t < 8.
Proof. by destruct t. Qed.

Lemma raw_ok_enabled : negb (Z.land (raw_mask raw) IA32_MTRR_PHYSMASK_VALID_FLAG =? 0) = true /\
  enabled raw = true.
Proof.
  destruct Hok as [Hs Hw Hm _ _]. assert (enabled raw = true) as He.
  { unfold enabled. rewrite Hm. set (q := (2 ^ (w - s) - 1) * 2 ^ (s - 12)).
    replace ((2 ^ (w - s) - 1) * 2 ^ s + 2 ^ 11) with (2 ^ 11 + q * 2 * 2 ^ 11).
    2: { unfold q. replace (2 ^ s) with (2 ^ (s - 12) * 2 ^ 12) by (rewrite <- Z.pow_add_r by lia; f_equal; lia).
         lia. }
    apply Z.testbit_true; [done|]. rewrite Z.div_add, Z.div_same, Z.mod_add by done. done. }
  split; [|done]. change IA32_MTRR_PHYSMASK_VALID_FLAG with (2 ^ 11). by rewrite flag_set.
Qed.

Lemma raw_ok_pfn : Z.shiftr (raw_mask raw) BASE_PAGE_SHIFT = (2 ^ (w - s) - 1) * 2 ^ (s - 12).
Proof.
  destruct Hok as [Hs Hw Hm _ _]. rewrite Z.shiftr_div_pow2 by done. rewrite Hm. unfold BASE_PAGE_SHIFT.
  replace (2 ^ s) with (2 ^ (s - 12) * 2 ^ 12) by (rewrite <- Z.pow_add_r by lia; f_equal; lia).
  rewrite Z.mul_assoc, Z.add_comm, Z.div_add by done. done.
Qed.

Lemma raw_ok_base_type : wrap 8 (raw_base raw) = MemoryType_value t /\
  Z.land (raw_base raw) (not_w 64 0xfff) = b * 2 ^ s /\ b * 2 ^ s + 2 ^ s <= 2 ^ w.
Proof.
  destruct Hok as [Hs Hw _ Hb Hbr]. pose proof type_value_range.
  assert (2 ^ s = 2 ^ (s - 12) * 2 ^ 12) as Hps by (rewrite <- Z.pow_add_r by lia; f_equal; lia).
  assert (b * 2 ^ s + 2 ^ s <= 2 ^ w) as Hle.
  { replace (2 ^ w) with (2 ^ (w - s) * 2 ^ s) by (rewrite <- Z.pow_add_r by lia; f_equal; lia).
    pose proof (Z.pow_pos_nonneg 2 s). nia. }
  split_and!; [..|done].
  - rewrite Hb, Hps. unfold wrap. replace (b * (2 ^ (s - 12) * 2 ^ 12) + MemoryType_value t)
      with (MemoryType_value t + (b * 2 ^ (s - 12) * 2 ^ 4) * 2 ^ 8) by lia.
    rewrite Z.mod_add by done. apply Z.mod_small. lia.
  - assert (in_width 64 (raw_base raw)) as Hr.
    { pose proof (Z.pow_le_mono_r 2 w 52). pose proof (Z.pow_pos_nonneg 2 s).
      assert (2 ^ 12 <= 2 ^ s) by (apply Z.pow_le_mono_r; lia). unfold in_width. nia. }
    rewrite page_base by done. rewrite Hb, Hps. change 0x1000 with (2 ^ 12).
    rewrite Z.mul_assoc, Z.add_comm, Z.div_add, (Z.div_small (MemoryType_value t)) by lia. lia.
Qed.

(** The range the code makes of the pair. *)
Definition variable_range : MemoryTypeRange := mk_range t (b * 2 ^ s) (b * 2 ^ s + 2 ^ s).

Lemma convert_variable_ok acc :
  convert_variable z acc raw = Ok (update_combined_ranges acc variable_range, tt).
Proof.
  pose proof Hok as [Hs Hw _ _ Hbr]. destruct raw_ok_base_type as (Ht & Hb & Hle).
  pose proof (Z.pow_le_mono_r 2 w 52 ltac:(lia) Hw). pose proof (Z.pow_pos_nonneg 2 s ltac:(lia) ltac:(lia)).
  unfold convert_variable. rewrite (proj1 raw_ok_enabled), raw_ok_pfn.
  rewrite bit_scan_forward_spec by (try apply odd_ones; lia). cbn zeta.
  unfold shl_w at 1. rewrite (proj2 (Z.ltb_lt _ _)) by lia. cbn [obind].
  rewrite Z.shiftl_1_l, wrap_small by (split; [lia|apply Z.pow_lt_mono_r; lia]).
  unfold shl_w. rewrite (proj2 (Z.ltb_lt _ _)) by done. cbn [obind].
  unfold BASE_PAGE_SHIFT. rewrite Z.shiftl_mul_pow2 by done.
  replace (2 ^ (s - 12) * 2 ^ 12) with (2 ^ s) by (rewrite <- Z.pow_add_r by lia; f_equal; lia).
  rewrite (wrap_small 64 (2 ^ s)) by (split; [lia|apply Z.pow_lt_mono_r; lia]).
  rewrite Ht. replace (from_u8_unwrap (MemoryType_value t)) with (Ok t) by (by destruct t).
  cbn [obind]. rewrite Hb, add_w_small by (unfold in_width; nia). done.
Qed.

Lemma variable_range_proper : proper_range variable_range.
Proof.
  pose proof Hok as [Hs _ _ _ _]. unfold proper_range, variable_range. cbn [start end_].
  pose proof (Z.pow_pos_nonneg 2 s ltac:(lia) ltac:(lia)).
  assert (2 ^ s = 2 ^ (s - 12) * 0x1000) as ->
    by (change 0x1000 with (2 ^ 12); rewrite <- Z.pow_add_r by lia; f_equal; lia).
  split; [nia|]. split; [rewrite Z.mul_assoc; by apply Z.mod_mul|].
  rewrite Z.mul_assoc, <- Z.mul_add_distr_r. by apply Z.mod_mul.
Qed.

(** The code's range is the architecture's. *)
Lemma variable_range_spec x : 0 <= x < 2 ^ w ->
  contains variable_range x = in_raw_range raw x.
Proof.
  intros Hx. pose proof Hok as [Hs Hw Hm Hb Hbr]. pose proof type_value_range.
  assert (forall y, 0 <= y < 2 ^ w -> Z.land y (phys_mask raw) = y / 2 ^ s * 2 ^ s) as Hland.
  { intros y Hy. rewrite <- Z.shiftr_div_pow2, <- Z.shiftl_mul_pow2 by lia.
    assert (phys_mask raw = Z.shiftl (Z.ones (w - s)) s) as ->.
    { unfold phys_mask. rewrite Z.ldiff_ones_r by done.
      pose proof raw_ok_pfn as Hpfn. unfold BASE_PAGE_SHIFT in Hpfn. rewrite Hpfn.
      rewrite !Z.shiftl_mul_pow2, Z.ones_equiv by lia.
      replace (2 ^ s) with (2 ^ (s - 12) * 2 ^ 12) by (rewrite <- Z.pow_add_r by lia; f_equal; lia). lia. }
    apply Z.bits_inj'. intros i Hi. rewrite Z.land_spec, !testbit_shiftl by lia.
    destruct (Z.leb_spec s i); cbn [andb]; [|by rewrite andb_false_r].
    rewrite Z.shiftr_spec, Z.testbit_ones by lia.
    replace (i - s + s) with i by lia. replace (0 <=? i - s) with true by (symmetry; apply Z.leb_le; lia).
    cbn [andb]. destruct (Z.ltb_spec (i - s) (w - s)); [by rewrite andb_true_r|].
    rewrite andb_false_r. symmetry. apply (testbit_above w); [done|lia]. }
  unfold in_raw_range. destruct raw_ok_base_type as (_ & _ & Hle).
  assert (MemoryType_value t < 2 ^ s) as Hts by (assert (2 ^ 12 <= 2 ^ s) by (apply Z.pow_le_mono_r; lia); lia).
  pose proof (Z.pow_pos_nonneg 2 s ltac:(lia) ltac:(lia)) as Hpos.
  rewrite !Hland by (rewrite ?Hb; nia). rewrite Hb.
  replace ((b * 2 ^ s + MemoryType_value t) / 2 ^ s) with b.
  2: { rewrite Z.add_comm, Z.div_add, Z.div_small by lia. lia. }
  apply eq_true_iff_eq. rewrite contains_spec, Z.eqb_eq. unfold variable_range. cbn [start end_].
  pose proof (Z.mod_pos_bound x (2 ^ s) Hpos) as Hmod. pose proof (Z.div_mod x (2 ^ s) ltac:(lia)) as Hdm.
  split.
  - intros Hc. f_equal. symmetry. apply (Z.div_unique x (2 ^ s) b (x - b * 2 ^ s)); lia.
  - intros Heq. assert (x / 2 ^ s = b) as <- by nia. nia.
Qed.
End VariableSpec.

(** ** The theorems *)

(** The type an enabled pair gives to its range. *)
Definition raw_type (raw : RawVariableMtrr) : option MemoryType :=
  if enabled raw then MemoryType_from_u8 (wrap 8 (raw_base raw)) else None.

Definition raw_fine (w : Z) (raw : RawVariableMtrr) : Prop :=
  enabled raw = false \/ exists t s b, raw_ok w raw t s b.

Lemma convert_variable_fine {P : Profile} z w raw acc :
  raw_fine w raw -> Forall proper_range acc ->
  exists l, convert_variable z acc raw = Ok (l, tt) /\ Forall proper_range l /\
    forall x t, 0 <= x < 2 ^ w ->
      covers l x t <-> covers acc x t \/ (raw_type raw = Some t /\ in_raw_range raw x = true).
Proof.
  intros [Hd|(t0 & s & b & Hok)] Hacc.
  - exists acc. split; [|split; [done|]].
    + unfold convert_variable. change IA32_MTRR_PHYSMASK_VALID_FLAG with (2 ^ 11).
      rewrite flag_set by done. unfold enabled in Hd. by rewrite Hd.
    + intros x t _. unfold raw_type. rewrite Hd. intuition congruence.
  - exists (update_combined_ranges acc (variable_range s b t0)).
    pose proof (variable_range_proper w s b raw t0 Hok) as Hp.
    split; [by apply (convert_variable_ok z w)|]. split; [by apply update_proper|].
    intros x t Hx. rewrite update_covers by done.
    rewrite (variable_range_spec w s b raw t0 Hok x Hx). cbn [variable_range memory_type].
    unfold raw_type. rewrite (proj2 (raw_ok_enabled w s b raw t0 Hok)).
    destruct (raw_ok_base_type w s b raw t0 Hok) as (-> & _).
    replace (MemoryType_from_u8 (MemoryType_value t0)) with (Some t0) by (by destruct t0).
    intuition congruence.
Qed.

Section Conversion.
Context {P : Profile} (z : Z).

Lemma convert_variable_loop w raws acc : Forall (raw_fine w) raws -> Forall proper_range acc ->
  exists l us, foreach (convert_variable z) acc raws = Ok (l, us) /\ Forall proper_range l /\
    forall x t, 0 <= x < 2 ^ w -> covers l x t <->
      covers acc x t \/ exists raw, raw ∈ raws /\ raw_type raw = Some t /\ in_raw_range raw x = true.
Proof.
  revert acc. induction raws as [|raw raws IH]; intros acc Hf Hacc; cbn [foreach].
  - exists acc, []. split; [done|]. split; [done|]. intros x t _.
    split; [by left|]. intros [H|(raw & Hraw & _)]; [done|]. by apply elem_of_nil in Hraw.
  - inversion Hf as [|? ? Hraw Hraws]; subst.
    destruct (convert_variable_fine z w raw acc Hraw Hacc) as (l1 & -> & Hp1 & Hc1).
    destruct (IH l1 Hraws Hp1) as (l & us & Hl & Hp & Hc). cbn [obind]. rewrite Hl. cbn [obind].
    exists l, (tt :: us). split; [done|]. split; [done|].
    intros x t Hx. rewrite (Hc x t Hx), (Hc1 x t Hx). setoid_rewrite elem_of_cons. split.
    + intros [[H|H]|(r & Hr & H)]; [by left|right; exists raw; tauto|right; exists r; tauto].
    + intros [H|(r & [->|Hr] & H)]; [tauto|tauto|right; eauto].
Qed.

(** The variable MTRRs are converted without a panic, and the ranges say
    of an address exactly what the registers say: the address is given the
    type [t] when an enabled pair of that type agrees with it on the bits of
    its mask.  Merging neighbouring ranges of the same type changes nothing. *)
Lemma convert_from_raw_variable_spec w raws : Forall (raw_fine w) raws ->
  exists l, convert_from_raw_variable z raws = Ok l /\
    forall x t, 0 <= x < 2 ^ w ->
      (exists r, r ∈ l /\ memory_type r = t /\ start r <= x < end_ r) <->
      (exists raw, raw ∈ raws /\ raw_type raw = Some t /\ in_raw_range raw x = true).
Proof.
  intros Hf. destruct (convert_variable_loop w raws [] Hf (Forall_nil_2 _)) as (l & us & Hl & _ & Hc).
  exists l. split; [unfold convert_from_raw_variable; by rewrite Hl|]. intros x t Hx.
  specialize (Hc x t Hx). unfold covers in Hc. setoid_rewrite contains_spec in Hc. rewrite Hc.
  split; [|by right]. intros [(r & Hr & _)|H]; [by apply elem_of_nil in Hr|done].
Qed.

(** C20: the lookup among variable ranges implements the architecture's rule
    for overlapping MTRRs wherever that rule is defined and the queried range
    does not cross the edge of an MTRR, in whatever order the MTRRs stand. *)
Theorem find_from_variable_sdm mtrr lo hi t :
  (forall r, r ∈ variable mtrr -> contains r lo = true -> contains r (hi - 1) = true) ->
  in_width 64 (hi - 1) ->
  sdm_combine (default_memory_type mtrr) (matching_types (variable mtrr) lo) = Some t ->
  find_from_variable mtrr lo hi = Ok (Some t).
Proof.
  intros Hfull Hhi Hsdm. unfold find_from_variable.
  rewrite find_variable_loop_fold by done. f_equal. f_equal.
  set (types := matching_types (variable mtrr) lo) in *.
  destruct (decide (Uncachable ∈ types)) as [Hin|Hin].
  - destruct types as [|a types]; [by apply elem_of_nil in Hin|]. cbn [sdm_combine] in Hsdm.
    rewrite decide_True in Hsdm by done. congruence.
  - by apply sdm_combine_merge.
Qed.

(** A range that starts in an MTRR and leaves it, and that no UC MTRR contains
    whole, is given no type. *)
Lemma find_variable_conflict mtrr lo hi r :
  r ∈ variable mtrr -> contains r lo = true -> contains r (hi - 1) = false ->
  (forall q, q ∈ variable mtrr -> memory_type q = Uncachable -> contains q lo = true ->
     contains q (hi - 1) = false) ->
  in_width 64 (hi - 1) ->
  find_from_variable mtrr lo hi = Ok None.
Proof.
  intros Hr Hlo Hhi Hu Hw. unfold find_from_variable.
  enough (forall acc, find_variable_loop (default_memory_type mtrr) acc (variable mtrr) lo hi = Ok None)
    as H by apply H.
  induction (variable mtrr) as [|q l IH]; intros acc; [by apply elem_of_nil in Hr|].
  cbn [find_variable_loop].
  assert (forall p, p ∈ l -> memory_type p = Uncachable -> contains p lo = true ->
    contains p (hi - 1) = false) as Hu' by (intros p Hp; apply Hu; by right).
  destruct (contains q lo) eqn:Hq.
  - rewrite sub_w_small by done. cbn [obind].
    destruct (contains q (hi - 1)) eqn:Hq1; cbn [negb]; [|done].
    rewrite decide_False; [|intros Hqu; rewrite (Hu q) in Hq1; [done|left|done|done]].
    apply elem_of_cons in Hr as [->|Hr]; [congruence|]. by apply IH.
  - apply elem_of_cons in Hr as [->|Hr]; [congruence|]. by apply IH.
Qed.
End Conversion.

(** ** Fixed MTRRs *)

(** The type the code gives to subrange [j] of a fixed MTRR: that of byte
    [7 - j], since [to_be_bytes] puts the most significant byte first. *)
Definition fixed_type (raw : Z) (j : nat) : option MemoryType :=
  MemoryType_from_u8 (field raw (8 * (7 - Z.of_nat j)) 8).

Definition fixed_fine (raw : Z) : Prop := forall j, (j < 8)%nat -> is_Some (fixed_type raw j).

Definition sub_range (raw base size : Z) (j : nat) : MemoryTypeRange :=
  mk_range (default Uncachable (fixed_type raw j)) (base + size * Z.of_nat j)
    (base + size * Z.of_nat j + size).

Definition sub_ranges (e : Z * (Z * Z)) : list MemoryTypeRange :=
  let '(raw, (base, size)) := e in map (sub_range raw base size) (seq 0 8).

(** The MTRR and the subrange that hold an address below 1 MB. *)
Definition fixed_index (x : Z) : nat * nat :=
  if x <? 0x80000 then (0%nat, Z.to_nat (x / 0x10000))
  else if x <? 0xc0000 then
    (Z.to_nat (1 + (x - 0x80000) / 0x20000), Z.to_nat ((x - 0x80000) / 0x4000 mod 8))
  else (Z.to_nat (3 + (x - 0xc0000) / 0x8000), Z.to_nat ((x - 0xc0000) / 0x1000 mod 8)).

Definition valid_fixed_info (p : Z * Z) : Prop :=
  let '(base, size) := p in
  0 <= base /\ 0 < size /\ base + 8 * size <= 0x10_0000 /\ base mod 0x1000 = 0 /\ size mod 0x1000 = 0.

Lemma fixed_ranges_valid : Forall valid_fixed_info FIXED_MTRR_RANGES.
Proof. repeat constructor; done. Qed.

Lemma fixed_index_unique i j base size x :
  FIXED_MTRR_RANGES !! i = Some (base, size) -> (j < 8)%nat ->
  base + size * Z.of_nat j <= x < base + size * Z.of_nat j + size -> fixed_index x = (i, j).
Proof.
  intros Hi Hj Hx. unfold fixed_index.
  do 11 (destruct i as [|i]; [injection Hi as <- <-;
    repeat match goal with |- context [?a <? ?b] => destruct (Z.ltb_spec a b); try lia end;
    f_equal; Z.to_euclidean_division_equations; lia|]).
  discriminate Hi.
Qed.

Lemma fixed_index_total x : 0 <= x < 0x10_0000 -> exists i j base size,
  fixed_index x = (i, j) /\ FIXED_MTRR_RANGES !! i = Some (base, size) /\ (j < 8)%nat /\
  base + size * Z.of_nat j <= x < base + size * Z.of_nat j + size.
Proof.
  intros Hx.
  assert (exists i base size, FIXED_MTRR_RANGES !! i = Some (base, size) /\ 0 < size /\
    base <= x < base + 8 * size) as (i & base & size & Hi & Hs & Hb).
  { destruct (Z.ltb_spec x 0x80000); [exists 0%nat; do 2 eexists; split; [reflexivity|lia]|].
    destruct (Z.ltb_spec x 0xa0000); [exists 1%nat; do 2 eexists; split; [reflexivity|lia]|].
    destruct (Z.ltb_spec x 0xc0000); [exists 2%nat; do 2 eexists; split; [reflexivity|lia]|].
    destruct (Z.ltb_spec x 0xc8000); [exists 3%nat; do 2 eexists; split; [reflexivity|lia]|].
    destruct (Z.ltb_spec x 0xd0000); [exists 4%nat; do 2 eexists; split; [reflexivity|lia]|].
    destruct (Z.ltb_spec x 0xd8000); [exists 5%nat; do 2 eexists; split; [reflexivity|lia]|].
    destruct (Z.ltb_spec x 0xe0000); [exists 6%nat; do 2 eexists; split; [reflexivity|lia]|].
    destruct (Z.ltb_spec x 0xe8000); [exists 7%nat; do 2 eexists; split; [reflexivity|lia]|].
    destruct (Z.ltb_spec x 0xf0000); [exists 8%nat; do 2 eexists; split; [reflexivity|lia]|].
    destruct (Z.ltb_spec x 0xf8000); [exists 9%nat; do 2 eexists; split; [reflexivity|lia]|].
    exists 10%nat; do 2 eexists; split; [reflexivity|lia]. }
  pose proof (Z.div_mod (x - base) size ltac:(lia)) as Hd.
  pose proof (Z.mod_pos_bound (x - base) size Hs) as Hm.
  assert (0 <= (x - base) / size < 8) as Hq by (split; [apply Z.div_pos; lia|apply Z.div_lt_upper_bound; lia]).
  assert (base + size * Z.of_nat (Z.to_nat ((x - base) / size)) <= x <
          base + size * Z.of_nat (Z.to_nat ((x - base) / size)) + size) as Hin by (rewrite Z2Nat.id; lia).
  exists i, (Z.to_nat ((x - base) / size)), base, size. split; [|split; [done|split; [lia|exact Hin]]].
  apply (fixed_index_unique i _ base size); [done|lia|exact Hin].
Qed.

Section FixedConversion.
Context {P : Profile}.

Lemma convert_fixed_inner raw base size acc : fixed_fine raw -> valid_fixed_info (base, size) ->
  foreach (convert_fixed_byte base size) (0, acc) (to_be_bytes raw) =
    Ok ((8, foldl update_combined_ranges acc (sub_ranges (raw, (base, size)))), map (fun _ => tt) (seq 0 8)).
Proof.
  intros Hf (H0 & H1 & H2 & _).
  apply (foreach_all (convert_fixed_byte base size)
    (fun k => (Z.of_nat k, foldl update_combined_ranges acc (map (sub_range raw base size) (seq 0 k))))
    (fun _ => tt) (to_be_bytes raw) 8); [done|].
  intros j byte Hj Hlt. unfold to_be_bytes in Hj. rewrite lookup_map_seq in Hj by done. injection Hj as <-.
  destruct (Hf j Hlt) as [t Ht]. unfold fixed_type in Ht. unfold convert_fixed_byte, from_u8_unwrap.
  rewrite Ht. cbn [unwrap obind].
  rewrite mul_w_small by (unfold in_width; nia). cbn [obind].
  rewrite add_w_small by (unfold in_width; nia). cbn [obind].
  rewrite add_w_small by (unfold in_width; nia). cbn [obind].
  rewrite foldl_map_seq_S.
  assert (sub_range raw base size j =
    mk_range t (base + size * Z.of_nat j) (base + size * Z.of_nat j + size)) as ->.
  { unfold sub_range, fixed_type. by rewrite Ht. }
  by replace (Z.of_nat j + 1) with (Z.of_nat (S j)) by lia.
Qed.

Definition all_sub_ranges (raws : list Z) : list MemoryTypeRange :=
  concat (map sub_ranges (zip raws FIXED_MTRR_RANGES)).

Lemma convert_from_raw_fixed_ok raws : length raws = 11%nat -> Forall fixed_fine raws ->
  convert_from_raw_fixed raws = Ok (combine_all (all_sub_ranges raws)).
Proof.
  intros Hlen Hf. unfold convert_from_raw_fixed. rewrite bool_decide_true by done. cbn [oassert obind].
  match goal with |- context [foreach ?g [] _] => set (f := g) end.
  assert (forall l acc, Forall (fun e => fixed_fine e.1 /\ valid_fixed_info e.2) l ->
    exists us, foreach f acc l = Ok (foldl update_combined_ranges acc (concat (map sub_ranges l)), us)) as H.
  { induction l as [|[raw [base size]] l IH]; intros acc Hl; [by exists []|].
    inversion Hl as [|? ? [Hr Hi] Hl']; subst. cbn [foreach]. unfold f at 1.
    rewrite convert_fixed_inner by done. cbn [obind snd].
    destruct (IH (foldl update_combined_ranges acc (sub_ranges (raw, (base, size)))) Hl') as (us & ->).
    cbn [obind]. exists (tt :: us). cbn [map concat]. by rewrite foldl_app. }
  destruct (H (zip raws FIXED_MTRR_RANGES) []) as (us & ->); [|done].
  apply Forall_lookup. intros i [raw p] Hi. apply lookup_zip_with_Some in Hi as (? & ? & He & Hr & Hp).
  injection He as -> ->. split; [by eapply Forall_lookup_1|].
  by eapply Forall_lookup_1; [apply fixed_ranges_valid|].
Qed.

Lemma sub_ranges_elem raws r : length raws = 11%nat -> r ∈ all_sub_ranges raws ->
  exists i j raw base size, raws !! i = Some raw /\ FIXED_MTRR_RANGES !! i = Some (base, size) /\
    (j < 8)%nat /\ r = sub_range raw base size j.
Proof.
  intros Hlen Hr. unfold all_sub_ranges in Hr. apply list_elem_of_In, in_concat in Hr as (l & Hl & Hr).
  apply in_map_iff in Hl as ((raw & base & size) & <- & He).
  apply list_elem_of_In, list_elem_of_lookup in He as [i Hi].
  apply lookup_zip_with_Some in Hi as (? & ? & Heq & Hraw & Hp). injection Heq as <- <-.
  cbn [sub_ranges] in Hr. apply in_map_iff in Hr as (j & <- & Hj). apply in_seq in Hj.
  exists i, j, raw, base, size. repeat split; try done. lia.
Qed.

Lemma all_sub_ranges_proper raws : length raws = 11%nat -> Forall proper_range (all_sub_ranges raws).
Proof.
  intros Hlen. apply Forall_forall. intros r Hr.
  destruct (sub_ranges_elem raws r Hlen Hr) as (i & j & raw & base & size & _ & Hi & Hj & ->).
  destruct (Forall_lookup_1 _ _ _ _ fixed_ranges_valid Hi) as (H0 & H1 & H2 & H3 & H4).
  unfold proper_range, sub_range. cbn [start end_]. split; [lia|].
  assert (size * Z.of_nat j mod 0x1000 = 0) as H5.
  { rewrite Z.mul_mod, H4 by done. done. }
  split; [|rewrite <- Z.add_assoc, Z.add_mod, (Z.add_mod _ size), H4, H5, H3 by done; done].
  rewrite Z.add_mod, H3, H5 by done. done.
Qed.

Lemma all_sub_ranges_covers raws x t : length raws = 11%nat -> Forall fixed_fine raws -> 0 <= x < 0x10_0000 ->
  covers (all_sub_ranges raws) x t <->
    exists raw, raws !! (fixed_index x).1 = Some raw /\ fixed_type raw (fixed_index x).2 = Some t.
Proof.
  intros Hlen Hf Hx. split.
  - intros (r & Hr & Ht & Hc). apply contains_spec in Hc.
    destruct (sub_ranges_elem raws r Hlen Hr) as (i & j & raw & base & size & Hraw & Hi & Hj & ->).
    rewrite (fixed_index_unique i j base size x Hi Hj Hc). exists raw. split; [done|].
    destruct (Forall_lookup_1 _ _ _ _ Hf Hraw j Hj) as [t' Ht']. cbn [sub_range memory_type] in Ht.
    cbn [snd]. rewrite Ht' in Ht |- *. cbn in Ht. congruence.
  - intros (raw & Hraw & Ht). destruct (fixed_index_total x Hx) as (i & j & base & size & Hij & Hi & Hj & Hc).
    rewrite Hij in Hraw, Ht. cbn [fst snd] in Hraw, Ht.
    exists (sub_range raw base size j). split; [|split].
    + apply list_elem_of_In, in_concat. exists (sub_ranges (raw, (base, size))). split.
      * apply in_map, list_elem_of_In, list_elem_of_lookup. exists i.
        apply lookup_zip_with_Some. by eexists _, _.
      * cbn [sub_ranges]. apply in_map, in_seq. lia.
    + cbn [sub_range memory_type]. by rewrite Ht.
    + apply contains_spec. exact Hc.
Qed.

Lemma find_fixed_page l lo t : Forall proper_range l -> 0 <= lo < 0x10_0000 -> lo mod 0x1000 = 0 ->
  covers l lo t -> (forall t', covers l lo t' -> t' = t) ->
  find_from_fixed l lo (lo + 0x1000) = Ok (Some t).
Proof.
  intros Hl Hlo Hal Hc Hu. induction l as [|r l IH].
  - destruct Hc as (r & Hr & _). by apply elem_of_nil in Hr.
  - inversion Hl as [|? ? (H0 & H1 & H2) Hl']; subst. cbn [find_from_fixed].
    destruct (contains r lo) eqn:Hr.
    + rewrite sub_w_small by (unfold in_width; lia). cbn [obind].
      assert (contains r (lo + 0x1000 - 1) = true) as ->.
      { apply contains_spec. apply contains_spec in Hr.
        clear - H1 H2 Hal Hr. Z.to_euclidean_division_equations. lia. }
      f_equal. f_equal. apply Hu. exists r. split; [left|done].
    + apply IH; [done| |].
      * destruct Hc as (q & [->|Hq]%elem_of_cons & Ht & Hq2); [congruence|]. by exists q.
      * intros t' (q & Hq & H). apply Hu. exists q. split; [by right|done].
Qed.

(** The fixed MTRRs are converted without a panic, and each 4 KB page of
    the first megabyte is given exactly one type, that of one byte of the MTRR
    that covers it: the code counts the bytes from the most significant one,
    so subrange [j] gets byte [7 - j] of its register. *)
Lemma find_from_fixed_page raws x : length raws = 11%nat -> Forall fixed_fine raws ->
  0 <= x < 0x10_0000 -> x mod 0x1000 = 0 ->
  let '(i, j) := fixed_index x in
  exists l raw t, convert_from_raw_fixed raws = Ok l /\ raws !! i = Some raw /\
    MemoryType_from_u8 (field raw (8 * (7 - Z.of_nat j)) 8) = Some t /\
    find_from_fixed l x (x + 0x1000) = Ok (Some t).
Proof.
  intros Hlen Hf Hx Hal. destruct (fixed_index x) as [i j] eqn:Hij.
  destruct (fixed_index_total x Hx) as (i' & j' & base & size & Hij' & Hi & Hj & Hc).
  rewrite Hij in Hij'. injection Hij' as <- <-.
  destruct (lookup_lt_is_Some_2 raws i) as [raw Hraw].
  { rewrite Hlen. apply lookup_lt_Some in Hi. exact Hi. }
  destruct (Forall_lookup_1 _ _ _ _ Hf Hraw j Hj) as [t Ht].
  pose proof (all_sub_ranges_proper raws Hlen) as Hp.
  assert (forall t', covers (combine_all (all_sub_ranges raws)) x t' <-> t' = t) as Hcov.
  { intros t'. rewrite combine_all_covers, all_sub_ranges_covers, Hij by done. cbn [fst snd].
    rewrite Hraw. split; [intros (raw' & Hr & Ht'); congruence|intros ->; by exists raw]. }
  exists (combine_all (all_sub_ranges raws)), raw, t.
  split; [by apply convert_from_raw_fixed_ok|]. split; [done|]. split; [exact Ht|].
  apply find_fixed_page; [by apply combine_all_proper|done|done|by apply Hcov|].
  intros t' H. by apply Hcov.
Qed.
End FixedConversion.

(** ** Witnesses: a machine with 2 GB of write-back memory and 1 GB of devices *)
Module MtrrExample.
#[local] Instance checked : Profile := true.

Definition wb_pair : RawVariableMtrr := mk_raw_variable 0x6 0xf_8000_0800.
Definition uc_pair : RawVariableMtrr := mk_raw_variable 0xc000_0000 0xf_c000_0800.

Lemma pairs_fine : Forall (raw_fine 36) [wb_pair; uc_pair].
Proof.
  apply Forall_cons_2; [|apply Forall_cons_2; [|apply Forall_nil_2]]; right.
  - exists WriteBack, 31, 0. by split.
  - exists Uncachable, 30, 3. by split.
Qed.

Lemma convert_from_raw_variable_spec_witness : exists l r,
  convert_from_raw_variable 0 [wb_pair; uc_pair] = Ok l /\ r ∈ l /\
  memory_type r = Uncachable /\ start r <= 0xc000_1000 < end_ r.
Proof.
  destruct (convert_from_raw_variable_spec 0 36 [wb_pair; uc_pair] pairs_fine) as (l & Hl & H).
  destruct (proj2 (H 0xc000_1000 Uncachable ltac:(lia))) as (r & Hr & Ht & Hx).
  { exists uc_pair. split; [right; left|]. split; reflexivity. }
  exists l, r. split; [exact Hl|]. split; [exact Hr|]. split; [exact Ht|exact Hx].
Defined.

Definition overlapping : Mtrr := mk_mtrr Uncachable []
  [mk_range WriteThrough 0x8000_0000 0x1_0000_0000; mk_range WriteBack 0 0x1_0000_0000].

Lemma find_from_variable_sdm_witness :
  find_from_variable overlapping 0xc000_0000 0xc020_0000 = Ok (Some WriteThrough).
Proof.
  apply (find_from_variable_sdm overlapping 0xc000_0000 0xc020_0000 WriteThrough).
  - intros r Hr _. apply list_elem_of_In in Hr. by destruct Hr as [<-|[<-|[]]].
  - done.
  - reflexivity.
Defined.

(** The first 16 KB above 512 KB write-back, the rest of their register not:
    the code reads the type at the wrong end. *)
Definition example_fixed : list Z := 0x0606060606060606 :: 0x0000000000000006 :: replicate 9 0.

Lemma example_fixed_fine : Forall fixed_fine example_fixed.
Proof.
  unfold example_fixed. cbn [replicate].
  assert (forall raw, (forall j, j ∈ seq 0 8 -> is_Some (fixed_type raw j)) -> fixed_fine raw) as H.
  { intros raw Hraw j Hj. apply Hraw, elem_of_seq. lia. }
  repeat first [apply Forall_nil_2|apply Forall_cons_2]; apply H; intros j Hj; apply list_elem_of_In in Hj; cbn in Hj;
    repeat (destruct Hj as [<-|Hj]; [vm_compute; by eexists|]); destruct Hj.
Qed.

Lemma find_from_fixed_page_witness : exists l,
  convert_from_raw_fixed example_fixed = Ok l /\
  find_from_fixed l 0x80000 0x81000 = Ok (Some Uncachable).
Proof.
  destruct (find_from_fixed_page example_fixed 0x80000 eq_refl example_fixed_fine ltac:(lia) eq_refl)
    as (l & raw & t & Hl & Hraw & Ht & Hf).
  exists l. split; [exact Hl|]. vm_compute in Hraw. injection Hraw as <-.
  vm_compute in Ht. injection Ht as <-. exact Hf.
Defined.
End MtrrExample.
