(* ===== verification/Epts.v ===== *)
(** * Extended page tables (hvcore intel/epts.rs)

    The identity map of all 48-bit guest-physical addresses, with the memory
    types of the MTRRs, and the EPT pointer. *)

From S2P Require Import Prelude External Platform Paging Mtrr.

(** ** The structures *)

Record Epts : Type := mk_epts {
  ept_pml4 : list Z;
  ept_pdpt : list (list Z);
  ept_pd : list (list Z);
  ept_pt : list Z;
}.

(** [zeroed_box::<Epts>()] *)
Definition Epts_zeroed : Epts :=
  mk_epts zero_table (replicate 512 zero_table) (replicate 512 zero_table) zero_table.

Definition addr_of_ept_pdpt (addr : Z) (i : nat) : Z := addr + 0x1000 + 0x1000 * Z.of_nat i.
Definition addr_of_ept_pd (addr : Z) (i : nat) : Z := addr + 0x20_1000 + 0x1000 * Z.of_nat i.
Definition addr_of_ept_pt (addr : Z) : Z := addr + 0x40_1000.

(** The tables in memory order, each one page. *)
Definition nth_ept_table (e : Epts) (o : nat) : option (list Z) :=
  (ept_pml4 e :: ept_pdpt e ++ ept_pd e ++ [ept_pt e]) !! o.

(** ** [bitfield!] accessors of the EPT [Entry] and of [EptPointer] *)
Section Entry.
Context {BF : BitfieldMacro}.

Definition set_readable (b : bool) (e : Z) : Z := bf_set_bit 0 e b.
Definition ept_set_writable (b : bool) (e : Z) : Z := bf_set_bit 1 e b.
Definition set_executable (b : bool) (e : Z) : Z := bf_set_bit 2 e b.
Definition set_memory_type (v e : Z) : Z := bf_set 5 3 e v.
Definition ept_set_large (b : bool) (e : Z) : Z := bf_set_bit 7 e b.
Definition ept_set_pfn (v e : Z) : Z := bf_set 51 12 e v.

Definition eptp_set_memory_type (v e : Z) : Z := bf_set 2 0 e v.
Definition set_page_levels_minus_one (v e : Z) : Z := bf_set 5 3 e v.
Definition eptp_set_pfn (v e : Z) : Z := bf_set 51 12 e v.
End Entry.

(** ** Epts::build_identity *)
Section Build.
Context {P : Profile} {BF : BitfieldMacro} {Proc : Type} {OPS : PlatformOps Proc}.
Context (mtrr : Mtrr) (addr : Z).

(** The loop body for the 4 KB entries of the first 2 MB. *)
Definition ept_build_pte (cur pte : Z) : outcome (Z * Z) :=
  let? hi := add_w 64 cur BASE_PAGE_SIZE in
  let? found := find mtrr cur hi in
  let? memory_type := unwrap found "Could not resolve a memory type" in
  let pte := set_readable true pte in
  let pte := ept_set_writable true pte in
  let pte := set_executable true pte in
  let pte := set_memory_type (MemoryType_value memory_type) pte in
  let pte := ept_set_pfn (Z.shiftr cur BASE_PAGE_SHIFT) pte in
  let? cur := add_w 64 cur BASE_PAGE_SIZE in
  Ok (cur, pte).

(** The loop body for the entries of a page directory. *)
Definition ept_build_pde (st : Z * list Z) (pde : Z) : outcome ((Z * list Z) * Z) :=
  let '(cur, t) := st in
  if cur =? 0 then
    let pde := set_readable true pde in
    let pde := ept_set_writable true pde in
    let pde := set_executable true pde in
    let pde := ept_set_pfn (Z.shiftr (pa (addr_of_ept_pt addr)) BASE_PAGE_SHIFT) pde in
    let? (cur, t) := foreach ept_build_pte cur t in
    Ok ((cur, t), pde)
  else
    let? hi := add_w 64 cur LARGE_PAGE_SIZE in
    let? found := find mtrr cur hi in
    let memory_type := default Uncachable found in
    let pde := set_readable true pde in
    let pde := ept_set_writable true pde in
    let pde := set_executable true pde in
    let pde := set_memory_type (MemoryType_value memory_type) pde in
    let pde := ept_set_large true pde in
    let pde := ept_set_pfn (Z.shiftr cur BASE_PAGE_SHIFT) pde in
    let? cur := add_w 64 cur LARGE_PAGE_SIZE in
    Ok ((cur, t), pde).

(** The loop body for the entries of [pdpt[0]], with the page directory of
    the same index. *)
Definition ept_build_pdpte (st : nat * (Z * list Z)) (entry : Z * list Z)
    : outcome ((nat * (Z * list Z)) * (Z * list Z)) :=
  let '(i, st) := st in
  let '(pdpte, dir) := entry in
  let pdpte := set_readable true pdpte in
  let pdpte := ept_set_writable true pdpte in
  let pdpte := set_executable true pdpte in
  let pdpte := ept_set_pfn (Z.shiftr (pa (addr_of_ept_pd addr i)) BASE_PAGE_SHIFT) pdpte in
  let? (st, dir) := foreach ept_build_pde st dir in
  Ok ((S i, st), (pdpte, dir)).

(** The loop body for the 1 GB entries of the other PDPTs; the range it asks
    the type of is [PML4_SLOT_SIZE] long. *)
Definition ept_build_huge (cur pdpte : Z) : outcome (Z * Z) :=
  let? hi := add_w 64 cur PML4_SLOT_SIZE in
  let? found := find mtrr cur hi in
  let? memory_type := unwrap found "Could not resolve a memory type" in
  let pdpte := set_readable true pdpte in
  let pdpte := ept_set_writable true pdpte in
  let pdpte := set_executable true pdpte in
  let pdpte := set_memory_type (MemoryType_value memory_type) pdpte in
  let pdpte := ept_set_large true pdpte in
  let pdpte := ept_set_pfn (Z.shiftr cur BASE_PAGE_SHIFT) pdpte in
  let? cur := add_w 64 cur HUGE_PAGE_SIZE in
  Ok (cur, pdpte).

(** The loop body for PML4 entries 1 to 511, with the PDPT of that index. *)
Definition ept_build_pml4e (st : nat * Z) (entry : Z * list Z)
    : outcome ((nat * Z) * (Z * list Z)) :=
  let '(pml4_index, cur) := st in
  let '(pml4e, table) := entry in
  let pml4e := set_readable true pml4e in
  let pml4e := ept_set_writable true pml4e in
  let pml4e := set_executable true pml4e in
  let pml4e := ept_set_pfn (Z.shiftr (pa (addr_of_ept_pdpt addr pml4_index)) BASE_PAGE_SHIFT) pml4e in
  let? (cur, table) := foreach ept_build_huge cur table in
  Ok ((S pml4_index, cur), (pml4e, table)).

Definition ept_build_identity (e : Epts) : outcome Epts :=
  let first e :=
    let e := set_readable true e in
    let e := ept_set_writable true e in
    let e := set_executable true e in
    ept_set_pfn (Z.shiftr (pa (addr_of_ept_pdpt addr 0)) BASE_PAGE_SHIFT) e in
  let pml4 := alter first 0%nat (ept_pml4 e) in
  let? pdpt0 := unwrap (ept_pdpt e !! 0%nat) "index out of bounds" in
  let? (st, l) := foreach ept_build_pdpte (0%nat, (0, ept_pt e)) (zip pdpt0 (ept_pd e)) in
  let '(_, (cur, pt)) := st in
  let? _ := oassert (cur =? PML4_SLOT_SIZE) "pa == PML4_SLOT_SIZE" in
  let? (_, h) := foreach ept_build_pml4e (1%nat, cur) (zip (drop 1 pml4) (drop 1 (ept_pdpt e))) in
  Ok (mk_epts (take 1 pml4 ++ h.*1) (l.*1 :: h.*2) l.*2 pt).

(** [Epts::eptp] *)
Definition eptp : Z :=
  let e := 0 in
  let ept_pml4_pa := pa addr in
  let e := eptp_set_pfn (Z.shiftr ept_pml4_pa BASE_PAGE_SHIFT) e in
  let e := eptp_set_memory_type (MemoryType_value WriteBack) e in
  set_page_levels_minus_one 3 e.
End Build.

(** ** Entries *)
Section Entries.
Context {BF : BitfieldMacro}.

Definition ept_dir (v : Z) : Z :=
  ept_set_pfn v (set_executable true (ept_set_writable true (set_readable true 0))).
Definition ept_page (t : MemoryType) (v : Z) : Z :=
  ept_set_pfn v (set_memory_type (MemoryType_value t)
    (set_executable true (ept_set_writable true (set_readable true 0)))).
Definition ept_large (t : MemoryType) (v : Z) : Z :=
  ept_set_pfn v (ept_set_large true (set_memory_type (MemoryType_value t)
    (set_executable true (ept_set_writable true (set_readable true 0))))).

(** Readable, writable and executable. *)
Definition rwx (e : Z) : bool := Z.testbit e 0 && Z.testbit e 1 && Z.testbit e 2.

(** EPT entries are present when any of the three is set. *)
Definition ept_present (e : Z) : bool := negb (field e 0 3 =? 0).

Lemma rwx_present e : rwx e = true -> ept_present e = true.
Proof.
  unfold rwx. rewrite !andb_true_iff. intros [[H0 _] _]. unfold ept_present. apply negb_true_iff, Z.eqb_neq.
  intros Hz. assert (Z.testbit (field e 0 3) 0 = false) as H by (rewrite Hz; apply Z.testbit_0_l).
  rewrite field_testbit, Z.add_0_l, H0 in H by done. discriminate H.
Qed.

Lemma field_bf_set_bit n x b a k : 0 <= n -> 0 <= x -> 0 <= a -> 0 <= k -> n < a \/ a + k <= n ->
  field (bf_set_bit n x b) a k = field x a k.
Proof.
  intros. apply Z.bits_inj'. intros i Hi. rewrite !field_testbit, bf_set_bit_testbit by lia.
  destruct (Z.ltb_spec i k); cbn [andb]; [|done]. by rewrite (proj2 (Z.eqb_neq _ _)) by lia.
Qed.

Lemma field_bf_set_outside hi lo x v a k : 0 <= lo <= hi -> 0 <= x -> 0 <= v -> 0 <= a -> 0 <= k ->
  hi < a \/ a + k <= lo -> field (bf_set hi lo x v) a k = field x a k.
Proof.
  intros. apply Z.bits_inj'. intros i Hi. rewrite !field_testbit, bf_set_testbit by lia.
  destruct (Z.ltb_spec i k); cbn [andb]; [|done]. zcases; done.
Qed.

Lemma type_bits t : field (MemoryType_value t) 0 3 = MemoryType_value t.
Proof. by destruct t. Qed.

Lemma type_nonneg t : 0 <= MemoryType_value t.
Proof. by destruct t. Qed.

Ltac entry_unfold :=
  unfold ept_dir, ept_page, ept_large, ept_set_pfn, ept_set_large, set_memory_type,
    set_executable, ept_set_writable, set_readable, rwx.

Lemma ept_dir_spec v : 0 <= v ->
  rwx (ept_dir v) = true /\ Z.testbit (ept_dir v) 7 = false /\ field (ept_dir v) 12 40 = field v 0 40.
Proof.
  intros Hv. entry_unfold. split_and!; [entry_bits..|]. rewrite field_bf_set by bf_nonneg. done.
Qed.

Lemma ept_page_spec t v : 0 <= v ->
  rwx (ept_page t v) = true /\ Z.testbit (ept_page t v) 7 = false /\
  field (ept_page t v) 12 40 = field v 0 40 /\ field (ept_page t v) 3 3 = MemoryType_value t.
Proof.
  intros Hv. pose proof (type_nonneg t). entry_unfold. split_and!; [entry_bits..| |].
  - rewrite field_bf_set by bf_nonneg. done.
  - rewrite field_bf_set_outside, field_bf_set by bf_nonneg. apply type_bits.
Qed.

Lemma ept_large_spec t v : 0 <= v ->
  rwx (ept_large t v) = true /\ Z.testbit (ept_large t v) 7 = true /\
  field (ept_large t v) 21 31 = field v 9 31 /\ field (ept_large t v) 30 22 = field v 18 22 /\
  field (ept_large t v) 3 3 = MemoryType_value t.
Proof.
  intros Hv. pose proof (type_nonneg t). entry_unfold. split_and!; [entry_bits..| | |].
  - rewrite field_bf_set by bf_nonneg. done.
  - rewrite field_bf_set by bf_nonneg. done.
  - rewrite field_bf_set_outside, field_bf_set_bit, field_bf_set by bf_nonneg. apply type_bits.
Qed.
End Entries.

(** ** What the loops leave in the tables *)
Section Built.
Context {P : Profile} {BF : BitfieldMacro} {Proc : Type} {OPS : PlatformOps Proc}.
Context (mtrr : Mtrr) (addr : Z).

Definition type_of_range (lo hi : Z) : MemoryType :=
  match find mtrr lo hi with
  | Ok (Some t) => t
  | _ => Uncachable
  end.

(** The MTRRs give a type to each page the code must have a type for: the
    4 KB pages of the first 2 MB, and the ranges asked for above 512 GB. *)
Record mtrr_usable : Prop := {
  usable_small : forall k, 0 <= k < 512 ->
    exists t, find mtrr (k * 0x1000) (k * 0x1000 + 0x1000) = Ok (Some t);
  usable_huge : forall k, 2 ^ 9 <= k < 2 ^ 18 ->
    exists t, find mtrr (k * 2 ^ 30) (k * 2 ^ 30 + 2 ^ 39) = Ok (Some t);
}.

Definition built_ept_pte (k : nat) : Z :=
  ept_page (type_of_range (Z.of_nat k * 0x1000) (Z.of_nat k * 0x1000 + 0x1000)) (Z.of_nat k).

Definition built_ept_pde (i k : nat) : Z :=
  let n := Z.of_nat i * 2 ^ 9 + Z.of_nat k in
  if (i =? 0)%nat && (k =? 0)%nat then ept_dir (frame_of (addr_of_ept_pt addr))
  else ept_large (type_of_range (n * 2 ^ 21) (n * 2 ^ 21 + 2 ^ 21)) (n * 2 ^ 9).

Definition built_ept_huge (i k : nat) : Z :=
  let n := Z.of_nat i * 2 ^ 9 + Z.of_nat k in
  ept_large (type_of_range (n * 2 ^ 30) (n * 2 ^ 30 + 2 ^ 39)) (n * 2 ^ 18).

Definition built_epts : Epts := {|
  ept_pml4 := map (fun i => ept_dir (frame_of (addr_of_ept_pdpt addr i))) (seq 0 512);
  ept_pdpt := map (fun i => ept_dir (frame_of (addr_of_ept_pd addr i))) (seq 0 512)
    :: map (fun i => map (built_ept_huge i) (seq 0 512)) (seq 1 511);
  ept_pd := map (fun i => map (built_ept_pde i) (seq 0 512)) (seq 0 512);
  ept_pt := map built_ept_pte (seq 0 512)
|}.

Lemma find_variable_total d acc l lo hi : in_width 64 (hi - 1) ->
  exists o, find_variable_loop d acc l lo hi = Ok o.
Proof.
  intros Hhi. revert acc. induction l as [|r l IH]; intros acc; cbn [find_variable_loop]; [eauto|].
  destruct (contains r lo); [|apply IH]. rewrite sub_w_small by done. cbn [obind].
  destruct (negb _); [eauto|]. destruct (decide _); [eauto|]. apply IH.
Qed.

Lemma find_default lo hi : 0x10_0000 <= lo -> in_width 64 (hi - 1) ->
  exists o, find mtrr lo hi = Ok o /\ default Uncachable o = type_of_range lo hi.
Proof.
  intros Hlo Hhi. unfold type_of_range, find. rewrite (proj2 (Z.ltb_ge _ _)) by done.
  unfold find_from_variable.
  destruct (find_variable_total (default_memory_type mtrr) None (variable mtrr) lo hi Hhi) as [o ->].
  exists o. split; [done|]. by destruct o.
Qed.

Lemma shiftr_12 a n : 12 <= n -> Z.shiftr (a * 2 ^ n) BASE_PAGE_SHIFT = a * 2 ^ (n - 12).
Proof.
  intros Hn. rewrite Z.shiftr_div_pow2 by done. unfold BASE_PAGE_SHIFT.
  replace (2 ^ n) with (2 ^ (n - 12) * 2 ^ 12) by (rewrite <- Z.pow_add_r by lia; f_equal; lia).
  rewrite Z.mul_assoc. by apply Z.div_mul.
Qed.

Section Usable.
Context (Hu : mtrr_usable).

Lemma ept_pt_loop : foreach (ept_build_pte mtrr) 0 zero_table =
  Ok (LARGE_PAGE_SIZE, map built_ept_pte (seq 0 512)).
Proof.
  apply (foreach_all (ept_build_pte mtrr) (fun k => Z.of_nat k * 0x1000) built_ept_pte zero_table 512); [done|].
  intros k e Hk Hlt. apply lookup_replicate in Hk as [-> _]. unfold ept_build_pte, BASE_PAGE_SIZE.
  rewrite add_w_small by (unfold in_width; lia). cbn [obind].
  destruct (usable_small Hu (Z.of_nat k)) as [t Ht]; [lia|]. rewrite Ht. cbn [obind unwrap].
  change (Z.shiftr (Z.of_nat k * 0x1000) BASE_PAGE_SHIFT)
    with (Z.shiftr (Z.of_nat k * 2 ^ 12) BASE_PAGE_SHIFT).
  rewrite shiftr_12 by lia. change (2 ^ (12 - 12)) with 1. rewrite Z.mul_1_r. do 2 f_equal; [lia|].
  unfold built_ept_pte, type_of_range. by rewrite Ht.
Qed.

Definition ept_pt_after (n : nat) : list Z :=
  if (0 <? n)%nat then map built_ept_pte (seq 0 512) else zero_table.

Lemma ept_build_pde_spec (i k : nat) : (i < 512)%nat -> (k < 512)%nat ->
  let n := (512 * i + k)%nat in
  ept_build_pde mtrr addr (Z.of_nat n * LARGE_PAGE_SIZE, ept_pt_after n) 0 =
    Ok ((Z.of_nat (S n) * LARGE_PAGE_SIZE, ept_pt_after (S n)), built_ept_pde i k).
Proof.
  intros Hi Hk n. assert (n = 512 * i + k)%nat as Hn by done. clearbody n.
  unfold ept_build_pde, built_ept_pde, LARGE_PAGE_SIZE.
  destruct (Z.eqb_spec (Z.of_nat n * 0x20_0000) 0) as [H0|H0].
  - assert (i = 0%nat /\ k = 0%nat) as [-> ->] by lia. assert (n = 0)%nat as -> by lia.
    unfold ept_pt_after. cbn [Nat.ltb Nat.leb].
    change (Z.of_nat 0 * 0x20_0000) with 0. rewrite ept_pt_loop. done.
  - assert ((i =? 0)%nat && (k =? 0)%nat = false) as -> by (apply andb_false_iff; rewrite !Nat.eqb_neq; lia).
    rewrite add_w_small by (unfold in_width; lia). cbn [obind].
    destruct (find_default (Z.of_nat n * 0x20_0000) (Z.of_nat n * 0x20_0000 + 0x20_0000))
      as (o & Ho & Hd); [lia|unfold in_width; lia|]. rewrite Ho. cbn [obind]. rewrite Hd.
    assert (ept_pt_after (S n) = ept_pt_after n) as -> by (unfold ept_pt_after; destruct n; [lia|done]).
    replace (Z.of_nat (S n) * 0x20_0000) with (Z.of_nat n * 0x20_0000 + 0x20_0000) by lia.
    replace (Z.of_nat i * 2 ^ 9 + Z.of_nat k) with (Z.of_nat n) by lia.
    change 0x20_0000 with (2 ^ 21). rewrite shiftr_12 by lia. done.
Qed.

Lemma ept_pd_loop (i : nat) : (i < 512)%nat ->
  foreach (ept_build_pde mtrr addr) (Z.of_nat (512 * i) * LARGE_PAGE_SIZE, ept_pt_after (512 * i)) zero_table =
    Ok ((Z.of_nat (512 * S i) * LARGE_PAGE_SIZE, ept_pt_after (512 * S i)), map (built_ept_pde i) (seq 0 512)).
Proof.
  intros Hi.
  pose proof (foreach_all (ept_build_pde mtrr addr) (fun k => (Z.of_nat (512 * i + k) * LARGE_PAGE_SIZE,
    ept_pt_after (512 * i + k))) (built_ept_pde i) zero_table 512) as H.
  cbv beta in H. rewrite Nat.add_0_r in H.
  replace (512 * i + 512)%nat with (512 * S i)%nat in H by lia. apply H; [done|].
  intros k e Hk Hlt. apply lookup_replicate in Hk as [-> _].
  rewrite ept_build_pde_spec by done. by rewrite Nat.add_succ_r.
Qed.

Lemma ept_pdpt_loop :
  foreach (ept_build_pdpte mtrr addr) (0%nat, (0, zero_table)) (zip zero_table (replicate 512 zero_table)) =
    Ok ((512%nat, (PML4_SLOT_SIZE, map built_ept_pte (seq 0 512))),
        map (fun i => (ept_dir (frame_of (addr_of_ept_pd addr i)), map (built_ept_pde i) (seq 0 512))) (seq 0 512)).
Proof.
  pose proof (foreach_all (ept_build_pdpte mtrr addr)
    (fun i => (i, (Z.of_nat (512 * i) * LARGE_PAGE_SIZE, ept_pt_after (512 * i))))
    (fun i => (ept_dir (frame_of (addr_of_ept_pd addr i)), map (built_ept_pde i) (seq 0 512)))
    (zip zero_table (replicate 512 zero_table)) 512) as H.
  cbv beta in H. rewrite Nat.mul_0_r in H. change (Z.of_nat 0 * LARGE_PAGE_SIZE) with 0 in H.
  change (ept_pt_after 0) with zero_table in H.
  replace (ept_pt_after (512 * 512)) with (map built_ept_pte (seq 0 512)) in H.
  2: { unfold ept_pt_after. by rewrite (proj2 (Nat.ltb_lt 0 (512 * 512))) by lia. }
  replace (Z.of_nat (512 * 512) * LARGE_PAGE_SIZE) with PML4_SLOT_SIZE in H
    by (rewrite Nat2Z.inj_mul; done).
  apply H; [done|].
  intros i [e d] Hi Hlt. apply lookup_zip_with_Some in Hi as (x & y & Hxy & Hx & Hy).
  injection Hxy as -> ->. apply lookup_replicate in Hx as [-> _].
  apply lookup_replicate in Hy as [-> _]. unfold ept_build_pdpte.
  rewrite ept_pd_loop by done. done.
Qed.

Lemma ept_huge_loop (i : nat) : (1 <= i < 512)%nat ->
  foreach (ept_build_huge mtrr) (Z.of_nat i * 2 ^ 39) zero_table =
    Ok (Z.of_nat (S i) * 2 ^ 39, map (built_ept_huge i) (seq 0 512)).
Proof.
  intros Hi.
  pose proof (foreach_all (ept_build_huge mtrr) (fun k => (Z.of_nat i * 2 ^ 9 + Z.of_nat k) * 2 ^ 30)
    (built_ept_huge i) zero_table 512) as H. cbv beta in H.
  replace ((Z.of_nat i * 2 ^ 9 + Z.of_nat 0) * 2 ^ 30) with (Z.of_nat i * 2 ^ 39) in H by lia.
  replace ((Z.of_nat i * 2 ^ 9 + Z.of_nat 512) * 2 ^ 30) with (Z.of_nat (S i) * 2 ^ 39) in H by lia.
  apply H; [done|]. intros k e Hk Hlt. apply lookup_replicate in Hk as [-> _].
  unfold ept_build_huge, PML4_SLOT_SIZE, HUGE_PAGE_SIZE.
  rewrite add_w_small by (unfold in_width; lia). cbn [obind].
  destruct (usable_huge Hu (Z.of_nat i * 2 ^ 9 + Z.of_nat k)) as [t Ht]; [lia|].
  change 0x80_0000_0000 with (2 ^ 39). rewrite Ht. cbn [obind unwrap].
  rewrite add_w_small by (unfold in_width; lia). cbn [obind]. rewrite shiftr_12 by lia.
  f_equal. f_equal; [lia|]. unfold built_ept_huge, type_of_range. by rewrite Ht.
Qed.
Lemma ept_pml4_loop :
  foreach (ept_build_pml4e mtrr addr) (1%nat, PML4_SLOT_SIZE) (zip (replicate 511 0) (replicate 511 zero_table)) =
    Ok ((512%nat, 2 ^ 48), map (fun k => (ept_dir (frame_of (addr_of_ept_pdpt addr (S k))),
                                         map (built_ept_huge (S k)) (seq 0 512))) (seq 0 511)).
Proof.
  apply (foreach_all (ept_build_pml4e mtrr addr) (fun k => (S k, Z.of_nat (S k) * 2 ^ 39))
    (fun k => (ept_dir (frame_of (addr_of_ept_pdpt addr (S k))), map (built_ept_huge (S k)) (seq 0 512)))
    (zip (replicate 511 0) (replicate 511 zero_table)) 511); [done|].
  intros i [e d] Hi Hlt. apply lookup_zip_with_Some in Hi as (x & y & Hxy & Hx & Hy).
  injection Hxy as -> ->. apply lookup_replicate in Hx as [-> _].
  apply lookup_replicate in Hy as [-> _]. unfold ept_build_pml4e.
  rewrite ept_huge_loop by lia. done.
Qed.

(** From zeroed tables, [build_identity] returns the tables [built_epts]. *)
Lemma ept_build_identity_built : ept_build_identity mtrr addr Epts_zeroed = Ok built_epts.
Proof.
  unfold ept_build_identity, Epts_zeroed. cbn [ept_pml4 ept_pdpt ept_pd ept_pt].
  change (replicate 512 zero_table !! 0%nat) with (Some zero_table). cbn [unwrap obind].
  rewrite ept_pdpt_loop. cbn [obind]. rewrite Z.eqb_refl. cbn [oassert obind].
  change (drop 1 (alter _ 0%nat zero_table)) with (replicate 511 0).
  change (drop 1 (replicate 512 zero_table)) with (replicate 511 zero_table).
  rewrite ept_pml4_loop. cbn [obind]. rewrite !fmap_map. cbn [fst snd].
  reflexivity.
Qed.
End Usable.

(** ** What the processor reads through the tables *)

Definition ept_holds (frames : Z -> option (list Z)) (e : Epts) : Prop :=
  forall o t, nth_ept_table e o = Some t -> frames (frame_of (addr + 0x1000 * Z.of_nat o)) = Some t.

Definition ept_addressable : Prop :=
  forall o, (o < 1026)%nat -> in_width 40 (frame_of (addr + 0x1000 * Z.of_nat o)).

(** The memory type the code gives to the page of an address. *)
Definition ept_type_of (gpa : Z) : MemoryType :=
  if gpa <? 2 ^ 21 then type_of_range (gpa / 2 ^ 12 * 2 ^ 12) (gpa / 2 ^ 12 * 2 ^ 12 + 2 ^ 12)
  else if gpa <? 2 ^ 39 then type_of_range (gpa / 2 ^ 21 * 2 ^ 21) (gpa / 2 ^ 21 * 2 ^ 21 + 2 ^ 21)
  else type_of_range (gpa / 2 ^ 30 * 2 ^ 30) (gpa / 2 ^ 30 * 2 ^ 30 + 2 ^ 39).

Section EptWalks.
Context (frames : Z -> option (list Z)) (Hh : ept_holds frames built_epts) (Ha : ept_addressable).

Lemma ept_lookup_pdpt i t : ept_pdpt built_epts !! i = Some t ->
  frames (frame_of (addr_of_ept_pdpt addr i)) = Some t.
Proof.
  intros Hi. unfold addr_of_ept_pdpt. replace (addr + 0x1000 + 0x1000 * Z.of_nat i)
    with (addr + 0x1000 * Z.of_nat (S i)) by lia. apply Hh.
  change (nth_ept_table built_epts (S i)) with
    ((ept_pdpt built_epts ++ ept_pd built_epts ++ [ept_pt built_epts]) !! i).
  by apply lookup_app_l_Some.
Qed.

Lemma ept_pdpt_length : length (ept_pdpt built_epts) = 512%nat.
Proof. unfold built_epts. cbn [ept_pdpt]. cbn [length]. by rewrite length_map, length_seq. Qed.

Lemma ept_pd_length : length (ept_pd built_epts) = 512%nat.
Proof. unfold built_epts. cbn [ept_pd]. by rewrite length_map, length_seq. Qed.

Lemma ept_lookup_pd i t : ept_pd built_epts !! i = Some t ->
  frames (frame_of (addr_of_ept_pd addr i)) = Some t.
Proof.
  intros Hi. unfold addr_of_ept_pd. replace (addr + 0x20_1000 + 0x1000 * Z.of_nat i)
    with (addr + 0x1000 * Z.of_nat (S (512 + i))) by lia. apply Hh.
  change (nth_ept_table built_epts (S (512 + i))) with
    ((ept_pdpt built_epts ++ ept_pd built_epts ++ [ept_pt built_epts]) !! (512 + i)%nat).
  rewrite lookup_app_r by (rewrite ept_pdpt_length; lia). rewrite ept_pdpt_length.
  replace (512 + i - 512)%nat with i by lia. by apply lookup_app_l_Some.
Qed.

Lemma ept_lookup_pt : frames (frame_of (addr_of_ept_pt addr)) = Some (ept_pt built_epts).
Proof.
  unfold addr_of_ept_pt. replace (addr + 0x40_1000) with (addr + 0x1000 * Z.of_nat (S (512 + 512))) by lia.
  apply Hh. change (nth_ept_table built_epts (S (512 + 512))) with
    ((ept_pdpt built_epts ++ ept_pd built_epts ++ [ept_pt built_epts]) !! (512 + 512)%nat).
  rewrite lookup_app_r by (rewrite ept_pdpt_length; lia). rewrite ept_pdpt_length.
  rewrite lookup_app_r by (rewrite ept_pd_length; lia). rewrite ept_pd_length. done.
Qed.

Lemma ept_frame o : (o < 1026)%nat -> 0 <= frame_of (addr + 0x1000 * Z.of_nat o) /\ 
  field (frame_of (addr + 0x1000 * Z.of_nat o)) 0 40 = frame_of (addr + 0x1000 * Z.of_nat o).
Proof.
  intros Ho. pose proof (Ha o Ho) as H. split; [apply H|]. unfold field. rewrite Z.shiftr_0_r.
  by apply wrap_small.
Qed.

(** One step down through a directory entry of the structure. *)
Lemma ept_walk_dir n table va t o : frames table = Some t ->
  t !! Z.to_nat (field va (level_shift (S n)) 9) = Some (ept_dir (frame_of (addr + 0x1000 * Z.of_nat o))) ->
  (o < 1026)%nat ->
  rwx (ept_dir (frame_of (addr + 0x1000 * Z.of_nat o))) = true /\ 
  walk ept_present frames (S n) table va =
    match walk ept_present frames n (frame_of (addr + 0x1000 * Z.of_nat o)) va with
    | None => None
    | Some (path, target) => Some (ept_dir (frame_of (addr + 0x1000 * Z.of_nat o)) :: path, target)
    end.
Proof.
  intros Ht He Ho. destruct (ept_frame o Ho) as [H0 H1]. destruct (ept_dir_spec _ H0) as (Hr & Hl & Hf).
  split; [done|]. rewrite (walk_dir _ _ _ _ va t _ Ht He (rwx_present _ Hr) Hl). by rewrite Hf, H1.
Qed.

(** Positions of the tables in the structure. *)
Lemma pdpt_position i : addr_of_ept_pdpt addr i = addr + 0x1000 * Z.of_nat (S i).
Proof. unfold addr_of_ept_pdpt. lia. Qed.
Lemma pd_position i : addr_of_ept_pd addr i = addr + 0x1000 * Z.of_nat (S (512 + i)).
Proof. unfold addr_of_ept_pd. lia. Qed.
Lemma pt_position : addr_of_ept_pt addr = addr + 0x1000 * Z.of_nat 1025.
Proof. unfold addr_of_ept_pt. lia. Qed.

(** The result of a walk that ends at [target] with type [t]. *)
Definition ept_maps (n : nat) (table va target : Z) (t : MemoryType) : Prop :=
  exists path, walk ept_present frames n table va = Some (path, target) /\
    forallb rwx path = true /\
    option_map (fun e => field e 3 3) (last path) = Some (MemoryType_value t).

Lemma ept_maps_dir n table va t o target ty : frames table = Some t ->
  t !! Z.to_nat (field va (level_shift (S n)) 9) = Some (ept_dir (frame_of (addr + 0x1000 * Z.of_nat o))) ->
  (o < 1026)%nat -> ept_maps n (frame_of (addr + 0x1000 * Z.of_nat o)) va target ty ->
  ept_maps (S n) table va target ty.
Proof.
  intros Ht He Ho (path & Hw & Hr & Hl).
  destruct (ept_walk_dir n table va t o Ht He Ho) as [Hrwx Hwalk]. rewrite Hw in Hwalk.
  eexists. split; [exact Hwalk|]. cbn [forallb]. rewrite Hrwx. split; [exact Hr|].
  destruct path as [|e path]; [discriminate Hl|exact Hl].
Qed.

Lemma ept_maps_large n table va t ty v : frames table = Some t -> (S n <= 2)%nat -> 0 <= v ->
  t !! Z.to_nat (field va (level_shift (S n)) 9) = Some (ept_large ty v) ->
  ept_maps (S n) table va
    (field (ept_large ty v) (level_shift (S n)) (52 - level_shift (S n)) * 2 ^ level_shift (S n) +
     va mod 2 ^ level_shift (S n)) ty.
Proof.
  intros Ht Hn Hv He. destruct (ept_large_spec ty v Hv) as (Hr & Hl & _ & _ & Hty).
  eexists. split; [by apply (walk_large _ _ _ _ va t _ Ht He (rwx_present _ Hr) Hl)|].
  cbn [forallb]. rewrite Hr. split; [done|]. cbn. by rewrite Hty.
Qed.

Lemma ept_walk_1gb va : 2 ^ 39 <= va < 2 ^ 48 ->
  ept_maps 2 (frame_of (addr_of_ept_pdpt addr (Z.to_nat (field va 39 9)))) va va
    (type_of_range (va / 2 ^ 30 * 2 ^ 30) (va / 2 ^ 30 * 2 ^ 30 + 2 ^ 39)).
Proof.
  intros Hva.
  assert (1 <= field va 39 9 < 512 /\ 0 <= field va 30 9 < 512 /\
    va / 2 ^ 30 = field va 39 9 * 2 ^ 9 + field va 30 9 /\
    va = (field va 39 9 * 2 ^ 9 + field va 30 9) * 2 ^ 30 + va mod 2 ^ 30) as (H4 & H3 & Hd & Hsplit).
  { rewrite !field_div_mod by done. split_and!; Z.to_euclidean_division_equations; lia. }
  set (i := Z.to_nat (field va 39 9)). set (k := Z.to_nat (field va 30 9)).
  assert (ept_pdpt built_epts !! i = Some (map (built_ept_huge i) (seq 0 512))) as Hi.
  { unfold built_epts. cbn [ept_pdpt]. destruct i as [|i'] eqn:Hi'; [lia|].
    change ((?a :: ?l) !! S i') with (l !! i'). rewrite lookup_map_seq_from by lia. done. }
  assert (map (built_ept_huge i) (seq 0 512) !! k = Some (built_ept_huge i k)) as He
    by (apply lookup_map_seq; lia).
  unfold built_ept_huge at 2 in He.
  unfold i, k in He. rewrite !Z2Nat.id in He by lia. rewrite <- Hd in He.
  pose proof (ept_maps_large 1 _ va _ _ (va / 2 ^ 30 * 2 ^ 18) (ept_lookup_pdpt i _ Hi)
    ltac:(lia) ltac:(lia) He) as Hm.
  change (level_shift 2) with 30 in Hm. change (52 - 30) with 22 in Hm.
  destruct (ept_large_spec (type_of_range (va / 2 ^ 30 * 2 ^ 30) (va / 2 ^ 30 * 2 ^ 30 + 2 ^ 39))
    (va / 2 ^ 30 * 2 ^ 18) ltac:(lia)) as (_ & _ & _ & Hf & _).
  rewrite Hf in Hm. replace (field (va / 2 ^ 30 * 2 ^ 18) 18 22 * 2 ^ 30 + va mod 2 ^ 30) with va in Hm; [exact Hm|].
  rewrite field_div_mod, Z.div_mul, Z.mod_small by lia. lia.
Qed.

Lemma ept_pd_table i : (i < 512)%nat ->
  frames (frame_of (addr_of_ept_pd addr i)) = Some (map (built_ept_pde i) (seq 0 512)).
Proof. intros Hi. apply ept_lookup_pd. unfold built_epts. cbn [ept_pd]. by rewrite lookup_map_seq. Qed.

Lemma ept_walk_2mb va : 2 ^ 21 <= va < 2 ^ 39 ->
  ept_maps 1 (frame_of (addr_of_ept_pd addr (Z.to_nat (field va 30 9)))) va va
    (type_of_range (va / 2 ^ 21 * 2 ^ 21) (va / 2 ^ 21 * 2 ^ 21 + 2 ^ 21)).
Proof.
  intros Hva.
  assert (0 <= field va 30 9 < 512 /\ 0 <= field va 21 9 < 512 /\
    va / 2 ^ 21 = field va 30 9 * 2 ^ 9 + field va 21 9 /\ 1 <= va / 2 ^ 21 /\
    va = (va / 2 ^ 21) * 2 ^ 21 + va mod 2 ^ 21) as (H3 & H2 & Hd & H1 & Hsplit).
  { rewrite !field_div_mod by done. split_and!; Z.to_euclidean_division_equations; lia. }
  set (i := Z.to_nat (field va 30 9)). set (k := Z.to_nat (field va 21 9)).
  assert (map (built_ept_pde i) (seq 0 512) !! k = Some (built_ept_pde i k)) as He
    by (apply lookup_map_seq; lia).
  unfold built_ept_pde at 2 in He.
  assert ((i =? 0)%nat && (k =? 0)%nat = false) as Hik.
  { apply andb_false_iff. rewrite !Nat.eqb_neq. unfold i, k. lia. }
  rewrite Hik in He. unfold i, k in He. rewrite !Z2Nat.id in He by lia. rewrite <- Hd in He.
  pose proof (ept_maps_large 0 _ va _ _ (va / 2 ^ 21 * 2 ^ 9) (ept_pd_table i ltac:(lia))
    ltac:(lia) ltac:(lia) He) as Hm.
  change (level_shift 1) with 21 in Hm. change (52 - 21) with 31 in Hm.
  destruct (ept_large_spec (type_of_range (va / 2 ^ 21 * 2 ^ 21) (va / 2 ^ 21 * 2 ^ 21 + 2 ^ 21))
    (va / 2 ^ 21 * 2 ^ 9) ltac:(lia)) as (_ & _ & Hf & _).
  rewrite Hf in Hm. replace (field (va / 2 ^ 21 * 2 ^ 9) 9 31 * 2 ^ 21 + va mod 2 ^ 21) with va in Hm; [exact Hm|].
  rewrite field_div_mod, Z.div_mul, Z.mod_small by lia. lia.
Qed.

Lemma ept_walk_4kb va : 0 <= va < 2 ^ 21 ->
  ept_maps 1 (frame_of (addr_of_ept_pd addr 0)) va va
    (type_of_range (va / 2 ^ 12 * 2 ^ 12) (va / 2 ^ 12 * 2 ^ 12 + 2 ^ 12)).
Proof.
  intros Hva.
  assert (field va 21 9 = 0 /\ field va 12 9 = va / 2 ^ 12 /\ 0 <= va / 2 ^ 12 < 512 /\
    va = va / 2 ^ 12 * 2 ^ 12 + va mod 2 ^ 12) as (H2 & H1 & Hr & Hsplit).
  { rewrite !field_div_mod by done. split_and!; Z.to_euclidean_division_equations; lia. }
  apply (ept_maps_dir 0 _ va _ 1025 _ _ (ept_pd_table 0 ltac:(lia))); [|lia|].
  { change (level_shift 1) with 21. rewrite H2, <- pt_position.
    rewrite lookup_map_seq by (change (Z.to_nat 0) with 0%nat; lia). done. }
  rewrite <- pt_position. set (k := Z.to_nat (va / 2 ^ 12)).
  assert (ept_pt built_epts !! Z.to_nat (field va (level_shift 0) 9) = Some (built_ept_pte k)) as He.
  { change (level_shift 0) with 12. rewrite H1. unfold built_epts. cbn [ept_pt].
    by rewrite lookup_map_seq by lia. }
  unfold built_ept_pte, k in He. rewrite Z2Nat.id in He by lia.
  destruct (ept_page_spec (type_of_range (va / 2 ^ 12 * 0x1000) (va / 2 ^ 12 * 0x1000 + 0x1000))
    (va / 2 ^ 12) ltac:(lia)) as (Hrwx & _ & Hf & Hty).
  eexists. split; [|split].
  - rewrite (walk_page ept_present frames _ va _ _ ept_lookup_pt He (rwx_present _ Hrwx)).
    rewrite Hf. unfold field. rewrite Z.shiftr_0_r, wrap_small by (unfold in_width; lia). by rewrite <- Hsplit.
  - cbn [forallb]. by rewrite Hrwx.
  - cbn. by rewrite Hty.
Qed.

(** The whole walk. *)
Lemma ept_walk_all va : 0 <= va < 2 ^ 48 -> ept_maps 3 (frame_of addr) va va (ept_type_of va).
Proof.
  intros Hva.
  assert (0 <= field va 39 9 < 512) as H4 by (apply (field_range va 39 9); lia).
  assert (0 <= field va 30 9 < 512) as H3 by (apply (field_range va 30 9); lia).
  apply (ept_maps_dir 2 _ va (ept_pml4 built_epts) (S (Z.to_nat (field va 39 9)))); [| |lia|].
  { pose proof (Hh 0%nat _ eq_refl) as H. by rewrite Z.add_0_r in H. }
  { rewrite <- pdpt_position. unfold built_epts. cbn [ept_pml4]. change (level_shift 3) with 39.
    apply (lookup_map_seq (fun i => ept_dir (frame_of (addr_of_ept_pdpt addr i)))). lia. }
  rewrite <- pdpt_position. unfold ept_type_of.
  destruct (Z.ltb_spec va (2 ^ 39)) as [Hlt|Hge].
  2: { rewrite (proj2 (Z.ltb_ge va (2 ^ 21))) by lia. apply ept_walk_1gb. lia. }
  assert (field va 39 9 = 0) as H40.
  { rewrite field_div_mod by done. rewrite Z.div_small by lia. done. }
  rewrite H40.
  apply (ept_maps_dir 1 _ va _ (S (512 + Z.to_nat (field va 30 9))) _ _ (ept_lookup_pdpt 0 _ eq_refl)); [|lia|].
  { rewrite <- pd_position. change (level_shift 2) with 30.
    apply (lookup_map_seq (fun i => ept_dir (frame_of (addr_of_ept_pd addr i)))). lia. }
  rewrite <- pd_position.
  destruct (Z.ltb_spec va (2 ^ 21)) as [Hs|Hs]; [|apply ept_walk_2mb; lia].
  assert (field va 30 9 = 0) as ->.
  { rewrite field_div_mod by done. rewrite Z.div_small by lia. done. }
  apply ept_walk_4kb. lia.
Qed.
End EptWalks.
End Built.

(** ** The theorems *)
Section EptTheorems.
Context {P : Profile} {BF : BitfieldMacro} {Proc : Type} {OPS : PlatformOps Proc}.

(** The running addresses of the loops over 1 GB entries. *)
Lemma ept_huge_iterations mtrr i s' bs : (1 <= i < 512)%nat ->
  foreach (ept_build_huge mtrr) (Z.of_nat i * 2 ^ 39) zero_table = Ok (s', bs) ->
  s' = Z.of_nat (S i) * 2 ^ 39 /\
  forall k, (k < 512)%nat -> exists b, ept_build_huge mtrr (Z.of_nat i * 2 ^ 39 + Z.of_nat k * 2 ^ 30) 0 = Ok b.
Proof.
  intros Hi H.
  destruct (foreach_ok_iteration (ept_build_huge mtrr)
    (fun k => Z.of_nat i * 2 ^ 39 + Z.of_nat k * 2 ^ 30) zero_table 0 s' bs) as [Hs Hk].
  - intros k a s1 b Hk Hb. apply lookup_replicate in Hk as [-> Hk]. unfold ept_build_huge in Hb.
    apply obind_ok in Hb as (hi & _ & Hb). apply obind_ok in Hb as (o & _ & Hb).
    apply obind_ok in Hb as (t & _ & Hb). unfold HUGE_PAGE_SIZE in Hb. cbn [Nat.add] in Hb.
    rewrite add_w_small in Hb by (unfold in_width; lia). cbn [obind] in Hb. injection Hb as <- _. lia.
  - cbv beta. by rewrite Z.add_0_r.
  - split.
    + rewrite Hs. unfold zero_table. rewrite length_replicate. lia.
    + intros k Hlt. apply (Hk k 0). apply lookup_replicate. done.
Qed.

Lemma ept_pml4e_state mtrr addr j x y n last b :
  zip (replicate 511 0) (replicate 511 zero_table) !! j = Some (x, y) ->
  ept_build_pml4e mtrr addr (S (0 + j), Z.of_nat (S (0 + j)) * 2 ^ 39) (x, y) = Ok ((n, last), b) ->
  (n, last) = (S (S (0 + j)), Z.of_nat (S (S (0 + j))) * 2 ^ 39).
Proof.
  intros Hj H. apply lookup_zip_with_Some in Hj as (? & ? & Hxy & Hx & Hy). injection Hxy as <- <-.
  apply lookup_replicate in Hx as [-> Hlt]. apply lookup_replicate in Hy as [-> _].
  unfold ept_build_pml4e in H. apply obind_ok in H as ([s2 bs2] & Hl & H). injection H as <- <- _.
  destruct (ept_huge_iterations mtrr (S (0 + j)) s2 bs2 ltac:(lia) Hl) as [-> _]. done.
Qed.


(** Above 512 GB the type of each 1 GB page is asked for with a range of
    512 GB: an MTRR there that contains the start of a page but is shorter than
    that makes [build_identity] panic, although the MTRR gives a type to the
    page itself. *)
Lemma ept_short_mtrr_panics mtrr addr r i k :
  (1 <= i < 512)%nat -> (k < 512)%nat ->
  let gpa := Z.of_nat i * 2 ^ 39 + Z.of_nat k * 2 ^ 30 in
  r ∈ variable mtrr -> contains r gpa = true -> contains r (gpa + 2 ^ 39 - 1) = false ->
  (forall q, q ∈ variable mtrr -> memory_type q = Uncachable -> contains q gpa = true ->
     contains q (gpa + 2 ^ 39 - 1) = false) ->
  is_ok (ept_build_identity mtrr addr Epts_zeroed) = false.
Proof.
  intros Hi Hk gpa Hr Hlo Hhi Hu. apply not_true_is_false. intros Hok.
  destruct (ept_build_identity mtrr addr Epts_zeroed) as [e|] eqn:He; [|done]. clear Hok.
  unfold ept_build_identity, Epts_zeroed in He. cbn [ept_pml4 ept_pdpt ept_pd ept_pt] in He.
  apply obind_ok in He as (pdpt0 & _ & He). apply obind_ok in He as ([[? [cur t]] l] & _ & He).
  apply obind_ok in He as ([] & Hcur%oassert_ok%Z.eqb_eq & He). subst cur.
  apply obind_ok in He as ([[idx last] tables] & Hloop & _).
  change (drop 1 (alter _ 0%nat zero_table)) with (replicate 511 0) in Hloop.
  change (drop 1 (replicate 512 zero_table)) with (replicate 511 zero_table) in Hloop.
  destruct (foreach_ok_iteration (ept_build_pml4e mtrr addr) (fun k => (S k, Z.of_nat (S k) * 2 ^ 39))
    _ 0 _ _ ltac:(intros j [x y] [n' last'] b; apply ept_pml4e_state) Hloop) as [_ Hit].
  destruct (Hit (i - 1)%nat (0, zero_table)) as [b Hb].
  { apply lookup_zip_with_Some. exists 0, zero_table. split; [done|].
    split; apply lookup_replicate; split; (done || lia). }
  cbn [Nat.add] in Hb. replace (S (i - 1)) with i in Hb by lia. unfold ept_build_pml4e in Hb.
  apply obind_ok in Hb as ([s2 bs2] & Hloop2 & _).
  destruct (ept_huge_iterations mtrr i s2 bs2 Hi Hloop2) as [_ Hhuge].
  destruct (Hhuge k Hk) as [b2 Hb2]. fold gpa in Hb2.
  unfold ept_build_huge in Hb2. rewrite add_w_small in Hb2 by (unfold in_width, PML4_SLOT_SIZE, gpa; lia).
  cbn [obind] in Hb2. change (gpa + PML4_SLOT_SIZE) with (gpa + 2 ^ 39) in Hb2.
  unfold find in Hb2. rewrite (proj2 (Z.ltb_ge gpa 0x10_0000)) in Hb2 by (unfold gpa; lia).
  rewrite (find_variable_conflict mtrr gpa (gpa + 2 ^ 39) r) in Hb2 by (try done; unfold in_width, gpa; lia).
  discriminate Hb2.
Qed.

(** The EPT pointer names the PML4, a page walk of length 4 and the
    write-back type for the walk's own accesses; no other bit is set. *)
Theorem eptp_fields addr : in_width 40 (frame_of addr) ->
  field (eptp addr) 12 40 = frame_of addr /\ field (eptp addr) 0 3 = MemoryType_value WriteBack /\
  field (eptp addr) 3 3 = 4 - 1 /\ field (eptp addr) 6 6 = 0 /\ field (eptp addr) 52 12 = 0.
Proof.
  intros Hf. pose proof (proj1 Hf) as H0. fold (frame_of addr) in *. unfold eptp.
  fold (frame_of addr). unfold set_page_levels_minus_one, eptp_set_memory_type, eptp_set_pfn.
  change (MemoryType_value WriteBack) with 6.
  split_and!.
  - rewrite !field_bf_set_outside, field_bf_set by bf_nonneg. unfold field. rewrite Z.shiftr_0_r.
    by apply wrap_small.
  - rewrite field_bf_set_outside, field_bf_set by bf_nonneg. done.
  - rewrite field_bf_set by bf_nonneg. done.
  - rewrite !field_bf_set_outside by bf_nonneg. done.
  - rewrite !field_bf_set_outside by bf_nonneg. done.
Qed.
End EptTheorems.

(** ** Witnesses: plain memory, and a device window at 512 GB *)
Module EptsExample.
Import Reference.
#[local] Instance checked : Profile := true.
#[local] Instance ops : PlatformOps nat := UefiOps 0%nat [].

Definition plain : Mtrr := mk_mtrr WriteBack [mk_range WriteBack 0 0x10_0000] [].

Lemma plain_usable : mtrr_usable plain.
Proof.
  split.
  - intros k Hk. exists WriteBack. unfold find. destruct (Z.ltb_spec (k * 0x1000) 0x10_0000); [|done].
    rewrite (proj2 (Z.ltb_ge 0x10_0000 _)) by lia. cbn [fixed plain find_from_fixed].
    rewrite (proj2 (contains_spec _ _)) by (cbn; lia). rewrite sub_w_small by (unfold in_width; lia).
    cbn [obind]. by rewrite (proj2 (contains_spec _ _)) by (cbn; lia).
  - intros k Hk. exists WriteBack. unfold find. by rewrite (proj2 (Z.ltb_ge _ _)) by lia.
Qed.

Definition ept_memory (e : Epts) (f : Z) : option (list Z) :=
  if f <? 0x100 then None else nth_ept_table e (Z.to_nat (f - 0x100)).

Lemma ept_memory_holds e : ept_holds 0x10_0000 (ept_memory e) e.
Proof.
  intros o t Ho. unfold ept_memory. change (frame_of (0x10_0000 + 0x1000 * Z.of_nat o))
    with (@frame_of nat PagingExample.ops (0x10_0000 + 0x1000 * Z.of_nat o)).
  rewrite PagingExample.frame_at, (proj2 (Z.ltb_ge _ _)) by lia.
  by replace (Z.to_nat (0x100 + Z.of_nat o - 0x100)) with o by lia.
Qed.

Lemma ept_memory_addressable : ept_addressable 0x10_0000.
Proof.
  intros o Ho. change (frame_of (0x10_0000 + 0x1000 * Z.of_nat o))
    with (@frame_of nat PagingExample.ops (0x10_0000 + 0x1000 * Z.of_nat o)).
  rewrite PagingExample.frame_at. unfold in_width. lia.
Qed.


Definition window : Mtrr :=
  mk_mtrr WriteBack [mk_range WriteBack 0 0x10_0000] [mk_range Uncachable 0x80_0000_0000 0x90_0000_0000].

Lemma ept_short_mtrr_panics_witness :
  is_ok (ept_build_identity window 0x10_0000 Epts_zeroed) = false /\
  find window 0x80_0000_0000 0x80_4000_0000 = Ok (Some Uncachable).
Proof.
  split; [|reflexivity].
  apply (ept_short_mtrr_panics window 0x10_0000 (mk_range Uncachable 0x80_0000_0000 0x90_0000_0000) 1 0).
  - lia.
  - lia.
  - left.
  - reflexivity.
  - reflexivity.
  - intros q Hq _ _. by apply list_elem_of_singleton in Hq as ->.
Defined.

Lemma eptp_fields_witness : eptp 0x10_0000 = 0x10_001e /\ field (eptp 0x10_0000) 3 3 = 3.
Proof.
  split; [reflexivity|]. assert (in_width 40 (frame_of 0x10_0000)) as Hw.
  { split; vm_compute; [discriminate|reflexivity]. }
  destruct (eptp_fields 0x10_0000 Hw) as (_ & _ & H & _). exact H.
Defined.
End EptsExample.
