(* ===== verification/Host.v ===== *)
(** * The architecture-agnostic host (hvcore host.rs, registers.rs, hypercall.rs)

    Guest registers, the interfaces [Guest] and [Extension] an architecture
    implements, the handlers of the VM exits all architectures share, and the
    loop that runs a guest until it asks to be devirtualized. *)

From S2P Require Import Prelude External Machine.

(** ** Registers *)

Inductive Reg : Set :=
  | RAX | RBX | RCX | RDX | RDI | RSI | RBP | R8 | R9 | R10 | R11 | R12 | R13 | R14 | R15
  | RFLAGS | RSP | RIP | XMM0 | XMM1 | XMM2 | XMM3 | XMM4 | XMM5.

Definition Reg_index (r : Reg) : nat :=
  match r with
  | RAX => 0 | RBX => 1 | RCX => 2 | RDX => 3 | RDI => 4 | RSI => 5 | RBP => 6 | R8 => 7 | R9 => 8
  | R10 => 9 | R11 => 10 | R12 => 11 | R13 => 12 | R14 => 13 | R15 => 14 | RFLAGS => 15 | RSP => 16
  | RIP => 17 | XMM0 => 18 | XMM1 => 19 | XMM2 => 20 | XMM3 => 21 | XMM4 => 22 | XMM5 => 23
  end.

Definition Reg_all : list Reg :=
  [RAX; RBX; RCX; RDX; RDI; RSI; RBP; R8; R9; R10; R11; R12; R13; R14; R15; RFLAGS; RSP; RIP;
   XMM0; XMM1; XMM2; XMM3; XMM4; XMM5].

#[export] Instance Reg_eq_dec : EqDecision Reg.
Proof. apply (by_index_dec Reg_index Reg_all). by intros []. Defined.

(** The structure [Registers]; each [Xmm] is one 128-bit integer. *)
Definition Registers : Type := Reg -> Z.

(** ** VM exits *)

Inductive VmExitReason : Type :=
  | Cpuid (next_rip : Z)
  | Rdmsr (next_rip : Z)
  | Wrmsr (next_rip : Z)
  | XSetBv (next_rip : Z)
  | VmCall (next_rip : Z)
  | InitSignal
  | StartupIpi
  | NestedPageFault.

(** ** The processor inside a larger state *)

(** A world a hypervisor instance acts on, with the processor it runs on. *)
Class HasCpu (W : Type) : Type := {
  get_cpu : W -> Machine;
  put_cpu : Machine -> W -> W;
  get_put_cpu : forall m w, get_cpu (put_cpu m w) = m;
  put_get_cpu : forall w, put_cpu (get_cpu w) w = w;
  put_put_cpu : forall m m' w, put_cpu m (put_cpu m' w) = put_cpu m w;
}.

#[export, refine] Instance cpu_machine : HasCpu Machine := {
  get_cpu m := m; put_cpu m _ := m
}.
Proof. all: done. Defined.

Definition on_cpu {W A : Type} {HC : HasCpu W} (x : M Machine A) : M W A := fun w =>
  match x (get_cpu w) with
  | Ok (a, m) => Ok (a, put_cpu m w)
  | Panic why => Panic why
  end.

(** ** The interfaces *)

(** [Event] is what happens outside the hypervisor while the guest runs: the
    state the processor is in when the next VM exit occurs. *)
Class Guest (W G Event : Type) : Type := {
  guest_new : Z -> M W G;
  activate : G -> M W G;
  initialize : Registers -> G -> M W G;
  run : Event -> G -> M W (VmExitReason * G);
  deactivate : G -> M W G;
  load_guest_cpu_state : G -> M W unit;
  regs : G -> Registers;
  set_regs : Registers -> G -> G;
  regs_set : forall r g, regs (set_regs r g) = r;
  deactivate_regs : forall g w g' w', deactivate g w = Ok (g', w') -> regs g' = regs g;
}.

Class Extension (W E : Type) : Type := {
  ext_default : M W E;
  enable : E -> M W E;
  disable : E -> M W E;
}.

(** ** Identification *)

Definition HV_CPUID_VENDOR_AND_MAX_FUNCTIONS : Z := 0x4000_0000.
Definition HV_CPUID_INTERFACE : Z := 0x4000_0001.

(** [u32::from_ne_bytes] of four characters, on a little-endian processor. *)
Definition from_ne_bytes (s : string) : Z :=
  foldr (fun c acc => Z.of_nat (Ascii.nat_of_ascii c) + 256 * acc) 0 (String.list_ascii_of_string s).

Definition OUR_HV_VENDOR_NAME_EBX : Z := from_ne_bytes "Bare".
Definition OUR_HV_VENDOR_NAME_ECX : Z := from_ne_bytes "viso".
Definition OUR_HV_VENDOR_NAME_EDX : Z := from_ne_bytes "r!  ".

(** [cpuid] is the instruction as the current context sees it: [cpuid!(leaf)]
    asks for sub-leaf 0. *)
Definition is_our_hypervisor_present (cpuid : Z -> Z -> CpuidResult) : bool :=
  let regs := cpuid HV_CPUID_VENDOR_AND_MAX_FUNCTIONS 0 in
  (ebx regs =? OUR_HV_VENDOR_NAME_EBX) && (ecx regs =? OUR_HV_VENDOR_NAME_ECX) &&
  (edx regs =? OUR_HV_VENDOR_NAME_EDX).

(** [CpuId::new().get_vendor_info().unwrap().as_str() == "GenuineIntel"]: the
    crate returns the twelve bytes of leaf 0 in the order EBX, EDX, ECX. *)
Definition vendor_is_intel (cpuid : Z -> Z -> CpuidResult) : bool :=
  let regs := cpuid 0 0 in
  (ebx regs =? from_ne_bytes "Genu") && (edx regs =? from_ne_bytes "ineI") &&
  (ecx regs =? from_ne_bytes "ntel").

(** hypercall.rs: the call number of [devirtualize]. *)
Definition DEVIRTUALIZE : Z := 0.

(** [devirtualize]: the instruction executed, and RAX. *)
Inductive HypercallInstruction : Type := Vmcall | Vmmcall.

Definition devirtualize (cpuid : Z -> Z -> CpuidResult) : HypercallInstruction * Z :=
  let is_intel := vendor_is_intel cpuid in
  if is_intel then (Vmcall, DEVIRTUALIZE) else (Vmmcall, DEVIRTUALIZE).

(** ** The handlers *)
Section Handlers.
Context {W G Event : Type} {HC : HasCpu W} {GI : Guest W G Event} {X86 : X86Xcr0}.

(** [guest.regs().r = v] *)
Definition set_reg (r : Reg) (v : Z) (guest : G) : G := set_regs (fset r v (regs guest)) guest.

Definition handle_vmcall (next_rip : Z) (guest : G) : M W G :=
  let guest := set_reg RAX u64_max guest in
  let guest := set_reg RIP next_rip guest in
  ret guest.

Definition handle_cpuid (next_rip : Z) (guest : G) : M W G :=
  let leaf := wrap 32 (regs guest RAX) in
  let sub_leaf := wrap 32 (regs guest RCX) in
  let! cpuid_result := on_cpu (cpuid leaf sub_leaf) in
  let cpuid_result :=
    if leaf =? 1 then
      mk_cpuid (eax cpuid_result) (ebx cpuid_result)
        (Z.land (ecx cpuid_result) (not_w 32 (Z.shiftl 1 5))) (edx cpuid_result)
    else if leaf =? HV_CPUID_VENDOR_AND_MAX_FUNCTIONS then
      mk_cpuid (eax cpuid_result) OUR_HV_VENDOR_NAME_EBX OUR_HV_VENDOR_NAME_ECX OUR_HV_VENDOR_NAME_EDX
    else if leaf =? HV_CPUID_INTERFACE then
      mk_cpuid 0 (ebx cpuid_result) (ecx cpuid_result) (edx cpuid_result)
    else cpuid_result in
  let guest := set_reg RAX (eax cpuid_result) guest in
  let guest := set_reg RBX (ebx cpuid_result) guest in
  let guest := set_reg RCX (ecx cpuid_result) guest in
  let guest := set_reg RDX (edx cpuid_result) guest in
  let guest := set_reg RIP next_rip guest in
  ret guest.

Definition handle_rdmsr (next_rip : Z) (guest : G) : M W G :=
  let msr := wrap 32 (regs guest RCX) in
  let! value := on_cpu (rdmsr msr) in
  let guest := set_reg RAX (Z.land value 0xffff_ffff) guest in
  let guest := set_reg RDX (Z.shiftr value 32) guest in
  let guest := set_reg RIP next_rip guest in
  ret guest.

(** The 64-bit operand of WRMSR and XSETBV: EDX:EAX. *)
Definition edx_eax (guest : G) : Z :=
  Z.lor (Z.land (regs guest RAX) 0xffff_ffff)
    (wrap 64 (Z.shiftl (Z.land (regs guest RDX) 0xffff_ffff) 32)).

Definition handle_wrmsr (next_rip : Z) (guest : G) : M W G :=
  let msr := wrap 32 (regs guest RCX) in
  let value := edx_eax guest in
  on_cpu (wrmsr msr value) ;;!
  ret (set_reg RIP next_rip guest).

(** [Xcr0::from_bits] *)
Definition xcr0_from_bits (value : Z) : option Z :=
  if Z.ldiff value xcr0_all =? 0 then Some value else None.

Definition handle_xsetbv (next_rip : Z) (guest : G) : M W G :=
  let xcr := wrap 32 (regs guest RCX) in
  let! value := lift (unwrap (xcr0_from_bits (edx_eax guest)) "Xcr0::from_bits(value).unwrap()") in
  let! c := on_cpu cr4 in
  on_cpu (cr4_write (Z.lor c CR4_ENABLE_OS_XSAVE)) ;;!
  on_cpu (xsetbv xcr value) ;;!
  ret (set_reg RIP next_rip guest).

(** ** The loop *)
Section Loop.
Context {E : Type} {XI : Extension W E}.

(** Leaving VMX root operation: the registers [restore] resumes with. *)
Definition devirtualize_processor (next_rip : Z) (guest : G) (vt : E) : M W Registers :=
  let guest := set_reg RIP next_rip guest in
  load_guest_cpu_state guest ;;!
  let! guest := deactivate guest in
  let! vt := disable vt in
  ret (regs guest).

(** How the loop stands after a number of VM exits. *)
Inductive LoopState : Type :=
  | Running (guest : G) (vt : E)
  | Devirtualized (resumed : Registers).

(** One iteration of the loop after [run] returned. *)
Definition handle_exit (reason : VmExitReason) (guest : G) (vt : E) : M W LoopState :=
  match reason with
  | Cpuid info => let! guest := handle_cpuid info guest in ret (Running guest vt)
  | Rdmsr info => let! guest := handle_rdmsr info guest in ret (Running guest vt)
  | Wrmsr info => let! guest := handle_wrmsr info guest in ret (Running guest vt)
  | XSetBv info => let! guest := handle_xsetbv info guest in ret (Running guest vt)
  | VmCall info =>
      if regs guest RAX =? DEVIRTUALIZE then
        let! r := devirtualize_processor info guest vt in ret (Devirtualized r)
      else let! guest := handle_vmcall info guest in ret (Running guest vt)
  | InitSignal | StartupIpi | NestedPageFault => ret (Running guest vt)
  end.

(** The [loop] over the events of the guest's execution; each one ends with a
    VM exit. *)
Fixpoint vm_loop (events : list Event) (guest : G) (vt : E) : M W LoopState :=
  match events with
  | [] => ret (Running guest vt)
  | event :: events' =>
      let! (reason, guest) := run event guest in
      let! st := handle_exit reason guest vt in
      match st with
      | Running guest vt => vm_loop events' guest vt
      | Devirtualized r => ret (Devirtualized r)
      end
  end.

(** [virtualize_core], with [processor_id] the lookup of the current
    processor's number. *)
Definition virtualize_core (processor_id : M W (option Z)) (registers : Registers)
    (events : list Event) : M W LoopState :=
  let! vt := ext_default in
  let! vt := enable vt in
  let! found := processor_id in
  let! id := lift (unwrap found "processor_id_from(..).unwrap()") in
  let! guest := guest_new id in
  let! guest := activate guest in
  let! guest := initialize registers guest in
  vm_loop events guest vt.
End Loop.
End Handlers.

Arguments Running {G E} _ _.
Arguments Devirtualized {G E} _.

(** [main]: the vendor of the processor selects the architecture. *)
Definition main {W GI EI VI GA EA VA : Type} {HC : HasCpu W} {X86 : X86Xcr0}
    {IG : Guest W GI EI} {IX : Extension W VI} {AG : Guest W GA EA} {AX : Extension W VA}
    (processor_id : M W (option Z)) (registers : Registers) (events_intel : list EI)
    (events_amd : list EA) : M W (LoopState (G := GI) (E := VI) + LoopState (G := GA) (E := VA)) := fun w =>
  if vendor_is_intel (hw_cpuid (get_cpu w)) then
    (let! st := virtualize_core processor_id registers events_intel in ret (inl st)) w
  else
    (let! st := virtualize_core processor_id registers events_amd in ret (inr st)) w.

(** ** Theorems about the handlers *)
Section HandlerTheorems.
Context {W G Event : Type} {HC : HasCpu W} {GI : Guest W G Event} {X86 : X86Xcr0}.

Lemma on_cpu_ok {A} (x : M Machine A) w a m :
  x (get_cpu w) = Ok (a, m) -> on_cpu x w = Ok (a, put_cpu m w).
Proof. intros H. unfold on_cpu. by rewrite H. Qed.

Lemma on_cpu_panic {A} (x : M Machine A) w why : x (get_cpu w) = Panic why -> on_cpu x w = Panic why.
Proof. intros H. unfold on_cpu. by rewrite H. Qed.

Lemma on_cpu_reads {A} (x : M Machine A) w a :
  x (get_cpu w) = Ok (a, get_cpu w) -> on_cpu x w = Ok (a, w).
Proof. intros H. rewrite (on_cpu_ok _ _ _ _ H). by rewrite put_get_cpu. Qed.

Lemma regs_set_reg r v (g : G) : regs (set_reg r v g) = fset r v (regs g).
Proof. apply regs_set. Qed.

(** What a leaf shows to the guest, of what the processor answers. *)
Record guest_view (leaf : Z) (hw seen : CpuidResult) : Prop := {
  view_eax : eax seen = if leaf =? HV_CPUID_INTERFACE then 0 else eax hw;
  view_ebx : ebx seen = if leaf =? HV_CPUID_VENDOR_AND_MAX_FUNCTIONS then OUR_HV_VENDOR_NAME_EBX else ebx hw;
  view_ecx : if leaf =? HV_CPUID_VENDOR_AND_MAX_FUNCTIONS then ecx seen = OUR_HV_VENDOR_NAME_ECX
             else forall i, 0 <= i ->
               Z.testbit (ecx seen) i = Z.testbit (ecx hw) i && negb ((leaf =? 1) && (i =? 5));
  view_edx : edx seen = if leaf =? HV_CPUID_VENDOR_AND_MAX_FUNCTIONS then OUR_HV_VENDOR_NAME_EDX else edx hw;
}.

Lemma clear_bit_5 x i : in_width 32 x -> 0 <= i ->
  Z.testbit (Z.land x (not_w 32 (Z.shiftl 1 5))) i = Z.testbit x i && negb (i =? 5).
Proof.
  intros Hx Hi. change (not_w 32 (Z.shiftl 1 5)) with (Z.ldiff (Z.ones 32) (Z.shiftl (b2z true) 5)).
  autorewrite with bits. destruct (Z.eqb_spec i 5) as [->|Hne]; [done|].
  rewrite (proj2 (Z.eqb_neq (i - 5) 0)) by lia. cbn [andb negb]. rewrite andb_false_r.
  rewrite (proj2 (Z.leb_le 0 i)) by done. destruct (Z.ltb_spec i 32); cbn [andb negb]; [done|].
  rewrite (testbit_above 32) by done. done.
Qed.

(** C19: CPUID never panics and changes nothing but RAX, RBX, RCX, RDX and RIP
    of the guest: it resumes after the instruction and sees the processor's
    answer with three changes: the VT-x bit of leaf 1 is clear, leaf
    0x4000_0000 names this hypervisor, and leaf 0x4000_0001 does not announce
    the Hv#1 interface. *)
Theorem handle_cpuid_spec next_rip guest w : machine_wf (get_cpu w) ->
  let leaf := wrap 32 (regs guest RAX) in
  exists guest' seen, handle_cpuid next_rip guest w = Ok (guest', w) /\
    guest_view leaf (hw_cpuid (get_cpu w) leaf (wrap 32 (regs guest RCX))) seen /\
    forall r, regs guest' r = match r with
                              | RAX => eax seen
                              | RBX => ebx seen
                              | RCX => ecx seen
                              | RDX => edx seen
                              | RIP => next_rip
                              | _ => regs guest r
                              end.
Proof.
  intros Hwf leaf. unfold handle_cpuid. fold leaf. set (sub := wrap 32 (regs guest RCX)).
  rewrite (bind_intro _ _ _ _ _ (on_cpu_reads (cpuid leaf sub) w _ eq_refl)).
  set (hw := hw_cpuid (get_cpu w) leaf sub). cbn zeta.
  match goal with |- context [set_reg RAX (eax ?seen)] => set (s := seen) end.
  eexists _, s. split; [reflexivity|]. split.
  - destruct (wf_cpuid _ Hwf leaf sub) as (_ & _ & Hc & _). fold hw in Hc.
    assert ((1 =? HV_CPUID_VENDOR_AND_MAX_FUNCTIONS) = false) as E1 by done.
    assert ((1 =? HV_CPUID_INTERFACE) = false) as E2 by done.
    unfold s. destruct (Z.eqb_spec leaf 1) as [->|H1].
    + split; cbn [eax ebx ecx edx]; rewrite ?E1, ?E2; try done. intros i Hi. by apply clear_bit_5.
    + destruct (Z.eqb_spec leaf HV_CPUID_VENDOR_AND_MAX_FUNCTIONS) as [->|H2]; [done|].
      rewrite (proj2 (Z.eqb_neq leaf 1) H1) || idtac.
      destruct (Z.eqb_spec leaf HV_CPUID_INTERFACE) as [->|H3]; split; cbn [eax ebx ecx edx];
        rewrite ?(proj2 (Z.eqb_neq _ _) H1), ?(proj2 (Z.eqb_neq _ _) H2), ?(proj2 (Z.eqb_neq _ _) H3);
        try done; intros i Hi; cbn [andb negb]; by rewrite andb_true_r.
  - intros r. rewrite !regs_set_reg. by destruct r.
Qed.

(** CPUID as code running in the guest sees it. *)
Definition guest_cpuid (guest : G) (w : W) (leaf sub_leaf : Z) : outcome CpuidResult :=
  let? (guest, _) := handle_cpuid 0 (set_reg RCX sub_leaf (set_reg RAX leaf guest)) w in
  Ok (mk_cpuid (regs guest RAX) (regs guest RBX) (regs guest RCX) (regs guest RDX)).

(** The answer to CPUID in the guest. *)
Lemma guest_cpuid_answer guest w leaf sub : guest_cpuid guest w leaf sub =
    let hw := hw_cpuid (get_cpu w) (wrap 32 leaf) (wrap 32 sub) in
    Ok (if wrap 32 leaf =? 1 then mk_cpuid (eax hw) (ebx hw) (Z.land (ecx hw) (not_w 32 (Z.shiftl 1 5))) (edx hw)
        else if wrap 32 leaf =? HV_CPUID_VENDOR_AND_MAX_FUNCTIONS then
          mk_cpuid (eax hw) OUR_HV_VENDOR_NAME_EBX OUR_HV_VENDOR_NAME_ECX OUR_HV_VENDOR_NAME_EDX
        else if wrap 32 leaf =? HV_CPUID_INTERFACE then mk_cpuid 0 (ebx hw) (ecx hw) (edx hw)
        else hw).
Proof.
  unfold guest_cpuid, handle_cpuid. rewrite !regs_set_reg.
  change (fset RCX sub (fset RAX leaf (regs guest)) RAX) with leaf.
  change (fset RCX sub (fset RAX leaf (regs guest)) RCX) with sub.
  rewrite (bind_intro _ _ _ _ _ (on_cpu_reads (cpuid (wrap 32 leaf) (wrap 32 sub)) w _ eq_refl)).
  cbn [obind ret]. rewrite !regs_set_reg. cbn zeta. f_equal.
  repeat match goal with |- context [if ?b then _ else _] => destruct b end; try reflexivity.
  by destruct (hw_cpuid _ _ _).
Qed.

(** Seen from the guest, our hypervisor is present, so a second attempt to
    virtualize bails out; and [devirtualize] picks the instruction of the bare
    processor, which is the one of the architecture [main] chose. *)
Lemma guest_sees_our_hypervisor guest w : exists view : Z -> Z -> CpuidResult,
  (forall leaf sub, in_width 32 leaf -> in_width 32 sub -> guest_cpuid guest w leaf sub = Ok (view leaf sub)) /\
  is_our_hypervisor_present view = true /\
  devirtualize view =
    (if vendor_is_intel (hw_cpuid (get_cpu w)) then Vmcall else Vmmcall, DEVIRTUALIZE).
Proof.
  exists (fun leaf sub => match guest_cpuid guest w leaf sub with Ok r => r | Panic _ => mk_cpuid 0 0 0 0 end).
  split_and!.
  - intros leaf sub _ _. by rewrite guest_cpuid_answer.
  - unfold is_our_hypervisor_present. rewrite guest_cpuid_answer. cbn zeta. reflexivity.
  - assert (forall f, vendor_is_intel f = vendor_is_intel (hw_cpuid (get_cpu w)) ->
      devirtualize f = (if vendor_is_intel (hw_cpuid (get_cpu w)) then Vmcall else Vmmcall, DEVIRTUALIZE)) as Hd.
    { intros f E. unfold devirtualize. rewrite E. cbn zeta. by destruct (vendor_is_intel (hw_cpuid (get_cpu w))). }
    apply Hd. unfold vendor_is_intel. rewrite guest_cpuid_answer. cbn zeta. reflexivity.
Qed.

(** RDMSR and WRMSR of an MSR the processor does not have panic the host:
    the guest can bring it down. *)
Lemma msr_access_faults next_rip guest w :
  msrs (get_cpu w) !! wrap 32 (regs guest RCX) = None ->
  handle_rdmsr next_rip guest w = Panic "#GP(0)" /\ handle_wrmsr next_rip guest w = Panic "#GP(0)".
Proof.
  intros Hn. unfold handle_rdmsr, handle_wrmsr, bind, on_cpu, rdmsr, wrmsr. by rewrite Hn.
Qed.

Lemma edx_eax_spec guest : 0 <= regs guest RAX -> 0 <= regs guest RDX ->
  edx_eax guest = wrap 32 (regs guest RAX) + wrap 32 (regs guest RDX) * 2 ^ 32 /\ in_width 64 (edx_eax guest).
Proof.
  intros Ha Hd. unfold edx_eax. change 0xffff_ffff with (Z.ones 32). rewrite !Z.land_ones by done.
  fold (wrap 32 (regs guest RAX)) (wrap 32 (regs guest RDX)).
  pose proof (wrap_range 32 (regs guest RAX) ltac:(done)) as Hwa.
  pose proof (wrap_range 32 (regs guest RDX) ltac:(done)) as Hwd. unfold in_width in *.
  rewrite (wrap_small 64) by (unfold in_width; rewrite Z.shiftl_mul_pow2 by done; lia).
  rewrite Z.shiftl_mul_pow2, lor_add by (unfold in_width; lia). lia.
Qed.

Lemma put_cpu_msrs (w : W) f : msrs (get_cpu (put_cpu (set_msrs f (get_cpu w)) w)) = f (msrs (get_cpu w)).
Proof. by rewrite get_put_cpu. Qed.

(** What the guest writes to an MSR it reads back: after WRMSR, RDMSR of
    the same MSR returns EDX:EAX in its two halves, both with the upper halves
    of the 64-bit registers ignored or cleared. *)
Lemma wrmsr_rdmsr_roundtrip rip1 rip2 guest w :
  is_Some (msrs (get_cpu w) !! wrap 32 (regs guest RCX)) -> (forall r, 0 <= regs guest r) ->
  exists g1 w1 g2, handle_wrmsr rip1 guest w = Ok (g1, w1) /\ handle_rdmsr rip2 g1 w1 = Ok (g2, w1) /\
    regs g2 RAX = wrap 32 (regs guest RAX) /\ regs g2 RDX = wrap 32 (regs guest RDX) /\
    regs g2 RCX = regs guest RCX /\ regs g2 RIP = rip2.
Proof.
  intros [old Hold] Hnn. destruct (edx_eax_spec guest (Hnn RAX) (Hnn RDX)) as [Hv Hvw].
  set (v := edx_eax guest) in *. set (msr := wrap 32 (regs guest RCX)) in *.
  pose proof (on_cpu_ok _ w _ _ (wrmsr_some msr v old (get_cpu w) Hold)) as Hw.
  set (w1 := put_cpu (set_msrs <[msr:=v]> (get_cpu w)) w) in *.
  exists (set_reg RIP rip1 guest), w1. unfold handle_wrmsr. fold v msr. rewrite (bind_intro _ _ _ _ _ Hw).
  assert (rdmsr msr (get_cpu w1) = Ok (v, get_cpu w1)) as Hr.
  { apply rdmsr_some. unfold w1. rewrite put_cpu_msrs. apply lookup_insert_eq. }
  eexists. split; [reflexivity|]. unfold handle_rdmsr. rewrite regs_set_reg.
  change (fset RIP rip1 (regs guest) RCX) with (regs guest RCX). fold msr.
  rewrite (bind_intro _ _ _ _ _ (on_cpu_reads _ _ _ Hr)). split; [reflexivity|].
  rewrite !regs_set_reg.
  pose proof (wrap_range 32 (regs guest RAX) ltac:(done)) as Hwa.
  pose proof (wrap_range 32 (regs guest RDX) ltac:(done)) as Hwd. unfold in_width in Hwa, Hwd.
  split_and!; [| |reflexivity|reflexivity].
  - change (Z.land v 0xffff_ffff = wrap 32 (regs guest RAX)).
    change 0xffff_ffff with (Z.ones 32). rewrite Z.land_ones, Hv by done.
    rewrite Z.mod_add by done. by apply Z.mod_small.
  - change (Z.shiftr v 32 = wrap 32 (regs guest RDX)).
    rewrite Z.shiftr_div_pow2, Hv, Z.div_add, Z.div_small by (done || lia). lia.
Qed.

(** XSETBV: a value with a bit the crate does not know, or a register
    other than XCR0, panics the host; otherwise XCR0 gets EDX:EAX, OSXSAVE is
    set in the host's CR4, and only the guest's RIP changes. *)
Lemma handle_xsetbv_spec next_rip guest w :
  (Z.ldiff (edx_eax guest) xcr0_all <> 0 \/ wrap 32 (regs guest RCX) <> 0 ->
     is_ok (handle_xsetbv next_rip guest w) = false) /\
  (Z.ldiff (edx_eax guest) xcr0_all = 0 -> wrap 32 (regs guest RCX) = 0 ->
     exists w', handle_xsetbv next_rip guest w = Ok (set_reg RIP next_rip guest, w') /\
       sys (get_cpu w') XCR0 = edx_eax guest /\
       sys (get_cpu w') CR4 = Z.lor (sys (get_cpu w) CR4) CR4_ENABLE_OS_XSAVE /\
       forall r, r <> XCR0 -> r <> CR4 -> sys (get_cpu w') r = sys (get_cpu w) r).
Proof.
  assert (forall v, xcr0_from_bits (edx_eax guest) = Some v -> handle_xsetbv next_rip guest w =
    if wrap 32 (regs guest RCX) =? 0 then
      Ok (set_reg RIP next_rip guest,
          put_cpu (set_sys (fset XCR0 v) (set_sys (fset CR4 (Z.lor (sys (get_cpu w) CR4) CR4_ENABLE_OS_XSAVE))
            (get_cpu w))) w)
    else Panic "xcr == 0") as Hrun.
  { intros v Hv. unfold handle_xsetbv. rewrite Hv. unfold bind, lift, unwrap, on_cpu, cr4, cr4_write,
      sys_read, sys_write, gets, modify, xsetbv, massert, lift, oassert, bind.
    rewrite put_get_cpu, !get_put_cpu. destruct (_ =? 0); [|done]. unfold sys_write, modify, ret.
    by rewrite put_put_cpu. }
  unfold xcr0_from_bits in Hrun. split.
  - intros Hbad. destruct (Z.eqb_spec (Z.ldiff (edx_eax guest) xcr0_all) 0) as [H0|H0].
    + rewrite (Hrun _ eq_refl). rewrite (proj2 (Z.eqb_neq _ _)); [done|tauto].
    + unfold handle_xsetbv, xcr0_from_bits. by rewrite (proj2 (Z.eqb_neq _ _) H0).
  - intros H0 Hx. rewrite H0 in Hrun. rewrite (Hrun _ eq_refl), Hx. eexists. split; [reflexivity|].
    rewrite get_put_cpu. split_and!; [reflexivity|reflexivity|].
    intros r Hr1 Hr2. cbn [set_sys sys]. by rewrite !fset_other by congruence.
Qed.
End HandlerTheorems.

(** ** Theorems about the loop *)
Section LoopTheorems.
Context {W G Event E : Type} {HC : HasCpu W} {GI : Guest W G Event} {XI : Extension W E} {X86 : X86Xcr0}.

(** The handlers that stay in the loop. *)
Lemma stay_running (x : M W G) (vt : E) w st w' :
  (let! guest := x in ret (Running guest vt)) w = Ok (st, w') ->
  exists g, st = Running g vt /\ x w = Ok (g, w').
Proof. intros H. apply bind_ok in H as (g & w1 & Hx & H). injection H as <- <-. eauto. Qed.

(** One iteration: it stays in the loop with the same extension, or leaves. *)
Lemma handle_exit_cases reason (g : G) (vt : E) w st w' :
  handle_exit reason g vt w = Ok (st, w') ->
  (exists g', st = Running g' vt) \/
  (exists info, reason = VmCall info /\ regs g RAX = DEVIRTUALIZE /\
     st = Devirtualized (fset RIP info (regs g))).
Proof.
  intros H. unfold handle_exit in H.
  destruct reason as [info|info|info|info|info| | |];
    try (left; apply stay_running in H as (g' & -> & _); by eexists);
    try (left; injection H as <- _; by eexists).
  destruct (Z.eqb_spec (regs g RAX) DEVIRTUALIZE) as [Hrax|_].
  2: { left. apply stay_running in H as (g' & -> & _). by eexists. }
  right. exists info. split; [done|]. split; [done|].
  apply bind_ok in H as (r & w1 & Hdev & H). injection H as <- _. unfold devirtualize_processor in Hdev.
  apply bind_ok in Hdev as ([] & w2 & _ & Hdev). apply bind_ok in Hdev as (g2 & w3 & Hd & Hdev).
  apply bind_ok in Hdev as (vt2 & w4 & _ & Hdev). injection Hdev as <- _.
  by rewrite (deactivate_regs _ _ _ _ Hd), regs_set_reg.
Qed.

(** The registers a processor leaves the host with. *)
Lemma vm_loop_leaves events guest (vt : E) w r w' : vm_loop events guest vt w = Ok (Devirtualized r, w') ->
  exists info g, regs g RAX = DEVIRTUALIZE /\ r = fset RIP info (regs g).
Proof.
  revert guest w. induction events as [|ev events IH]; intros guest w H; [discriminate H|].
  cbn [vm_loop] in H. apply bind_ok in H as ([reason g1] & w1 & Hrun & H).
  apply bind_ok in H as (st & w2 & Hx & H).
  destruct (handle_exit_cases _ _ _ _ _ _ Hx) as [[g2 ->]|(info & _ & Hrax & ->)]; [by apply (IH g2 w2)|].
  injection H as <- _. by exists info, g1.
Qed.

(** C1: the host leaves its loop only when the guest executes the hypercall
    with RAX = DEVIRTUALIZE, and then resumes with the guest's registers as
    they were at the hypercall, at the instruction after it.  Everything
    before was handled and ran on; what follows is not run. *)
Theorem loop_leaves_on_hypercall (events : list Event) (guest : G) (vt : E) w r w' :
  vm_loop events guest vt w = Ok (Devirtualized r, w') ->
  exists pre event post g1 w1 info g2 w2, events = pre ++ event :: post /\
    vm_loop pre guest vt w = Ok (Running g1 vt, w1) /\
    run event g1 w1 = Ok ((VmCall info, g2), w2) /\ regs g2 RAX = DEVIRTUALIZE /\
    r = fset RIP info (regs g2).
Proof.
  revert guest w. induction events as [|ev events IH]; intros guest w H; [discriminate H|].
  cbn [vm_loop] in H. apply bind_ok in H as ([reason g1] & w1 & Hrun & H).
  apply bind_ok in H as (st & w2 & Hx & H).
  destruct (handle_exit_cases _ _ _ _ _ _ Hx) as [[g2 ->]|(info & -> & Hrax & ->)].
  - destruct (IH g2 w2 H) as (pre & event & post & g3 & w3 & info & g4 & w4 & -> & Hpre & Hr & Hrax & Hreg).
    exists (ev :: pre), event, post, g3, w3, info, g4, w4. split; [done|]. split; [|done].
    cbn [vm_loop]. rewrite (bind_intro _ _ _ _ _ Hrun). by rewrite (bind_intro _ _ _ _ _ Hx).
  - injection H as <- _. exists [], ev, events, guest, w, info, g1, w1. done.
Qed.
End LoopTheorems.

(** ** Witnesses: a guest that is nothing but its registers *)
Module HostExample.
Import Reference.

Definition answers (leaf _ : Z) : CpuidResult :=
  if leaf =? 0 then mk_cpuid 0xd 0x756e6547 0x6c65746e 0x49656e69
  else if leaf =? 1 then mk_cpuid 0x806ea 0x100800 0x7ffafbff 0xbfebfbff
  else mk_cpuid 0 0 0 0.

Definition cpu : Machine := {|
  sys _ := 0; msrs := {[ IA32_EFER := 0x500 ]}; mem _ := 0; mmio _ := 0; vmx := VmxOff;
  vmcss := ∅; hw_cpuid := answers; hw_lsl _ := (0, 0); hw_lar _ := (0, 0)
|}.

(** The event is the exit and the registers at it. *)
#[local, refine] Instance bare_guest : Guest Machine Registers (VmExitReason * Registers) := {
  guest_new _ := ret (fun _ => 0);
  activate g := ret g;
  initialize r _ := ret r;
  run ev _ := ret ev;
  deactivate g := ret g;
  load_guest_cpu_state _ := ret tt;
  regs g := g;
  set_regs r _ := r
}.
Proof.
  - done.
  - intros g w g' w' H. by injection H as <- _.
Defined.

#[local] Instance no_extension : Extension Machine unit := {
  ext_default := ret tt; enable := ret; disable := ret
}.

Lemma cpu_wf : machine_wf (get_cpu cpu).
Proof.
  change (machine_wf cpu). split; try done.
  - intros i v Hv. cbn [msrs cpu] in Hv. apply lookup_singleton_Some in Hv as [_ <-]. done.
  - intros leaf sub. cbn [hw_cpuid cpu]. unfold answers.
    destruct (leaf =? 0); [done|]. by destruct (leaf =? 1).
Qed.

Definition at_leaf_1 : Registers := fset RAX 1 (fun _ => 0).

Lemma handle_cpuid_spec_witness : exists g,
  handle_cpuid 0x1002 at_leaf_1 cpu = Ok (g, cpu) /\ regs g RCX = 0x7ffafbdf /\ regs g RIP = 0x1002.
Proof.
  destruct (handle_cpuid_spec 0x1002 at_leaf_1 cpu cpu_wf) as (g & seen & Hg & Hv & Hr).
  exists g. split; [exact Hg|]. split; [|exact (Hr RIP)].
  vm_compute in Hg. injection Hg as <-. reflexivity.
Defined.

Definition writes_efer : Registers :=
  assign [(RCX, 0xc000_0080); (RAX, 0xffff_0000_0000_0d01); (RDX, 0x1)] (fun _ => 0).

Lemma wrmsr_rdmsr_roundtrip_witness : exists g1 w1 g2,
  handle_wrmsr 0x10 writes_efer cpu = Ok (g1, w1) /\ handle_rdmsr 0x20 g1 w1 = Ok (g2, w1) /\
  regs g2 RAX = 0xd01 /\ regs g2 RDX = 0x1.
Proof.
  destruct (wrmsr_rdmsr_roundtrip 0x10 0x20 writes_efer cpu) as (g1 & w1 & g2 & H1 & H2 & Ha & Hd & _).
  - eexists. reflexivity.
  - intros r. destruct r; vm_compute; discriminate.
  - exists g1, w1, g2. split; [exact H1|]. split; [exact H2|]. split; [exact Ha|exact Hd].
Defined.

Lemma msr_access_faults_witness :
  handle_rdmsr 0x10 (fset RCX 0x9999 (fun _ => 0) : Registers) cpu = Panic "#GP(0)".
Proof. apply (msr_access_faults 0x10 (fset RCX 0x9999 (fun _ => 0) : Registers) cpu). reflexivity. Defined.

Definition leaving : list (VmExitReason * Registers) :=
  [(Cpuid 0x2, at_leaf_1); (VmCall 0x1003, fset RAX DEVIRTUALIZE (fset RBX 7 (fun _ => 0)))].

Lemma loop_leaves_on_hypercall_witness : exists r w',
  vm_loop leaving (fun _ => 0) tt cpu = Ok (Devirtualized r, w') /\ r RIP = 0x1003 /\ r RBX = 7.
Proof.
  destruct (vm_loop leaving (fun _ => 0) tt cpu) as [[[g vt|r] w']|] eqn:H; [discriminate H| |discriminate H].
  exists r, w'. split; [reflexivity|].
  destruct (loop_leaves_on_hypercall leaving (fun _ => 0) tt cpu r w' H)
    as (pre & event & post & g1 & w1 & info & g2 & w2 & Hev & _ & Hrun & _ & ->).
  unfold leaving in Hev. destruct pre as [|e1 [|e2 pre]]; cbn [app] in Hev.
  - inversion Hev; subst event. discriminate Hrun.
  - inversion Hev; subst event. inversion Hrun. subst. split; reflexivity.
  - apply (f_equal length) in Hev. cbn in Hev. rewrite length_app in Hev. cbn in Hev. lia.
Defined.
End HostExample.
