(* ===== verification/Vmcb.v ===== *)
(** * The virtual machine control block (hvcore amd/guest.rs)

    The two areas of the VMCB as functions from their fields, and the
    enumerations stored in them. *)

From S2P Require Import Prelude External Machine Host.

(** The integer fields of [ControlArea] (the padding and the instruction bytes apart). *)
Inductive ControlField : Set :=
  | c_intercept_cr_read | c_intercept_cr_write | c_intercept_dr_read | c_intercept_dr_write |
    c_intercept_exception | c_intercept_misc1 | c_intercept_misc2 | c_intercept_misc3 |
    c_pause_filter_threshold | c_pause_filter_count | c_iopm_base_pa | c_msrpm_base_pa |
    c_tsc_offset | c_guest_asid | c_tlb_control | c_vintr | c_interrupt_shadow | c_exit_code |
    c_exit_info1 | c_exit_info2 | c_exit_int_info | c_np_enable | c_avic_apic_bar |
    c_guest_pa_pf_ghcb | c_event_inj | c_ncr3 | c_lbr_virtualization_enable | c_vmcb_clean |
    c_reserved | c_nrip | c_num_of_bytes_fetched | c_avic_apic_backing_page_pointer |
    c_avic_logical_table_pointer | c_avic_physical_table_pointer | c_vmcb_save_state_pointer.

Definition ControlField_index (f : ControlField) : nat :=
  match f with
  | c_intercept_cr_read => 0 | c_intercept_cr_write => 1 | c_intercept_dr_read => 2 |
    c_intercept_dr_write => 3 | c_intercept_exception => 4 | c_intercept_misc1 => 5 |
    c_intercept_misc2 => 6 | c_intercept_misc3 => 7 | c_pause_filter_threshold => 8 |
    c_pause_filter_count => 9 | c_iopm_base_pa => 10 | c_msrpm_base_pa => 11 | c_tsc_offset =>
    12 | c_guest_asid => 13 | c_tlb_control => 14 | c_vintr => 15 | c_interrupt_shadow => 16 |
    c_exit_code => 17 | c_exit_info1 => 18 | c_exit_info2 => 19 | c_exit_int_info => 20 |
    c_np_enable => 21 | c_avic_apic_bar => 22 | c_guest_pa_pf_ghcb => 23 | c_event_inj => 24 |
    c_ncr3 => 25 | c_lbr_virtualization_enable => 26 | c_vmcb_clean => 27 | c_reserved => 28 |
    c_nrip => 29 | c_num_of_bytes_fetched => 30 | c_avic_apic_backing_page_pointer => 31 |
    c_avic_logical_table_pointer => 32 | c_avic_physical_table_pointer => 33 |
    c_vmcb_save_state_pointer => 34
  end.

Definition ControlField_all : list ControlField :=
  [c_intercept_cr_read; c_intercept_cr_write; c_intercept_dr_read; c_intercept_dr_write;
   c_intercept_exception; c_intercept_misc1; c_intercept_misc2; c_intercept_misc3;
   c_pause_filter_threshold; c_pause_filter_count; c_iopm_base_pa; c_msrpm_base_pa;
   c_tsc_offset; c_guest_asid; c_tlb_control; c_vintr; c_interrupt_shadow; c_exit_code;
   c_exit_info1; c_exit_info2; c_exit_int_info; c_np_enable; c_avic_apic_bar;
   c_guest_pa_pf_ghcb; c_event_inj; c_ncr3; c_lbr_virtualization_enable; c_vmcb_clean;
   c_reserved; c_nrip; c_num_of_bytes_fetched; c_avic_apic_backing_page_pointer;
   c_avic_logical_table_pointer; c_avic_physical_table_pointer; c_vmcb_save_state_pointer].

#[export] Instance ControlField_eq_dec : EqDecision ControlField.
Proof. apply (by_index_dec ControlField_index ControlField_all). by intros []. Defined.

(** The integer fields of [StateSaveArea]. *)
Inductive SaveField : Set :=
  | s_es_selector | s_es_attrib | s_es_limit | s_es_base | s_cs_selector | s_cs_attrib |
    s_cs_limit | s_cs_base | s_ss_selector | s_ss_attrib | s_ss_limit | s_ss_base |
    s_ds_selector | s_ds_attrib | s_ds_limit | s_ds_base | s_fs_selector | s_fs_attrib |
    s_fs_limit | s_fs_base | s_gs_selector | s_gs_attrib | s_gs_limit | s_gs_base |
    s_gdtr_selector | s_gdtr_attrib | s_gdtr_limit | s_gdtr_base | s_ldtr_selector |
    s_ldtr_attrib | s_ldtr_limit | s_ldtr_base | s_idtr_selector | s_idtr_attrib | s_idtr_limit
    | s_idtr_base | s_tr_selector | s_tr_attrib | s_tr_limit | s_tr_base | s_cpl | s_efer |
    s_cr4 | s_cr3 | s_cr0 | s_dr7 | s_dr6 | s_rflags | s_rip | s_rsp | s_s_cet | s_ssp |
    s_isst_addr | s_rax | s_star | s_lstar | s_cstar | s_sf_mask | s_kernel_gs_base |
    s_sysenter_cs | s_sysenter_esp | s_sysenter_eip | s_cr2 | s_gpat | s_dbg_ctl | s_br_from |
    s_br_to | s_last_excep_from | s_last_excep_to | s_spec_ctl.

Definition SaveField_index (f : SaveField) : nat :=
  match f with
  | s_es_selector => 0 | s_es_attrib => 1 | s_es_limit => 2 | s_es_base => 3 | s_cs_selector =>
    4 | s_cs_attrib => 5 | s_cs_limit => 6 | s_cs_base => 7 | s_ss_selector => 8 | s_ss_attrib
    => 9 | s_ss_limit => 10 | s_ss_base => 11 | s_ds_selector => 12 | s_ds_attrib => 13 |
    s_ds_limit => 14 | s_ds_base => 15 | s_fs_selector => 16 | s_fs_attrib => 17 | s_fs_limit =>
    18 | s_fs_base => 19 | s_gs_selector => 20 | s_gs_attrib => 21 | s_gs_limit => 22 |
    s_gs_base => 23 | s_gdtr_selector => 24 | s_gdtr_attrib => 25 | s_gdtr_limit => 26 |
    s_gdtr_base => 27 | s_ldtr_selector => 28 | s_ldtr_attrib => 29 | s_ldtr_limit => 30 |
    s_ldtr_base => 31 | s_idtr_selector => 32 | s_idtr_attrib => 33 | s_idtr_limit => 34 |
    s_idtr_base => 35 | s_tr_selector => 36 | s_tr_attrib => 37 | s_tr_limit => 38 | s_tr_base
    => 39 | s_cpl => 40 | s_efer => 41 | s_cr4 => 42 | s_cr3 => 43 | s_cr0 => 44 | s_dr7 => 45 |
    s_dr6 => 46 | s_rflags => 47 | s_rip => 48 | s_rsp => 49 | s_s_cet => 50 | s_ssp => 51 |
    s_isst_addr => 52 | s_rax => 53 | s_star => 54 | s_lstar => 55 | s_cstar => 56 | s_sf_mask
    => 57 | s_kernel_gs_base => 58 | s_sysenter_cs => 59 | s_sysenter_esp => 60 | s_sysenter_eip
    => 61 | s_cr2 => 62 | s_gpat => 63 | s_dbg_ctl => 64 | s_br_from => 65 | s_br_to => 66 |
    s_last_excep_from => 67 | s_last_excep_to => 68 | s_spec_ctl => 69
  end.

Definition SaveField_all : list SaveField :=
  [s_es_selector; s_es_attrib; s_es_limit; s_es_base; s_cs_selector; s_cs_attrib; s_cs_limit;
   s_cs_base; s_ss_selector; s_ss_attrib; s_ss_limit; s_ss_base; s_ds_selector; s_ds_attrib;
   s_ds_limit; s_ds_base; s_fs_selector; s_fs_attrib; s_fs_limit; s_fs_base; s_gs_selector;
   s_gs_attrib; s_gs_limit; s_gs_base; s_gdtr_selector; s_gdtr_attrib; s_gdtr_limit;
   s_gdtr_base; s_ldtr_selector; s_ldtr_attrib; s_ldtr_limit; s_ldtr_base; s_idtr_selector;
   s_idtr_attrib; s_idtr_limit; s_idtr_base; s_tr_selector; s_tr_attrib; s_tr_limit; s_tr_base;
   s_cpl; s_efer; s_cr4; s_cr3; s_cr0; s_dr7; s_dr6; s_rflags; s_rip; s_rsp; s_s_cet; s_ssp;
   s_isst_addr; s_rax; s_star; s_lstar; s_cstar; s_sf_mask; s_kernel_gs_base; s_sysenter_cs;
   s_sysenter_esp; s_sysenter_eip; s_cr2; s_gpat; s_dbg_ctl; s_br_from; s_br_to;
   s_last_excep_from; s_last_excep_to; s_spec_ctl].

#[export] Instance SaveField_eq_dec : EqDecision SaveField.
Proof. apply (by_index_dec SaveField_index SaveField_all). by intros []. Defined.

(** [Vmcb]: both areas, and [guest_instruction_bytes]. *)
Record Vmcb : Type := mk_vmcb {
  control_area : ControlField -> Z;
  state_save_area : SaveField -> Z;
  guest_instruction_bytes : list Z;
}.

(** [Vmcb::default()]: zeroed memory. *)
Definition Vmcb_default : Vmcb := mk_vmcb (fun _ => 0) (fun _ => 0) (replicate 15 0).

Definition set_control (l : list (ControlField * Z)) (v : Vmcb) : Vmcb :=
  mk_vmcb (assign l (control_area v)) (state_save_area v) (guest_instruction_bytes v).
Definition set_save (l : list (SaveField * Z)) (v : Vmcb) : Vmcb :=
  mk_vmcb (control_area v) (assign l (state_save_area v)) (guest_instruction_bytes v).

(** [TlbControl] *)
Inductive TlbControl : Type := DoNotFlush | FlushAll | FlushGuests | FlushGuestsNonGlobal.
Definition TlbControl_value (t : TlbControl) : Z :=
  match t with
  | DoNotFlush => 0x0
  | FlushAll => 0x1
  | FlushGuests => 0x3
  | FlushGuestsNonGlobal => 0x7
  end.

(** [GuestActivityState]; any other value of the byte is a SIPI vector. *)
Definition Active : Z := 0.
Definition WaitForSipi : Z := 255.

(** The fields VMSAVE stores: FS, GS, TR and LDTR with their hidden parts,
    and the system call MSRs. *)
Definition vmsave_fields : list SaveField :=
  [s_fs_selector; s_fs_attrib; s_fs_limit; s_fs_base; s_gs_selector; s_gs_attrib; s_gs_limit;
   s_gs_base; s_tr_selector; s_tr_attrib; s_tr_limit; s_tr_base; s_ldtr_selector; s_ldtr_attrib;
   s_ldtr_limit; s_ldtr_base; s_kernel_gs_base; s_star; s_lstar; s_cstar; s_sf_mask;
   s_sysenter_cs; s_sysenter_esp; s_sysenter_eip].

(** The processor's current values of those fields; the hidden parts of the
    segment registers are not part of [Machine]. *)
Class HwVmsave : Type := { hw_vmsave : Machine -> SaveField -> Z }.

Definition vmsave {HV : HwVmsave} (m : Machine) (v : Vmcb) : Vmcb :=
  set_save (map (fun f => (f, hw_vmsave m f)) vmsave_fields) v.

Definition VMEXIT_EXCEPTION_SX : Z := 0x5e.
Definition VMEXIT_CPUID : Z := 0x72.
Definition VMEXIT_VMMCALL : Z := 0x81.
Definition VMEXIT_NPF : Z := 0x400.

Definition SVM_MSR_VM_CR : Z := 0xc001_0114.
Definition SVM_MSR_VM_HSAVE_PA : Z := 0xc001_0117.
Definition EFER_SVME : Z := 0x1000.
Definition R_INIT : Z := 0x2.
Definition SECURITY_EXCEPTION : Z := 0x4000_0000.
Definition SVM_INTERCEPT_MISC1_CPUID : Z := 0x4_0000.
Definition SVM_INTERCEPT_MISC2_VMRUN : Z := 0x1.
Definition SVM_INTERCEPT_MISC2_VMMCALL : Z := 0x2.
Definition SVM_NP_ENABLE_NP_ENABLE : Z := 0x1.
Definition u32_max : Z := 2 ^ 32 - 1.
Definition u16_max : Z := 2 ^ 16 - 1.

(** A field not among the saved ones keeps its value. *)
Lemma vmsave_other {HV : HwVmsave} m v f : f ∉ vmsave_fields ->
  state_save_area (vmsave m v) f = state_save_area v f.
Proof.
  intros Hf. unfold vmsave, set_save. cbn [state_save_area]. apply assign_other.
  intros Hin. apply Hf. by rewrite fmap_map, list_fmap_id in Hin || (rewrite fmap_map in Hin; by rewrite map_id in Hin).
Qed.
