(* ===== verification/Svm.v ===== *)
(** * AMD SVM (hvcore amd/svm.rs and amd/guest.rs)

    Enabling SVM, the guest object with its VMCBs, its initialization, the
    #VMEXITs handled inside [run] (INIT redirected as #SX, and nested page
    faults on the local APIC page), and leaving. *)

From S2P Require Import Prelude External Machine Platform Paging Npts ApicId Segment Tables Host Vmcb.

(** What a logical processor acts on: itself, and the shared data: the nested
    page tables, one activity state per processor, and the APIC id map. *)
Record SvmWorld : Type := mk_svm_world {
  svm_cpu : Machine;
  npt : PagingStructuresRaw;
  activity_states : list Z;
  svm_apic : ApicState;
}.

#[export, refine] Instance cpu_svm : HasCpu SvmWorld := {
  get_cpu := svm_cpu;
  put_cpu m w := mk_svm_world m (npt w) (activity_states w) (svm_apic w)
}.
Proof.
  - done.
  - by intros [].
  - done.
Defined.

Definition set_npt (ps : PagingStructuresRaw) (w : SvmWorld) : SvmWorld :=
  mk_svm_world (svm_cpu w) ps (activity_states w) (svm_apic w).
Definition set_activity (l : list Z) (w : SvmWorld) : SvmWorld :=
  mk_svm_world (svm_cpu w) (npt w) l (svm_apic w).

(** ** svm.rs *)
Record Svm : Type := mk_svm { saved_efer : Z }.

Section Extension.
Context {W : Type} {HC : HasCpu W}.

Definition svm_enable (vt : Svm) : M W Svm :=
  let! efer := on_cpu (rdmsr IA32_EFER) in
  on_cpu (wrmsr IA32_EFER (Z.lor efer EFER_SVME)) ;;!
  ret (mk_svm efer).

Definition svm_disable (vt : Svm) : M W Svm :=
  on_cpu (wrmsr IA32_EFER (saved_efer vt)) ;;!
  ret vt.
End Extension.

#[export] Instance svm_extension {W : Type} {HC : HasCpu W} : Extension W Svm := {
  ext_default := ret (mk_svm 0);
  enable := svm_enable;
  disable := svm_disable
}.

(** ** The guest *)

(** [id], the registers, the two VMCBs with their physical addresses, and the
    address of the host state area. *)
Record SvmGuest : Type := mk_svm_guest {
  svm_id : Z;
  svm_registers : Registers;
  vmcb : Vmcb;
  vmcb_pa : Z;
  host_vmcb : Vmcb;
  host_vmcb_pa : Z;
  host_state : Z;
}.

Definition set_vmcb (f : Vmcb -> Vmcb) (g : SvmGuest) : SvmGuest :=
  mk_svm_guest (svm_id g) (svm_registers g) (f (vmcb g)) (vmcb_pa g) (host_vmcb g) (host_vmcb_pa g) (host_state g).
Definition set_host_vmcb (f : Vmcb -> Vmcb) (g : SvmGuest) : SvmGuest :=
  mk_svm_guest (svm_id g) (svm_registers g) (vmcb g) (vmcb_pa g) (f (host_vmcb g)) (host_vmcb_pa g) (host_state g).
Definition set_svm_registers (r : Registers) (g : SvmGuest) : SvmGuest :=
  mk_svm_guest (svm_id g) r (vmcb g) (vmcb_pa g) (host_vmcb g) (host_vmcb_pa g) (host_state g).

(** [self.vmcb.state_save_area.f = v; ..] and [self.vmcb.control_area.f = v; ..] *)
Definition save (l : list (SaveField * Z)) (g : SvmGuest) : SvmGuest := set_vmcb (set_save l) g.
Definition control (l : list (ControlField * Z)) (g : SvmGuest) : SvmGuest := set_vmcb (set_control l) g.
Definition assign_registers (l : list (Reg * Z)) (g : SvmGuest) : SvmGuest :=
  set_svm_registers (assign l (svm_registers g)) g.
Definition saved (g : SvmGuest) (f : SaveField) : Z := state_save_area (vmcb g) f.
Definition controls (g : SvmGuest) (f : ControlField) : Z := control_area (vmcb g) f.

(** What happens outside: the execution of the guest until #VMEXIT, which may
    change the registers, the VMCB and (with the other processors) the world;
    and, if the exit makes this processor wait for a SIPI, what the other
    processors do between two looks at the activity state. *)
Record SvmEvent : Type := mk_svm_event {
  guest_execution : Registers -> Vmcb -> SvmWorld -> Registers * Vmcb * SvmWorld;
  while_waiting : list (SvmWorld -> SvmWorld);
}.

(** ** Atomics of [activity_states] *)
Section Activity.

Definition activity_load (id : Z) : M SvmWorld Z := fun w =>
  let? v := unwrap (activity_states w !! Z.to_nat id) "index out of bounds" in
  Ok (v, w).

Definition activity_swap (id new : Z) : M SvmWorld Z := fun w =>
  let? v := unwrap (activity_states w !! Z.to_nat id) "index out of bounds" in
  Ok (v, set_activity (<[Z.to_nat id := new]> (activity_states w)) w).

(** [compare_exchange]; its result is not used by the source. *)
Definition activity_compare_exchange (id current new : Z) : M SvmWorld unit := fun w =>
  let? v := unwrap (activity_states w !! Z.to_nat id) "index out of bounds" in
  Ok (tt, if v =? current then set_activity (<[Z.to_nat id := new]> (activity_states w)) w else w).
End Activity.

(** ** Decoding the guest's APIC access *)

(** The instructions the source knows: the value stored (as a [u32]) and the
    length of the instruction. *)
Definition decode_apic_write (instructions : list Z) (registers : Registers) : option (Z * Z) :=
  match instructions with
  | 0xc7 :: 0x80 :: 0xb0 :: 0x00 :: 0x00 :: 0x00 :: 0x00 :: 0x00 :: 0x00 :: 0x00 :: _ => Some (0, 10)
  | 0x45 :: 0x89 :: 0x65 :: 0x00 :: _ => Some (wrap 32 (registers R12), 4)
  | 0x41 :: 0x89 :: 0x14 :: 0x00 :: _ => Some (wrap 32 (registers RDX), 4)
  | 0xc7 :: 0x81 :: 0xb0 :: 0x00 :: 0x00 :: 0x00 :: 0x00 :: 0x00 :: 0x00 :: 0x00 :: _ => Some (0, 10)
  | 0xa3 :: 0x00 :: 0x03 :: 0xe0 :: 0xfe :: 0x00 :: 0x00 :: 0x00 :: 0x00 :: _ =>
      Some (wrap 32 (registers RAX), 9)
  | 0xa3 :: 0x10 :: 0x03 :: 0xe0 :: 0xfe :: 0x00 :: 0x00 :: 0x00 :: 0x00 :: _ =>
      Some (wrap 32 (registers RAX), 9)
  | 0x89 :: 0x90 :: 0x00 :: 0x03 :: 0x00 :: 0x00 :: _ => Some (wrap 32 (registers RDX), 6)
  | 0x89 :: 0x88 :: 0x10 :: 0x03 :: 0x00 :: 0x00 :: _ => Some (wrap 32 (registers RCX), 6)
  | _ => None
  end.

(** ** SvmGuest *)
Section SvmGuestOps.
Context {P : Profile} {BF : BitfieldMacro} {BT : BitFieldTrait} {XS : X86Segmentation} {XT : X86Task}
  {HV : HwVmsave} {Proc : Type} {OPS : PlatformOps Proc}.
(** The [uefi] feature, the addresses of the boxes of a guest, the address of
    the nested page tables, and the shared host data. *)
Context (uefi : bool) (vmcb_addr host_vmcb_addr host_state_addr : Z -> Z) (npt_addr : Z)
  (shared_host : SharedHostData).

(** [SharedGuestData::new]: the nested page tables and the activity states. *)
Definition SharedGuestData_new : M Machine (PagingStructuresRaw * list Z) :=
  let! ps := lift (npt_build_identity npt_addr PagingStructures_new) in
  let! ps := split_apic_page npt_addr ps in
  ret (ps, replicate 0xff Active).

Definition intercept_apic_write (enable : bool) (g : SvmGuest) : M SvmWorld SvmGuest :=
  let! apic_base_raw := on_cpu (rdmsr IA32_APIC_BASE) in
  let apic_base := Z.land apic_base_raw (not_w 64 0xfff) in
  let pt_index := Z.to_nat (get_bits apic_base 12 20) in
  modify (fun w => set_npt (mk_ps (pml4 (npt w)) (pdpt (npt w)) (pd (npt w)) (pt (npt w))
    (alter (set_writable (negb enable)) pt_index (pt_apic (npt w)))) w) ;;!
  ret (control [(c_tlb_control, TlbControl_value FlushAll)] g).

Definition svm_new (id : Z) : M SvmWorld SvmGuest :=
  let! _ := activity_load id in
  let g := mk_svm_guest id (fun _ => 0) Vmcb_default (pa (vmcb_addr id)) Vmcb_default
             (pa (host_vmcb_addr id)) (host_state_addr id) in
  if uefi && (svm_id g =? 0) then intercept_apic_write true g else ret g.

Definition svm_activate (g : SvmGuest) : M SvmWorld SvmGuest :=
  on_cpu (wrmsr SVM_MSR_VM_HSAVE_PA (pa (host_state g))) ;;!
  ret g.

Definition svm_deactivate (g : SvmGuest) : M SvmWorld SvmGuest :=
  on_cpu (wrmsr SVM_MSR_VM_HSAVE_PA 0) ;;!
  ret g.

Definition svm_load_guest_cpu_state (g : SvmGuest) : M SvmWorld unit :=
  on_cpu (
    cr3_write (saved g s_cr3) ;;!
    cr0_write (saved g s_cr0) ;;!
    cr4_write (saved g s_cr4) ;;!
    wrmsr IA32_EFER (Z.land (saved g s_efer) (not_w 64 EFER_SVME)) ;;!
    wrmsr IA32_FS_BASE (saved g s_fs_base) ;;!
    wrmsr IA32_GS_BASE (saved g s_gs_base) ;;!
    lgdt (mk_dtp (saved g s_gdtr_base) (wrap 16 (saved g s_gdtr_limit))) ;;!
    lidt (mk_dtp (saved g s_idtr_base) (wrap 16 (saved g s_idtr_limit)))).

(** *** Initialization *)

Definition initialize_control (g : SvmGuest) : M SvmWorld SvmGuest :=
  let g := control [(c_intercept_misc1, SVM_INTERCEPT_MISC1_CPUID);
                    (c_intercept_misc2, Z.lor SVM_INTERCEPT_MISC2_VMRUN SVM_INTERCEPT_MISC2_VMMCALL);
                    (c_pause_filter_count, u16_max);
                    (c_guest_asid, 1);
                    (c_np_enable, SVM_NP_ENABLE_NP_ENABLE);
                    (c_ncr3, pa npt_addr)] g in
  let! vm_cr := on_cpu (rdmsr SVM_MSR_VM_CR) in
  on_cpu (wrmsr SVM_MSR_VM_CR (Z.lor vm_cr R_INIT)) ;;!
  ret (control [(c_intercept_exception, SECURITY_EXCEPTION)] g).

Definition initialize_guest (g : SvmGuest) : M SvmWorld SvmGuest :=
  let! idtr := on_cpu sidt in
  let! gdtr := on_cpu sgdt in
  let guest_gdt := dtp_base gdtr in
  let! m := gets svm_cpu in
  let es := sys m ES in let cs := sys m CS in let ss := sys m SS in let ds := sys m DS in
  let! es_attrib := lift (get_segment_access_right (mem m) guest_gdt es) in
  let! cs_attrib := lift (get_segment_access_right (mem m) guest_gdt cs) in
  let! ss_attrib := lift (get_segment_access_right (mem m) guest_gdt ss) in
  let! ds_attrib := lift (get_segment_access_right (mem m) guest_gdt ds) in
  let! es_limit := lift (get_segment_limit (mem m) guest_gdt es) in
  let! cs_limit := lift (get_segment_limit (mem m) guest_gdt cs) in
  let! ss_limit := lift (get_segment_limit (mem m) guest_gdt ss) in
  let! ds_limit := lift (get_segment_limit (mem m) guest_gdt ds) in
  let! efer := on_cpu (rdmsr IA32_EFER) in
  let! c0 := on_cpu cr0 in
  let! c3 := on_cpu cr3 in
  let! c4 := on_cpu cr4 in
  let! pat := on_cpu (rdmsr IA32_PAT) in
  let g := save [(s_es_selector, es); (s_cs_selector, cs); (s_ss_selector, ss); (s_ds_selector, ds);
                 (s_es_attrib, es_attrib); (s_cs_attrib, cs_attrib);
                 (s_ss_attrib, ss_attrib); (s_ds_attrib, ds_attrib);
                 (s_es_limit, es_limit); (s_cs_limit, cs_limit);
                 (s_ss_limit, ss_limit); (s_ds_limit, ds_limit);
                 (s_gdtr_base, dtp_base gdtr); (s_gdtr_limit, dtp_limit gdtr);
                 (s_idtr_base, dtp_base idtr); (s_idtr_limit, dtp_limit idtr);
                 (s_efer, Z.lor efer EFER_SVME);
                 (s_cr0, c0); (s_cr3, c3); (s_cr4, c4);
                 (s_rip, svm_registers g RIP); (s_rsp, svm_registers g RSP);
                 (s_rflags, svm_registers g RFLAGS); (s_rax, svm_registers g RAX);
                 (s_gpat, pat)] g in
  let! m := gets svm_cpu in
  ret (set_vmcb (vmsave m) g).

Definition initialize_host (g : SvmGuest) : M SvmWorld SvmGuest :=
  match host_pt shared_host with
  | Some pml4 => on_cpu (cr3_write (pa pml4))
  | None => ret tt
  end ;;!
  match host_gdts shared_host with
  | Some gdts =>
      let! (addr, gdt) := lift (unwrap (gdts !! Z.to_nat (svm_id g)) "index out of bounds") in
      let! r := on_cpu (apply addr gdt) in
      match r with
      | ROk _ => ret tt
      | RErr _ => mpanic "apply().unwrap()"
      end
  | None => ret tt
  end ;;!
  match host_idt shared_host with
  | Some (addr, idt) => let! p := lift (idtr addr idt) in on_cpu (lidt p)
  | None => ret tt
  end ;;!
  let! m := gets svm_cpu in
  ret (set_host_vmcb (vmsave m) g).

Definition svm_initialize (registers : Registers) (g : SvmGuest) : M SvmWorld SvmGuest :=
  let g := set_svm_registers registers g in
  let! g := initialize_control g in
  let! g := initialize_guest g in
  initialize_host g.

(** *** INIT and SIPI *)

Definition handle_init_signal (g : SvmGuest) : M SvmWorld SvmGuest :=
  massert (negb (svm_id g =? 0)) "self.id != 0" ;;!
  let! previous := activity_swap (svm_id g) WaitForSipi in
  massert (previous =? Active) "swap(WaitForSipi) == Active" ;;!
  let! previous_cr0 := on_cpu cr0 in
  let new_cr0 := Z.lor (Z.lor (Z.shiftl 1 4) (Z.shiftl (b2z (get_bit previous_cr0 29)) 29))
                   (Z.shiftl (b2z (get_bit previous_cr0 30)) 30) in
  let g := save [(s_cr0, new_cr0); (s_cr2, 0); (s_cr3, 0); (s_cr4, 0); (s_rflags, FLAGS_A1);
                 (s_efer, EFER_SVME); (s_rip, 0xfff0);
                 (s_cs_selector, 0xf000); (s_cs_base, 0xffff_0000); (s_cs_limit, 0xffff); (s_cs_attrib, 0x9b);
                 (s_ds_selector, 0); (s_ds_base, 0); (s_ds_limit, 0xffff); (s_ds_attrib, 0x93);
                 (s_es_selector, 0); (s_es_base, 0); (s_es_limit, 0xffff); (s_es_attrib, 0x93);
                 (s_fs_selector, 0); (s_fs_base, 0); (s_fs_limit, 0xffff); (s_fs_attrib, 0x93);
                 (s_gs_selector, 0); (s_gs_base, 0); (s_gs_limit, 0xffff); (s_gs_attrib, 0x93);
                 (s_ds_selector, 0); (s_ds_base, 0); (s_ds_limit, 0xffff); (s_ds_attrib, 0x93);
                 (s_gdtr_base, 0); (s_gdtr_limit, 0xffff); (s_idtr_base, 0); (s_idtr_limit, 0xffff);
                 (s_ldtr_selector, 0); (s_ldtr_base, 0); (s_ldtr_limit, 0xffff); (s_ldtr_attrib, 0x82);
                 (s_tr_selector, 0); (s_tr_base, 0); (s_tr_limit, 0xffff); (s_tr_attrib, 0x8b)] g in
  let! leaf1 := on_cpu (cpuid 0x1 0) in
  let g := assign_registers [(RAX, 0); (RDX, eax leaf1); (RBX, 0); (RCX, 0); (RBP, 0)] g in
  let g := save [(s_rsp, 0)] g in
  let g := assign_registers [(RDI, 0); (RSI, 0); (R8, 0); (R9, 0); (R10, 0); (R11, 0); (R12, 0);
                             (R13, 0); (R14, 0); (R15, 0)] g in
  on_cpu (modify (set_sys (assign [(DR0, 0); (DR1, 0); (DR2, 0); (DR3, 0)]))) ;;!
  let g := save [(s_dr6, 0xffff_0ff0); (s_dr7, 0x400)] g in
  ret (control [(c_tlb_control, TlbControl_value FlushAll); (c_vmcb_clean, 0)] g).

(** The busy loop, with what the other processors do before each look; when
    the list ends the processor is still waiting. *)
Fixpoint wait_for_sipi (id : Z) (others : list (SvmWorld -> SvmWorld)) : M SvmWorld Z :=
  let! state := activity_load id in
  if state =? WaitForSipi then
    match others with
    | [] => mpanic "still waiting for SIPI"
    | step :: others' => modify step ;;! wait_for_sipi id others'
    end
  else activity_swap id Active.

Definition handle_sipi (vector : Z) (g : SvmGuest) : M SvmWorld SvmGuest :=
  massert (negb (svm_id g =? 0)) "self.id != 0" ;;!
  let! state := activity_load (svm_id g) in
  massert (state =? Active) "load() == Active" ;;!
  let g := save [(s_cs_selector, wrap 16 (Z.shiftl vector 8)); (s_cs_base, Z.shiftl vector 12); (s_rip, 0)] g in
  ret (assign_registers [(RIP, 0)] g).

Definition handle_security_exception (others : list (SvmWorld -> SvmWorld)) (g : SvmGuest)
    : M SvmWorld SvmGuest :=
  massert (negb (svm_id g =? 0)) "self.id != 0" ;;!
  let! g := handle_init_signal g in
  let! vector := (massert (negb (svm_id g =? 0)) "self.id != 0" ;;! wait_for_sipi (svm_id g) others) in
  handle_sipi vector g.

(** *** Nested page faults on the local APIC page *)

Definition apic_write (address value : Z) : M SvmWorld unit :=
  on_cpu (modify (set_mmio (fun f a => if a =? address then value else f a))).

(** The emulation of a Startup IPI. *)
Definition emulate_sipi (value faulting_gpa : Z) : M SvmWorld unit :=
  massert (negb (get_bit value 11)) "Destination Mode must be 'Physical'" ;;!
  massert (get_bits value 18 19 =? 0) "Destination Shorthand must be 'Destination'" ;;!
  let icr_high_addr := Z.lor (Z.land faulting_gpa (not_w 64 0xfff)) 0x310 in
  let! icr_high_value := on_cpu (gets (fun m => mmio m icr_high_addr)) in
  let vector := wrap 8 (get_bits value 0 7) in
  let apic_id := wrap 8 (get_bits icr_high_value 24 31) in
  let! found := gets (fun w => processor_id_from apic_id (svm_apic w)) in
  let! processor_id := lift (unwrap found "processor_id_from(apic_id).unwrap()") in
  massert (negb (vector =? WaitForSipi)) "vector != WaitForSipi" ;;!
  activity_compare_exchange processor_id WaitForSipi vector.

Definition handle_nested_page_fault (g : SvmGuest) : M SvmWorld SvmGuest :=
  let! count := gets (fun w => PROCESSOR_COUNT (svm_apic w)) in
  let! last := lift (sub_w 64 count 1) in
  let! g := (if svm_id g =? last then intercept_apic_write false g else ret g) in
  let instructions := take (Z.to_nat (controls g c_num_of_bytes_fetched)) (guest_instruction_bytes (vmcb g)) in
  let! (value, instr_len) := lift (unwrap (decode_apic_write instructions (svm_registers g))
                                     "Unhandled APIC access instructions") in
  let! rip := lift (add_w 64 (svm_registers g RIP) instr_len) in
  let g := assign_registers [(RIP, rip)] g in
  let message_type := get_bits value 8 10 in
  let faulting_gpa := controls g c_exit_info2 in
  let apic_register := Z.land faulting_gpa 0xfff in
  (if negb (message_type =? 6) || negb (apic_register =? 0x300)
   then apic_write faulting_gpa value
   else emulate_sipi value faulting_gpa) ;;!
  ret g.

(** *** run *)

(** The copy of four registers to the VMCB before VMRUN. *)
Definition svm_entry (g : SvmGuest) : SvmGuest :=
  let r := svm_registers g in
  save [(s_rax, r RAX); (s_rip, r RIP); (s_rsp, r RSP); (s_rflags, r RFLAGS)] g.

Definition svm_run (event : SvmEvent) (g : SvmGuest) : M SvmWorld (VmExitReason * SvmGuest) :=
  let g := svm_entry g in
  let! g := (fun w => let '(r, v, w) := guest_execution event (svm_registers g) (vmcb g) w in
                      Ok (set_vmcb (fun _ => v) (set_svm_registers r g), w)) in
  let g := assign_registers [(RAX, saved g s_rax); (RIP, saved g s_rip); (RSP, saved g s_rsp);
                             (RFLAGS, saved g s_rflags)] g in
  let g := control [(c_tlb_control, TlbControl_value DoNotFlush); (c_vmcb_clean, u32_max)] g in
  let exit_code := controls g c_exit_code in
  if exit_code =? VMEXIT_EXCEPTION_SX then
    let! g := handle_security_exception (while_waiting event) g in ret (InitSignal, g)
  else if exit_code =? VMEXIT_CPUID then ret (Cpuid (controls g c_nrip), g)
  else if exit_code =? VMEXIT_VMMCALL then ret (VmCall (controls g c_nrip), g)
  else if exit_code =? VMEXIT_NPF then
    let! g := handle_nested_page_fault g in ret (NestedPageFault, g)
  else mpanic "Unhandled #VMEXIT reason".

(** AMD implements the interface of host.rs. *)
#[export, refine] Instance svm_guest : Guest SvmWorld SvmGuest SvmEvent := {
  guest_new := svm_new;
  activate := svm_activate;
  initialize := svm_initialize;
  run := svm_run;
  deactivate := svm_deactivate;
  load_guest_cpu_state := svm_load_guest_cpu_state;
  regs := svm_registers;
  set_regs := set_svm_registers
}.
Proof.
  - done.
  - intros g w g' w' H. unfold svm_deactivate in H. apply bind_ok in H as ([] & w1 & _ & H).
    by injection H as <- _.
Defined.
End SvmGuestOps.
