(* ===== verification/SvmProofs.v ===== *)
(** * Theorems about the SVM guest

    Entering and leaving SVM operation, the state a guest starts with, INIT
    and SIPI, and the emulation of APIC writes. *)

From S2P Require Import Prelude External Machine Platform Paging Npts ApicId Segment Tables Host Vmcb Svm.

(** ** Runs of the monad over the world *)

Lemma on_cpu_bind {W A B : Type} {HC : HasCpu W} (x : M Machine A) (k : A -> M Machine B) w :
  on_cpu (bind x k) w = bind (on_cpu x) (fun a => on_cpu (k a)) w.
Proof.
  unfold on_cpu, bind. destruct (x (get_cpu w)) as [[a m]|]; [|done].
  rewrite get_put_cpu. destruct (k a m) as [[b m']|]; [|done]. by rewrite put_put_cpu.
Qed.

Lemma wrmsr_on {W : Type} {HC : HasCpu W} msr v w : is_Some (msrs (get_cpu w) !! msr) ->
  on_cpu (wrmsr msr v) w = Ok (tt, put_cpu (set_msrs <[msr := v]> (get_cpu w)) w).
Proof. intros [old H]. apply on_cpu_ok. by eapply wrmsr_some. Qed.

Lemma rdmsr_on {W : Type} {HC : HasCpu W} msr v w : msrs (get_cpu w) !! msr = Some v ->
  on_cpu (rdmsr msr) w = Ok (v, w).
Proof. intros H. apply on_cpu_reads. by apply rdmsr_some. Qed.

(** The same for the world of SVM. *)
Definition with_cpu (m : Machine) (w : SvmWorld) : SvmWorld :=
  mk_svm_world m (npt w) (activity_states w) (svm_apic w).

Lemma wrmsr_svm msr v (w : SvmWorld) : is_Some (msrs (svm_cpu w) !! msr) ->
  on_cpu (wrmsr msr v) w = Ok (tt, with_cpu (set_msrs <[msr := v]> (svm_cpu w)) w).
Proof. exact (wrmsr_on (HC := cpu_svm) msr v w). Qed.

Lemma rdmsr_svm msr v (w : SvmWorld) : msrs (svm_cpu w) !! msr = Some v ->
  on_cpu (rdmsr msr) w = Ok (v, w).
Proof. exact (rdmsr_on (HC := cpu_svm) msr v w). Qed.

(** ** Entering and leaving *)
Section Leaving.
Context {P : Profile} {BF : BitfieldMacro} {BT : BitFieldTrait} {XS : X86Segmentation} {XT : X86Task}
  {HV : HwVmsave} {X86 : X86Xcr0} {Proc : Type} {OPS : PlatformOps Proc}.
Context (uefi : bool) (vmcb_addr host_vmcb_addr host_state_addr : Z -> Z) (npt_addr : Z)
  (shared_host : SharedHostData).
#[local] Instance guest : Guest SvmWorld SvmGuest SvmEvent :=
  svm_guest uefi vmcb_addr host_vmcb_addr host_state_addr npt_addr shared_host.

(** The MSRs that leaving writes. *)
Definition leaving_msrs (m : Machine) : Prop :=
  is_Some (msrs m !! IA32_EFER) /\ is_Some (msrs m !! IA32_FS_BASE) /\
  is_Some (msrs m !! IA32_GS_BASE) /\ is_Some (msrs m !! SVM_MSR_VM_HSAVE_PA).

(** Enabling SVM sets EFER.SVME and keeps the previous EFER; disabling it
    later, whatever happened to EFER in between, writes that value back. *)
Lemma svm_enable_disable w efer vt w2 :
  msrs (svm_cpu w) !! IA32_EFER = Some efer -> is_Some (msrs (svm_cpu w2) !! IA32_EFER) ->
  exists vt' w1 w3, svm_enable vt w = Ok (vt', w1) /\ svm_disable vt' w2 = Ok (vt', w3) /\
    msrs (svm_cpu w1) !! IA32_EFER = Some (Z.lor efer EFER_SVME) /\
    msrs (svm_cpu w3) !! IA32_EFER = Some efer.
Proof.
  intros He H2. exists (mk_svm efer). unfold svm_enable, svm_disable.
  rewrite (bind_intro _ _ _ _ _ (rdmsr_svm IA32_EFER efer w He)).
  rewrite (bind_intro _ _ _ _ _ (wrmsr_svm IA32_EFER (Z.lor efer EFER_SVME) w ltac:(by eexists))).
  rewrite (bind_intro _ _ _ _ _ (wrmsr_svm IA32_EFER efer w2 H2)).
  eexists _, _. split; [reflexivity|]. split; [reflexivity|].
  cbn [svm_cpu with_cpu set_msrs msrs]. by rewrite !lookup_insert_eq.
Qed.

Lemma leaving_state w g :
  is_Some (msrs (svm_cpu w) !! IA32_EFER) -> is_Some (msrs (svm_cpu w) !! IA32_FS_BASE) ->
  is_Some (msrs (svm_cpu w) !! IA32_GS_BASE) ->
  exists m, svm_load_guest_cpu_state g w = Ok (tt, with_cpu m w) /\
    sys m CR0 = saved g s_cr0 /\ sys m CR3 = saved g s_cr3 /\ sys m CR4 = saved g s_cr4 /\
    sys m GDTR_BASE = saved g s_gdtr_base /\ sys m GDTR_LIMIT = wrap 16 (saved g s_gdtr_limit) /\
    sys m IDTR_BASE = saved g s_idtr_base /\ sys m IDTR_LIMIT = wrap 16 (saved g s_idtr_limit) /\
    msrs m = <[IA32_GS_BASE := saved g s_gs_base]> (<[IA32_FS_BASE := saved g s_fs_base]>
      (<[IA32_EFER := Z.land (saved g s_efer) (not_w 64 EFER_SVME)]> (msrs (svm_cpu w)))).
Proof.
  intros [e He] [f Hf] [gs Hgs]. eexists. split.
  - unfold svm_load_guest_cpu_state, on_cpu, bind, cr3_write, cr0_write, cr4_write, sys_write, modify, lgdt, lidt.
    unfold modify. cbn [get_cpu cpu_svm].
    rewrite (wrmsr_some IA32_EFER _ e) by exact He.
    rewrite (wrmsr_some IA32_FS_BASE _ f) by (cbn [set_msrs set_sys msrs]; by rewrite lookup_insert_ne).
    rewrite (wrmsr_some IA32_GS_BASE _ gs) by (cbn [set_msrs set_sys msrs]; by rewrite !lookup_insert_ne).
    reflexivity.
  - split_and!; reflexivity.
Qed.

(** C28: devirtualizing a processor gives it the guest's control registers,
    descriptor tables and FS and GS bases, clears the host state area, and
    resumes after the hypercall; but EFER becomes the value it had before SVM
    was enabled, not the guest's: [disable] overwrites what
    [load_guest_cpu_state] wrote. *)
Theorem svm_devirtualize next_rip g vt w : leaving_msrs (svm_cpu w) ->
  exists w', devirtualize_processor next_rip g vt w = Ok (fset RIP next_rip (svm_registers g), w') /\
    let m := svm_cpu w' in
    sys m CR0 = saved g s_cr0 /\ sys m CR3 = saved g s_cr3 /\ sys m CR4 = saved g s_cr4 /\
    sys m GDTR_BASE = saved g s_gdtr_base /\ sys m IDTR_BASE = saved g s_idtr_base /\
    msrs m !! IA32_FS_BASE = Some (saved g s_fs_base) /\ msrs m !! IA32_GS_BASE = Some (saved g s_gs_base) /\
    msrs m !! SVM_MSR_VM_HSAVE_PA = Some 0 /\ msrs m !! IA32_EFER = Some (saved_efer vt) /\
    npt w' = npt w /\ activity_states w' = activity_states w.
Proof.
  intros (He & Hf & Hgs & Hh). unfold devirtualize_processor.
  destruct (leaving_state w (set_reg RIP next_rip g) He Hf Hgs) as (m & Hl & H0 & H3 & H4 & Hgb & _ & Hib & _ & Hm).
  rewrite (bind_intro _ _ _ _ _ Hl). cbn [deactivate guest svm_guest]. unfold svm_deactivate.
  assert (is_Some (msrs m !! SVM_MSR_VM_HSAVE_PA)) as Hh' by (rewrite Hm; by rewrite !lookup_insert_ne).
  unfold bind at 1. unfold bind at 1. rewrite (wrmsr_svm SVM_MSR_VM_HSAVE_PA 0 (with_cpu m w) Hh').
  unfold ret at 1. cbn [disable svm_extension]. unfold svm_disable, bind at 1. unfold bind at 1.
  rewrite wrmsr_svm.
  2: { cbn [with_cpu svm_cpu set_msrs msrs]. rewrite lookup_insert_ne by done.
       rewrite Hm, !lookup_insert_ne by done. rewrite lookup_insert_eq. by eexists. }
  eexists. split; [reflexivity|]. cbn [with_cpu svm_cpu set_msrs msrs sys npt activity_states].
  split_and!; try done.
  - rewrite !lookup_insert_ne by done. rewrite Hm. rewrite lookup_insert_ne by done. by rewrite lookup_insert_eq.
  - rewrite !lookup_insert_ne by done. rewrite Hm. by rewrite lookup_insert_eq.
  - rewrite lookup_insert_ne by done. by rewrite lookup_insert_eq.
  - by rewrite lookup_insert_eq.
Qed.
End Leaving.

(** ** INIT and SIPI *)

(** The world after some steps of the other processors. *)
Definition run_steps (l : list (SvmWorld -> SvmWorld)) (w : SvmWorld) : SvmWorld :=
  foldl (fun w f => f w) w l.

(** The activity state of [id] stays WaitForSipi for [k] steps of the others
    and is the vector [v] after them. *)
Definition sipi_after (id : Z) (others : list (SvmWorld -> SvmWorld)) (w : SvmWorld) (k : nat) (v : Z) : Prop :=
  (k <= length others)%nat /\ v <> WaitForSipi /\
  activity_states (run_steps (take k others) w) !! Z.to_nat id = Some v /\
  forall j, (j < k)%nat -> activity_states (run_steps (take j others) w) !! Z.to_nat id = Some WaitForSipi.

(** The busy loop ends as soon as a vector arrives. *)
Lemma wait_for_sipi_returns id others w k v : sipi_after id others w k v ->
  wait_for_sipi id others w =
    Ok (v, set_activity (<[Z.to_nat id := Active]> (activity_states (run_steps (take k others) w)))
             (run_steps (take k others) w)).
Proof.
  revert w k. induction others as [|step others IH]; intros w k (Hk & Hv & Hat & Hbefore).
  - destruct k; [|cbn in Hk; lia]. cbn [take run_steps foldl] in *. cbn [wait_for_sipi].
    unfold bind at 1, activity_load. rewrite Hat. cbn [unwrap obind].
    rewrite (proj2 (Z.eqb_neq _ _) Hv). unfold activity_swap. rewrite Hat. done.
  - cbn [wait_for_sipi]. unfold bind at 1, activity_load. destruct k as [|k].
    + cbn [take run_steps foldl] in *. rewrite Hat. cbn [unwrap obind].
      rewrite (proj2 (Z.eqb_neq _ _) Hv). unfold activity_swap. rewrite Hat. done.
    + pose proof (Hbefore 0%nat ltac:(lia)) as H0. cbn [take run_steps foldl] in H0. rewrite H0.
      cbn [unwrap obind]. rewrite Z.eqb_refl. unfold bind, modify.
      rewrite (IH (step w) k); [done|]. split; [cbn in Hk; lia|]. split; [done|]. split; [exact Hat|].
      intros j Hj. exact (Hbefore (S j) ltac:(lia)).
Qed.

Section InitSipi.
Context {BT : BitFieldTrait}.

(** The world when the wait begins. *)
Definition init_world (id : Z) (w : SvmWorld) : SvmWorld :=
  mk_svm_world (set_sys (assign [(DR0, 0); (DR1, 0); (DR2, 0); (DR3, 0)]) (svm_cpu w)) (npt w)
    (<[Z.to_nat id := WaitForSipi]> (activity_states w)) (svm_apic w).

(** The registers INIT clears, and the fields of SS. *)
Definition init_cleared : list Reg := [RAX; RBX; RCX; RBP; RDI; RSI; R8; R9; R10; R11; R12; R13; R14; R15].
Definition ss_fields : list SaveField := [s_ss_selector; s_ss_attrib; s_ss_limit; s_ss_base].

Lemma handle_init_signal_ok g w :
  svm_id g <> 0 -> activity_states w !! Z.to_nat (svm_id g) = Some Active ->
  exists g1, handle_init_signal g w = Ok (g1, init_world (svm_id g) w) /\ svm_id g1 = svm_id g /\
    saved g1 s_cr3 = 0 /\ saved g1 s_cr4 = 0 /\ saved g1 s_efer = EFER_SVME /\
    Z.testbit (saved g1 s_cr0) 0 = false /\
    (forall r, r ∈ init_cleared -> svm_registers g1 r = 0) /\
    svm_registers g1 RDX = eax (hw_cpuid (svm_cpu w) 1 0) /\
    svm_registers g1 RSP = svm_registers g RSP /\ svm_registers g1 RFLAGS = svm_registers g RFLAGS /\
    (forall f, f ∈ ss_fields -> saved g1 f = saved g f).
Proof.
  intros Hid Hact. unfold handle_init_signal, massert.
  rewrite (proj2 (Z.eqb_neq _ _) Hid). cbn [negb oassert].
  unfold bind at 1, lift at 1. unfold bind at 1, activity_swap at 1. rewrite Hact. cbn [unwrap obind].
  rewrite Z.eqb_refl. cbn [oassert]. unfold bind at 1, lift at 1.
  eexists. split; [reflexivity|]. split_and!; try reflexivity.
  - change (Z.testbit (Z.lor (Z.lor (Z.shiftl 1 4) (Z.shiftl (b2z (get_bit (sys (svm_cpu w) CR0) 29)) 29))
      (Z.shiftl (b2z (get_bit (sys (svm_cpu w) CR0) 30)) 30)) 0 = false).
    rewrite !Z.lor_spec, !Z.shiftl_spec_low by done. done.
  - unfold init_cleared. list_cases; reflexivity.
  - unfold ss_fields. list_cases; reflexivity.
Qed.

Lemma handle_sipi_ok v g w :
  svm_id g <> 0 -> activity_states w !! Z.to_nat (svm_id g) = Some Active ->
  handle_sipi v g w =
    Ok (assign_registers [(RIP, 0)]
          (save [(s_cs_selector, wrap 16 (Z.shiftl v 8)); (s_cs_base, Z.shiftl v 12); (s_rip, 0)] g), w).
Proof.
  intros Hid Hact. unfold handle_sipi, massert. rewrite (proj2 (Z.eqb_neq _ _) Hid). cbn [negb oassert].
  unfold bind at 1, lift at 1. unfold bind at 1, activity_load. rewrite Hact. cbn [unwrap obind].
  by rewrite Z.eqb_refl.
Qed.

(** C10: an INIT sent to an active application processor, followed by a SIPI:
    the exit is handled, the processor is active again, and the guest starts
    in real mode at vector * 4096 with its general registers as INIT leaves
    them.  Two things INIT should reset are not: SS keeps its old contents
    (DS is written twice instead), and the next VMRUN starts with the RSP and
    RFLAGS from before, since [run] copies them over the VMCB. *)
Theorem svm_init_sipi others g w k v :
  svm_id g <> 0 -> activity_states w !! Z.to_nat (svm_id g) = Some Active ->
  sipi_after (svm_id g) others (init_world (svm_id g) w) k v -> 0 <= v < 256 ->
  exists g' w', handle_security_exception others g w = Ok (g', w') /\
    activity_states w' !! Z.to_nat (svm_id g) = Some Active /\
    saved (svm_entry g') s_rip = 0 /\ saved g' s_cs_selector = v * 2 ^ 8 /\ saved g' s_cs_base = v * 2 ^ 12 /\
    saved g' s_cr3 = 0 /\ saved g' s_cr4 = 0 /\ saved g' s_efer = EFER_SVME /\ Z.testbit (saved g' s_cr0) 0 = false /\
    (forall r, r ∈ init_cleared -> svm_registers g' r = 0) /\
    svm_registers g' RDX = eax (hw_cpuid (svm_cpu w) 1 0) /\
    (forall f, f ∈ ss_fields -> saved g' f = saved g f) /\
    saved (svm_entry g') s_rsp = svm_registers g RSP /\ saved (svm_entry g') s_rflags = svm_registers g RFLAGS.
Proof.
  intros Hid Hact Hsipi Hv.
  destruct (handle_init_signal_ok g w Hid Hact) as (g1 & Hinit & Hid1 & H3 & H4 & He & H0 & Hr & Hd & Hsp & Hfl & Hss).
  unfold handle_security_exception, massert. rewrite (proj2 (Z.eqb_neq _ _) Hid). cbn [negb oassert].
  unfold bind at 1, lift at 1. rewrite (bind_intro _ _ _ _ _ Hinit). rewrite Hid1.
  rewrite (proj2 (Z.eqb_neq _ _) Hid). cbn [negb oassert]. unfold bind at 2, lift at 1.
  rewrite (bind_intro _ _ _ _ _ (wait_for_sipi_returns _ _ _ _ _ Hsipi)).
  destruct Hsipi as (_ & _ & Hat & _). apply lookup_lt_Some in Hat.
  rewrite handle_sipi_ok; [|by rewrite Hid1|].
  2: { rewrite Hid1. cbn [activity_states set_activity]. by apply list_lookup_insert_eq. }
  eexists _, _. split; [reflexivity|]. split; [cbn [activity_states set_activity]; by apply list_lookup_insert_eq|].
  split; [reflexivity|]. split_and!; try assumption.
  - change (wrap 16 (Z.shiftl v 8) = v * 2 ^ 8). rewrite Z.shiftl_mul_pow2 by done.
    apply wrap_small. unfold in_width. lia.
  - change (Z.shiftl v 12 = v * 2 ^ 12). by rewrite Z.shiftl_mul_pow2.
  - unfold init_cleared. list_cases.
    all: match goal with |- svm_registers _ ?r = 0 => change (svm_registers g1 r = 0) end; apply Hr; in_list.
  - unfold ss_fields. list_cases.
    all: match goal with |- saved _ ?f = _ => change (saved g1 f = saved g f) end; apply Hss; in_list.
Qed.
End InitSipi.

(** ** APIC writes *)
Section ApicWrites.
Context {P : Profile} {BF : BitfieldMacro} {BT : BitFieldTrait}.

(** The nested page table entry of the APIC page, with its write permission
    switched. *)
Definition apic_page_writable (b : bool) (apic_base : Z) (ps : PagingStructuresRaw) : PagingStructuresRaw :=
  mk_ps (pml4 ps) (pdpt ps) (pd ps) (pt ps)
    (alter (set_writable b) (Z.to_nat (field apic_base 12 9)) (pt_apic ps)).

Lemma apic_page_index raw : in_width 64 raw ->
  get_bits (Z.land raw (not_w 64 0xfff)) 12 20 = field raw 12 9.
Proof.
  intros Hraw. rewrite get_bits_spec by (done || apply Z.land_nonneg; left; apply Hraw).
  unfold not_w, field. change (2 ^ 64 - 1 - 0xfff) with (Z.shiftl (Z.ones 52) 12).
  change (20 - 12 + 1) with 9. bitblast.
Qed.

Lemma intercept_apic_write_ok b g w raw :
  msrs (svm_cpu w) !! IA32_APIC_BASE = Some raw -> in_width 64 raw ->
  intercept_apic_write b g w =
    Ok (control [(c_tlb_control, TlbControl_value FlushAll)] g, set_npt (apic_page_writable (negb b) raw (npt w)) w).
Proof.
  intros Hraw Hw. unfold intercept_apic_write. rewrite (bind_intro _ _ _ _ _ (rdmsr_svm IA32_APIC_BASE raw w Hraw)).
  rewrite apic_page_index by done. done.
Qed.

(** What the fault is about: the instruction is one the source knows. *)
Definition faulting_instruction (g : SvmGuest) : list Z :=
  take (Z.to_nat (controls g c_num_of_bytes_fetched)) (guest_instruction_bytes (vmcb g)).

(** The guest and the world after the interception was possibly stopped. *)
Definition after_intercept (raw : Z) (g : SvmGuest) (w : SvmWorld) : SvmGuest * SvmWorld :=
  if svm_id g =? PROCESSOR_COUNT (svm_apic w) - 1 then
    (control [(c_tlb_control, TlbControl_value FlushAll)] g, set_npt (apic_page_writable true raw (npt w)) w)
  else (g, w).

Lemma npf_prefix g w raw value len :
  msrs (svm_cpu w) !! IA32_APIC_BASE = Some raw -> in_width 64 raw ->
  0 < PROCESSOR_COUNT (svm_apic w) < 2 ^ 64 ->
  decode_apic_write (faulting_instruction g) (svm_registers g) = Some (value, len) ->
  in_width 64 (svm_registers g RIP + len) ->
  handle_nested_page_fault g w =
    let '(g1, w1) := after_intercept raw g w in
    let g2 := assign_registers [(RIP, svm_registers g RIP + len)] g1 in
    let gpa := controls g c_exit_info2 in
    ((if negb (get_bits value 8 10 =? 6) || negb (Z.land gpa 0xfff =? 0x300)
      then apic_write gpa value else emulate_sipi value gpa) ;;! ret g2) w1.
Proof.
  intros Hraw Hw Hn Hdec Hrip. unfold handle_nested_page_fault.
  unfold bind at 1, gets at 1. rewrite sub_w_small by (unfold in_width; lia).
  unfold bind at 1, lift at 1. unfold after_intercept.
  assert (forall g1 w1, svm_registers g1 = svm_registers g -> guest_instruction_bytes (vmcb g1) = guest_instruction_bytes (vmcb g) ->
    controls g1 c_num_of_bytes_fetched = controls g c_num_of_bytes_fetched -> controls g1 c_exit_info2 = controls g c_exit_info2 ->
    (let instructions := take (Z.to_nat (controls g1 c_num_of_bytes_fetched)) (guest_instruction_bytes (vmcb g1)) in
     let! (value, instr_len) := lift (unwrap (decode_apic_write instructions (svm_registers g1))
                                     "Unhandled APIC access instructions") in
     let! rip := lift (add_w 64 (svm_registers g1 RIP) instr_len) in
     let g := assign_registers [(RIP, rip)] g1 in
     let message_type := get_bits value 8 10 in
     let faulting_gpa := controls g c_exit_info2 in
     let apic_register := Z.land faulting_gpa 0xfff in
     (if negb (message_type =? 6) || negb (apic_register =? 0x300)
      then apic_write faulting_gpa value
      else emulate_sipi value faulting_gpa) ;;!
     ret g) w1 =
    ((if negb (get_bits value 8 10 =? 6) || negb (Z.land (controls g c_exit_info2) 0xfff =? 0x300)
      then apic_write (controls g c_exit_info2) value else emulate_sipi value (controls g c_exit_info2)) ;;!
     ret (assign_registers [(RIP, svm_registers g RIP + len)] g1)) w1) as Hrest.
  { intros g1 w1 Hr Hb Hc He. cbv zeta. rewrite Hc, Hb, Hr. fold (faulting_instruction g). rewrite Hdec.
    unfold bind at 1, lift at 1. cbn [unwrap]. rewrite add_w_small by done. unfold bind at 1, lift at 1.
    change (controls (assign_registers ?l g1) c_exit_info2) with (controls g1 c_exit_info2). by rewrite He. }
  destruct (svm_id g =? _).
  - rewrite (bind_intro _ _ _ _ _ (intercept_apic_write_ok false g w raw Hraw Hw)).
    cbn [negb]. cbv beta zeta. rewrite Hrest by reflexivity. done.
  - unfold bind at 1, ret at 1. cbv beta zeta. rewrite Hrest by reflexivity. done.
Qed.


(** C22: a Startup IPI (physical destination, no shorthand, a vector other than
    0xff, to a known APIC id) is not sent: the APIC is not written; the vector
    is handed to the target when the target is waiting for a SIPI, and is lost
    otherwise. *)
Theorem sipi_emulated g w raw value len target :
  msrs (svm_cpu w) !! IA32_APIC_BASE = Some raw -> in_width 64 raw ->
  0 < PROCESSOR_COUNT (svm_apic w) < 2 ^ 64 -> in_width 32 value ->
  decode_apic_write (faulting_instruction g) (svm_registers g) = Some (value, len) ->
  in_width 64 (svm_registers g RIP + len) ->
  let gpa := controls g c_exit_info2 in
  field value 8 3 = 6 -> Z.land gpa 0xfff = 0x300 -> Z.testbit value 11 = false -> field value 18 2 = 0 ->
  field value 0 8 <> 0xff ->
  let icr_high := mmio (svm_cpu w) (Z.lor (Z.land gpa (not_w 64 0xfff)) 0x310) in
  in_width 32 icr_high ->
  APIC_ID_MAP (svm_apic w) !! field icr_high 24 8 = Some target ->
  (Z.to_nat target < length (activity_states w))%nat ->
  exists g' w', handle_nested_page_fault g w = Ok (g', w') /\
    svm_cpu w' = svm_cpu w /\ svm_registers g' RIP = svm_registers g RIP + len /\
    activity_states w' =
      (if decide (activity_states w !! Z.to_nat target = Some WaitForSipi)
       then <[Z.to_nat target := field value 0 8]> (activity_states w) else activity_states w).
Proof.
  intros Hraw Hw Hn Hval Hdec Hrip gpa Hmsg Hreg Hbit Hshort Hvec icr_high Hicr Htarget Hlen.
  assert (forall lo hi, 0 <= lo <= hi -> get_bits value lo hi = field value lo (hi - lo + 1)) as Hgb
    by (intros; apply get_bits_spec; [done|apply Hval]).
  rewrite (npf_prefix g w raw value len) by done. cbv zeta. fold gpa.
  rewrite (Hgb 8 10) by done. change (10 - 8 + 1) with 3. rewrite Hmsg, Hreg, !Z.eqb_refl. cbn [negb orb].
  set (rip := svm_registers g RIP + len).
  assert (forall w1, svm_cpu w1 = svm_cpu w -> svm_apic w1 = svm_apic w -> activity_states w1 = activity_states w ->
    emulate_sipi value gpa w1 = Ok (tt, if decide (activity_states w !! Z.to_nat target = Some WaitForSipi)
      then set_activity (<[Z.to_nat target := field value 0 8]> (activity_states w)) w1 else w1)) as He.
  { intros w1 Hcpu Hapic Hacts. unfold emulate_sipi, massert.
    rewrite get_bit_spec, Hbit by (try done; apply Hval). cbn [negb oassert]. unfold bind at 1, lift at 1.
    rewrite (Hgb 18 19) by done. change (19 - 18 + 1) with 2. rewrite Hshort. cbn [Z.eqb oassert].
    unfold bind at 1, lift at 1. unfold bind at 1, on_cpu, gets at 1. cbn [get_cpu cpu_svm]. rewrite Hcpu.
    fold icr_high. change (put_cpu (svm_cpu w) w1) with (with_cpu (svm_cpu w) w1).
    assert (with_cpu (svm_cpu w) w1 = w1) as -> by (destruct w1; cbn in *; by subst).
    rewrite (Hgb 0 7), (get_bits_spec icr_high) by (try done; apply Hicr).
    change (7 - 0 + 1) with 8. change (31 - 24 + 1) with 8. fold (field icr_high 24 8).
    rewrite !(wrap_small 8) by (apply field_range; done).
    unfold bind at 1, gets at 1. unfold processor_id_from. rewrite Hapic, Htarget.
    unfold bind at 1, lift at 1. cbn [unwrap]. rewrite (proj2 (Z.eqb_neq _ _)) by exact Hvec.
    cbn [negb oassert]. unfold bind at 1, lift at 1. unfold activity_compare_exchange. rewrite Hacts.
    destruct (activity_states w !! Z.to_nat target) as [s|] eqn:Hs.
    - cbn [unwrap obind]. destruct (Z.eqb_spec s WaitForSipi) as [->|Hne].
      + by rewrite decide_True.
      + rewrite decide_False; [done|congruence].
    - apply lookup_ge_None in Hs. lia. }
  unfold after_intercept. destruct (svm_id g =? _).
  - unfold bind at 1. rewrite He by reflexivity. unfold ret. eexists _, _. split; [reflexivity|].
    split_and!; [by destruct (decide _)|reflexivity|by destruct (decide _)].
  - unfold bind at 1. rewrite He by reflexivity. unfold ret. eexists _, _. split; [reflexivity|].
    split_and!; [by destruct (decide _)|reflexivity|by destruct (decide _)].
Qed.
End ApicWrites.

(** ** Initialization *)
Section Initialization.
Context {P : Profile} {BF : BitfieldMacro} {BT : BitFieldTrait} {XS : X86Segmentation} {XT : X86Task}
  {HV : HwVmsave} {Proc : Type} {OPS : PlatformOps Proc}.
Context (npt_addr : Z) (shared_host : SharedHostData).

(** The processor at the time a guest is created from it. *)
Record ready (m : Machine) (vm_cr efer pat : Z) : Prop := {
  ready_vm_cr : msrs m !! SVM_MSR_VM_CR = Some vm_cr;
  ready_efer : msrs m !! IA32_EFER = Some efer;
  ready_pat : msrs m !! IA32_PAT = Some pat;
  ready_mem : forall a, in_width 64 (mem m a);
  ready_selectors : forall r, r ∈ [ES; CS; SS; DS] -> in_width 16 (sys m r);
  ready_gdt : 0 <= sys m GDTR_BASE /\ sys m GDTR_BASE + 0x1_0000 <= 2 ^ 64;
}.

Lemma attributes_ok m sel : (forall a, in_width 64 (mem m a)) -> in_width 16 sel ->
  0 <= sys m GDTR_BASE -> sys m GDTR_BASE + 0x1_0000 <= 2 ^ 64 ->
  get_segment_access_right (mem m) (sys m GDTR_BASE) sel =
    Ok (segment_attributes (mem m) (sys m GDTR_BASE) sel) /\
  get_segment_limit (mem m) (sys m GDTR_BASE) sel =
    Ok (segment_limit (mem m) (sys m GDTR_BASE) sel).
Proof. intros. by apply segment_attributes_ok. Qed.

Lemma initialize_control_ok g w vm_cr : msrs (svm_cpu w) !! SVM_MSR_VM_CR = Some vm_cr ->
  exists g', initialize_control npt_addr g w =
      Ok (g', with_cpu (set_msrs <[SVM_MSR_VM_CR := Z.lor vm_cr R_INIT]> (svm_cpu w)) w) /\
    svm_id g' = svm_id g /\ svm_registers g' = svm_registers g /\
    state_save_area (vmcb g') = state_save_area (vmcb g) /\
    controls g' c_intercept_misc1 = SVM_INTERCEPT_MISC1_CPUID /\
    controls g' c_intercept_misc2 = Z.lor SVM_INTERCEPT_MISC2_VMRUN SVM_INTERCEPT_MISC2_VMMCALL /\
    controls g' c_intercept_exception = SECURITY_EXCEPTION /\
    controls g' c_guest_asid = 1 /\ controls g' c_np_enable = 1 /\ controls g' c_ncr3 = pa npt_addr.
Proof.
  intros Hcr. unfold initialize_control. rewrite (bind_intro _ _ _ _ _ (rdmsr_svm SVM_MSR_VM_CR vm_cr w Hcr)).
  rewrite (bind_intro _ _ _ _ _ (wrmsr_svm SVM_MSR_VM_CR (Z.lor vm_cr R_INIT) w ltac:(by eexists))).
  eexists. split; [reflexivity|]. split_and!; reflexivity.
Qed.

(** The fields of the guest that are copied from the processor. *)
Definition snapshot (m : Machine) (efer pat : Z) (r : Registers) (f : SaveField -> Z) : Prop :=
  f s_es_selector = sys m ES /\ f s_cs_selector = sys m CS /\ f s_ss_selector = sys m SS /\
  f s_ds_selector = sys m DS /\
  f s_es_attrib = segment_attributes (mem m) (sys m GDTR_BASE) (sys m ES) /\
  f s_cs_attrib = segment_attributes (mem m) (sys m GDTR_BASE) (sys m CS) /\
  f s_ss_attrib = segment_attributes (mem m) (sys m GDTR_BASE) (sys m SS) /\
  f s_ds_attrib = segment_attributes (mem m) (sys m GDTR_BASE) (sys m DS) /\
  f s_es_limit = segment_limit (mem m) (sys m GDTR_BASE) (sys m ES) /\
  f s_cs_limit = segment_limit (mem m) (sys m GDTR_BASE) (sys m CS) /\
  f s_ss_limit = segment_limit (mem m) (sys m GDTR_BASE) (sys m SS) /\
  f s_ds_limit = segment_limit (mem m) (sys m GDTR_BASE) (sys m DS) /\
  f s_gdtr_base = sys m GDTR_BASE /\ f s_gdtr_limit = sys m GDTR_LIMIT /\
  f s_idtr_base = sys m IDTR_BASE /\ f s_idtr_limit = sys m IDTR_LIMIT /\
  f s_efer = Z.lor efer EFER_SVME /\ f s_cr0 = sys m CR0 /\ f s_cr3 = sys m CR3 /\ f s_cr4 = sys m CR4 /\
  f s_gpat = pat /\ f s_rip = r RIP /\ f s_rsp = r RSP /\ f s_rflags = r RFLAGS /\ f s_rax = r RAX /\
  forall x, x ∈ vmsave_fields -> f x = hw_vmsave m x.

Lemma assign_in {F : Type} {Fdec : EqDecision F} (h : F -> Z) (l : list F) (s : F -> Z) f :
  f ∈ l -> assign (map (fun f => (f, h f)) l) s f = h f.
Proof.
  revert s. induction l as [|g l IH]; intros s Hf; [by apply elem_of_nil in Hf|].
  cbn [map]. change (assign ((g, h g) :: map (fun f => (f, h f)) l) s f)
    with (assign (map (fun f => (f, h f)) l) (fset g (h g) s) f).
  destruct (decide (f ∈ l)) as [Hin|Hin]; [by apply IH|].
  apply elem_of_cons in Hf as [->|Hf]; [|done].
  rewrite assign_other by (rewrite fmap_map, map_id; done). apply fset_same.
Qed.

Lemma initialize_guest_ok g w vm_cr efer pat : ready (svm_cpu w) vm_cr efer pat ->
  exists g', initialize_guest g w = Ok (g', w) /\ svm_id g' = svm_id g /\ svm_registers g' = svm_registers g /\
    control_area (vmcb g') = control_area (vmcb g) /\
    snapshot (svm_cpu w) efer pat (svm_registers g) (state_save_area (vmcb g')).
Proof.
  intros [_ He Hp Hmem Hsel [Hg0 Hg1]]. unfold initialize_guest.
  set (m := svm_cpu w) in *. unfold snapshot.
  destruct (attributes_ok m (sys m ES) Hmem ltac:(apply Hsel; in_list) Hg0 Hg1) as [Ae Le].
  destruct (attributes_ok m (sys m CS) Hmem ltac:(apply Hsel; in_list) Hg0 Hg1) as [Ac Lc].
  destruct (attributes_ok m (sys m SS) Hmem ltac:(apply Hsel; in_list) Hg0 Hg1) as [As Ls].
  destruct (attributes_ok m (sys m DS) Hmem ltac:(apply Hsel; in_list) Hg0 Hg1) as [Ad Ld].
  repeat match goal with
  | H : get_segment_access_right _ _ _ = Ok ?x |- _ => is_var x; fail 1
  | H : get_segment_access_right _ _ _ = Ok ?x |- _ => generalize dependent x; intros
  | H : get_segment_limit _ _ _ = Ok (segment_limit ?a ?b ?c) |- _ =>
      generalize dependent (segment_limit a b c); intros
  end.
  rewrite (bind_intro _ _ _ _ _ (on_cpu_reads (HC := cpu_svm) sidt w _ eq_refl)).
  rewrite (bind_intro _ _ _ _ _ (on_cpu_reads (HC := cpu_svm) sgdt w _ eq_refl)).
  rewrite bind_gets. cbn [get_cpu cpu_svm dtp_base dtp_limit]. fold m.
  rewrite Ae, bind_lift_ok, Ac, bind_lift_ok, As, bind_lift_ok, Ad, bind_lift_ok.
  rewrite Le, bind_lift_ok, Lc, bind_lift_ok, Ls, bind_lift_ok, Ld, bind_lift_ok.
  rewrite (bind_intro _ _ _ _ _ (rdmsr_svm IA32_EFER efer w He)).
  rewrite (bind_intro _ _ _ _ _ (on_cpu_reads (HC := cpu_svm) cr0 w _ eq_refl)).
  rewrite (bind_intro _ _ _ _ _ (on_cpu_reads (HC := cpu_svm) cr3 w _ eq_refl)).
  rewrite (bind_intro _ _ _ _ _ (on_cpu_reads (HC := cpu_svm) cr4 w _ eq_refl)).
  rewrite (bind_intro _ _ _ _ _ (rdmsr_svm IA32_PAT pat w Hp)), bind_gets.
  eexists. split; [reflexivity|].
  split; [reflexivity|]. split; [reflexivity|]. split; [reflexivity|].
  split_and!; try reflexivity.
  intros x Hx. exact (assign_in (hw_vmsave m) vmsave_fields _ x Hx).
Qed.
(** The shared host data can be applied on processor [id]. *)
Definition host_ready (id : Z) (m : Machine) : Prop :=
  (forall gdts, host_gdts shared_host = Some gdts ->
     is_Some (gdts !! Z.to_nat id) /\ sys m TR = 0) /\
  (forall addr idt, host_idt shared_host = Some (addr, idt) -> length idt = 256%nat).

(** The system registers of the host. *)
Definition host_registers (id : Z) (m m' : Machine) : Prop :=
  sys m' CR3 = match host_pt shared_host with Some pml4 => pa pml4 | None => sys m CR3 end /\
  sys m' GDTR_BASE = match host_gdts shared_host with
                     | Some gdts => match gdts !! Z.to_nat id with Some (addr, _) => addr | None => sys m GDTR_BASE end
                     | None => sys m GDTR_BASE
                     end /\
  sys m' IDTR_BASE = match host_idt shared_host with Some (addr, _) => addr | None => sys m IDTR_BASE end /\
  sys m' CR0 = sys m CR0 /\ sys m' CR4 = sys m CR4 /\ msrs m' = msrs m.

Lemma idtr_256 addr idt : length idt = 256%nat -> idtr addr idt = Ok (mk_dtp addr 0xfff).
Proof. intros H. unfold idtr. by rewrite H. Qed.

Lemma apply_ok addr g m : sys m TR = 0 ->
  exists m', apply addr g m = Ok (ROk tt, m') /\ sys m' GDTR_BASE = addr /\
    (forall r, r ∉ [GDTR_BASE; GDTR_LIMIT; TR] -> sys m' r = sys m r) /\ msrs m' = msrs m.
Proof.
  intros Htr. unfold apply. unfold tr, sys_read. rewrite bind_gets, Htr. cbn [Z.eqb negb].
  unfold lgdt. rewrite bind_modify. cbn [dtp_base dtp_limit].
  assert (forall r, r ∉ [GDTR_BASE; GDTR_LIMIT; TR] -> r <> GDTR_BASE /\ r <> GDTR_LIMIT /\ r <> TR) as Hne.
  { intros r Hr. rewrite !not_elem_of_cons in Hr. tauto. }
  destruct (tr_sel g) as [t|]; [unfold sys_write; rewrite bind_modify|];
    (eexists; split; [reflexivity|]; split; [reflexivity|]; split; [|reflexivity]);
    intros r (H1 & H2 & H3)%Hne; cbn [sys set_sys assign foldl]; by rewrite !fset_other by congruence.
Qed.

(** The host GDT, if there is one for the processor. *)
Lemma host_gdt_ok g w m1 :
  (forall gdts, host_gdts shared_host = Some gdts -> is_Some (gdts !! Z.to_nat (svm_id g)) /\ sys m1 TR = 0) ->
  exists m2, (match host_gdts shared_host with
     | Some gdts =>
         let! (addr, gdt) := lift (unwrap (gdts !! Z.to_nat (svm_id g)) "index out of bounds") in
         let! r := on_cpu (apply addr gdt) in
         match r with ROk _ => ret tt | RErr _ => mpanic "apply().unwrap()" end
     | None => ret tt
     end) (with_cpu m1 w) = Ok (tt, with_cpu m2 w) /\
     sys m2 GDTR_BASE = match host_gdts shared_host with
                     | Some gdts => match gdts !! Z.to_nat (svm_id g) with Some (addr, _) => addr | None => sys m1 GDTR_BASE end
                     | None => sys m1 GDTR_BASE
                     end /\
     (forall r, r ∉ [GDTR_BASE; GDTR_LIMIT; TR] -> sys m2 r = sys m1 r) /\ msrs m2 = msrs m1.
Proof.
  intros Hg. destruct (host_gdts shared_host) as [gdts|] eqn:Hgdts; [|by exists m1].
  destruct (Hg gdts eq_refl) as [[[addr gdt] Hgdt] Htr]. rewrite Hgdt. cbn [unwrap].
  rewrite bind_lift_ok. destruct (apply_ok addr gdt m1 Htr) as (m2 & Ha & Hrest).
  exists m2. split; [|exact Hrest].
  by rewrite (bind_intro _ _ _ _ _ (on_cpu_ok (HC := cpu_svm) (apply addr gdt) (with_cpu m1 w) _ _ Ha)).
Qed.

Lemma initialize_host_ok g w : host_ready (svm_id g) (svm_cpu w) ->
  exists m, initialize_host shared_host g w = Ok (set_host_vmcb (vmsave m) g, with_cpu m w) /\
    host_registers (svm_id g) (svm_cpu w) m.
Proof.
  intros [Hg Hi]. unfold initialize_host, host_registers.
  set (m1 := match host_pt shared_host with
             | Some pml4 => set_sys (fset CR3 (pa pml4)) (svm_cpu w)
             | None => svm_cpu w
             end).
  rewrite (bind_intro _ _ w tt (with_cpu m1 w)).
  2: { unfold m1. destruct (host_pt shared_host); [done|]. by destruct w. }
  destruct (host_gdt_ok g w m1) as (m2 & Hm2 & Hb2 & Hs2 & Hr2).
  { intros gdts Hgdts. destruct (Hg gdts Hgdts) as [Hin Htr]. split; [exact Hin|]. unfold m1. by destruct (host_pt shared_host). }
  rewrite (bind_intro _ _ _ _ _ Hm2).
  set (m3 := match host_idt shared_host with
             | Some (addr, _) => set_sys (assign [(IDTR_BASE, addr); (IDTR_LIMIT, 0xfff)]) m2
             | None => m2
             end).
  rewrite (bind_intro _ _ (with_cpu m2 w) tt (with_cpu m3 w)).
  2: { unfold m3. destruct (host_idt shared_host) as [[addr idt]|]; [|done].
       rewrite (idtr_256 addr idt (Hi addr idt eq_refl)), bind_lift_ok. done. }
  rewrite bind_gets. exists m3. split; [done|].
  assert (forall r, r ∉ [IDTR_BASE; IDTR_LIMIT] -> sys m3 r = sys m2 r) as Hs3.
  { intros r Hr. unfold m3. rewrite !not_elem_of_cons in Hr. destruct (host_idt shared_host) as [[addr idt]|]; [|done].
    cbn [sys set_sys assign foldl]. by rewrite !fset_other by (apply not_eq_sym; tauto). }
  assert (forall r, r <> CR3 -> sys m1 r = sys (svm_cpu w) r) as Hs1.
  { intros r Hr. unfold m1. destruct (host_pt shared_host); [|done]. cbn [sys set_sys].
    by rewrite fset_other by congruence. }
  split_and!.
  - rewrite Hs3, Hs2 by notin.
    unfold m1. by destruct (host_pt shared_host).
  - rewrite Hs3 by notin.
    rewrite Hb2, Hs1 by done. done.
  - unfold m3. destruct (host_idt shared_host) as [[addr idt]|]; [done|].
    rewrite Hs2 by notin. by apply Hs1.
  - rewrite Hs3, Hs2 by notin. by apply Hs1.
  - rewrite Hs3, Hs2 by notin. by apply Hs1.
  - transitivity (msrs m2); [unfold m3; by destruct (host_idt shared_host) as [[]|]|]. rewrite Hr2.
    unfold m1. by destruct (host_pt shared_host).
Qed.

(** C16: initialization makes the guest a copy of the processor as it runs:
    its selectors, segment attributes and limits, descriptor tables, control
    registers, EFER (with SVME), PAT, and the captured RIP, RSP, RFLAGS and
    RAX; CPUID, VMRUN, VMMCALL and #SX are intercepted, nested paging is on
    with the shared tables, INIT is redirected to #SX; and the processor is
    switched to the host's page tables, GDT and IDT. *)
Theorem svm_initialize_spec registers g w vm_cr efer pat :
  ready (svm_cpu w) vm_cr efer pat -> host_ready (svm_id g) (svm_cpu w) ->
  exists g' w', svm_initialize npt_addr shared_host registers g w = Ok (g', w') /\
    svm_registers g' = registers /\
    controls g' c_intercept_misc1 = SVM_INTERCEPT_MISC1_CPUID /\
    controls g' c_intercept_misc2 = Z.lor SVM_INTERCEPT_MISC2_VMRUN SVM_INTERCEPT_MISC2_VMMCALL /\
    controls g' c_intercept_exception = SECURITY_EXCEPTION /\
    controls g' c_guest_asid <> 0 /\ controls g' c_np_enable = 1 /\ controls g' c_ncr3 = pa npt_addr /\
    (exists m1, sys m1 = sys (svm_cpu w) /\ mem m1 = mem (svm_cpu w) /\
       msrs m1 = <[SVM_MSR_VM_CR := Z.lor vm_cr R_INIT]> (msrs (svm_cpu w)) /\
       snapshot m1 efer pat registers (saved g') /\
       host_registers (svm_id g) m1 (svm_cpu w')).
Proof.
  intros Hready Hhost. unfold svm_initialize.
  set (g0 := set_svm_registers registers g). set (m1 := set_msrs <[SVM_MSR_VM_CR := Z.lor vm_cr R_INIT]> (svm_cpu w)).
  destruct (initialize_control_ok g0 w vm_cr (ready_vm_cr _ _ _ _ Hready))
    as (g1 & H1 & Hid1 & Hr1 & _ & Hc1 & Hc2 & Hc3 & Hc4 & Hc5 & Hc6).
  rewrite (bind_intro _ _ _ _ _ H1). fold m1.
  assert (ready (svm_cpu (with_cpu m1 w)) (Z.lor vm_cr R_INIT) efer pat) as Hready1.
  { destruct Hready as [Ha Hb Hc Hd He Hf]. split; try assumption.
    - cbn [svm_cpu with_cpu m1 set_msrs msrs]. apply lookup_insert_eq.
    - cbn [svm_cpu with_cpu m1 set_msrs msrs]. by rewrite lookup_insert_ne.
    - cbn [svm_cpu with_cpu m1 set_msrs msrs]. by rewrite lookup_insert_ne. }
  destruct (initialize_guest_ok g1 _ _ _ _ Hready1) as (g2 & H2 & Hid2 & Hr2 & Hctl2 & Hsnap).
  rewrite (bind_intro _ _ _ _ _ H2).
  destruct (initialize_host_ok g2 (with_cpu m1 w)) as (m3 & H3 & Hh3).
  { rewrite Hid2, Hid1. exact Hhost. }
  rewrite H3. eexists _, _. split; [reflexivity|].
  change (svm_registers (set_host_vmcb _ g2)) with (svm_registers g2).
  change (controls (set_host_vmcb _ g2)) with (control_area (vmcb g2)). rewrite Hctl2.
  fold (controls g1). rewrite Hr2, Hr1. split_and!; try done; [change (controls g1 c_guest_asid <> 0); by rewrite Hc4|].
  exists m1. split_and!; try done.
  - change (snapshot m1 efer pat registers (state_save_area (vmcb g2))).
    replace registers with (svm_registers g1) by (by rewrite Hr1). exact Hsnap.
  - rewrite Hid2, Hid1 in Hh3. exact Hh3.
Qed.
End Initialization.

(** ** Witnesses: a system of two processors, seen from the second *)
Module SvmExample.
Import Reference.
#[local] Instance checked : Profile := true.
#[local] Existing Instance PagingExample.ops.
#[local] Existing Instance TablesExample.x86_task.
#[local] Instance no_hidden_parts : HwVmsave := { hw_vmsave _ _ := 0 }.

(** A 64-bit code segment is the only descriptor of the GDT at 0x1000. *)
Definition flat_gdt (a : Z) : Z := if a =? 0x1008 then 0x00af9b000000ffff else 0.
Definition long_mode (r : SysReg) : Z :=
  match r with
  | CS => 0x8
  | GDTR_BASE => 0x1000
  | GDTR_LIMIT => 0xf
  | CR0 => 0x8000_0033
  | CR3 => 0x5000
  | CR4 => 0x668
  | _ => 0
  end.

Definition cpu1 (mmio_value : Z) : Machine :=
  mk_machine long_mode
    (list_to_map [(IA32_EFER, 0xd01); (IA32_FS_BASE, 0); (IA32_GS_BASE, 0x7000); (IA32_PAT, 0x0007040600070406);
                  (IA32_APIC_BASE, 0xfee0_0800); (SVM_MSR_VM_CR, 0); (SVM_MSR_VM_HSAVE_PA, 0x9000)])
    flat_gdt (fun _ => mmio_value) VmxOff ∅ (fun _ _ => mk_cpuid 0x830f10 0 0 0)
    (fun _ => (0, 0)) (fun _ => (0, 0)).

Definition apic2 : ApicState := mk_apic {[ 0 := 0; 4 := 1 ]} 2.
Definition world (mmio_value : Z) (states : list Z) : SvmWorld :=
  mk_svm_world (cpu1 mmio_value) (mk_ps [] [] [] [] (replicate 512 0)) states apic2.

(** A guest of processor [id] stopped at [mov [rax+300h], edx] with the given
    EDX, for an access to the interrupt command register. *)
Definition apic_guest (id edx : Z) : SvmGuest :=
  mk_svm_guest id (assign [(RDX, edx); (RIP, 0x1000); (RSP, 0x8000)] (fun _ => 0))
    (mk_vmcb (assign [(c_num_of_bytes_fetched, 15); (c_exit_info2, 0xfee0_0300)] (fun _ => 0))
       (assign [(s_cr0, 0x8000_0033); (s_ss_selector, 0x10)] (fun _ => 0))
       [0x89; 0x90; 0x00; 0x03; 0x00; 0x00; 0x90; 0x90; 0x90; 0x90; 0x90; 0x90; 0x90; 0x90; 0x90])
    0x2_0000 Vmcb_default 0x2_1000 0x2_2000.

Lemma svm_enable_disable_witness : exists vt w1 w3,
  svm_enable (mk_svm 0) (world 0 [0; 0]) = Ok (vt, w1) /\ svm_disable vt (with_cpu (cpu1 7) (world 0 [0; 0])) = Ok (vt, w3) /\
  msrs (svm_cpu w1) !! IA32_EFER = Some 0x1d01 /\ msrs (svm_cpu w3) !! IA32_EFER = Some 0xd01.
Proof.
  destruct (svm_enable_disable (world 0 [0; 0]) 0xd01 (mk_svm 0) (with_cpu (cpu1 7) (world 0 [0; 0]))
    ltac:(reflexivity) ltac:(by eexists)) as (vt & w1 & w3 & H1 & H2 & H3 & H4).
  exists vt, w1, w3. split_and!; [exact H1|exact H2|exact H3|exact H4].
Defined.

Definition guest_with_efer : SvmGuest := save [(s_efer, 0x1d01); (s_gs_base, 0x1234)] (apic_guest 1 0).

(** SVM was enabled when EFER was 0x500; the guest has since set SCE and NXE. *)
Lemma svm_devirtualize_witness : exists r w',
  devirtualize_processor (GI := svm_guest true (fun _ => 0) (fun _ => 0) (fun _ => 0) 0 (mk_shared_host None None None))
    0x1003 guest_with_efer (mk_svm 0x500) (world 0 [0; 0]) = Ok (r, w') /\ r RIP = 0x1003 /\
  msrs (svm_cpu w') !! IA32_EFER = Some 0x500 /\ msrs (svm_cpu w') !! IA32_GS_BASE = Some 0x1234.
Proof.
  destruct (svm_devirtualize true (fun _ => 0) (fun _ => 0) (fun _ => 0) 0 (mk_shared_host None None None)
    0x1003 guest_with_efer (mk_svm 0x500) (world 0 [0; 0])) as (w' & Hd & _ & _ & _ & _ & _ & _ & Hgs & _ & He & _).
  { split_and!; by eexists. }
  eexists _, w'. split; [exact Hd|]. split; [reflexivity|]. split; [exact He|exact Hgs].
Defined.

(** The boot processor sends the vector 0x9a while processor 1 looks for the
    second time. *)
Definition send (v : Z) (w : SvmWorld) : SvmWorld := set_activity (<[1%nat := v]> (activity_states w)) w.

Lemma svm_init_sipi_witness : exists g' w',
  handle_security_exception [(fun w => w); send 0x9a; (fun w => w)] (apic_guest 1 0) (world 0 [0; 0]) = Ok (g', w') /\
  saved g' s_cs_base = 0x9_a000 /\ saved g' s_ss_selector = 0x10 /\ saved (svm_entry g') s_rsp = 0x8000.
Proof.
  destruct (svm_init_sipi [(fun w => w); send 0x9a; (fun w => w)] (apic_guest 1 0) (world 0 [0; 0]) 2%nat 0x9a
    ltac:(done) ltac:(reflexivity)) as (g' & w' & Hr & _ & _ & _ & Hcs & _ & _ & _ & _ & _ & _ & Hss & Hsp & _).
  - split_and!; [cbn; lia|done|reflexivity|]. intros [|[|j]] Hj; [reflexivity|reflexivity|lia].
  - lia.
  - exists g', w'. split; [exact Hr|]. split; [exact Hcs|]. split; [|exact Hsp].
    rewrite (Hss s_ss_selector ltac:(left)). reflexivity.
Defined.


(** EDX = 0x4611: a SIPI of vector 0x11, to the APIC id 4. *)
Lemma sipi_emulated_witness : exists g' w',
  handle_nested_page_fault (apic_guest 0 0x4611) (world 0x0400_0000 [0; 255]) = Ok (g', w') /\
  activity_states w' = [0; 0x11].
Proof.
  destruct (sipi_emulated (apic_guest 0 0x4611) (world 0x0400_0000 [0; 255]) 0xfee0_0800 0x4611 6 1
    ltac:(reflexivity) ltac:(done) ltac:(done) ltac:(done) ltac:(reflexivity) ltac:(done)
    ltac:(reflexivity) ltac:(reflexivity) ltac:(reflexivity) ltac:(reflexivity) ltac:(done) ltac:(done)
    ltac:(reflexivity) ltac:(cbn; lia)) as (g' & w' & Hr & _ & _ & Ha).
  exists g', w'. split; [exact Hr|exact Ha].
Defined.

Lemma flat_gdt_wf a : in_width 64 (flat_gdt a).
Proof. unfold flat_gdt. by destruct (_ =? _). Qed.

Lemma svm_initialize_spec_witness : exists g' w',
  svm_initialize 0x10_0000 (mk_shared_host None None None) (assign [(RIP, 0x1000)] (fun _ => 0))
    (apic_guest 1 0) (world 0 [0; 0]) = Ok (g', w') /\
  saved g' s_cs_selector = 0x8 /\ saved g' s_efer = 0x1d01 /\ saved g' s_rip = 0x1000 /\ saved g' s_cs_attrib = 0xa9b.
Proof.
  destruct (svm_initialize_spec 0x10_0000 (mk_shared_host None None None) (assign [(RIP, 0x1000)] (fun _ => 0))
    (apic_guest 1 0) (world 0 [0; 0]) 0 0xd01 0x0007040600070406) as
    (g' & w' & Hr & _ & _ & _ & _ & _ & _ & _ & m1 & Hs & Hm & _ & Hsnap & _).
  - split; try reflexivity; [exact flat_gdt_wf| |split; reflexivity || done].
    list_cases; done.
  - split; done.
  - exists g', w'. split; [exact Hr|]. destruct Hsnap as (_ & Hcs & _ & _ & _ & Hattr & _ & _ & _ & _ & _ & _ & _ & _ &
      _ & _ & He & _ & _ & _ & _ & Hrip & _).
    rewrite Hcs, He, Hrip, Hattr, Hs, Hm. split_and!; reflexivity.
Defined.
End SvmExample.
