(* ===== verification/Vmx.v ===== *)
(** * Intel VMX (hvcore intel/vmx.rs and intel/guest.rs)

    Entering VMX root operation, the VMCS of a guest and its initialization,
    the VM exits handled inside [run] (INIT and SIPI), and leaving. *)

From S2P Require Import Prelude External Machine Platform ApicId Segment Tables Mtrr Epts Host.

(** What a logical processor acts on: itself, the lazily built data all
    guests share (the EPTs), and the APIC id map. *)
Record VmxWorld : Type := mk_vmx_world {
  vmx_cpu : Machine;
  shared_guest : option Epts;
  vmx_apic : ApicState;
}.

#[export, refine] Instance cpu_vmx : HasCpu VmxWorld := {
  get_cpu := vmx_cpu;
  put_cpu m w := mk_vmx_world m (shared_guest w) (vmx_apic w)
}.
Proof.
  - done.
  - by intros [].
  - done.
Defined.

(** [x86::cpuid::CpuId]: the extended model of leaf 1, when there is a leaf 1. *)
Class X86CpuId : Type := {
  extended_model_id : (Z -> Z -> CpuidResult) -> option Z;
  extended_model_id_spec : forall f, 1 <= eax (f 0 0) -> in_width 32 (eax (f 1 0)) ->
    extended_model_id f = Some (field (eax (f 1 0)) 16 4);
}.

Definition CR0_PE_PG : Z := Z.lor CR0_PROTECTED_MODE CR0_ENABLE_PAGING.

(** ** Control registers in VMX operation *)
Section ControlRegisters.
Context {XC : X86Cr0}.

Definition get_adjusted_cr0 (cr0 : Z) : M Machine Z :=
  let! fixed0 := rdmsr IA32_VMX_CR0_FIXED0 in
  let! fixed1 := rdmsr IA32_VMX_CR0_FIXED1 in
  ret (Z.lor (Z.land cr0 fixed1) fixed0).

Definition get_adjusted_cr4 (cr4 : Z) : M Machine Z :=
  let! fixed0 := rdmsr IA32_VMX_CR4_FIXED0 in
  let! fixed1 := rdmsr IA32_VMX_CR4_FIXED1 in
  ret (Z.lor (Z.land cr4 fixed1) fixed0).

Definition get_adjusted_guest_cr0 (cr0 : Z) : M Machine Z :=
  let! new_cr0 := get_adjusted_cr0 cr0 in
  let! secondary_proc_based_ctls2 := vmread control_SECONDARY_PROCBASED_EXEC_CONTROLS in
  let unrestricted_guest :=
    negb (Z.land (wrap 32 secondary_proc_based_ctls2) SECONDARY_UNRESTRICTED_GUEST =? 0) in
  ret (if unrestricted_guest then
         let new_cr0 := Z.land new_cr0 (Z.ldiff cr0_all CR0_PE_PG) in
         Z.lor new_cr0 (Z.land cr0 CR0_PE_PG)
       else new_cr0).

Definition get_adjusted_guest_cr4 (cr4 : Z) : M Machine Z := get_adjusted_cr4 cr4.
End ControlRegisters.

(** ** vmx.rs *)

(** The VMXON region, by its physical address and revision, and CR4. *)
Record Vmx : Type := mk_vmx { vmxon_region : Z; vmxon_revision : Z; vmx_cr4 : Z }.

Definition update_feature_control_msr : M Machine unit :=
  let! feature_control := rdmsr IA32_FEATURE_CONTROL in
  if Z.land feature_control (Z.shiftl 1 0) =? 0 then
    wrmsr IA32_FEATURE_CONTROL (Z.lor (Z.lor feature_control (Z.shiftl 1 2)) (Z.shiftl 1 0))
  else ret tt.

(** [vmxon_pa] is the physical address of the box. *)
Definition vmx_default (vmxon_pa : Z) : M Machine Vmx :=
  let! basic := rdmsr IA32_VMX_BASIC in
  ret (mk_vmx vmxon_pa (wrap 32 basic) 0).

Definition vmx_enable (vt : Vmx) : M Machine Vmx :=
  let! current_cr0 := cr0 in
  let! current_cr4 := cr4 in
  let vt := mk_vmx (vmxon_region vt) (vmxon_revision vt) current_cr4 in
  let! new_cr4 := get_adjusted_cr4 current_cr4 in
  let! new_cr0 := get_adjusted_cr0 current_cr0 in
  cr0_write new_cr0 ;;!
  cr4_write new_cr4 ;;!
  update_feature_control_msr ;;!
  vmxon (vmxon_region vt) (vmxon_revision vt) ;;!
  ret vt.

Definition vmx_disable (vt : Vmx) : M Machine Vmx := vmxoff ;;! ret vt.

#[export] Instance vmx_extension {Proc : Type} {OPS : PlatformOps Proc} (vmxon_addr : Z)
    : Extension VmxWorld Vmx := {
  ext_default := on_cpu (vmx_default (pa vmxon_addr));
  enable vt := on_cpu (vmx_enable vt);
  disable vt := on_cpu (vmx_disable vt)
}.

(** ** Controls *)

Inductive VmxControl : Type :=
  | PinBased | ProcessorBased | ProcessorBased2 | ProcessorBased3 | VmExit | VmEntry.

Definition IA32_VMX_PROCBASED_CTLS3 : Z := 0x492.

(** [match (control, true_cap_msr_supported)] *)
Definition capability_msr (control : VmxControl) (true_cap_msr_supported : bool) : Z :=
  match control, true_cap_msr_supported with
  | PinBased, true => IA32_VMX_TRUE_PINBASED_CTLS
  | PinBased, false => IA32_VMX_PINBASED_CTLS
  | ProcessorBased, true => IA32_VMX_TRUE_PROCBASED_CTLS
  | ProcessorBased, false => IA32_VMX_PROCBASED_CTLS
  | VmExit, true => IA32_VMX_TRUE_EXIT_CTLS
  | VmExit, false => IA32_VMX_EXIT_CTLS
  | VmEntry, true => IA32_VMX_TRUE_ENTRY_CTLS
  | VmEntry, false => IA32_VMX_ENTRY_CTLS
  | ProcessorBased2, _ => IA32_VMX_PROCBASED_CTLS2
  | ProcessorBased3, _ => IA32_VMX_PROCBASED_CTLS3
  end.

Definition adjust_vmx_control (control : VmxControl) (requested_value : Z) : M Machine Z :=
  let! vmx_basic := rdmsr IA32_VMX_BASIC in
  let true_cap_msr_supported := negb (Z.land vmx_basic (Z.shiftl 1 55) =? 0) in
  let cap_msr := capability_msr control true_cap_msr_supported in
  match control with
  | ProcessorBased3 =>
      let! allowed1 := rdmsr cap_msr in
      ret (Z.land requested_value allowed1)
  | _ =>
      let! capabilities := rdmsr cap_msr in
      let allowed0 := wrap 32 capabilities in
      let allowed1 := wrap 32 (Z.shiftr capabilities 32) in
      massert (requested_value <? 2 ^ 32) "u32::try_from(requested_value).unwrap()" ;;!
      ret (Z.land (Z.lor requested_value allowed0) allowed1)
  end.

(** ** Segments *)

Definition access_rights (native : Z) : Z :=
  if native =? 0 then Z.shiftl 1 16
  else Z.land (Z.shiftr native 8) 0xf0ff.

(** [VmxSegmentAccessRights] *)
Section AccessRights.
Context {BF : BitfieldMacro}.
Definition set_segment_type (v e : Z) : Z := bf_set 3 0 e v.
Definition set_descriptor_type (b : bool) (e : Z) : Z := bf_set_bit 4 e b.
Definition ar_set_present (b : bool) (e : Z) : Z := bf_set_bit 7 e b.
End AccessRights.

Definition ExecuteReadAccessed : Z := 0xb.
Definition ReadWriteAccessed : Z := 0x3.
Definition LDT : Z := 0x2.

(** ** Results of VMX instructions *)
Inductive VmxError : Type := VmFailValid (error : Z) | VmFailInvalid.

Definition vmx_succeed (flags : Z) : M Machine (result unit VmxError) :=
  if Z.land flags FLAGS_ZF =? FLAGS_ZF then
    let! e := vmread ro_VM_INSTRUCTION_ERROR in ret (RErr (VmFailValid e))
  else if Z.land flags FLAGS_CF =? FLAGS_CF then ret (RErr VmFailInvalid)
  else ret (ROk tt).

(** [vmwrite(f, x); ..]: each value is computed just before it is written. *)
Fixpoint vmwrites (l : list (VmcsField * M Machine Z)) : M Machine unit :=
  match l with
  | [] => ret tt
  | (f, x) :: l' => let! v := x in vmwrite f v ;;! vmwrites l'
  end.

(** [GuestActivityState] *)
Definition ActivityActive : Z := 0.
Definition ActivityHlt : Z := 1.
Definition ActivityShutdown : Z := 2.
Definition ActivityWaitForSipi : Z := 3.

(** ** The guest *)

(** [id], the registers, and the VMCS: the physical address of its region,
    and the revision written at the region's start. *)
Record VmxGuest : Type := mk_vmx_guest {
  vmx_id : Z;
  vmx_registers : Registers;
  vmcs_pa : Z;
  vmcs_revision : Z;
}.

Definition set_vmx_registers (r : Registers) (g : VmxGuest) : VmxGuest :=
  mk_vmx_guest (vmx_id g) r (vmcs_pa g) (vmcs_revision g).
Definition vmx_assign (l : list (Reg * Z)) (g : VmxGuest) : VmxGuest :=
  set_vmx_registers (assign l (vmx_registers g)) g.

(** The execution of the guest until VM exit, with the host's RFLAGS after
    it: VMLAUNCH or VMRESUME may also have failed. *)
Definition VmxEvent : Type := Registers -> VmxWorld -> Registers * Z * VmxWorld.

Section VmxGuestOps.
Context {P : Profile} {BF : BitfieldMacro} {BT : BitFieldTrait} {XS : X86Segmentation} {XT : X86Task}
  {XC : X86Cr0} {XI : X86CpuId} {Proc : Type} {OPS : PlatformOps Proc}.
(** The value BSF leaves for zero, the addresses of the boxes (the VMCS of
    each guest, the MSR bitmaps, the EPTs, the TSS of each processor), and the
    shared host data. *)
Context (bsf_zero : Z) (vmcs_addr : Z -> Z) (bitmaps_addr epts_addr : Z) (tss_addr : Z -> Z)
  (shared_host : SharedHostData).

(** [SHARED_GUEST_DATA]: built by the first processor that needs it. *)
Definition shared_guest_data : M VmxWorld Epts := fun w =>
  match shared_guest w with
  | Some epts => Ok (epts, w)
  | None =>
      let? (mtrr, m) := Mtrr_new bsf_zero (vmx_cpu w) in
      let? epts := ept_build_identity mtrr epts_addr Epts_zeroed in
      Ok (epts, mk_vmx_world m (Some epts) (vmx_apic w))
  end.

(** [VmxGuest::new] with [Vmcs::new]. *)
Definition vmx_new (id : Z) : M VmxWorld VmxGuest :=
  let! basic := on_cpu (rdmsr IA32_VMX_BASIC) in
  on_cpu (vmclear (pa (vmcs_addr id))) ;;!
  ret (mk_vmx_guest id (fun _ => 0) (pa (vmcs_addr id)) (wrap 32 basic)).

Definition vmx_activate (g : VmxGuest) : M VmxWorld VmxGuest :=
  on_cpu (vmptrld (vmcs_pa g) (vmcs_revision g)) ;;!
  ret g.

Definition vmx_deactivate (g : VmxGuest) : M VmxWorld VmxGuest :=
  on_cpu (vmclear (vmcs_pa g)) ;;!
  ret g.

Definition vmx_load_guest_cpu_state (g : VmxGuest) : M VmxWorld unit :=
  on_cpu (
    (let! v := vmread guest_CR3 in cr3_write v) ;;!
    (let! v := vmread guest_CR0 in cr0_write v) ;;!
    (let! v := vmread guest_CR4 in cr4_write v) ;;!
    (let! v := vmread guest_FS_BASE in wrmsr IA32_FS_BASE v) ;;!
    (let! v := vmread guest_GS_BASE in wrmsr IA32_GS_BASE v) ;;!
    (let! base := vmread guest_GDTR_BASE in
     let! limit := vmread guest_GDTR_LIMIT in
     lgdt (mk_dtp base (wrap 16 limit))) ;;!
    (let! base := vmread guest_IDTR_BASE in
     let! limit := vmread guest_IDTR_LIMIT in
     lidt (mk_dtp base (wrap 16 limit)))).

(** *** Initialization *)

Definition vmx_initialize_control : M VmxWorld unit :=
  on_cpu (vmwrites [
    (control_VMEXIT_CONTROLS, adjust_vmx_control VmExit EXIT_HOST_ADDRESS_SPACE_SIZE);
    (control_VMENTRY_CONTROLS, adjust_vmx_control VmEntry ENTRY_IA32E_MODE_GUEST);
    (control_PINBASED_EXEC_CONTROLS, adjust_vmx_control PinBased 0);
    (control_PRIMARY_PROCBASED_EXEC_CONTROLS,
      adjust_vmx_control ProcessorBased
        (Z.lor (Z.lor PRIMARY_USE_MSR_BITMAPS PRIMARY_SECONDARY_CONTROLS) (Z.shiftl 1 18)));
    (control_SECONDARY_PROCBASED_EXEC_CONTROLS,
      adjust_vmx_control ProcessorBased2
        (Z.lor (Z.lor (Z.lor (Z.lor (Z.lor SECONDARY_ENABLE_EPT SECONDARY_UNRESTRICTED_GUEST)
           SECONDARY_ENABLE_RDTSCP) SECONDARY_ENABLE_INVPCID) SECONDARY_ENABLE_XSAVES_XRSTORS)
           SECONDARY_ENABLE_USER_WAIT_PAUSE))]) ;;!
  shared_guest_data ;;!
  on_cpu (vmwrites [
    (control_MSR_BITMAPS_ADDR_FULL, ret (pa bitmaps_addr));
    (control_EPTP_FULL, ret (eptp epts_addr))]).

(** The base of the segment a selector designates, or the [unwrap] panics. *)
Definition segment_base (gdtr : DescriptorTablePointer) (selector : Z) : M Machine Z := fun m =>
  let? r := try_from_gdtr (mem m) gdtr selector in
  match r with
  | ROk d => let? b := descriptor_base d in Ok (b, m)
  | RErr _ => Panic "try_from_gdtr(..).unwrap()"
  end.

(** [lsl(es())] and [Self::access_rights(lar(es()))] *)
Definition segment_lsl (r : SysReg) : M Machine Z := let! s := sys_read r in lsl s.
Definition segment_rights (r : SysReg) : M Machine Z :=
  let! s := sys_read r in let! a := lar s in ret (access_rights a).

Definition vmx_initialize_guest (g : VmxGuest) : M Machine unit :=
  let! idtr := sidt in
  let! gdtr := sgdt in
  vmwrites [
    (guest_ES_SELECTOR, sys_read ES); (guest_CS_SELECTOR, sys_read CS); (guest_SS_SELECTOR, sys_read SS);
    (guest_DS_SELECTOR, sys_read DS); (guest_FS_SELECTOR, sys_read FS); (guest_GS_SELECTOR, sys_read GS);
    (guest_TR_SELECTOR, tr); (guest_LDTR_SELECTOR, ldtr);
    (guest_ES_LIMIT, segment_lsl ES); (guest_CS_LIMIT, segment_lsl CS); (guest_SS_LIMIT, segment_lsl SS);
    (guest_DS_LIMIT, segment_lsl DS); (guest_FS_LIMIT, segment_lsl FS); (guest_GS_LIMIT, segment_lsl GS);
    (guest_TR_LIMIT, segment_lsl TR);
    (guest_ES_ACCESS_RIGHTS, segment_rights ES); (guest_CS_ACCESS_RIGHTS, segment_rights CS);
    (guest_SS_ACCESS_RIGHTS, segment_rights SS); (guest_DS_ACCESS_RIGHTS, segment_rights DS);
    (guest_FS_ACCESS_RIGHTS, segment_rights FS); (guest_GS_ACCESS_RIGHTS, segment_rights GS);
    (guest_TR_ACCESS_RIGHTS, segment_rights TR); (guest_LDTR_ACCESS_RIGHTS, ret (access_rights 0));
    (guest_FS_BASE, rdmsr IA32_FS_BASE); (guest_GS_BASE, rdmsr IA32_GS_BASE);
    (guest_TR_BASE, let! t := tr in segment_base gdtr t);
    (guest_GDTR_BASE, ret (dtp_base gdtr)); (guest_GDTR_LIMIT, ret (dtp_limit gdtr));
    (guest_IDTR_BASE, ret (dtp_base idtr)); (guest_IDTR_LIMIT, ret (dtp_limit idtr));
    (guest_IA32_SYSENTER_CS, rdmsr IA32_SYSENTER_CS);
    (guest_IA32_SYSENTER_EIP, rdmsr IA32_SYSENTER_EIP);
    (guest_IA32_SYSENTER_ESP, rdmsr IA32_SYSENTER_ESP);
    (guest_LINK_PTR_FULL, ret u64_max);
    (guest_CR0, cr0); (guest_CR3, cr3); (guest_CR4, cr4);
    (guest_RSP, ret (vmx_registers g RSP)); (guest_RIP, ret (vmx_registers g RIP));
    (guest_RFLAGS, ret (vmx_registers g RFLAGS))].

(** The GDT, TR and TSS of the host: those given for the processor, or the
    current ones. *)
Definition host_gdt_tr_tss (id : Z) : M Machine (Z * Z * Z) :=
  match host_gdts shared_host with
  | Some gdts =>
      let! (addr, gt) := lift (unwrap (gdts !! Z.to_nat id) "index out of bounds") in
      massert (negb (Nat.eqb (length (gdt gt)) 0)) "index out of bounds" ;;!
      let! tr := lift (unwrap (tr_sel gt) "tr.unwrap()") in
      let! _ := lift (unwrap (tss gt) "tss.as_ref().unwrap()") in
      ret (addr, tr, tss_addr id)
  | None =>
      let! gdtr := sgdt in
      let! t := tr in
      let! tss_base := segment_base gdtr t in
      ret (dtp_base gdtr, t, tss_base)
  end.

Definition host_selector (r : SysReg) : M Machine Z :=
  let! s := sys_read r in ret (Z.land s (not_w 16 7)).

Definition vmx_initialize_host (g : VmxGuest) : M Machine unit :=
  let! c3 := match host_pt shared_host with
             | Some host_pt => ret host_pt
             | None => cr3
             end in
  let! (gdt_base, t, tss_base) := host_gdt_tr_tss (vmx_id g) in
  let! idt_base := match host_idt shared_host with
                   | Some (addr, idt) => let! p := lift (idtr addr idt) in ret (dtp_base p)
                   | None => let! p := sidt in ret (dtp_base p)
                   end in
  vmwrites [
    (host_ES_SELECTOR, host_selector ES); (host_CS_SELECTOR, host_selector CS);
    (host_SS_SELECTOR, host_selector SS); (host_DS_SELECTOR, host_selector DS);
    (host_FS_SELECTOR, host_selector FS); (host_GS_SELECTOR, host_selector GS);
    (host_TR_SELECTOR, ret (Z.land t (not_w 16 7)));
    (host_CR0, cr0); (host_CR3, ret c3); (host_CR4, cr4);
    (host_FS_BASE, rdmsr IA32_FS_BASE); (host_GS_BASE, rdmsr IA32_GS_BASE);
    (host_TR_BASE, ret tss_base); (host_GDTR_BASE, ret gdt_base); (host_IDTR_BASE, ret idt_base)].

Definition vmx_initialize (registers : Registers) (g : VmxGuest) : M VmxWorld VmxGuest :=
  let g := set_vmx_registers registers g in
  vmx_initialize_control ;;!
  on_cpu (vmx_initialize_guest g) ;;!
  on_cpu (vmx_initialize_host g) ;;!
  ret g.

(** *** INIT and SIPI *)

Definition vmx_handle_init_signal (g : VmxGuest) : M Machine VmxGuest :=
  let g := vmx_assign [(RFLAGS, FLAGS_A1)] g in
  vmwrites [(guest_RFLAGS, ret (vmx_registers g RFLAGS))] ;;!
  let g := vmx_assign [(RIP, 0xfff0)] g in
  vmwrites [(guest_RIP, ret (vmx_registers g RIP))] ;;!
  write_cr2 0 ;;!
  let ar := ar_set_present true (set_descriptor_type true (set_segment_type ExecuteReadAccessed 0)) in
  let ar_data := set_segment_type ReadWriteAccessed ar in
  vmwrites [
    (guest_CR3, ret 0); (control_CR0_READ_SHADOW, ret 0); (control_CR4_READ_SHADOW, ret 0);
    (guest_CR0, get_adjusted_guest_cr0 CR0_EXTENSION_TYPE); (guest_CR4, get_adjusted_guest_cr4 0);
    (guest_CS_SELECTOR, ret 0xf000); (guest_CS_BASE, ret 0xffff_0000); (guest_CS_LIMIT, ret 0xffff);
    (guest_CS_ACCESS_RIGHTS, ret ar);
    (guest_SS_SELECTOR, ret 0); (guest_SS_BASE, ret 0); (guest_SS_LIMIT, ret 0xffff);
    (guest_SS_ACCESS_RIGHTS, ret ar_data);
    (guest_DS_SELECTOR, ret 0); (guest_DS_BASE, ret 0); (guest_DS_LIMIT, ret 0xffff);
    (guest_DS_ACCESS_RIGHTS, ret ar_data);
    (guest_ES_SELECTOR, ret 0); (guest_ES_BASE, ret 0); (guest_ES_LIMIT, ret 0xffff);
    (guest_ES_ACCESS_RIGHTS, ret ar_data);
    (guest_FS_SELECTOR, ret 0); (guest_FS_BASE, ret 0); (guest_FS_LIMIT, ret 0xffff);
    (guest_FS_ACCESS_RIGHTS, ret ar_data);
    (guest_GS_SELECTOR, ret 0); (guest_GS_BASE, ret 0); (guest_GS_LIMIT, ret 0xffff);
    (guest_GS_ACCESS_RIGHTS, ret ar_data)] ;;!
  let! m := gets id in
  let! model := lift (unwrap (extended_model_id (hw_cpuid m)) "get_feature_info().unwrap()") in
  let g := vmx_assign [(RDX, Z.lor 0x600 (Z.shiftl model 16)); (RAX, 0); (RBX, 0); (RCX, 0); (RSI, 0);
                       (RDI, 0); (RBP, 0); (RSP, 0)] g in
  let ar_ldt := set_descriptor_type false (set_segment_type LDT ar_data) in
  let ar_tr := set_segment_type TssBusy ar_ldt in
  vmwrites [
    (guest_RSP, ret (vmx_registers g RSP));
    (guest_GDTR_BASE, ret 0); (guest_GDTR_LIMIT, ret 0xffff);
    (guest_IDTR_BASE, ret 0); (guest_IDTR_LIMIT, ret 0xffff);
    (guest_LDTR_SELECTOR, ret 0); (guest_LDTR_BASE, ret 0); (guest_LDTR_LIMIT, ret 0xffff);
    (guest_LDTR_ACCESS_RIGHTS, ret ar_ldt);
    (guest_TR_SELECTOR, ret 0); (guest_TR_BASE, ret 0); (guest_TR_LIMIT, ret 0xffff);
    (guest_TR_ACCESS_RIGHTS, ret ar_tr)] ;;!
  modify (set_sys (assign [(DR0, 0); (DR1, 0); (DR2, 0); (DR3, 0); (DR6, 0xffff_0ff0); (DR7, 0x400)])) ;;!
  let g := vmx_assign [(R8, 0); (R9, 0); (R10, 0); (R11, 0); (R12, 0); (R13, 0); (R14, 0); (R15, 0)] g in
  vmwrites [(guest_IA32_EFER_FULL, ret 0); (guest_FS_BASE, ret 0); (guest_GS_BASE, ret 0)] ;;!
  let! vmentry_controls := vmread control_VMENTRY_CONTROLS in
  let vmentry_controls := Z.land vmentry_controls (not_w 64 ENTRY_IA32E_MODE_GUEST) in
  vmwrites [(control_VMENTRY_CONTROLS, ret vmentry_controls);
            (guest_ACTIVITY_STATE, ret ActivityWaitForSipi)] ;;!
  ret g.

Definition vmx_handle_sipi_signal (g : VmxGuest) : M Machine VmxGuest :=
  let! vector := vmread ro_EXIT_QUALIFICATION in
  vmwrites [(guest_CS_SELECTOR, ret (wrap 64 (Z.shiftl vector 8)));
            (guest_CS_BASE, ret (wrap 64 (Z.shiftl vector 12)))] ;;!
  let g := vmx_assign [(RIP, 0)] g in
  vmwrites [(guest_RIP, ret (vmx_registers g RIP)); (guest_ACTIVITY_STATE, ret ActivityActive)] ;;!
  ret g.

(** *** run *)

Definition VMX_EXIT_REASON_INIT : Z := 3.
Definition VMX_EXIT_REASON_SIPI : Z := 4.
Definition VMX_EXIT_REASON_VMCALL : Z := 18.
Definition VMX_EXIT_REASON_CPUID : Z := 10.
Definition VMX_EXIT_REASON_RDMSR : Z := 31.
Definition VMX_EXIT_REASON_WRMSR : Z := 32.
Definition VMX_EXIT_REASON_XSETBV : Z := 55.

(** [self.registers.rip + vmread(VMEXIT_INSTRUCTION_LEN)] *)
Definition vmx_next_rip (g : VmxGuest) : M Machine Z :=
  let! len := vmread ro_VMEXIT_INSTRUCTION_LEN in
  lift (add_w 64 (vmx_registers g RIP) len).

(** The copy of three registers to the VMCS before the guest is entered. *)
Definition vmx_entry (g : VmxGuest) : M Machine unit :=
  vmwrites [(guest_RIP, ret (vmx_registers g RIP)); (guest_RSP, ret (vmx_registers g RSP));
            (guest_RFLAGS, ret (vmx_registers g RFLAGS))].

(** The reason after a successful VM exit. *)
Definition vmx_exit (g : VmxGuest) : M Machine (VmExitReason * VmxGuest) :=
  let! rip := vmread guest_RIP in
  let! rsp := vmread guest_RSP in
  let! rflags := vmread guest_RFLAGS in
  let g := vmx_assign [(RIP, rip); (RSP, rsp); (RFLAGS, rflags)] g in
  let! exit_reason := vmread ro_EXIT_REASON in
  let reason := wrap 16 exit_reason in
  if reason =? VMX_EXIT_REASON_INIT then
    let! g := vmx_handle_init_signal g in ret (InitSignal, g)
  else if reason =? VMX_EXIT_REASON_SIPI then
    let! g := vmx_handle_sipi_signal g in ret (StartupIpi, g)
  else if reason =? VMX_EXIT_REASON_CPUID then let! n := vmx_next_rip g in ret (Cpuid n, g)
  else if reason =? VMX_EXIT_REASON_RDMSR then let! n := vmx_next_rip g in ret (Rdmsr n, g)
  else if reason =? VMX_EXIT_REASON_WRMSR then let! n := vmx_next_rip g in ret (Wrmsr n, g)
  else if reason =? VMX_EXIT_REASON_XSETBV then let! n := vmx_next_rip g in ret (XSetBv n, g)
  else if reason =? VMX_EXIT_REASON_VMCALL then let! n := vmx_next_rip g in ret (VmCall n, g)
  else mpanic "Unhandled VM-exit reason".

Definition vmx_run (event : VmxEvent) (g : VmxGuest) : M VmxWorld (VmExitReason * VmxGuest) :=
  on_cpu (vmx_entry g) ;;!
  let! (flags, g) := (fun w => let '(r, flags, w) := event (vmx_registers g) w in
                               Ok ((flags, set_vmx_registers r g), w)) in
  let! r := on_cpu (vmx_succeed flags) in
  match r with
  | RErr (VmFailValid _) => mpanic "VmFailValid"
  | RErr VmFailInvalid => mpanic "VmFailInvalid"
  | ROk _ => on_cpu (vmx_exit g)
  end.

(** Intel implements the interface of host.rs. *)
#[export, refine] Instance vmx_guest : Guest VmxWorld VmxGuest VmxEvent := {
  guest_new := vmx_new;
  activate := vmx_activate;
  initialize := vmx_initialize;
  run := vmx_run;
  deactivate := vmx_deactivate;
  load_guest_cpu_state := vmx_load_guest_cpu_state;
  regs := vmx_registers;
  set_regs := set_vmx_registers
}.
Proof.
  - done.
  - intros g w g' w' H. unfold vmx_deactivate in H. apply bind_ok in H as ([] & w1 & _ & H).
    by injection H as <- _.
Defined.
End VmxGuestOps.
