(* ===== verification/VmxProofs.v ===== *)
(** * Theorems about the VMX guest

    Entering and leaving VMX operation, the controls and the state a guest
    starts with, the VM exits, and INIT and SIPI. *)

From S2P Require Import Prelude External Machine Platform ApicId Segment Tables Paging Mtrr Epts Host Vmx.

(** ** Writing a VMCS

    [vmcs_set pa l m] is [m] after the block of writes [l] to the VMCS at
    [pa]; [reads] is an access that does not depend on the fields in [fs] and
    changes nothing. *)
Definition vmcs_set (pa : Z) (l : list (VmcsField * Z)) (m : Machine) : Machine :=
  set_vmcss <[pa := assign l (vmcs_data m pa)]> m.

Record vmcs_ready (pa : Z) (m : Machine) : Prop := {
  ready_current : current_vmcs m = Some pa;
  ready_region : is_Some (vmcss m !! pa);
}.

Lemma vmcs_set_nil pa m : vmcs_ready pa m -> vmcs_set pa [] m = m.
Proof.
  intros [_ [d Hd]]. unfold vmcs_set, vmcs_data, set_vmcss. rewrite Hd. cbn [default assign foldl].
  rewrite insert_id by done. by destruct m.
Qed.

Lemma vmcs_data_set pa l m : vmcs_data (vmcs_set pa l m) pa = assign l (vmcs_data m pa).
Proof. unfold vmcs_set, vmcs_data at 1. cbn [vmcss set_vmcss]. by rewrite lookup_insert_eq. Qed.

Lemma vmcs_set_ready pa l m : vmcs_ready pa m -> vmcs_ready pa (vmcs_set pa l m).
Proof. intros [H _]. split; [exact H|]. cbn [vmcss vmcs_set set_vmcss]. rewrite lookup_insert_eq. by eexists. Qed.

Lemma vmcs_set_app pa l1 l2 m : vmcs_set pa l2 (vmcs_set pa l1 m) = vmcs_set pa (l1 ++ l2) m.
Proof.
  unfold vmcs_set at 1. rewrite vmcs_data_set. unfold vmcs_set, set_vmcss. cbn [vmcss sys msrs mem mmio vmx hw_cpuid hw_lsl hw_lar].
  rewrite insert_insert_eq. unfold assign. by rewrite foldl_app.
Qed.

Lemma vmread_ready f pa m : vmcs_ready pa m -> vmread f m = Ok (vmcs_data m pa f, m).
Proof. intros [H _]. by apply vmread_current. Qed.

Definition reads (pa : Z) (fs : list VmcsField) (m : Machine) (x : M Machine Z) (v : Z) : Prop :=
  forall l, (forall f, f ∈ l.*1 -> f ∈ fs) -> x (vmcs_set pa l m) = Ok (v, vmcs_set pa l m).

Inductive reads_list (pa : Z) (fs : list VmcsField) (m : Machine)
    : list (VmcsField * M Machine Z) -> list (VmcsField * Z) -> Prop :=
  | reads_nil : reads_list pa fs m [] []
  | reads_cons f x v l vals : reads pa fs m x v -> reads_list pa fs m l vals ->
      reads_list pa fs m ((f, x) :: l) ((f, v) :: vals).

Lemma reads_list_fields pa fs m l vals : reads_list pa fs m l vals -> vals.*1 = l.*1.
Proof. induction 1 as [|f x v l vals _ _ IH]; [done|]. rewrite !fmap_cons, IH. done. Qed.

Lemma vmwrites_from pa fs m l vals pre : vmcs_ready pa m ->
  reads_list pa fs m l vals -> (forall f, f ∈ l.*1 -> f ∈ fs) -> (forall f, f ∈ pre.*1 -> f ∈ fs) ->
  vmwrites l (vmcs_set pa pre m) = Ok (tt, vmcs_set pa (pre ++ vals) m).
Proof.
  intros Hm Hl. revert pre. induction Hl as [|f x v l vals Hx Hl IH]; intros pre Hfs Hpre.
  - by rewrite app_nil_r.
  - cbn [vmwrites]. rewrite (bind_intro _ _ _ _ _ (Hx pre Hpre)).
    rewrite (bind_intro _ _ _ tt (vmcs_set pa (pre ++ [(f, v)]) m)).
    + rewrite IH; [by rewrite <- app_assoc| |].
      * intros f' Hf'. apply Hfs. rewrite fmap_cons. by right.
      * intros f' Hf'. rewrite fmap_app in Hf'. apply elem_of_app in Hf' as [Hf'|Hf']; [by apply Hpre|].
        apply Hfs. rewrite fmap_cons. apply list_elem_of_singleton in Hf' as ->. left.
    + rewrite (vmwrite_current _ _ pa) by apply Hm.
      rewrite <- vmcs_set_app. reflexivity.
Qed.

Lemma vmwrites_ok pa m l vals : vmcs_ready pa m -> reads_list pa l.*1 m l vals ->
  vmwrites l m = Ok (tt, vmcs_set pa vals m).
Proof.
  intros Hm Hl. rewrite <- (vmcs_set_nil pa m) at 1 by done.
  rewrite (vmwrites_from _ _ _ _ _ [] Hm Hl); [done|done|]. intros f Hf. by apply elem_of_nil in Hf.
Qed.

(** ** Accesses that only read *)
Section Reads.
Context (pa : Z) (fs : list VmcsField) (m : Machine).

Lemma reads_ret v : reads pa fs m (ret v) v.
Proof. by intros l _. Qed.

Lemma reads_bind x k v v' : reads pa fs m x v -> reads pa fs m (k v) v' -> reads pa fs m (bind x k) v'.
Proof. intros Hx Hk l Hl. rewrite (bind_intro _ _ _ _ _ (Hx l Hl)). by apply Hk. Qed.

Lemma reads_massert b why x v : b = true -> reads pa fs m x v -> reads pa fs m (massert b why ;;! x) v.
Proof. intros Hb Hx l Hl. rewrite bind_massert by done. by apply Hx. Qed.

Lemma reads_sys r : reads pa fs m (sys_read r) (sys m r).
Proof. by intros l _. Qed.

Lemma reads_msr i v : msrs m !! i = Some v -> reads pa fs m (rdmsr i) v.
Proof. intros H l _. by apply rdmsr_some. Qed.

Lemma reads_vmcs f : vmcs_ready pa m -> f ∉ fs -> reads pa fs m (vmread f) (vmcs_data m pa f).
Proof.
  intros Hm Hf l Hl. rewrite (vmread_ready _ pa) by (by apply vmcs_set_ready). rewrite vmcs_data_set, assign_other; [done|].
  intros Hin. by apply Hf, Hl.
Qed.

(** LSL and LAR of the selector in a register. *)
Definition loaded_limit (r : SysReg) : Z :=
  let '(limit, flags) := hw_lsl m (sys m r) in
  if Z.land flags FLAGS_ZF =? FLAGS_ZF then wrap 32 limit else 0.
Definition loaded_rights (r : SysReg) : Z :=
  let '(rights, flags) := hw_lar m (sys m r) in
  access_rights (if Z.land flags FLAGS_ZF =? FLAGS_ZF then wrap 32 rights else 0).

Lemma reads_lsl r : reads pa fs m (segment_lsl r) (loaded_limit r).
Proof.
  intros l _. unfold segment_lsl, sys_read. rewrite bind_gets. unfold lsl, loaded_limit.
  cbn [vmcs_set set_vmcss hw_lsl sys]. by destruct (hw_lsl m (sys m r)).
Qed.

Lemma reads_rights r : reads pa fs m (segment_rights r) (loaded_rights r).
Proof.
  intros l _. unfold segment_rights, sys_read. rewrite bind_gets. unfold lar, loaded_rights, bind.
  cbn [vmcs_set set_vmcss hw_lar sys]. by destruct (hw_lar m (sys m r)).
Qed.
End Reads.

(** [solve_reads] evaluates a block of writes. *)
Ltac solve_read :=
  first [ apply reads_ret | apply reads_sys | apply reads_lsl | apply reads_rights
        | apply reads_msr; eassumption | eassumption ].
Ltac solve_reads := repeat (eapply reads_cons; [solve_read|]); apply reads_nil.

(** ** Entering and leaving VMX operation *)

(** A processor on which VMX operation can be entered, with its capability
    MSRs: no bit is fixed both ways, and CR4.VMXE is fixed to 1. *)
Record vmx_capable (m : Machine) (basic f0 f1 g0 g1 fc : Z) : Prop := {
  cap_basic : msrs m !! IA32_VMX_BASIC = Some basic;
  cap_f0 : msrs m !! IA32_VMX_CR0_FIXED0 = Some f0;
  cap_f1 : msrs m !! IA32_VMX_CR0_FIXED1 = Some f1;
  cap_g0 : msrs m !! IA32_VMX_CR4_FIXED0 = Some g0;
  cap_g1 : msrs m !! IA32_VMX_CR4_FIXED1 = Some g1;
  cap_fc : msrs m !! IA32_FEATURE_CONTROL = Some fc;
  cap_cr0 : Z.ldiff f0 f1 = 0;
  cap_cr4 : Z.ldiff g0 g1 = 0;
  cap_vmxe : Z.testbit g0 13 = true;
  cap_off : vmx m = VmxOff;
}.

Definition adjusted (fixed0 fixed1 cr : Z) : Z := Z.lor (Z.land cr fixed1) fixed0.

Lemma ldiff_bits a b i : Z.ldiff a b = 0 -> Z.testbit a i = true -> Z.testbit b i = true.
Proof.
  intros H Ha. assert (Z.testbit (Z.ldiff a b) i = false) as Hb by (rewrite H; apply Z.testbit_0_l).
  rewrite Z.ldiff_spec, Ha in Hb. by destruct (Z.testbit b i).
Qed.

Lemma adjusted_ok f0 f1 cr : Z.ldiff f0 f1 = 0 -> fixed_bits_ok f0 f1 (adjusted f0 f1 cr) = true.
Proof.
  intros H. unfold fixed_bits_ok, adjusted. apply andb_true_iff. split; apply Z.eqb_eq; bitblast.
  - by destruct (Z.testbit f0 i), (Z.testbit cr i), (Z.testbit f1 i).
  - destruct (Z.testbit f0 i) eqn:H0; [rewrite (ldiff_bits _ _ _ H H0)|]; by destruct (Z.testbit cr i), (Z.testbit f1 i).
Qed.

Lemma adjusted_testbit f0 f1 cr i :
  Z.testbit (adjusted f0 f1 cr) i = (Z.testbit cr i && Z.testbit f1 i) || Z.testbit f0 i.
Proof. unfold adjusted. by rewrite Z.lor_spec, Z.land_spec. Qed.

(** [x & (2^a | 2^b) == 2^a | 2^b] *)
Lemma two_flags x a b : 0 <= a -> 0 <= b ->
  (Z.land x (Z.lor (2 ^ a) (2 ^ b)) =? Z.lor (2 ^ a) (2 ^ b)) = Z.testbit x a && Z.testbit x b.
Proof.
  intros Ha Hb. apply eq_true_iff_eq. rewrite Z.eqb_eq, andb_true_iff. split.
  - intros H. split.
    + assert (Z.testbit (Z.land x (Z.lor (2 ^ a) (2 ^ b))) a = true) as Hx
        by (rewrite H, Z.lor_spec, Z.pow2_bits_true; done).
      rewrite Z.land_spec in Hx. by apply andb_true_iff in Hx as [? _].
    + assert (Z.testbit (Z.land x (Z.lor (2 ^ a) (2 ^ b))) b = true) as Hx
        by (rewrite H, Z.lor_spec, (Z.pow2_bits_true b), orb_true_r; done).
      rewrite Z.land_spec in Hx. by apply andb_true_iff in Hx as [? _].
  - intros [H1 H2]. apply Z.bits_inj'. intros i Hi. rewrite Z.land_spec, Z.lor_spec, !Z.pow2_bits_eqb by done.
    destruct (Z.eqb_spec a i) as [<-|]; [by rewrite H1|]. destruct (Z.eqb_spec b i) as [<-|]; [by rewrite H2|].
    by rewrite andb_false_r.
Qed.

(** What [update_feature_control_msr] leaves in the MSR. *)
Definition locked_feature_control (fc : Z) : Z :=
  if Z.testbit fc 0 then fc else Z.lor (Z.lor fc (2 ^ 2)) (2 ^ 0).

Lemma locked_bits fc :
  (Z.land (locked_feature_control fc) 5 =? 5) = negb (Z.testbit fc 0) || Z.testbit fc 2.
Proof.
  change 5 with (Z.lor (2 ^ 0) (2 ^ 2)). rewrite two_flags by done. unfold locked_feature_control.
  destruct (Z.testbit fc 0) eqn:H; [by rewrite H|].
  rewrite !Z.lor_spec, !Z.pow2_bits_eqb by done. cbn. by rewrite !orb_true_r.
Qed.

Lemma update_feature_control_ok m fc : msrs m !! IA32_FEATURE_CONTROL = Some fc ->
  update_feature_control_msr m = Ok (tt, set_msrs <[IA32_FEATURE_CONTROL := locked_feature_control fc]> m).
Proof.
  intros H. unfold update_feature_control_msr. rewrite (bind_intro _ _ _ _ _ (rdmsr_some _ _ _ H)).
  pose proof (flag_set fc 0 ltac:(done)) as Hf. change (2 ^ 0) with (Z.shiftl 1 0) in Hf.
  unfold locked_feature_control. destruct (Z.testbit fc 0).
  - apply negb_true_iff in Hf. rewrite Hf. unfold ret, set_msrs. rewrite insert_id by done. by destruct m.
  - apply negb_false_iff in Hf. rewrite Hf. by rewrite (wrmsr_some _ _ fc).
Qed.

(** VMX operation is entered unless the firmware locked
    IA32_FEATURE_CONTROL with VMXON disallowed, in which case the host panics.
    CR0 and CR4 get the bits VMX operation fixes and keep the others, the
    feature control MSR is locked with VMXON allowed if it was not locked.
    Leaving VMX operation restores none of that: CR4.VMXE stays set. *)
Lemma vmx_enable_disable m pa basic f0 f1 g0 g1 fc : vmx_capable m basic f0 f1 g0 g1 fc ->
  exists vt, vmx_default pa m = Ok (vt, m) /\
    (Z.testbit fc 0 = true -> Z.testbit fc 2 = false -> vmx_enable vt m = Panic "vmxon") /\
    (Z.testbit fc 0 = false \/ Z.testbit fc 2 = true -> exists vt' m',
       vmx_enable vt m = Ok (vt', m') /\ vmx m' = VmxRoot pa None /\
       (forall i, Z.testbit (sys m' CR0) i = (Z.testbit (sys m CR0) i && Z.testbit f1 i) || Z.testbit f0 i) /\
       (forall i, Z.testbit (sys m' CR4) i = (Z.testbit (sys m CR4) i && Z.testbit g1 i) || Z.testbit g0 i) /\
       (forall r, r <> CR0 -> r <> CR4 -> sys m' r = sys m r) /\
       msrs m' = <[IA32_FEATURE_CONTROL := locked_feature_control fc]> (msrs m) /\
       mem m' = mem m /\ hw_cpuid m' = hw_cpuid m /\
       vmx_disable vt' m' = Ok (vt', set_vmx VmxOff m') /\ Z.testbit (sys (set_vmx VmxOff m') CR4) 13 = true).
Proof.
  intros [Hb Hf0 Hf1 Hg0 Hg1 Hfc H0 H4 Hvmxe Hoff]. exists (mk_vmx pa (wrap 32 basic) 0).
  split; [unfold vmx_default; by rewrite (bind_intro _ _ _ _ _ (rdmsr_some _ _ _ Hb))|].
  set (m1 := set_msrs <[IA32_FEATURE_CONTROL := locked_feature_control fc]>
               (set_sys (fset CR4 (adjusted g0 g1 (sys m CR4))) (set_sys (fset CR0 (adjusted f0 f1 (sys m CR0))) m))).
  set (vt' := mk_vmx pa (wrap 32 basic) (sys m CR4)).
  assert (vmx_enable (mk_vmx pa (wrap 32 basic) 0) m = (vmxon pa (wrap 32 basic) ;;! ret vt') m1) as Hrun.
  { unfold vmx_enable, cr0, cr4, sys_read, get_adjusted_cr0, get_adjusted_cr4. rewrite !bind_gets.
    rewrite (bind_intro _ _ m (adjusted g0 g1 (sys m CR4)) m).
    2: { rewrite (bind_intro _ _ _ _ _ (rdmsr_some _ _ _ Hg0)). by rewrite (bind_intro _ _ _ _ _ (rdmsr_some _ _ _ Hg1)). }
    rewrite (bind_intro _ _ m (adjusted f0 f1 (sys m CR0)) m).
    2: { rewrite (bind_intro _ _ _ _ _ (rdmsr_some _ _ _ Hf0)). by rewrite (bind_intro _ _ _ _ _ (rdmsr_some _ _ _ Hf1)). }
    unfold cr0_write, cr4_write, sys_write. rewrite !bind_modify.
    erewrite bind_intro; [|apply (update_feature_control_ok _ fc); exact Hfc]. done. }
  assert (vmxon pa (wrap 32 basic) m1 =
    if negb (Z.testbit fc 0) || Z.testbit fc 2 then Ok (tt, set_vmx (VmxRoot pa None) m1) else Panic "vmxon") as Hon.
  { unfold vmxon. change (vmx m1) with (vmx m). rewrite Hoff.
    change (sys m1 CR4) with (adjusted g0 g1 (sys m CR4)). unfold vmx_fixed_ok.
    change (sys m1 CR4) with (adjusted g0 g1 (sys m CR4)). change (sys m1 CR0) with (adjusted f0 f1 (sys m CR0)).
    change (msrs m1) with (<[IA32_FEATURE_CONTROL := locked_feature_control fc]> (msrs m)).
    rewrite lookup_insert_eq. rewrite !lookup_insert_ne by done. rewrite Hb, Hf0, Hf1, Hg0, Hg1. unfold default, id.
    rewrite !adjusted_ok by done. rewrite locked_bits, Z.eqb_refl, andb_true_r. cbn [andb].
    assert ((Z.land (adjusted g0 g1 (sys m CR4)) CR4_ENABLE_VMX =? CR4_ENABLE_VMX) = true) as ->; [|done].
    pose proof (two_flags (adjusted g0 g1 (sys m CR4)) 13 13 ltac:(done) ltac:(done)) as H13.
    change (Z.lor (2 ^ 13) (2 ^ 13)) with CR4_ENABLE_VMX in H13. rewrite H13, !adjusted_testbit, Hvmxe.
    by rewrite !orb_true_r. }
  rewrite Hrun. unfold bind. rewrite Hon. split.
  - intros H1 H2. by rewrite H1, H2.
  - intros Hok. assert (negb (Z.testbit fc 0) || Z.testbit fc 2 = true) as ->.
    { destruct Hok as [-> | ->]; [done|]. apply orb_true_r. }
    exists vt', (set_vmx (VmxRoot pa None) m1). split_and!; try done.
    + intros i. exact (adjusted_testbit f0 f1 (sys m CR0) i).
    + intros i. exact (adjusted_testbit g0 g1 (sys m CR4) i).
    + intros r Hr0 Hr4. cbn [sys set_vmx m1 set_msrs set_sys]. by rewrite !fset_other by congruence.
    + change (Z.testbit (adjusted g0 g1 (sys m CR4)) 13 = true). rewrite adjusted_testbit, Hvmxe. apply orb_true_r.
Qed.

(** ** Controls *)

(** C36: adjusted VMX controls are what the processor accepts: bits that must
    be 1 (set in the low half of the capability MSR) are 1, bits that must be
    0 (clear in the high half) are 0, and all others are as requested.  The
    MSR consulted is the "true" one exactly when bit 55 of IA32_VMX_BASIC is
    set. *)
Theorem adjust_vmx_control_spec m control requested basic caps :
  control <> ProcessorBased3 -> in_width 32 requested ->
  msrs m !! IA32_VMX_BASIC = Some basic ->
  msrs m !! capability_msr control (Z.testbit basic 55) = Some caps ->
  Z.ldiff (field caps 0 32) (field caps 32 32) = 0 ->
  exists v, adjust_vmx_control control requested m = Ok (v, m) /\ in_width 32 v /\
    forall i, 0 <= i < 32 -> Z.testbit v i =
      if Z.testbit caps i then true else if Z.testbit caps (32 + i) then Z.testbit requested i else false.
Proof.
  intros Hc Hr Hb Hcaps Hsub. unfold adjust_vmx_control. rewrite (bind_intro _ _ _ _ _ (rdmsr_some _ _ _ Hb)).
  pose proof (flag_set basic 55 ltac:(done)) as Hf. change (2 ^ 55) with (Z.shiftl 1 55) in Hf. rewrite Hf.
  set (v := Z.land (Z.lor requested (wrap 32 caps)) (wrap 32 (Z.shiftr caps 32))).
  exists v. split.
  - destruct control; try done; rewrite (bind_intro _ _ _ _ _ (rdmsr_some _ _ _ Hcaps));
      (rewrite bind_massert by (apply Z.ltb_lt, Hr)); done.
  - assert (forall i, 0 <= i -> Z.testbit v i =
      (Z.testbit requested i || (i <? 32) && Z.testbit caps i) && ((i <? 32) && Z.testbit caps (i + 32))) as Hv.
    { intros i Hi. unfold v, wrap. autorewrite with bits. by zcases. }
    split.
    + apply in_width_bits; [done|unfold v; apply Z.land_nonneg; right; apply wrap_range; done|].
      intros i Hi. rewrite Hv by lia. rewrite (proj2 (Z.ltb_ge _ _)) by done. by rewrite !andb_false_r.
    + intros i Hi. rewrite Hv, (proj2 (Z.ltb_lt _ _)) by lia. cbn [andb].
      pose proof (ldiff_bits _ _ i Hsub) as Hs. rewrite !field_testbit in Hs by lia.
      rewrite (proj2 (Z.ltb_lt _ _)) in Hs by lia. cbn [andb] in Hs. rewrite Z.add_0_r in Hs.
      replace (32 + i) with (i + 32) by lia.
      destruct (Z.testbit caps i); [rewrite Hs by done; by rewrite orb_true_r|].
      rewrite orb_false_r. by destruct (Z.testbit caps (i + 32)); rewrite ?andb_true_r, ?andb_false_r.
Qed.

(** ** INIT and SIPI *)

Lemma vmcs_ready_sys pa f m : vmcs_ready pa m -> vmcs_ready pa (set_sys f m).
Proof. intros [H1 H2]. split; [exact H1|exact H2]. Qed.

(** [byte_bits] proves an equation between access rights bit by bit. *)
Ltac byte_bits :=
  apply Z.bits_inj'; let i := fresh "i" in let Hi := fresh "Hi" in intros i Hi;
  unfold ar_set_present, set_descriptor_type, set_segment_type, ExecuteReadAccessed, ReadWriteAccessed, LDT, TssBusy;
  repeat first [ rewrite bf_set_testbit by bf_nonneg | rewrite bf_set_bit_testbit by bf_nonneg ];
  let Hlt := fresh "Hlt" in
  destruct (Z.ltb_spec i 8) as [Hlt|Hlt];
  [ assert (i = 0 \/ i = 1 \/ i = 2 \/ i = 3 \/ i = 4 \/ i = 5 \/ i = 6 \/ i = 7) as Hcase by lia;
    destruct Hcase as [->|[->|[->|[->|[->|[->|[->| ->]]]]]]]; reflexivity
  | zcases; cbn [andb]; rewrite ?(testbit_above 8) by (done || lia); done ].

Section InitSipi.
Context {BF : BitfieldMacro} {XC : X86Cr0} {XI : X86CpuId}.

Lemma rights_code : ar_set_present true (set_descriptor_type true (set_segment_type ExecuteReadAccessed 0)) = 0x9b.
Proof. byte_bits. Qed.
Lemma rights_data : set_segment_type ReadWriteAccessed 0x9b = 0x93.
Proof. byte_bits. Qed.
Lemma rights_ldt : set_descriptor_type false (set_segment_type LDT 0x93) = 0x82.
Proof. byte_bits. Qed.
Lemma rights_tss : set_segment_type TssBusy 0x82 = 0x8b.
Proof. byte_bits. Qed.

(** The guest's CR0 after INIT: ET, with the fixed bits, but without PE and PG
    when the guest is unrestricted. *)
Definition init_cr0 (f0 f1 secondary : Z) : Z :=
  let new_cr0 := adjusted f0 f1 CR0_EXTENSION_TYPE in
  if negb (Z.land (wrap 32 secondary) SECONDARY_UNRESTRICTED_GUEST =? 0)
  then Z.lor (Z.land new_cr0 (Z.ldiff cr0_all CR0_PE_PG)) (Z.land CR0_EXTENSION_TYPE CR0_PE_PG)
  else new_cr0.

Lemma init_cr0_real_mode f0 f1 secondary : Z.testbit secondary 7 = true ->
  Z.testbit (init_cr0 f0 f1 secondary) 0 = false /\ Z.testbit (init_cr0 f0 f1 secondary) 31 = false.
Proof.
  intros H. unfold init_cr0. pose proof (flag_set (wrap 32 secondary) 7 ltac:(done)) as Hf.
  change (2 ^ 7) with SECONDARY_UNRESTRICTED_GUEST in Hf. rewrite Hf. unfold wrap. rewrite Z.mod_pow2_bits_low, H by lia.
  rewrite !Z.lor_spec, !Z.land_spec, !Z.ldiff_spec. change (Z.testbit CR0_PE_PG 0) with true.
  change (Z.testbit CR0_PE_PG 31) with true. cbn [negb]. by rewrite !andb_false_r.
Qed.

Lemma reads_adjusted pa fs m i0 i1 f0 f1 cr : msrs m !! i0 = Some f0 -> msrs m !! i1 = Some f1 ->
  reads pa fs m (let! fixed0 := rdmsr i0 in let! fixed1 := rdmsr i1 in ret (Z.lor (Z.land cr fixed1) fixed0))
    (adjusted f0 f1 cr).
Proof.
  intros H0 H1. eapply reads_bind; [by apply reads_msr|]. eapply reads_bind; [by apply reads_msr|]. apply reads_ret.
Qed.

Lemma reads_init_cr0 pa fs m f0 f1 : vmcs_ready pa m -> control_SECONDARY_PROCBASED_EXEC_CONTROLS ∉ fs ->
  msrs m !! IA32_VMX_CR0_FIXED0 = Some f0 -> msrs m !! IA32_VMX_CR0_FIXED1 = Some f1 ->
  reads pa fs m (get_adjusted_guest_cr0 CR0_EXTENSION_TYPE)
    (init_cr0 f0 f1 (vmcs_data m pa control_SECONDARY_PROCBASED_EXEC_CONTROLS)).
Proof.
  intros Hm Hf H0 H1. unfold get_adjusted_guest_cr0. eapply reads_bind; [by apply reads_adjusted|].
  eapply reads_bind; [by apply reads_vmcs|]. unfold init_cr0. destruct (negb _); apply reads_ret.
Qed.

(** Registers that INIT clears. *)
Definition vmx_init_cleared : list Reg :=
  [RAX; RBX; RCX; RSI; RDI; RBP; RSP; R8; R9; R10; R11; R12; R13; R14; R15].

(** The fields of the VMCS after INIT. *)
Record init_state (f0 f1 g0 g1 : Z) (old d : VmcsField -> Z) : Prop := {
  init_activity : d guest_ACTIVITY_STATE = ActivityWaitForSipi;
  init_crs : d guest_CR0 = init_cr0 f0 f1 (old control_SECONDARY_PROCBASED_EXEC_CONTROLS) /\ d guest_CR3 = 0 /\
             d guest_CR4 = adjusted g0 g1 0 /\ d control_CR0_READ_SHADOW = 0 /\ d control_CR4_READ_SHADOW = 0;
  init_mode : d guest_IA32_EFER_FULL = 0 /\ Z.testbit (d control_VMENTRY_CONTROLS) 9 = false;
  init_cs : d guest_CS_SELECTOR = 0xf000 /\ d guest_CS_BASE = 0xffff_0000 /\ d guest_CS_ACCESS_RIGHTS = 0x9b;
  init_data : forall f, f ∈ [guest_SS_SELECTOR; guest_DS_SELECTOR; guest_ES_SELECTOR; guest_FS_SELECTOR; guest_GS_SELECTOR;
    guest_SS_BASE; guest_DS_BASE; guest_ES_BASE; guest_FS_BASE; guest_GS_BASE; guest_GDTR_BASE; guest_IDTR_BASE] -> d f = 0;
  init_rights : forall f, f ∈ [guest_SS_ACCESS_RIGHTS; guest_DS_ACCESS_RIGHTS; guest_ES_ACCESS_RIGHTS;
    guest_FS_ACCESS_RIGHTS; guest_GS_ACCESS_RIGHTS] -> d f = 0x93;
  init_system : d guest_LDTR_ACCESS_RIGHTS = 0x82 /\ d guest_TR_ACCESS_RIGHTS = 0x8b;
  init_rip : d guest_RIP = 0xfff0 /\ d guest_RSP = 0 /\ d guest_RFLAGS = 2;
}.

Lemma clear_ia32e x : Z.testbit (Z.land x (not_w 64 ENTRY_IA32E_MODE_GUEST)) 9 = false.
Proof. rewrite Z.land_spec. change (Z.testbit (not_w 64 ENTRY_IA32E_MODE_GUEST) 9) with false. apply andb_false_r. Qed.

Ltac vmwrites_step Hm :=
  erewrite bind_intro; [|eapply vmwrites_ok; [exact Hm|solve_reads]].

(** A block of writes, with names for the state after it and its VMCS. *)
Ltac vmwrites_named Hm pa m m' Hm' :=
  vmwrites_step Hm;
  match goal with |- context [vmcs_set pa ?l m] => set (m' := vmcs_set pa l m) end;
  assert (vmcs_ready pa m') as Hm' by (by apply vmcs_set_ready).

Lemma vmx_init_ok g m f0 f1 g0 g1 model :
  vmcs_ready (vmcs_pa g) m ->
  msrs m !! IA32_VMX_CR0_FIXED0 = Some f0 -> msrs m !! IA32_VMX_CR0_FIXED1 = Some f1 ->
  msrs m !! IA32_VMX_CR4_FIXED0 = Some g0 -> msrs m !! IA32_VMX_CR4_FIXED1 = Some g1 ->
  extended_model_id (hw_cpuid m) = Some model ->
  exists g' m', vmx_handle_init_signal g m = Ok (g', m') /\ vmcs_pa g' = vmcs_pa g /\ vmx_id g' = vmx_id g /\
    vmcs_ready (vmcs_pa g) m' /\ init_state f0 f1 g0 g1 (vmcs_data m (vmcs_pa g)) (vmcs_data m' (vmcs_pa g)) /\
    (forall r, r ∈ vmx_init_cleared -> vmx_registers g' r = 0) /\ vmx_registers g' RFLAGS = 2 /\
    vmx_registers g' RIP = 0xfff0 /\ vmx_registers g' RDX = Z.lor 0x600 (Z.shiftl model 16).
Proof.
  intros Hm H0 H1 H2 H3 Hmodel. unfold vmx_handle_init_signal. cbv zeta.
  rewrite rights_code, rights_data, rights_ldt, rights_tss. set (pa := vmcs_pa g) in *.
  vmwrites_named Hm pa m m1 Hm1.
  vmwrites_named Hm1 pa m1 m2 Hw2.
  unfold write_cr2, sys_write. rewrite bind_modify. set (m3 := set_sys (fset CR2 0) m2).
  assert (vmcs_ready pa m3) as Hm3 by (apply vmcs_ready_sys; by apply vmcs_set_ready).
  assert (forall fs, control_SECONDARY_PROCBASED_EXEC_CONTROLS ∉ fs ->
    reads pa fs m3 (get_adjusted_guest_cr0 CR0_EXTENSION_TYPE)
      (init_cr0 f0 f1 (vmcs_data m3 pa control_SECONDARY_PROCBASED_EXEC_CONTROLS))) as Hcr0
    by (intros fs Hfs; by apply reads_init_cr0).
  assert (forall fs, reads pa fs m3 (get_adjusted_guest_cr4 0) (adjusted g0 g1 0)) as Hcr4
    by (intros fs; by apply reads_adjusted).
  erewrite bind_intro.
  2: { eapply vmwrites_ok; [exact Hm3|].
       repeat (eapply reads_cons; [first [apply reads_ret | apply Hcr4 | apply Hcr0; by apply (bool_decide_unpack _)]|]).
       apply reads_nil. }
  match goal with |- context [vmcs_set pa ?l m3] => set (m4 := vmcs_set pa l m3) end.
  assert (vmcs_ready pa m4) as Hm4 by (by apply vmcs_set_ready).
  rewrite bind_gets. change (hw_cpuid (id m4)) with (hw_cpuid m). rewrite Hmodel. cbn [unwrap]. rewrite bind_lift_ok.
  vmwrites_named Hm4 pa m4 m5 Hw5.
  rewrite bind_modify. match goal with |- context [set_sys ?f m5] => set (m6 := set_sys f m5) end.
  assert (vmcs_ready pa m6) as Hm6 by (apply vmcs_ready_sys; by apply vmcs_set_ready).
  vmwrites_named Hm6 pa m6 m7 Hm7.
  rewrite (bind_intro _ _ _ _ _ (vmread_ready control_VMENTRY_CONTROLS pa m7 Hm7)).
  vmwrites_named Hm7 pa m7 m8 Hw8.
  eexists _, m8. split; [reflexivity|]. split; [done|]. split; [done|]. split; [by apply vmcs_set_ready|].
  set (controls := vmcs_data m7 pa control_VMENTRY_CONTROLS) in *.
  assert (vmcs_data m3 pa control_SECONDARY_PROCBASED_EXEC_CONTROLS = vmcs_data m pa control_SECONDARY_PROCBASED_EXEC_CONTROLS) as Hsec.
  { unfold m3. change (vmcs_data (set_sys _ m2)) with (vmcs_data m2). unfold m2, m1. by rewrite !vmcs_data_set. }
  assert (vmcs_data m8 pa = assign [(control_VMENTRY_CONTROLS, Z.land controls (not_w 64 ENTRY_IA32E_MODE_GUEST));
            (guest_ACTIVITY_STATE, ActivityWaitForSipi)] (vmcs_data m7 pa)) as Hd8 by apply vmcs_data_set.
  split.
  - rewrite Hd8. unfold m7. rewrite vmcs_data_set. change (vmcs_data m6) with (vmcs_data m5). unfold m5. rewrite vmcs_data_set.
    unfold m4. rewrite vmcs_data_set. rewrite Hsec.
    change (vmcs_data m3 pa) with (vmcs_data m2 pa). unfold m2. rewrite vmcs_data_set. unfold m1. rewrite vmcs_data_set.
    split; try reflexivity.
    + split_and!; reflexivity.
    + split; [reflexivity|]. exact (clear_ia32e _).
    + split_and!; reflexivity.
    + list_cases; reflexivity.
    + list_cases; reflexivity.
    + split; reflexivity.
    + split_and!; reflexivity.
  - split; [|split_and!; reflexivity]. unfold vmx_init_cleared. list_cases; reflexivity.
Qed.

Lemma vmx_sipi_ok g m v : vmcs_ready (vmcs_pa g) m ->
  vmcs_data m (vmcs_pa g) ro_EXIT_QUALIFICATION = v -> 0 <= v < 256 ->
  vmx_handle_sipi_signal g m =
    Ok (vmx_assign [(RIP, 0)] g,
        vmcs_set (vmcs_pa g) [(guest_CS_SELECTOR, v * 2 ^ 8); (guest_CS_BASE, v * 2 ^ 12); (guest_RIP, 0);
                              (guest_ACTIVITY_STATE, ActivityActive)] m).
Proof.
  intros Hm Hq Hv. unfold vmx_handle_sipi_signal. set (pa := vmcs_pa g) in *.
  rewrite (bind_intro _ _ _ _ _ (vmread_ready ro_EXIT_QUALIFICATION pa m Hm)), Hq.
  vmwrites_step Hm. cbv zeta.
  erewrite bind_intro; [|eapply vmwrites_ok; [apply vmcs_set_ready; exact Hm|solve_reads]].
  rewrite vmcs_set_app. rewrite !Z.shiftl_mul_pow2, !wrap_small by (unfold in_width; lia). done.
Qed.

(** C11: an INIT signal resets the guest to the state the architecture gives
    an application processor (real mode when the guest is unrestricted, the
    reset vector, flat real-mode segments, cleared registers) and leaves it
    waiting for a SIPI; the SIPI with vector v then makes it active at
    v * 4096, changing nothing else. *)
Theorem vmx_init_sipi g m f0 f1 g0 g1 model :
  vmcs_ready (vmcs_pa g) m ->
  msrs m !! IA32_VMX_CR0_FIXED0 = Some f0 -> msrs m !! IA32_VMX_CR0_FIXED1 = Some f1 ->
  msrs m !! IA32_VMX_CR4_FIXED0 = Some g0 -> msrs m !! IA32_VMX_CR4_FIXED1 = Some g1 ->
  extended_model_id (hw_cpuid m) = Some model ->
  Z.testbit (vmcs_data m (vmcs_pa g) control_SECONDARY_PROCBASED_EXEC_CONTROLS) 7 = true ->
  exists ga ma, vmx_handle_init_signal g m = Ok (ga, ma) /\
    let d := vmcs_data ma (vmcs_pa g) in
    init_state f0 f1 g0 g1 (vmcs_data m (vmcs_pa g)) d /\
    Z.testbit (d guest_CR0) 0 = false /\ Z.testbit (d guest_CR0) 31 = false /\
    (forall r, r ∈ vmx_init_cleared -> vmx_registers ga r = 0) /\
    vmx_registers ga RDX = Z.lor 0x600 (Z.shiftl model 16) /\
    forall mb v, vmcs_ready (vmcs_pa g) mb -> vmcs_data mb (vmcs_pa g) ro_EXIT_QUALIFICATION = v -> 0 <= v < 256 ->
      exists gc mc, vmx_handle_sipi_signal ga mb = Ok (gc, mc) /\
        let e := vmcs_data mc (vmcs_pa g) in
        e guest_CS_SELECTOR = v * 2 ^ 8 /\ e guest_CS_BASE = v * 2 ^ 12 /\ e guest_RIP = 0 /\
        e guest_ACTIVITY_STATE = ActivityActive /\
        (forall f, f ∉ [guest_CS_SELECTOR; guest_CS_BASE; guest_RIP; guest_ACTIVITY_STATE] ->
           e f = vmcs_data mb (vmcs_pa g) f) /\
        forall r, vmx_registers gc r = fset RIP 0 (vmx_registers ga) r.
Proof.
  intros Hm H0 H1 H2 H3 Hmodel H7.
  destruct (vmx_init_ok g m f0 f1 g0 g1 model Hm H0 H1 H2 H3 Hmodel)
    as (ga & ma & Hrun & Hpa & _ & _ & Hst & Hr & _ & _ & Hd).
  exists ga, ma. split; [done|]. split; [done|]. destruct (init_crs _ _ _ _ _ _ Hst) as [-> _].
  destruct (init_cr0_real_mode f0 f1 _ H7) as [-> ->]. do 4 (split; [done|]).
  intros mb v Hmb Hq Hv. rewrite <- Hpa in Hmb, Hq |- *. eexists _, _. split; [by apply vmx_sipi_ok|].
  cbv zeta. rewrite vmcs_data_set. do 4 (split; [reflexivity|]). split; [|done].
  intros f Hf. by apply assign_other.
Qed.
End InitSipi.

(** ** VM exits *)
Section Exits.
Context {P : Profile} {BF : BitfieldMacro} {XC : X86Cr0} {XI : X86CpuId}.

(** The exits caused by an instruction, by basic exit reason. *)
Definition instruction_exits : gmap Z (Z -> VmExitReason) :=
  list_to_map [(10, Cpuid); (18, VmCall); (31, Rdmsr); (32, Wrmsr); (55, XSetBv)].

Lemma vmx_exit_ok g m : vmcs_ready (vmcs_pa g) m ->
  let d := vmcs_data m (vmcs_pa g) in
  let reason := wrap 16 (d ro_EXIT_REASON) in
  let g' := vmx_assign [(RIP, d guest_RIP); (RSP, d guest_RSP); (RFLAGS, d guest_RFLAGS)] g in
  vmx_exit g m =
    match instruction_exits !! reason with
    | Some exit =>
        let? next_rip := add_w 64 (d guest_RIP) (d ro_VMEXIT_INSTRUCTION_LEN) in Ok (exit next_rip, g', m)
    | None =>
        if reason =? 3 then let? (g', m') := vmx_handle_init_signal g' m in Ok (InitSignal, g', m')
        else if reason =? 4 then let? (g', m') := vmx_handle_sipi_signal g' m in Ok (StartupIpi, g', m')
        else Panic "Unhandled VM-exit reason"
    end.
Proof.
  intros Hm. cbv zeta. set (pa := vmcs_pa g) in *. unfold vmx_exit.
  rewrite (bind_intro _ _ _ _ _ (vmread_ready guest_RIP pa m Hm)).
  rewrite (bind_intro _ _ _ _ _ (vmread_ready guest_RSP pa m Hm)).
  rewrite (bind_intro _ _ _ _ _ (vmread_ready guest_RFLAGS pa m Hm)). cbv zeta.
  rewrite (bind_intro _ _ _ _ _ (vmread_ready ro_EXIT_REASON pa m Hm)).
  set (reason := wrap 16 _).
  set (g' := vmx_assign _ g).
  assert (forall k : Z -> VmExitReason, (let! n := vmx_next_rip g' in ret (k n, g')) m =
    let? next_rip := add_w 64 (vmcs_data m pa guest_RIP) (vmcs_data m pa ro_VMEXIT_INSTRUCTION_LEN) in
    Ok (k next_rip, g', m)) as Hnext.
  { intros k. unfold bind at 1, vmx_next_rip.
    rewrite (bind_intro _ _ _ _ _ (vmread_ready ro_VMEXIT_INSTRUCTION_LEN pa m Hm)). unfold lift.
    change (vmx_registers g' RIP) with (vmcs_data m pa guest_RIP). by destruct (add_w _ _ _). }
  unfold VMX_EXIT_REASON_INIT, VMX_EXIT_REASON_SIPI, VMX_EXIT_REASON_CPUID,
    VMX_EXIT_REASON_RDMSR, VMX_EXIT_REASON_WRMSR, VMX_EXIT_REASON_XSETBV, VMX_EXIT_REASON_VMCALL.
  destruct (Z.eqb_spec reason 3) as [->|Hi].
  { unfold bind at 1, ret. change (instruction_exits !! 3) with (@None (Z -> VmExitReason)). by destruct (vmx_handle_init_signal g' m) as [[]|]. }
  destruct (Z.eqb_spec reason 4) as [->|Hs].
  { unfold bind at 1, ret. change (instruction_exits !! 4) with (@None (Z -> VmExitReason)). by destruct (vmx_handle_sipi_signal g' m) as [[]|]. }
  destruct (Z.eqb_spec reason 10) as [->|H10]; [apply Hnext|]. destruct (Z.eqb_spec reason 31) as [->|H31]; [apply Hnext|].
  destruct (Z.eqb_spec reason 32) as [->|H32]; [apply Hnext|]. destruct (Z.eqb_spec reason 55) as [->|H55]; [apply Hnext|].
  destruct (Z.eqb_spec reason 18) as [->|H18]; [apply Hnext|].
  unfold instruction_exits. cbn [list_to_map foldr fst snd uncurry].
  by rewrite !lookup_insert_ne by congruence.
Qed.

Lemma vmx_entry_ok g m : vmcs_ready (vmcs_pa g) m ->
  vmx_entry g m = Ok (tt, vmcs_set (vmcs_pa g)
    [(guest_RIP, vmx_registers g RIP); (guest_RSP, vmx_registers g RSP); (guest_RFLAGS, vmx_registers g RFLAGS)] m).
Proof. intros Hm. unfold vmx_entry. eapply vmwrites_ok; [exact Hm|solve_reads]. Qed.

(** C21: one run of the guest: it is entered with RIP, RSP and RFLAGS from its
    registers; when the entry succeeded, the registers get them back from the
    VMCS and the five instruction exits are reported with the address of the
    next instruction; a failed entry and an exit for any reason other than
    those, INIT and SIPI panic the host. *)
Theorem vmx_run_exits event g w r flags w2 :
  let pa := vmcs_pa g in
  let entered := vmcs_set pa [(guest_RIP, vmx_registers g RIP); (guest_RSP, vmx_registers g RSP);
                              (guest_RFLAGS, vmx_registers g RFLAGS)] (vmx_cpu w) in
  vmcs_ready pa (vmx_cpu w) ->
  event (vmx_registers g) (mk_vmx_world entered (shared_guest w) (vmx_apic w)) = (r, flags, w2) ->
  vmcs_ready pa (vmx_cpu w2) ->
  let d := vmcs_data (vmx_cpu w2) pa in
  let reason := wrap 16 (d ro_EXIT_REASON) in
  (Z.testbit flags 6 = true \/ Z.testbit flags 0 = true -> is_ok (vmx_run event g w) = false) /\
  (Z.testbit flags 6 = false -> Z.testbit flags 0 = false ->
     (forall exit, instruction_exits !! reason = Some exit ->
        in_width 64 (d guest_RIP + d ro_VMEXIT_INSTRUCTION_LEN) ->
        vmx_run event g w =
          Ok (exit (d guest_RIP + d ro_VMEXIT_INSTRUCTION_LEN),
              vmx_assign [(RIP, d guest_RIP); (RSP, d guest_RSP); (RFLAGS, d guest_RFLAGS)] (set_vmx_registers r g), w2)) /\
     (instruction_exits !! reason = None -> reason <> 3 -> reason <> 4 ->
        vmx_run event g w = Panic "Unhandled VM-exit reason")).
Proof.
  intros pa entered Hw Hev Hw2 d reason.
  assert (vmx_run event g w = (let! res := on_cpu (vmx_succeed flags) in
    match res with
    | RErr (VmFailValid _) => mpanic "VmFailValid"
    | RErr VmFailInvalid => mpanic "VmFailInvalid"
    | ROk _ => on_cpu (vmx_exit (set_vmx_registers r g))
    end) w2) as ->.
  { unfold vmx_run. rewrite (bind_intro _ _ _ _ _ (on_cpu_ok (HC := cpu_vmx) _ w _ _ (vmx_entry_ok g (vmx_cpu w) Hw))).
    unfold bind at 1. unfold bind at 1. cbn [put_cpu cpu_vmx]. fold pa entered. by rewrite Hev. }
  pose proof (two_flags flags 6 6 ltac:(done) ltac:(done)) as Hzf. change (Z.lor (2 ^ 6) (2 ^ 6)) with FLAGS_ZF in Hzf.
  pose proof (two_flags flags 0 0 ltac:(done) ltac:(done)) as Hcf. change (Z.lor (2 ^ 0) (2 ^ 0)) with FLAGS_CF in Hcf.
  rewrite andb_diag in Hzf, Hcf.
  assert (vmx_succeed flags (vmx_cpu w2) = Ok
    (if Z.testbit flags 6 then RErr (VmFailValid (d ro_VM_INSTRUCTION_ERROR))
     else if Z.testbit flags 0 then RErr VmFailInvalid else ROk tt, vmx_cpu w2)) as Hs.
  { unfold vmx_succeed. rewrite Hzf, Hcf. destruct (Z.testbit flags 6).
    - by rewrite (bind_intro _ _ _ _ _ (vmread_ready ro_VM_INSTRUCTION_ERROR pa _ Hw2)).
    - by destruct (Z.testbit flags 0). }
  rewrite (bind_intro _ _ _ _ _ (on_cpu_reads (HC := cpu_vmx) _ w2 _ Hs)). split.
  - destruct (Z.testbit flags 6); [done|]. intros [|H]; [done|]. by rewrite H.
  - intros -> ->. unfold on_cpu. cbn [get_cpu cpu_vmx].
    rewrite (vmx_exit_ok (set_vmx_registers r g) (vmx_cpu w2) Hw2). cbv zeta.
    change (vmcs_pa (set_vmx_registers r g)) with pa. fold d reason. split.
    + intros exit -> Hw64. rewrite add_w_small by done. cbn [obind put_cpu cpu_vmx]. by destruct w2.
    + intros -> H3 H4. by rewrite (proj2 (Z.eqb_neq _ _) H3), (proj2 (Z.eqb_neq _ _) H4).
Qed.
End Exits.

(** ** Leaving *)

Lemma vmcs_ready_msrs pa f m : vmcs_ready pa m -> vmcs_ready pa (set_msrs f m).
Proof. intros [H1 H2]. split; [exact H1|exact H2]. Qed.

Section Leaving.
Context {P : Profile} {BF : BitfieldMacro} {BT : BitFieldTrait} {XS : X86Segmentation} {XT : X86Task}
  {XC : X86Cr0} {XI : X86CpuId} {X86 : X86Xcr0} {Proc : Type} {OPS : PlatformOps Proc}.
Context (bsf_zero : Z) (vmcs_addr : Z -> Z) (bitmaps_addr epts_addr : Z) (tss_addr : Z -> Z)
  (shared_host : SharedHostData) (vmxon_addr : Z).
#[local] Instance intel_guest : Guest VmxWorld VmxGuest VmxEvent :=
  vmx_guest bsf_zero vmcs_addr bitmaps_addr epts_addr tss_addr shared_host.
#[local] Instance intel_extension : Extension VmxWorld Vmx := vmx_extension vmxon_addr.

(** What leaving loads from the VMCS. *)
Definition vmx_restored (d : VmcsField -> Z) (m : Machine) : Machine :=
  let m := set_sys (fset CR4 (d guest_CR4)) (set_sys (fset CR0 (d guest_CR0)) (set_sys (fset CR3 (d guest_CR3)) m)) in
  let m := set_msrs <[IA32_GS_BASE := d guest_GS_BASE]> (set_msrs <[IA32_FS_BASE := d guest_FS_BASE]> m) in
  let m := set_sys (assign [(GDTR_BASE, d guest_GDTR_BASE); (GDTR_LIMIT, wrap 16 (d guest_GDTR_LIMIT))]) m in
  set_sys (assign [(IDTR_BASE, d guest_IDTR_BASE); (IDTR_LIMIT, wrap 16 (d guest_IDTR_LIMIT))]) m.

Lemma vmread_bind {B} f pa m (k : Z -> M Machine B) : vmcs_ready pa m ->
  bind (vmread f) k m = k (vmcs_data m pa f) m.
Proof. intros Hm. by rewrite (bind_intro _ _ _ _ _ (vmread_ready f pa m Hm)). Qed.

Lemma vmx_load_ok g w : vmcs_ready (vmcs_pa g) (vmx_cpu w) ->
  is_Some (msrs (vmx_cpu w) !! IA32_FS_BASE) -> is_Some (msrs (vmx_cpu w) !! IA32_GS_BASE) ->
  vmx_load_guest_cpu_state g w =
    Ok (tt, put_cpu (vmx_restored (vmcs_data (vmx_cpu w) (vmcs_pa g)) (vmx_cpu w)) w).
Proof.
  set (pa := vmcs_pa g). set (m := vmx_cpu w). intros Hm [fs Hfs] [gs Hgs].
  unfold vmx_load_guest_cpu_state. apply on_cpu_ok. cbn [get_cpu cpu_vmx]. fold m.
  unfold cr3_write, cr0_write, cr4_write, sys_write, lgdt, lidt.
  assert (forall f x, vmcs_ready pa x -> vmcs_ready pa (set_sys f x)) as Hs by apply vmcs_ready_sys.
  assert (forall f x, vmcs_ready pa x -> vmcs_ready pa (set_msrs f x)) as Hr by apply vmcs_ready_msrs.
  erewrite bind_intro; [|rewrite (vmread_bind _ pa) by auto; reflexivity].
  erewrite bind_intro; [|rewrite (vmread_bind _ pa) by auto; reflexivity].
  erewrite bind_intro; [|rewrite (vmread_bind _ pa) by auto; reflexivity].
  erewrite bind_intro; [|rewrite (vmread_bind _ pa) by auto; eapply wrmsr_some; exact Hfs].
  erewrite bind_intro.
  2: { rewrite (vmread_bind _ pa) by auto. apply (wrmsr_some _ _ gs).
       cbn [msrs set_msrs set_sys]. rewrite lookup_insert_ne by done. exact Hgs. }
  erewrite bind_intro.
  2: { rewrite (vmread_bind _ pa), (vmread_bind _ pa) by auto 10. reflexivity. }
  rewrite (vmread_bind _ pa), (vmread_bind _ pa) by auto 10. reflexivity.
Qed.

End Leaving.

(** ** Initialization *)
Section Initialization.
Context {P : Profile} {BF : BitfieldMacro} {BT : BitFieldTrait} {XS : X86Segmentation} {XT : X86Task}
  {XC : X86Cr0} {XI : X86CpuId} {Proc : Type} {OPS : PlatformOps Proc}.
Context (bsf_zero : Z) (bitmaps_addr epts_addr : Z) (tss_addr : Z -> Z) (shared_host : SharedHostData).

Definition adjusted_control (requested caps : Z) : Z :=
  Z.land (Z.lor requested (wrap 32 caps)) (wrap 32 (Z.shiftr caps 32)).

(** The capability MSRs of the five controls in use. *)
Definition used_controls : list VmxControl := [VmExit; VmEntry; PinBased; ProcessorBased; ProcessorBased2].
Record has_controls (m : Machine) (basic : Z) (caps : VmxControl -> Z) : Prop := {
  controls_basic : msrs m !! IA32_VMX_BASIC = Some basic;
  controls_caps : forall c, c ∈ used_controls ->
    msrs m !! capability_msr c (Z.testbit basic 55) = Some (caps c);
}.

Lemma reads_control pa fs m basic caps c requested : has_controls m basic caps -> c ∈ used_controls ->
  requested < 2 ^ 32 -> reads pa fs m (adjust_vmx_control c requested) (adjusted_control requested (caps c)).
Proof.
  intros [Hb Hc] Hin Hr. unfold adjust_vmx_control. eapply reads_bind; [by apply reads_msr|]. cbv zeta.
  pose proof (flag_set basic 55 ltac:(done)) as Hf. change (2 ^ 55) with (Z.shiftl 1 55) in Hf. rewrite Hf.
  specialize (Hc c Hin).
  assert (reads pa fs m (let! capabilities := rdmsr (capability_msr c (Z.testbit basic 55)) in
      let allowed0 := wrap 32 capabilities in let allowed1 := wrap 32 (Z.shiftr capabilities 32) in
      massert (requested <? 2 ^ 32) "u32::try_from(requested_value).unwrap()" ;;!
      ret (Z.land (Z.lor requested allowed0) allowed1)) (adjusted_control requested (caps c))) as H.
  { eapply reads_bind; [by apply reads_msr|]. apply reads_massert; [by apply Z.ltb_lt|]. apply reads_ret. }
  destruct c; try exact H. exfalso. unfold used_controls in Hin. rewrite !elem_of_cons, elem_of_nil in Hin.
  destruct Hin as [|[|[|[|[|[]]]]]]; discriminate.
Qed.

(** The controls a guest runs with. *)
Definition primary_requested : Z :=
  Z.lor (Z.lor PRIMARY_USE_MSR_BITMAPS PRIMARY_SECONDARY_CONTROLS) (Z.shiftl 1 18).
Definition secondary_requested : Z :=
  Z.lor (Z.lor (Z.lor (Z.lor (Z.lor SECONDARY_ENABLE_EPT SECONDARY_UNRESTRICTED_GUEST)
    SECONDARY_ENABLE_RDTSCP) SECONDARY_ENABLE_INVPCID) SECONDARY_ENABLE_XSAVES_XRSTORS)
    SECONDARY_ENABLE_USER_WAIT_PAUSE.

Definition control_values (caps : VmxControl -> Z) : list (VmcsField * Z) :=
  [(control_VMEXIT_CONTROLS, adjusted_control EXIT_HOST_ADDRESS_SPACE_SIZE (caps VmExit));
   (control_VMENTRY_CONTROLS, adjusted_control ENTRY_IA32E_MODE_GUEST (caps VmEntry));
   (control_PINBASED_EXEC_CONTROLS, adjusted_control 0 (caps PinBased));
   (control_PRIMARY_PROCBASED_EXEC_CONTROLS, adjusted_control primary_requested (caps ProcessorBased));
   (control_SECONDARY_PROCBASED_EXEC_CONTROLS, adjusted_control secondary_requested (caps ProcessorBased2));
   (control_MSR_BITMAPS_ADDR_FULL, pa bitmaps_addr);
   (control_EPTP_FULL, eptp epts_addr)].

Definition with_vmcs (l : list (VmcsField * Z)) (addr : Z) (w : VmxWorld) : VmxWorld :=
  mk_vmx_world (vmcs_set addr l (vmx_cpu w)) (shared_guest w) (vmx_apic w).

(** The controls, around the data all guests share. *)
Lemma vmx_control_data addr w basic caps epts e : vmcs_ready addr (vmx_cpu w) -> has_controls (vmx_cpu w) basic caps ->
  shared_guest_data bsf_zero epts_addr (with_vmcs (take 5 (control_values caps)) addr w) =
    Ok (epts, mk_vmx_world (vmcs_set addr (take 5 (control_values caps)) (vmx_cpu w)) e (vmx_apic w)) ->
  vmx_initialize_control bsf_zero bitmaps_addr epts_addr w =
    Ok (tt, mk_vmx_world (vmcs_set addr (control_values caps) (vmx_cpu w)) e (vmx_apic w)).
Proof.
  intros Hm Hc He. unfold vmx_initialize_control. set (m := vmx_cpu w) in *.
  set (first5 := take 5 (control_values caps)) in *.
  rewrite (bind_intro _ _ w tt (with_vmcs first5 addr w)).
  2: { apply (on_cpu_ok (HC := cpu_vmx)). eapply vmwrites_ok; [exact Hm|]. unfold first5, control_values. cbn [take].
       repeat (eapply reads_cons; [apply (reads_control _ _ _ basic caps); [exact Hc|unfold used_controls; in_list|done]|]).
       apply reads_nil. }
  rewrite (bind_intro _ _ _ _ _ He). set (w5 := mk_vmx_world _ e _).
  transitivity (Ok (tt, with_vmcs (drop 5 (control_values caps)) addr w5)).
  - apply (on_cpu_ok (HC := cpu_vmx)). eapply vmwrites_ok; [by apply vmcs_set_ready|].
    unfold control_values. cbn [drop]. solve_reads.
  - unfold with_vmcs, w5. cbn [vmx_cpu shared_guest vmx_apic]. rewrite vmcs_set_app. unfold first5. by rewrite take_drop.
Qed.

Lemma vmx_control_ok addr w basic caps epts : vmcs_ready addr (vmx_cpu w) -> has_controls (vmx_cpu w) basic caps ->
  shared_guest w = Some epts ->
  vmx_initialize_control bsf_zero bitmaps_addr epts_addr w = Ok (tt, with_vmcs (control_values caps) addr w).
Proof.
  intros Hm Hc He. apply (vmx_control_data addr w basic caps epts (shared_guest w) Hm Hc).
  unfold shared_guest_data, with_vmcs. cbn [shared_guest]. by rewrite He.
Qed.

(** The values of the MSRs a guest starts with. *)
Record vmx_msrs (m : Machine) (fs_base gs_base sys_cs sys_eip sys_esp : Z) : Prop := {
  vm_fs : msrs m !! IA32_FS_BASE = Some fs_base;
  vm_gs : msrs m !! IA32_GS_BASE = Some gs_base;
  vm_cs : msrs m !! IA32_SYSENTER_CS = Some sys_cs;
  vm_eip : msrs m !! IA32_SYSENTER_EIP = Some sys_eip;
  vm_esp : msrs m !! IA32_SYSENTER_ESP = Some sys_esp;
}.

Definition guest_values (m : Machine) (r : Registers) (tr_base fs_base gs_base sys_cs sys_eip sys_esp : Z)
    : list (VmcsField * Z) :=
  [(guest_ES_SELECTOR, sys m ES); (guest_CS_SELECTOR, sys m CS); (guest_SS_SELECTOR, sys m SS);
   (guest_DS_SELECTOR, sys m DS); (guest_FS_SELECTOR, sys m FS); (guest_GS_SELECTOR, sys m GS);
   (guest_TR_SELECTOR, sys m TR); (guest_LDTR_SELECTOR, sys m LDTR);
   (guest_ES_LIMIT, loaded_limit m ES); (guest_CS_LIMIT, loaded_limit m CS); (guest_SS_LIMIT, loaded_limit m SS);
   (guest_DS_LIMIT, loaded_limit m DS); (guest_FS_LIMIT, loaded_limit m FS); (guest_GS_LIMIT, loaded_limit m GS);
   (guest_TR_LIMIT, loaded_limit m TR);
   (guest_ES_ACCESS_RIGHTS, loaded_rights m ES); (guest_CS_ACCESS_RIGHTS, loaded_rights m CS);
   (guest_SS_ACCESS_RIGHTS, loaded_rights m SS); (guest_DS_ACCESS_RIGHTS, loaded_rights m DS);
   (guest_FS_ACCESS_RIGHTS, loaded_rights m FS); (guest_GS_ACCESS_RIGHTS, loaded_rights m GS);
   (guest_TR_ACCESS_RIGHTS, loaded_rights m TR); (guest_LDTR_ACCESS_RIGHTS, access_rights 0);
   (guest_FS_BASE, fs_base); (guest_GS_BASE, gs_base); (guest_TR_BASE, tr_base);
   (guest_GDTR_BASE, sys m GDTR_BASE); (guest_GDTR_LIMIT, sys m GDTR_LIMIT);
   (guest_IDTR_BASE, sys m IDTR_BASE); (guest_IDTR_LIMIT, sys m IDTR_LIMIT);
   (guest_IA32_SYSENTER_CS, sys_cs); (guest_IA32_SYSENTER_EIP, sys_eip); (guest_IA32_SYSENTER_ESP, sys_esp);
   (guest_LINK_PTR_FULL, u64_max);
   (guest_CR0, sys m CR0); (guest_CR3, sys m CR3); (guest_CR4, sys m CR4);
   (guest_RSP, r RSP); (guest_RIP, r RIP); (guest_RFLAGS, r RFLAGS)].

(** The base a loaded selector designates. *)
Definition loaded_base (m : Machine) (selector base : Z) : Prop :=
  exists d, try_from_gdtr (mem m) (mk_dtp (sys m GDTR_BASE) (sys m GDTR_LIMIT)) selector = Ok (ROk d) /\
    descriptor_base d = Ok base.

Lemma segment_base_ok m m' selector base : loaded_base m selector base -> mem m' = mem m ->
  segment_base (mk_dtp (sys m GDTR_BASE) (sys m GDTR_LIMIT)) selector m' = Ok (base, m').
Proof. intros (d & Hd & Hb) Hmem. unfold segment_base. rewrite Hmem, Hd. cbn [obind]. by rewrite Hb. Qed.

Lemma vmx_guest_ok addr g m tr_base fs_base gs_base sys_cs sys_eip sys_esp :
  vmcs_ready addr m -> vmx_msrs m fs_base gs_base sys_cs sys_eip sys_esp -> loaded_base m (sys m TR) tr_base ->
  vmx_initialize_guest g m =
    Ok (tt, vmcs_set addr (guest_values m (vmx_registers g) tr_base fs_base gs_base sys_cs sys_eip sys_esp) m).
Proof.
  intros Hm [H1 H2 H3 H4 H5] Htr. unfold vmx_initialize_guest, sidt, sgdt. rewrite !bind_gets.
  assert (forall fs, reads addr fs m (let! t := tr in segment_base (mk_dtp (sys m GDTR_BASE) (sys m GDTR_LIMIT)) t) tr_base)
    as Hbase.
  { intros fs. eapply reads_bind; [apply reads_sys|]. intros l _. by apply segment_base_ok. }
  eapply vmwrites_ok; [exact Hm|]. unfold guest_values. cbn [dtp_base dtp_limit].
  repeat (eapply reads_cons; [first [apply Hbase|solve_read]|]). apply reads_nil.
Qed.

(** The host's GDT, TR and TSS: those prepared for the processor when it has
    some, the current ones otherwise. *)
Inductive host_segments (id : Z) (m : Machine) : Z -> Z -> Z -> Prop :=
  | host_own gdts addr gt t : host_gdts shared_host = Some gdts -> gdts !! Z.to_nat id = Some (addr, gt) ->
      gdt gt <> [] -> tr_sel gt = Some t -> is_Some (tss gt) -> host_segments id m addr t (tss_addr id)
  | host_current base : host_gdts shared_host = None -> loaded_base m (sys m TR) base ->
      host_segments id m (sys m GDTR_BASE) (sys m TR) base.

Definition host_cr3 (m : Machine) : Z := match host_pt shared_host with Some pml4 => pml4 | None => sys m CR3 end.
Definition host_idt_base (m : Machine) : Z :=
  match host_idt shared_host with Some (addr, _) => addr | None => sys m IDTR_BASE end.

Definition host_values (m : Machine) (fs_base gs_base gdt_base t tss_base : Z) : list (VmcsField * Z) :=
  let sel r := Z.land (sys m r) (not_w 16 7) in
  [(host_ES_SELECTOR, sel ES); (host_CS_SELECTOR, sel CS); (host_SS_SELECTOR, sel SS); (host_DS_SELECTOR, sel DS);
   (host_FS_SELECTOR, sel FS); (host_GS_SELECTOR, sel GS); (host_TR_SELECTOR, Z.land t (not_w 16 7));
   (host_CR0, sys m CR0); (host_CR3, host_cr3 m); (host_CR4, sys m CR4);
   (host_FS_BASE, fs_base); (host_GS_BASE, gs_base); (host_TR_BASE, tss_base); (host_GDTR_BASE, gdt_base);
   (host_IDTR_BASE, host_idt_base m)].

Lemma vmx_host_ok addr g m fs_base gs_base gdt_base t tss_base :
  vmcs_ready addr m -> msrs m !! IA32_FS_BASE = Some fs_base -> msrs m !! IA32_GS_BASE = Some gs_base ->
  host_segments (vmx_id g) m gdt_base t tss_base ->
  (forall a idt, host_idt shared_host = Some (a, idt) -> length idt = 256%nat) ->
  vmx_initialize_host tss_addr shared_host g m =
    Ok (tt, vmcs_set addr (host_values m fs_base gs_base gdt_base t tss_base) m).
Proof.
  intros Hm Hfs Hgs Hseg Hidt. unfold vmx_initialize_host.
  rewrite (bind_intro _ _ m (host_cr3 m) m) by (unfold host_cr3; by destruct (host_pt shared_host)).
  rewrite (bind_intro _ _ m (gdt_base, t, tss_base) m).
  2: { unfold host_gdt_tr_tss. destruct Hseg as [gdts a gt t' Hg Hl Hne Ht [x Hx]|base Hg Hb]; rewrite Hg.
       - rewrite Hl. cbn [unwrap]. rewrite bind_lift_ok. rewrite bind_massert by (by destruct (gdt gt)).
         rewrite Ht, Hx. cbn [unwrap]. by rewrite !bind_lift_ok.
       - unfold sgdt, tr, sys_read. rewrite !bind_gets.
         by rewrite (bind_intro _ _ _ _ _ (segment_base_ok m m _ _ Hb eq_refl)). }
  rewrite (bind_intro _ _ m (host_idt_base m) m).
  2: { unfold host_idt_base. destruct (host_idt shared_host) as [[a idt]|] eqn:Hi; [|done].
       unfold idtr. by rewrite (Hidt a idt eq_refl). }
  assert (forall fs r, reads addr fs m (host_selector r) (Z.land (sys m r) (not_w 16 7))) as Hsel
    by (intros fs r; eapply reads_bind; [apply reads_sys|apply reads_ret]).
  eapply vmwrites_ok; [exact Hm|]. unfold host_values. cbv zeta.
  repeat (eapply reads_cons; [first [apply Hsel|solve_read]|]). apply reads_nil.
Qed.

(** Initialization after the controls. *)
Lemma vmx_initialize_after registers g w w1 caps tr_base fs_base gs_base sys_cs sys_eip sys_esp gdt_base t tss_base :
  let m := vmx_cpu w in
  vmcs_ready (vmcs_pa g) m -> vmx_msrs m fs_base gs_base sys_cs sys_eip sys_esp -> loaded_base m (sys m TR) tr_base ->
  host_segments (vmx_id g) m gdt_base t tss_base ->
  (forall a idt, host_idt shared_host = Some (a, idt) -> length idt = 256%nat) ->
  vmx_initialize_control bsf_zero bitmaps_addr epts_addr w = Ok (tt, w1) ->
  vmx_cpu w1 = vmcs_set (vmcs_pa g) (control_values caps) m ->
  vmx_initialize bsf_zero bitmaps_addr epts_addr tss_addr shared_host registers g w =
    Ok (set_vmx_registers registers g,
        mk_vmx_world (vmcs_set (vmcs_pa g)
          (control_values caps ++ guest_values m registers tr_base fs_base gs_base sys_cs sys_eip sys_esp ++
           host_values m fs_base gs_base gdt_base t tss_base) m) (shared_guest w1) (vmx_apic w1)).
Proof.
  intros m Hm Hmsrs Htr Hseg Hidt Hcontrol Hw1. unfold vmx_initialize. set (g' := set_vmx_registers registers g).
  rewrite (bind_intro _ _ _ _ _ Hcontrol).
  assert (vmcs_ready (vmcs_pa g) (vmx_cpu w1)) as Hm1 by (rewrite Hw1; by apply vmcs_set_ready).
  assert (vmx_msrs (vmx_cpu w1) fs_base gs_base sys_cs sys_eip sys_esp) as Hmsrs1 by (rewrite Hw1; destruct Hmsrs; by split).
  assert (loaded_base (vmx_cpu w1) (sys (vmx_cpu w1) TR) tr_base) as Htr1 by (by rewrite Hw1).
  pose proof (vmx_guest_ok (vmcs_pa g) g' (vmx_cpu w1) tr_base _ _ _ _ _ Hm1 Hmsrs1 Htr1) as Hguest.
  rewrite (bind_intro _ _ _ _ _ (on_cpu_ok (HC := cpu_vmx) _ w1 _ _ Hguest)).
  match goal with |- context [put_cpu ?m2 w1] => set (m2' := m2); set (w2 := put_cpu (HasCpu := cpu_vmx) m2' w1) end.
  assert (host_segments (vmx_id g') (vmx_cpu w2) gdt_base t tss_base) as Hseg2.
  { unfold w2, m2'. cbn [put_cpu cpu_vmx vmx_cpu]. rewrite Hw1.
    destruct Hseg as [gdts a gt t H1 H2 H3 H4 H5|b H1 H2]; [by eapply host_own|].
    by apply (host_current _ (vmcs_set _ _ (vmcs_set _ _ m))). }
  assert (vmcs_ready (vmcs_pa g) (vmx_cpu w2)) as Hm2 by (by apply vmcs_set_ready).
  pose proof (vmx_host_ok (vmcs_pa g) g' (vmx_cpu w2) fs_base gs_base gdt_base t tss_base Hm2
    (vm_fs _ _ _ _ _ _ Hmsrs1) (vm_gs _ _ _ _ _ _ Hmsrs1)) as Hhost.
  rewrite (bind_intro _ _ _ _ _ (on_cpu_ok (HC := cpu_vmx) _ w2 _ _ (Hhost Hseg2 Hidt))).
  unfold ret. do 2 f_equal. unfold w2, m2'. cbn [put_cpu cpu_vmx vmx_cpu shared_guest vmx_apic].
  rewrite Hw1. by rewrite !vmcs_set_app.
Qed.

Definition host_selectors : list VmcsField :=
  [host_ES_SELECTOR; host_CS_SELECTOR; host_SS_SELECTOR; host_DS_SELECTOR; host_FS_SELECTOR; host_GS_SELECTOR;
   host_TR_SELECTOR].

Lemma aligned_selector s : field (Z.land s (not_w 16 7)) 0 3 = 0.
Proof.
  apply Z.bits_inj'. intros i Hi. rewrite field_testbit, Z.add_0_r, Z.land_spec, Z.testbit_0_l by lia.
  destruct (Z.ltb_spec i 3); [|done]. assert (i = 0 \/ i = 1 \/ i = 2) as Hcase by lia.
  destruct Hcase as [->|[->| ->]]; cbn [andb]; apply andb_false_r.
Qed.

End Initialization.

(** ** Witnesses: a processor of a 64-bit system, before and in VMX operation *)
Module VmxExample.
Import Reference.
#[local] Instance checked : Profile := true.
#[local] Existing Instance PagingExample.ops.
#[local] Existing Instance TablesExample.x86_task.
#[local, refine] Instance cpu_id : X86CpuId := { extended_model_id f := Some (field (eax (f 1 0)) 16 4) }.
Proof. done. Defined.

(** The GDT at 0x1000 of [TablesExample], with its TSS loaded. *)
Definition long_mode (r : SysReg) : Z :=
  match r with
  | CS => 0x8
  | TR => 0x10
  | GDTR_BASE => 0x1000
  | GDTR_LIMIT => 0x1f
  | CR0 => 0x8001_0033
  | CR3 => 0x5000
  | CR4 => 0x668
  | _ => 0
  end.

Definition capabilities : list (Z * Z) :=
  [(IA32_VMX_BASIC, 0x0080_0000_0000_0012);
   (IA32_VMX_CR0_FIXED0, 0x8000_0021); (IA32_VMX_CR0_FIXED1, 0xffff_ffff);
   (IA32_VMX_CR4_FIXED0, 0x2000); (IA32_VMX_CR4_FIXED1, 0x3767ff);
   (IA32_VMX_TRUE_PINBASED_CTLS, 0x0000_007f_0000_0016); (IA32_VMX_TRUE_PROCBASED_CTLS, 0xfff9_fffe_0400_6172);
   (IA32_VMX_TRUE_EXIT_CTLS, 0x00ff_ffff_0003_6dfb); (IA32_VMX_TRUE_ENTRY_CTLS, 0x0000_ffff_0000_11fb);
   (IA32_VMX_PROCBASED_CTLS2, 0xffff_ffff_0000_0000)].

Definition processor (feature_control : Z) (mode : VmxMode) (vmcs : gmap Z (VmcsField -> Z)) : Machine :=
  mk_machine long_mode
    (list_to_map (capabilities ++ [(IA32_FEATURE_CONTROL, feature_control); (IA32_FS_BASE, 0); (IA32_GS_BASE, 0x7000);
       (IA32_SYSENTER_CS, 0); (IA32_SYSENTER_EIP, 0); (IA32_SYSENTER_ESP, 0)]))
    TablesExample.gdt_memory (fun _ => 0) mode vmcs (fun _ _ => mk_cpuid 0x906ea 0 0 0)
    (fun _ => (0xffff_ffff, FLAGS_ZF)) (fun _ => (0xaf_9b00, FLAGS_ZF)).

Lemma vmx_enable_disable_witness : exists vt vt' m',
  vmx_default 0x9000 (processor 0 VmxOff ∅) = Ok (vt, processor 0 VmxOff ∅) /\
  vmx_enable vt (processor 0 VmxOff ∅) = Ok (vt', m') /\ vmx m' = VmxRoot 0x9000 None.
Proof.
  destruct (vmx_enable_disable (processor 0 VmxOff ∅) 0x9000 0x0080_0000_0000_0012 0x8000_0021 0xffff_ffff 0x2000 0x3767ff 0)
    as (vt & H1 & _ & H2).
  { split; reflexivity. }
  destruct (H2 ltac:(left; reflexivity)) as (vt' & m' & H3 & H4 & _).
  exists vt, vt', m'. split_and!; [exact H1|exact H3|exact H4].
Defined.

Lemma adjust_vmx_control_spec_witness : exists v,
  adjust_vmx_control ProcessorBased 0x9004_0000 (processor 0 VmxOff ∅) = Ok (v, processor 0 VmxOff ∅) /\
  Z.testbit v 28 = true /\ Z.testbit v 18 = false /\ Z.testbit v 1 = true.
Proof.
  destruct (adjust_vmx_control_spec (processor 0 VmxOff ∅) ProcessorBased 0x9004_0000 0x0080_0000_0000_0012
    0xfff9_fffe_0400_6172 ltac:(discriminate) ltac:(done) ltac:(reflexivity) ltac:(reflexivity) ltac:(reflexivity))
    as (v & Hv & _ & Hb).
  exists v. split; [exact Hv|].
  rewrite (Hb 28 ltac:(lia)), (Hb 18 ltac:(lia)), (Hb 1 ltac:(lia)). split_and!; reflexivity.
Defined.

(** The current VMCS at 0x3000, of a guest with the secondary controls on. *)
Definition vmcs0 (f : VmcsField) : Z :=
  match f with
  | control_SECONDARY_PROCBASED_EXEC_CONTROLS => 0x8a
  | control_VMENTRY_CONTROLS => 0x13fb
  | guest_CR0 => 0x8000_0033
  | guest_CR3 => 0x1_5000
  | guest_RIP => 0x4000
  | ro_EXIT_REASON => 10
  | ro_VMEXIT_INSTRUCTION_LEN => 2
  | ro_EXIT_QUALIFICATION => 0x9a
  | _ => 0
  end.
Definition running : Machine := processor 5 (VmxRoot 0x9000 (Some 0x3000)) {[ 0x3000 := vmcs0 ]}.
Definition guest1 : VmxGuest := mk_vmx_guest 1 (assign [(RIP, 0x4000); (RSP, 0x8000)] (fun _ => 7)) 0x3000 0x12.
Definition world1 : VmxWorld := mk_vmx_world running (Some Epts_zeroed) apic_state0.

Lemma running_ready : vmcs_ready 0x3000 running.
Proof. split; [reflexivity|by eexists]. Qed.

Lemma vmx_init_sipi_witness : exists ga ma gc mc,
  vmx_handle_init_signal guest1 running = Ok (ga, ma) /\ vmx_registers ga RBX = 0 /\ vmx_registers ga RDX = 0x9_0600 /\
  vmx_handle_sipi_signal ga running = Ok (gc, mc) /\ vmcs_data mc 0x3000 guest_CS_BASE = 0x9_a000.
Proof.
  destruct (vmx_init_sipi guest1 running 0x8000_0021 0xffff_ffff 0x2000 0x3767ff 9 running_ready
    ltac:(reflexivity) ltac:(reflexivity) ltac:(reflexivity) ltac:(reflexivity) ltac:(reflexivity) ltac:(reflexivity))
    as (ga & ma & H1 & _ & _ & _ & H2 & H3 & H4).
  destruct (H4 running 0x9a running_ready ltac:(reflexivity) ltac:(lia)) as (gc & mc & H5 & _ & H6 & _).
  exists ga, ma, gc, mc. split; [exact H1|]. split; [apply H2; unfold vmx_init_cleared; in_list|].
  split; [exact H3|]. split; [exact H5|exact H6].
Defined.

(** The guest executes CPUID at 0x4000 without changing anything else. *)
Lemma vmx_run_exits_witness : exists g' w',
  vmx_run (fun r w => (r, 2, mk_vmx_world running None apic_state0)) guest1 world1 = Ok (Cpuid 0x4002, g', w') /\
  vmx_registers g' RIP = 0x4000.
Proof.
  destruct (vmx_run_exits (fun r w => (r, 2, mk_vmx_world running None apic_state0)) guest1 world1
    (vmx_registers guest1) 2 (mk_vmx_world running None apic_state0) running_ready ltac:(reflexivity) running_ready)
    as (_ & H).
  destruct (H ltac:(reflexivity) ltac:(reflexivity)) as (H1 & _).
  eexists _, _. split; [exact (H1 Cpuid ltac:(reflexivity) ltac:(done))|reflexivity].
Defined.


Definition capability_of (c : VmxControl) : Z :=
  default 0 (list_to_map (M := gmap Z Z) capabilities !! capability_msr c true).

Lemma tss_loaded : loaded_base running 0x10 0x2345_6000.
Proof. exists (mk_sd 2522166722383839335 (Some 0)). split; vm_compute; reflexivity. Qed.

End VmxExample.
