(* ===== verification/Sipi.v ===== *)
(** * The INIT-SIPI protocol between processors (hvcore amd/guest.rs)

    Processors share one byte of activity state each.  A processor that gets
    an INIT stores WaitForSipi in its own byte and polls it; a processor whose
    guest sends a SIPI stores the vector in the target's byte, if that is
    waiting.  This file interleaves the atomic accesses of all processors. *)

From S2P Require Import Prelude External Machine Platform Paging ApicId Host Vmcb Svm SvmProofs.

(** ** The protocol *)

(** Where a processor stands: running its guest, polling in [wait_for_sipi],
    after a look that did not see WaitForSipi, after the swap that took the
    vector, or panicked at an assertion. *)
Inductive Phase : Type :=
  | GuestRuns
  | Polling
  | SawVector
  | Took (vector : Z)
  | Panicked.

(** What happened, for the statements: an INIT of a processor, a SIPI sent to
    a processor, and the start of a processor at a vector. *)
Inductive Event : Type :=
  | Init (id : Z)
  | Sent (target vector : Z)
  | Started (id vector : Z).

Record Config : Type := mk_config {
  world : SvmWorld;
  phase : Z -> Phase;
  history : list Event;                (* latest first *)
}.

Definition at_phase (i : Z) (p : Phase) (f : Z -> Phase) : Z -> Phase :=
  fun j => if decide (i = j) then p else f j.

(** One atomic access to [activity_states], with the control flow of the
    processor that makes it: the swap of [handle_init_signal] with its
    assertion, a look of [wait_for_sipi], its swap, the load of [handle_sipi]
    with its assertion, and the exchange of [handle_nested_page_fault].  The
    label is the processor; a step that leaves the states alone has none. *)
Inductive step : option Z -> Config -> Config -> Prop :=
  | step_init i c previous w :
      phase c i = GuestRuns -> 0 < i ->
      activity_swap i WaitForSipi (world c) = Ok (previous, w) ->
      step (Some i) c (mk_config w (at_phase i (if previous =? Active then Polling else Panicked) (phase c))
                         (Init i :: history c))
  | step_look i c state w :
      phase c i = Polling ->
      activity_load i (world c) = Ok (state, w) ->
      step (Some i) c (mk_config w (if state =? WaitForSipi then phase c else at_phase i SawVector (phase c))
                         (history c))
  | step_take i c vector w :
      phase c i = SawVector ->
      activity_swap i Active (world c) = Ok (vector, w) ->
      step (Some i) c (mk_config w (at_phase i (Took vector) (phase c)) (history c))
  | step_start i c vector state w :
      phase c i = Took vector ->
      activity_load i (world c) = Ok (state, w) ->
      step (Some i) c (mk_config w (at_phase i (if state =? Active then GuestRuns else Panicked) (phase c))
                         (Started i vector :: history c))
  | step_send i c target vector w :
      phase c i = GuestRuns -> vector <> WaitForSipi -> 0 <= target ->
      activity_compare_exchange target WaitForSipi vector (world c) = Ok (tt, w) ->
      step (Some i) c (mk_config w (phase c) (Sent target vector :: history c))
  | step_other c w :
      activity_states w = activity_states (world c) ->
      step None c (mk_config w (phase c) (history c)).

(** The processors that act along an execution. *)
Inductive run : list (option Z) -> Config -> Config -> Prop :=
  | run_nil c : run [] c c
  | run_cons a l c c1 c2 : step a c c1 -> run l c1 c2 -> run (a :: l) c c2.

(** All processors run and are active, as [SharedGuestData::new] leaves them. *)
Definition initial (c : Config) : Prop :=
  (forall i, phase c i = GuestRuns) /\ history c = [] /\
  forall k s, activity_states (world c) !! k = Some s -> s = Active.

Definition reachable (c : Config) : Prop := exists c0 l, initial c0 /\ run l c0 c.

(** ** What the protocol promises *)

(** The architecture's view, from the events alone: whether [i] waits for a
    SIPI (an INIT makes it wait, its start ends that), and the first vector
    sent to it since.  A SIPI to a processor that does not wait is lost, and
    so is a second one. *)
Fixpoint pending (i : Z) (h : list Event) : option (option Z) :=
  match h with
  | [] => None
  | Init j :: h' => if decide (i = j) then Some None else pending i h'
  | Started j _ :: h' => if decide (i = j) then None else pending i h'
  | Sent j v :: h' =>
      match pending i h' with
      | Some None => if decide (i = j) then Some (Some v) else Some None
      | r => r
      end
  end.

(** Every start is at the first vector sent since the INIT before it. *)
Definition started_ok (h : list Event) : Prop :=
  forall h1 h2 i v, h = h1 ++ Started i v :: h2 -> pending i h2 = Some (Some v).

(** The phase of a processor that the architecture sees in a state. *)
Definition phase_ok (p : Phase) (r : option (option Z)) : Prop :=
  match p with
  | GuestRuns => r = None
  | Polling => r <> None
  | SawVector => exists v, r = Some (Some v)
  | Took v => r = Some (Some v)
  | Panicked => False
  end.

(** What its activity state then holds. *)
Definition state_of (p : Phase) (r : option (option Z)) : Z :=
  match p, r with
  | (Polling | SawVector), Some (Some v) => v
  | Polling, Some None => WaitForSipi
  | _, _ => Active
  end.

Definition in_range (c : Config) (i : Z) : Prop :=
  0 <= i < Z.of_nat (length (activity_states (world c))).

(** The invariant: phases, activity states and events agree; a vector on
    record is never the byte WaitForSipi; and only application processors
    with a state leave [GuestRuns]. *)
Record protocol_inv (c : Config) : Prop := {
  inv_phase : forall i, phase_ok (phase c i) (pending i (history c));
  inv_state : forall i s, 0 <= i -> activity_states (world c) !! Z.to_nat i = Some s ->
    s = state_of (phase c i) (pending i (history c));
  inv_vectors : forall i v, pending i (history c) = Some (Some v) -> v <> WaitForSipi;
  inv_idle : forall i, phase c i <> GuestRuns -> 0 < i /\ in_range c i;
}.

(** ** The atomic accesses *)

Lemma activity_load_inv i w s w' : activity_load i w = Ok (s, w') ->
  w' = w /\ activity_states w !! Z.to_nat i = Some s.
Proof.
  unfold activity_load. destruct (activity_states w !! Z.to_nat i) as [x|] eqn:Hx; [|done].
  cbn [unwrap obind]. intros H. by simplify_eq.
Qed.

Lemma activity_swap_inv i new w s w' : activity_swap i new w = Ok (s, w') ->
  w' = set_activity (<[Z.to_nat i := new]> (activity_states w)) w /\ activity_states w !! Z.to_nat i = Some s.
Proof.
  unfold activity_swap. destruct (activity_states w !! Z.to_nat i) as [x|] eqn:Hx; [|done].
  cbn [unwrap obind]. intros H. by simplify_eq.
Qed.

Lemma activity_exchange_inv i old new w w' : activity_compare_exchange i old new w = Ok (tt, w') ->
  exists s, activity_states w !! Z.to_nat i = Some s /\
    activity_states w' = if decide (s = old) then <[Z.to_nat i := new]> (activity_states w) else activity_states w.
Proof.
  unfold activity_compare_exchange. destruct (activity_states w !! Z.to_nat i) as [x|] eqn:Hx; [|done].
  cbn [unwrap obind]. intros H. exists x. split; [done|]. destruct (Z.eqb_spec x old) as [->|Hne]; simplify_eq.
  - by rewrite decide_True.
  - by rewrite decide_False.
Qed.

Lemma at_phase_same i p f : at_phase i p f i = p.
Proof. unfold at_phase. by rewrite decide_True. Qed.
Lemma at_phase_other i j p f : i <> j -> at_phase i p f j = f j.
Proof. intros. unfold at_phase. by rewrite decide_False. Qed.

(** An update of one state, seen from a processor. *)
Lemma state_after (i j : Z) new (l : list Z) s : 0 <= j ->
  <[Z.to_nat i := new]> l !! Z.to_nat j = Some s ->
  (Z.to_nat i = Z.to_nat j /\ s = new) \/ (Z.to_nat i <> Z.to_nat j /\ l !! Z.to_nat j = Some s).
Proof.
  intros Hj H. destruct (decide (Z.to_nat i = Z.to_nat j)) as [E|E].
  - left. rewrite E in H. pose proof (lookup_lt_Some _ _ _ H) as Hlt. rewrite length_insert in Hlt.
    rewrite list_lookup_insert_eq in H by done. by simplify_eq.
  - right. rewrite list_lookup_insert_ne in H by done. done.
Qed.

(** ** The invariant is kept *)

Lemma initial_inv c : initial c -> protocol_inv c.
Proof.
  intros (Hp & Hh & Hs). split.
  - intros i. by rewrite Hp, Hh.
  - intros i s _ H. rewrite Hp. by eapply Hs.
  - intros i v. by rewrite Hh.
  - intros i H. by rewrite Hp in H.
Qed.

Lemma lookup_range c i s : 0 <= i -> activity_states (world c) !! Z.to_nat i = Some s -> in_range c i.
Proof. intros Hi H. apply lookup_lt_Some in H. unfold in_range. lia. Qed.

Lemma range_lookup c i : in_range c i -> exists s, activity_states (world c) !! Z.to_nat i = Some s.
Proof. intros H. apply lookup_lt_is_Some. unfold in_range in H. lia. Qed.

(** What a processor that has left [GuestRuns] finds in its state. *)
Lemma inv_own_state c i : protocol_inv c -> phase c i <> GuestRuns ->
  0 < i /\ in_range c i /\
  activity_states (world c) !! Z.to_nat i = Some (state_of (phase c i) (pending i (history c))).
Proof.
  intros Hinv Hne. destruct (inv_idle c Hinv i Hne) as [H0 Hr]. split; [done|]. split; [done|].
  destruct (range_lookup c i Hr) as [s Hs]. rewrite Hs. f_equal. apply (inv_state c Hinv i s); [lia|done].
Qed.

(** A step of [i] that stores [new] in its own state. *)
Lemma inv_own_store c i new p h w :
  protocol_inv c -> 0 < i -> in_range c i ->
  activity_states w = <[Z.to_nat i := new]> (activity_states (world c)) ->
  (forall j, j <> i -> pending j h = pending j (history c)) ->
  (forall v, pending i h = Some (Some v) -> v <> WaitForSipi) ->
  phase_ok p (pending i h) -> new = state_of p (pending i h) ->
  protocol_inv (mk_config w (at_phase i p (phase c)) h).
Proof.
  intros [Hp Hs Hv Hi] H0 Hr Hw Hh Hvi Hok Hnew. split; cbn [world phase history].
  - intros j. destruct (decide (j = i)) as [->|Hne]; [by rewrite at_phase_same|].
    by rewrite at_phase_other, Hh by congruence.
  - intros j s Hj Hx. rewrite Hw in Hx. apply state_after in Hx as [[E ->]|[E Hx]]; [|..|done].
    + assert (j = i) as -> by lia. by rewrite at_phase_same.
    + rewrite at_phase_other, Hh by congruence. by apply Hs.
  - intros j v. destruct (decide (j = i)) as [->|Hne]; [apply Hvi|]. rewrite Hh by done. apply Hv.
  - intros j Hj. unfold in_range. cbn [world]. rewrite Hw, length_insert.
    destruct (decide (i = j)) as [->|Hne]; [done|]. rewrite at_phase_other in Hj by done. by apply Hi.
Qed.

(** A step of [i] that only looks at its own state. *)
Lemma inv_own_look c i p h :
  protocol_inv c -> phase c i <> GuestRuns ->
  (forall j, j <> i -> pending j h = pending j (history c)) ->
  (forall v, pending i h = Some (Some v) -> v <> WaitForSipi) ->
  phase_ok p (pending i h) -> state_of (phase c i) (pending i (history c)) = state_of p (pending i h) ->
  protocol_inv (mk_config (world c) (at_phase i p (phase c)) h).
Proof.
  intros Hinv Hne Hh Hvi Hok Hst. destruct (inv_own_state c i Hinv Hne) as (H0 & Hr & Hs).
  apply (inv_own_store c i (state_of p (pending i h))); try done. rewrite <- Hst. by rewrite list_insert_id.
Qed.

(** A SIPI to a processor. *)
Lemma inv_send c target v w :
  protocol_inv c -> v <> WaitForSipi -> 0 <= target ->
  activity_compare_exchange target WaitForSipi v (world c) = Ok (tt, w) ->
  protocol_inv (mk_config w (phase c) (Sent target v :: history c)).
Proof.
  intros [Hp Hs Hv Hi] Hne H0 Hx. apply activity_exchange_inv in Hx as (s & Hx & Hw).
  pose proof (Hs target s H0 Hx) as Hst.
  split; cbn [world phase history pending].
  - intros j. specialize (Hp j). destruct (pending j (history c)) as [[v'|]|]; try done.
    destruct (decide (j = target)); [|done]. destruct (phase c j); done || by eexists.
  - intros j sj Hj Hsj. destruct (decide (j = target)) as [->|Hjt].
    + rewrite Hw in Hsj. pose proof (Hp target) as Hpt. destruct (decide (s = WaitForSipi)) as [E|E].
      * rewrite list_lookup_insert_eq in Hsj by (by apply lookup_lt_Some in Hx). injection Hsj as <-.
        subst s. destruct (phase c target), (pending target (history c)) as [[v'|]|] eqn:Er;
          cbn [phase_ok state_of] in *; try done; by destruct (Hv target v' Er).
      * rewrite Hx in Hsj. injection Hsj as <-.
        destruct (phase c target), (pending target (history c)) as [[v'|]|] eqn:Er;
          cbn [phase_ok state_of] in *; try done; by destruct Hpt.
    + assert (activity_states (world c) !! Z.to_nat j = Some sj) as Hj2.
      { rewrite Hw in Hsj. destruct (decide (s = WaitForSipi)); [|done].
        apply state_after in Hsj as [[E _]|[_ ?]]; [lia|done|done]. }
      rewrite (Hs j sj Hj Hj2). by destruct (pending j (history c)) as [[v'|]|].
  - intros j v'. destruct (pending j (history c)) as [[v''|]|] eqn:E; [intros [= ->]; by eapply Hv| |done].
    destruct (decide (j = target)); [|done]. by intros [= ->].
  - intros j Hj. destruct (Hi j Hj) as [? Hr]. split; [done|]. unfold in_range in *. cbn [world].
    rewrite Hw. destruct (decide _); [by rewrite length_insert|done].
Qed.

Lemma step_inv a c c' : protocol_inv c -> step a c c' -> protocol_inv c'.
Proof.
  intros Hinv Hstep.
  destruct Hstep as [i c previous w Hph H0 Hx|i c state w Hph Hx|i c vector w Hph Hx|i c vector state w Hph Hx
    |i c target vector w Hph Hne H0 Hx|c w Hx].
  - apply activity_swap_inv in Hx as (-> & Hs).
    pose proof (inv_state c Hinv i _ ltac:(lia) Hs) as ->. rewrite Hph. cbn [state_of]. rewrite Z.eqb_refl.
    apply (inv_own_store c i WaitForSipi); try done; cbn [pending]; rewrite ?decide_True by done; try done.
    + by eapply lookup_range; [lia|].
    + intros j Hj. by rewrite decide_False.
  - apply activity_load_inv in Hx as (-> & Hs).
    destruct (inv_own_state c i Hinv) as (H0 & Hr & Hs'); [by rewrite Hph|]. rewrite Hs in Hs'. injection Hs' as ->.
    pose proof (inv_phase c Hinv i) as Hp. rewrite Hph in *. cbn [phase_ok] in Hp.
    destruct (pending i (history c)) as [[v|]|] eqn:Er; cbn [state_of]; [|by destruct c|done].
    rewrite (proj2 (Z.eqb_neq _ _) (inv_vectors c Hinv i v Er)).
    apply inv_own_look; rewrite ?Hph, ?Er; try done; [|by eexists]. intros v' [= ->]. by eapply inv_vectors.
  - apply activity_swap_inv in Hx as (-> & Hs).
    destruct (inv_own_state c i Hinv) as (H0 & Hr & Hs'); [by rewrite Hph|]. rewrite Hs in Hs'. injection Hs' as ->.
    pose proof (inv_phase c Hinv i) as Hp. rewrite Hph in *. destruct Hp as [v Hp]. rewrite Hp. cbn [state_of].
    apply (inv_own_store c i Active); try done. by apply (inv_vectors c Hinv).
  - apply activity_load_inv in Hx as (-> & Hs).
    destruct (inv_own_state c i Hinv) as (H0 & Hr & Hs'); [by rewrite Hph|]. rewrite Hs in Hs'. injection Hs' as ->.
    pose proof (inv_phase c Hinv i) as Hp. rewrite Hph in *. cbn [phase_ok] in Hp. rewrite Hp. cbn [state_of].
    rewrite Z.eqb_refl. apply inv_own_look; rewrite ?Hph; cbn [pending]; rewrite ?decide_True by done; try done.
    intros j Hj. by rewrite decide_False.
  - by apply (inv_send c target vector).
  - split; cbn [world phase history]; [apply Hinv|rewrite Hx; apply Hinv|apply Hinv|].
    intros j Hj. unfold in_range. cbn [world]. rewrite Hx. by apply Hinv.
Qed.

Lemma run_inv l c c' : protocol_inv c -> run l c c' -> protocol_inv c'.
Proof. intros Hinv Hrun. induction Hrun; [done|]. eauto using step_inv. Qed.

Lemma reachable_inv c : reachable c -> protocol_inv c.
Proof. intros (c0 & l & H0 & Hr). eapply run_inv; [by apply initial_inv|done]. Qed.

(** *** The events *)

Lemma started_ok_cons e h : started_ok h ->
  (forall i v, e = Started i v -> pending i h = Some (Some v)) -> started_ok (e :: h).
Proof.
  intros Hh He [|e' h1] h2 i v H; injection H as -> H; [|by apply (Hh h1)]. subst h2. by apply He.
Qed.

Lemma step_started a c c' : protocol_inv c -> step a c c' -> started_ok (history c) -> started_ok (history c').
Proof.
  intros Hinv Hstep Hok. destruct Hstep as [i c p w Hph H0 Hx| | |i c vector state w Hph Hx| |]; cbn [history];
    try done; apply started_ok_cons; try done.
  intros j v [= -> ->]. pose proof (inv_phase c Hinv j) as Hp. by rewrite Hph in Hp.
Qed.

Lemma run_started l c c' : protocol_inv c -> run l c c' -> started_ok (history c) -> started_ok (history c').
Proof. intros Hinv Hrun. induction Hrun; [done|]. eauto using step_inv, step_started. Qed.

Lemma run_history l c c' : run l c c' -> exists h, history c' = h ++ history c.
Proof.
  induction 1 as [c|a l c c1 c2 Hs _ [h IH]]; [by exists []|]. rewrite IH.
  destruct Hs; cbn [history]; try (by exists h); eexists (h ++ [_]); by rewrite <- app_assoc.
Qed.

(** *** Progress *)

(** How many steps of its own a processor with a vector is from its start. *)
Definition togo (p : Phase) : nat :=
  match p with Polling => 3 | SawVector => 2 | Took _ => 1 | GuestRuns | Panicked => 0 end.

(** A processor that waits can always take a step. *)
Lemma waiting_steps c i : protocol_inv c -> phase c i <> GuestRuns -> exists c', step (Some i) c c'.
Proof.
  intros Hinv Hne. destruct (inv_own_state c i Hinv Hne) as (_ & _ & Hs).
  pose proof (inv_phase c Hinv i) as Hp. destruct (phase c i) as [| | |v|] eqn:Hph; try done; eexists.
  - eapply step_look; [done|]. unfold activity_load. by rewrite Hs.
  - eapply step_take; [done|]. unfold activity_swap. by rewrite Hs.
  - eapply step_start; [done|]. unfold activity_load. by rewrite Hs.
Qed.

(** The steps of others leave the phase of a processor, and a vector on record
    for it. *)
Lemma step_other_phase a c c' i : step a c c' -> a <> Some i -> phase c' i = phase c i.
Proof.
  intros Hstep Ha. destruct Hstep as [j c p w Hph H0 Hx|j c s w Hph Hx|j c v w Hph Hx|j c v s w Hph Hx| |];
    cbn [phase]; try done; try (destruct (s =? WaitForSipi); [done|]); apply at_phase_other; congruence.
Qed.

Lemma step_other_pending a c c' i v : step a c c' -> a <> Some i -> pending i (history c) = Some (Some v) ->
  pending i (history c') = Some (Some v).
Proof.
  intros Hstep Ha Hr. destruct Hstep as [j c p w Hph H0 Hx| | |j c x s w Hph Hx|j c t x w Hph Hne H0 Hx|];
    cbn [history pending]; try done; rewrite ?Hr; try done; by rewrite decide_False by congruence.
Qed.

Lemma run_other_phase l c c' i : run l c c' -> Some i ∉ l -> phase c' i = phase c i.
Proof.
  induction 1 as [c|a l c c1 c2 Hs _ IH]; intros Hl; [done|]. apply not_elem_of_cons in Hl as [Ha Hl].
  rewrite (IH Hl). by apply (step_other_phase a).
Qed.

Lemma run_app l1 l2 c c1 c2 : run l1 c c1 -> run l2 c1 c2 -> run (l1 ++ l2) c c2.
Proof. induction 1; [done|]. cbn [app]. eauto using run_cons. Qed.

Lemma run_one a c c' : step a c c' -> run [a] c c'.
Proof. intros H. by eapply run_cons, run_nil. Qed.

(** Once a vector is stored, its own steps bring a processor nearer to its
    start, and those of others do not put it back. *)
Lemma step_togo a c c' i v : protocol_inv c -> step a c c' -> pending i (history c) = Some (Some v) ->
  (a = Some i /\ history c' = Started i v :: history c) \/
  (pending i (history c') = Some (Some v) /\
   togo (phase c i) = (togo (phase c' i) + if decide (a = Some i) then 1 else 0)%nat).
Proof.
  intros Hinv Hstep Hr. destruct (decide (a = Some i)) as [Ha|Ha].
  2: { right. rewrite (step_other_phase _ _ _ _ Hstep Ha). split; [by eapply step_other_pending|lia]. }
  pose proof (inv_phase c Hinv i) as Hp.
  destruct Hstep as [j c previous w Hph H0 Hx|j c state w Hph Hx|j c vector w Hph Hx|j c vector state w Hph Hx
    |j c target vector w Hph Hne H0 Hx|c w Hx]; try done; injection Ha as ->; rewrite Hph in Hp; cbn [phase_ok] in Hp;
    try congruence; cbn [history phase].
  - right. split; [done|]. apply activity_load_inv in Hx as (-> & Hs).
    destruct (inv_own_state c i Hinv) as (_ & _ & Hs'); [by rewrite Hph|]. rewrite Hs, Hph, Hr in Hs'.
    injection Hs' as ->. cbn [state_of].
    by rewrite (proj2 (Z.eqb_neq _ _) (inv_vectors c Hinv i v Hr)), at_phase_same, Hph.
  - right. by rewrite at_phase_same, Hph.
  - left. split; [done|]. congruence.
Qed.

(** ** The code follows the protocol *)
Section Refinement.
Context {BT : BitFieldTrait}.

(** The configuration when [handle_init_signal] of [i] returns. *)
Definition init_config (i : Z) (c : Config) : Config :=
  mk_config (init_world i (world c)) (at_phase i Polling (phase c)) (Init i :: history c).

(** What happens between two looks of [i] is an execution of the others. *)
Fixpoint others_ok (i : Z) (others : list (SvmWorld -> SvmWorld)) (c : Config) : Prop :=
  match others with
  | [] => True
  | f :: others' => exists l c', run l c c' /\ ~ (Some i ∈ l) /\ world c' = f (world c) /\ others_ok i others' c'
  end.

(** The two steps of the protocol that [handle_init_signal] takes. *)
Lemma init_refines g c : let i := svm_id g in
  protocol_inv c -> phase c i = GuestRuns -> 0 < i -> in_range c i ->
  exists g1, handle_init_signal g (world c) = Ok (g1, world (init_config i c)) /\ svm_id g1 = i /\
    run [Some i; None] c (init_config i c).
Proof.
  intros i Hinv Hph H0 Hr. destruct (range_lookup c i Hr) as [s Hs].
  pose proof (inv_state c Hinv i s ltac:(lia) Hs) as E. rewrite Hph in E. cbn [state_of] in E. subst s.
  destruct (handle_init_signal_ok g (world c) ltac:(fold i; lia) Hs) as (g1 & Hg & Hid & _).
  exists g1. split; [exact Hg|]. split; [exact Hid|]. eapply run_cons.
  - eapply step_init; [done|done|]. unfold activity_swap. by rewrite Hs.
  - eapply run_one. rewrite Z.eqb_refl. by apply (step_other (mk_config _ _ _)).
Qed.

(** The busy loop, and the swap that ends it. *)
Lemma wait_refines i others c : protocol_inv c -> phase c i = Polling -> others_ok i others c ->
  match wait_for_sipi i others (world c) with
  | Ok (v, w') => exists l c', run l c c' /\ world c' = w' /\ phase c' i = Took v
  | Panic why => why = "still waiting for SIPI"%string
  end.
Proof.
  revert c. induction others as [|f others IH]; intros c Hinv Hph Hf.
  all: destruct (inv_own_state c i Hinv ltac:(by rewrite Hph)) as (H0 & Hr & Hs);
    set (s := state_of _ _) in Hs; cbn [wait_for_sipi]; unfold bind at 1, activity_load; rewrite Hs; cbn [unwrap obind];
    destruct (Z.eqb_spec s WaitForSipi) as [E|E].
  1: done.
  2: { destruct Hf as (l & c1 & Hrun & Hl & Hw & Hf). unfold bind, modify. rewrite <- Hw.
       specialize (IH c1 (run_inv _ _ _ Hinv Hrun)). rewrite (run_other_phase _ _ _ _ Hrun Hl) in IH.
       specialize (IH Hph Hf). destruct (wait_for_sipi i others (world c1)) as [[v w']|why]; [|done].
       destruct IH as (l2 & c2 & Hrun2 & Hw2 & Hp2). exists (l ++ l2), c2. split; [by eapply run_app|done]. }
  all: unfold activity_swap; rewrite Hs; cbn [unwrap obind]; exists [Some i; Some i]; eexists; split_and!.
  all: try (eapply run_cons; [eapply step_look; [done|]; unfold activity_load; by rewrite Hs|]).
  all: try rewrite (proj2 (Z.eqb_neq _ _) E).
  all: try (eapply run_one, step_take; [apply at_phase_same|]; unfold activity_swap; cbn [world]; by rewrite Hs).
  all: try done; apply at_phase_same.
Qed.
End Refinement.

(** ** Properties *)

(** C12: in every reachable state of any interleaving of INITs, SIPIs and looks
    at the activity states: no assertion of the protocol has failed; exactly
    the processors the architecture sees waiting are in the busy loop or on
    their way out of it; and every processor that was started was started at
    the first vector sent to it since its last INIT. *)
Theorem sipi_protocol_safe c : reachable c ->
  (forall i, phase c i <> Panicked) /\
  (forall i, phase c i = GuestRuns <-> pending i (history c) = None) /\
  started_ok (history c).
Proof.
  intros Hc. pose proof (reachable_inv c Hc) as Hinv. split_and!.
  - intros i H. pose proof (inv_phase c Hinv i) as Hp. by rewrite H in Hp.
  - intros i. pose proof (inv_phase c Hinv i) as Hp. split; intros H; [by rewrite H in Hp|].
    rewrite H in Hp. destruct (phase c i); try done; by destruct Hp.
  - destruct Hc as (c0 & l & Hc0 & Hrun). eapply run_started; [by apply initial_inv|done|].
    destruct Hc0 as (_ & -> & _). by intros [|? ?].
Qed.

(** C14: nothing can stop a processor that waits: it always has a next step,
    and once a SIPI was sent to it, any execution in which it takes three
    steps, whatever the others do, starts it at that vector. *)
Theorem sipi_starts c i : reachable c ->
  (phase c i <> GuestRuns -> exists c', step (Some i) c c') /\
  (forall v l c', pending i (history c) = Some (Some v) -> run l c c' ->
     (3 <= length (filter (fun a => a = Some i) l))%nat ->
     exists h, history c' = h ++ history c /\ Started i v ∈ h).
Proof.
  intros Hc. pose proof (reachable_inv c Hc) as Hinv. split; [by apply waiting_steps|].
  intros v l c' Hr Hrun Hl.
  assert (togo (phase c i) <= length (filter (fun a => a = Some i) l))%nat as Ht.
  { destruct (phase c i); cbn [togo]; lia. }
  clear Hl Hc. induction Hrun as [c|a l c c1 c2 Hs Hrun IH].
  - pose proof (inv_phase c Hinv i) as Hp. rewrite Hr in Hp. by destruct (phase c i); cbn in *; try lia.
  - destruct (step_togo a c c1 i v Hinv Hs Hr) as [(_ & Hh)|(Hr1 & Ht1)].
    + destruct (run_history _ _ _ Hrun) as [h Hh2]. exists (h ++ [Started i v]).
      rewrite Hh2, Hh, <- app_assoc. split; [done|]. apply elem_of_app. right. by left.
    + destruct IH as (h & Hh & Hin); [by eapply step_inv|done| |].
      * rewrite filter_cons in Ht. destruct (decide (a = Some i)); cbn [length] in Ht; lia.
      * destruct (run_history _ _ _ (run_one _ _ _ Hs)) as [h1 Hh1].
        exists (h ++ h1). rewrite Hh, Hh1, app_assoc. split; [done|]. apply elem_of_app. by left.
Qed.

Section RefinementTheorems.
Context {BT : BitFieldTrait}.

(** C13: the code follows the protocol: from a reachable state, what
    [handle_security_exception] does, while the others do what they may, is an
    execution of the protocol that ends with the start of the processor at the
    first vector sent to it after its INIT, which is what CS and RIP are set to;
    none of its assertions fails, and it can only be left waiting. *)
Theorem security_exception_refines others g c : let i := svm_id g in
  reachable c -> phase c i = GuestRuns -> 0 < i -> in_range c i -> others_ok i others (init_config i c) ->
  match handle_security_exception others g (world c) with
  | Ok (g', w') => exists l c' v h, run l c c' /\ world c' = w' /\ phase c' i = GuestRuns /\
      history c' = Started i v :: h /\ pending i h = Some (Some v) /\
      saved g' s_cs_selector = wrap 16 (Z.shiftl v 8) /\ saved g' s_cs_base = Z.shiftl v 12 /\ saved g' s_rip = 0
  | Panic why => why = "still waiting for SIPI"%string
  end.
Proof.
  intros i Hc Hph H0 Hr Hothers. pose proof (reachable_inv c Hc) as Hinv.
  destruct (init_refines g c Hinv Hph H0 Hr) as (g1 & Hg1 & Hid & Hrun1). fold i in Hg1, Hid, Hrun1.
  pose proof (run_inv _ _ _ Hinv Hrun1) as Hinv1.
  pose proof (wait_refines i others (init_config i c) Hinv1 (at_phase_same _ _ _) Hothers) as Hwait.
  unfold handle_security_exception. fold i. rewrite bind_massert by (apply negb_true_iff, Z.eqb_neq; lia).
  rewrite (bind_intro _ _ _ _ _ Hg1), Hid. unfold bind at 1.
  rewrite bind_massert by (apply negb_true_iff, Z.eqb_neq; lia). destruct (wait_for_sipi i others (world (init_config i c))) as [[v w2]|why]; [|done].
  destruct Hwait as (l2 & c2 & Hrun2 & <- & Hp2). pose proof (run_inv _ _ _ Hinv1 Hrun2) as Hinv2.
  destruct (inv_own_state c2 i Hinv2 ltac:(by rewrite Hp2)) as (_ & _ & Hs). rewrite Hp2 in Hs. cbn [state_of] in Hs.
  rewrite handle_sipi_ok by (rewrite ?Hid; done || lia).
  pose proof (inv_phase c2 Hinv2 i) as Hok. rewrite Hp2 in Hok.
  exists ([Some i; None] ++ l2 ++ [Some i]), (mk_config (world c2) (at_phase i GuestRuns (phase c2)) (Started i v :: history c2)), v,
    (history c2).
  split_and!; try done; [|apply at_phase_same].
  eapply run_app; [done|]. eapply run_app; [done|]. eapply run_one.
  apply (step_start i c2 v Active); [done|]. unfold activity_load. by rewrite Hs.
Qed.

(** A SIPI that [handle_nested_page_fault] emulates for a running guest is
    one step of the protocol: it sends the vector in the ICR to the processor
    with the APIC id in the ICR, and changes nothing but activity states. *)
Lemma emulated_sipi_refines j value gpa c w' :
  phase c j = GuestRuns ->
  (forall id p, APIC_ID_MAP (svm_apic (world c)) !! id = Some p -> 0 <= p) ->
  emulate_sipi value gpa (world c) = Ok (tt, w') ->
  let icr_high := mmio (svm_cpu (world c)) (Z.lor (Z.land gpa (not_w 64 0xfff)) 0x310) in
  exists target, APIC_ID_MAP (svm_apic (world c)) !! wrap 8 (get_bits icr_high 24 31) = Some target /\
    step (Some j) c (mk_config w' (phase c) (Sent target (wrap 8 (get_bits value 0 7)) :: history c)) /\
    svm_cpu w' = svm_cpu (world c) /\ npt w' = npt (world c) /\ svm_apic w' = svm_apic (world c).
Proof.
  intros Hph Hmap H icr_high. unfold emulate_sipi in H.
  apply bind_massert_ok in H as [_ H].
  apply bind_massert_ok in H as [_ H].
  assert (on_cpu (gets (fun m => mmio m (Z.lor (Z.land gpa (not_w 64 0xfff)) 0x310))) (world c)
    = Ok (icr_high, world c)) as Hicr by (by apply on_cpu_reads).
  rewrite (bind_intro _ _ _ _ _ Hicr), bind_gets in H. unfold processor_id_from in H.
  fold icr_high in H. destruct (APIC_ID_MAP _ !! _) as [target|] eqn:Ht; [|done].
  exists target. split; [done|]. cbn [unwrap] in H. rewrite bind_lift_ok in H.
  apply bind_massert_ok in H as [Hv H].
  apply negb_true_iff, Z.eqb_neq in Hv. split; [by apply (step_send j c target _ w'); eauto|].
  unfold activity_compare_exchange in H. apply obind_ok in H as (s & _ & H). injection H as <-.
  by destruct (s =? WaitForSipi).
Qed.
End RefinementTheorems.

(** ** Concrete executions *)
Module SipiExample.
Import Reference.

(** Two processors: an INIT of processor 1, then a SIPI from processor 0. *)
Definition c0 : Config := mk_config (SvmExample.world 0 [0; 0]) (fun _ => GuestRuns) [].
Definition c1 : Config := mk_config (set_activity [0; 255] (world c0)) (at_phase 1 Polling (phase c0)) [Init 1].
Definition c2 : Config :=
  mk_config (set_activity [0; 0x9a] (world c1)) (phase c1) [Sent 1 0x9a; Init 1].

(** And what processor 1 does then. *)
Definition c3 : Config := mk_config (world c2) (at_phase 1 SawVector (phase c2)) (history c2).
Definition c4 : Config :=
  mk_config (set_activity [0; 0] (world c3)) (at_phase 1 (Took 0x9a) (phase c3)) (history c2).
Definition c5 : Config :=
  mk_config (world c4) (at_phase 1 GuestRuns (phase c4)) [Started 1 0x9a; Sent 1 0x9a; Init 1].

Lemma c0_initial : initial c0.
Proof. split_and!; [done|done|]. intros [|[|k]] s H; by inversion H. Qed.

Lemma run_c2 : run [Some 1; Some 0] c0 c2.
Proof.
  eapply run_cons; [exact (step_init 1 c0 0 _ eq_refl ltac:(done) eq_refl)|].
  apply run_one. exact (step_send 0 c1 1 0x9a _ eq_refl ltac:(done) ltac:(done) eq_refl).
Qed.

Lemma run_c5 : run [Some 1; Some 1; Some 1] c2 c5.
Proof.
  eapply run_cons; [exact (step_look 1 c2 0x9a _ eq_refl eq_refl)|].
  eapply run_cons; [exact (step_take 1 c3 0x9a _ eq_refl eq_refl)|].
  apply run_one. exact (step_start 1 c4 0x9a 0 _ eq_refl eq_refl).
Qed.

Lemma c0_reachable : reachable c0.
Proof. exists c0, []. split; [apply c0_initial|apply run_nil]. Qed.
Lemma c2_reachable : reachable c2.
Proof. eexists c0, _. split; [apply c0_initial|apply run_c2]. Qed.
Lemma c5_reachable : reachable c5.
Proof. eexists c0, _. split; [apply c0_initial|]. eapply run_app; [apply run_c2|apply run_c5]. Qed.

Lemma sipi_protocol_safe_witness : reachable c5 /\ started_ok [Started 1 0x9a; Sent 1 0x9a; Init 1].
Proof. split; [apply c5_reachable|]. exact (proj2 (proj2 (sipi_protocol_safe c5 c5_reachable))). Defined.

Lemma sipi_starts_witness : exists h, history c5 = h ++ history c2 /\ Started 1 0x9a ∈ h.
Proof.
  exact (proj2 (sipi_starts c2 1 c2_reachable) 0x9a _ c5 eq_refl run_c5 ltac:(vm_compute; lia)).
Defined.

(** What processor 0 does while processor 1 waits. *)
Definition send_9a (w : SvmWorld) : SvmWorld :=
  match activity_compare_exchange 1 WaitForSipi 0x9a w with Ok (_, w') => w' | Panic _ => w end.

Lemma security_exception_refines_witness : exists g' w' l c',
  handle_security_exception [send_9a] (SvmExample.apic_guest 1 0) (world c0) = Ok (g', w') /\
  run l c0 c' /\ world c' = w' /\ phase c' 1 = GuestRuns /\ saved g' s_cs_base = 0x9a000.
Proof.
  pose proof (security_exception_refines [send_9a] (SvmExample.apic_guest 1 0) c0 c0_reachable eq_refl ltac:(done)
    ltac:(by vm_compute)) as H.
  destruct (handle_security_exception [send_9a] (SvmExample.apic_guest 1 0) (world c0)) as [[g' w']|why] eqn:E.
  - destruct H as (l & c' & v & h & Hrun & Hw & Hp & _ & _ & _ & Hb & _).
    + exists [Some 0]. eexists. split; [|split; [intros [?|H']%elem_of_cons; [done|by apply not_elem_of_nil in H']|split; [|exact I]]].
      * apply run_one. exact (step_send 0 (init_config 1 c0) 1 0x9a _ eq_refl ltac:(done) ltac:(done) eq_refl).
      * reflexivity.
    + exists g', w', l, c'. split; [done|]. split; [done|]. split; [done|]. split; [done|].
      assert (saved g' s_cs_base = match handle_security_exception [send_9a] (SvmExample.apic_guest 1 0) (world c0) with
        Ok (g, _) => saved g s_cs_base | Panic _ => 0 end) as -> by (by rewrite E). reflexivity.
  - discriminate E.
Defined.

(** Processor 0 writes a SIPI of vector 0x11 for the APIC id 4. *)
Definition c6 : Config := mk_config (SvmExample.world 0x0400_0000 [0; 0]) (fun _ => GuestRuns) [].

Lemma emulated_sipi_refines_witness : exists w', w' = world c6 /\
  emulate_sipi 0x4611 0xfee0_0300 (world c6) = Ok (tt, w') /\
  step (Some 0) c6 (mk_config w' (phase c6) [Sent 1 0x11]).
Proof.
  exists (world c6). split; [done|]. split; [vm_compute; reflexivity|].
  destruct (emulated_sipi_refines 0 0x4611 0xfee0_0300 c6 (world c6) eq_refl) as (target & Ht & Hs & _).
  - intros id p H. cbn in H. destruct (decide (id = 0)) as [->|H0]; [by injection H as <-|].
    rewrite lookup_insert_ne in H by done. apply lookup_singleton_Some in H as [_ <-]. done.
  - reflexivity.
  - injection Ht as <-. exact Hs.
Defined.
End SipiExample.
