(* ===== verification/System.v ===== *)
(** * Virtualizing and devirtualizing the system (hvcore mod.rs, switch_stack.rs)

    All logical processors together: the shared statics, and each processor
    either native or hosting a guest.  [virtualize_system] runs its callback on
    every processor; the callback returns twice, first on the bare processor
    and then in the guest.  The theorems are proved against the classes
    [Guest], [Extension] and [Setup]; Hypervisor.v puts both architectures into
    one world and discharges them. *)

From S2P Require Import Prelude External Machine Platform Allocator ApicId Segment Tables Paging Epts Host Vmcb Svm Vmx.

(** ** The shared statics of a world *)

(** [APIC_ID_MAP] and [PROCESSOR_COUNT] in the world of an architecture. *)
Class HasApic (W : Type) {HC : HasCpu W} : Type := {
  get_apic : W -> ApicState;
  put_apic : ApicState -> W -> W;
  get_put_apic : forall a w, get_apic (put_apic a w) = a;
  get_apic_put_cpu : forall m w, get_apic (put_cpu m w) = get_apic w;
  get_cpu_put_apic : forall a w, get_cpu (put_apic a w) = get_cpu w;
}.

Definition keeps_apic {W A : Type} {HC : HasCpu W} {HA : HasApic W} (x : M W A) : Prop :=
  forall w a w', x w = Ok (a, w') -> get_apic w' = get_apic w.

(** What the setup of a processor needs of an architecture: the guest starts
    with the registers it is given, and the numbering is left alone. *)
Class Setup (W G Event E : Type) {HC : HasCpu W} {HA : HasApic W} {GI : Guest W G Event} {XI : Extension W E}
    : Prop := {
  initialize_regs : forall r g w g' w', initialize r g w = Ok (g', w') -> regs g' = r;
  keeps_default : keeps_apic ext_default;
  keeps_enable : forall vt, keeps_apic (enable vt);
  keeps_new : forall id, keeps_apic (guest_new id);
  keeps_activate : forall g, keeps_apic (activate g);
  keeps_initialize : forall r g, keeps_apic (initialize r g);
}.

(** ** The system *)
Section System.
Context {P : Profile} {W GI EI VI GA EA VA Heap : Type} {HC : HasCpu W} {HA : HasApic W} {X86 : X86Xcr0}
  {PO : PlatformOps nat} {XT : X86Task}.
(** The architectures, given the data in the [Once] cell, and the allocator. *)
Context {IG : SharedHostData -> Guest W GI EI} {IX : Extension W VI}
  {AG : SharedHostData -> Guest W GA EA} {AX : Extension W VA}.
Context (alloc_zeroed : Layout -> M Heap Z).

(** How the loop of [main] stands, on either architecture. *)
Definition HostState : Type := LoopState (G := GI) (E := VI) + LoopState (G := GA) (E := VA).

(** A logical processor: native, with what [Registers::capture_current] would
    capture, or in the host's loop. *)
Inductive Processor : Type :=
  | Native (m : Machine) (captured : Registers)
  | Hosted (m : Machine) (host : HostState).

Record System : Type := mk_system {
  shared : W;
  cpus : list Processor;
  heap : Heap;
  SHARED_HOST_DATA : option SharedHostData;
}.

Definition machine_of (q : Processor) : Machine := match q with Native m _ | Hosted m _ => m end.

Definition set_processor (p : nat) (q : Processor) (s : System) : System :=
  mk_system (shared s) (<[p := q]> (cpus s)) (heap s) (SHARED_HOST_DATA s).

Definition current (p : nat) : M System Processor := fun s =>
  let? q := unwrap (cpus s !! p) "no such processor" in Ok (q, s).

(** Code that acts on the processor [p] and the shared world; the second
    component is the machine it leaves. *)
Definition on_processor {A : Type} (p : nat) (x : M W A) : M System (A * Machine) := fun s =>
  let? q := unwrap (cpus s !! p) "no such processor" in
  let? (a, w) := x (put_cpu (machine_of q) (shared s)) in
  Ok ((a, get_cpu w), mk_system w (cpus s) (heap s) (SHARED_HOST_DATA s)).

Definition on_heap {A : Type} (x : M Heap A) : M System A := fun s =>
  let? (a, h) := x (heap s) in Ok (a, mk_system (shared s) (cpus s) h (SHARED_HOST_DATA s)).

(** [apic_id::init] on the system: each processor contributes its identifier. *)
Definition apic_init : M System unit :=
  let! st := gets (fun s => get_apic (shared s)) in
  massert (PROCESSOR_COUNT st =? 0) "PROCESSOR_COUNT == 0" ;;!
  run_on_all_processors (fun p =>
    let! q := current p in
    fun s => let? (_, st) := init_callback (machine_of q) (get_apic (shared s)) in
             Ok (tt, mk_system (put_apic st (shared s)) (cpus s) (heap s) (SHARED_HOST_DATA s))).

(** [SHARED_HOST_DATA.call_once] *)
Definition call_once (shared_host : SharedHostData) : M System unit :=
  modify (fun s => mk_system (shared s) (cpus s) (heap s)
    (match SHARED_HOST_DATA s with Some d => Some d | None => Some shared_host end)).

(** ** switch_stack.rs *)

(** The stack of the host, never freed, and the stack pointer it starts with;
    then the jump. *)
Definition stack_layout : Layout := mk_layout (0x10 * 0x1000) 0x1000.

Definition jump_with_new_stack {A : Type} (destination : Registers -> M System A) (registers : Registers)
    : M System A :=
  let! stack := on_heap (alloc_zeroed stack_layout) in
  (if stack =? 0 then mpanic "handle_alloc_error" else ret tt) ;;!
  let! top := lift (add_w 64 stack (layout_size stack_layout)) in
  let! stack_base := lift (sub_w 64 top 8) in
  destination registers.

(** ** mod.rs *)

(** The presence test by code running in a guest. *)
Definition guest_test {G Event : Type} {GI : Guest W G Event} (guest : G) (w : W) : outcome bool :=
  let? r := guest_cpuid guest w HV_CPUID_VENDOR_AND_MAX_FUNCTIONS 0 in
  Ok (is_our_hypervisor_present (fun _ _ => r)).

(** The presence test on the processor [p]. *)
Definition present_on (p : nat) : M System bool := fun s =>
  let? q := unwrap (cpus s !! p) "no such processor" in
  let w := put_cpu (machine_of q) (shared s) in
  let d := default (mk_shared_host None None None) (SHARED_HOST_DATA s) in
  let? b := match q with
            | Native m _ => Ok (is_our_hypervisor_present (hw_cpuid m))
            | Hosted _ (inl (Running g _)) => guest_test (GI := IG d) g w
            | Hosted _ (inr (Running g _)) => guest_test (GI := AG d) g w
            | Hosted _ _ => Panic "the processor has left the host"
            end in
  Ok (b, s).

(** [host::main] on the processor [p], up to the first entry of the guest. *)
Definition host_main (p : nat) (registers : Registers) : M System unit :=
  let! d := gets SHARED_HOST_DATA in
  let! d := lift (unwrap d "SHARED_HOST_DATA.get().unwrap()") in
  let! (st, m) := on_processor p
    (main (IG := IG d) (AG := AG d) (gets (fun w => processor_id_from (get (get_cpu w)) (get_apic w)))
       registers [] []) in
  modify (set_processor p (Hosted m st)).

(** The callback: the first return of [capture_current] installs the
    hypervisor, and the guest starts with the second one, which must bail out;
    a guest that does not would start over inside itself. *)
Definition virtualize_processor (p : nat) : M System unit :=
  let! q := current p in
  let! present := present_on p in
  if present then ret tt
  else match q with
  | Native _ registers =>
      jump_with_new_stack (host_main p) registers ;;!
      let! present := present_on p in
      if present then ret tt else mpanic "virtualized again from inside the guest"
  | Hosted _ _ => mpanic "virtualized again from inside the guest"
  end.

Definition virtualize_system (shared_host : SharedHostData) : M System unit :=
  apic_init ;;!
  call_once shared_host ;;!
  run_on_all_processors virtualize_processor.

(** The host's loop on the processor [p], over the events of its guest until
    the guest has made the hypercall. *)
Definition continue_guest (events : list EI * list EA) (p : nat) : M System unit :=
  let! q := current p in
  let! d := gets (fun s => default (mk_shared_host None None None) (SHARED_HOST_DATA s)) in
  match q with
  | Hosted _ (inl (Running g vt)) =>
      let! (st, m) := on_processor p (vm_loop (GI := IG d) events.1 g vt) in
      match st with
      | Devirtualized r => modify (set_processor p (Native m r))
      | Running _ _ => mpanic "the guest has not made the hypercall"
      end
  | Hosted _ (inr (Running g vt)) =>
      let! (st, m) := on_processor p (vm_loop (GI := AG d) events.2 g vt) in
      match st with
      | Devirtualized r => modify (set_processor p (Native m r))
      | Running _ _ => mpanic "the guest has not made the hypercall"
      end
  | _ => mpanic "#UD"
  end.

(** [devirtualize_system] from the processor [here]: [events] is what each
    guest does until the hypercall. *)
Definition devirtualize_system (here : nat) (events : nat -> list EI * list EA) : M System unit :=
  let! present := present_on here in
  if negb present then ret tt
  else run_on_all_processors (fun p => continue_guest (events p) p).
End System.

#[global] Arguments Native {GI VI GA VA} _ _.
#[global] Arguments Hosted {GI VI GA VA} _ _.

(** ** Lemmas *)
Section SystemLemmas.
Context {P : Profile} {W GI EI VI GA EA VA Heap : Type} {HC : HasCpu W} {HA : HasApic W} {X86 : X86Xcr0}
  {PO : PlatformOps nat} {XT : X86Task}.
Context {IG : SharedHostData -> Guest W GI EI} {IX : Extension W VI}
  {AG : SharedHostData -> Guest W GA EA} {AX : Extension W VA}
  {IS : forall d, Setup (GI := IG d) W GI EI VI} {AS : forall d, Setup (GI := AG d) W GA EA VA}.
Context (alloc_zeroed : Layout -> M Heap Z).
#[local] Abbreviation System := (System (W := W) (GI := GI) (VI := VI) (GA := GA) (VA := VA) (Heap := Heap)).

(** The setup of a processor. *)
Lemma virtualize_core_starts {G Event E : Type} {GG : Guest W G Event} {XE : Extension W E} {ST : Setup W G Event E}
    (processor_id : M W (option Z)) r w st w' :
  keeps_apic processor_id -> virtualize_core processor_id r [] w = Ok (st, w') ->
  (exists g vt, st = Running g vt /\ regs g = r) /\ get_apic w' = get_apic w.
Proof.
  intros Hpid H. unfold virtualize_core in H.
  apply bind_ok in H as (vt0 & w0 & E0 & H). apply bind_ok in H as (vt & w1 & E1 & H).
  apply bind_ok in H as (found & w2 & E2 & H). apply bind_ok in H as (id & w3 & E3 & H).
  apply bind_ok in H as (g0 & w4 & E4 & H). apply bind_ok in H as (g1 & w5 & E5 & H).
  apply bind_ok in H as (g & w6 & E6 & H). injection H as <- <-. split.
  - exists g, vt. split; [done|]. by eapply initialize_regs.
  - rewrite (keeps_initialize _ _ _ _ _ E6), (keeps_activate _ _ _ _ E5), (keeps_new _ _ _ _ E4).
    assert (w3 = w2) as -> by (unfold lift in E3; destruct (unwrap _ _); [by injection E3|done]).
    rewrite (Hpid _ _ _ E2), (keeps_enable _ _ _ _ E1). by apply (keeps_default _ _ _ E0).
Qed.

(** A guest finds our hypervisor. *)
Lemma guest_test_true {G Event : Type} {GG : Guest W G Event} (guest : G) w : guest_test guest w = Ok true.
Proof. unfold guest_test. by rewrite guest_cpuid_answer. Qed.

(** A host that has just entered a guest with the registers [r]. *)
Definition starts_with (d : SharedHostData) (r : Registers) (st : HostState (GI := GI) (VI := VI) (GA := GA) (VA := VA))
    : Prop :=
  match st with
  | inl (Running g _) => regs (Guest := IG d) g = r
  | inr (Running g _) => regs (Guest := AG d) g = r
  | _ => False
  end.

Lemma present_hosted p m st d r (s : System) : cpus s !! p = Some (Hosted m st) -> starts_with d r st ->
  present_on (IG := IG) (AG := AG) p s = Ok (true, s).
Proof.
  intros Hq Hst. unfold present_on. rewrite Hq. cbn [unwrap obind].
  destruct st as [[g vt|]|[g vt|]]; try done; by rewrite guest_test_true.
Qed.

(** [apic_id::init] numbers the machines of the processors. *)
Lemma apic_numbering qs l (s s' : System) (ms : list Machine) : cpus s = qs ->
  Forall2 (fun p m => exists q, qs !! p = Some q /\ machine_of q = m) l ms ->
  run_one_by_one (fun p : nat =>
    let! q := current p in
    fun s => let? (_, st) := init_callback (machine_of q) (get_apic (shared s)) in
             Ok (tt, mk_system (put_apic st (shared s)) (cpus s) (heap s) (SHARED_HOST_DATA s))) l s = Ok (tt, s') ->
  run_one_by_one init_callback ms (get_apic (shared s)) = Ok (tt, get_apic (shared s')) /\
  cpus s' = cpus s /\ SHARED_HOST_DATA s' = SHARED_HOST_DATA s.
Proof.
  intros Hqs Hms. revert s Hqs. induction Hms as [|p m l ms (q & Hq & Hm) Hms IH]; intros s Hqs Hrun.
  - by injection Hrun as <-.
  - cbn [run_one_by_one] in *. apply bind_ok in Hrun as ([] & s1 & Hp & Hrun).
    unfold current in Hp. unfold bind in Hp at 1. rewrite Hqs, Hq in Hp. cbn [unwrap obind] in Hp.
    apply obind_ok in Hp as ([[] st] & Hcb & Hp). injection Hp as <-. rewrite Hm in Hcb.
    destruct (IH (mk_system (put_apic st (shared s)) (cpus s) (heap s) (SHARED_HOST_DATA s))) as (Hnum & Hc & Hd).
    + exact Hqs.
    + exact Hrun.
    + split; [|done]. rewrite (bind_intro _ _ _ _ _ Hcb). cbn [shared] in Hnum. by rewrite get_put_apic in Hnum.
Qed.

(** The callback on a native processor. *)
Lemma virtualize_processor_ok p m r d (s s' : System) :
  cpus s !! p = Some (Native m r) -> is_our_hypervisor_present (hw_cpuid m) = false ->
  SHARED_HOST_DATA s = Some d ->
  virtualize_processor (IG := IG) (AG := AG) alloc_zeroed p s = Ok (tt, s') ->
  exists m' st, starts_with d r st /\ cpus s' = <[p := Hosted m' st]> (cpus s) /\
    SHARED_HOST_DATA s' = Some d /\ get_apic (shared s') = get_apic (shared s).
Proof.
  intros Hq Hno Hd H. unfold virtualize_processor in H.
  apply bind_ok in H as (q & s0 & Hcur & H). unfold current in Hcur. rewrite Hq in Hcur. injection Hcur as <- <-.
  apply bind_ok in H as (b & s0 & Hpres & H). unfold present_on in Hpres. rewrite Hq in Hpres.
  cbn [unwrap obind machine_of] in Hpres. rewrite Hno in Hpres. injection Hpres as <- <-.
  apply bind_ok in H as ([] & s1 & Hjump & H). unfold jump_with_new_stack in Hjump.
  apply bind_ok in Hjump as (stack & s2 & Hheap & Hjump). unfold on_heap in Hheap.
  apply obind_ok in Hheap as ([x h] & _ & Hheap). injection Hheap as -> <-.
  apply bind_ok in Hjump as ([] & s2 & Hn & Hjump).
  assert (s2 = mk_system (shared s) (cpus s) h (SHARED_HOST_DATA s)) as -> by
    (destruct (stack =? 0); [done|by injection Hn]).
  apply bind_ok in Hjump as (top & s2 & Ht & Hjump). apply lift_ok in Ht as [_ ->].
  apply bind_ok in Hjump as (sb & s2 & Ht & Hjump). apply lift_ok in Ht as [_ ->].
  unfold host_main in Hjump. rewrite bind_gets in Hjump. cbn [SHARED_HOST_DATA] in Hjump. rewrite Hd in Hjump.
  cbn [unwrap] in Hjump. rewrite bind_lift_ok in Hjump.
  apply bind_ok in Hjump as ([st m'] & s2 & Hon & Hjump). injection Hjump as <-.
  unfold on_processor in Hon. cbn [cpus] in Hon. rewrite Hq in Hon. cbn [unwrap obind] in Hon.
  apply obind_ok in Hon as ([st0 w] & Hmain & Hon). injection Hon as -> <- <-.
  assert (starts_with d r st /\ get_apic w = get_apic (shared s)) as [Hst Hw].
  { unfold main in Hmain. set (pid := gets _) in Hmain.
    assert (keeps_apic pid) as Hpid by (intros ? ? ? [= _ <-]; done).
    destruct (vendor_is_intel _); apply bind_ok in Hmain as (st' & w1 & Hcore & Hmain); injection Hmain as <- <-;
      apply virtualize_core_starts in Hcore as ((g & vt & -> & Hg) & Hw); try done;
      (split; [exact Hg|]); rewrite Hw; apply get_apic_put_cpu. }
  exists (get_cpu w), st. split; [done|].
  assert (s' = set_processor p (Hosted (get_cpu w) st) (mk_system w (cpus s) h (Some d))) as ->.
  { apply bind_ok in H as (b & s3 & Hpres & H). unfold present_on in Hpres.
    apply obind_ok in Hpres as (q & _ & Hpres). apply obind_ok in Hpres as (b' & _ & Hpres). injection Hpres as -> <-.
    by destruct b; [injection H as <-|]. }
  cbn [set_processor cpus SHARED_HOST_DATA shared]. done.
Qed.

(** The callback on all processors, one after the other. *)
Lemma virtualize_all d l (s s' : System) : NoDup l -> SHARED_HOST_DATA s = Some d ->
  (forall p, p ∈ l -> exists m r, cpus s !! p = Some (Native m r) /\ is_our_hypervisor_present (hw_cpuid m) = false) ->
  run_one_by_one (virtualize_processor (IG := IG) (AG := AG) alloc_zeroed) l s = Ok (tt, s') ->
  (forall p m r, p ∈ l -> cpus s !! p = Some (Native m r) ->
     exists m' st, cpus s' !! p = Some (Hosted m' st) /\ starts_with d r st) /\
  (forall p, ~ (p ∈ l) -> cpus s' !! p = cpus s !! p) /\
  SHARED_HOST_DATA s' = Some d /\ get_apic (shared s') = get_apic (shared s).
Proof.
  intros Hnd. revert s. induction Hnd as [|p l Hp Hnd IH]; intros s Hd Hall Hrun.
  - injection Hrun as <-. split_and!; try done. by intros p m r Hin%not_elem_of_nil.
  - cbn [run_one_by_one] in Hrun. apply bind_ok in Hrun as ([] & s1 & H1 & Hrun).
    destruct (Hall p ltac:(left)) as (m & r & Hq & Hno).
    destruct (virtualize_processor_ok p m r d s s1 Hq Hno Hd H1) as (m' & st & Hst & Hc & Hd1 & Ha1).
    assert (forall p', p' ∈ l -> cpus s1 !! p' = cpus s !! p') as Hrest.
    { intros p' Hin. rewrite Hc. apply list_lookup_insert_ne. by intros ->. }
    destruct (IH s1 Hd1) as (Hhost & Hother & Hd2 & Ha2); [|done|].
    { intros p' Hin. rewrite (Hrest p' Hin). apply Hall. by right. }
    split_and!.
    + intros p' m1 r1 [->|Hin]%elem_of_cons Hq1.
      * rewrite Hq in Hq1. injection Hq1 as <- <-. exists m', st. split; [|done].
        rewrite (Hother p Hp), Hc. apply list_lookup_insert_eq. by apply lookup_lt_Some in Hq.
      * apply (Hhost p' m1 r1 Hin). by rewrite Hrest.
    + intros p' [Hne Hin]%not_elem_of_cons. rewrite (Hother p' Hin), Hc. by apply list_lookup_insert_ne.
    + done.
    + by rewrite Ha2.
Qed.

Lemma machines_exist (qs : list (Processor (GI := GI) (VI := VI) (GA := GA) (VA := VA))) l :
  (forall p, p ∈ l -> exists q, qs !! p = Some q) ->
  exists ms, Forall2 (fun p m => exists q, qs !! p = Some q /\ machine_of q = m) l ms.
Proof.
  induction l as [|p l IH]; intros Hall; [by exists []|].
  destruct IH as [ms Hms]; [intros p' Hin; apply Hall; by right|].
  destruct (Hall p ltac:(left)) as [q Hq]. exists (machine_of q :: ms). constructor; eauto.
Qed.

Lemma apic_init_ok (s s' : System) : apic_init s = Ok (tt, s') ->
  PROCESSOR_COUNT (get_apic (shared s)) = 0 /\
  run_one_by_one (fun p : nat =>
    let! q := current p in
    fun s => let? (_, st) := init_callback (machine_of q) (get_apic (shared s)) in
             Ok (tt, mk_system (put_apic st (shared s)) (cpus s) (heap s) (SHARED_HOST_DATA s))) processors s = Ok (tt, s').
Proof.
  intros H. unfold apic_init in H. rewrite bind_gets in H. apply bind_massert_ok in H as [H0 H].
  rewrite run_on_all_spec in H. split; [by apply Z.eqb_eq|done].
Qed.
(** What [virtualize_system] leaves. *)
Lemma virtualize_system_hosts d (s s' : System) :
  NoDup processors -> SHARED_HOST_DATA s = None -> APIC_ID_MAP (get_apic (shared s)) = ∅ ->
  (forall p, p ∈ processors -> exists m r, cpus s !! p = Some (Native m r) /\
     is_our_hypervisor_present (hw_cpuid m) = false) ->
  virtualize_system (IG := IG) (AG := AG) alloc_zeroed d s = Ok (tt, s') ->
  exists ms, Forall2 (fun p m => exists q, cpus s !! p = Some q /\ machine_of q = m) processors ms /\
  NoDup (get <$> ms) /\ SHARED_HOST_DATA s' = Some d /\
  get_apic (shared s') = mk_apic (numbered ms 0 ∅) (Z.of_nat (length ms)) /\
  (forall p m r, p ∈ processors -> cpus s !! p = Some (Native m r) ->
     exists m' st, cpus s' !! p = Some (Hosted m' st) /\ starts_with d r st) /\
  (forall p, ~ (p ∈ processors) -> cpus s' !! p = cpus s !! p).
Proof.
  intros Hnd Hnone Hmap Hall H. unfold virtualize_system in H.
  apply bind_ok in H as ([] & s1 & Hinit & H). apply apic_init_ok in Hinit as [H0 Hinit].
  destruct (machines_exist (cpus s) processors) as [ms Hms].
  { intros p Hin. destruct (Hall p Hin) as (m & r & Hq & _). eauto. }
  destruct (apic_numbering (cpus s) processors s s1 ms eq_refl Hms Hinit) as (Hnum & Hc1 & Hd1).
  destruct (init_callbacks_dup _ _ _ Hnum) as [Hids _].
  rewrite init_callbacks_ok in Hnum by (try done; intros m _; by rewrite Hmap). injection Hnum as Hapic.
  apply bind_ok in H as ([] & s2 & Honce & H). rewrite run_on_all_spec in H.
  assert (SHARED_HOST_DATA s2 = Some d /\ cpus s2 = cpus s /\ get_apic (shared s2) = get_apic (shared s1))
    as (Hd2 & Hc2 & Ha2).
  { injection Honce as <-. cbn [SHARED_HOST_DATA cpus shared]. by rewrite Hd1, Hnone, Hc1. }
  destruct (virtualize_all d processors s2 s' Hnd Hd2) as (Hhost & Hother & Hd' & Ha'); [|exact H|].
  { intros p Hin. rewrite Hc2. by apply Hall. }
  rewrite Hc2 in *. rewrite Ha2, <- Hapic, H0, Hmap in Ha'.
  by exists ms.
Qed.

End SystemLemmas.

Section LeavingLemmas.
Context {P : Profile} {W GI EI VI GA EA VA Heap : Type} {HC : HasCpu W} {HA : HasApic W} {X86 : X86Xcr0}
  {XT : X86Task}.
Context {IG : SharedHostData -> Guest W GI EI} {IX : Extension W VI}
  {AG : SharedHostData -> Guest W GA EA} {AX : Extension W VA}.
#[local] Abbreviation System := (System (W := W) (GI := GI) (VI := VI) (GA := GA) (VA := VA) (Heap := Heap)).
#[local] Abbreviation continue := (continue_guest (Heap := Heap) (IG := IG) (AG := AG)).

(** A processor that left the host after the hypercall. *)
Definition left_host (q : option (Processor (GI := GI) (VI := VI) (GA := GA) (VA := VA))) : Prop :=
  exists m r info (before : Registers), q = Some (Native m r) /\ before RAX = DEVIRTUALIZE /\ r = fset RIP info before.

Lemma on_processor_ok {A : Type} p (x : M W A) a m (s s' : System) : on_processor p x s = Ok ((a, m), s') ->
  exists q w, cpus s !! p = Some q /\ x (put_cpu (machine_of q) (shared s)) = Ok (a, w) /\ m = get_cpu w /\
    s' = mk_system w (cpus s) (heap s) (SHARED_HOST_DATA s).
Proof.
  intros H. unfold on_processor in H. apply obind_ok in H as (q & Hq & H).
  apply obind_ok in H as ([a' w] & Hx & H). injection H as -> <- <-. exists q, w.
  destruct (cpus s !! p) as [q'|]; [|done]. injection Hq as ->. done.
Qed.

Lemma continue_ok events p (s s' : System) : continue events p s = Ok (tt, s') ->
  (exists m st, cpus s !! p = Some (Hosted m st)) /\ left_host (cpus s' !! p) /\
  (forall p', p' <> p -> cpus s' !! p' = cpus s !! p') /\ SHARED_HOST_DATA s' = SHARED_HOST_DATA s.
Proof.
  intros H. unfold continue_guest in H. apply bind_ok in H as (q & s0 & Hcur & H). unfold current in Hcur.
  destruct (cpus s !! p) as [q'|] eqn:Hq; [|done]. injection Hcur as -> <-. rewrite bind_gets in H.
  assert (forall m r, (exists m st, q = Hosted m st) ->
    (exists info (before : Registers), before RAX = DEVIRTUALIZE /\ r = fset RIP info before) ->
    cpus s' = <[p := Native m r]> (cpus s) -> SHARED_HOST_DATA s' = SHARED_HOST_DATA s ->
    (exists m st, Some q = Some (Hosted m st)) /\ left_host (cpus s' !! p) /\
    (forall p', p' <> p -> cpus s' !! p' = cpus s !! p') /\ SHARED_HOST_DATA s' = SHARED_HOST_DATA s) as Hdone.
  { intros m r (mq & st & ->) (info & before & Hb & Hr) Hc Hd. split_and!; [eauto|..|done].
    - exists m, r, info, before. split; [|done]. rewrite Hc. apply list_lookup_insert_eq. by apply lookup_lt_Some in Hq.
    - intros p' Hp. rewrite Hc. by apply list_lookup_insert_ne. }
  destruct q as [|mq [[g vt|]|[g vt|]]]; try done; apply bind_ok in H as ([[|r] m] & s1 & Hon & H); try done;
    apply on_processor_ok in Hon as (q & w & _ & Hx & -> & ->); injection H as <-;
    apply vm_loop_leaves in Hx as (info & g1 & Hrax & ->); eapply Hdone; cbn [set_processor cpus SHARED_HOST_DATA]; eauto.
Qed.

Lemma continue_all events l (s s' : System) : NoDup l -> run_one_by_one (fun p => continue (events p) p) l s = Ok (tt, s') ->
  (forall p, p ∈ l -> (exists m st, cpus s !! p = Some (Hosted m st)) /\ left_host (cpus s' !! p)) /\
  (forall p, ~ (p ∈ l) -> cpus s' !! p = cpus s !! p) /\ SHARED_HOST_DATA s' = SHARED_HOST_DATA s.
Proof.
  intros Hnd. revert s. induction Hnd as [|p l Hp Hnd IH]; intros s Hrun.
  - injection Hrun as <-. split_and!; try done. by intros p Hin%not_elem_of_nil.
  - cbn [run_one_by_one] in Hrun. apply bind_ok in Hrun as ([] & s1 & H1 & Hrun).
    destruct (continue_ok _ _ _ _ H1) as (Hh & Hl & Ho & Hd). destruct (IH s1 Hrun) as (Hall & Hother & Hd1).
    split_and!.
    + intros p' [->|Hin]%elem_of_cons; [split; [done|by rewrite Hother]|].
      rewrite <- (Ho p') by (by intros ->). by apply Hall.
    + intros p' [Hne Hin]%not_elem_of_cons. by rewrite Hother, Ho.
    + by rewrite Hd1.
Qed.
End LeavingLemmas.

(** ** Properties *)
Section SystemTheorems.
Context {P : Profile} {W GI EI VI GA EA VA Heap : Type} {HC : HasCpu W} {HA : HasApic W} {X86 : X86Xcr0}
  {PO : PlatformOps nat} {XT : X86Task}.
Context {IG : SharedHostData -> Guest W GI EI} {IX : Extension W VI}
  {AG : SharedHostData -> Guest W GA EA} {AX : Extension W VA}
  {IS : forall d, Setup (GI := IG d) W GI EI VI} {AS : forall d, Setup (GI := AG d) W GA EA VA}.
Context (alloc_zeroed : Layout -> M Heap Z).
#[local] Abbreviation System := (System (W := W) (GI := GI) (VI := VI) (GA := GA) (VA := VA) (Heap := Heap)).

(** When [virtualize_system] returns on a native system, every processor
    the platform visits hosts a guest that was entered with the registers the
    processor had at the call; the processors are numbered in the order of the
    visit; code on any of them finds the hypervisor, so that running the
    callback again changes nothing; the other processors are untouched.  A
    second [virtualize_system] panics. *)
Lemma virtualize_system_installs d (s s' : System) :
  NoDup processors -> processors <> [] ->
  SHARED_HOST_DATA s = None -> APIC_ID_MAP (get_apic (shared s)) = ∅ ->
  (forall p, p ∈ processors -> exists m r, cpus s !! p = Some (Native m r) /\
     is_our_hypervisor_present (hw_cpuid m) = false) ->
  virtualize_system (IG := IG) (AG := AG) alloc_zeroed d s = Ok (tt, s') ->
  SHARED_HOST_DATA s' = Some d /\
  (forall i p m r, processors !! i = Some p -> cpus s !! p = Some (Native m r) ->
     processor_id_from (get m) (get_apic (shared s')) = Some (Z.of_nat i) /\
     (exists m' st, cpus s' !! p = Some (Hosted m' st) /\ starts_with d r st) /\
     virtualize_processor (IG := IG) (AG := AG) alloc_zeroed p s' = Ok (tt, s')) /\
  (forall p, ~ (p ∈ processors) -> cpus s' !! p = cpus s !! p) /\
  (forall d', virtualize_system (IG := IG) (AG := AG) alloc_zeroed d' s' = Panic "PROCESSOR_COUNT == 0").
Proof.
  intros Hnd Hne Hnone Hmap Hall H.
  destruct (virtualize_system_hosts alloc_zeroed d s s' Hnd Hnone Hmap Hall H) as (ms & Hms & Hids & Hd & Ha' & Hhost & Hother).
  split_and!; [done| |exact Hother|].
  - intros i p m r Hi Hq.
    destruct (Hhost p m r (list_elem_of_lookup_2 _ _ _ Hi) Hq) as (m' & st & Hq' & Hst). split_and!.
    + rewrite Ha'. unfold processor_id_from. cbn [APIC_ID_MAP].
      destruct (Forall2_lookup_l _ _ _ _ _ Hms Hi) as (m2 & Hm2 & q2 & Hq2 & E).
      rewrite Hq in Hq2. injection Hq2 as <-. cbn [machine_of] in E. subst m2.
      by rewrite (numbered_lookup _ _ _ i).
    + eauto.
    + unfold virtualize_processor, current. unfold bind at 1. rewrite Hq'. cbn [unwrap obind].
      by rewrite (bind_intro _ _ _ _ _ (present_hosted p m' st d r s' Hq' Hst)).
  - intros d'. unfold virtualize_system. unfold bind at 1. unfold apic_init. rewrite bind_gets, Ha'.
    cbn [PROCESSOR_COUNT]. apply Forall2_length in Hms.
    destruct processors; [done|]. cbn [length] in Hms. unfold massert. rewrite <- Hms. done.
Qed.

(** C29: [devirtualize_system] does nothing where our hypervisor is not found.
    Otherwise, when it returns, every processor the platform visits was in the
    host's loop and has left it: it is native, and runs on behind the hypercall
    its guest made with RAX = DEVIRTUALIZE.  The other processors and the shared
    host data stay as they were. *)
Theorem devirtualize_system_leaves here events (s s' : System) : NoDup processors ->
  devirtualize_system (IG := IG) (AG := AG) here events s = Ok (tt, s') ->
  (present_on (IG := IG) (AG := AG) here s = Ok (false, s) /\ s' = s) \/
  (present_on (IG := IG) (AG := AG) here s = Ok (true, s) /\
   (forall p, p ∈ processors -> (exists m st, cpus s !! p = Some (Hosted m st)) /\ left_host (cpus s' !! p)) /\
   (forall p, ~ (p ∈ processors) -> cpus s' !! p = cpus s !! p) /\ SHARED_HOST_DATA s' = SHARED_HOST_DATA s).
Proof.
  intros Hnd H. unfold devirtualize_system in H. apply bind_ok in H as (b & s1 & Hpres & H). rewrite Hpres.
  assert (s1 = s) as ->.
  { unfold present_on in Hpres. apply obind_ok in Hpres as (q & _ & Hpres).
    apply obind_ok in Hpres as (b' & _ & Hpres). by injection Hpres as _ <-. }
  destruct b; cbn [negb] in H.
  - right. split; [done|]. rewrite run_on_all_spec in H. by apply (continue_all events).
  - left. injection H as <-. done.
Qed.
End SystemTheorems.
