(* ===== verification/Hypervisor.v ===== *)
(** * The whole hypervisor (hvcore with both architectures)

    The world of [SvmGuest] and that of [VmxGuest] are views of one world; the
    interfaces of System.v are discharged for both, so that the theorems there
    hold of the real guests, and two AMD processors are virtualized and
    devirtualized in a concrete run.  (That [virtualize_system] succeeds is in
    Startup.v.) *)

From S2P Require Import Prelude External Machine Platform Allocator ApicId Segment Tables Paging Npts Epts Host Vmcb.
From S2P Require Import Svm SvmProofs Vmx VmxProofs System.

(** ** Code that does not renumber the processors *)
Section Keeps.
Context {W : Type} {HC : HasCpu W} {HA : HasApic W}.

Lemma keeps_ret {A} (a : A) : keeps_apic (W := W) (ret a).
Proof. intros w b w' H. by injection H as _ <-. Qed.
Lemma keeps_bind {A B} (x : M W A) (k : A -> M W B) :
  keeps_apic x -> (forall a, keeps_apic (k a)) -> keeps_apic (bind x k).
Proof. intros Hx Hk w b w' H. apply bind_ok in H as (a & w1 & H1 & H). by rewrite (Hk _ _ _ _ H), (Hx _ _ _ H1). Qed.
Lemma keeps_on_cpu {A} (x : M Machine A) : keeps_apic (W := W) (on_cpu x).
Proof. intros w a w' H. unfold on_cpu in H. destruct (x _) as [[b m]|]; [|done]. injection H as _ <-. apply get_apic_put_cpu. Qed.
Lemma keeps_lift {A} (x : outcome A) : keeps_apic (W := W) (lift x).
Proof. intros w a w' H. by apply lift_ok in H as [_ ->]. Qed.
Lemma keeps_massert b why : keeps_apic (W := W) (massert b why).
Proof. apply keeps_lift. Qed.
Lemma keeps_gets {A} (f : W -> A) : keeps_apic (gets f).
Proof. intros w a w' H. by injection H as _ <-. Qed.
Lemma keeps_modify (f : W -> W) : (forall w, get_apic (f w) = get_apic w) -> keeps_apic (modify f).
Proof. intros Hf w a w' H. injection H as _ <-. apply Hf. Qed.
Lemma keeps_mpanic {A} why : keeps_apic (W := W) (A := A) (mpanic why).
Proof. by intros w a w' H. Qed.
End Keeps.

Create HintDb keeps.
#[export] Hint Resolve keeps_ret keeps_on_cpu keeps_lift keeps_massert keeps_gets keeps_mpanic : keeps.

Ltac keeps :=
  repeat (apply keeps_bind; intros);
  auto with keeps;
  repeat match goal with |- keeps_apic (match ?x with _ => _ end) => destruct x; keeps end.

(** ** Code that returns a guest with given registers *)
Definition gives {W G : Type} (regs_of : G -> Registers) (r : Registers) (x : M W G) : Prop :=
  forall w g w', x w = Ok (g, w') -> regs_of g = r.

Section Gives.
Context {W G : Type} (regs_of : G -> Registers) (r : Registers).

Lemma gives_ret g : regs_of g = r -> gives (W := W) regs_of r (ret g).
Proof. intros Hg w g' w' H. by injection H as <- _. Qed.
Lemma gives_bind {A} (x : M W A) (k : A -> M W G) : (forall a, gives regs_of r (k a)) -> gives regs_of r (bind x k).
Proof. intros Hk w g w' H. apply bind_ok in H as (a & w1 & _ & H). by eapply Hk. Qed.
Lemma gives_then (x : M W G) (k : G -> M W G) : gives regs_of r x ->
  (forall g, regs_of g = r -> gives regs_of r (k g)) -> gives regs_of r (bind x k).
Proof. intros Hx Hk w g w' H. apply bind_ok in H as (g1 & w1 & H1 & H). apply Hx in H1. by eapply Hk. Qed.
End Gives.

(** ** AMD *)
#[export, refine] Instance svm_has_apic : HasApic SvmWorld := {
  get_apic := svm_apic;
  put_apic a w := mk_svm_world (svm_cpu w) (npt w) (activity_states w) a
}.
Proof. all: done. Defined.

Section SvmSetup.
Context {P : Profile} {BF : BitfieldMacro} {BT : BitFieldTrait} {XS : X86Segmentation} {XT : X86Task}
  {HV : HwVmsave} {Proc : Type} {OPS : PlatformOps Proc}.
Context (uefi : bool) (vmcb_addr host_vmcb_addr host_state_addr : Z -> Z) (npt_addr : Z)
  (shared_host : SharedHostData).
#[local] Instance amd : Guest SvmWorld SvmGuest SvmEvent :=
  svm_guest uefi vmcb_addr host_vmcb_addr host_state_addr npt_addr shared_host.

Lemma keeps_activity_load id : keeps_apic (activity_load id).
Proof. intros w a w' H. unfold activity_load in H. destruct (_ !! _); [|done]. by injection H as _ <-. Qed.

Lemma keeps_intercept enable g : keeps_apic (intercept_apic_write enable g).
Proof. unfold intercept_apic_write. keeps. by apply keeps_modify. Qed.

Lemma svm_initialize_gives r g : gives svm_registers r (svm_initialize npt_addr shared_host r g).
Proof.
  unfold svm_initialize. apply gives_then; [|intros g1 Hg1; apply gives_then; [|intros g2 Hg2]].
  - unfold initialize_control. repeat (apply gives_bind; intros). by apply gives_ret.
  - unfold initialize_guest. repeat (apply gives_bind; intros). by apply gives_ret.
  - unfold initialize_host. repeat (apply gives_bind; intros). by apply gives_ret.
Qed.

#[export, refine] Instance svm_setup : Setup SvmWorld SvmGuest SvmEvent Svm := {}.
Proof.
  - intros r g. apply svm_initialize_gives.
  - apply keeps_ret.
  - intros vt. cbn [enable svm_extension]. unfold svm_enable. keeps.
  - intros id. cbn [guest_new amd svm_guest]. unfold svm_new.
    apply keeps_bind; [apply keeps_activity_load|intros _]. cbn zeta.
    destruct (_ && _); [apply keeps_intercept|apply keeps_ret].
  - intros g. cbn [activate amd svm_guest]. unfold svm_activate. keeps.
  - intros r g. cbn [initialize amd svm_guest]. unfold svm_initialize, initialize_control, initialize_guest, initialize_host.
    keeps.
Defined.
End SvmSetup.

(** ** Intel *)
#[export, refine] Instance vmx_has_apic : HasApic VmxWorld := {
  get_apic := vmx_apic;
  put_apic a w := mk_vmx_world (vmx_cpu w) (shared_guest w) a
}.
Proof. all: done. Defined.

Section VmxSetup.
Context {P : Profile} {BF : BitfieldMacro} {BT : BitFieldTrait} {XS : X86Segmentation} {XT : X86Task}
  {XC : X86Cr0} {XI : X86CpuId} {Proc : Type} {OPS : PlatformOps Proc}.
Context (bsf_zero vmxon_addr : Z) (vmcs_addr : Z -> Z) (bitmaps_addr epts_addr : Z) (tss_addr : Z -> Z)
  (shared_host : SharedHostData).
#[local] Instance intel : Guest VmxWorld VmxGuest VmxEvent :=
  vmx_guest bsf_zero vmcs_addr bitmaps_addr epts_addr tss_addr shared_host.
#[local] Existing Instance vmx_extension.

Lemma keeps_shared_guest : keeps_apic (shared_guest_data bsf_zero epts_addr).
Proof.
  intros w a w' H. unfold shared_guest_data in H. destruct (shared_guest w); [by injection H as _ <-|].
  apply obind_ok in H as ([mtrr m] & _ & H). apply obind_ok in H as (epts & _ & H). by injection H as _ <-.
Qed.

Lemma vmx_initialize_gives r g :
  gives vmx_registers r (vmx_initialize bsf_zero bitmaps_addr epts_addr tss_addr shared_host r g).
Proof. unfold vmx_initialize. repeat (apply gives_bind; intros). by apply gives_ret. Qed.

#[export, refine] Instance vmx_setup :
  Setup (XI := vmx_extension vmxon_addr) VmxWorld VmxGuest VmxEvent Vmx := {}.
Proof.
  - intros r g. apply vmx_initialize_gives.
  - cbn [ext_default vmx_extension]. keeps.
  - intros vt. cbn [enable vmx_extension]. keeps.
  - intros id. cbn [guest_new intel vmx_guest]. unfold vmx_new. keeps.
  - intros g. cbn [activate intel vmx_guest]. unfold vmx_activate. keeps.
  - intros r g. cbn [initialize intel vmx_guest]. unfold vmx_initialize, vmx_initialize_control.
    keeps; apply keeps_shared_guest.
Defined.
End VmxSetup.

(** ** One world *)

(** The processor that runs, the shared data of both architectures, and the
    numbering. *)
Record HvWorld : Type := mk_hv_world {
  hv_cpu : Machine;
  hv_npt : PagingStructuresRaw;
  hv_activity_states : list Z;
  hv_shared_guest : option Epts;
  hv_apic : ApicState;
}.

#[export, refine] Instance hv_has_cpu : HasCpu HvWorld := {
  get_cpu := hv_cpu;
  put_cpu m w := mk_hv_world m (hv_npt w) (hv_activity_states w) (hv_shared_guest w) (hv_apic w)
}.
Proof.
  - done.
  - by intros [].
  - done.
Defined.

#[export, refine] Instance hv_has_apic : HasApic HvWorld := {
  get_apic := hv_apic;
  put_apic a w := mk_hv_world (hv_cpu w) (hv_npt w) (hv_activity_states w) (hv_shared_guest w) a
}.
Proof. all: done. Defined.

(** A view of a part [V] of a world [W]. *)
Class View (W V : Type) {HCW : HasCpu W} {HCV : HasCpu V} {HAW : HasApic W} {HAV : HasApic V} : Type := {
  view : W -> V;
  update : V -> W -> W;
  view_update : forall v w, view (update v w) = v;
  update_update : forall v v' w, update v (update v' w) = update v w;
  get_cpu_update : forall v w, get_cpu (update v w) = get_cpu v;
  get_cpu_view : forall w, get_cpu (view w) = get_cpu w;
  get_apic_update : forall v w, get_apic (update v w) = get_apic v;
  get_apic_view : forall w, get_apic (view w) = get_apic w;
}.

#[export, refine] Instance svm_view : View HvWorld SvmWorld := {
  view w := mk_svm_world (hv_cpu w) (hv_npt w) (hv_activity_states w) (hv_apic w);
  update v w := mk_hv_world (svm_cpu v) (npt v) (activity_states v) (hv_shared_guest w) (svm_apic v)
}.
Proof. 1: by intros []. all: done. Defined.

#[export, refine] Instance vmx_view : View HvWorld VmxWorld := {
  view w := mk_vmx_world (hv_cpu w) (hv_shared_guest w) (hv_apic w);
  update v w := mk_hv_world (vmx_cpu v) (hv_npt w) (hv_activity_states w) (shared_guest v) (vmx_apic v)
}.
Proof. 1: by intros []. all: done. Defined.

(** Code of a part, run in the whole. *)
Section Zoom.
Context {W V G Event E : Type} {HCW : HasCpu W} {HCV : HasCpu V} {HAW : HasApic W} {HAV : HasApic V}
  {VW : View W V} {GV : Guest V G Event} {XV : Extension V E}.

Definition zoom {A : Type} (x : M V A) : M W A := fun w =>
  let? (a, v) := x (view w) in Ok (a, update v w).

Lemma zoom_ok {A : Type} (x : M V A) w a w' : zoom x w = Ok (a, w') -> exists v, x (view w) = Ok (a, v) /\ w' = update v w.
Proof. intros H. apply obind_ok in H as ([b v] & Hx & H). injection H as -> <-. eauto. Qed.

(** One step after another of the part. *)
Lemma zoom_first {A : Type} (x : M V A) w a v : x (view w) = Ok (a, v) -> zoom x w = Ok (a, update v w).
Proof. intros H. unfold zoom. by rewrite H. Qed.
Lemma zoom_next {A : Type} (x : M V A) w v a v' : x v = Ok (a, v') -> zoom x (update v w) = Ok (a, update v' w).
Proof. intros H. unfold zoom. rewrite view_update, H. cbn [obind]. by rewrite update_update. Qed.

#[refine] Definition zoom_guest : Guest W G Event := {|
  guest_new id := zoom (guest_new id);
  activate g := zoom (activate g);
  initialize r g := zoom (initialize r g);
  run event g := zoom (run event g);
  deactivate g := zoom (deactivate g);
  load_guest_cpu_state g := zoom (load_guest_cpu_state g);
  regs := regs;
  set_regs := set_regs
|}.
Proof.
  - apply regs_set.
  - intros g w g' w' H. apply zoom_ok in H as (v & H & _). by eapply deactivate_regs.
Defined.

Definition zoom_extension : Extension W E := {|
  ext_default := zoom ext_default;
  enable vt := zoom (enable vt);
  disable vt := zoom (disable vt)
|}.

Lemma keeps_zoom {A : Type} (x : M V A) : keeps_apic x -> keeps_apic (zoom x).
Proof.
  intros Hx w a w' H. apply zoom_ok in H as (v & H & ->). by rewrite get_apic_update, (Hx _ _ _ H), get_apic_view.
Qed.

Lemma zoom_setup : Setup V G Event E -> Setup (GI := zoom_guest) (XI := zoom_extension) W G Event E.
Proof.
  intros S. split.
  - intros r g w g' w' H. apply zoom_ok in H as (v & H & _). by eapply (initialize_regs (Setup := S)).
  - apply keeps_zoom, S.
  - intros vt. apply keeps_zoom, S.
  - intros id. apply keeps_zoom, S.
  - intros g. apply keeps_zoom, S.
  - intros r g. apply keeps_zoom, S.
Qed.
End Zoom.

(** ** The hypervisor under UEFI *)
Section Hypervisor.
Context {P : Profile} {BF : BitfieldMacro} {BT : BitFieldTrait} {XS : X86Segmentation} {XT : X86Task}
  {XC : X86Cr0} {XI : X86CpuId} {HV : HwVmsave} {PO : PlatformOps nat}.
Context (uefi : bool) (bsf_zero vmxon_addr : Z) (vmcs_addr vmcb_addr host_vmcb_addr host_state_addr : Z -> Z)
  (npt_addr bitmaps_addr epts_addr : Z) (tss_addr : Z -> Z).

Definition hv_intel (d : SharedHostData) : Guest HvWorld VmxGuest VmxEvent :=
  zoom_guest (GV := vmx_guest bsf_zero vmcs_addr bitmaps_addr epts_addr tss_addr d).
Definition hv_amd (d : SharedHostData) : Guest HvWorld SvmGuest SvmEvent :=
  zoom_guest (GV := svm_guest uefi vmcb_addr host_vmcb_addr host_state_addr npt_addr d).
Definition hv_vmx : Extension HvWorld Vmx := zoom_extension (XV := vmx_extension vmxon_addr).
Definition hv_svm : Extension HvWorld Svm := zoom_extension (V := SvmWorld) (XV := svm_extension).

Lemma hv_intel_setup d : Setup (GI := hv_intel d) (XI := hv_vmx) HvWorld VmxGuest VmxEvent Vmx.
Proof. apply (zoom_setup (V := VmxWorld)), vmx_setup. Qed.
Lemma hv_amd_setup d : Setup (GI := hv_amd d) (XI := hv_svm) HvWorld SvmGuest SvmEvent Svm.
Proof. apply (zoom_setup (V := SvmWorld)), svm_setup. Qed.
End Hypervisor.

(** ** A concrete run: two AMD processors *)
Module HypervisorExample.
Import Reference.
#[local] Instance checked : Profile := true.
#[local] Existing Instance TablesExample.x86_task.
#[local] Existing Instance SvmExample.no_hidden_parts.
#[local] Existing Instance VmxExample.cpu_id.
#[local] Instance ops : PlatformOps nat := UefiOps 0%nat [1%nat].

(** The processor with the given APIC identifier. *)
Definition amd_cpu (id : Z) : Machine :=
  mk_machine SvmExample.long_mode
    (list_to_map [(IA32_EFER, 0xd01); (IA32_FS_BASE, 0); (IA32_GS_BASE, 0x7000); (IA32_PAT, 0x0007040600070406);
                  (IA32_APIC_BASE, 0xfee0_0800); (SVM_MSR_VM_CR, 0); (SVM_MSR_VM_HSAVE_PA, 0)])
    SvmExample.flat_gdt (fun _ => 0) VmxOff ∅
    (fun leaf _ => if leaf =? 1 then mk_cpuid 0x830f10 (Z.shiftl id 24) 0 0 else mk_cpuid 0xd 0x68747541 0x444d4163 0x69746e65)
    (fun _ => (0, 0)) (fun _ => (0, 0)).

Definition at_rip (rip : Z) : Registers := assign [(RIP, rip); (RSP, 0x8000)] (fun _ => 0).

Definition addr (base id : Z) : Z := base + 0x1000 * id.
#[local] Instance intel (d : SharedHostData) : Guest HvWorld VmxGuest VmxEvent :=
  hv_intel 0 (addr 0x20_0000) 0x30_0000 0x31_0000 (addr 0x40_0000) d.
#[local] Instance amd (d : SharedHostData) : Guest HvWorld SvmGuest SvmEvent :=
  hv_amd true (addr 0x50_0000) (addr 0x60_0000) (addr 0x70_0000) 0x10_0000 d.
#[local] Instance intel_vt : Extension HvWorld Vmx := hv_vmx 0x9000.
#[local] Instance amd_vt : Extension HvWorld Svm := hv_svm.
#[local] Instance intel_ok d : Setup HvWorld VmxGuest VmxEvent Vmx (GI := intel d) := hv_intel_setup _ _ _ _ _ _ d.
#[local] Instance amd_ok d : Setup HvWorld SvmGuest SvmEvent Svm (GI := amd d) := hv_amd_setup _ _ _ _ _ d.

Definition own_tables : SharedHostData := mk_shared_host None None None.

Definition native : System (W := HvWorld) (GI := VmxGuest) (VI := Vmx) (GA := SvmGuest) (VA := Svm)
    (Heap := option (Metadata (list bool))) :=
  mk_system (mk_hv_world (amd_cpu 0) (mk_ps [] [] [] [] (replicate 512 0)) [0; 0] None apic_state0)
    [Native (amd_cpu 0) (at_rip 0x1000); Native (amd_cpu 4) (at_rip 0x2000)] AllocatorExample.st0 None.

Lemma installs : is_ok (virtualize_system (IG := intel) (AG := amd) alloc own_tables native) = true.
Proof. vm_compute. reflexivity. Qed.

Lemma both_once : NoDup (processors : list nat).
Proof. apply (bool_decide_unpack _). vm_compute. exact I. Qed.

Lemma both_native (p : nat) : p ∈ processors -> exists m r, cpus native !! p = Some (Native m r) /\
  is_our_hypervisor_present (hw_cpuid m) = false.
Proof.
  intros [->|[->|Hn%not_elem_of_nil]%elem_of_cons]%elem_of_cons; [..|done]; eexists _, _; (split; [reflexivity|vm_compute; reflexivity]).
Qed.

(** Processor 1, which has the APIC identifier 4, hosts a guest that starts
    where the processor was. *)
Lemma virtualize_system_installs_witness : exists s',
  virtualize_system (IG := intel) (AG := amd) alloc own_tables native = Ok (tt, s') /\
  processor_id_from 4 (get_apic (shared s')) = Some 1 /\
  exists m st, cpus s' !! 1%nat = Some (Hosted m st) /\ starts_with (IG := intel) (AG := amd) own_tables (at_rip 0x2000) st.
Proof.
  pose proof installs as Hok.
  destruct (virtualize_system (IG := intel) (AG := amd) alloc own_tables native) as [[[] s']|why] eqn:E; [|discriminate Hok].
  exists s'. split; [reflexivity|].
  destruct (virtualize_system_installs (IG := intel) (AG := amd) alloc own_tables native s' both_once
    ltac:(discriminate) eq_refl eq_refl both_native E) as (_ & Hall & _).
  destruct (Hall 1%nat 1%nat (amd_cpu 4) (at_rip 0x2000) eq_refl eq_refl) as (Hid & Hst & _).
  assert (get (amd_cpu 4) = 4) as Hg by (vm_compute; reflexivity). rewrite Hg in Hid. split; [exact Hid|exact Hst].
Defined.

Definition installed : System (W := HvWorld) (GI := VmxGuest) (VI := Vmx) (GA := SvmGuest) (VA := Svm)
    (Heap := option (Metadata (list bool))) :=
  match virtualize_system (IG := intel) (AG := amd) alloc own_tables native with Ok (_, s) => s | Panic _ => native end.

(** The guest executes VMMCALL with RAX = 0 at 0x1000. *)
Definition hypercall : SvmEvent :=
  mk_svm_event (fun r v w => (r, set_control [(c_exit_code, VMEXIT_VMMCALL); (c_nrip, 0x1003)] v, w)) [].

Lemma devirtualizes :
  is_ok (devirtualize_system (IG := intel) (AG := amd) 0%nat (fun _ => ([], [hypercall])) installed) = true.
Proof. vm_compute. reflexivity. Qed.

Lemma installed_present : present_on (IG := intel) (AG := amd) 0%nat installed <> Ok (false, installed).
Proof.
  intros H. assert (match present_on (IG := intel) (AG := amd) 0%nat installed with Ok (b, _) => b | _ => false end = true)
    as Hb by (vm_compute; reflexivity).
  rewrite H in Hb. discriminate Hb.
Qed.

Lemma devirtualize_system_leaves_witness : exists s',
  devirtualize_system (IG := intel) (AG := amd) 0%nat (fun _ => ([], [hypercall])) installed = Ok (tt, s') /\
  left_host (cpus s' !! 0%nat) /\ left_host (cpus s' !! 1%nat).
Proof.
  pose proof devirtualizes as Hok.
  destruct (devirtualize_system (IG := intel) (AG := amd) 0%nat (fun _ => ([], [hypercall])) installed)
    as [[[] s']|why] eqn:E; [|discriminate Hok].
  exists s'. split; [reflexivity|].
  destruct (devirtualize_system_leaves (IG := intel) (AG := amd) 0%nat (fun _ => ([], [hypercall])) installed s' both_once E)
    as [[Hp _]|(_ & Hall & _)].
  - destruct (installed_present Hp).
  - split; [apply (Hall 0%nat)|apply (Hall 1%nat)]; [by left|right; by left].
Defined.
End HypervisorExample.
