(* ===== verification/Startup.v ===== *)
(** * Virtualizing the system succeeds (hvcore mod.rs, host.rs)

    What a processor and the heap must have for [virtualize_system] to return,
    on both architectures: the interface [Startable] of the architecture-
    agnostic part, its discharge for SVM and VMX, and the theorem. *)

From S2P Require Import Prelude External Machine Platform Allocator ApicId Segment Tables Paging Npts Mtrr Epts Host Vmcb.
From S2P Require Import Svm SvmProofs Vmx VmxProofs System Hypervisor.

(** ** Setting up one processor

    The steps of [virtualize_core] before the loop, each of which returns. *)
Section Core.
Context {W G Event E : Type} {HC : HasCpu W} {HA : HasApic W} {X86 : X86Xcr0} {GI : Guest W G Event} {XI : Extension W E}.

Definition starts (id : Z) (r : Registers) (w w' : W) : Prop :=
  exists vt0 w0 vt w1 g0 w2 g1 w3 g,
    ext_default w = Ok (vt0, w0) /\ enable vt0 w0 = Ok (vt, w1) /\
    hw_cpuid (get_cpu w1) = hw_cpuid (get_cpu w) /\
    guest_new id w1 = Ok (g0, w2) /\ activate g0 w2 = Ok (g1, w3) /\ initialize r g1 w3 = Ok (g, w').

(** The number of the processor that runs. *)
Definition processor_id : M W (option Z) := gets (fun w => processor_id_from (get (get_cpu w)) (get_apic w)).

Lemma keeps_processor_id : keeps_apic processor_id.
Proof. apply keeps_gets. Qed.

Lemma starts_core {ST : Setup W G Event E} id r w w' : starts id r w w' ->
  processor_id_from (get (get_cpu w)) (get_apic w) = Some id ->
  exists (g : G) (vt : E), virtualize_core processor_id r [] w = Ok (Running g vt, w') /\ regs g = r.
Proof.
  intros (vt0 & w0 & vt & w1 & g0 & w2 & g1 & w3 & g & H0 & H1 & Hcpuid & H2 & H3 & H4) Hid.
  exists g, vt. split; [|by eapply initialize_regs]. unfold virtualize_core.
  rewrite (bind_intro _ _ _ _ _ H0), (bind_intro _ _ _ _ _ H1).
  assert (get_apic w1 = get_apic w) as Hapic
    by (rewrite (keeps_enable _ _ _ _ H1); apply (keeps_default _ _ _ H0)).
  assert (get (get_cpu w1) = get (get_cpu w)) as Hget by (unfold get; by rewrite Hcpuid).
  unfold processor_id. rewrite bind_gets, Hget, Hapic, Hid. cbn [unwrap]. rewrite bind_lift_ok.
  by rewrite (bind_intro _ _ _ _ _ H2), (bind_intro _ _ _ _ _ H3), (bind_intro _ _ _ _ _ H4).
Qed.
End Core.

(** ** The interface

    [suits d id w]: the processor of [w] can be set up as number [id] with the
    host data [d].  Setting up other processors leaves it so. *)
Definition serves {W : Type} {HC : HasCpu W} (suits : Z -> W -> Prop) (w w' : W) : Prop :=
  forall id m, suits id (put_cpu m w) -> suits id (put_cpu m w').

Section Startable.
Context {P : Profile} {W GI EI VI GA EA VA Heap : Type} {HC : HasCpu W} {HA : HasApic W} {X86 : X86Xcr0}
  {PO : PlatformOps nat} {XT : X86Task}.
Context {IG : SharedHostData -> Guest W GI EI} {IX : Extension W VI}
  {AG : SharedHostData -> Guest W GA EA} {AX : Extension W VA}.

Class Startable (suits : SharedHostData -> Z -> W -> Prop) : Prop := {
  main_starts : forall d id r w, suits d id w -> processor_id_from (get (get_cpu w)) (get_apic w) = Some id ->
    exists st w', main (IG := IG d) (IX := IX) (AG := AG d) (AX := AX) processor_id r [] [] w = Ok (st, w') /\
      starts_with (IG := IG) (AG := AG) d r st /\ serves (suits d) w w' /\ get_apic w' = get_apic w;
  serves_apic : forall d a w, serves (suits d) w (put_apic a w);
}.
End Startable.

Lemma serves_refl {W : Type} {HC : HasCpu W} (suits : Z -> W -> Prop) w : serves suits w w.
Proof. by intros id m H. Qed.

Lemma serves_trans {W : Type} {HC : HasCpu W} (suits : Z -> W -> Prop) w1 w2 w3 :
  serves suits w1 w2 -> serves suits w2 w3 -> serves suits w1 w3.
Proof. intros H1 H2 id m H. by apply H2, H1. Qed.

(** ** All processors *)

(** The heap has [n] more stacks, none of them at the end of the address
    space. *)
Fixpoint stacks_left {Heap : Type} (alloc_zeroed : Layout -> M Heap Z) (n : nat) (h : Heap) : Prop :=
  match n with
  | O => True
  | S n' => exists stack h', alloc_zeroed stack_layout h = Ok (stack, h') /\
      0 < stack /\ stack + layout_size stack_layout < 2 ^ 64 /\ stacks_left alloc_zeroed n' h'
  end.

Section SystemStarts.
Context {P : Profile} {W GI EI VI GA EA VA Heap : Type} {HC : HasCpu W} {HA : HasApic W} {X86 : X86Xcr0}
  {PO : PlatformOps nat} {XT : X86Task}.
Context {IG : SharedHostData -> Guest W GI EI} {IX : Extension W VI}
  {AG : SharedHostData -> Guest W GA EA} {AX : Extension W VA}.
Context (suits : SharedHostData -> Z -> W -> Prop) {SS : Startable (IG := IG) (IX := IX) (AG := AG) (AX := AX) suits}.
Context (alloc_zeroed : Layout -> M Heap Z).
#[local] Abbreviation System := (System (W := W) (GI := GI) (VI := VI) (GA := GA) (VA := VA) (Heap := Heap)).

(** Numbering the processors, when their identifiers are distinct. *)
Lemma apic_numbering_runs d qs l (ms : list Machine) a (s : System) : cpus s = qs ->
  Forall2 (fun p m => exists q, qs !! p = Some q /\ machine_of q = m) l ms ->
  run_one_by_one init_callback ms (get_apic (shared s)) = Ok (tt, a) ->
  exists s', run_one_by_one (fun p : nat =>
    let! q := current p in
    fun s => let? (_, st) := init_callback (machine_of q) (get_apic (shared s)) in
             Ok (tt, mk_system (put_apic st (shared s)) (cpus s) (heap s) (SHARED_HOST_DATA s))) l s = Ok (tt, s') /\
    get_apic (shared s') = a /\ cpus s' = cpus s /\ heap s' = heap s /\ SHARED_HOST_DATA s' = SHARED_HOST_DATA s /\
    serves (suits d) (shared s) (shared s').
Proof.
  intros Hqs Hms. revert s Hqs. induction Hms as [|p m l ms (q & Hq & Hm) Hms IH]; intros s Hqs Hrun.
  - injection Hrun as <-. exists s. split_and!; try done. apply serves_refl.
  - cbn [run_one_by_one] in *. apply bind_ok in Hrun as ([] & a1 & Hcb & Hrun).
    destruct (IH (mk_system (put_apic a1 (shared s)) (cpus s) (heap s) (SHARED_HOST_DATA s))) as (s' & Hs' & Ha & Hc & Hh & Hd & Hsv).
    + exact Hqs.
    + cbn [shared]. by rewrite get_put_apic.
    + exists s'. split; [|split_and!; try done; eapply serves_trans; [apply (serves_apic d a1)|exact Hsv]].
      rewrite <- Hs'. unfold bind at 1. unfold bind at 1. unfold current. rewrite Hqs, Hq. cbn [unwrap obind].
      rewrite Hm, Hcb, <- Hqs. done.
Qed.

(** The callback on a native processor. *)
Lemma virtualize_processor_runs d p m r id n (s : System) :
  cpus s !! p = Some (Native m r) -> is_our_hypervisor_present (hw_cpuid m) = false ->
  SHARED_HOST_DATA s = Some d -> suits d id (put_cpu m (shared s)) ->
  processor_id_from (get m) (get_apic (shared s)) = Some id ->
  stacks_left alloc_zeroed (S n) (heap s) ->
  exists s', virtualize_processor (IG := IG) (AG := AG) alloc_zeroed p s = Ok (tt, s') /\
    (forall p', p' <> p -> cpus s' !! p' = cpus s !! p') /\ SHARED_HOST_DATA s' = Some d /\
    get_apic (shared s') = get_apic (shared s) /\ serves (suits d) (shared s) (shared s') /\
    stacks_left alloc_zeroed n (heap s').
Proof.
  intros Hq Hno Hd Hsuits Hid (stack & h & Halloc & Hpos & Hend & Hleft).
  destruct (main_starts d id r _ Hsuits) as (st & w & Hmain & Hst & Hserves & Hapic).
  { by rewrite get_put_cpu, get_apic_put_cpu. }
  set (s1 := mk_system (shared s) (cpus s) h (SHARED_HOST_DATA s)).
  set (s2 := set_processor p (Hosted (get_cpu w) st) (mk_system w (cpus s) h (SHARED_HOST_DATA s)) : System).
  assert (jump_with_new_stack alloc_zeroed (host_main (IG := IG) (AG := AG) p) r s = Ok (tt, s2)) as Hjump.
  { unfold jump_with_new_stack. rewrite (bind_intro _ _ s stack s1) by (unfold on_heap; by rewrite Halloc).
    rewrite (proj2 (Z.eqb_neq stack 0)) by lia. rewrite bind_ret. change (layout_size stack_layout) with 0x10000 in *.
    rewrite add_w_small by (unfold in_width; lia). rewrite bind_lift_ok.
    rewrite sub_w_small by (unfold in_width; lia). rewrite bind_lift_ok.
    unfold host_main. rewrite bind_gets. cbn [SHARED_HOST_DATA s1]. rewrite Hd. cbn [unwrap]. rewrite bind_lift_ok.
    rewrite (bind_intro _ _ s1 (st, get_cpu w) (mk_system w (cpus s) h (SHARED_HOST_DATA s))).
    - reflexivity.
    - unfold on_processor, s1. cbn [cpus shared heap SHARED_HOST_DATA]. rewrite Hq. cbn [unwrap obind machine_of].
      unfold processor_id in Hmain. by rewrite Hmain. }
  exists s2. split.
  - unfold virtualize_processor. unfold bind at 1, current. rewrite Hq. cbn [unwrap obind].
    rewrite (bind_intro _ _ s false s) by (unfold present_on; rewrite Hq; cbn [unwrap obind machine_of]; by rewrite Hno).
    rewrite (bind_intro _ _ _ _ _ Hjump).
    erewrite bind_intro; [|eapply (present_hosted (IG := IG) (AG := AG) p (get_cpu w) st d r s2); [|exact Hst]]; [done|].
    cbn [s2 set_processor cpus]. apply list_lookup_insert_eq. by apply lookup_lt_Some in Hq.
  - cbn [s2 set_processor cpus SHARED_HOST_DATA shared heap]. split_and!; try done.
    + intros p' Hne. by apply list_lookup_insert_ne.
    + by rewrite Hapic, get_apic_put_cpu.
    + intros id' m' H. specialize (Hserves id' m'). rewrite put_put_cpu in Hserves. by apply Hserves.
Qed.

(** The callback on all processors, one after the other. *)
Lemma virtualize_all_run d l (s : System) : NoDup l -> SHARED_HOST_DATA s = Some d ->
  stacks_left alloc_zeroed (length l) (heap s) ->
  (forall p, p ∈ l -> exists m r id, cpus s !! p = Some (Native m r) /\ is_our_hypervisor_present (hw_cpuid m) = false /\
     suits d id (put_cpu m (shared s)) /\ processor_id_from (get m) (get_apic (shared s)) = Some id) ->
  exists s', run_one_by_one (virtualize_processor (IG := IG) (AG := AG) alloc_zeroed) l s = Ok (tt, s').
Proof.
  intros Hnd. revert s. induction Hnd as [|p l Hp Hnd IH]; intros s Hd Hleft Hall; [by exists s|].
  destruct (Hall p ltac:(left)) as (m & r & id & Hq & Hno & Hsuits & Hid).
  destruct (virtualize_processor_runs d p m r id _ s Hq Hno Hd Hsuits Hid Hleft)
    as (s1 & H1 & Hother & Hd1 & Hapic & Hserves & Hleft1).
  destruct (IH s1 Hd1 Hleft1) as (s' & Hs').
  { intros p' Hin. destruct (Hall p' ltac:(by right)) as (m' & r' & id' & Hq' & Hno' & Hsuits' & Hid').
    exists m', r', id'. rewrite Hother by (by intros ->). rewrite Hapic. split_and!; try done. by apply Hserves. }
  exists s'. cbn [run_one_by_one]. by rewrite (bind_intro _ _ _ _ _ H1).
Qed.

(** The system before: native processors with distinct identifiers that can be
    set up in the order of the visit, and a stack for each. *)
Record startable_system (d : SharedHostData) (s : System) : Prop := {
  start_once : NoDup processors;
  start_data : SHARED_HOST_DATA s = None;
  start_apic : get_apic (shared s) = apic_state0;
  start_stacks : stacks_left alloc_zeroed (length processors) (heap s);
  start_ids : forall p q m m' r r', p ∈ processors -> q ∈ processors -> p <> q ->
    cpus s !! p = Some (Native m r) -> cpus s !! q = Some (Native m' r') -> get m <> get m';
  start_native : forall i p, processors !! i = Some p -> exists m r, cpus s !! p = Some (Native m r) /\
    is_our_hypervisor_present (hw_cpuid m) = false /\ suits d (Z.of_nat i) (put_cpu m (shared s));
}.

Lemma distinct_ids (qs : list (Processor (GI := GI) (VI := VI) (GA := GA) (VA := VA))) l (ms : list Machine) : NoDup l ->
  (forall p, p ∈ l -> exists m r, qs !! p = Some (Native m r)) ->
  (forall p q m m' r r', p ∈ l -> q ∈ l -> p <> q ->
    qs !! p = Some (Native m r) -> qs !! q = Some (Native m' r') -> get m <> get m') ->
  Forall2 (fun p m => exists q, qs !! p = Some q /\ machine_of q = m) l ms -> NoDup (get <$> ms).
Proof.
  intros Hnd Hnat Hids Hms. revert Hnd Hnat Hids. induction Hms as [|p m l ms (q & Hq & Hm) Hms IH]; intros Hnd Hnat Hids;
    [constructor|].
  apply NoDup_cons in Hnd as [Hp Hnd]. rewrite fmap_cons. constructor.
  - intros Hin. apply list_elem_of_fmap_1 in Hin as (m' & Heq & Hin). apply list_elem_of_lookup_1 in Hin as [i Hi].
    destruct (Forall2_lookup_r _ _ _ _ _ Hms Hi) as (p' & Hp' & q' & Hq' & Hm'). apply list_elem_of_lookup_2 in Hp'.
    destruct (Hnat p ltac:(left)) as (m1 & r1 & H1). destruct (Hnat p' ltac:(by right)) as (m2 & r2 & H2).
    rewrite Hq in H1. rewrite Hq' in H2. injection H1 as ->. injection H2 as ->. cbn [machine_of] in Hm, Hm'. subst m1 m2.
    apply (Hids p p' m m' r1 r2); [left|by right|by intros ->|done|done|done].
  - apply IH; [done| |].
    + intros p' Hin. apply Hnat. by right.
    + intros p' q' m1 m2 r1 r2 H1 H2. apply Hids; by right.
Qed.

(** [virtualize_system] returns. *)
Lemma virtualize_system_runs d (s : System) : startable_system d s ->
  exists s', virtualize_system (IG := IG) (AG := AG) alloc_zeroed d s = Ok (tt, s').
Proof.
  intros [Hnd Hnone Hapic Hleft Hids Hnat].
  assert (forall p, p ∈ processors -> exists m r, cpus s !! p = Some (Native m r)) as Hin.
  { intros p [i Hi]%list_elem_of_lookup_1. destruct (Hnat i p Hi) as (m & r & H & _). eauto. }
  destruct (machines_exist (cpus s) processors) as [ms Hms].
  { intros p (m & r & H)%Hin. eauto. }
  pose proof (distinct_ids _ _ _ Hnd Hin Hids Hms) as Hget.
  destruct (apic_numbering_runs d (cpus s) processors ms (mk_apic (numbered ms 0 ∅) (Z.of_nat (length ms))) s eq_refl Hms)
    as (s1 & Hinit & Ha1 & Hc1 & Hh1 & Hd1 & Hserves).
  { rewrite Hapic. by rewrite init_callbacks_ok by (cbn; done). }
  set (s2 := mk_system (shared s1) (cpus s1) (heap s1) (Some d) : System).
  destruct (virtualize_all_run d processors s2) as [s' Hs']; [done|done|by cbn [s2 heap]; rewrite Hh1| |].
  - intros p [i Hi]%list_elem_of_lookup_1. destruct (Hnat i p Hi) as (m & r & Hq & Hno & Hsuits).
    destruct (Forall2_lookup_l _ _ _ _ _ Hms Hi) as (m' & Hm' & q & Hq' & Hmq).
    rewrite Hq in Hq'. injection Hq' as <-. cbn [machine_of] in Hmq. subst m'.
    exists m, r, (Z.of_nat i). cbn [s2 cpus shared]. rewrite Hc1, Ha1. split_and!; try done; [by apply Hserves|].
    unfold processor_id_from. cbn [APIC_ID_MAP]. by rewrite (numbered_lookup _ _ _ i).
  - exists s'. unfold virtualize_system, apic_init.
    assert ((let! st := gets (fun s : System => get_apic (shared s)) in
      massert (PROCESSOR_COUNT st =? 0) "PROCESSOR_COUNT == 0" ;;!
      run_on_all_processors (fun p : nat => let! q := current p in
        fun s : System => let? (_, st) := init_callback (machine_of q) (get_apic (shared s)) in
             Ok (tt, mk_system (put_apic st (shared s)) (cpus s) (heap s) (SHARED_HOST_DATA s)))) s = Ok (tt, s1)) as Hi.
    { rewrite bind_gets, Hapic, bind_massert by done. by rewrite run_on_all_spec. }
    rewrite (bind_intro _ _ _ _ _ Hi). unfold call_once. rewrite bind_modify, Hd1, Hnone. fold s2.
    by rewrite run_on_all_spec.
Qed.
End SystemStarts.

(** ** AMD *)
Section SvmStarts.
Context {P : Profile} {BF : BitfieldMacro} {BT : BitFieldTrait} {XS : X86Segmentation} {XT : X86Task}
  {HV : HwVmsave} {Proc : Type} {OPS : PlatformOps Proc}.
Context (uefi : bool) (vmcb_addr host_vmcb_addr host_state_addr : Z -> Z) (npt_addr : Z)
  (shared_host : SharedHostData).
#[local] Instance amd_guest : Guest SvmWorld SvmGuest SvmEvent :=
  svm_guest uefi vmcb_addr host_vmcb_addr host_state_addr npt_addr shared_host.

(** The processor has the MSRs of SVM and tables the setup can read, the host
    data has an entry for it, and the guest data an activity state. *)
Record svm_suits (id : Z) (m : Machine) (states : nat) : Prop := {
  svm_has_msrs : exists vm_cr efer pat, ready m vm_cr efer pat;
  svm_has_hsave : is_Some (msrs m !! SVM_MSR_VM_HSAVE_PA);
  svm_has_apic : uefi = true -> id = 0 -> is_Some (msrs m !! IA32_APIC_BASE);
  svm_has_tables : host_ready shared_host id m;
  svm_has_state : 0 <= id < Z.of_nat states;
}.

Lemma svm_new_ok id w : is_Some (activity_states w !! Z.to_nat id) ->
  (uefi = true -> id = 0 -> is_Some (msrs (svm_cpu w) !! IA32_APIC_BASE)) ->
  exists g w', svm_new uefi vmcb_addr host_vmcb_addr host_state_addr id w = Ok (g, w') /\ svm_id g = id /\
    svm_cpu w' = svm_cpu w /\ activity_states w' = activity_states w.
Proof.
  intros [v Hv] Hbase. unfold svm_new, activity_load. unfold bind at 1. rewrite Hv. cbn [unwrap obind svm_id].
  destruct uefi; cbn [andb]; [|by eexists _, _]. destruct (Z.eqb_spec id 0) as [H0|]; [|by eexists _, _].
  destruct (Hbase eq_refl H0) as [base Hb]. unfold intercept_apic_write.
  rewrite (bind_intro _ _ _ _ _ (rdmsr_svm IA32_APIC_BASE base w Hb)), bind_modify. by eexists _, _.
Qed.

Lemma svm_starts id r w : svm_suits id (svm_cpu w) (length (activity_states w)) ->
  exists w', starts id r w w' /\ activity_states w' = activity_states w.
Proof.
  intros [(vm_cr & efer & pat & Hready) Hhsave Hbase Htables Hid].
  set (m1 := set_msrs <[IA32_EFER := Z.lor efer EFER_SVME]> (svm_cpu w)). set (w1 := with_cpu m1 w).
  assert (enable (Extension := svm_extension) (mk_svm 0) w = Ok (mk_svm efer, w1)) as Henable.
  { cbn [enable svm_extension]. unfold svm_enable.
    rewrite (bind_intro _ _ _ _ _ (rdmsr_svm IA32_EFER efer w (ready_efer _ _ _ _ Hready))).
    by rewrite (bind_intro _ _ _ _ _ (wrmsr_svm IA32_EFER (Z.lor efer EFER_SVME) w (mk_is_Some _ _ (ready_efer _ _ _ _ Hready)))). }
  destruct (svm_new_ok id w1) as (g0 & w2 & Hnew & Hg0 & Hc2 & Ha2).
  { apply lookup_lt_is_Some. unfold w1, with_cpu. cbn [activity_states]. lia. }
  { intros Hu H0. cbn [w1 with_cpu svm_cpu m1 set_msrs msrs]. rewrite lookup_insert_ne by done. by apply Hbase. }
  assert (is_Some (msrs (svm_cpu w2) !! SVM_MSR_VM_HSAVE_PA)) as Hhsave2.
  { rewrite Hc2. cbn [w1 with_cpu svm_cpu m1 set_msrs msrs]. by rewrite lookup_insert_ne by done. }
  set (w3 := with_cpu (set_msrs <[SVM_MSR_VM_HSAVE_PA := pa (host_state g0)]> (svm_cpu w2)) w2).
  assert (svm_activate g0 w2 = Ok (g0, w3)) as Hact.
  { unfold svm_activate. by rewrite (bind_intro _ _ _ _ _ (wrmsr_svm SVM_MSR_VM_HSAVE_PA (pa (host_state g0)) w2 Hhsave2)). }
  set (g := set_svm_registers r g0).
  assert (ready (svm_cpu w3) vm_cr (Z.lor efer EFER_SVME) pat) as Hready3.
  { destruct Hready as [H1 H2 H3 H4 H5 H6].
    split; cbn [w3 with_cpu svm_cpu set_msrs msrs mem sys]; rewrite Hc2; cbn [w1 with_cpu svm_cpu m1 set_msrs msrs mem sys]; try done.
    - by rewrite !lookup_insert_ne.
    - rewrite lookup_insert_ne by done. by rewrite lookup_insert_eq.
    - by rewrite !lookup_insert_ne. }
  destruct (initialize_control_ok npt_addr g w3 vm_cr (ready_vm_cr _ _ _ _ Hready3)) as (g1 & H1 & Hid1 & _).
  set (m4 := set_msrs <[SVM_MSR_VM_CR := Z.lor vm_cr R_INIT]> (svm_cpu w3)) in *.
  assert (ready (svm_cpu (with_cpu m4 w3)) (Z.lor vm_cr R_INIT) (Z.lor efer EFER_SVME) pat) as Hready4.
  { destruct Hready3 as [Ha Hb Hc Hd He Hf]. split; cbn [svm_cpu with_cpu m4 set_msrs msrs]; try done;
      [apply lookup_insert_eq|by rewrite lookup_insert_ne..]. }
  destruct (initialize_guest_ok g1 _ _ _ _ Hready4) as (g2 & H2 & Hid2 & _).
  destruct (initialize_host_ok shared_host g2 (with_cpu m4 w3)) as (m5 & H5 & _).
  { rewrite Hid2, Hid1. change (svm_id g) with (svm_id g0). rewrite Hg0. unfold host_ready.
    change (sys (svm_cpu (with_cpu m4 w3)) TR) with (sys (svm_cpu w2) TR). rewrite Hc2. exact Htables. }
  exists (with_cpu m5 (with_cpu m4 w3)). split.
  - exists (mk_svm 0), w, (mk_svm efer), w1, g0, w2, g0, w3, (set_host_vmcb (vmsave m5) g2). split_and!; try done.
    cbn [initialize amd_guest svm_guest]. unfold svm_initialize. fold g.
    by rewrite (bind_intro _ _ _ _ _ H1), (bind_intro _ _ _ _ _ H2).
  - cbn [with_cpu w3 activity_states]. by rewrite Ha2.
Qed.
End SvmStarts.

(** ** Intel *)

(** Code that reads MSRs and nothing else, and not the one VMX writes. *)
Definition msr_reader {A : Type} (x : M Machine A) : Prop := forall m m' a m1,
  (forall i, i <> IA32_FEATURE_CONTROL -> msrs m' !! i = msrs m !! i) -> x m = Ok (a, m1) -> m1 = m /\ x m' = Ok (a, m').

Lemma reader_ret {A} (a : A) : msr_reader (ret a).
Proof. intros m m' b m1 _ H. by injection H as -> <-. Qed.
Lemma reader_lift {A} (x : outcome A) : msr_reader (lift x).
Proof. intros m m' b m1 _ H. apply lift_ok in H as [-> ->]. done. Qed.
Lemma reader_massert b why : msr_reader (massert b why).
Proof. apply reader_lift. Qed.
Lemma reader_rdmsr i : i <> IA32_FEATURE_CONTROL -> msr_reader (rdmsr i).
Proof. intros Hi m m' a m1 Hm H. apply rdmsr_ok in H as [-> H]. split; [done|]. apply rdmsr_some. by rewrite Hm. Qed.
Lemma reader_bind {A B} (x : M Machine A) (k : A -> M Machine B) :
  msr_reader x -> (forall a, msr_reader (k a)) -> msr_reader (bind x k).
Proof.
  intros Hx Hk m m' b m1 Hm H. apply bind_ok in H as (a & m2 & H1 & H2).
  destruct (Hx m m' a m2 Hm H1) as [-> H1']. destruct (Hk a m m' b m1 Hm H2) as [-> H2'].
  split; [done|]. by rewrite (bind_intro _ _ _ _ _ H1').
Qed.
Lemma reader_mmap {A B} (f : A -> M Machine B) l : (forall a, a ∈ l -> msr_reader (f a)) -> msr_reader (mmap f l).
Proof.
  induction l as [|a l IH]; intros Hf; [apply reader_ret|]. cbn [mmap].
  apply reader_bind; [apply Hf; by left|]. intros b. apply reader_bind; [|intros bs; apply reader_ret].
  apply IH. intros c Hc. apply Hf. by right.
Qed.

Lemma Mtrr_new_reads {P : Profile} bsf_zero : msr_reader (Mtrr_new bsf_zero).
Proof.
  assert (Forall (fun '(b, k) => b <> IA32_FEATURE_CONTROL /\ k <> IA32_FEATURE_CONTROL) VARIABLE_MTRRS) as Hvariable
    by (vm_compute; repeat constructor; discriminate).
  unfold Mtrr_new, RawMtrrs_new.
  repeat first [ apply reader_bind; [|intros ?] | apply reader_lift | apply reader_massert | apply reader_ret
               | apply reader_rdmsr; discriminate ].
  apply reader_mmap. intros [b k] Hin. rewrite Forall_forall in Hvariable.
  destruct (Hvariable (b, k)) as [Hb Hk]; [by apply elem_of_take in Hin as (? & ? & _); eapply list_elem_of_lookup_2|].
  repeat (apply reader_bind; [by apply reader_rdmsr|intros ?]). apply reader_ret.
Qed.

Section VmxStarts.
Context {P : Profile} {BF : BitfieldMacro} {BT : BitFieldTrait} {XS : X86Segmentation} {XT : X86Task}
  {XC : X86Cr0} {XI : X86CpuId} {Proc : Type} {OPS : PlatformOps Proc}.
Context (bsf_zero vmxon_addr : Z) (vmcs_addr : Z -> Z) (bitmaps_addr epts_addr : Z) (tss_addr : Z -> Z)
  (shared_host : SharedHostData).
#[local] Instance intel_guest : Guest VmxWorld VmxGuest VmxEvent :=
  vmx_guest bsf_zero vmcs_addr bitmaps_addr epts_addr tss_addr shared_host.
#[local] Existing Instance vmx_extension.

(** MTRRs the EPTs can be built from. *)
Definition mtrrs_usable (m : Machine) : Prop :=
  exists mtrr, Mtrr_new bsf_zero m = Ok (mtrr, m) /\ mtrr_usable mtrr.

(** The processor can enter VMX operation and has the MSRs of VMX, its TR is
    loaded, the host data has an entry for it, and the EPTs exist or can be
    built. *)
Record vmx_suits (id : Z) (m : Machine) (built : bool) : Prop := {
  vmx_has_mode : exists basic f0 f1 g0 g1 fc caps, vmx_capable m basic f0 f1 g0 g1 fc /\
    (Z.testbit fc 0 = false \/ Z.testbit fc 2 = true) /\ has_controls m basic caps;
  vmx_has_msrs : exists fs_base gs_base sys_cs sys_eip sys_esp, vmx_msrs m fs_base gs_base sys_cs sys_eip sys_esp;
  vmx_has_tr : exists tr_base, loaded_base m (sys m TR) tr_base;
  vmx_has_tables : exists gdt_base t tss_base, host_segments tss_addr shared_host id m gdt_base t tss_base;
  vmx_has_idt : forall a idt, host_idt shared_host = Some (a, idt) -> length idt = 256%nat;
  vmx_has_epts : built = false -> mtrrs_usable m;
}.

(** The shared EPTs, built or found, when the VMCS has been written to. *)
Lemma shared_guest_data_ok addr l w m : (forall i, i <> IA32_FEATURE_CONTROL -> msrs (vmx_cpu w) !! i = msrs m !! i) ->
  (shared_guest w = None -> mtrrs_usable m) ->
  exists epts, shared_guest_data bsf_zero epts_addr (with_vmcs l addr w) =
    Ok (epts, mk_vmx_world (vmcs_set addr l (vmx_cpu w)) (Some epts) (vmx_apic w)).
Proof.
  intros Hm Hu. unfold shared_guest_data, with_vmcs. cbn [shared_guest vmx_cpu vmx_apic].
  destruct (shared_guest w) as [epts|]; [by exists epts|].
  destruct (Hu eq_refl) as (mtrr & Hnew & Husable).
  exists (built_epts mtrr epts_addr).
  destruct (Mtrr_new_reads bsf_zero m (vmcs_set addr l (vmx_cpu w)) mtrr m) as [_ ->]; [exact Hm|exact Hnew|].
  cbn [obind]. by rewrite (ept_build_identity_built mtrr epts_addr Husable).
Qed.

Lemma vmx_starts id r w :
  vmx_suits id (vmx_cpu w) (bool_decide (is_Some (shared_guest w))) ->
  exists w', starts (XI := vmx_extension vmxon_addr) id r w w' /\ is_Some (shared_guest w').
Proof.
  intros [(basic & f0 & f1 & g0 & g1 & fc & caps & Hcap & Hfc & Hcontrols) (fs & gs & cs & eip & esp & Hmsrs)
    [tr_base Htr] (gdt_base & t & tss_base & Hseg) Hidt Hepts].
  set (m := vmx_cpu w) in *.
  destruct (vmx_enable_disable m (pa vmxon_addr) _ _ _ _ _ _ Hcap) as (vt0 & Hdefault & _ & Henable).
  destruct (Henable Hfc) as (vt & m1 & Hon & Hmode & _ & _ & Hsys & Hmsrs1 & Hmem & Hcpuid & _). clear Henable.
  assert (forall i, i <> IA32_FEATURE_CONTROL -> msrs m1 !! i = msrs m !! i) as Hsame
    by (intros i Hi; by rewrite Hmsrs1, lookup_insert_ne).
  set (addr := pa (vmcs_addr id)).
  set (m2 := set_vmx (VmxRoot (pa vmxon_addr) None) (set_vmcss <[addr := vmcs_data m1 addr]> m1)).
  set (m3 := set_vmx (VmxRoot (pa vmxon_addr) (Some addr)) m2).
  set (w1 := put_cpu (HasCpu := cpu_vmx) m1 w). set (w3 := put_cpu (HasCpu := cpu_vmx) m3 w).
  assert (msrs m1 !! IA32_VMX_BASIC = Some basic) as Hbasic by (rewrite Hsame by done; apply Hcap).
  set (g := mk_vmx_guest id (fun _ => 0) addr (wrap 32 basic)).
  assert (vmx_new vmcs_addr id w1 = Ok (g, put_cpu (HasCpu := cpu_vmx) m2 w)) as Hnew.
  { unfold vmx_new. rewrite (bind_intro _ _ _ _ _ (on_cpu_reads (HC := cpu_vmx) _ w1 basic (rdmsr_some _ _ _ Hbasic))).
    assert (vmclear addr m1 = Ok (tt, m2)) as Hclear by (unfold vmclear; by rewrite Hmode).
    by rewrite (bind_intro _ _ _ _ _ (on_cpu_ok (HC := cpu_vmx) _ w1 _ _ Hclear)). }
  assert (vmx_activate g (put_cpu (HasCpu := cpu_vmx) m2 w) = Ok (g, w3)) as Hactivate.
  { assert (vmptrld addr (wrap 32 basic) m2 = Ok (tt, m3)) as Hload.
    { unfold vmptrld. cbn [m2 set_vmx vmx msrs set_vmcss]. rewrite Hbasic. cbn [default]. by rewrite Z.eqb_refl. }
    unfold vmx_activate. by rewrite (bind_intro _ _ _ _ _ (on_cpu_ok (HC := cpu_vmx) _ (put_cpu (HasCpu := cpu_vmx) m2 w) _ _ Hload)). }
  assert (vmcs_ready addr m3) as Hready.
  { split; [done|]. cbn [m3 m2 set_vmx set_vmcss vmcss]. rewrite lookup_insert_eq. by eexists. }
  assert (forall r, r <> CR0 -> r <> CR4 -> sys m3 r = sys m r) as Hsys3 by exact Hsys.
  destruct (shared_guest_data_ok addr (take 5 (control_values bitmaps_addr epts_addr caps)) w3 m Hsame) as [epts Hdata].
  { intros Hnone. apply Hepts. unfold w3 in Hnone. cbn [put_cpu cpu_vmx shared_guest] in Hnone. by rewrite Hnone. }
  assert (has_controls m3 basic caps) as Hcontrols3.
  { destruct Hcontrols as [H1 H2]. split; [exact Hbasic|]. intros c Hc.
    change (msrs m3) with (msrs m1). rewrite Hsame; [by apply H2|].
    by destruct c, (Z.testbit basic 55). }
  pose proof (vmx_control_data bsf_zero bitmaps_addr epts_addr addr w3 basic caps epts (Some epts) Hready Hcontrols3 Hdata) as Hcontrol.
  assert (vmx_msrs m3 fs gs cs eip esp) as Hmsrs3.
  { destruct Hmsrs as [H1 H2 H3 H4 H5]. split; change (msrs m3) with (msrs m1); by rewrite Hsame. }
  assert (forall sel b, loaded_base m sel b -> loaded_base m3 sel b) as Hbase.
  { intros sel b (sd & Hd & Hb). exists sd. split; [|done]. change (mem m3) with (mem m1). rewrite Hmem, !Hsys3 by done. done. }
  assert (host_segments tss_addr shared_host (vmx_id g) m3 gdt_base t tss_base) as Hseg3.
  { destruct Hseg as [gdts a gt t H1 H2 H3 H4 H5|b H1 H2]; [by eapply host_own|].
    rewrite <- (Hsys3 GDTR_BASE), <- (Hsys3 TR) by done. apply host_current; [done|]. rewrite Hsys3 by done. by apply Hbase. }
  pose proof (vmx_initialize_after bsf_zero bitmaps_addr epts_addr tss_addr shared_host r g w3 _ caps tr_base fs gs cs eip esp
    gdt_base t tss_base Hready Hmsrs3 ltac:(cbn [w3 put_cpu cpu_vmx vmx_cpu]; rewrite Hsys3 by done; by apply Hbase)
    Hseg3 Hidt Hcontrol eq_refl) as Hinit.
  eexists. split.
  - exists vt0, w, vt, w1, g. eexists. exists g, w3. eexists. split_and!.
    + apply (on_cpu_reads (HC := cpu_vmx)). exact Hdefault.
    + by apply (on_cpu_ok (HC := cpu_vmx)).
    + exact Hcpuid.
    + exact Hnew.
    + exact Hactivate.
    + exact Hinit.
  - by eexists.
Qed.
End VmxStarts.

(** ** The real hypervisor *)
Lemma zoom_starts {W V G Event E : Type} {HCW : HasCpu W} {HCV : HasCpu V} {HAW : HasApic W} {HAV : HasApic V}
    {VW : View W V} {GV : Guest V G Event} {XV : Extension V E} id r (w : W) (v : V) :
  starts id r (view w) v -> starts (GI := zoom_guest) (XI := zoom_extension) id r w (update v w).
Proof.
  intros (vt0 & v0 & vt & v1 & g0 & v2 & g1 & v3 & g & H0 & H1 & Hc & H2 & H3 & H4).
  exists vt0, (update v0 w), vt, (update v1 w), g0, (update v2 w), g1, (update v3 w), g.
  split_and!; [by apply zoom_first|by apply zoom_next| |by apply zoom_next..].
  by rewrite get_cpu_update, Hc, get_cpu_view.
Qed.

Section HypervisorStarts.
Context {P : Profile} {BF : BitfieldMacro} {BT : BitFieldTrait} {XS : X86Segmentation} {XT : X86Task}
  {XC : X86Cr0} {XI : X86CpuId} {X86 : X86Xcr0} {HV : HwVmsave} {PO : PlatformOps nat}.
Context (uefi : bool) (bsf_zero vmxon_addr : Z) (vmcs_addr vmcb_addr host_vmcb_addr host_state_addr : Z -> Z)
  (npt_addr bitmaps_addr epts_addr : Z) (tss_addr : Z -> Z).
Context {Heap : Type} (alloc_zeroed : Layout -> M Heap Z).
#[local] Instance intel (d : SharedHostData) : Guest HvWorld VmxGuest VmxEvent :=
  hv_intel bsf_zero vmcs_addr bitmaps_addr epts_addr tss_addr d.
#[local] Instance amd (d : SharedHostData) : Guest HvWorld SvmGuest SvmEvent :=
  hv_amd uefi vmcb_addr host_vmcb_addr host_state_addr npt_addr d.
#[local] Instance intel_vt : Extension HvWorld Vmx := hv_vmx vmxon_addr.
#[local] Instance amd_vt : Extension HvWorld Svm := hv_svm.
#[local] Instance intel_ok d : Setup HvWorld VmxGuest VmxEvent Vmx (GI := intel d) := hv_intel_setup _ _ _ _ _ _ d.
#[local] Instance amd_ok d : Setup HvWorld SvmGuest SvmEvent Svm (GI := amd d) := hv_amd_setup _ _ _ _ _ d.

(** What a processor needs, by its vendor. *)
Definition hv_suits (d : SharedHostData) (id : Z) (w : HvWorld) : Prop :=
  if vendor_is_intel (hw_cpuid (hv_cpu w))
  then vmx_suits bsf_zero tss_addr d id (hv_cpu w) (bool_decide (is_Some (hv_shared_guest w)))
  else svm_suits uefi d id (hv_cpu w) (length (hv_activity_states w)).

(** What setting up a processor leaves for the others. *)
Lemma hv_serves d w w' : length (hv_activity_states w') = length (hv_activity_states w) ->
  (is_Some (hv_shared_guest w) -> is_Some (hv_shared_guest w')) -> serves (hv_suits d) w w'.
Proof.
  intros Hlen Hepts id m. unfold hv_suits. cbn [put_cpu hv_has_cpu hv_cpu hv_shared_guest hv_activity_states].
  rewrite Hlen. destruct (vendor_is_intel _); [|done]. intros [H1 H2 H3 H4 H5 H6]. split; try done.
  intros Hb. apply H6. apply bool_decide_eq_false in Hb. apply bool_decide_eq_false. tauto.
Qed.

#[export] Instance hv_startable : Startable (IG := intel) (IX := intel_vt) (AG := amd) (AX := amd_vt) hv_suits.
Proof.
  split; [|intros d a w; by apply hv_serves].
  intros d id r w Hsuits Hid. unfold hv_suits in Hsuits. unfold main. cbn [get_cpu hv_has_cpu].
  destruct (vendor_is_intel _).
  - destruct (vmx_starts bsf_zero vmxon_addr vmcs_addr bitmaps_addr epts_addr tss_addr d id r (view (View := vmx_view) w) Hsuits)
      as (v & Hv & Hepts).
    apply zoom_starts in Hv. destruct (starts_core id r w _ Hv Hid) as (g & vt & Hcore & Hg).
    exists (inl (Running g vt)), (update v w). rewrite (bind_intro _ _ _ _ _ Hcore). split_and!; try done.
    + by apply hv_serves.
    + destruct (virtualize_core_starts processor_id r w _ _ keeps_processor_id Hcore) as [_ ->]. done.
  - destruct (svm_starts uefi vmcb_addr host_vmcb_addr host_state_addr npt_addr d id r (view (View := svm_view) w) Hsuits)
      as (v & Hv & Hstates).
    apply zoom_starts in Hv. destruct (starts_core id r w _ Hv Hid) as (g & vt & Hcore & Hg).
    exists (inr (Running g vt)), (update v w). rewrite (bind_intro _ _ _ _ _ Hcore). split_and!; try done.
    + apply hv_serves; [|done]. cbn [update svm_view hv_activity_states]. by rewrite Hstates.
    + destruct (virtualize_core_starts processor_id r w _ _ keeps_processor_id Hcore) as [_ ->]. done.
Qed.

End HypervisorStarts.

(** ** A concrete run: two Intel processors *)
Module StartupExample.
Import Reference.
#[local] Instance checked : Profile := true.
#[local] Existing Instance TablesExample.x86_task.
#[local] Existing Instance SvmExample.no_hidden_parts.
#[local] Existing Instance VmxExample.cpu_id.
#[local] Instance ops : PlatformOps nat := UefiOps 0%nat [1%nat].

(** The MTRRs of a machine of plain memory. *)
Definition mtrr_values : list (Z * Z) :=
  [(IA32_MTRR_DEF_TYPE, 0xc06); (IA32_MTRRCAP, 0)] ++ map (fun i => (i, 0x0606_0606_0606_0606)) FIXED_MTRRS.

(** The processor with the given APIC identifier. *)
Definition intel_cpu (id : Z) : Machine :=
  mk_machine VmxExample.long_mode
    (list_to_map (VmxExample.capabilities ++ mtrr_values ++ [(IA32_FEATURE_CONTROL, 5); (IA32_FS_BASE, 0);
       (IA32_GS_BASE, 0x7000); (IA32_SYSENTER_CS, 0); (IA32_SYSENTER_EIP, 0); (IA32_SYSENTER_ESP, 0)]))
    TablesExample.gdt_memory (fun _ => 0) VmxOff ∅
    (fun leaf _ => if leaf =? 1 then mk_cpuid 0x906ea (Z.shiftl id 24) 0 0 else mk_cpuid 0x16 0x756e6547 0x6c65746e 0x49656e69)
    (fun _ => (0xffff_ffff, FLAGS_ZF)) (fun _ => (0xaf_9b00, FLAGS_ZF)).

Lemma mtrrs_plain id : mtrrs_usable 0 (intel_cpu id).
Proof.
  exists EptsExample.plain. split; [|exact EptsExample.plain_usable].
  vm_compute. reflexivity.
Qed.

Definition own_tables : SharedHostData := mk_shared_host None None None.

Lemma intel_suits id (n : Z) : vmx_suits 0 (fun _ => 0) own_tables n (intel_cpu id) false.
Proof.
  assert (loaded_base (intel_cpu id) 0x10 0x2345_6000) as Htss.
  { exists (mk_sd 2522166722383839335 (Some 0)). split; vm_compute; reflexivity. }
  split.
  - exists 0x0080_0000_0000_0012, 0x8000_0021, 0xffff_ffff, 0x2000, 0x3767ff, 5, VmxExample.capability_of.
    split; [split; reflexivity|]. split; [right; reflexivity|].
    split; [reflexivity|]. unfold used_controls. list_cases; reflexivity.
  - exists 0, 0x7000, 0, 0, 0. split; reflexivity.
  - eexists. exact Htss.
  - eexists _, _, _. apply (host_current _ _ _ (intel_cpu id)); [reflexivity|exact Htss].
  - discriminate.
  - intros _. apply mtrrs_plain.
Qed.

Definition native : System (W := HvWorld) (GI := VmxGuest) (VI := Vmx) (GA := SvmGuest) (VA := Svm)
    (Heap := option (Metadata (list bool))) :=
  mk_system (mk_hv_world (intel_cpu 0) PagingStructures_new [] None apic_state0)
    [Native (intel_cpu 0) (HypervisorExample.at_rip 0x1000); Native (intel_cpu 4) (HypervisorExample.at_rip 0x2000)]
    AllocatorExample.st0 None.

Lemma native_starts : startable_system (hv_suits true 0 (fun _ => 0)) alloc own_tables native.
Proof.
  split.
  - apply (bool_decide_unpack _). vm_compute. exact I.
  - reflexivity.
  - reflexivity.
  - assert (match alloc stack_layout AllocatorExample.st0 with
            | Ok (a, h) => match alloc stack_layout h with
                           | Ok (b, _) => (0 <? a) && (a <? 2 ^ 63) && (0 <? b) && (b <? 2 ^ 63)
                           | Panic _ => false
                           end
            | Panic _ => false
            end = true) as H by (vm_compute; reflexivity).
    change (length processors) with 2%nat. change (heap native) with AllocatorExample.st0.
    destruct (alloc stack_layout AllocatorExample.st0) as [[a h]|] eqn:Ha; [|discriminate H].
    destruct (alloc stack_layout h) as [[b h']|] eqn:Hb; [|discriminate H].
    rewrite !andb_true_iff, !Z.ltb_lt in H. change (2 ^ 63) with 0x8000_0000_0000_0000 in H.
    exists a, h. split_and!; [done|lia|cbn; lia|]. exists b, h'. split_and!; [done|lia|cbn; lia|done].
  - intros p q m m' r r' Hp Hq Hne Hm Hm'. change processors with [0%nat; 1%nat] in Hp, Hq.
    rewrite !elem_of_cons in Hp, Hq. destruct Hp as [->|[->|Hp%not_elem_of_nil]], Hq as [->|[->|Hq%not_elem_of_nil]]; try done;
      injection Hm as <- <-; injection Hm' as <- <-; vm_compute; discriminate.
  - intros [|[|i]] p Hp; [injection Hp as <-|injection Hp as <-|done]; eexists _, _; (split; [reflexivity|]);
      (split; [vm_compute; reflexivity|apply intel_suits]).
Qed.

End StartupExample.
