(* ===== verification/Layout.v ===== *)
(** * Layout of the structures the processor and the assembly read

    The fields of the VMCB (amd/guest.rs), the registers (registers.rs), the
    gates of the IDT (interrupt_handlers.rs) and the VMX regions (vmx.rs,
    guest.rs) in the order of their declaration, laid out as [repr(C)] does;
    the offsets the processor and the assembly expect. *)

From S2P Require Import Prelude Host Vmcb.

(** ** [repr(C)] *)

(** The primitive types the structures use; [xmm] is the structure [Xmm] of
    two [u64] with [align(16)]. *)
Inductive Prim : Type := u8 | u16 | u32 | u64 | xmm.

Definition prim_size (p : Prim) : Z :=
  match p with u8 => 1 | u16 => 2 | u32 => 4 | u64 => 8 | xmm => 16 end.

(** The alignment of each is its size. *)
Definition prim_align : Prim -> Z := prim_size.

(** A field: its name (none for padding and byte arrays that are not modelled
    as integers), the type of its elements and their number. *)
Record FieldDecl (F : Type) : Type := mk_field { fd_name : option F; fd_prim : Prim; fd_count : Z }.
Arguments mk_field {F} _ _ _.
Arguments fd_name {F} _.
Arguments fd_prim {F} _.
Arguments fd_count {F} _.

Definition one {F : Type} (name : option F) (p : Prim) : FieldDecl F := mk_field name p 1.
Definition array {F : Type} (name : option F) (p : Prim) (n : Z) : FieldDecl F := mk_field name p n.

Definition align_up (x a : Z) : Z := (x + a - 1) / a * a.

Definition field_size {F : Type} (d : FieldDecl F) : Z := prim_size (fd_prim d) * fd_count d.

(** Each field starts at the next multiple of its alignment. *)
Fixpoint place {F : Type} (cur : Z) (l : list (FieldDecl F)) : list (Z * FieldDecl F) :=
  match l with
  | [] => []
  | d :: l' =>
      let off := align_up cur (prim_align (fd_prim d)) in
      (off, d) :: place (off + field_size d) l'
  end.

Fixpoint end_of {F : Type} (cur : Z) (l : list (FieldDecl F)) : Z :=
  match l with
  | [] => cur
  | d :: l' => end_of (align_up cur (prim_align (fd_prim d)) + field_size d) l'
  end.

Definition max_align {F : Type} (l : list (FieldDecl F)) : Z :=
  foldr (fun d a => Z.max (prim_align (fd_prim d)) a) 1 l.

(** [size_of]; [min_align] is that of [repr(align(..))], or 1. *)
Definition size_of {F : Type} (min_align : Z) (l : list (FieldDecl F)) : Z :=
  align_up (end_of 0 l) (Z.max min_align (max_align l)).

Section Lookup.
Context {F : Type} {Fdec : EqDecision F}.

Definition find_field (f : F) (l : list (FieldDecl F)) : option (Z * FieldDecl F) :=
  snd <$> list_find (fun '(_, d) => fd_name d = Some f) (place 0 l).

(** [offset_of!] *)
Definition offset_of (f : F) (l : list (FieldDecl F)) : option Z := fst <$> find_field f l.

(** The width of a field in bits. *)
Definition width_of (f : F) (l : list (FieldDecl F)) : Z :=
  match find_field f l with Some (_, d) => 8 * field_size d | None => 0 end.
End Lookup.

(** ** The structures *)

(** [ControlArea] *)
Definition ControlArea : list (FieldDecl ControlField) :=
  [one (Some c_intercept_cr_read) u16; one (Some c_intercept_cr_write) u16;
   one (Some c_intercept_dr_read) u16; one (Some c_intercept_dr_write) u16;
   one (Some c_intercept_exception) u32; one (Some c_intercept_misc1) u32;
   one (Some c_intercept_misc2) u32; one (Some c_intercept_misc3) u32;
   array None u8 (0x03c - 0x018); one (Some c_pause_filter_threshold) u16;
   one (Some c_pause_filter_count) u16; one (Some c_iopm_base_pa) u64;
   one (Some c_msrpm_base_pa) u64; one (Some c_tsc_offset) u64; one (Some c_guest_asid) u32;
   one (Some c_tlb_control) u32; one (Some c_vintr) u64; one (Some c_interrupt_shadow) u64;
   one (Some c_exit_code) u64; one (Some c_exit_info1) u64; one (Some c_exit_info2) u64;
   one (Some c_exit_int_info) u64; one (Some c_np_enable) u64; one (Some c_avic_apic_bar) u64;
   one (Some c_guest_pa_pf_ghcb) u64; one (Some c_event_inj) u64; one (Some c_ncr3) u64;
   one (Some c_lbr_virtualization_enable) u64; one (Some c_vmcb_clean) u32;
   one (Some c_reserved) u32; one (Some c_nrip) u64; one (Some c_num_of_bytes_fetched) u8;
   array None u8 15; one (Some c_avic_apic_backing_page_pointer) u64; one None u64;
   one (Some c_avic_logical_table_pointer) u64; one (Some c_avic_physical_table_pointer) u64;
   one None u64; one (Some c_vmcb_save_state_pointer) u64; array None u8 (0x3e0 - 0x110);
   array None u8 0x20].

(** [StateSaveArea] *)
Definition StateSaveArea : list (FieldDecl SaveField) :=
  [one (Some s_es_selector) u16; one (Some s_es_attrib) u16; one (Some s_es_limit) u32;
   one (Some s_es_base) u64; one (Some s_cs_selector) u16; one (Some s_cs_attrib) u16;
   one (Some s_cs_limit) u32; one (Some s_cs_base) u64; one (Some s_ss_selector) u16;
   one (Some s_ss_attrib) u16; one (Some s_ss_limit) u32; one (Some s_ss_base) u64;
   one (Some s_ds_selector) u16; one (Some s_ds_attrib) u16; one (Some s_ds_limit) u32;
   one (Some s_ds_base) u64; one (Some s_fs_selector) u16; one (Some s_fs_attrib) u16;
   one (Some s_fs_limit) u32; one (Some s_fs_base) u64; one (Some s_gs_selector) u16;
   one (Some s_gs_attrib) u16; one (Some s_gs_limit) u32; one (Some s_gs_base) u64;
   one (Some s_gdtr_selector) u16; one (Some s_gdtr_attrib) u16; one (Some s_gdtr_limit) u32;
   one (Some s_gdtr_base) u64; one (Some s_ldtr_selector) u16; one (Some s_ldtr_attrib) u16;
   one (Some s_ldtr_limit) u32; one (Some s_ldtr_base) u64; one (Some s_idtr_selector) u16;
   one (Some s_idtr_attrib) u16; one (Some s_idtr_limit) u32; one (Some s_idtr_base) u64;
   one (Some s_tr_selector) u16; one (Some s_tr_attrib) u16; one (Some s_tr_limit) u32;
   one (Some s_tr_base) u64; array None u8 (0x0cb - 0x0a0); one (Some s_cpl) u8; one None u32;
   one (Some s_efer) u64; array None u8 (0x148 - 0x0d8); one (Some s_cr4) u64;
   one (Some s_cr3) u64; one (Some s_cr0) u64; one (Some s_dr7) u64; one (Some s_dr6) u64;
   one (Some s_rflags) u64; one (Some s_rip) u64; array None u8 (0x1d8 - 0x180);
   one (Some s_rsp) u64; one (Some s_s_cet) u64; one (Some s_ssp) u64; one (Some s_isst_addr) u64;
   one (Some s_rax) u64; one (Some s_star) u64; one (Some s_lstar) u64; one (Some s_cstar) u64;
   one (Some s_sf_mask) u64; one (Some s_kernel_gs_base) u64; one (Some s_sysenter_cs) u64;
   one (Some s_sysenter_esp) u64; one (Some s_sysenter_eip) u64; one (Some s_cr2) u64;
   array None u8 (0x268 - 0x248); one (Some s_gpat) u64; one (Some s_dbg_ctl) u64;
   one (Some s_br_from) u64; one (Some s_br_to) u64; one (Some s_last_excep_from) u64;
   one (Some s_last_excep_to) u64; array None u8 (0x2df - 0x298); one (Some s_spec_ctl) u64].

(** [Registers] *)
Definition Registers_layout : list (FieldDecl Reg) :=
  [one (Some RAX) u64; one (Some RBX) u64; one (Some RCX) u64; one (Some RDX) u64;
   one (Some RDI) u64; one (Some RSI) u64; one (Some RBP) u64; one (Some R8) u64;
   one (Some R9) u64; one (Some R10) u64; one (Some R11) u64; one (Some R12) u64;
   one (Some R13) u64; one (Some R14) u64; one (Some R15) u64; one (Some RFLAGS) u64;
   one (Some RSP) u64; one (Some RIP) u64; one (Some XMM0) xmm; one (Some XMM1) xmm;
   one (Some XMM2) xmm; one (Some XMM3) xmm; one (Some XMM4) xmm; one (Some XMM5) xmm].

(** The structures without named fields here: a gate of the IDT, the VMCS
    and the VMXON region. *)
Definition Gate_layout : list (FieldDecl Empty_set) :=
  [one None u16; one None u16; one None u8; one None u8; one None u16; one None u32; one None u32].
Definition VmcsRaw : list (FieldDecl Empty_set) := [one None u32; one None u32; array None u8 4088].
Definition VmxonRaw : list (FieldDecl Empty_set) := [one None u32; array None u8 4092].

(** [VmcbRaw]: the control area, then the state save area, in a page. *)
Definition state_save_area_offset : Z := align_up (size_of 1 ControlArea) (max_align StateSaveArea).
Definition VmcbRaw_size : Z := align_up (state_save_area_offset + size_of 1 StateSaveArea) 4096.

(** ** What the processor and the assembly expect *)

(** Offsets in the control area (AMD, Layout of VMCB), as the comments of the
    structure have them. *)
Definition apm_control (f : ControlField) : Z :=
  match f with
  | c_intercept_cr_read => 0x000 | c_intercept_cr_write => 0x002 | c_intercept_dr_read => 0x004
  | c_intercept_dr_write => 0x006 | c_intercept_exception => 0x008 | c_intercept_misc1 => 0x00c
  | c_intercept_misc2 => 0x010 | c_intercept_misc3 => 0x014 | c_pause_filter_threshold => 0x03c
  | c_pause_filter_count => 0x03e | c_iopm_base_pa => 0x040 | c_msrpm_base_pa => 0x048
  | c_tsc_offset => 0x050 | c_guest_asid => 0x058 | c_tlb_control => 0x05c | c_vintr => 0x060
  | c_interrupt_shadow => 0x068 | c_exit_code => 0x070 | c_exit_info1 => 0x078
  | c_exit_info2 => 0x080 | c_exit_int_info => 0x088 | c_np_enable => 0x090
  | c_avic_apic_bar => 0x098 | c_guest_pa_pf_ghcb => 0x0a0 | c_event_inj => 0x0a8 | c_ncr3 => 0x0b0
  | c_lbr_virtualization_enable => 0x0b8 | c_vmcb_clean => 0x0c0 | c_reserved => 0x0c4
  | c_nrip => 0x0c8 | c_num_of_bytes_fetched => 0x0d0 | c_avic_apic_backing_page_pointer => 0x0e0
  | c_avic_logical_table_pointer => 0x0f0 | c_avic_physical_table_pointer => 0x0f8
  | c_vmcb_save_state_pointer => 0x108
  end.

(** Offsets in the state save area. *)
Definition apm_save (f : SaveField) : Z :=
  match f with
  | s_es_selector => 0x000 | s_es_attrib => 0x002 | s_es_limit => 0x004 | s_es_base => 0x008
  | s_cs_selector => 0x010 | s_cs_attrib => 0x012 | s_cs_limit => 0x014 | s_cs_base => 0x018
  | s_ss_selector => 0x020 | s_ss_attrib => 0x022 | s_ss_limit => 0x024 | s_ss_base => 0x028
  | s_ds_selector => 0x030 | s_ds_attrib => 0x032 | s_ds_limit => 0x034 | s_ds_base => 0x038
  | s_fs_selector => 0x040 | s_fs_attrib => 0x042 | s_fs_limit => 0x044 | s_fs_base => 0x048
  | s_gs_selector => 0x050 | s_gs_attrib => 0x052 | s_gs_limit => 0x054 | s_gs_base => 0x058
  | s_gdtr_selector => 0x060 | s_gdtr_attrib => 0x062 | s_gdtr_limit => 0x064
  | s_gdtr_base => 0x068 | s_ldtr_selector => 0x070 | s_ldtr_attrib => 0x072
  | s_ldtr_limit => 0x074 | s_ldtr_base => 0x078 | s_idtr_selector => 0x080
  | s_idtr_attrib => 0x082 | s_idtr_limit => 0x084 | s_idtr_base => 0x088 | s_tr_selector => 0x090
  | s_tr_attrib => 0x092 | s_tr_limit => 0x094 | s_tr_base => 0x098 | s_cpl => 0x0cb
  | s_efer => 0x0d0 | s_cr4 => 0x148 | s_cr3 => 0x150 | s_cr0 => 0x158 | s_dr7 => 0x160
  | s_dr6 => 0x168 | s_rflags => 0x170 | s_rip => 0x178 | s_rsp => 0x1d8 | s_s_cet => 0x1e0
  | s_ssp => 0x1e8 | s_isst_addr => 0x1f0 | s_rax => 0x1f8 | s_star => 0x200 | s_lstar => 0x208
  | s_cstar => 0x210 | s_sf_mask => 0x218 | s_kernel_gs_base => 0x220 | s_sysenter_cs => 0x228
  | s_sysenter_esp => 0x230 | s_sysenter_eip => 0x238 | s_cr2 => 0x240 | s_gpat => 0x268
  | s_dbg_ctl => 0x270 | s_br_from => 0x278 | s_br_to => 0x280 | s_last_excep_from => 0x288
  | s_last_excep_to => 0x290 | s_spec_ctl => 0x2e0
  end.

(** The constants [registers_*] of capture_registers.inc and
    restore_registers.inc. *)
Definition registers_inc (r : Reg) : Z :=
  match r with
  | RAX => 0x0 | RBX => 0x8 | RCX => 0x10 | RDX => 0x18 | RDI => 0x20 | RSI => 0x28 | RBP => 0x30
  | R8 => 0x38 | R9 => 0x40 | R10 => 0x48 | R11 => 0x50 | R12 => 0x58 | R13 => 0x60 | R14 => 0x68
  | R15 => 0x70 | RFLAGS => 0x78 | RSP => 0x80 | RIP => 0x88 | XMM0 => 0x90 | XMM1 => 0xa0
  | XMM2 => 0xb0 | XMM3 => 0xc0 | XMM4 => 0xd0 | XMM5 => 0xe0
  end.

(** ** Lemmas *)

Lemma prim_size_pos p : 1 <= prim_size p.
Proof. by destruct p. Qed.

Lemma align_up_spec x a : 1 <= a -> x <= align_up x a /\ (a | align_up x a).
Proof.
  intros Ha. unfold align_up. split; [|by exists ((x + a - 1) / a)].
  pose proof (Z.div_mod (x + a - 1) a ltac:(lia)). pose proof (Z.mod_pos_bound (x + a - 1) a ltac:(lia)). nia.
Qed.

Section Place.
Context {F : Type}.
Implicit Types l : list (FieldDecl F).

(** Every field starts after [cur] and at a multiple of its alignment. *)
Lemma place_after cur l i off d : (forall d, d ∈ l -> 0 <= fd_count d) -> place cur l !! i = Some (off, d) ->
  cur <= off /\ (prim_align (fd_prim d) | off) /\ off + field_size d <= end_of cur l.
Proof.
  revert cur i. induction l as [|d0 l IH]; intros cur i Hc Hi; [done|]. cbn [place end_of] in *.
  destruct (align_up_spec cur (prim_align (fd_prim d0)) (prim_size_pos _)) as [Hle Hdiv].
  assert (0 <= field_size d0) as Hs by (pose proof (prim_size_pos (fd_prim d0)); pose proof (Hc d0 ltac:(left)); unfold field_size; nia).
  assert (forall d, d ∈ l -> 0 <= fd_count d) as Hc' by (intros; apply Hc; by right).
  assert (forall c, c <= end_of c l) as Hend.
  { clear - Hc'. induction l as [|d1 l IH]; intros c; cbn [end_of]; [lia|].
    destruct (align_up_spec c (prim_align (fd_prim d1)) (prim_size_pos _)) as [Hle _].
    pose proof (IH ltac:(intros; apply Hc'; by right) (align_up c (prim_align (fd_prim d1)) + field_size d1)).
    pose proof (prim_size_pos (fd_prim d1)). pose proof (Hc' d1 ltac:(left)). unfold field_size in *. nia. }
  destruct i as [|i]; cbn [lookup list_lookup] in Hi.
  - injection Hi as <- <-. split_and!; [done..|]. apply Hend.
  - destruct (IH _ i Hc' Hi) as (H1 & H2 & H3). split_and!; [lia|done..].
Qed.

(** Two fields do not overlap. *)
Lemma place_disjoint cur l i j off d off' d' : (forall d, d ∈ l -> 0 <= fd_count d) ->
  place cur l !! i = Some (off, d) -> place cur l !! j = Some (off', d') -> (i < j)%nat ->
  off + field_size d <= off'.
Proof.
  revert cur i j. induction l as [|d0 l IH]; intros cur i j Hc Hi Hj Hij; [done|].
  destruct j as [|j]; [lia|]. assert (forall d, d ∈ l -> 0 <= fd_count d) as Hc' by (intros; apply Hc; by right).
  destruct i as [|i]; cbn in Hi, Hj.
  - injection Hi as <- <-. by apply place_after in Hj as (H & _ & _).
  - apply (IH _ i j Hc' Hi Hj). lia.
Qed.
End Place.

(** Fields of no negative length, by computation. *)
Definition counts_ok {F : Type} (l : list (FieldDecl F)) : bool := forallb (fun d => 0 <=? fd_count d) l.

Lemma counts_ok_spec {F : Type} (l : list (FieldDecl F)) : counts_ok l = true -> forall d, d ∈ l -> 0 <= fd_count d.
Proof. intros H d Hd. apply Z.leb_le. unfold counts_ok in H. rewrite forallb_forall in H. apply H. by apply list_elem_of_In. Qed.

(** C17: the structures have the layout the hardware and the assembly expect:
    every field of the VMCB is at its documented offset, the state save area
    at 0x400, every register at the constant the assembly uses; no two fields
    overlap, each is aligned, and the sizes are those the source asserts. *)
Theorem layouts :
  (forall f, offset_of f ControlArea = Some (apm_control f)) /\
  (forall f, offset_of f StateSaveArea = Some (apm_save f)) /\
  (forall r, offset_of r Registers_layout = Some (registers_inc r)) /\
  (state_save_area_offset = 0x400 /\ VmcbRaw_size = 0x1000 /\ size_of 1 ControlArea = 0x400 /\
   size_of 1 StateSaveArea = 0x2e8 /\ size_of 1 Registers_layout = 0xf0 /\ size_of 16 Gate_layout = 16 /\
   size_of 4096 VmcsRaw = 4096 /\ size_of 4096 VmxonRaw = 4096) /\
  (forall (F : Type) (l : list (FieldDecl F)) i j off d off' d', counts_ok l = true ->
     place 0 l !! i = Some (off, d) -> place 0 l !! j = Some (off', d') -> (i < j)%nat ->
     off + field_size d <= off' /\ (prim_align (fd_prim d) | off)) /\
  counts_ok ControlArea && counts_ok StateSaveArea && counts_ok Registers_layout = true.
Proof.
  split_and!; try done.
  - by intros [].
  - by intros [].
  - by intros [].
  - intros F l i j off d off' d' Hc Hi Hj Hij. pose proof (counts_ok_spec l Hc) as Hpos. split.
    + exact (place_disjoint 0 l i j off d off' d' Hpos Hi Hj Hij).
    + apply (place_after 0 l i off d Hpos Hi).
Qed.
