(* ===== verification/Widths.v ===== *)
(** * Values fit where they are stored (all of hvcore)

    Rust's integer types bound every variable; the model has unbounded
    integers.  Here every register, MSR, field of the VMCB and field of the
    VMCS gets the width it has in the source and in the processor, and the
    code of both architectures is shown to keep every value within it: no
    value that is written is cut off by where it goes. *)

From S2P Require Import Prelude External Machine Platform ApicId Segment Tables Paging Npts Epts Host Vmcb.
From S2P Require Import Svm Vmx System Hypervisor Layout.

(** ** Widths of results *)

Lemma in_width_mono v w x : in_width v x -> v <= w -> in_width w x.
Proof. intros [H0 H1] Hw. split; [done|]. pose proof (Z.pow_le_mono_r 2 v w ltac:(done) Hw). lia. Qed.

Lemma in_width_lor w a b : 0 <= w -> in_width w a -> in_width w b -> in_width w (Z.lor a b).
Proof.
  intros Hw Ha Hb. apply in_width_bits; [done|apply Z.lor_nonneg; by destruct Ha, Hb|].
  intros i Hi. by rewrite Z.lor_spec, (testbit_above w a), (testbit_above w b).
Qed.

Lemma in_width_land_r w a b : 0 <= w -> in_width w b -> in_width w (Z.land a b).
Proof.
  intros Hw Hb. apply in_width_bits; [done|apply Z.land_nonneg; right; by destruct Hb|].
  intros i Hi. by rewrite Z.land_spec, (testbit_above w b), andb_false_r.
Qed.

Lemma in_width_land_l w a b : 0 <= w -> in_width w a -> in_width w (Z.land a b).
Proof. rewrite Z.land_comm. apply in_width_land_r. Qed.

Lemma in_width_ldiff w a b : 0 <= w -> in_width w a -> in_width w (Z.ldiff a b).
Proof.
  intros Hw Ha. apply in_width_bits; [done|apply Z.ldiff_nonneg; left; by destruct Ha|].
  intros i Hi. by rewrite Z.ldiff_spec, (testbit_above w a).
Qed.

Lemma in_width_shiftr w a n : 0 <= n -> in_width w a -> in_width w (Z.shiftr a n).
Proof.
  intros Hn [H0 H1]. rewrite Z.shiftr_div_pow2 by done. pose proof (Z.pow_pos_nonneg 2 n ltac:(lia) Hn). split.
  - apply Z.div_pos; lia.
  - apply Z.le_lt_trans with a; [|done]. apply Z.div_le_upper_bound; nia.
Qed.

Lemma in_width_shiftl v w a n : 0 <= n -> in_width v a -> v + n <= w -> 0 <= v -> in_width w (Z.shiftl a n).
Proof.
  intros Hn [H0 H1] Hw Hv. apply (in_width_mono (v + n)); [|done]. rewrite Z.shiftl_mul_pow2 by done.
  unfold in_width. rewrite Z.pow_add_r by done. pose proof (Z.pow_pos_nonneg 2 n ltac:(lia) Hn). nia.
Qed.

Lemma in_width_b2z w b : 1 <= w -> in_width w (b2z b).
Proof. intros Hw. apply (in_width_mono 1); [|done]. by destruct b. Qed.

Section BitfieldWidths.
Context {BF : BitfieldMacro}.

Lemma bf_set_width w hi lo x v : 0 <= lo <= hi -> hi < w -> in_width w x -> 0 <= v -> in_width w (bf_set hi lo x v).
Proof.
  intros Hlo Hhi Hx Hv. assert (0 <= x) by (by destruct Hx).
  apply in_width_bits; [lia|by apply bf_set_nonneg|]. intros i Hi.
  rewrite bf_set_testbit by lia. zcases; cbn [andb]; by rewrite (testbit_above w x) by done.
Qed.

Lemma bf_set_bit_width w n x b : 0 <= n < w -> in_width w x -> in_width w (bf_set_bit n x b).
Proof.
  intros Hn Hx. assert (0 <= x) by (by destruct Hx).
  apply in_width_bits; [lia|apply bf_set_bit_nonneg; lia|]. intros i Hi.
  rewrite bf_set_bit_testbit by lia. zcases. by rewrite (testbit_above w x).
Qed.
End BitfieldWidths.

(** [width] proves that a value fits; the side conditions on constants are
    decided by computation. *)
Create HintDb width.
#[export] Hint Resolve wrap_range : width.

Ltac width_const := by (split; vm_compute; (reflexivity || discriminate)).
Ltac closed_const x :=
  lazymatch x with
  | Z.shiftl ?a ?b => closed_const a; closed_const b
  | Z.lor ?a ?b => closed_const a; closed_const b
  | Z.ldiff ?a ?b => closed_const a; closed_const b
  | not_w ?a ?b => closed_const a; closed_const b
  | TlbControl_value ?a => idtac
  | b2z true => idtac
  | b2z false => idtac
  | _ => first [is_znum x | is_const x]
  end.
Ltac width_norm :=
  match goal with |- in_width ?w _ => let w' := eval vm_compute in w in change w with w' end.
Ltac width_step :=
  first
    [ assumption
    | match goal with |- in_width _ ?x => closed_const x; width_const end
    | apply wrap_range; done
    | apply in_width_lor; [done|..]
    | match goal with |- in_width _ (Z.land _ ?x) => closed_const x end; apply in_width_land_r; [done|width_const]
    | apply in_width_b2z; done
    | apply in_width_land_l; [done|]
    | apply in_width_shiftr; [done|]
    | apply in_width_ldiff; [done|]
    | apply bf_set_bit_width; [done|]
    | apply bf_set_width; [done|done|..|done]
    | solve [auto with width]
    | match goal with H : in_width ?v ?x |- in_width _ ?x => apply (in_width_mono v); [exact H|done] end ].
Ltac width := try width_norm; repeat width_step.

(** The elements of a concrete list one by one. *)
Ltac typed_list := repeat (apply Forall_cons_2; [cbn [fst snd]|]); try apply Forall_nil_2.

(** ** Code that keeps an invariant and returns values of a kind *)
Definition yields {St A : Type} (I : St -> Prop) (Q : A -> Prop) (x : M St A) : Prop :=
  forall s a s', I s -> x s = Ok (a, s') -> I s' /\ Q a.

Section Yields.
Context {St : Type} (I : St -> Prop).

Lemma yields_ret {A} (Q : A -> Prop) a : Q a -> yields I Q (ret a).
Proof. intros Ha s b s' Hs H. by injection H as <- <-. Qed.

Lemma yields_bind {A B} (Q : A -> Prop) (R : B -> Prop) (x : M St A) (k : A -> M St B) :
  yields I Q x -> (forall a, Q a -> yields I R (k a)) -> yields I R (bind x k).
Proof.
  intros Hx Hk s b s' Hs H. apply bind_ok in H as (a & s1 & H1 & H).
  destruct (Hx _ _ _ Hs H1) as [Hs1 Ha]. by apply (Hk a Ha s1).
Qed.

Lemma yields_weaken {A} (Q R : A -> Prop) (x : M St A) : yields I Q x -> (forall a, Q a -> R a) -> yields I R x.
Proof. intros Hx HQ s a s' Hs H. destruct (Hx _ _ _ Hs H). auto. Qed.

Lemma yields_any {A} (Q : A -> Prop) (x : M St A) : yields I Q x -> yields I (fun _ => True) x.
Proof. intros Hx. by eapply yields_weaken. Qed.

Lemma yields_gets {A} (Q : A -> Prop) (f : St -> A) : (forall s, I s -> Q (f s)) -> yields I Q (gets f).
Proof. intros Hf s a s' Hs H. injection H as <- <-. auto. Qed.

Lemma yields_modify (f : St -> St) : (forall s, I s -> I (f s)) -> yields I (fun _ => True) (modify f).
Proof. intros Hf s a s' Hs H. injection H as _ <-. auto. Qed.

Lemma yields_lift {A} (Q : A -> Prop) (x : outcome A) : (forall a, x = Ok a -> Q a) -> yields I Q (lift x).
Proof. intros Hx s a s' Hs H. apply lift_ok in H as [H ->]. auto. Qed.

Lemma yields_massert b why : yields I (fun _ => b = true) (massert b why).
Proof. apply yields_lift. intros u H. by apply oassert_ok in H. Qed.

Lemma yields_mpanic {A} (Q : A -> Prop) why : yields I Q (mpanic why).
Proof. by intros s a s' Hs H. Qed.

Lemma yields_if {A} (Q : A -> Prop) (b : bool) (x y : M St A) :
  (b = true -> yields I Q x) -> (b = false -> yields I Q y) -> yields I Q (if b then x else y).
Proof. destruct b; auto. Qed.
End Yields.

(** ** The processor *)

(** Selectors and limits of descriptor tables have 16 bits, the other
    registers 64. *)
Definition sys_width (r : SysReg) : Z :=
  match r with
  | ES | CS | SS | DS | FS | GS | TR | LDTR | GDTR_LIMIT | IDTR_LIMIT => 16
  | _ => 64
  end.

(** The widths of the VMCS fields (Intel, Field Encoding in VMCS); a natural
    width is 64. *)
Definition vmcs_width (f : VmcsField) : Z :=
  match f with
  | guest_ES_SELECTOR | guest_CS_SELECTOR | guest_SS_SELECTOR | guest_DS_SELECTOR | guest_FS_SELECTOR
  | guest_GS_SELECTOR | guest_LDTR_SELECTOR | guest_TR_SELECTOR | host_ES_SELECTOR | host_CS_SELECTOR
  | host_SS_SELECTOR | host_DS_SELECTOR | host_FS_SELECTOR | host_GS_SELECTOR | host_TR_SELECTOR => 16
  | guest_ES_LIMIT | guest_CS_LIMIT | guest_SS_LIMIT | guest_DS_LIMIT | guest_FS_LIMIT | guest_GS_LIMIT
  | guest_LDTR_LIMIT | guest_TR_LIMIT | guest_GDTR_LIMIT | guest_IDTR_LIMIT
  | guest_ES_ACCESS_RIGHTS | guest_CS_ACCESS_RIGHTS | guest_SS_ACCESS_RIGHTS | guest_DS_ACCESS_RIGHTS
  | guest_FS_ACCESS_RIGHTS | guest_GS_ACCESS_RIGHTS | guest_LDTR_ACCESS_RIGHTS | guest_TR_ACCESS_RIGHTS
  | guest_IA32_SYSENTER_CS | guest_ACTIVITY_STATE | control_VMEXIT_CONTROLS | control_VMENTRY_CONTROLS
  | control_PINBASED_EXEC_CONTROLS | control_PRIMARY_PROCBASED_EXEC_CONTROLS
  | control_SECONDARY_PROCBASED_EXEC_CONTROLS | ro_EXIT_REASON | ro_VMEXIT_INSTRUCTION_LEN
  | ro_VM_INSTRUCTION_ERROR => 32
  | _ => 64
  end.

Definition reg_width (r : Reg) : Z := width_of r Registers_layout.
Definition regs_typed (r : Registers) : Prop := forall x, in_width (reg_width x) (r x).

(** [native]: before the first guest has run, IA32_SYSENTER_CS has only the
    32 bits the processor keeps, since nothing has emulated a WRMSR. *)
Record machine_typed (native : bool) (m : Machine) : Prop := {
  mt_sys : forall r, in_width (sys_width r) (sys m r);
  mt_msrs : forall i v, msrs m !! i = Some v -> in_width 64 v;
  mt_mem : forall a, in_width 64 (mem m a);
  mt_mmio : forall a, in_width 32 (mmio m a);
  mt_cpuid : forall leaf sub, let r := hw_cpuid m leaf sub in
    in_width 32 (eax r) /\ in_width 32 (ebx r) /\ in_width 32 (ecx r) /\ in_width 32 (edx r);
  mt_vmcs : forall p d, vmcss m !! p = Some d -> forall f, in_width (vmcs_width f) (d f);
  mt_sysenter : native = true -> forall v, msrs m !! IA32_SYSENTER_CS = Some v -> in_width 32 v;
}.

Lemma machine_typed_run b m : machine_typed b m -> machine_typed false m.
Proof. by intros []. Qed.

Lemma sys_width_64 r x : in_width (sys_width r) x -> in_width 64 x.
Proof. intros H. eapply in_width_mono; [exact H|]. by destruct r. Qed.

(** A typed block of assignments to typed fields. *)
Lemma assign_typed {F : Type} {Fdec : EqDecision F} (width : F -> Z) (l : list (F * Z)) (s : F -> Z) :
  (forall f, in_width (width f) (s f)) -> Forall (fun fv => in_width (width fv.1) fv.2) l ->
  forall f, in_width (width f) (assign l s f).
Proof.
  intros Hs Hl. revert s Hs. induction Hl as [|[f v] l Hv Hl IH]; intros s Hs; [done|].
  cbn. apply IH. intros g. unfold fset. destruct (decide (f = g)) as [<-|]; [done|apply Hs].
Qed.

Lemma fset_typed {F : Type} {Fdec : EqDecision F} (width : F -> Z) f v (s : F -> Z) :
  (forall f, in_width (width f) (s f)) -> in_width (width f) v -> forall g, in_width (width g) (fset f v s g).
Proof. intros Hs Hv g. unfold fset. destruct (decide (f = g)) as [<-|]; [done|apply Hs]. Qed.

(** ** The instructions *)
Section Instructions.
Context (native : bool).
#[local] Abbreviation I := (machine_typed native).

Lemma yields_rdmsr msr : yields I (in_width 64) (rdmsr msr).
Proof. intros m v m' Hm H. apply rdmsr_ok in H as [-> H]. split; [done|]. by eapply mt_msrs. Qed.

Lemma yields_rdmsr_sysenter : native = true -> yields I (in_width 32) (rdmsr IA32_SYSENTER_CS).
Proof. intros Hn m v m' Hm H. apply rdmsr_ok in H as [-> H]. split; [done|]. by eapply mt_sysenter. Qed.

Lemma yields_wrmsr msr v : in_width 64 v -> native = false \/ msr <> IA32_SYSENTER_CS ->
  yields I (fun _ => True) (wrmsr msr v).
Proof.
  intros Hv Hn m u m' Hm H. apply wrmsr_ok in H as [-> _]. split; [|done]. destruct Hm. split; try done; cbn [msrs set_msrs].
  - intros i x [[_ <-]|[_ H]]%lookup_insert_Some; [done|]. eauto.
  - intros Hnat x [[-> <-]|[_ H]]%lookup_insert_Some; [|eauto]. destruct Hn as [Hn|Hn]; [congruence|done].
Qed.

Lemma yields_sys_read r : yields I (in_width (sys_width r)) (sys_read r).
Proof. apply yields_gets. intros m Hm. by apply mt_sys with native. Qed.

Lemma yields_set_sys l : Forall (fun fv => in_width (sys_width fv.1) fv.2) l ->
  yields I (fun _ => True) (modify (set_sys (assign l))).
Proof. intros Hl. apply yields_modify. intros m []. split; try done. cbn [sys set_sys]. by apply assign_typed. Qed.

Lemma yields_sys_write r v : in_width (sys_width r) v -> yields I (fun _ => True) (sys_write r v).
Proof. intros Hv. apply (yields_set_sys [(r, v)]). by constructor. Qed.

Lemma yields_cpuid leaf sub : yields I (fun r => in_width 32 (eax r) /\ in_width 32 (ebx r) /\ in_width 32 (ecx r) /\
  in_width 32 (edx r)) (cpuid leaf sub).
Proof. apply yields_gets. intros m Hm. apply (mt_cpuid _ _ Hm). Qed.

Definition dtp_typed (p : DescriptorTablePointer) : Prop := in_width 64 (dtp_base p) /\ in_width 16 (dtp_limit p).

Lemma yields_sgdt : yields I dtp_typed sgdt.
Proof. apply yields_gets. intros m Hm. split; [apply (mt_sys _ _ Hm GDTR_BASE)|apply (mt_sys _ _ Hm GDTR_LIMIT)]. Qed.

Lemma yields_sidt : yields I dtp_typed sidt.
Proof. apply yields_gets. intros m Hm. split; [apply (mt_sys _ _ Hm IDTR_BASE)|apply (mt_sys _ _ Hm IDTR_LIMIT)]. Qed.

Lemma yields_lgdt p : dtp_typed p -> yields I (fun _ => True) (lgdt p).
Proof. intros [Hb Hl]. apply yields_set_sys. by typed_list. Qed.

Lemma yields_lidt p : dtp_typed p -> yields I (fun _ => True) (lidt p).
Proof. intros [Hb Hl]. apply yields_set_sys. by typed_list. Qed.

Lemma yields_lsl s : yields I (in_width 32) (lsl s).
Proof.
  intros m v m' Hm H. unfold lsl in H. destruct (hw_lsl m s) as [limit flags]. injection H as <- <-. split; [done|].
  destruct (_ =? _); width.
Qed.

Lemma yields_lar s : yields I (in_width 32) (lar s).
Proof.
  intros m v m' Hm H. unfold lar in H. destruct (hw_lar m s) as [rights flags]. injection H as <- <-. split; [done|].
  destruct (_ =? _); width.
Qed.

Lemma yields_xsetbv xcr v : in_width 64 v -> yields I (fun _ => True) (xsetbv xcr v).
Proof.
  intros Hv. unfold xsetbv. eapply yields_bind; [apply yields_massert|]. intros _ _. by apply yields_sys_write.
Qed.

(** VMX: the regions hold typed fields. *)
Lemma vmcs_data_typed m p : I m -> forall f, in_width (vmcs_width f) (vmcs_data m p f).
Proof.
  intros Hm f. unfold vmcs_data. destruct (vmcss m !! p) eqn:E; cbn [default].
  - by apply (mt_vmcs _ _ Hm p).
  - destruct f; width_const.
Qed.

Lemma typed_set_vmx v m : I m -> I (set_vmx v m).
Proof. by intros []. Qed.

Lemma typed_set_vmcss p d m : I m -> (forall f, in_width (vmcs_width f) (d f)) -> I (set_vmcss <[p := d]> m).
Proof.
  intros [] Hd. split; try done. cbn [vmcss set_vmcss]. intros q d' [[_ <-]|[_ H]]%lookup_insert_Some; [done|eauto].
Qed.

Lemma yields_vmread f : yields I (in_width (vmcs_width f)) (vmread f).
Proof.
  intros m v m' Hm H. unfold vmread in H. destruct (current_vmcs m) as [p|]; [|done]. injection H as <- <-.
  split; [done|]. by apply vmcs_data_typed.
Qed.

Lemma yields_vmwrite f v : in_width (vmcs_width f) v -> yields I (fun _ => True) (vmwrite f v).
Proof.
  intros Hv m u m' Hm H. unfold vmwrite in H. destruct (current_vmcs m) as [p|]; [|done]. injection H as _ <-.
  split; [|done]. apply typed_set_vmcss; [done|]. apply fset_typed; [|done]. by apply vmcs_data_typed.
Qed.

Lemma yields_vmwrites l : Forall (fun fx => yields I (in_width (vmcs_width fx.1)) fx.2) l ->
  yields I (fun _ => True) (vmwrites l).
Proof.
  induction 1 as [|[f x] l Hx Hl IH]; [by apply yields_ret|]. cbn [vmwrites].
  eapply yields_bind; [exact Hx|]. intros v Hv. eapply yields_bind; [by apply yields_vmwrite|]. by intros _ _.
Qed.

Lemma yields_vmclear p : yields I (fun _ => True) (vmclear p).
Proof.
  intros m u m' Hm H. unfold vmclear in H. destruct (vmx m); [done|]. injection H as _ <-. split; [|done].
  apply typed_set_vmx, typed_set_vmcss; [done|]. by apply vmcs_data_typed.
Qed.

Lemma yields_vmptrld p rev : yields I (fun _ => True) (vmptrld p rev).
Proof.
  intros m u m' Hm H. unfold vmptrld in H. destruct (vmx m); [done|]. destruct (_ =? _); [|done].
  injection H as _ <-. split; [|done]. by apply typed_set_vmx.
Qed.

Lemma yields_vmxon p rev : yields I (fun _ => True) (vmxon p rev).
Proof.
  intros m u m' Hm H. unfold vmxon in H. destruct (vmx m); [|done]. destruct (_ && _); [|done].
  injection H as _ <-. split; [|done]. by apply typed_set_vmx.
Qed.

Lemma yields_vmxoff : yields I (fun _ => True) vmxoff.
Proof.
  intros m u m' Hm H. unfold vmxoff in H. destruct (vmx m); [done|]. injection H as _ <-. split; [|done].
  by apply typed_set_vmx.
Qed.
End Instructions.

Create HintDb yields.
#[export] Hint Resolve yields_rdmsr yields_sys_read yields_sgdt yields_sidt yields_lgdt yields_lidt yields_lsl
  yields_lar yields_cpuid yields_vmread yields_vmclear yields_vmptrld yields_vmxon yields_vmxoff yields_massert
  yields_mpanic : yields.

(** ** The interface between the host and an architecture *)

(** The invariant of a world: a typed processor, and the rest of the world. *)
Definition world_typed {W : Type} {HC : HasCpu W} (rest : W -> Prop) (native : bool) (w : W) : Prop :=
  machine_typed native (get_cpu w) /\ rest w.

(** The address of the next instruction, in the reasons that carry one. *)
Definition reason_typed (r : VmExitReason) : Prop :=
  match r with
  | Cpuid n | Rdmsr n | Wrmsr n | XSetBv n | VmCall n => in_width 64 n
  | InitSignal | StartupIpi | NestedPageFault => True
  end.

(** What an architecture promises: each of its operations keeps the world
    typed and returns typed guests, when the guest and what happens outside
    are typed. *)
Class Typed (W G Event E : Type) {HC : HasCpu W} {GI : Guest W G Event} {XI : Extension W E} : Type := {
  rest_typed : W -> Prop;
  guest_typed : G -> Prop;
  vt_typed : E -> Prop;
  event_typed : Event -> Prop;
  rest_put_cpu : forall m w, rest_typed w -> rest_typed (put_cpu m w);
  guest_regs_typed : forall g, guest_typed g -> regs_typed (regs g);
  guest_set_typed : forall r g, regs_typed r -> guest_typed g -> guest_typed (set_regs r g);
  typed_default : yields (world_typed rest_typed true) vt_typed ext_default;
  typed_enable : forall vt, vt_typed vt -> yields (world_typed rest_typed true) vt_typed (enable vt);
  typed_new : forall id, yields (world_typed rest_typed true) guest_typed (guest_new id);
  typed_activate : forall g, guest_typed g -> yields (world_typed rest_typed true) guest_typed (activate g);
  typed_initialize : forall r g, regs_typed r -> guest_typed g ->
    yields (world_typed rest_typed true) guest_typed (initialize r g);
  typed_run : forall e g, event_typed e -> guest_typed g ->
    yields (world_typed rest_typed false) (fun rg => reason_typed rg.1 /\ guest_typed rg.2) (run e g);
  typed_load : forall g, guest_typed g -> yields (world_typed rest_typed false) (fun _ => True) (load_guest_cpu_state g);
  typed_deactivate : forall g, guest_typed g -> yields (world_typed rest_typed false) guest_typed (deactivate g);
  typed_disable : forall vt, vt_typed vt -> yields (world_typed rest_typed false) vt_typed (disable vt);
}.

(** ** The host, against the interface *)
Section HostTyped.
Context {W G Event E : Type} {HC : HasCpu W} {GI : Guest W G Event} {XI : Extension W E} {X86 : X86Xcr0}
  {TY : Typed W G Event E}.
#[local] Abbreviation I native := (world_typed rest_typed native).

Lemma yields_on_cpu {A} native (Q : A -> Prop) (x : M Machine A) :
  yields (machine_typed native) Q x -> yields (I native) Q (on_cpu x).
Proof.
  intros Hx w a w' [Hm Hr] H. unfold on_cpu in H. destruct (x (get_cpu w)) as [[b m]|] eqn:E1; [|done].
  injection H as -> <-. destruct (Hx _ _ _ Hm E1) as [Hm' Ha]. split; [|done]. split.
  - by rewrite get_put_cpu.
  - by apply rest_put_cpu.
Qed.

Lemma typed_reg r g : guest_typed g -> in_width (reg_width r) (regs g r).
Proof. intros Hg. by apply guest_regs_typed. Qed.

Lemma typed_set_reg r v g : guest_typed g -> in_width (reg_width r) v -> guest_typed (set_reg r v g).
Proof.
  intros Hg Hv. apply guest_set_typed; [|done]. intros x. apply fset_typed; [|done]. by apply guest_regs_typed.
Qed.

Lemma edx_eax_width g : in_width 64 (edx_eax g).
Proof. unfold edx_eax. width. Qed.

#[local] Hint Resolve edx_eax_width : width.

(** Every handler keeps the guest typed. *)
Lemma typed_handle_exit reason g vt : reason_typed reason -> guest_typed g -> vt_typed vt ->
  yields (I false) (fun st => match st with
                              | Running g vt => guest_typed g /\ vt_typed vt
                              | Devirtualized r => regs_typed r
                              end) (handle_exit reason g vt).
Proof.
  intros Hr Hg Hvt. destruct reason as [n|n|n|n|n| | |]; cbn [handle_exit reason_typed] in *; try (by apply yields_ret).
  - unfold handle_cpuid. eapply yields_bind; [|intros g' Hg'; by apply yields_ret; split; [exact Hg'|]].
    eapply yields_bind; [apply yields_on_cpu, yields_cpuid|]. intros c (Ha & Hb & Hc & Hd). cbn zeta. apply yields_ret.
    repeat (apply typed_set_reg; [|]); try done; repeat destruct (_ =? _); cbn [eax ebx ecx edx]; width.
  - unfold handle_rdmsr. eapply yields_bind; [|intros g' Hg'; by apply yields_ret; split; [exact Hg'|]].
    eapply yields_bind; [apply yields_on_cpu, yields_rdmsr|]. intros v Hv. cbn zeta. apply yields_ret.
    repeat (apply typed_set_reg; [|]); try done; width.
  - unfold handle_wrmsr. eapply yields_bind; [|intros g' Hg'; by apply yields_ret; split; [exact Hg'|]].
    eapply yields_bind; [apply yields_on_cpu, yields_wrmsr; [apply edx_eax_width|by left]|].
    intros _ _. apply yields_ret. by apply typed_set_reg.
  - unfold handle_xsetbv. eapply yields_bind; [|intros g' Hg'; by apply yields_ret; split; [exact Hg'|]]. cbn zeta.
    eapply yields_bind.
    { apply (yields_lift _ (in_width 64)). intros v Hv. unfold xcr0_from_bits in Hv.
      destruct (_ =? 0); [injection Hv as <-; apply edx_eax_width|done]. }
    intros v Hv. eapply yields_bind; [apply yields_on_cpu, yields_sys_read|]. intros c Hc. cbn [sys_width] in Hc.
    eapply yields_bind; [apply yields_on_cpu, yields_sys_write; width|]. intros _ _.
    eapply yields_bind; [apply yields_on_cpu, yields_xsetbv; done|]. intros _ _. apply yields_ret. by apply typed_set_reg.
  - apply yields_if; intros _.
    + unfold devirtualize_processor. eapply yields_bind; [|intros r Hg'; apply yields_ret; exact Hg'].
      eapply yields_bind; [apply typed_load; by apply typed_set_reg|]. intros _ _.
      eapply yields_bind; [apply typed_deactivate; by apply typed_set_reg|]. intros g' Hg'.
      eapply yields_bind; [by apply typed_disable|]. intros vt' _. apply yields_ret. by apply guest_regs_typed.
    + unfold handle_vmcall. eapply yields_bind; [|intros g' Hg'; by apply yields_ret; split; [exact Hg'|]].
      apply yields_ret. by repeat (apply typed_set_reg; [|]).
Qed.

(** The state of the loop. *)
Definition loop_typed (st : LoopState (G := G) (E := E)) : Prop :=
  match st with
  | Running g vt => guest_typed g /\ vt_typed vt
  | Devirtualized r => regs_typed r
  end.

Lemma typed_vm_loop events g vt : Forall event_typed events -> guest_typed g -> vt_typed vt ->
  yields (I false) loop_typed (vm_loop events g vt).
Proof.
  intros Hev. revert g vt. induction Hev as [|e events He Hev IH]; intros g vt Hg Hvt; cbn [vm_loop].
  - by apply yields_ret.
  - eapply yields_bind; [by apply typed_run|]. intros [reason g1] [Hr Hg1]. cbn [fst snd] in *.
    eapply yields_bind; [by apply typed_handle_exit|]. intros [g2 vt2|r] H; [|by apply yields_ret].
    destruct H. by apply IH.
Qed.

(** From the native processor to any number of VM exits. *)
Lemma typed_virtualize_core pid r events w st w' : yields (I true) (fun _ => True) pid -> regs_typed r ->
  Forall event_typed events -> I true w -> virtualize_core pid r events w = Ok (st, w') ->
  I false w' /\ loop_typed st.
Proof.
  intros Hpid Hr Hev Hw H. unfold virtualize_core in H.
  apply bind_ok in H as (vt0 & w0 & E0 & H). destruct (typed_default _ _ _ Hw E0) as [Hw0 Hvt0].
  apply bind_ok in H as (vt & w1 & E1 & H). destruct (typed_enable _ Hvt0 _ _ _ Hw0 E1) as [Hw1 Hvt].
  apply bind_ok in H as (found & w2 & E2 & H). destruct (Hpid _ _ _ Hw1 E2) as [Hw2 _].
  apply bind_ok in H as (id & w3 & E3 & H). apply lift_ok in E3 as [_ ->].
  apply bind_ok in H as (g0 & w4 & E4 & H). destruct (typed_new _ _ _ _ Hw2 E4) as [Hw4 Hg0].
  apply bind_ok in H as (g1 & w5 & E5 & H). destruct (typed_activate _ Hg0 _ _ _ Hw4 E5) as [Hw5 Hg1].
  apply bind_ok in H as (g & w6 & E6 & H). destruct (typed_initialize _ _ Hr Hg1 _ _ _ Hw5 E6) as [[Hm6 Hr6] Hg].
  apply (typed_vm_loop events g vt Hev Hg Hvt w6); [|done]. split; [|done]. by apply machine_typed_run in Hm6.
Qed.
End HostTyped.
