(* ===== verification/WidthProofs.v ===== *)
(** * Both architectures keep values in their widths (amd/guest.rs, intel/guest.rs)

    The interface [Typed] of Widths.v is implemented for SVM and for VMX, and
    joined for the host's main function over either. *)

From S2P Require Import Prelude External Machine Platform ApicId Segment Tables Paging Npts Mtrr Epts Host Vmcb.
From S2P Require Import Svm SvmProofs Vmx VmxProofs System Hypervisor Layout Widths.

(** ** Shared data of the host *)

(** Addresses have 64 bits, selectors 16, and an IDT 256 gates. *)
Definition shared_host_typed {XT : X86Task} (d : SharedHostData) : Prop :=
  (forall a, host_pt d = Some a -> in_width 64 a) /\
  (forall a idt, host_idt d = Some (a, idt) -> in_width 64 a /\ length idt = 256%nat) /\
  (forall l a g, host_gdts d = Some l -> (a, g) ∈ l -> in_width 64 a /\ forall t, tr_sel g = Some t -> in_width 16 t).

(** ** AMD *)
Definition control_width (f : ControlField) : Z := width_of f ControlArea.
Definition save_width (f : SaveField) : Z := width_of f StateSaveArea.

Record vmcb_typed (v : Vmcb) : Prop := {
  vt_control : forall f, in_width (control_width f) (control_area v f);
  vt_save : forall f, in_width (save_width f) (state_save_area v f);
  vt_bytes : Forall (in_width 8) (guest_instruction_bytes v);
}.

Record svm_guest_typed (g : SvmGuest) : Prop := {
  sg_regs : regs_typed (svm_registers g);
  sg_vmcb : vmcb_typed (vmcb g);
  sg_host_vmcb : vmcb_typed (host_vmcb g);
  sg_host_state : in_width 64 (host_state g);
}.

(** The nested page tables have 64-bit entries, and an activity state is a
    byte. *)
Definition tables_typed (ps : PagingStructuresRaw) : Prop :=
  Forall (in_width 64) (pml4 ps) /\ Forall (in_width 64) (pdpt ps) /\ Forall (Forall (in_width 64)) (pd ps) /\
  Forall (in_width 64) (pt ps) /\ Forall (in_width 64) (pt_apic ps).

Definition svm_rest (w : SvmWorld) : Prop := tables_typed (npt w) /\ Forall (in_width 8) (activity_states w).

(** What happens outside: a typed state stays typed while the guest and the
    other processors run. *)
Definition svm_event_typed (e : SvmEvent) : Prop :=
  (forall r v w r' v' w', regs_typed r -> vmcb_typed v -> world_typed svm_rest false w ->
     guest_execution e r v w = (r', v', w') -> regs_typed r' /\ vmcb_typed v' /\ world_typed svm_rest false w') /\
  Forall (fun f => forall w, world_typed svm_rest false w -> world_typed svm_rest false (f w)) (while_waiting e).

Lemma typed_vmcb_default : vmcb_typed Vmcb_default.
Proof. split; [intros []; width_const|intros []; width_const|]. apply Forall_forall. intros x Hx. apply elem_of_replicate in Hx as [-> _]. width_const. Qed.

Lemma typed_set_control l v : vmcb_typed v -> Forall (fun fv => in_width (control_width fv.1) fv.2) l ->
  vmcb_typed (set_control l v).
Proof. intros [] Hl. split; try done. intros f. by apply (assign_typed control_width). Qed.

Lemma typed_set_save l v : vmcb_typed v -> Forall (fun fv => in_width (save_width fv.1) fv.2) l ->
  vmcb_typed (set_save l v).
Proof. intros [] Hl. split; try done. intros f. by apply (assign_typed save_width). Qed.

Lemma typed_save l g : svm_guest_typed g -> Forall (fun fv => in_width (save_width fv.1) fv.2) l -> svm_guest_typed (save l g).
Proof. intros [Hr Hv Hh Hs] Hl. split; try done. by apply typed_set_save. Qed.

Lemma typed_control l g : svm_guest_typed g -> Forall (fun fv => in_width (control_width fv.1) fv.2) l ->
  svm_guest_typed (control l g).
Proof. intros [Hr Hv Hh Hs] Hl. split; try done. by apply typed_set_control. Qed.

Lemma typed_assign_registers l g : svm_guest_typed g -> Forall (fun fv => in_width (reg_width fv.1) fv.2) l ->
  svm_guest_typed (assign_registers l g).
Proof. intros [Hr Hv Hh Hs] Hl. split; try done. intros r. by apply (assign_typed reg_width). Qed.

Lemma typed_set_svm_registers r g : regs_typed r -> svm_guest_typed g -> svm_guest_typed (set_svm_registers r g).
Proof. by intros Hr []. Qed.

Lemma typed_saved g f : svm_guest_typed g -> in_width (save_width f) (saved g f).
Proof. intros []. by apply vt_save. Qed.

Lemma typed_controls g f : svm_guest_typed g -> in_width (control_width f) (controls g f).
Proof. intros []. by apply vt_control. Qed.

Lemma typed_svm_reg g r : svm_guest_typed g -> in_width (reg_width r) (svm_registers g r).
Proof. intros []. apply sg_regs0. Qed.

(** Arithmetic gives a value of its width, checked or wrapped. *)
Lemma arith_width {P : Profile} w x r : 0 <= w -> arith w x = Ok r -> in_width w r.
Proof.
  intros Hw H. unfold arith in H. destruct ((0 <=? x) && (x <? 2 ^ w)) eqn:E.
  - injection H as <-. apply andb_true_iff in E as [E1%Z.leb_le E2%Z.ltb_lt]. done.
  - destruct overflow_checks; [done|]. injection H as <-. by apply wrap_range.
Qed.

Lemma access_right_width {P : Profile} {XS : X86Segmentation} mem base sel a :
  get_segment_access_right mem base sel = Ok a -> in_width 16 a.
Proof. intros H. apply obind_ok in H as (d & _ & H). injection H as <-. width. Qed.

Lemma segment_limit_width {P : Profile} {XS : X86Segmentation} mem base sel l :
  get_segment_limit mem base sel = Ok l -> in_width 32 l.
Proof.
  intros H. unfold get_segment_limit in H. destruct (_ && _); [by injection H as <-|].
  apply obind_ok in H as (d & _ & H). destruct (negb _); [|injection H as <-; width].
  apply obind_ok in H as (l1 & _ & H). apply obind_ok in H as (l2 & _ & H). apply obind_ok in H as (l3 & _ & H).
  injection H as <-. width.
Qed.

Lemma idtr_typed addr idt p : in_width 64 addr -> length idt = 256%nat -> idtr addr idt = Ok p -> dtp_typed p.
Proof. intros Ha Hl H. rewrite idtr_256 in H by done. injection H as <-. split; [done|width_const]. Qed.

(** The instructions the emulation knows store 32 bits. *)
Lemma decode_width ins (r : Registers) v len : decode_apic_write ins r = Some (v, len) -> in_width 32 v.
Proof.
  unfold decode_apic_write. intros H.
  repeat match type of H with
    | Some _ = Some _ => injection H as <- <-; first [apply wrap_range; done | width_const]
    | None = _ => discriminate H
    | match ?x with _ => _ end = _ => destruct x
  end.
Qed.

(** Passes the first part of a sequence. *)
Ltac pass := lazymatch goal with |- yields _ _ (bind _ _) => eapply yields_bind end.

Section SvmTyped.
Context {P : Profile} {BF : BitfieldMacro} {BT : BitFieldTrait} {XS : X86Segmentation} {XT : X86Task}
  {HV : HwVmsave} {Proc : Type} {OPS : PlatformOps Proc}.
Context (uefi : bool) (vmcb_addr host_vmcb_addr host_state_addr : Z -> Z) (npt_addr : Z)
  (shared_host : SharedHostData).
(** Addresses, the hidden parts VMSAVE stores and the shared data are typed. *)
Context (Hpa : forall a, in_width 64 a -> in_width 64 (pa a)) (Hnpt : in_width 64 npt_addr)
  (Haddr : forall id, in_width 64 (host_state_addr id))
  (Hhidden : forall m f, machine_typed true m -> in_width (save_width f) (hw_vmsave m f))
  (Hshared : shared_host_typed shared_host).
#[local] Abbreviation I native := (world_typed svm_rest native).
#[local] Abbreviation G := svm_guest_typed.

Lemma svm_rest_put_cpu m w : svm_rest w -> svm_rest (put_cpu m w).
Proof. done. Qed.

Lemma on_cpu_svm {A} native (Q : A -> Prop) (x : M Machine A) :
  yields (machine_typed native) Q x -> yields (I native) Q (on_cpu x).
Proof.
  intros Hx w a w' [Hm Hr] H. unfold on_cpu in H. destruct (x (get_cpu w)) as [[b m]|] eqn:E1; [|done].
  injection H as -> <-. by destruct (Hx _ _ _ Hm E1) as [Hm' Ha].
Qed.

(** *** Atomics and the nested page tables *)
Lemma yields_activity_load native id : yields (I native) (in_width 8) (activity_load id).
Proof.
  intros w v w' Hw H. unfold activity_load in H. destruct (activity_states w !! _) eqn:E; [|done]. injection H as <- <-.
  split; [done|]. destruct Hw as (_ & _ & Ha). by eapply Forall_lookup_1.
Qed.

Lemma yields_activity_swap native id new : in_width 8 new -> yields (I native) (in_width 8) (activity_swap id new).
Proof.
  intros Hn w v w' (Hm & Ht & Ha) H. unfold activity_swap in H. destruct (activity_states w !! _) eqn:E; [|done].
  injection H as <- <-. split; [|by eapply Forall_lookup_1]. split; [done|]. split; [done|]. by apply Forall_insert.
Qed.

Lemma yields_compare_exchange native id cur new : in_width 8 new ->
  yields (I native) (fun _ => True) (activity_compare_exchange id cur new).
Proof.
  intros Hn w v w' (Hm & Ht & Ha) H. unfold activity_compare_exchange in H.
  destruct (activity_states w !! _); [|done]. injection H as _ <-. split; [|done]. destruct (_ =? _); [|done].
  split; [done|]. split; [done|]. by apply Forall_insert.
Qed.

Lemma typed_intercept native enable g : G g -> yields (I native) G (intercept_apic_write enable g).
Proof.
  intros Hg. unfold intercept_apic_write. eapply yields_bind; [apply on_cpu_svm, yields_rdmsr|intros raw Hraw]. cbn zeta. eapply yields_bind.
  - apply yields_modify. intros w (Hm & (H1 & H2 & H3 & H4 & H5) & Ha). split; [done|]. split; [|done].
    split_and!; try done. cbn [npt set_npt pt_apic]. apply Forall_alter; [done|]. intros e _ He.
    unfold set_writable. width.
  - intros _ _. apply yields_ret, typed_control; [done|]. typed_list. width_const.
Qed.

(** *** Setup *)
Lemma typed_svm_new id : yields (I true) G (svm_new uefi vmcb_addr host_vmcb_addr host_state_addr id).
Proof.
  unfold svm_new. pass; [apply yields_activity_load|intros _ _]. cbn zeta.
  assert (G (mk_svm_guest id (fun _ => 0) Vmcb_default (pa (vmcb_addr id)) Vmcb_default (pa (host_vmcb_addr id))
    (host_state_addr id))) as Hg.
  { split; cbn [svm_registers vmcb host_vmcb host_state]; try apply typed_vmcb_default; [|apply Haddr].
    intros []; width_const. }
  apply yields_if; intros _; [by apply typed_intercept|by apply yields_ret].
Qed.

Lemma typed_svm_activate g : G g -> yields (I true) G (svm_activate g).
Proof.
  intros Hg. unfold svm_activate. pass; [|intros _ _; by apply yields_ret].
  apply on_cpu_svm, yields_wrmsr; [|by right]. apply Hpa, Hg.
Qed.

Lemma typed_svm_deactivate g : G g -> yields (I false) G (svm_deactivate g).
Proof.
  intros Hg. unfold svm_deactivate. pass; [|intros _ _; by apply yields_ret].
  apply on_cpu_svm, yields_wrmsr; [width_const|by right].
Qed.

Lemma typed_svm_load g : G g -> yields (I false) (fun _ => True) (svm_load_guest_cpu_state g).
Proof.
  intros Hg. pose proof (typed_saved g) as Hs. unfold svm_load_guest_cpu_state. apply on_cpu_svm.
  do 3 (pass; [apply yields_sys_write, Hs, Hg|intros _ _]).
  pass; [apply yields_wrmsr; [|by left]|intros _ _].
  { apply in_width_land_r; [done|width_const]. }
  do 2 (pass; [apply yields_wrmsr; [apply Hs, Hg|by left]|intros _ _]).
  pass; [apply yields_lgdt|intros _ _; apply yields_lidt]; (split; [first [exact (Hs s_gdtr_base Hg)|exact (Hs s_idtr_base Hg)]|apply wrap_range; done]).
Qed.

Lemma typed_initialize_control g : G g -> yields (I true) G (initialize_control npt_addr g).
Proof.
  intros Hg. unfold initialize_control. cbn zeta. pass; [apply on_cpu_svm, yields_rdmsr|intros v Hv].
  pass; [apply on_cpu_svm, yields_wrmsr; [width|by right]|intros _ _].
  pose proof (Hpa _ Hnpt). apply yields_ret, typed_control; [apply typed_control; [done|]|]; typed_list; width.
Qed.

Lemma typed_vmsave_area m v : machine_typed true m -> vmcb_typed v -> vmcb_typed (vmsave m v).
Proof.
  intros Hm Hv. unfold vmsave. apply typed_set_save; [exact Hv|]. apply Forall_forall.
  intros fv Hfv. apply list_elem_of_fmap in Hfv as (f & -> & _). by apply Hhidden.
Qed.

Lemma typed_vmsave g : G g -> yields (I true) G (let! m := gets svm_cpu in ret (set_vmcb (vmsave m) g)).
Proof.
  intros Hg. pass; [apply (yields_gets _ (machine_typed true)); by intros w []|intros m Hm]. apply yields_ret.
  destruct Hg. split; try done. by apply typed_vmsave_area.
Qed.

Lemma typed_initialize_guest g : G g -> yields (I true) G (initialize_guest g).
Proof.
  intros Hg. unfold initialize_guest. pass; [apply on_cpu_svm, yields_sidt|intros idtr [Hi1 Hi2]].
  pass; [apply on_cpu_svm, yields_sgdt|intros gdtr [Hg1 Hg2]]. cbn zeta.
  pass; [apply (yields_gets _ (machine_typed true)); by intros w []|intros m Hm].
  do 4 (pass; [apply (yields_lift _ (in_width 16)), access_right_width|intros ? ?]).
  do 4 (pass; [apply (yields_lift _ (in_width 32)), segment_limit_width|intros ? ?]).
  pass; [apply on_cpu_svm, yields_rdmsr|intros efer He]. pass; [apply on_cpu_svm, yields_sys_read|intros c0 Hc0].
  pass; [apply on_cpu_svm, yields_sys_read|intros c3 Hc3]. pass; [apply on_cpu_svm, yields_sys_read|intros c4 Hc4].
  pass; [apply on_cpu_svm, yields_rdmsr|intros pat Hpat]. apply typed_vmsave, typed_save; [done|].
  pose proof (mt_sys _ _ Hm) as Hsys. pose proof (typed_svm_reg g) as Hr.
  typed_list; try assumption.
  all: first [apply (Hsys ES)|apply (Hsys CS)|apply (Hsys SS)|apply (Hsys DS)|apply (Hr RIP Hg)|apply (Hr RSP Hg)
    |apply (Hr RFLAGS Hg)|apply (Hr RAX Hg)|width].
Qed.

Lemma typed_apply native addr g : in_width 64 addr -> (forall t, tr_sel g = Some t -> in_width 16 t) ->
  yields (machine_typed native) (fun _ => True) (apply addr g).
Proof.
  intros Ha Ht. unfold apply. pass; [apply yields_sys_read|intros t _].
  apply yields_if; intros _; [by apply yields_ret|].
  pass; [apply yields_lgdt; split; [done|apply wrap_range; done]|intros _ _].
  destruct (tr_sel g) as [t'|] eqn:E; [|by apply yields_ret].
  pass; [apply yields_sys_write; by apply Ht|intros _ _; by apply yields_ret].
Qed.

Lemma typed_host_gdt id : yields (I true) (fun _ => True) (match host_gdts shared_host with
  | Some gdts =>
      let! (addr, gdt) := lift (unwrap (gdts !! Z.to_nat id) "index out of bounds") in
      let! r := on_cpu (apply addr gdt) in
      match r with ROk _ => ret tt | RErr _ => mpanic "apply().unwrap()" end
  | None => ret tt
  end).
Proof.
  destruct (host_gdts shared_host) as [gdts|] eqn:E; [|by apply yields_ret].
  pass; [apply (yields_lift _ (fun ag => ag ∈ gdts))|intros [addr gt] Hin].
  - intros ag H. unfold unwrap in H. destruct (gdts !! _) eqn:El; [|done]. injection H as ->. by eapply list_elem_of_lookup_2.
  - destruct Hshared as (_ & _ & Hg). destruct (Hg _ _ _ E Hin) as [Ha Ht].
    pass; [by apply on_cpu_svm, typed_apply|]. intros [[]|e] _; [by apply yields_ret|apply yields_mpanic].
Qed.

Lemma typed_initialize_host g : G g -> yields (I true) G (initialize_host shared_host g).
Proof.
  intros Hg. unfold initialize_host. destruct Hshared as (Hpt & Hidt & _).
  pass; [|intros _ _; pass; [apply typed_host_gdt|intros _ _; pass; [|intros _ _]]].
  - destruct (host_pt shared_host) as [a|] eqn:E; [|by apply (yields_ret _ (fun _ => True))].
    apply on_cpu_svm, yields_sys_write, Hpa. by apply Hpt.
  - destruct (host_idt shared_host) as [[a idt]|] eqn:E; [|by apply (yields_ret _ (fun _ => True))].
    destruct (Hidt _ _ eq_refl) as [Ha Hl].
    pass; [apply (yields_lift _ dtp_typed); intros p; by apply idtr_typed|intros p Hp]. by apply on_cpu_svm, yields_lidt.
  - pass; [apply (yields_gets _ (machine_typed true)); by intros w []|intros m Hm]. apply yields_ret.
    destruct Hg. split; try done. by apply typed_vmsave_area.
Qed.

Lemma typed_svm_initialize r g : regs_typed r -> G g -> yields (I true) G (svm_initialize npt_addr shared_host r g).
Proof.
  intros Hr Hg. unfold svm_initialize. cbn zeta.
  pass; [apply typed_initialize_control; by apply typed_set_svm_registers|intros g1 H1].
  pass; [by apply typed_initialize_guest|intros g2 H2]. by apply typed_initialize_host.
Qed.

(** *** Exits *)
Lemma typed_handle_init_signal g : G g -> yields (I false) G (handle_init_signal g).
Proof.
  intros Hg. unfold handle_init_signal. pass; [apply yields_massert|intros _ _].
  pass; [apply yields_activity_swap; width_const|intros prev _]. pass; [apply yields_massert|intros _ _].
  pass; [apply on_cpu_svm, yields_sys_read|intros c0 _]. cbn zeta.
  pass; [apply on_cpu_svm, yields_cpuid|intros leaf (Ha & _)].
  pass; [apply on_cpu_svm, yields_set_sys; typed_list; width_const|intros _ _]. apply yields_ret.
  apply typed_control; [apply typed_save; [apply typed_assign_registers; [apply typed_save;
    [apply typed_assign_registers; [apply typed_save; [exact Hg|]|]|]|]|]|]; typed_list; try width.
  all: apply (in_width_shiftl 1); [done|by apply in_width_b2z|done|done].
Qed.

Lemma typed_wait_for_sipi id others :
  Forall (fun f => forall w, I false w -> I false (f w)) others -> yields (I false) (in_width 8) (wait_for_sipi id others).
Proof.
  induction 1 as [|f others Hf _ IH]; cbn [wait_for_sipi]; (pass; [apply yields_activity_load|intros st _]);
    (apply yields_if; intros _; [|apply yields_activity_swap; width_const]).
  - apply yields_mpanic.
  - pass; [by apply yields_modify|intros _ _]. exact IH.
Qed.

Lemma typed_handle_sipi v g : in_width 8 v -> G g -> yields (I false) G (handle_sipi v g).
Proof.
  intros Hv Hg. unfold handle_sipi. pass; [apply yields_massert|intros _ _].
  pass; [apply yields_activity_load|intros st _]. pass; [apply yields_massert|intros _ _]. apply yields_ret.
  apply typed_assign_registers; [apply typed_save; [done|]|]; typed_list; try width.
  by apply (in_width_shiftl 8).
Qed.

Lemma typed_security_exception others g : Forall (fun f => forall w, I false w -> I false (f w)) others -> G g ->
  yields (I false) G (handle_security_exception others g).
Proof.
  intros Ho Hg. unfold handle_security_exception. pass; [apply yields_massert|intros _ _].
  pass; [by apply typed_handle_init_signal|intros g1 Hg1].
  pass; [|intros v Hv; by apply typed_handle_sipi].
  pass; [apply yields_massert|intros _ _]. by apply typed_wait_for_sipi.
Qed.

Lemma yields_apic_write a v : in_width 32 v -> yields (I false) (fun _ => True) (apic_write a v).
Proof.
  intros Hv. apply on_cpu_svm, yields_modify. intros m []. split; try done. intros x. cbn. by destruct (x =? a).
Qed.

Lemma yields_emulate_sipi value gpa : yields (I false) (fun _ => True) (emulate_sipi value gpa).
Proof.
  unfold emulate_sipi. do 2 (pass; [apply yields_massert|intros _ _]). cbn zeta.
  pass; [apply (on_cpu_svm _ (fun _ => True)), yields_gets; done|intros hi _].
  pass; [apply (yields_gets _ (fun _ => True)); done|intros found _].
  pass; [apply (yields_lift _ (fun _ => True)); done|intros target _].
  pass; [apply yields_massert|intros _ _]. apply yields_compare_exchange. apply wrap_range. done.
Qed.

Lemma typed_npf g : G g -> yields (I false) G (handle_nested_page_fault g).
Proof.
  intros Hg. unfold handle_nested_page_fault. pass; [apply (yields_gets _ (fun _ => True)); done|intros count _].
  pass; [apply (yields_lift _ (fun _ => True)); done|intros last _].
  pass; [apply (yields_if _ G); intros _; [by apply typed_intercept|by apply yields_ret]|intros g1 Hg1]. cbn zeta.
  pass; [apply (yields_lift _ (fun vl => in_width 32 vl.1))|intros [value len] Hv].
  { intros [v l] H. unfold unwrap in H. destruct (decode_apic_write _ _) eqn:E; [|done]. injection H as ->.
    by apply decode_width in E. }
  pass; [apply (yields_lift _ (in_width 64)); intros rip; by apply arith_width|intros rip Hrip]. cbn [fst] in Hv.
  pass; [|intros _ _; apply yields_ret, typed_assign_registers; [done|by typed_list]].
  apply yields_if; intros _; [by apply yields_apic_write|apply yields_emulate_sipi].
Qed.

Lemma typed_svm_entry g : G g -> G (svm_entry g).
Proof. intros Hg. pose proof (typed_svm_reg g) as Hr. apply typed_save; [done|].
  typed_list; [exact (Hr RAX Hg)|exact (Hr RIP Hg)|exact (Hr RSP Hg)|exact (Hr RFLAGS Hg)].
Qed.

Lemma typed_svm_run e g : svm_event_typed e -> G g ->
  yields (I false) (fun rg => reason_typed rg.1 /\ G rg.2) (svm_run e g).
Proof.
  intros [He Hw] Hg. apply typed_svm_entry in Hg. unfold svm_run. cbn zeta. pass.
  { intros w g1 w1 Hw1 H. destruct (guest_execution e _ _ w) as [[r v] w2] eqn:E. injection H as <- <-.
    destruct Hg as [Hr Hv Hh Hs]. destruct (He _ _ _ _ _ _ Hr Hv Hw1 E) as (Hr' & Hv' & Hw').
    split; [done|]. instantiate (1 := G). by split. }
  intros g1 Hg1. set (g2 := control _ _).
  assert (G g2) as Hg2.
  { pose proof (typed_saved g1) as Hs. apply typed_control; [apply typed_assign_registers; [done|]|]; typed_list; try width.
    - exact (Hs s_rax Hg1).
    - exact (Hs s_rip Hg1).
    - exact (Hs s_rsp Hg1).
    - exact (Hs s_rflags Hg1). }
  apply yields_if; intros _; [pass; [by apply typed_security_exception|intros g3 Hg3; by apply yields_ret]|].
  apply yields_if; intros _; [apply yields_ret; split; [exact (typed_controls g2 c_nrip Hg2)|done]|].
  apply yields_if; intros _; [apply yields_ret; split; [exact (typed_controls g2 c_nrip Hg2)|done]|].
  apply yields_if; intros _; [pass; [by apply typed_npf|intros g3 Hg3; by apply yields_ret]|apply yields_mpanic].
Qed.
End SvmTyped.

(** ** Intel *)
Definition vmx_guest_typed (g : VmxGuest) : Prop := regs_typed (vmx_registers g).

(** The shared tables are not restricted. *)
Definition vmx_rest (w : VmxWorld) : Prop := True.

(** The exit qualification of a SIPI is a vector. *)
Definition sipi_vector_typed (m : Machine) : Prop := forall p, current_vmcs m = Some p ->
  wrap 16 (vmcs_data m p ro_EXIT_REASON) = VMX_EXIT_REASON_SIPI -> in_width 8 (vmcs_data m p ro_EXIT_QUALIFICATION).

Definition vmx_event_typed (e : VmxEvent) : Prop :=
  forall r w r' flags w', regs_typed r -> world_typed vmx_rest false w -> e r w = (r', flags, w') ->
    regs_typed r' /\ world_typed vmx_rest false w' /\ sipi_vector_typed (vmx_cpu w').

Lemma typed_vmx_assign l g : vmx_guest_typed g -> Forall (fun fv => in_width (reg_width fv.1) fv.2) l ->
  vmx_guest_typed (vmx_assign l g).
Proof. intros Hg Hl r. by apply (assign_typed reg_width). Qed.

Lemma yields_mmap {St A B} (I : St -> Prop) (f : A -> M St B) l :
  (forall a, yields I (fun _ => True) (f a)) -> yields I (fun _ => True) (mmap f l).
Proof.
  intros Hf. induction l as [|a l IH]; cbn [mmap]; [by apply yields_ret|].
  pass; [apply Hf|intros b _]. pass; [exact IH|intros bs _]. by apply yields_ret.
Qed.

Lemma yields_Mtrr_new {P : Profile} bsf_zero : yields (machine_typed true) (fun _ => True) (Mtrr_new bsf_zero).
Proof.
  unfold Mtrr_new, RawMtrrs_new. pass.
  { pass; [apply yields_rdmsr|intros dt _]. do 2 (pass; [apply yields_massert|intros _ _]).
    pass; [apply (yields_lift _ (fun _ => True)); done|intros ty _].
    pass; [apply yields_mmap; intros a; eapply yields_any, yields_rdmsr|intros fixed _].
    pass; [apply yields_rdmsr|intros cap _]. cbn zeta.
    pass; [apply yields_mmap; intros [b k]|intros v _; by apply (yields_ret _ (fun _ => True))].
    pass; [apply yields_rdmsr|intros base _]. pass; [apply yields_rdmsr|intros mask _]. by apply yields_ret. }
  intros raw _. do 2 (pass; [apply (yields_lift _ (fun _ => True)); done|intros ? _]). by apply yields_ret.
Qed.

Section VmxTyped.
Context {P : Profile} {BF : BitfieldMacro} {BT : BitFieldTrait} {XS : X86Segmentation} {XT : X86Task}
  {XC : X86Cr0} {XI : X86CpuId} {Proc : Type} {OPS : PlatformOps Proc}.
Context (bsf_zero vmxon_addr : Z) (vmcs_addr : Z -> Z) (bitmaps_addr epts_addr : Z) (tss_addr : Z -> Z)
  (shared_host : SharedHostData).
(** Addresses and the shared data are typed; the extended model is a byte. *)
Context (Hpa : forall a, in_width 64 a -> in_width 64 (pa a)) (Hbitmaps : in_width 64 bitmaps_addr)
  (Hepts : in_width 64 epts_addr) (Htss : forall id, in_width 64 (tss_addr id))
  (Hmodel : forall f v, extended_model_id f = Some v -> in_width 8 v)
  (Hshared : shared_host_typed shared_host).
#[local] Abbreviation IM := machine_typed.
#[local] Abbreviation I native := (world_typed vmx_rest native).

Lemma on_cpu_vmx {A} native (Q : A -> Prop) (x : M Machine A) :
  yields (IM native) Q x -> yields (I native) Q (on_cpu x).
Proof.
  intros Hx w a w' [Hm Hr] H. unfold on_cpu in H. destruct (x (get_cpu w)) as [[b m]|] eqn:E1; [|done].
  injection H as -> <-. by destruct (Hx _ _ _ Hm E1) as [Hm' Ha].
Qed.

(** *** Control registers and controls *)
Lemma yields_adjusted native i0 i1 cr : in_width 64 cr ->
  yields (IM native) (in_width 64) (let! fixed0 := rdmsr i0 in let! fixed1 := rdmsr i1 in ret (Z.lor (Z.land cr fixed1) fixed0)).
Proof. intros Hc. pass; [apply yields_rdmsr|intros f0 H0]. pass; [apply yields_rdmsr|intros f1 H1]. apply yields_ret. width. Qed.

Lemma yields_guest_cr0 native cr : in_width 64 cr -> yields (IM native) (in_width 64) (get_adjusted_guest_cr0 cr).
Proof.
  intros Hc. unfold get_adjusted_guest_cr0. pass; [by apply yields_adjusted|intros c Hc'].
  pass; [apply yields_vmread|intros ctl _]. cbn zeta. apply yields_ret. destruct (negb _); [|done]. width.
Qed.

Lemma yields_adjust_control native c v : c <> ProcessorBased3 -> yields (IM native) (in_width 32) (adjust_vmx_control c v).
Proof.
  intros Hc. unfold adjust_vmx_control. pass; [apply yields_rdmsr|intros basic _]. cbn zeta.
  assert (forall cap, yields (IM native) (in_width 32) (let! capabilities := rdmsr cap in
    let allowed0 := wrap 32 capabilities in let allowed1 := wrap 32 (Z.shiftr capabilities 32) in
    massert (v <? 2 ^ 32) "u32::try_from(requested_value).unwrap()" ;;! ret (Z.land (Z.lor v allowed0) allowed1))) as Hcap.
  { intros cap. pass; [apply yields_rdmsr|intros caps _]. cbn zeta. pass; [apply yields_massert|intros _ _].
    apply yields_ret, in_width_land_r; [done|]. by apply wrap_range. }
  destruct c; first [apply Hcap|done].
Qed.

Lemma typed_vmx_enable vt : in_width 64 (vmx_cr4 vt) -> yields (IM true) (fun vt => in_width 64 (vmx_cr4 vt)) (vmx_enable vt).
Proof.
  intros Hvt. unfold vmx_enable. pass; [apply yields_sys_read|intros c0 Hc0]. pass; [apply yields_sys_read|intros c4 Hc4].
  cbn zeta. cbn [sys_width] in Hc0, Hc4.
  pass; [by apply yields_adjusted|intros n4 H4]. pass; [by apply yields_adjusted|intros n0 Hn0].
  do 2 (pass; [by apply yields_sys_write|intros _ _]).
  pass; [|intros _ _; pass; [apply yields_vmxon|intros _ _; by apply yields_ret]].
  unfold update_feature_control_msr. pass; [apply yields_rdmsr|intros fc Hfc].
  apply yields_if; intros _; [apply yields_wrmsr; [width|by right]|by apply yields_ret].
Qed.

(** *** Segments *)
Lemma segment_base_width gdtr sel m b m' : IM true m -> segment_base gdtr sel m = Ok (b, m') -> m' = m /\ in_width 64 b.
Proof.
  intros Hm H. unfold segment_base in H. apply obind_ok in H as ([d|e] & Ht & H); [|done].
  apply obind_ok in H as (b' & Hb & H). injection H as -> <-. split; [done|].
  assert (exists a, low64 d = mem m a) as (a & Ha).
  { unfold try_from_gdtr in Ht. destruct (sel_is_ldt sel); [done|]. destruct (_ =? 0); [done|].
    apply obind_ok in Ht as (gdt & Hgdt & Ht). apply obind_ok in Hgdt as (size & _ & Hgdt). injection Hgdt as <-.
    destruct (_ !! _) as [raw|] eqn:E; [|done]. apply list_lookup_fmap_Some in E as (i & -> & _).
    exists (dtp_base gdtr + 8 * Z.of_nat i). destruct (is_16byte _); [|by injection Ht as <-].
    destruct (_ !! _) as [raw2|]; [|done]. destruct (raw2 <? 2 ^ 32); [by injection Ht as <-|done]. }
  unfold descriptor_base in Hb. apply obind_ok in Hb as (lo & Hlo & Hb).
  rewrite Ha, raw_base_spec in Hlo by (by eapply mt_mem). injection Hlo as <-.
  pose proof (in_width_mono 32 64 _ (spec_base_width (mem m a)) ltac:(done)) as Hw.
  destruct (upper_base d); injection Hb as <-; width.
Qed.

Lemma yields_segment_base gdtr sel : yields (IM true) (in_width 64) (segment_base gdtr sel).
Proof. intros m b m' Hm H. by destruct (segment_base_width _ _ _ _ _ Hm H) as [-> Hb]. Qed.

Lemma access_rights_width a : in_width 32 a -> in_width 32 (access_rights a).
Proof. intros Ha. unfold access_rights. destruct (a =? 0); width. Qed.

Lemma yields_segment_lsl r : yields (IM true) (in_width 32) (segment_lsl r).
Proof. unfold segment_lsl. pass; [apply yields_sys_read|intros s _]. apply yields_lsl. Qed.

Lemma yields_segment_rights r : yields (IM true) (in_width 32) (segment_rights r).
Proof.
  unfold segment_rights. pass; [apply yields_sys_read|intros s _]. pass; [apply yields_lar|intros a Ha].
  by apply yields_ret, access_rights_width.
Qed.

Lemma yields_host_selector r : sys_width r = 16 -> yields (IM true) (in_width 16) (host_selector r).
Proof.
  intros Hr. unfold host_selector. pass; [apply yields_sys_read|intros s Hs]. rewrite Hr in Hs. apply yields_ret. width.
Qed.

(** *** Setup *)

(** The values of a block of VMWRITEs that are given, not read. *)
Lemma yields_given native f v : in_width (vmcs_width f) v -> yields (IM native) (in_width (vmcs_width f)) (ret v).
Proof. apply yields_ret. Qed.

(** A read whose width is known, into a field at least as wide. *)
Lemma yields_into native f v (x : M Machine Z) : yields (IM native) (in_width v) x -> v <= vmcs_width f ->
  yields (IM native) (in_width (vmcs_width f)) x.
Proof. intros Hx Hv. eapply yields_weaken; [exact Hx|]. intros a Ha. by apply (in_width_mono v). Qed.

Lemma yields_shared_guest : yields (I true) (fun _ => True) (shared_guest_data bsf_zero epts_addr).
Proof.
  intros w e w' [Hm Hr] H. unfold shared_guest_data in H. destruct (shared_guest w); [by injection H as _ <-|].
  apply obind_ok in H as ([mtrr m] & Hn & H). apply obind_ok in H as (epts & _ & H). injection H as _ <-.
  by destruct (yields_Mtrr_new _ _ _ _ Hm Hn) as [Hm' _].
Qed.

Lemma eptp_width : in_width 64 (eptp epts_addr).
Proof.
  unfold eptp, set_page_levels_minus_one, eptp_set_memory_type, eptp_set_pfn.
  apply bf_set_width; [done..| |done]. apply bf_set_width; [done..| |done]. apply bf_set_width; [done..|width_const|].
  apply Z.shiftr_nonneg. by apply Hpa.
Qed.

Lemma typed_initialize_control_vmx : yields (I true) (fun _ => True) (vmx_initialize_control bsf_zero bitmaps_addr epts_addr).
Proof.
  unfold vmx_initialize_control. pass; [apply on_cpu_vmx, yields_vmwrites|intros _ _].
  { typed_list; by apply yields_adjust_control. }
  pass; [apply yields_shared_guest|intros epts _]. apply on_cpu_vmx, yields_vmwrites.
  typed_list; apply yields_given; [by apply Hpa|apply eptp_width].
Qed.

Lemma typed_initialize_guest_vmx g : vmx_guest_typed g -> yields (IM true) (fun _ => True) (vmx_initialize_guest g).
Proof.
  intros Hg. unfold vmx_initialize_guest. pass; [apply yields_sidt|intros idtr [Hi1 Hi2]].
  pass; [apply yields_sgdt|intros gdtr [Hg1 Hg2]]. apply yields_vmwrites.
  typed_list; first
    [ apply yields_segment_lsl | apply yields_segment_rights
    | apply (yields_rdmsr_sysenter true eq_refl) | apply yields_rdmsr
    | match goal with |- yields _ _ (sys_read ?r) => apply (yields_sys_read true r) end
    | apply (yields_sys_read true TR) | apply (yields_sys_read true LDTR)
    | apply (yields_sys_read true CR0) | apply (yields_sys_read true CR3) | apply (yields_sys_read true CR4)
    | apply yields_given; first [exact (Hg RSP) | exact (Hg RIP) | exact (Hg RFLAGS)]
    | apply yields_given; by apply access_rights_width
    | apply yields_given; width
    | idtac ].
  pass; [apply yields_sys_read|intros t _]. apply yields_segment_base.
Qed.

Lemma typed_host_gdt_tr_tss id : yields (IM true)
  (fun r => in_width 64 r.1.1 /\ in_width 16 r.1.2 /\ in_width 64 r.2) (host_gdt_tr_tss tss_addr shared_host id).
Proof.
  unfold host_gdt_tr_tss. destruct (host_gdts shared_host) as [gdts|] eqn:E.
  - pass; [apply (yields_lift _ (fun ag => ag ∈ gdts))|intros [addr gt] Hin].
    { intros ag H. unfold unwrap in H. destruct (gdts !! _) eqn:El; [|done]. injection H as ->. by eapply list_elem_of_lookup_2. }
    destruct Hshared as (_ & _ & Hgd). destruct (Hgd _ _ _ E Hin) as [Ha Ht].
    pass; [apply yields_massert|intros _ _]. pass; [apply (yields_lift _ (in_width 16))|intros t Hw].
    { intros t H. unfold unwrap in H. destruct (tr_sel gt) eqn:El; [|done]. injection H as <-. by apply Ht. }
    pass; [apply (yields_lift _ (fun _ => True)); done|intros ts _].
    apply yields_ret. split_and!; [done..|apply Htss].
  - pass; [apply yields_sgdt|intros gdtr [Hg1 Hg2]]. pass; [apply yields_sys_read|intros t Ht].
    pass; [apply yields_segment_base|intros b Hb]. by apply yields_ret.
Qed.

Lemma typed_initialize_host_vmx g : yields (IM true) (fun _ => True) (vmx_initialize_host tss_addr shared_host g).
Proof.
  unfold vmx_initialize_host. destruct Hshared as (Hpt & Hidt & _). pass.
  { destruct (host_pt shared_host) as [a|] eqn:E; [apply yields_ret; by apply Hpt|apply (yields_sys_read true CR3)]. }
  intros c3 Hc3. cbn [sys_width] in Hc3. pass; [apply typed_host_gdt_tr_tss|intros [[gb t] tb] (H1 & H2 & H3)].
  cbn [fst snd] in *. pass.
  { instantiate (1 := in_width 64). destruct (host_idt shared_host) as [[a idt]|] eqn:E.
    - destruct (Hidt _ _ eq_refl) as [Ha Hl].
      pass; [apply (yields_lift _ dtp_typed); intros p; by apply idtr_typed|intros p [Hp _]]. by apply yields_ret.
    - pass; [apply yields_sidt|intros p [Hp _]]. by apply yields_ret. }
  intros ib Hib. apply yields_vmwrites.
  typed_list; first
    [ by apply yields_host_selector | apply yields_rdmsr
    | apply (yields_sys_read true CR0) | apply (yields_sys_read true CR4)
    | apply yields_given; width ].
Qed.

Lemma typed_vmx_initialize r g : regs_typed r -> vmx_guest_typed g ->
  yields (I true) vmx_guest_typed (vmx_initialize bsf_zero bitmaps_addr epts_addr tss_addr shared_host r g).
Proof.
  intros Hr Hg. unfold vmx_initialize. cbn zeta. pass; [apply typed_initialize_control_vmx|intros _ _].
  pass; [by apply on_cpu_vmx, typed_initialize_guest_vmx|intros _ _].
  pass; [by apply on_cpu_vmx, typed_initialize_host_vmx|intros _ _]. by apply yields_ret.
Qed.

(** *** Exits *)
Lemma typed_vmx_init g : vmx_guest_typed g -> yields (IM false) vmx_guest_typed (vmx_handle_init_signal g).
Proof.
  intros Hg. unfold vmx_handle_init_signal. cbn zeta. rewrite rights_code, rights_data, rights_ldt, rights_tss.
  set (g1 := vmx_assign [(RFLAGS, FLAGS_A1)] g).
  assert (vmx_guest_typed g1) as H1 by (apply typed_vmx_assign; [done|typed_list; width]).
  pass; [apply yields_vmwrites; typed_list; apply yields_given; exact (H1 RFLAGS)|intros _ _].
  set (g2 := vmx_assign [(RIP, 0xfff0)] g1).
  assert (vmx_guest_typed g2) as H2 by (apply typed_vmx_assign; [done|typed_list; width]).
  pass; [apply yields_vmwrites; typed_list; apply yields_given; exact (H2 RIP)|intros _ _].
  pass; [apply yields_sys_write; width|intros _ _].
  pass; [apply yields_vmwrites|intros _ _].
  { typed_list; first [apply yields_given; width | apply yields_guest_cr0; width | apply yields_adjusted; width]. }
  pass; [apply (yields_gets _ (fun _ => True)); done|intros m _].
  pass; [apply (yields_lift _ (in_width 8))|intros model Hm].
  { intros v H. unfold unwrap in H. destruct (extended_model_id _) eqn:E; [|done]. injection H as <-. by eapply Hmodel. }
  match goal with |- context [vmx_assign ?l g2] => set (g3 := vmx_assign l g2) end.
  assert (vmx_guest_typed g3) as H3.
  { apply typed_vmx_assign; [done|]. typed_list; width. by apply (in_width_shiftl 8). }
  pass; [apply yields_vmwrites|intros _ _].
  { typed_list; apply yields_given; first [exact (H3 RSP)|width]. }
  pass; [apply yields_set_sys; typed_list; width|intros _ _].
  pass; [apply yields_vmwrites; typed_list; apply yields_given; width|intros _ _].
  pass; [apply (yields_vmread false control_VMENTRY_CONTROLS)|intros ctl Hctl].
  pass; [apply yields_vmwrites|intros _ _].
  { typed_list; apply yields_given; [|width]. by apply in_width_land_l. }
  apply yields_ret, typed_vmx_assign; [done|]. typed_list; width.
Qed.

Lemma typed_vmx_next_rip g : yields (IM false) (in_width 64) (vmx_next_rip g).
Proof.
  unfold vmx_next_rip. pass; [apply yields_vmread|intros len _]. apply yields_lift. intros n. by apply arith_width.
Qed.

Lemma vmread_value f m v m' : vmread f m = Ok (v, m') ->
  m' = m /\ exists p, current_vmcs m = Some p /\ v = vmcs_data m p f.
Proof. unfold vmread. destruct (current_vmcs m) as [p|]; [|done]. intros [= <- <-]. eauto. Qed.

(** With a vector in the exit qualification, the code segment fits. *)
Lemma typed_vmx_sipi g m g' m' : IM false m -> vmx_guest_typed g ->
  (forall p, current_vmcs m = Some p -> in_width 8 (vmcs_data m p ro_EXIT_QUALIFICATION)) ->
  vmx_handle_sipi_signal g m = Ok (g', m') -> IM false m' /\ vmx_guest_typed g'.
Proof.
  intros Hm Hg Hq H. unfold vmx_handle_sipi_signal in H. apply bind_ok in H as (v & m1 & Hv & H).
  apply vmread_value in Hv as (-> & p & Hp & ->). specialize (Hq p Hp). revert H.
  set (g1 := vmx_assign [(RIP, 0)] g).
  assert (vmx_guest_typed g1) as H1 by (apply typed_vmx_assign; [done|typed_list; width]).
  cut (yields (IM false) vmx_guest_typed (vmwrites [(guest_CS_SELECTOR, ret (wrap 64 (Z.shiftl (vmcs_data m p ro_EXIT_QUALIFICATION) 8)));
            (guest_CS_BASE, ret (wrap 64 (Z.shiftl (vmcs_data m p ro_EXIT_QUALIFICATION) 12)))] ;;!
     vmwrites [(guest_RIP, ret (vmx_registers g1 RIP)); (guest_ACTIVITY_STATE, ret ActivityActive)] ;;! ret g1)).
  { intros Hy. exact (Hy m g' m' Hm). }
  pass; [apply yields_vmwrites|intros _ _].
  { typed_list; apply yields_given; [|width].
    assert (in_width 16 (Z.shiftl (vmcs_data m p ro_EXIT_QUALIFICATION) 8)) as Hs by (by apply (in_width_shiftl 8)).
    rewrite wrap_small; [exact Hs|]. by apply (in_width_mono 16). }
  pass; [apply yields_vmwrites|intros _ _].
  { typed_list; apply yields_given; [exact (H1 RIP)|width]. }
  by apply yields_ret.
Qed.

Lemma typed_vmx_exit g m rg m' : IM false m -> sipi_vector_typed m -> vmx_guest_typed g ->
  vmx_exit g m = Ok (rg, m') -> IM false m' /\ reason_typed rg.1 /\ vmx_guest_typed rg.2.
Proof.
  intros Hm Hs Hg H. unfold vmx_exit in H.
  apply bind_ok in H as (rip & m1 & Hv & H). apply vmread_value in Hv as (-> & p & Hp & ->).
  apply bind_ok in H as (rsp & m1 & Hv & H). apply vmread_value in Hv as (-> & p1 & Hp1 & ->).
  apply bind_ok in H as (rfl & m1 & Hv & H). apply vmread_value in Hv as (-> & p2 & Hp2 & ->). cbn zeta in H.
  apply bind_ok in H as (er & m1 & Hv & H). apply vmread_value in Hv as (-> & p3 & Hp3 & ->).
  assert (p3 = p) as -> by congruence. revert H. match goal with |- context [vmx_assign ?l g] => set (g1 := vmx_assign l g) end.
  assert (vmx_guest_typed g1) as H1.
  { pose proof (fun p => vmcs_data_typed false m p Hm) as Hd. apply typed_vmx_assign; [done|].
    typed_list; [exact (Hd p guest_RIP)|exact (Hd p1 guest_RSP)|exact (Hd p2 guest_RFLAGS)]. }
  assert (forall c, (forall n, in_width 64 n -> reason_typed (c n)) ->
    (let! n := vmx_next_rip g1 in ret (c n, g1)) m = Ok (rg, m') -> IM false m' /\ reason_typed rg.1 /\ vmx_guest_typed rg.2)
    as Hnext.
  { intros c Hc H. apply bind_ok in H as (n & m1 & Hn & H). injection H as <- <-.
    destruct (typed_vmx_next_rip g1 _ _ _ Hm Hn) as [Hm1 Hw]. split_and!; [done|by apply Hc|done]. }
  destruct (_ =? VMX_EXIT_REASON_INIT).
  { intros H. apply bind_ok in H as (g2 & m1 & Hi & H). injection H as <- <-.
    by destruct (typed_vmx_init g1 H1 _ _ _ Hm Hi). }
  destruct (Z.eqb_spec (wrap 16 (vmcs_data m p ro_EXIT_REASON)) VMX_EXIT_REASON_SIPI) as [Er|_].
  { intros H. apply bind_ok in H as (g2 & m1 & Hi & H). injection H as <- <-.
    apply (typed_vmx_sipi g1 m) in Hi as [Hm1 Hg2]; [done..|]. intros p' Hp'. rewrite Hp in Hp'. injection Hp' as <-. by apply Hs. }
  do 5 (destruct (_ =? _); [intros H; eapply Hnext; [|exact H]; done|]). done.
Qed.

Lemma typed_vmx_entry g : vmx_guest_typed g -> yields (IM false) (fun _ => True) (vmx_entry g).
Proof.
  intros Hg. apply yields_vmwrites. typed_list; apply yields_given; [exact (Hg RIP)|exact (Hg RSP)|exact (Hg RFLAGS)].
Qed.

Lemma typed_vmx_run e g : vmx_event_typed e -> vmx_guest_typed g ->
  yields (I false) (fun rg => reason_typed rg.1 /\ vmx_guest_typed rg.2) (vmx_run e g).
Proof.
  intros He Hg w rg w' Hw H. unfold vmx_run in H. apply bind_ok in H as ([] & w1 & Hen & H).
  destruct (on_cpu_vmx false _ _ (typed_vmx_entry g Hg) _ _ _ Hw Hen) as [Hw1 _].
  apply bind_ok in H as ([flags g1] & w2 & Hev & H). destruct (e (vmx_registers g) w1) as [[r fl] w3] eqn:E.
  injection Hev as -> <- <-. destruct (He _ _ _ _ _ Hg Hw1 E) as (Hr & Hw3 & Hs).
  apply bind_ok in H as (res & w4 & Hsu & H).
  assert (w4 = w3) as ->.
  { unfold on_cpu, vmx_succeed in Hsu. destruct (_ =? FLAGS_ZF).
    - unfold bind in Hsu. destruct (vmread _ _) as [[v m]|] eqn:Ev; [|done]. apply vmread_value in Ev as (-> & _).
      injection Hsu as _ <-. by destruct w3.
    - destruct (_ =? FLAGS_CF); injection Hsu as _ <-; by destruct w3. }
  destruct res as [[]|[err|]]; [|done..]. unfold on_cpu in H.
  destruct (vmx_exit _ _) as [[rg' m']|] eqn:Ex; [|done]. injection H as -> <-.
  destruct Hw3 as [Hm3 _]. apply typed_vmx_exit in Ex as (Hm' & Hreason & Hg'); [|done..]. done.
Qed.

Lemma typed_vmx_load g : yields (I false) (fun _ => True) (vmx_load_guest_cpu_state g).
Proof.
  unfold vmx_load_guest_cpu_state. apply on_cpu_vmx.
  pass; [pass; [apply (yields_vmread false guest_CR3)|intros v Hv; by apply yields_sys_write]|intros _ _].
  pass; [pass; [apply (yields_vmread false guest_CR0)|intros v Hv; by apply yields_sys_write]|intros _ _].
  pass; [pass; [apply (yields_vmread false guest_CR4)|intros v Hv; by apply yields_sys_write]|intros _ _].
  pass; [pass; [apply (yields_vmread false guest_FS_BASE)|intros v Hv; apply yields_wrmsr; [done|by left]]|intros _ _].
  pass; [pass; [apply (yields_vmread false guest_GS_BASE)|intros v Hv; apply yields_wrmsr; [done|by left]]|intros _ _].
  pass; [|intros _ _]; (pass; [first [apply (yields_vmread false guest_GDTR_BASE)|apply (yields_vmread false guest_IDTR_BASE)]|intros b Hb]);
    (pass; [apply yields_vmread|intros l _]); first [apply yields_lgdt|apply yields_lidt]; (split; [done|by apply wrap_range]).
Qed.
End VmxTyped.

(** ** The interface, for both and in one world *)
Section Instances.
Context {P : Profile} {BF : BitfieldMacro} {BT : BitFieldTrait} {XS : X86Segmentation} {XT : X86Task}
  {XC : X86Cr0} {XI : X86CpuId} {HV : HwVmsave} {OPS : PlatformOps nat}.
Context (uefi : bool) (bsf_zero vmxon_addr : Z) (vmcs_addr vmcb_addr host_vmcb_addr host_state_addr : Z -> Z)
  (npt_addr bitmaps_addr epts_addr : Z) (tss_addr : Z -> Z) (d : SharedHostData).

(** What is outside the model is typed: addresses have 64 bits, VMSAVE stores
    values of the fields' widths, the extended model is a byte. *)
Record environment_typed : Prop := {
  env_pa : forall a, in_width 64 a -> in_width 64 (pa a);
  env_npt : in_width 64 npt_addr;
  env_host_state : forall id, in_width 64 (host_state_addr id);
  env_bitmaps : in_width 64 bitmaps_addr;
  env_epts : in_width 64 epts_addr;
  env_tss : forall id, in_width 64 (tss_addr id);
  env_hidden : forall m f, machine_typed true m -> in_width (save_width f) (hw_vmsave m f);
  env_model : forall f v, extended_model_id f = Some v -> in_width 8 v;
  env_shared : shared_host_typed d;
}.

Context (Henv : environment_typed).

#[refine] Definition svm_typed : Typed (GI := svm_guest uefi vmcb_addr host_vmcb_addr host_state_addr npt_addr d)
    (XI := svm_extension) SvmWorld SvmGuest SvmEvent Svm := {|
  rest_typed := svm_rest; guest_typed := svm_guest_typed; vt_typed vt := in_width 64 (saved_efer vt);
  event_typed := svm_event_typed |}.
Proof.
  all: destruct Henv.
  - done.
  - intros g Hg. apply Hg.
  - exact typed_set_svm_registers.
  - apply yields_ret. width_const.
  - intros vt _. cbn [enable svm_extension]. unfold svm_enable.
    pass; [apply on_cpu_svm, yields_rdmsr|intros efer He].
    pass; [apply on_cpu_svm, yields_wrmsr; [width|by right]|intros _ _]. by apply yields_ret.
  - intros id. by apply typed_svm_new.
  - intros g. by apply typed_svm_activate.
  - intros r g. by apply typed_svm_initialize.
  - intros e g. by apply typed_svm_run.
  - intros g. by apply typed_svm_load.
  - intros g. by apply typed_svm_deactivate.
  - intros vt Hvt. cbn [disable svm_extension]. unfold svm_disable.
    pass; [apply on_cpu_svm, yields_wrmsr; [done|by right]|intros _ _]. by apply yields_ret.
Defined.

#[refine] Definition vmx_typed : Typed (GI := vmx_guest bsf_zero vmcs_addr bitmaps_addr epts_addr tss_addr d)
    (XI := vmx_extension vmxon_addr) VmxWorld VmxGuest VmxEvent Vmx := {|
  rest_typed := vmx_rest; guest_typed := vmx_guest_typed; vt_typed vt := in_width 64 (vmx_cr4 vt);
  event_typed := vmx_event_typed |}.
Proof.
  all: destruct Henv.
  - done.
  - done.
  - done.
  - apply on_cpu_vmx. unfold vmx_default. pass; [apply yields_rdmsr|intros basic _]. apply yields_ret. width_const.
  - intros vt Hvt. apply on_cpu_vmx. by apply typed_vmx_enable.
  - intros id. cbn [guest_new vmx_guest]. unfold vmx_new.
    pass; [apply on_cpu_vmx, yields_rdmsr|intros basic _]. pass; [apply on_cpu_vmx, yields_vmclear|intros _ _].
    apply yields_ret. intros []; width_const.
  - intros g Hg. cbn [activate vmx_guest]. unfold vmx_activate.
    pass; [apply on_cpu_vmx, yields_vmptrld|intros _ _]. by apply yields_ret.
  - intros r g. by apply typed_vmx_initialize.
  - intros e g. by apply typed_vmx_run.
  - intros g _. by apply typed_vmx_load.
  - intros g Hg. cbn [deactivate vmx_guest]. unfold vmx_deactivate.
    pass; [apply on_cpu_vmx, yields_vmclear|intros _ _]. by apply yields_ret.
  - intros vt Hvt. apply on_cpu_vmx. unfold vmx_disable. pass; [apply yields_vmxoff|intros _ _]. by apply yields_ret.
Defined.
End Instances.

(** A part of a typed world. *)
Section ZoomTyped.
Context {W V G Event E : Type} {HCW : HasCpu W} {HCV : HasCpu V} {HAW : HasApic W} {HAV : HasApic V}
  {VW : View W V} {GV : Guest V G Event} {XV : Extension V E} (TV : Typed V G Event E) (rest : W -> Prop).
Context (rest_put : forall m w, rest w -> rest (put_cpu m w)) (rest_view : forall w, rest w -> rest_typed (view w))
  (rest_update : forall v w, rest w -> rest_typed v -> rest (update v w))
  (cpu_view : forall w, get_cpu (view w) = get_cpu w) (cpu_update : forall v w, get_cpu (update v w) = get_cpu v).

Lemma yields_zoom {A : Type} native (Q : A -> Prop) (x : M V A) :
  yields (world_typed rest_typed native) Q x -> yields (world_typed rest native) Q (zoom x).
Proof.
  intros Hx w a w' [Hm Hr] H. apply zoom_ok in H as (v & H & ->).
  destruct (Hx (view w) a v) as [[Hm' Hr'] Ha]; [split; [by rewrite cpu_view|by apply rest_view]|done|].
  split; [|done]. split; [by rewrite cpu_update|by apply rest_update].
Qed.

#[refine] Definition zoom_typed : Typed (GI := zoom_guest) (XI := zoom_extension) W G Event E := {|
  rest_typed := rest; guest_typed := guest_typed; vt_typed := vt_typed; event_typed := event_typed |}.
Proof.
  - exact rest_put.
  - exact (guest_regs_typed (Typed := TV)).
  - exact (guest_set_typed (Typed := TV)).
  - apply yields_zoom, typed_default.
  - intros vt Hvt. by apply yields_zoom, typed_enable.
  - intros id. apply yields_zoom, typed_new.
  - intros g Hg. by apply yields_zoom, typed_activate.
  - intros r g Hr Hg. by apply yields_zoom, typed_initialize.
  - intros e g He Hg. by apply yields_zoom, typed_run.
  - intros g Hg. by apply yields_zoom, typed_load.
  - intros g Hg. by apply yields_zoom, typed_deactivate.
  - intros vt Hvt. by apply yields_zoom, typed_disable.
Defined.
End ZoomTyped.

(** ** The property *)

(** The nested page tables and the activity states of the whole world. *)
Definition hv_rest (w : HvWorld) : Prop := tables_typed (hv_npt w) /\ Forall (in_width 8) (hv_activity_states w).

(** The guest of a running loop, or the registers it left with. *)
Definition host_typed (st : HostState (GI := VmxGuest) (VI := Vmx) (GA := SvmGuest) (VA := Svm)) : Prop :=
  match st with
  | inl (Running g _) => vmx_guest_typed g
  | inr (Running g _) => svm_guest_typed g
  | inl (Devirtualized r) | inr (Devirtualized r) => regs_typed r
  end.

Section MainTyped.
Context {P : Profile} {BF : BitfieldMacro} {BT : BitFieldTrait} {XS : X86Segmentation} {XT : X86Task}
  {XC : X86Cr0} {XI : X86CpuId} {X86 : X86Xcr0} {HV : HwVmsave} {OPS : PlatformOps nat}.

(** C7: no value is cut off by the place it is written to: from a processor
    whose registers, MSRs and VMCS regions have their widths, the host's main
    function, with any number of VM exits, leaves such a processor; the fields
    of the VMCB, the VMCS and the registers of the guest, the entries of the
    nested page tables and the activity states are in their declared widths. *)
Theorem main_keeps_widths uefi bsf_zero vmxon_addr vmcs_addr vmcb_addr host_vmcb_addr host_state_addr
    npt_addr bitmaps_addr epts_addr tss_addr d registers events_intel events_amd w st w' :
  environment_typed host_state_addr npt_addr bitmaps_addr epts_addr tss_addr d ->
  machine_typed true (hv_cpu w) -> hv_rest w -> regs_typed registers ->
  Forall vmx_event_typed events_intel -> Forall svm_event_typed events_amd ->
  main (IG := hv_intel bsf_zero vmcs_addr bitmaps_addr epts_addr tss_addr d) (IX := hv_vmx vmxon_addr)
       (AG := hv_amd uefi vmcb_addr host_vmcb_addr host_state_addr npt_addr d) (AX := hv_svm)
       (gets (fun w => processor_id_from (get (get_cpu w)) (get_apic w))) registers events_intel events_amd w = Ok (st, w') ->
  machine_typed false (hv_cpu w') /\ hv_rest w' /\ host_typed st.
Proof.
  intros Henv Hm Hr Hregs Hi Ha H. unfold main in H.
  assert (forall (rest : HvWorld -> Prop), yields (world_typed rest true) (fun _ => True)
    (gets (fun w => processor_id_from (get (get_cpu w)) (get_apic w)))) as Hpid by (intros rest; by apply yields_gets).
  destruct (vendor_is_intel _).
  - apply bind_ok in H as (st1 & w1 & H & Hst). injection Hst as <- <-.
    pose (TI := zoom_typed (W := HvWorld) (vmx_typed bsf_zero vmxon_addr vmcs_addr host_state_addr npt_addr bitmaps_addr
      epts_addr tss_addr d Henv) hv_rest (fun _ _ H => H) (fun _ _ => I) (fun _ _ H _ => H) (fun _ => eq_refl) (fun _ _ => eq_refl)).
    apply (typed_virtualize_core (TY := TI)) in H as [[Hm' Hr'] Hl]; [|apply Hpid|done..].
    split_and!; [done..|]. by destruct st1 as [g vt|r]; [destruct Hl|].
  - apply bind_ok in H as (st1 & w1 & H & Hst). injection Hst as <- <-.
    pose (TA := zoom_typed (W := HvWorld) (svm_typed uefi vmcb_addr host_vmcb_addr host_state_addr npt_addr bitmaps_addr
      epts_addr tss_addr d Henv) hv_rest (fun _ _ H => H) (fun _ H => H) (fun _ _ _ H => H) (fun _ => eq_refl) (fun _ _ => eq_refl)).
    apply (typed_virtualize_core (TY := TA)) in H as [[Hm' Hr'] Hl]; [|apply Hpid|done..].
    split_and!; [done..|]. by destruct st1 as [g vt|r]; [destruct Hl|].
Qed.
End MainTyped.

(** ** Witness: an AMD processor through a VM exit and out again *)
Module WidthExample.
Import Reference HypervisorExample.
#[local] Existing Instance TablesExample.x86_task.
#[local] Existing Instance SvmExample.no_hidden_parts.
#[local] Existing Instance VmxExample.cpu_id.
#[local] Existing Instance HypervisorExample.ops.
#[local] Existing Instance HypervisorExample.checked.

(** A page for each structure; one processor, numbered 0. *)
Definition at_page (base id : Z) : Z := base.
Definition numbered_world : HvWorld :=
  mk_hv_world (amd_cpu 0) (mk_ps [] [] [] [] (replicate 512 0)) [0; 0] None (mk_apic {[ 0 := 0 ]} 1).

#[local] Abbreviation run_main :=
  (main (IG := hv_intel 0 (at_page 0x20_0000) 0x30_0000 0x31_0000 (at_page 0x40_0000) own_tables) (IX := hv_vmx 0x9000)
        (AG := hv_amd true (at_page 0x50_0000) (at_page 0x60_0000) (at_page 0x70_0000) 0x10_0000 own_tables) (AX := hv_svm)
        (gets (fun w => processor_id_from (get (get_cpu w)) (get_apic w))) (at_rip 0x1000) [] [hypercall] numbered_world).

Lemma main_returns : is_ok run_main = true.
Proof. vm_compute. reflexivity. Qed.

Lemma environment : environment_typed (OPS := ops) (at_page 0x70_0000) 0x10_0000 0x30_0000 0x31_0000 (at_page 0x40_0000) own_tables.
Proof.
  split.
  - done.
  - width_const.
  - intros id. width_const.
  - width_const.
  - width_const.
  - intros id. width_const.
  - intros m f _. destruct f; width_const.
  - intros f v H. injection H as <-. eapply in_width_mono; [apply field_range; done|done].
  - split_and!; done.
Qed.

Lemma typed_cpu : machine_typed true (amd_cpu 0).
Proof.
  split.
  - intros []; width_const.
  - intros i v H. cbn [msrs amd_cpu] in H. apply elem_of_list_to_map_2 in H.
    match type of H with _ ∈ ?l =>
      assert (Forall (fun iv : Z * Z => in_width 64 iv.2) l) as Hall by (typed_list; width_const) end.
    rewrite Forall_forall in Hall. exact (Hall _ H).
  - apply SvmExample.flat_gdt_wf.
  - intros a. width_const.
  - intros leaf sub. cbn. destruct (leaf =? 1); split_and!; width_const.
  - intros p v H. cbn [vmcss amd_cpu] in H. by rewrite lookup_empty in H.
  - intros _ v H. vm_compute in H. discriminate H.
Qed.

Lemma typed_hypercall : svm_event_typed hypercall.
Proof.
  split; [|constructor]. intros r v w r' v' w' Hr Hv Hw H. injection H as <- <- <-. split_and!; [done| |done].
  apply typed_set_control; [done|]. typed_list; width_const.
Qed.

Lemma main_keeps_widths_witness : exists st w', run_main = Ok (st, w') /\
  machine_typed false (hv_cpu w') /\ hv_rest w' /\ host_typed st.
Proof.
  pose proof main_returns as Hok. destruct run_main as [[st w']|why] eqn:E; [|discriminate Hok].
  exists st, w'. split; [reflexivity|].
  refine (main_keeps_widths true 0 0x9000 (at_page 0x20_0000) (at_page 0x50_0000) (at_page 0x60_0000) (at_page 0x70_0000)
    0x10_0000 0x30_0000 0x31_0000 (at_page 0x40_0000) own_tables (at_rip 0x1000) [] [hypercall] numbered_world st w'
    environment typed_cpu _ _ (Forall_nil_2 _) _ E).
  - split; [split_and!; try apply Forall_nil_2; apply Forall_replicate; width_const|].
    typed_list; width_const.
  - intros []; width_const.
  - apply Forall_cons_2; [exact typed_hypercall|apply Forall_nil_2].
Defined.
End WidthExample.
