(* ===== verification/Assembly.v ===== *)
(** * World switches and stubs (hvcore *.S)

    The assembly of the hypervisor as programs of a small x86-64 machine:
    capture_registers.S, restore_registers.S, amd/run_guest.S,
    intel/run_guest.S, interrupt_handlers.S and the code in switch_stack.rs.
    A pointer is a block with an offset, so that the stack, the structure
    [Registers] and the stack of the guest do not overlap; a program that
    loads what was never stored, breaks the alignment of MOVAPS or uses flags
    it does not know gets stuck, which the theorems exclude. *)

From S2P Require Import Prelude External Machine Segment Tables Host Layout.

(** ** The machine *)

Inductive Block : Type := HostStack | RegistersStruct | GuestStack.

Inductive Val : Type :=
  | Int (z : Z)
  | Ptr (b : Block) (off : Z)
  | Code (label : string).

Inductive Gpr : Type :=
  | rax | rcx | rdx | rbx | rsp | rbp | rsi | rdi | r8 | r9 | r10 | r11 | r12 | r13 | r14 | r15.

Definition Gpr_index (g : Gpr) : nat :=
  match g with
  | rax => 0 | rcx => 1 | rdx => 2 | rbx => 3 | rsp => 4 | rbp => 5 | rsi => 6 | rdi => 7
  | r8 => 8 | r9 => 9 | r10 => 10 | r11 => 11 | r12 => 12 | r13 => 13 | r14 => 14 | r15 => 15
  end.

Definition Gpr_all : list Gpr :=
  [rax; rcx; rdx; rbx; rsp; rbp; rsi; rdi; r8; r9; r10; r11; r12; r13; r14; r15].

(** The instructions used.  A memory operand is a register with a
    displacement; [xmm] registers are numbered 0 to 5. *)
Inductive Instr : Type :=
  | Label (l : string)
  | BreakNop                                      (* xchg bx, bx *)
  | Push (g : Gpr) | PushImm (z : Z) | PushMem (base : Gpr) (disp : Z) | Pop (g : Gpr)
  | Mov (dst src : Gpr) | MovImm (dst : Gpr) (z : Z)
  | Load (dst base : Gpr) (disp : Z) | Store (base : Gpr) (disp : Z) (src : Gpr)
  | XchgMem (g base : Gpr) (disp : Z)
  | Lea (dst base : Gpr) (disp : Z) | LeaCode (dst : Gpr) (l : string)
  | AddImm (g : Gpr) (z : Z) | SubImm (g : Gpr) (z : Z) | AlignDown (g : Gpr) (a : Z)
  | MovapsLoad (x : nat) (base : Gpr) (disp : Z) | MovapsStore (base : Gpr) (disp : Z) (x : nat)
  | Pushfq | Popfq | CmpImm (g : Gpr) (z : Z) | Jz (l : string) | Jmp (l : string) | JmpReg (g : Gpr)
  | Call (f : string) | Ret
  | Vmload (g : Gpr) | Vmrun (g : Gpr) | Vmsave (g : Gpr)
  | Vmresume | Vmlaunch | Vmread (dst enc : Gpr) | Vmwrite (enc src : Gpr).

(** What the virtualization instructions did, in order. *)
Inductive Switch : Type := DidVmload (v : Val) | DidVmrun (v : Val) | DidVmsave (v : Val) | DidEnter.

(** The current VMCS, of which the code uses the launch state, two host
    fields and the error; [entry_error] is what an entry fails with, if it
    does. *)
Record VmcsState : Type := mk_vmcs_state {
  launched : bool;
  host_rsp_field : option Val;
  host_rip_field : option Val;
  entry_error : option Z;
  instruction_error : Z;
}.

(** Registers and memory as lists, so that programs compute; an [xmm] register
    is the pair of halves of the structure [Xmm]. *)
Record Asm : Type := mk_asm {
  gprs : list Val;
  xmms : list (Z * Z);
  flags : option Z;
  amem : list (Block * Z * Val);
  switches : list Switch;
  vmcs : VmcsState;
}.

Definition set_gprs (l : list Val) (s : Asm) : Asm := mk_asm l (xmms s) (flags s) (amem s) (switches s) (vmcs s).
Definition set_xmms (l : list (Z * Z)) (s : Asm) : Asm := mk_asm (gprs s) l (flags s) (amem s) (switches s) (vmcs s).
Definition set_flags (f : option Z) (s : Asm) : Asm := mk_asm (gprs s) (xmms s) f (amem s) (switches s) (vmcs s).
Definition set_amem (l : list (Block * Z * Val)) (s : Asm) : Asm := mk_asm (gprs s) (xmms s) (flags s) l (switches s) (vmcs s).
Definition did (e : Switch) (s : Asm) : Asm := mk_asm (gprs s) (xmms s) (flags s) (amem s) (switches s ++ [e]) (vmcs s).
Definition set_vmcs_state (v : VmcsState) (s : Asm) : Asm := mk_asm (gprs s) (xmms s) (flags s) (amem s) (switches s) v.

Definition gpr (s : Asm) (g : Gpr) : Val := nth (Gpr_index g) (gprs s) (Int 0).

Fixpoint set_nth {A : Type} (n : nat) (a : A) (l : list A) : list A :=
  match l, n with
  | [], _ => []
  | _ :: l', O => a :: l'
  | b :: l', S n' => b :: set_nth n' a l'
  end.

Definition set_gpr (g : Gpr) (v : Val) (s : Asm) : Asm := set_gprs (set_nth (Gpr_index g) v (gprs s)) s.

Definition block_eqb (a b : Block) : bool :=
  match a, b with
  | HostStack, HostStack | RegistersStruct, RegistersStruct | GuestStack, GuestStack => true
  | _, _ => false
  end.

(** The last value stored in the eight bytes at an offset. *)
Fixpoint find_mem (b : Block) (off : Z) (l : list (Block * Z * Val)) : option Val :=
  match l with
  | [] => None
  | (b', off', v) :: l' => if block_eqb b b' && (off =? off') then Some v else find_mem b off l'
  end.

Definition stuck {A : Type} : outcome A := Panic "stuck".

(** What a guest does with the registers it is given: the general ones, and the
    low and the high halves of the [xmm] registers. *)
Record GuestRun : Type := mk_guest_run {
  out : list Z -> list (Z * Z) -> Reg -> Z;
  out_low : list Z -> list (Z * Z) -> nat -> Z;
  out_high : list Z -> list (Z * Z) -> nat -> Z;
}.

(** [stack_align] is the address of offset 0 of the host stack modulo 16. *)
Section Exec.
Context (guest : GuestRun) (stack_align : Z).

Definition block_align (b : Block) : Z := match b with HostStack => stack_align | _ => 0 end.

Definition add_val (v : Val) (d : Z) : outcome Val :=
  match v with
  | Int z => Ok (Int (wrap 64 (z + d)))
  | Ptr b off => Ok (Ptr b (off + d))
  | Code _ => stuck
  end.

(** Accesses of eight bytes are at multiples of eight, so that they are equal
    or apart. *)
Definition load64 (v : Val) (s : Asm) : outcome Val :=
  match v with
  | Ptr b off => if off mod 8 =? 0 then unwrap (find_mem b off (amem s)) "stuck" else stuck
  | _ => stuck
  end.

Definition store64 (v x : Val) (s : Asm) : outcome Asm :=
  match v with
  | Ptr b off => if off mod 8 =? 0 then Ok (set_amem ((b, off, x) :: amem s) s) else stuck
  | _ => stuck
  end.

(** MOVAPS faults when the address is no multiple of 16. *)
Definition aligned16 (v : Val) : bool :=
  match v with Ptr b off => (off + block_align b) mod 16 =? 0 | _ => false end.

Definition load128 (v : Val) (s : Asm) : outcome (Z * Z) :=
  if aligned16 v then
    let? lo := load64 v s in
    let? v8 := add_val v 8 in
    let? hi := load64 v8 s in
    match lo, hi with Int lo, Int hi => Ok (lo, hi) | _, _ => stuck end
  else Panic "#GP(0)".

Definition store128 (v : Val) (x : Z * Z) (s : Asm) : outcome Asm :=
  if aligned16 v then
    let? s := store64 v (Int x.1) s in
    let? v8 := add_val v 8 in
    store64 v8 (Int x.2) s
  else Panic "#GP(0)".

Definition push (x : Val) (s : Asm) : outcome Asm :=
  let? top := add_val (gpr s rsp) (-8) in
  store64 top x (set_gpr rsp top s).

Definition pop (s : Asm) : outcome (Val * Asm) :=
  let? x := load64 (gpr s rsp) s in
  let? top := add_val (gpr s rsp) 8 in
  Ok (x, set_gpr rsp top s).

(** The registers a guest runs with: every one must be an integer. *)
Definition guest_gprs : list Gpr := [rbx; rcx; rdx; rdi; rsi; rbp; r8; r9; r10; r11; r12; r13; r14; r15].

Fixpoint ints (l : list Val) : outcome (list Z) :=
  match l with
  | [] => Ok []
  | Int z :: l' => let? zs := ints l' in Ok (z :: zs)
  | _ => stuck
  end.

Definition guest_inputs (with_rax : bool) (s : Asm) : outcome (list Z) :=
  ints (map (gpr s) ((if with_rax then [rax] else []) ++ guest_gprs)).

(** The registers when the guest exits; RAX is one of them on Intel only. *)
Definition guest_exit (with_rax : bool) (inputs : list Z) (s : Asm) : Asm :=
  let x := xmms s in
  let o r := Int (out guest inputs x r) in
  let s := set_gprs [if with_rax then o RAX else gpr s rax; o RCX; o RDX; o RBX; gpr s rsp; o RBP; o RSI;
                     o RDI; o R8; o R9; o R10; o R11; o R12; o R13; o R14; o R15] s in
  set_xmms (map (fun i => (out_low guest inputs x i, out_high guest inputs x i)) (seq 0 6)) s.

Inductive Next : Type := Fall | Goto (l : string) | Leave (pc : Val) | Calls (f : string).

(** VMRESUME and VMLAUNCH of a VMCS in the right or the wrong launch state;
    a failed entry leaves RFLAGS.ZF set and the error number. *)
Definition vm_fail (error : Z) (s : Asm) : outcome (Asm * Next) :=
  let v := vmcs s in
  Ok (set_flags (Some (Z.lor FLAGS_A1 FLAGS_ZF))
       (set_vmcs_state (mk_vmcs_state (launched v) (host_rsp_field v) (host_rip_field v) (entry_error v) error) s), Fall).

Definition vm_enter (needs_launched : bool) (wrong_state_error : Z) (s : Asm) : outcome (Asm * Next) :=
  let v := vmcs s in
  if negb (Bool.eqb (launched v) needs_launched) then vm_fail wrong_state_error s
  else match entry_error v with
  | Some e => vm_fail e s
  | None =>
      let? inputs := guest_inputs true s in
      match host_rsp_field v, host_rip_field v with
      | Some host_rsp, Some (Code host_rip) =>
          let s := set_vmcs_state (mk_vmcs_state true (host_rsp_field v) (host_rip_field v) None (instruction_error v)) s in
          let s := set_gpr rsp host_rsp (guest_exit true inputs (did DidEnter s)) in
          Ok (set_flags (Some FLAGS_A1) s, Goto host_rip)
      | _, _ => stuck
      end
  end.

Definition VM_INSTRUCTION_ERROR_ENC : Z := 0x4400.
Definition HOST_RSP_ENC : Z := 0x6c14.
Definition HOST_RIP_ENC : Z := 0x6c16.

Definition step (i : Instr) (s : Asm) : outcome (Asm * Next) :=
  let fall (m : outcome Asm) := let? s := m in Ok (s, Fall) in
  let at_ base disp := add_val (gpr s base) disp in
  match i with
  | Label _ | BreakNop => Ok (s, Fall)
  | Push g => fall (push (gpr s g) s)
  | PushImm z => fall (push (Int z) s)
  | PushMem base disp => fall (let? a := at_ base disp in let? x := load64 a s in push x s)
  | Pop g => fall (let? (x, s) := pop s in Ok (set_gpr g x s))
  | Mov dst src => Ok (set_gpr dst (gpr s src) s, Fall)
  | MovImm dst z => Ok (set_gpr dst (Int z) s, Fall)
  | Load dst base disp => fall (let? a := at_ base disp in let? x := load64 a s in Ok (set_gpr dst x s))
  | Store base disp src => fall (let? a := at_ base disp in store64 a (gpr s src) s)
  | XchgMem g base disp =>
      fall (let? a := at_ base disp in let? x := load64 a s in let? s' := store64 a (gpr s g) s in Ok (set_gpr g x s'))
  | Lea dst base disp => fall (let? a := at_ base disp in Ok (set_gpr dst a s))
  | LeaCode dst l => Ok (set_gpr dst (Code l) s, Fall)
  | AddImm g z => fall (let? v := at_ g z in Ok (set_flags None (set_gpr g v s)))
  | SubImm g z => fall (let? v := at_ g (- z) in Ok (set_flags None (set_gpr g v s)))
  | AlignDown g a =>
      match gpr s g with
      | Ptr b off => Ok (set_flags None (set_gpr g (Ptr b (off - (off + block_align b) mod a)) s), Fall)
      | _ => stuck
      end
  | MovapsLoad x base disp =>
      fall (let? a := at_ base disp in let? v := load128 a s in Ok (set_xmms (set_nth x v (xmms s)) s))
  | MovapsStore base disp x => fall (let? a := at_ base disp in store128 a (nth x (xmms s) (0, 0)) s)
  | Pushfq => fall (match flags s with Some f => push (Int f) s | None => stuck end)
  | Popfq => fall (let? (x, s) := pop s in match x with Int f => Ok (set_flags (Some f) s) | _ => stuck end)
  | CmpImm g z =>
      match gpr s g with
      | Int v => Ok (set_flags (Some (if v =? z then Z.lor FLAGS_A1 FLAGS_ZF else FLAGS_A1)) s, Fall)
      | _ => stuck
      end
  | Jz l => match flags s with
            | Some f => Ok (s, if Z.testbit f 6 then Goto l else Fall)
            | None => stuck
            end
  | Jmp l => Ok (s, Goto l)
  | JmpReg g => Ok (s, Leave (gpr s g))
  | Call f => Ok (s, Calls f)
  | Ret => let? (x, s) := pop s in Ok (s, Leave x)
  | Vmload g => Ok (did (DidVmload (gpr s g)) s, Fall)
  | Vmsave g => Ok (did (DidVmsave (gpr s g)) s, Fall)
  | Vmrun g =>
      let? inputs := guest_inputs false s in
      Ok (guest_exit false inputs (did (DidVmrun (gpr s g)) s), Fall)
  | Vmresume => vm_enter true 5 s
  | Vmlaunch => vm_enter false 4 s
  | Vmread dst enc =>
      match gpr s enc with
      | Int e => if e =? VM_INSTRUCTION_ERROR_ENC
                 then Ok (set_flags (Some FLAGS_A1) (set_gpr dst (Int (instruction_error (vmcs s))) s), Fall) else stuck
      | _ => stuck
      end
  | Vmwrite enc src =>
      let v := vmcs s in
      match gpr s enc with
      | Int e =>
          if e =? HOST_RSP_ENC then
            Ok (set_flags (Some FLAGS_A1) (set_vmcs_state (mk_vmcs_state (launched v) (Some (gpr s src)) (host_rip_field v)
                  (entry_error v) (instruction_error v)) s), Fall)
          else if e =? HOST_RIP_ENC then
            Ok (set_flags (Some FLAGS_A1) (set_vmcs_state (mk_vmcs_state (launched v) (host_rsp_field v) (Some (gpr s src))
                  (entry_error v) (instruction_error v)) s), Fall)
          else stuck
      | _ => stuck
      end
  end.

Fixpoint find_label (l : string) (code : list Instr) (pc : nat) : option nat :=
  match code with
  | [] => None
  | Label l' :: code' => if String.eqb l l' then Some pc else find_label l code' (S pc)
  | _ :: code' => find_label l code' (S pc)
  end.

(** The code from an instruction on, until it leaves or calls; each
    instruction costs one unit of fuel. *)
Fixpoint exec (fuel : nat) (code : list Instr) (pc : nat) (s : Asm) : outcome (Asm * Next) :=
  match fuel with
  | O => Panic "out of fuel"
  | S fuel' =>
      let? i := unwrap (nth_error code pc) "stuck" in
      let? (s, next) := step i s in
      match next with
      | Fall => exec fuel' code (S pc) s
      | Goto l => let? pc' := unwrap (find_label l code 0) "stuck" in exec fuel' code pc' s
      | _ => Ok (s, next)
      end
  end.
End Exec.

(** ** The programs *)

(** The constants of the .inc files. *)
#[local] Abbreviation reg r := (registers_inc r).

(** [capture_registers] (capture_registers.S) *)
Definition capture_registers : list Instr :=
  [Label "capture_registers"; Store rcx (reg RAX) rax; Store rcx (reg RBX) rbx;
   Store rcx (reg RCX) rcx; Store rcx (reg RDX) rdx; Store rcx (reg RSI) rsi;
   Store rcx (reg RDI) rdi; Store rcx (reg RBP) rbp; Store rcx (reg R8) r8;
   Store rcx (reg R9) r9; Store rcx (reg R10) r10; Store rcx (reg R11) r11;
   Store rcx (reg R12) r12; Store rcx (reg R13) r13; Store rcx (reg R14) r14;
   Store rcx (reg R15) r15; MovapsStore rcx (reg XMM0) 0; MovapsStore rcx (reg XMM1) 1;
   MovapsStore rcx (reg XMM2) 2; MovapsStore rcx (reg XMM3) 3; MovapsStore rcx (reg XMM4) 4;
   MovapsStore rcx (reg XMM5) 5; Pushfq; Pop rax; Store rcx (reg RFLAGS) rax; Mov rax rsp;
   AddImm rax 8; Store rcx (reg RSP) rax; Load rax rsp 0; Store rcx (reg RIP) rax; Ret].

(** [restore_registers] (restore_registers.S) *)
Definition restore_registers : list Instr :=
  [Label "restore_registers"; Push r11; Mov r10 rcx; PushMem r10 (reg RSP);
   PushMem r10 (reg RIP); PushMem r10 (reg RAX); PushMem r10 (reg R11);
   MovapsLoad 0 r10 (reg XMM0); MovapsLoad 1 r10 (reg XMM1); MovapsLoad 2 r10 (reg XMM2);
   MovapsLoad 3 r10 (reg XMM3); MovapsLoad 4 r10 (reg XMM4); MovapsLoad 5 r10 (reg XMM5);
   Load r15 r10 (reg R15); Load r14 r10 (reg R14); Load r13 r10 (reg R13);
   Load r12 r10 (reg R12); Load rdi r10 (reg RDI); Load rsi r10 (reg RSI);
   Load rbp r10 (reg RBP); Load rbx r10 (reg RBX); Load rax r10 (reg RFLAGS); Push rax; Popfq;
   Pop r11; Pop rax; Pop r8; Pop r9; Load rcx r10 (reg RCX); Load rdx r10 (reg RDX);
   Lea rsp r9 (-8); Store rsp 0 r8; Load r8 r10 (reg R8); Load r9 r10 (reg R9);
   Load r10 r10 (reg R10); Ret].

(** [run_svm_guest] (amd/run_guest.S) *)
Definition run_svm_guest : list Instr :=
  [Label "run_svm_guest"; BreakNop; Push rax; Push rcx; Push rdx; Push rbx; Push rbp; Push rsi;
   Push rdi; Push r8; Push r9; Push r10; Push r11; Push r12; Push r13; Push r14; Push r15;
   SubImm rsp 0x60; MovapsStore rsp 0 0; MovapsStore rsp 0x10 1; MovapsStore rsp 0x20 2;
   MovapsStore rsp 0x30 3; MovapsStore rsp 0x40 4; MovapsStore rsp 0x50 5; Mov r15 rcx;
   Mov rax rdx; Push rcx; MovapsLoad 0 r15 (reg XMM0); MovapsLoad 1 r15 (reg XMM1);
   MovapsLoad 2 r15 (reg XMM2); MovapsLoad 3 r15 (reg XMM3); MovapsLoad 4 r15 (reg XMM4);
   MovapsLoad 5 r15 (reg XMM5); Load rbx r15 (reg RBX); Load rcx r15 (reg RCX);
   Load rdx r15 (reg RDX); Load rdi r15 (reg RDI); Load rsi r15 (reg RSI);
   Load rbp r15 (reg RBP); Load r8 r15 (reg R8); Load r9 r15 (reg R9); Load r10 r15 (reg R10);
   Load r11 r15 (reg R11); Load r12 r15 (reg R12); Load r13 r15 (reg R13);
   Load r14 r15 (reg R14); Load r15 r15 (reg R15); Vmload rax; Vmrun rax; Vmsave rax; BreakNop;
   XchgMem r15 rsp 0; Store r15 (reg RBX) rbx; Store r15 (reg RCX) rcx; Store r15 (reg RDX) rdx;
   Store r15 (reg RSI) rsi; Store r15 (reg RDI) rdi; Store r15 (reg RBP) rbp;
   Store r15 (reg R8) r8; Store r15 (reg R9) r9; Store r15 (reg R10) r10;
   Store r15 (reg R11) r11; Store r15 (reg R12) r12; Store r15 (reg R13) r13;
   Store r15 (reg R14) r14; Load rax rsp 0; Store r15 (reg R15) rax;
   MovapsStore r15 (reg XMM0) 0; MovapsStore r15 (reg XMM1) 1; MovapsStore r15 (reg XMM2) 2;
   MovapsStore r15 (reg XMM3) 3; MovapsStore r15 (reg XMM4) 4; MovapsStore r15 (reg XMM5) 5;
   Pop rax; MovapsLoad 5 rsp 0x50; MovapsLoad 4 rsp 0x40; MovapsLoad 3 rsp 0x30;
   MovapsLoad 2 rsp 0x20; MovapsLoad 1 rsp 0x10; MovapsLoad 0 rsp 0; AddImm rsp 0x60; Pop r15;
   Pop r14; Pop r13; Pop r12; Pop r11; Pop r10; Pop r9; Pop r8; Pop rdi; Pop rsi; Pop rbp;
   Pop rbx; Pop rdx; Pop rcx; Pop rax; Mov rax r8; Vmload rax; Ret].

(** [run_vmx_guest] (intel/run_guest.S) *)
Definition run_vmx_guest : list Instr :=
  [Label "run_vmx_guest"; BreakNop; Push rcx; Push rdx; Push rbx; Push rbp; Push rsi; Push rdi;
   Push r8; Push r9; Push r10; Push r11; Push r12; Push r13; Push r14; Push r15; SubImm rsp 0x68;
   MovapsStore rsp 0 0; MovapsStore rsp 0x10 1; MovapsStore rsp 0x20 2; MovapsStore rsp 0x30 3;
   MovapsStore rsp 0x40 4; MovapsStore rsp 0x50 5; Mov r15 rcx; Push rcx;
   MovapsLoad 0 r15 (reg XMM0); MovapsLoad 1 r15 (reg XMM1); MovapsLoad 2 r15 (reg XMM2);
   MovapsLoad 3 r15 (reg XMM3); MovapsLoad 4 r15 (reg XMM4); MovapsLoad 5 r15 (reg XMM5);
   Load rax r15 (reg RAX); Load rbx r15 (reg RBX); Load rcx r15 (reg RCX);
   Load rdx r15 (reg RDX); Load rdi r15 (reg RDI); Load rsi r15 (reg RSI);
   Load rbp r15 (reg RBP); Load r8 r15 (reg R8); Load r9 r15 (reg R9); Load r10 r15 (reg R10);
   Load r11 r15 (reg R11); Load r12 r15 (reg R12); Load r13 r15 (reg R13);
   Load r14 r15 (reg R14); Load r15 r15 (reg R15); Vmresume; Pushfq; MovImm r15 0x4400;
   Vmread r15 r15; CmpImm r15 5; Jz "Launch"; Popfq; Jmp "VmEntryFailure"; Label "Launch";
   Pop r15; BreakNop; MovImm r15 0x6C14; Vmwrite r15 rsp; LeaCode r14 "VmExit";
   MovImm r15 0x6C16; Vmwrite r15 r14; Load r15 rsp 0; Load r14 r15 (reg R14);
   Load r15 r15 (reg R15); Vmlaunch; Label "VmEntryFailure"; Jmp "Exit"; Label "VmExit";
   BreakNop; XchgMem r15 rsp 0; Store r15 (reg RAX) rax; Store r15 (reg RBX) rbx;
   Store r15 (reg RCX) rcx; Store r15 (reg RDX) rdx; Store r15 (reg RSI) rsi;
   Store r15 (reg RDI) rdi; Store r15 (reg RBP) rbp; Store r15 (reg R8) r8;
   Store r15 (reg R9) r9; Store r15 (reg R10) r10; Store r15 (reg R11) r11;
   Store r15 (reg R12) r12; Store r15 (reg R13) r13; Store r15 (reg R14) r14; Load rax rsp 0;
   Store r15 (reg R15) rax; MovapsStore r15 (reg XMM0) 0; MovapsStore r15 (reg XMM1) 1;
   MovapsStore r15 (reg XMM2) 2; MovapsStore r15 (reg XMM3) 3; MovapsStore r15 (reg XMM4) 4;
   MovapsStore r15 (reg XMM5) 5; Label "Exit"; Pop rax; Pushfq; Pop rax; MovapsLoad 5 rsp 0x50;
   MovapsLoad 4 rsp 0x40; MovapsLoad 3 rsp 0x30; MovapsLoad 2 rsp 0x20; MovapsLoad 1 rsp 0x10;
   MovapsLoad 0 rsp 0; AddImm rsp 0x68; Pop r15; Pop r14; Pop r13; Pop r12; Pop r11; Pop r10;
   Pop r9; Pop r8; Pop rdi; Pop rsi; Pop rbp; Pop rbx; Pop rdx; Pop rcx; Ret].

(** [asm_interrupt_handler_common] up to the call, which does not return
    (interrupt_handlers.S). *)
Definition asm_interrupt_handler_common : list Instr :=
  [Label "asm_interrupt_handler_common"; Push rax; Push rcx; Push rdx; Push rbx; Push rbp;
   Push rsi; Push rdi; Push r8; Push r9; Push r10; Push r11; Push r12; Push r13; Push r14;
   Push r15; Mov rcx rsp; Mov r15 rsp; AlignDown rsp 16; SubImm rsp 0x60; MovapsStore rsp 0 0;
   MovapsStore rsp 0x10 1; MovapsStore rsp 0x20 2; MovapsStore rsp 0x30 3;
   MovapsStore rsp 0x40 4; MovapsStore rsp 0x50 5; SubImm rsp 0x20;
   Call "handle_host_exception"].

(** The stubs in order: whether the macro is the one for an exception that
    pushes an error code (interrupt_handlers.S). *)
Definition stub_kinds : list bool :=
  [false; false; false; false; false; false; false; false; true; false; true; true; true; true; true; false;
   false; true; false; false; false; true] ++ replicate 234 false.

(** The macros [INTERRUPT_HANDLER] and [INTERRUPT_HANDLER_WITH_ERROR_CODE] for
    the vector their counter has. *)
Definition asm_interrupt_handler (with_error_code : bool) (vector : Z) : list Instr :=
  (if with_error_code then [PushImm vector; Jmp "asm_interrupt_handler_common"]
   else [PushImm 0; PushImm vector; Jmp "asm_interrupt_handler_common"]) ++ asm_interrupt_handler_common.

(** [switch_stack] (switch_stack.rs) *)
Definition switch_stack : list Instr := [Label "switch_stack"; BreakNop; Mov rsp r8; JmpReg rdx].

(** ** Calls *)

(** The contents of the structure [Registers]: the integers, and the halves of
    the [Xmm] fields. *)
Record Contents : Type := mk_contents { ints_of : Reg -> Z; low : nat -> Z; high : nat -> Z }.

(** The fields of 64 bits, and the offsets of the others. *)
Definition int_regs : list Reg :=
  [RAX; RBX; RCX; RDX; RDI; RSI; RBP; R8; R9; R10; R11; R12; R13; R14; R15; RFLAGS; RSP; RIP].
Definition xmm_offset (i : nat) : Z := reg (nth i [XMM0; XMM1; XMM2; XMM3; XMM4; XMM5] XMM0).

Definition struct_memory (c : Contents) : list (Block * Z * Val) :=
  map (fun r => (RegistersStruct, reg r, Int (ints_of c r))) int_regs ++
  concat (map (fun i => [(RegistersStruct, xmm_offset i, Int (low c i)); (RegistersStruct, xmm_offset i + 8, Int (high c i))])
            (seq 0 6)).

Definition struct_holds (s : Asm) (c : Contents) : Prop :=
  (forall r, r ∈ int_regs -> find_mem RegistersStruct (reg r) (amem s) = Some (Int (ints_of c r))) /\
  (forall i, i ∈ seq 0 6 -> find_mem RegistersStruct (xmm_offset i) (amem s) = Some (Int (low c i)) /\
     find_mem RegistersStruct (xmm_offset i + 8) (amem s) = Some (Int (high c i))).

(** The registers given to the guest, without and with RAX. *)
Definition svm_inputs (c : Contents) : list Z :=
  map (ints_of c) [RBX; RCX; RDX; RDI; RSI; RBP; R8; R9; R10; R11; R12; R13; R14; R15].
Definition vmx_inputs (c : Contents) : list Z := ints_of c RAX :: svm_inputs c.
Definition halves (l h : nat -> Z) : list (Z * Z) := map (fun i => (l i, h i)) (seq 0 6).

(** The structure after a guest that ran with some of its registers. *)
Definition after_guest (guest : GuestRun) (inputs : list Z) (kept : list Reg) (c : Contents) : Contents :=
  let x := halves (low c) (high c) in
  mk_contents (fun r => if decide (r ∈ kept) then ints_of c r else out guest inputs x r)
    (out_low guest inputs x) (out_high guest inputs x).

(** A call with the arguments of the Microsoft convention: the structure in
    RCX, two values in RDX and R8, the return address on the stack; [h] gives
    the other registers, [l] and [u] the halves of the [xmm] registers. *)
Definition arguments (h : Gpr -> Val) (a2 a3 : Val) (g : Gpr) : Val :=
  match g with rcx => Ptr RegistersStruct 0 | rdx => a2 | r8 => a3 | rsp => Ptr HostStack 0 | _ => h g end.

Definition called (h : Gpr -> Val) (l u : nat -> Z) (fl : option Z) (return_address : Val) (c : Contents) (v : VmcsState) : Asm :=
  mk_asm (map h Gpr_all) (halves l u) fl ((HostStack, 0, return_address) :: struct_memory c) [] v.

(** [run_code E] runs the program in the goal, with what it computes in [E]. *)
Ltac run_code E :=
  match goal with |- context [exec ?g ?a ?f ?c ?pc ?s] =>
    let r := eval cbv in (exec g a f c pc s) in
    assert (exec g a f c pc s = r) as E by (vm_cast_no_check (@eq_refl _ r))
  end.
Ltac holds := split; list_cases; first [reflexivity | split; reflexivity].

(** C8: [run_svm_guest] enters the guest once, between VMLOAD and VMSAVE of its
    control block, with exactly the registers of the structure; the structure
    then has the registers the guest left with, except RAX, RSP, RIP and
    RFLAGS, which are the control block's; the host gets all its registers
    back, on an aligned stack, except RAX, and its own VMLOAD state. *)
Theorem run_svm_guest_spec guest h l u fl return_address c vmcb_pa host_vmcb_pa v :
  let h := arguments h (Int vmcb_pa) (Int host_vmcb_pa) in
  exists s', exec guest 8 200 run_svm_guest 0 (called h l u fl return_address c v) = Ok (s', Leave return_address) /\
    (forall g, gpr s' g = match g with rax => Int host_vmcb_pa | rsp => Ptr HostStack 8 | _ => h g end) /\
    xmms s' = halves l u /\
    switches s' = [DidVmload (Int vmcb_pa); DidVmrun (Int vmcb_pa); DidVmsave (Int vmcb_pa); DidVmload (Int host_vmcb_pa)] /\
    struct_holds s' (after_guest guest (svm_inputs c) [RAX; RSP; RIP; RFLAGS] c).
Proof.
  intros h'. run_code E. eexists. split; [exact E|]. split_and!; try reflexivity.
  - by intros [].
  - holds.
Qed.

(** ** VMX *)

(** The stack pointer of the host while the guest runs. *)
Definition vmx_host_rsp : Val := Ptr HostStack (-0xe0).

(** A VMCS that was launched from this code at the same depth of the stack, or
    not yet; an entry can fail with the errors of SDM 31.4 that concern it. *)
Record vmcs_callable (v : VmcsState) : Prop := {
  callable_fields : launched v = true -> host_rsp_field v = Some vmx_host_rsp /\ host_rip_field v = Some (Code "VmExit");
  callable_error : entry_error v ∈ [None; Some 7; Some 8; Some 26];
}.

Definition entry_flags (v : VmcsState) : Z :=
  match entry_error v with None => FLAGS_A1 | Some _ => Z.lor FLAGS_A1 FLAGS_ZF end.

(** C9: [run_vmx_guest] launches the guest the first time and resumes it after
    that, once, with exactly the registers of the structure, which then has
    those the guest left with, except RSP, RIP and RFLAGS; when the entry fails
    the structure is unchanged.  RAX is the RFLAGS that tell the two cases
    apart, the host gets all other registers back, and the VMCS is ready for
    the next call at the same depth of the stack. *)
Theorem run_vmx_guest_spec guest h l u fl return_address c a2 a3 v : vmcs_callable v ->
  let h := arguments h a2 a3 in
  exists s', exec guest 8 200 run_vmx_guest 0 (called h l u fl return_address c v) = Ok (s', Leave return_address) /\
    (forall g, gpr s' g = match g with rax => Int (entry_flags v) | rsp => Ptr HostStack 8 | _ => h g end) /\
    xmms s' = halves l u /\
    match entry_error v with
    | None => switches s' = [DidEnter] /\ struct_holds s' (after_guest guest (vmx_inputs c) [RSP; RIP; RFLAGS] c) /\
        launched (vmcs s') = true
    | Some e => switches s' = [] /\ struct_holds s' c /\ instruction_error (vmcs s') = e /\ launched (vmcs s') = launched v
    end /\
    vmcs_callable (vmcs s').
Proof.
  intros [Hf He] h'.
  destruct v as [[] rspf ripf ee ie]; cbn [launched host_rsp_field host_rip_field entry_error] in *.
  - destruct (Hf eq_refl) as [-> ->].
    apply elem_of_cons in He as [->|He]; [|repeat (apply elem_of_cons in He as [->|He]; [|])];
      [..|by apply elem_of_nil in He].
    all: run_code E; eexists; split; [exact E|].
    all: split_and!; [by intros []|reflexivity|..].
    all: lazymatch goal with
         | |- struct_holds _ _ => holds
         | |- vmcs_callable _ => split; [intros _; split; reflexivity|in_list]
         | |- _ => reflexivity
         end.
  - apply elem_of_cons in He as [->|He]; [|repeat (apply elem_of_cons in He as [->|He]; [|])];
      [..|by apply elem_of_nil in He].
    all: run_code E; eexists; split; [exact E|].
    all: split_and!; [by intros []|reflexivity|..].
    all: lazymatch goal with
         | |- struct_holds _ _ => holds
         | |- vmcs_callable _ => split; [intros _; split; reflexivity|in_list]
         | |- _ => reflexivity
         end.
Qed.

(** ** Capture and restore *)

(** What [capture_registers] leaves in the structure: registers may hold
    pointers; [f] is RFLAGS. *)
Definition captured (h : Gpr -> Val) (f : Z) (return_address : Val) (r : Reg) : Val :=
  match r with
  | RAX => h rax | RBX => h rbx | RCX => h rcx | RDX => h rdx | RDI => h rdi | RSI => h rsi | RBP => h rbp
  | R8 => h r8 | R9 => h r9 | R10 => h r10 | R11 => h r11 | R12 => h r12 | R13 => h r13 | R14 => h r14 | R15 => h r15
  | RFLAGS => Int f
  | RSP => Ptr GuestStack 0
  | _ => return_address
  end.

(** The caller of [capture_registers], on the stack the guest will have. *)
Definition capturing (h : Gpr -> Val) (g : Gpr) : Val :=
  match g with rcx => Ptr RegistersStruct 0 | rsp => Ptr GuestStack (-8) | _ => h g end.

(** The caller of [restore_registers], on the stack of the host. *)
Definition restoring (h : Gpr -> Val) (g : Gpr) : Val :=
  match g with rcx => Ptr RegistersStruct 0 | rsp => Ptr HostStack 0 | _ => h g end.


(** ** The stack of the host *)

(** [switch_stack] jumps to its second argument with the third as the stack
    pointer; the first argument is still in RCX for the destination. *)
Lemma switch_stack_spec guest align h x fl m sw v :
  exec guest align 10 switch_stack 0 (mk_asm (map h Gpr_all) x fl m sw v) =
    Ok (mk_asm (map (fun g => match g with rsp => h r8 | _ => h g end) Gpr_all) x fl m sw v, Leave (h rdx)).
Proof. reflexivity. Qed.

(** ** Exceptions in the host *)

(** The words of [HostExceptionStack] in the order of its fields. *)
Definition frame_words (f : HostExceptionStack) : list Z :=
  [hes_r15 f; hes_r14 f; hes_r13 f; hes_r12 f; hes_r11 f; hes_r10 f; hes_r9 f; hes_r8 f; hes_rdi f; hes_rsi f;
   hes_rbp f; hes_rbx f; hes_rdx f; hes_rcx f; hes_rax f; exception_number f; error_code f; hes_rip f; hes_cs f;
   hes_rflags f; hes_rsp f; hes_ss f].

(** The frame the processor pushes below an address that is a multiple of 16,
    with the error code if the exception has one; and the stack pointer. *)
Definition hardware_frame (error : option Z) (rip cs rflags sp ss : Z) : list (Block * Z * Val) :=
  [(HostStack, -8, Int ss); (HostStack, -16, Int sp); (HostStack, -24, Int rflags); (HostStack, -32, Int cs);
   (HostStack, -40, Int rip)] ++ match error with Some e => [(HostStack, -48, Int e)] | None => [] end.

Definition hardware_rsp (error : option Z) : Val := Ptr HostStack (match error with Some _ => -48 | None => -40 end).

(** An exception, while the general registers are [h]. *)
Definition interrupted (h : Gpr -> Z) (l u : nat -> Z) (error : option Z) (rip cs rflags sp ss : Z) (v : VmcsState) : Asm :=
  mk_asm (map (fun g => match g with rsp => hardware_rsp error | _ => Int (h g) end) Gpr_all) (halves l u) (Some rflags)
    (hardware_frame error rip cs rflags sp ss) [] v.

Definition is_some {A : Type} (o : option A) : bool := match o with Some _ => true | None => false end.

(** The handler is called with a pointer to the words, on an aligned stack. *)
Definition handler_called (words : list Z) (r : outcome (Asm * Next)) : Prop :=
  exists s p, r = Ok (s, Calls "handle_host_exception") /\ gpr s rcx = Ptr HostStack p /\
    (exists q, gpr s rsp = Ptr HostStack q /\ q mod 16 = 0) /\
    forall i w, words !! i = Some w -> find_mem HostStack (p + 8 * Z.of_nat i) (amem s) = Some (Int w).

(** C31: the stub of every vector hands [handle_host_exception] exactly the
    structure it declares, when the processor pushes an error code just for the
    vectors 8, 10 to 14, 17 and 21, and so the registers, the vector, the error
    code (zero without one) and the return frame of the exception.  When it
    pushes one for another vector, as AMD processors do for 29 and 30, the
    handler sees every field of the return frame one word off. *)
Theorem interrupt_stub_frame guest h l u error rip cs rflags sp ss v (vector : nat) :
  (vector < 256)%nat -> exists kind, stub_kinds !! vector = Some kind /\
  kind = bool_decide (vector ∈ [8; 10; 11; 12; 13; 14; 17; 21]%nat) /\
  let n := Z.of_nat vector in
  let r := exec guest 0 200 (asm_interrupt_handler kind n) 0 (interrupted h l u error rip cs rflags sp ss v) in
  let frame e := mk_host_exception_stack (h r15) (h r14) (h r13) (h r12) (h r11) (h r10) (h r9) (h r8) (h rdi) (h rsi)
                   (h rbp) (h rbx) (h rdx) (h rcx) (h rax) n e in
  (is_some error = kind -> handler_called (frame_words (frame (default 0 error) rip cs rflags sp ss)) r) /\
  (forall e, error = Some e -> kind = false -> handler_called (frame_words (frame 0 e rip cs rflags sp)) r).
Proof.
  intros Hv. assert (exists kind, stub_kinds !! vector = Some kind /\
    kind = bool_decide (vector ∈ [8; 10; 11; 12; 13; 14; 17; 21]%nat)) as (kind & Hk & Hd).
  { assert (Forall (fun i => stub_kinds !! i = Some (bool_decide (i ∈ [8; 10; 11; 12; 13; 14; 17; 21]%nat))) (seq 0 256)) as Hall.
    { apply (bool_decide_unpack _). vm_compute. exact I. }
    rewrite Forall_forall in Hall. eexists. split; [|reflexivity]. apply Hall. apply elem_of_seq. lia. }
  exists kind. split_and!; [done..|]. clear Hd Hk Hv. cbv zeta. generalize (Z.of_nat vector) as n. intros n. split.
  - intros <-. destruct error as [e|]; cbn [is_some]; run_code E; eexists _, _; (split; [exact E|]);
      (split; [reflexivity|]); (split; [eexists; split; reflexivity|]); intros i w Hw;
      do 22 (destruct i as [|i]; [injection Hw as <-; reflexivity|]); done.
  - intros e -> ->. run_code E. eexists _, _. (split; [exact E|]);
      (split; [reflexivity|]); (split; [eexists; split; reflexivity|]); intros i w Hw;
      do 22 (destruct i as [|i]; [injection Hw as <-; reflexivity|]); done.
Qed.

(** ** Concrete runs *)

Module AssemblyExample.
(** A guest that leaves every register with the value of its R15, and the
    structure of a guest whose registers are their own offsets. *)
Definition guest : GuestRun := mk_guest_run (fun inputs _ _ => nth 14 inputs 0) (fun _ _ _ => 0) (fun _ _ _ => 1).
Definition contents : Contents := mk_contents registers_inc (fun i => Z.of_nat i) (fun _ => 1).
Definition fresh_vmcs : VmcsState := mk_vmcs_state false None None None 0.

Lemma run_vmx_guest_spec_witness : vmcs_callable fresh_vmcs /\ exists s',
  exec guest 8 200 run_vmx_guest 0
    (called (arguments (fun _ => Int 5) (Int 0) (Int 0)) (fun _ => 0) (fun _ => 0) None (Code "caller") contents fresh_vmcs)
  = Ok (s', Leave (Code "caller")) /\
  gpr s' rbx = Int 5 /\ switches s' = [DidEnter] /\ struct_holds s' (after_guest guest (vmx_inputs contents) [RSP; RIP; RFLAGS] contents).
Proof.
  assert (vmcs_callable fresh_vmcs) as Hv by (split; [discriminate | in_list]).
  split; [exact Hv|].
  destruct (run_vmx_guest_spec guest (fun _ => Int 5) (fun _ => 0) (fun _ => 0) None (Code "caller") contents
              (Int 0) (Int 0) fresh_vmcs Hv) as (s' & Hs & Hg & _ & (Hw & Hh & _) & _).
  exists s'. split; [exact Hs|]. split; [exact (Hg rbx)|]. split; [exact Hw|exact Hh].
Defined.

(** A page fault with error code 2. *)
Lemma interrupt_stub_frame_witness : stub_kinds !! 14%nat = Some true /\
  handler_called (frame_words (mk_host_exception_stack 0 0 0 0 0 0 0 0 0 0 0 0 0 0 0 14 2 0x401000 16 0x10002 0x7000 24))
    (exec guest 0 200 (asm_interrupt_handler true 14) 0
       (interrupted (fun _ => 0) (fun _ => 0) (fun _ => 0) (Some 2) 0x401000 16 0x10002 0x7000 24 fresh_vmcs)).
Proof.
  destruct (interrupt_stub_frame guest (fun _ => 0) (fun _ => 0) (fun _ => 0) (Some 2) 0x401000 16 0x10002 0x7000 24
              fresh_vmcs 14 ltac:(lia)) as (kind & Hk & Hd & Hf & _).
  split; [reflexivity|]. injection Hk as <-. exact (Hf eq_refl).
Defined.
End AssemblyExample.
