(* ===== verification/Dump.v ===== *)
(** * The dump of a VMCS (hvcore intel/guest.rs, [Debug] of [Vmcs])

    What the host logs before it panics about an exit it does not expect: the
    table of fields, the relaxed VMREAD, and the text that core::fmt makes of
    them for [{:#x?}], the only way the source prints a VMCS. *)

From Stdlib Require Import Ascii.
From S2P Require Import Prelude External Machine.

(** ** core::fmt, as far as it is used *)

Definition newline : Ascii.ascii := "010"%char.
Definition nl : string := String newline EmptyString.

(** [split_inclusive] at newlines. *)
Fixpoint split_inclusive (s : string) : list string :=
  match s with
  | EmptyString => []
  | String c s' =>
      if Ascii.eqb c newline then String c EmptyString :: split_inclusive s'
      else match split_inclusive s' with
           | [] => [String c EmptyString]
           | chunk :: chunks => String c chunk :: chunks
           end
  end.

Definition ends_with_newline (s : string) : bool :=
  match last (String.list_ascii_of_string s) with Some c => Ascii.eqb c newline | None => false end.

(** [PadAdapter]: what it writes, when it is given strings to write. *)
Fixpoint pad_chunks (on_newline : bool) (chunks : list string) : list string * bool :=
  match chunks with
  | [] => ([], on_newline)
  | chunk :: chunks' =>
      let '(out, on) := pad_chunks (ends_with_newline chunk) chunks' in
      ((if on_newline then ["    "] else []) ++ chunk :: out, on)
  end.

Fixpoint pad (on_newline : bool) (l : list string) : list string :=
  match l with
  | [] => []
  | s :: l' => let '(out, on) := pad_chunks on_newline (split_inclusive s) in out ++ pad on l'
  end.

(** Lower-case digits, as [LowerHex] makes them. *)
Definition hex_digit (d : Z) : Ascii.ascii :=
  Ascii.ascii_of_nat (Z.to_nat (if d <? 10 then 48 + d else 87 + d)).

Fixpoint hex_digits (fuel : nat) (x : Z) (acc : string) : string :=
  match fuel with
  | O => acc
  | S fuel' =>
      let acc := String (hex_digit (x mod 16)) acc in
      if x <? 16 then acc else hex_digits fuel' (x / 16) acc
  end.

(** The digits of a 64-bit integer. *)
Definition digits (x : Z) : string := hex_digits 16 x EmptyString.

(** [pad_integral] with [#]: the prefix and the digits are two strings; a
    pointer is filled with zeros to 18 characters. *)
Definition fmt_int (x : Z) : list string := ["0x"; digits x].
Definition fmt_pointer (x : Z) : list string :=
  "0x" :: replicate (16 - String.length (digits x)) "0" ++ [digits x].

(** A formatter over a sink, whose [write_str] may fail. *)
Section Formatter.
Context {St : Type} (write_str : string -> St -> option St).

Fixpoint writes (l : list string) (s : St) : option St :=
  match l with
  | [] => Some s
  | x :: l' => match write_str x s with Some s' => writes l' s' | None => None end
  end.

(** [DebugStruct]: [None] is an error, which every later call keeps. *)
Record DebugStruct : Type := mk_debug_struct { result : option St; has_fields : bool }.

Definition debug_struct (name : string) (s : St) : DebugStruct := mk_debug_struct (write_str name s) false.

Definition debug_field (name : string) (value : list string) (d : DebugStruct) : DebugStruct :=
  mk_debug_struct
    (match result d with
     | Some s => writes ((if has_fields d then [] else [" {" +:+ nl]) ++
                         pad true ([name; ": "] ++ value ++ ["," +:+ nl])) s
     | None => None
     end) true.

Definition finish_non_exhaustive (d : DebugStruct) : option St :=
  match result d with
  | Some s => if has_fields d then writes (pad true [".." +:+ nl] ++ ["}"]) s else write_str " { .. }" s
  | None => None
  end.
End Formatter.

(** ** The fields *)

(** VMCS encodings not defined in the x86 crate. *)
Definition VMCS_CONTROL_HLAT_PREFIX_SIZE : Z := 0x6.
Definition VMCS_CONTROL_LAST_PID_POINTER_INDEX : Z := 0x8.
Definition VMCS_GUEST_UINV : Z := 0x814.
Definition VMCS_CONTROL_TERTIARY_PROCESSOR_BASED_VM_EXECUTION_CONTROLS : Z := 0x2034.
Definition VMCS_CONTROL_ENCLV_EXITING_BITMAP : Z := 0x2036.
Definition VMCS_CONTROL_LOW_PASID_DIRECTORY_ADDRESS : Z := 0x2038.
Definition VMCS_CONTROL_HIGH_PASID_DIRECTORY_ADDRESS : Z := 0x203a.
Definition VMCS_CONTROL_SHARED_EPT_POINTER : Z := 0x203c.
Definition VMCS_CONTROL_PCONFIG_EXITING_BITMAP : Z := 0x203e.
Definition VMCS_CONTROL_HLATP : Z := 0x2040.
Definition VMCS_CONTROL_PID_POINTER_TABLE_ADDRESS : Z := 0x2042.
Definition VMCS_CONTROL_SECONDARY_VM_EXIT_CONTROLS : Z := 0x2044.
Definition VMCS_CONTROL_IA32_SPEC_CTRL_MASK : Z := 0x204a.
Definition VMCS_CONTROL_IA32_SPEC_CTRL_SHADOW : Z := 0x204c.
Definition VMCS_GUEST_IA32_LBR_CTL : Z := 0x2816.
Definition VMCS_GUEST_IA32_PKRS : Z := 0x2818.
Definition VMCS_HOST_IA32_PKRS : Z := 0x2c06.
Definition VMCS_CONTROL_INSTRUCTION_TIMEOUT_CONTROL : Z := 0x4024.
Definition VMCS_GUEST_IA32_S_CET : Z := 0x6828.
Definition VMCS_GUEST_SSP : Z := 0x682a.
Definition VMCS_GUEST_IA32_INTERRUPT_SSP_TABLE_ADDR : Z := 0x682c.
Definition VMCS_HOST_IA32_S_CET : Z := 0x6c18.
Definition VMCS_HOST_SSP : Z := 0x6c1a.
Definition VMCS_HOST_IA32_INTERRUPT_SSP_TABLE_ADDR : Z := 0x6c1c.

(** An encoding of the x86 crate, by the name of its constant, or one of the
    constants above. *)
Inductive Encoding : Type := Crate (name : string) | Local (e : Z).

(** 16-Bit Guest-State Fields *)
Definition dump_16_guest : list (string * Encoding) :=
  [("Guest ES Selector                              ", Crate "guest::ES_SELECTOR");
   ("Guest CS Selector                              ", Crate "guest::CS_SELECTOR");
   ("Guest SS Selector                              ", Crate "guest::SS_SELECTOR");
   ("Guest DS Selector                              ", Crate "guest::DS_SELECTOR");
   ("Guest FS Selector                              ", Crate "guest::FS_SELECTOR");
   ("Guest GS Selector                              ", Crate "guest::GS_SELECTOR");
   ("Guest LDTR Selector                            ", Crate "guest::LDTR_SELECTOR");
   ("Guest TR Selector                              ", Crate "guest::TR_SELECTOR");
   ("Guest interrupt status                         ", Crate "guest::INTERRUPT_STATUS");
   ("PML index                                      ", Crate "guest::PML_INDEX");
   ("Guest UINV                                     ", Local VMCS_GUEST_UINV)].

(** 64-Bit Guest-State Fields *)
Definition dump_64_guest : list (string * Encoding) :=
  [("VMCS link pointer                              ", Crate "guest::LINK_PTR_FULL");
   ("Guest IA32_DEBUGCTL                            ", Crate "guest::IA32_DEBUGCTL_FULL");
   ("Guest IA32_PAT                                 ", Crate "guest::IA32_PAT_FULL");
   ("Guest IA32_EFER                                ", Crate "guest::IA32_EFER_FULL");
   ("Guest IA32_PERF_GLOBAL_CTRL                    ", Crate "guest::IA32_PERF_GLOBAL_CTRL_FULL");
   ("Guest PDPTE0                                   ", Crate "guest::PDPTE0_FULL");
   ("Guest PDPTE1                                   ", Crate "guest::PDPTE1_FULL");
   ("Guest PDPTE2                                   ", Crate "guest::PDPTE2_FULL");
   ("Guest PDPTE3                                   ", Crate "guest::PDPTE3_FULL");
   ("Guest IA32_BNDCFGS                             ", Crate "guest::IA32_BNDCFGS_FULL");
   ("Guest IA32_RTIT_CTL                            ", Crate "guest::IA32_RTIT_CTL_FULL");
   ("Guest IA32_LBR_CTL                             ", Local VMCS_GUEST_IA32_LBR_CTL);
   ("Guest IA32_PKRS                                ", Local VMCS_GUEST_IA32_PKRS)].

(** 32-Bit Guest-State Fields *)
Definition dump_32_guest : list (string * Encoding) :=
  [("Guest ES Limit                                 ", Crate "guest::ES_LIMIT");
   ("Guest CS Limit                                 ", Crate "guest::CS_LIMIT");
   ("Guest SS Limit                                 ", Crate "guest::SS_LIMIT");
   ("Guest DS Limit                                 ", Crate "guest::DS_LIMIT");
   ("Guest FS Limit                                 ", Crate "guest::FS_LIMIT");
   ("Guest GS Limit                                 ", Crate "guest::GS_LIMIT");
   ("Guest LDTR Limit                               ", Crate "guest::LDTR_LIMIT");
   ("Guest TR Limit                                 ", Crate "guest::TR_LIMIT");
   ("Guest GDTR limit                               ", Crate "guest::GDTR_LIMIT");
   ("Guest IDTR limit                               ", Crate "guest::IDTR_LIMIT");
   ("Guest ES access rights                         ", Crate "guest::ES_ACCESS_RIGHTS");
   ("Guest CS access rights                         ", Crate "guest::CS_ACCESS_RIGHTS");
   ("Guest SS access rights                         ", Crate "guest::SS_ACCESS_RIGHTS");
   ("Guest DS access rights                         ", Crate "guest::DS_ACCESS_RIGHTS");
   ("Guest FS access rights                         ", Crate "guest::FS_ACCESS_RIGHTS");
   ("Guest GS access rights                         ", Crate "guest::GS_ACCESS_RIGHTS");
   ("Guest LDTR access rights                       ", Crate "guest::LDTR_ACCESS_RIGHTS");
   ("Guest TR access rights                         ", Crate "guest::TR_ACCESS_RIGHTS");
   ("Guest interruptibility state                   ", Crate "guest::INTERRUPTIBILITY_STATE");
   ("Guest activity state                           ", Crate "guest::ACTIVITY_STATE");
   ("Guest SMBASE                                   ", Crate "guest::SMBASE");
   ("Guest IA32_SYSENTER_CS                         ", Crate "guest::IA32_SYSENTER_CS");
   ("VMX-preemption timer value                     ", Crate "guest::VMX_PREEMPTION_TIMER_VALUE")].

(** Natural-Width Guest-State Fields *)
Definition dump_natural_guest : list (string * Encoding) :=
  [("Guest CR0                                      ", Crate "guest::CR0");
   ("Guest CR3                                      ", Crate "guest::CR3");
   ("Guest CR4                                      ", Crate "guest::CR4");
   ("Guest ES Base                                  ", Crate "guest::ES_BASE");
   ("Guest CS Base                                  ", Crate "guest::CS_BASE");
   ("Guest SS Base                                  ", Crate "guest::SS_BASE");
   ("Guest DS Base                                  ", Crate "guest::DS_BASE");
   ("Guest FS Base                                  ", Crate "guest::FS_BASE");
   ("Guest GS Base                                  ", Crate "guest::GS_BASE");
   ("Guest LDTR base                                ", Crate "guest::LDTR_BASE");
   ("Guest TR base                                  ", Crate "guest::TR_BASE");
   ("Guest GDTR base                                ", Crate "guest::GDTR_BASE");
   ("Guest IDTR base                                ", Crate "guest::IDTR_BASE");
   ("Guest DR7                                      ", Crate "guest::DR7");
   ("Guest RSP                                      ", Crate "guest::RSP");
   ("Guest RIP                                      ", Crate "guest::RIP");
   ("Guest RFLAGS                                   ", Crate "guest::RFLAGS");
   ("Guest pending debug exceptions                 ", Crate "guest::PENDING_DBG_EXCEPTIONS");
   ("Guest IA32_SYSENTER_ESP                        ", Crate "guest::IA32_SYSENTER_ESP");
   ("Guest IA32_SYSENTER_EIP                        ", Crate "guest::IA32_SYSENTER_EIP");
   ("Guest IA32_S_CET                               ", Local VMCS_GUEST_IA32_S_CET);
   ("Guest SSP                                      ", Local VMCS_GUEST_SSP);
   ("Guest IA32_INTERRUPT_SSP_TABLE_ADDR            ", Local VMCS_GUEST_IA32_INTERRUPT_SSP_TABLE_ADDR)].

(** 16-Bit Host-State Fields *)
Definition dump_16_host : list (string * Encoding) :=
  [("Host ES Selector                               ", Crate "host::ES_SELECTOR");
   ("Host CS Selector                               ", Crate "host::CS_SELECTOR");
   ("Host SS Selector                               ", Crate "host::SS_SELECTOR");
   ("Host DS Selector                               ", Crate "host::DS_SELECTOR");
   ("Host FS Selector                               ", Crate "host::FS_SELECTOR");
   ("Host GS Selector                               ", Crate "host::GS_SELECTOR");
   ("Host TR Selector                               ", Crate "host::TR_SELECTOR")].

(** 64-Bit Host-State Fields *)
Definition dump_64_host : list (string * Encoding) :=
  [("Host IA32_PAT                                  ", Crate "host::IA32_PAT_FULL");
   ("Host IA32_EFER                                 ", Crate "host::IA32_EFER_FULL");
   ("Host IA32_PERF_GLOBAL_CTRL                     ", Crate "host::IA32_PERF_GLOBAL_CTRL_FULL");
   ("Host IA32_PKRS                                 ", Local VMCS_HOST_IA32_PKRS)].

(** 32-Bit Host-State Fields *)
Definition dump_32_host : list (string * Encoding) :=
  [("Host IA32_SYSENTER_CS                          ", Crate "host::IA32_SYSENTER_CS")].

(** Natural-Width Host-State Fields *)
Definition dump_natural_host : list (string * Encoding) :=
  [("Host CR0                                       ", Crate "host::CR0");
   ("Host CR3                                       ", Crate "host::CR3");
   ("Host CR4                                       ", Crate "host::CR4");
   ("Host FS Base                                   ", Crate "host::FS_BASE");
   ("Host GS Base                                   ", Crate "host::GS_BASE");
   ("Host TR base                                   ", Crate "host::TR_BASE");
   ("Host GDTR base                                 ", Crate "host::GDTR_BASE");
   ("Host IDTR base                                 ", Crate "host::IDTR_BASE");
   ("Host IA32_SYSENTER_ESP                         ", Crate "host::IA32_SYSENTER_ESP");
   ("Host IA32_SYSENTER_EIP                         ", Crate "host::IA32_SYSENTER_EIP");
   ("Host RSP                                       ", Crate "host::RSP");
   ("Host RIP                                       ", Crate "host::RIP");
   ("Host IA32_S_CET                                ", Local VMCS_HOST_IA32_S_CET);
   ("Host SSP                                       ", Local VMCS_HOST_SSP);
   ("Host IA32_INTERRUPT_SSP_TABLE_ADDR             ", Local VMCS_HOST_IA32_INTERRUPT_SSP_TABLE_ADDR)].

(** 16-Bit Control Fields *)
Definition dump_16_control : list (string * Encoding) :=
  [("Virtual-processor identifier                   ", Crate "control::VPID");
   ("Posted-interrupt notification vector           ", Crate "control::POSTED_INTERRUPT_NOTIFICATION_VECTOR");
   ("EPTP index                                     ", Crate "control::EPTP_INDEX");
   ("HLAT prefix size                               ", Local VMCS_CONTROL_HLAT_PREFIX_SIZE);
   ("Last PID-pointer index                         ", Local VMCS_CONTROL_LAST_PID_POINTER_INDEX)].

(** 64-Bit Control Fields *)
Definition dump_64_control : list (string * Encoding) :=
  [("Address of I/O bitmap A                        ", Crate "control::IO_BITMAP_A_ADDR_FULL");
   ("Address of I/O bitmap B                        ", Crate "control::IO_BITMAP_B_ADDR_FULL");
   ("Address of MSR bitmaps                         ", Crate "control::MSR_BITMAPS_ADDR_FULL");
   ("VM-exit MSR-store address                      ", Crate "control::VMEXIT_MSR_STORE_ADDR_FULL");
   ("VM-exit MSR-load address                       ", Crate "control::VMEXIT_MSR_LOAD_ADDR_FULL");
   ("VM-entry MSR-load address                      ", Crate "control::VMENTRY_MSR_LOAD_ADDR_FULL");
   ("Executive-VMCS pointer                         ", Crate "control::EXECUTIVE_VMCS_PTR_FULL");
   ("PML address                                    ", Crate "control::PML_ADDR_FULL");
   ("TSC offset                                     ", Crate "control::TSC_OFFSET_FULL");
   ("Virtual-APIC address                           ", Crate "control::VIRT_APIC_ADDR_FULL");
   ("APIC-access address                            ", Crate "control::APIC_ACCESS_ADDR_FULL");
   ("Posted-interrupt descriptor address            ", Crate "control::POSTED_INTERRUPT_DESC_ADDR_FULL");
   ("VM-function controls                           ", Crate "control::VM_FUNCTION_CONTROLS_FULL");
   ("EPT pointer                                    ", Crate "control::EPTP_FULL");
   ("EOI-exit bitmap 0                              ", Crate "control::EOI_EXIT0_FULL");
   ("EOI-exit bitmap 1                              ", Crate "control::EOI_EXIT1_FULL");
   ("EOI-exit bitmap 2                              ", Crate "control::EOI_EXIT2_FULL");
   ("EOI-exit bitmap 3                              ", Crate "control::EOI_EXIT3_FULL");
   ("EPTP-list address                              ", Crate "control::EPTP_LIST_ADDR_FULL");
   ("VMREAD-bitmap address                          ", Crate "control::VMREAD_BITMAP_ADDR_FULL");
   ("VMWRITE-bitmap address                         ", Crate "control::VMWRITE_BITMAP_ADDR_FULL");
   ("Virtualization-exception information address   ", Crate "control::VIRT_EXCEPTION_INFO_ADDR_FULL");
   ("XSS-exiting bitmap                             ", Crate "control::XSS_EXITING_BITMAP_FULL");
   ("ENCLS-exiting bitmap                           ", Crate "control::ENCLS_EXITING_BITMAP_FULL");
   ("Sub-page-permission-table pointer              ", Crate "control::SUBPAGE_PERM_TABLE_PTR_FULL");
   ("TSC multiplier                                 ", Crate "control::TSC_MULTIPLIER_FULL");
   ("Tertiary processor-based VM-execution controls ", Local VMCS_CONTROL_TERTIARY_PROCESSOR_BASED_VM_EXECUTION_CONTROLS);
   ("ENCLV-exiting bitmap                           ", Local VMCS_CONTROL_ENCLV_EXITING_BITMAP);
   ("Low PASID directory address                    ", Local VMCS_CONTROL_LOW_PASID_DIRECTORY_ADDRESS);
   ("High PASID directory address                   ", Local VMCS_CONTROL_HIGH_PASID_DIRECTORY_ADDRESS);
   ("Shared EPT pointer                             ", Local VMCS_CONTROL_SHARED_EPT_POINTER);
   ("PCONFIG-exiting bitmap                         ", Local VMCS_CONTROL_PCONFIG_EXITING_BITMAP);
   ("HLATP                                          ", Local VMCS_CONTROL_HLATP);
   ("PID-pointer table address                      ", Local VMCS_CONTROL_PID_POINTER_TABLE_ADDRESS);
   ("Secondary VM-exit controls                     ", Local VMCS_CONTROL_SECONDARY_VM_EXIT_CONTROLS);
   ("IA32_SPEC_CTRL mask                            ", Local VMCS_CONTROL_IA32_SPEC_CTRL_MASK);
   ("IA32_SPEC_CTRL shadow                          ", Local VMCS_CONTROL_IA32_SPEC_CTRL_SHADOW)].

(** 32-Bit Control Fields *)
Definition dump_32_control : list (string * Encoding) :=
  [("Pin-based VM-execution controls                ", Crate "control::PINBASED_EXEC_CONTROLS");
   ("Primary processor-based VM-execution controls  ", Crate "control::PRIMARY_PROCBASED_EXEC_CONTROLS");
   ("Exception bitmap                               ", Crate "control::EXCEPTION_BITMAP");
   ("Page-fault error-code mask                     ", Crate "control::PAGE_FAULT_ERR_CODE_MASK");
   ("Page-fault error-code match                    ", Crate "control::PAGE_FAULT_ERR_CODE_MATCH");
   ("CR3-target count                               ", Crate "control::CR3_TARGET_COUNT");
   ("Primary VM-exit controls                       ", Crate "control::VMEXIT_CONTROLS");
   ("VM-exit MSR-store count                        ", Crate "control::VMEXIT_MSR_STORE_COUNT");
   ("VM-exit MSR-load count                         ", Crate "control::VMEXIT_MSR_LOAD_COUNT");
   ("VM-entry controls                              ", Crate "control::VMENTRY_CONTROLS");
   ("VM-entry MSR-load count                        ", Crate "control::VMENTRY_MSR_LOAD_COUNT");
   ("VM-entry interruption-information field        ", Crate "control::VMENTRY_INTERRUPTION_INFO_FIELD");
   ("VM-entry exception error code                  ", Crate "control::VMENTRY_EXCEPTION_ERR_CODE");
   ("VM-entry instruction length                    ", Crate "control::VMENTRY_INSTRUCTION_LEN");
   ("TPR threshold                                  ", Crate "control::TPR_THRESHOLD");
   ("Secondary processor-based VM-execution controls", Crate "control::SECONDARY_PROCBASED_EXEC_CONTROLS");
   ("PLE_Gap                                        ", Crate "control::PLE_GAP");
   ("PLE_Window                                     ", Crate "control::PLE_WINDOW");
   ("Instruction-timeout control                    ", Local VMCS_CONTROL_INSTRUCTION_TIMEOUT_CONTROL)].

(** Natural-Width Control Fields *)
Definition dump_natural_control : list (string * Encoding) :=
  [("CR0 guest/host mask                            ", Crate "control::CR0_GUEST_HOST_MASK");
   ("CR4 guest/host mask                            ", Crate "control::CR4_GUEST_HOST_MASK");
   ("CR0 read shadow                                ", Crate "control::CR0_READ_SHADOW");
   ("CR4 read shadow                                ", Crate "control::CR4_READ_SHADOW");
   ("CR3-target value 0                             ", Crate "control::CR3_TARGET_VALUE0");
   ("CR3-target value 1                             ", Crate "control::CR3_TARGET_VALUE1");
   ("CR3-target value 2                             ", Crate "control::CR3_TARGET_VALUE2");
   ("CR3-target value 3                             ", Crate "control::CR3_TARGET_VALUE3")].

(** 16-Bit Read-Only Data Fields *)
Definition dump_16_read_only : list (string * Encoding) :=
  [].

(** 64-Bit Read-Only Data Fields *)
Definition dump_64_read_only : list (string * Encoding) :=
  [("Guest-physical address                         ", Crate "ro::GUEST_PHYSICAL_ADDR_FULL")].

(** 32-Bit Read-Only Data Fields *)
Definition dump_32_read_only : list (string * Encoding) :=
  [("VM-instruction error                           ", Crate "ro::VM_INSTRUCTION_ERROR");
   ("Exit reason                                    ", Crate "ro::EXIT_REASON");
   ("VM-exit interruption information               ", Crate "ro::VMEXIT_INTERRUPTION_INFO");
   ("VM-exit interruption error code                ", Crate "ro::VMEXIT_INTERRUPTION_ERR_CODE");
   ("IDT-vectoring information field                ", Crate "ro::IDT_VECTORING_INFO");
   ("IDT-vectoring error code                       ", Crate "ro::IDT_VECTORING_ERR_CODE");
   ("VM-exit instruction length                     ", Crate "ro::VMEXIT_INSTRUCTION_LEN");
   ("VM-exit instruction information                ", Crate "ro::VMEXIT_INSTRUCTION_INFO")].

(** Natural-Width Read-Only Data Fields *)
Definition dump_natural_read_only : list (string * Encoding) :=
  [("Exit qualification                             ", Crate "ro::EXIT_QUALIFICATION");
   ("I/O RCX                                        ", Crate "ro::IO_RCX");
   ("I/O RSI                                        ", Crate "ro::IO_RSI");
   ("I/O RDI                                        ", Crate "ro::IO_RDI");
   ("I/O RIP                                        ", Crate "ro::IO_RIP");
   ("Guest-linear address                           ", Crate "ro::GUEST_LINEAR_ADDR")].

(** The parts of the dump, with the width and the type its comments give. *)
Inductive FieldWidth : Type := W16 | W64 | W32 | WNatural.
Inductive FieldArea : Type := Control | ReadOnly | GuestState | HostState.

Definition dump_sections : list (FieldWidth * FieldArea * list (string * Encoding)) :=
  [(W16, GuestState, dump_16_guest); (W64, GuestState, dump_64_guest); (W32, GuestState, dump_32_guest);
   (WNatural, GuestState, dump_natural_guest); (W16, HostState, dump_16_host); (W64, HostState, dump_64_host);
   (W32, HostState, dump_32_host); (WNatural, HostState, dump_natural_host); (W16, Control, dump_16_control);
   (W64, Control, dump_64_control); (W32, Control, dump_32_control); (WNatural, Control, dump_natural_control);
   (W16, ReadOnly, dump_16_read_only); (W64, ReadOnly, dump_64_read_only); (W32, ReadOnly, dump_32_read_only);
   (WNatural, ReadOnly, dump_natural_read_only)].

Definition dump_fields : list (string * Encoding) := concat (map snd dump_sections).

(** ** The dump *)

(** The names the fields of the model have in the crate. *)
Definition field_name (f : VmcsField) : string :=
  match f with
  | guest_ES_SELECTOR => "guest::ES_SELECTOR"
  | guest_CS_SELECTOR => "guest::CS_SELECTOR"
  | guest_SS_SELECTOR => "guest::SS_SELECTOR"
  | guest_DS_SELECTOR => "guest::DS_SELECTOR"
  | guest_FS_SELECTOR => "guest::FS_SELECTOR"
  | guest_GS_SELECTOR => "guest::GS_SELECTOR"
  | guest_LDTR_SELECTOR => "guest::LDTR_SELECTOR"
  | guest_TR_SELECTOR => "guest::TR_SELECTOR"
  | guest_ES_BASE => "guest::ES_BASE"
  | guest_CS_BASE => "guest::CS_BASE"
  | guest_SS_BASE => "guest::SS_BASE"
  | guest_DS_BASE => "guest::DS_BASE"
  | guest_FS_BASE => "guest::FS_BASE"
  | guest_GS_BASE => "guest::GS_BASE"
  | guest_LDTR_BASE => "guest::LDTR_BASE"
  | guest_TR_BASE => "guest::TR_BASE"
  | guest_ES_LIMIT => "guest::ES_LIMIT"
  | guest_CS_LIMIT => "guest::CS_LIMIT"
  | guest_SS_LIMIT => "guest::SS_LIMIT"
  | guest_DS_LIMIT => "guest::DS_LIMIT"
  | guest_FS_LIMIT => "guest::FS_LIMIT"
  | guest_GS_LIMIT => "guest::GS_LIMIT"
  | guest_LDTR_LIMIT => "guest::LDTR_LIMIT"
  | guest_TR_LIMIT => "guest::TR_LIMIT"
  | guest_ES_ACCESS_RIGHTS => "guest::ES_ACCESS_RIGHTS"
  | guest_CS_ACCESS_RIGHTS => "guest::CS_ACCESS_RIGHTS"
  | guest_SS_ACCESS_RIGHTS => "guest::SS_ACCESS_RIGHTS"
  | guest_DS_ACCESS_RIGHTS => "guest::DS_ACCESS_RIGHTS"
  | guest_FS_ACCESS_RIGHTS => "guest::FS_ACCESS_RIGHTS"
  | guest_GS_ACCESS_RIGHTS => "guest::GS_ACCESS_RIGHTS"
  | guest_LDTR_ACCESS_RIGHTS => "guest::LDTR_ACCESS_RIGHTS"
  | guest_TR_ACCESS_RIGHTS => "guest::TR_ACCESS_RIGHTS"
  | guest_GDTR_BASE => "guest::GDTR_BASE"
  | guest_GDTR_LIMIT => "guest::GDTR_LIMIT"
  | guest_IDTR_BASE => "guest::IDTR_BASE"
  | guest_IDTR_LIMIT => "guest::IDTR_LIMIT"
  | guest_IA32_SYSENTER_CS => "guest::IA32_SYSENTER_CS"
  | guest_IA32_SYSENTER_ESP => "guest::IA32_SYSENTER_ESP"
  | guest_IA32_SYSENTER_EIP => "guest::IA32_SYSENTER_EIP"
  | guest_IA32_EFER_FULL => "guest::IA32_EFER_FULL"
  | guest_LINK_PTR_FULL => "guest::LINK_PTR_FULL"
  | guest_ACTIVITY_STATE => "guest::ACTIVITY_STATE"
  | guest_CR0 => "guest::CR0"
  | guest_CR3 => "guest::CR3"
  | guest_CR4 => "guest::CR4"
  | guest_RSP => "guest::RSP"
  | guest_RIP => "guest::RIP"
  | guest_RFLAGS => "guest::RFLAGS"
  | host_ES_SELECTOR => "host::ES_SELECTOR"
  | host_CS_SELECTOR => "host::CS_SELECTOR"
  | host_SS_SELECTOR => "host::SS_SELECTOR"
  | host_DS_SELECTOR => "host::DS_SELECTOR"
  | host_FS_SELECTOR => "host::FS_SELECTOR"
  | host_GS_SELECTOR => "host::GS_SELECTOR"
  | host_TR_SELECTOR => "host::TR_SELECTOR"
  | host_CR0 => "host::CR0"
  | host_CR3 => "host::CR3"
  | host_CR4 => "host::CR4"
  | host_FS_BASE => "host::FS_BASE"
  | host_GS_BASE => "host::GS_BASE"
  | host_TR_BASE => "host::TR_BASE"
  | host_GDTR_BASE => "host::GDTR_BASE"
  | host_IDTR_BASE => "host::IDTR_BASE"
  | host_RSP => "host::RSP"
  | host_RIP => "host::RIP"
  | control_VMEXIT_CONTROLS => "control::VMEXIT_CONTROLS"
  | control_VMENTRY_CONTROLS => "control::VMENTRY_CONTROLS"
  | control_PINBASED_EXEC_CONTROLS => "control::PINBASED_EXEC_CONTROLS"
  | control_PRIMARY_PROCBASED_EXEC_CONTROLS => "control::PRIMARY_PROCBASED_EXEC_CONTROLS"
  | control_SECONDARY_PROCBASED_EXEC_CONTROLS => "control::SECONDARY_PROCBASED_EXEC_CONTROLS"
  | control_MSR_BITMAPS_ADDR_FULL => "control::MSR_BITMAPS_ADDR_FULL"
  | control_EPTP_FULL => "control::EPTP_FULL"
  | control_CR0_READ_SHADOW => "control::CR0_READ_SHADOW"
  | control_CR4_READ_SHADOW => "control::CR4_READ_SHADOW"
  | ro_EXIT_REASON => "ro::EXIT_REASON"
  | ro_EXIT_QUALIFICATION => "ro::EXIT_QUALIFICATION"
  | ro_VMEXIT_INSTRUCTION_LEN => "ro::VMEXIT_INSTRUCTION_LEN"
  | ro_VM_INSTRUCTION_ERROR => "ro::VM_INSTRUCTION_ERROR"
  end.

(** The encodings of the crate, which are those of the processor: a field is
    found by its encoding. *)
Class X86Vmcs : Type := {
  vmcs_encoding : string -> Z;
  vmcs_decode : Z -> option VmcsField;
  vmcs_decode_encoding : forall f, vmcs_decode (vmcs_encoding (field_name f)) = Some f;
}.

Section Dump.
Context {XV : X86Vmcs}.

Definition encoding (e : Encoding) : Z := match e with Crate name => vmcs_encoding name | Local z => z end.

(** [x86::bits64::vmx::vmread]: an error without a current VMCS or, for fields
    the model does not have, when [others] has no value. *)
Definition x86_vmread (others : Z -> option Z) (m : Machine) (e : Z) : option Z :=
  match current_vmcs m with
  | Some pa => match vmcs_decode e with Some f => Some (vmcs_data m pa f) | None => others e end
  | None => None
  end.

Section Fmt.
Context {St : Type} (write_str : string -> St -> option St) (vmread : Z -> option Z).

(** [vmread_relaxed] *)
Definition vmread_relaxed (e : Z) : Z := default 0 (vmread e).

(** [fmt]; [address] is that of the VMCS. *)
Definition fmt (address revision_id : Z) (format : St) : option St :=
  let d := debug_struct write_str "Vmcs" format in
  let d := debug_field write_str "Current VMCS                                   " (fmt_pointer address) d in
  let d := debug_field write_str "Revision ID                                    " (fmt_int revision_id) d in
  let d := foldl (fun d '(label, e) => debug_field write_str label (fmt_int (vmread_relaxed (encoding e))) d) d dump_fields in
  finish_non_exhaustive write_str d.
End Fmt.
End Dump.

(** A sink that takes everything, as the loggers are. *)
Definition append (x s : string) : option string := Some (s +:+ x).

(** A line of the dump. *)
Definition line (label value : string) : string := "    " +:+ label +:+ ": " +:+ value +:+ "," +:+ nl.

Definition cat (l : list string) : string := foldr String.append EmptyString l.

(** How a reader reads a number of the dump back. *)
Definition digit_value (c : Ascii.ascii) : Z :=
  let n := Z.of_nat (Ascii.nat_of_ascii c) in if n <? 58 then n - 48 else n - 87.

Fixpoint read_digits (a : Z) (s : string) : Z :=
  match s with EmptyString => a | String c s' => read_digits (a * 16 + digit_value c) s' end.

Definition read_hex (s : string) : option Z :=
  match s with String "0"%char (String "x"%char s') => Some (read_digits 0 s') | _ => None end.

(** The parts of an encoding (SDM, Structure of VMCS Component Encoding). *)
Definition width_code (w : FieldWidth) : Z := match w with W16 => 0 | W64 => 1 | W32 => 2 | WNatural => 3 end.
Definition area_code (a : FieldArea) : Z :=
  match a with Control => 0 | ReadOnly => 1 | GuestState => 2 | HostState => 3 end.

(** ** Lemmas *)

#[local] Arguments String.append !_ _ / : simpl nomatch.

Lemma cat_app l1 l2 : cat (l1 ++ l2) = cat l1 +:+ cat l2.
Proof. induction l1 as [|x l1 IH]; [done|].
  change (x +:+ cat (l1 ++ l2) = (x +:+ cat l1) +:+ cat l2). by rewrite IH, append_assoc.
Qed.

Lemma writes_append l s : writes append l s = Some (s +:+ cat l).
Proof.
  revert s. induction l as [|x l IH]; intros s; cbn [writes append cat foldr]; [by rewrite append_nil|].
  rewrite IH. by rewrite append_assoc.
Qed.

(** *** Padding, on the text that comes out *)

Fixpoint pad_text (on_newline : bool) (s : string) : string :=
  match s with
  | EmptyString => EmptyString
  | String c s' => (if on_newline then "    " else "") +:+ String c (pad_text (Ascii.eqb c newline) s')
  end.

Fixpoint at_newline (on_newline : bool) (s : string) : bool :=
  match s with EmptyString => on_newline | String c s' => at_newline (Ascii.eqb c newline) s' end.

Lemma pad_text_app on a b : pad_text on (a +:+ b) = pad_text on a +:+ pad_text (at_newline on a) b.
Proof.
  revert on. induction a as [|c a IH]; intros on; [done|].
  change (String c a +:+ b) with (String c (a +:+ b)). cbn [pad_text at_newline]. rewrite IH. by destruct on.
Qed.

Lemma ends_with_newline_at s on : s <> "" -> ends_with_newline s = at_newline on s.
Proof.
  revert on. induction s as [|c s IH]; intros on Hne; [done|]. cbn [at_newline].
  destruct s as [|c' s]; [done|]. rewrite <- IH by done. done.
Qed.

Lemma pad_chunks_text s on : let '(out, on') := pad_chunks on (split_inclusive s) in
  cat out = pad_text on s /\ on' = at_newline on s.
Proof.
  revert on. induction s as [|c s IH]; intros on; [done|]. cbn [split_inclusive pad_text at_newline].
  destruct (Ascii.eqb_spec c newline) as [->|Hc].
  - cbn [pad_chunks]. change (ends_with_newline (String newline "")) with true. specialize (IH true).
    destruct (pad_chunks true _) as [out on']. destruct IH as [IH ->]. split; [|done]. rewrite cat_app.
    cbn [cat foldr]. fold (cat out). rewrite IH. by destruct on.
  - specialize (IH false). destruct (split_inclusive s) as [|chunk chunks] eqn:Hs.
    + destruct IH as [IH1 IH2]. cbn [pad_chunks app cat foldr]. cbn in IH1. rewrite <- IH1.
      assert (s = "") as -> by (destruct s as [|c' s]; [done|]; cbn in IH1; done).
      destruct on; split; try done; cbn; by apply Ascii.eqb_neq.
    + assert (chunk <> "") as Hne.
      { destruct s as [|c' s]; [done|]. cbn in Hs. destruct (Ascii.eqb c' newline); [by injection Hs as <- _|].
        destruct (split_inclusive s); by injection Hs as <- _. }
      cbn [pad_chunks] in IH |- *.
      assert (ends_with_newline (String c chunk) = ends_with_newline chunk) as -> by (destruct chunk; done).
      destruct (pad_chunks _ chunks) as [out on']. destruct IH as [IH1 IH2]. split; [|done].
      rewrite cat_app. cbn [app cat foldr] in IH1 |- *. rewrite <- IH1. by destruct on.
Qed.

Lemma pad_spec on l : cat (pad on l) = pad_text on (cat l).
Proof.
  revert on. induction l as [|s l IH]; intros on; [done|]. cbn [pad cat foldr]. pose proof (pad_chunks_text s on) as H.
  destruct (pad_chunks on _) as [out on']. destruct H as [H ->]. rewrite cat_app, H. fold (cat l).
  rewrite pad_text_app. f_equal. apply IH.
Qed.

Definition plain (s : string) : bool := forallb (fun c => negb (Ascii.eqb c newline)) (String.list_ascii_of_string s).

Lemma plain_app a b : plain (a +:+ b) = plain a && plain b.
Proof. unfold plain. induction a as [|c a IH]; [done|]. cbn. rewrite IH. by rewrite andb_assoc. Qed.

Lemma pad_plain s t : plain s = true -> pad_text false (s +:+ t) = s +:+ pad_text false t.
Proof.
  induction s as [|c s IH]; intros H; [done|]. cbn in H |- *. apply andb_prop in H as [Hc Hs].
  apply negb_true_iff in Hc. rewrite Hc. by rewrite IH.
Qed.

(** A field with its name and its value on one line. *)
Lemma pad_line label value : plain label = true -> label <> "" -> plain value = true ->
  pad_text true (label +:+ ": " +:+ value +:+ "," +:+ nl) = line label value.
Proof.
  intros Hl Hne Hv. assert (forall s, s <> "" -> plain s = true -> forall t, pad_text true (s +:+ t) = "    " +:+ pad_text false (s +:+ t)) as H.
  { intros [|c s] Hs Hp t; done. }
  rewrite H, pad_plain by done. unfold line. do 2 f_equal.
  change (": " +:+ value +:+ "," +:+ nl) with (String ":" (String " " (value +:+ "," +:+ nl))).
  change (pad_text false (String ":" (String " " (value +:+ "," +:+ nl))))
    with (String ":" (String " " (pad_text false (value +:+ "," +:+ nl)))).
  by rewrite pad_plain by done.
Qed.

(** *** Numbers *)

Lemma hex_digit_ok d : in_width 4 d -> digit_value (hex_digit d) = d /\ Ascii.eqb (hex_digit d) newline = false.
Proof.
  intros [H1 H2]. assert (d ∈ seqZ 0 16) as Hd by (apply elem_of_seqZ; lia). clear H1 H2. revert d Hd.
  list_cases; done.
Qed.

Lemma hex_digits_read fuel x acc : in_width (4 * Z.of_nat fuel) x -> (0 < fuel)%nat ->
  read_digits 0 (hex_digits fuel x acc) = read_digits x acc.
Proof.
  revert x acc. induction fuel as [|fuel IH]; intros x acc [H0 H1] Hf; [lia|]. cbn [hex_digits].
  pose proof (Z.div_mod x 16 ltac:(done)) as Hx. pose proof (Z.mod_pos_bound x 16 ltac:(done)) as Hm.
  destruct (hex_digit_ok (x mod 16)) as [Hd _]; [unfold in_width; lia|].
  destruct (Z.ltb_spec x 16).
  - cbn [read_digits]. rewrite Hd. f_equal. rewrite Z.mod_small by lia. lia.
  - assert (2 ^ (4 * Z.of_nat (S fuel)) = 2 ^ (4 * Z.of_nat fuel) * 16) as Hp.
    { rewrite Nat2Z.inj_succ. replace (4 * Z.succ (Z.of_nat fuel)) with (4 * Z.of_nat fuel + 4) by lia.
      by rewrite Z.pow_add_r by lia. }
    rewrite Hp in H1. destruct fuel as [|fuel]; [cbn in H1; lia|].
    rewrite IH; [|split; [apply Z.div_pos; lia|apply Z.div_lt_upper_bound; lia]|lia].
    cbn [read_digits]. rewrite Hd. f_equal. lia.
Qed.

Lemma hex_digits_plain fuel x acc : plain acc = true -> plain (hex_digits fuel x acc) = true.
Proof.
  revert x acc. induction fuel as [|fuel IH]; intros x acc H; [done|]. cbn [hex_digits].
  destruct (hex_digit_ok (x mod 16)) as [_ Hd]; [apply Z.mod_pos_bound; lia|].
  assert (plain (String (hex_digit (x mod 16)) acc) = true) as Hp by (cbn; rewrite Hd; exact H).
  destruct (x <? 16); [done|by apply IH].
Qed.

Lemma read_zeros n s : read_digits 0 (cat (replicate n "0") +:+ s) = read_digits 0 s.
Proof. induction n as [|n IH]; [done|]. exact IH. Qed.

Lemma read_hex_int x : in_width 64 x -> read_hex (cat (fmt_int x)) = Some x.
Proof.
  intros Hx. cbn [fmt_int cat foldr]. rewrite append_nil. change (Some (read_digits 0 (digits x)) = Some x).
  f_equal. apply (hex_digits_read 16); [exact Hx|lia].
Qed.

Lemma read_hex_pointer x : in_width 64 x -> read_hex (cat (fmt_pointer x)) = Some x.
Proof.
  intros Hx. unfold fmt_pointer. set (n := (16 - _)%nat).
  change (Some (read_digits 0 (cat (replicate n "0" ++ [digits x]))) = Some x). f_equal.
  rewrite cat_app, read_zeros. cbn [cat foldr]. rewrite append_nil. apply (hex_digits_read 16); [exact Hx|lia].
Qed.

Lemma fmt_int_plain x : plain (cat (fmt_int x)) = true.
Proof. cbn [fmt_int cat foldr]. rewrite append_nil, plain_app. by apply hex_digits_plain. Qed.

Lemma fmt_pointer_plain x : plain (cat (fmt_pointer x)) = true.
Proof.
  unfold fmt_pointer. set (n := (16 - _)%nat). clearbody n. change (plain (cat (replicate n "0" ++ [digits x])) = true).
  induction n as [|n IH]; [|exact IH]. change (plain (digits x +:+ "") = true). rewrite append_nil.
  by apply hex_digits_plain.
Qed.

(** *** The structure *)

Definition label_ok (label : string) : bool := plain label && bool_decide (String.length label = 47%nat).

Lemma label_ok_spec label : label_ok label = true -> plain label = true /\ label <> "".
Proof. unfold label_ok. intros H. apply andb_prop in H as [Hp Hl]. split; [done|]. by intros ->. Qed.

Definition open_brace (b : bool) : string := if b then "" else " {" +:+ nl.

Lemma debug_field_append label value s b : label_ok label = true -> plain (cat value) = true ->
  debug_field append label value (mk_debug_struct (Some s) b) =
    mk_debug_struct (Some (s +:+ open_brace b +:+ line label (cat value))) true.
Proof.
  intros Hl Hv. apply label_ok_spec in Hl as [Hl Hne]. unfold debug_field. cbn [result has_fields].
  rewrite writes_append, cat_app, pad_spec. do 3 f_equal.
  assert (cat ([label; ": "] ++ value ++ ["," +:+ nl]) = label +:+ ": " +:+ cat value +:+ "," +:+ nl) as ->.
  { rewrite cat_app, cat_app. cbn [cat foldr]. rewrite !append_nil, !append_assoc. done. }
  rewrite pad_line by done. by destruct b.
Qed.

Section Lines.
Context {XV : X86Vmcs} (vmread : Z -> option Z).

Definition shown (e : Encoding) : string := cat (fmt_int (vmread_relaxed vmread (encoding e))).

Lemma dump_lines l s : forallb (fun p => label_ok p.1) l = true ->
  foldl (fun d '(label, e) => debug_field append label (fmt_int (vmread_relaxed vmread (encoding e))) d)
    (mk_debug_struct (Some s) true) l =
  mk_debug_struct (Some (s +:+ cat (map (fun '(label, e) => line label (shown e)) l))) true.
Proof.
  revert s. induction l as [|[label e] l IH]; intros s H; cbn [foldl map cat foldr]; [by rewrite append_nil|].
  cbn in H. apply andb_prop in H as [H1 H2]. rewrite debug_field_append by (done || apply fmt_int_plain).
  rewrite IH by done. cbn [open_brace]. by rewrite append_assoc.
Qed.
End Lines.

(** The text of a dump. *)
Definition dump_text {XV : X86Vmcs} (vmread : Z -> option Z) (address revision_id : Z) : string :=
  "Vmcs {" +:+ nl +:+
  line "Current VMCS                                   " (cat (fmt_pointer address)) +:+
  line "Revision ID                                    " (cat (fmt_int revision_id)) +:+
  cat (map (fun '(label, e) => line label (shown vmread e)) dump_fields) +:+ "    .." +:+ nl +:+ "}".

Lemma labels_ok : forallb (fun p => label_ok p.1) dump_fields = true.
Proof. by vm_compute. Qed.

Lemma fmt_text {XV : X86Vmcs} (vmread : Z -> option Z) address revision_id :
  fmt append vmread address revision_id "" = Some (dump_text vmread address revision_id).
Proof.
  unfold fmt. change (debug_struct append "Vmcs" "") with (mk_debug_struct (Some "Vmcs") false). cbn zeta.
  rewrite debug_field_append by (done || apply fmt_pointer_plain).
  rewrite debug_field_append by (done || apply fmt_int_plain).
  rewrite dump_lines by apply labels_ok. unfold finish_non_exhaustive. cbn [result has_fields].
  rewrite writes_append. f_equal. unfold dump_text. by rewrite !append_assoc.
Qed.

(** Where the encodings of the source itself belong. *)
Definition local_ok (s : FieldWidth * FieldArea * list (string * Encoding)) : bool :=
  let '(w, a, rows) := s in
  forallb (fun row => match row.2 with
    | Local z => (field z 13 2 =? width_code w) && (field z 10 2 =? area_code a) && Z.even z && (z <? 2 ^ 15)
    | Crate _ => true
    end) rows.

Definition shows_field (f : VmcsField) : bool :=
  existsb (fun row => match row.2 with Crate name => String.eqb name (field_name f) | Local _ => false end) dump_fields.

Lemma shows_field_spec f : exists label, (label, Crate (field_name f)) ∈ dump_fields.
Proof.
  assert (shows_field f = true) as H by (destruct f; vm_compute; reflexivity). unfold shows_field in H.
  apply existsb_exists in H as ([label e] & Hin & H). cbn [snd] in H. destruct e as [name|]; [|done].
  apply String.eqb_eq in H as ->. exists label. by apply list_elem_of_In.
Qed.

(** C39: the dump of a VMCS always succeeds, with one line per field and the
    text core::fmt documents; every field the hypervisor uses has its line,
    with the value the current VMCS has, which reads back, and with zero when
    there is no current VMCS, where the [vmread] of the hypervisor panics.  No
    two lines have the same label, and each encoding that the source defines
    itself has the width and the type of the section it is printed in. *)
Theorem vmcs_dump_spec {XV : X86Vmcs} others m address revision_id :
  (forall e v, others e = Some v -> in_width 64 v) -> (forall pa f, in_width 64 (vmcs_data m pa f)) ->
  let vmread := x86_vmread others m in
  fmt append vmread address revision_id "" = Some (dump_text vmread address revision_id) /\
  (forall f, exists label value, (label, Crate (field_name f)) ∈ dump_fields /\
     shown vmread (Crate (field_name f)) = value /\
     read_hex value = Some (match current_vmcs m with Some pa => vmcs_data m pa f | None => 0 end)) /\
  (current_vmcs m = None -> forall f, is_ok (Machine.vmread f m) = false) /\
  (forall label e, (label, e) ∈ dump_fields -> read_hex (shown vmread e) = Some (default 0 (vmread (encoding e)))) /\
  NoDup dump_fields.*1 /\
  (forall w a rows label z, (w, a, rows) ∈ dump_sections -> (label, Local z) ∈ rows ->
     field z 13 2 = width_code w /\ field z 10 2 = area_code a /\ Z.even z = true).
Proof.
  intros Ho Hm vmread. assert (forall e, in_width 64 (default 0 (vmread e))) as Hw.
  { intros e. unfold vmread, x86_vmread. destruct (current_vmcs m); [|done].
    destruct (vmcs_decode e); [apply Hm|]. destruct (others e) eqn:He; [by apply (Ho e)|done]. }
  split_and!.
  - apply fmt_text.
  - intros f. destruct (shows_field_spec f) as [label Hl]. eexists label, _. split; [exact Hl|]. split; [reflexivity|].
    unfold shown. rewrite read_hex_int by apply Hw. f_equal. unfold vmread_relaxed, vmread, x86_vmread. cbn [encoding].
    rewrite vmcs_decode_encoding. by destruct (current_vmcs m).
  - intros Hc f. unfold Machine.vmread. by rewrite Hc.
  - intros label e _. apply read_hex_int, Hw.
  - apply (bool_decide_unpack _). vm_compute. exact I.
  - intros w a rows label z Hs Hr. assert (forallb local_ok dump_sections = true) as Hall by by vm_compute.
    rewrite forallb_forall in Hall. specialize (Hall _ (proj1 (list_elem_of_In _ _) Hs)). cbn [local_ok] in Hall.
    rewrite forallb_forall in Hall. specialize (Hall _ (proj1 (list_elem_of_In _ _) Hr)). cbn [snd] in Hall.
    repeat (apply andb_prop in Hall as [Hall ?]). split_and!; [by apply Z.eqb_eq..|done].
Qed.

(** ** A concrete dump *)

Module DumpExample.
Import Reference.

(** Encodings by the position of the name. *)
Definition names : list string := map field_name VmcsField_all.

#[local, refine] Instance x86_vmcs : X86Vmcs := {
  vmcs_encoding s := match list_find (eq s) names with Some (i, _) => Z.of_nat i | None => -1 end;
  vmcs_decode e := if e <? 0 then None else VmcsField_all !! Z.to_nat e
}.
Proof. by intros []; vm_compute. Defined.

(** The current VMCS has EPTP 0x1005e. *)
Definition current : Machine :=
  mk_machine (fun _ => 0) ∅ (fun _ => 0) (fun _ => 0) (VmxRoot 0x1000 (Some 0x2000))
    {[ 0x2000 := fset control_EPTP_FULL 0x1005e (fun _ => 0) ]} (fun _ _ => mk_cpuid 0 0 0 0) (fun _ => (0, 0)) (fun _ => (0, 0)).

Lemma vmcs_dump_spec_witness : exists label value,
  (label, Crate "control::EPTP_FULL") ∈ dump_fields /\ read_hex value = Some 0x1005e /\
  value = cat (fmt_int 0x1005e) /\ read_hex (shown (x86_vmread (fun _ => None) current) (Local VMCS_GUEST_SSP)) = Some 0.
Proof.
  assert (forall pa f, in_width 64 (vmcs_data current pa f)) as Hm.
  { intros pa f. unfold vmcs_data, current. cbn [vmcss]. destruct (decide (pa = 0x2000)) as [->|Hne].
    - rewrite lookup_singleton_eq. change (in_width 64 (fset control_EPTP_FULL 0x1005e (fun _ => 0) f)).
      destruct (decide (control_EPTP_FULL = f)) as [<-|Hf].
      + rewrite fset_same. unfold in_width. lia.
      + rewrite fset_other by exact Hf. unfold in_width. lia.
    - rewrite lookup_singleton_ne by congruence. change (in_width 64 0). unfold in_width. lia. }
  destruct (vmcs_dump_spec (fun _ => None) current 0xffff800000001000 1) as (_ & Hf & _ & Hv & _);
    [intros e v H; discriminate H|exact Hm|].
  destruct (Hf control_EPTP_FULL) as (label & value & Hin & Hs & Hr). exists label, value.
  split; [exact Hin|]. split; [exact Hr|]. split; [rewrite <- Hs; vm_compute; reflexivity|].
  apply (Hv "Guest SSP                                      "). apply (list_elem_of_lookup_2 _ 68). vm_compute. reflexivity.
Defined.
End DumpExample.
