(* ===== verification/Support.v ===== *)
(** * Boxes, the panic handler, and how far the heap reaches (hvcore support.rs, panic.rs)

    [zeroed_box] over the allocator of allocator.rs and the bytes of memory,
    the types it is used for, what [Vmxon::default] and [Vmcs::new] put into
    their boxes, and the number of processors the heap suffices for. *)

From S2P Require Import Prelude External Machine Platform Allocator Host Vmcb Tables Layout System.

(** ** What is boxed *)

(** [Table] has [entries: [Entry; 512]] and is aligned to 4096 bytes. *)
Definition Table_decl {F : Type} (count : Z) : FieldDecl F := array None u64 (512 * count).

(** [PagingStructuresRaw] (paging_structures.rs) *)
Definition PagingStructuresRaw_decl : list (FieldDecl Empty_set) :=
  [Table_decl 1; Table_decl 1; Table_decl 512; Table_decl 1; Table_decl 1].

(** [Epts] (intel/epts.rs) *)
Definition Epts_decl : list (FieldDecl Empty_set) := [Table_decl 1; Table_decl 512; Table_decl 512; Table_decl 1].

(** [Page] (support.rs) and [HostStateAreaRaw] (amd/guest.rs) *)
Definition Page : list (FieldDecl Empty_set) := [array None u8 4096].
Definition HostStateAreaRaw : list (FieldDecl Empty_set) := [array None u8 0x1000].

(** The types of the boxes; the stack of switch_stack.rs is allocated in the
    same way. *)
Inductive Boxed : Type :=
  | Stack | ThePage | TheVmcb | TheHostStateArea | TheVmcs | TheVmxon | TheIdt | ThePagingStructures | TheEpts.

(** [Layout::new::<T>()]; all of them are aligned to a page. *)
Definition layout_of (b : Boxed) : Allocator.Layout :=
  match b with
  | Stack => stack_layout
  | ThePage => mk_layout (size_of 4096 Page) 4096
  | TheVmcb => mk_layout VmcbRaw_size 4096
  | TheHostStateArea => mk_layout (size_of 4096 HostStateAreaRaw) 4096
  | TheVmcs => mk_layout (size_of 4096 VmcsRaw) 4096
  | TheVmxon => mk_layout (size_of 4096 VmxonRaw) 4096
  | TheIdt => mk_layout (0x100 * size_of_gate) 4096
  | ThePagingStructures => mk_layout (size_of 4096 PagingStructuresRaw_decl) 4096
  | TheEpts => mk_layout (size_of 4096 Epts_decl) 4096
  end.

Section Support.
Context {P : Profile} {B : Type} {BA : BitArray B}.

(** The allocator and the bytes of memory. *)
Record Memory : Type := mk_memory { heap : option (Metadata B); byte : Z -> Z }.

Definition write_bytes (p v n : Z) (m : Z -> Z) : Z -> Z :=
  fun a => if (p <=? a) && (a <? p + n) then v else m a.

(** [GlobalAlloc::alloc_zeroed], which allocator.rs does not override. *)
Definition alloc_zeroed (layout : Allocator.Layout) : M Memory Z := fun s =>
  let? (p, h) := alloc layout (heap s) in
  Ok (p, mk_memory h (if p =? 0 then byte s else write_bytes p 0 (layout_size layout) (byte s))).

(** [zeroed_box::<T>()]: the address of the box. *)
Definition zeroed_box (b : Boxed) : M Memory Z :=
  let! ptr := alloc_zeroed (layout_of b) in
  if ptr =? 0 then mpanic "handle_alloc_error" else ret ptr.

(** A 32-bit field, little endian. *)
Definition store32 (p v : Z) : M Memory unit :=
  modify (fun s => mk_memory (heap s) (fun a => if (p <=? a) && (a <? p + 4) then field v (8 * (a - p)) 8 else byte s a)).

Definition on_memory {A : Type} (x : M Memory A) : M (Memory * Machine) A := fun '(s, m) =>
  let? (a, s) := x s in Ok (a, (s, m)).
Definition on_machine {A : Type} (x : M Machine A) : M (Memory * Machine) A := fun '(s, m) =>
  let? (a, m) := x m in Ok (a, (s, m)).

(** The revision identifier is the first field of both regions. *)
Definition region_new (b : Boxed) : M (Memory * Machine) Z :=
  let! region := on_memory (zeroed_box b) in
  let! basic := on_machine (rdmsr IA32_VMX_BASIC) in
  on_memory (store32 region (wrap 32 basic)) ;;!
  ret region.

(** [Vmxon::default] (intel/vmx.rs) *)
Definition Vmxon_default : M (Memory * Machine) Z := region_new TheVmxon.

(** [Vmcs::new] (intel/guest.rs); [pa] is that of the platform. *)
Definition Vmcs_new (pa : Z -> Z) : M (Memory * Machine) Z :=
  let! vmcs := region_new TheVmcs in
  on_machine (vmclear (pa vmcs)) ;;!
  ret vmcs.

(** [HostStateArea::default] and [NestedPageTables::new]. *)
Definition HostStateArea_default : M Memory Z := zeroed_box TheHostStateArea.
Definition NestedPageTables_new : M Memory Z := zeroed_box ThePagingStructures.
End Support.
Arguments Memory B : clear implicits.

(** ** The panic handler (panic.rs)

    [panic_impl] logs, then disables interrupts and halts for ever; a halted
    processor can still be woken, by an NMI for example. *)
Inductive PanicAt : Type := Logging | Disabling | Halting | Halted.

Record Panicking : Type := mk_panicking { panic_at : PanicAt; interrupts_on : bool; messages : list string }.

Inductive panic_step (info : string) : Panicking -> Panicking -> Prop :=
| panic_logs i l : panic_step info (mk_panicking Logging i l) (mk_panicking Disabling i (l ++ [info]))
| panic_disables i l : panic_step info (mk_panicking Disabling i l) (mk_panicking Halting false l)
| panic_halts i l : panic_step info (mk_panicking Halting i l) (mk_panicking Halted i l)
| panic_woken i l : panic_step info (mk_panicking Halted i l) (mk_panicking Disabling i l).

(** [panic_impl] never returns: it always has a next step; it logs once, and
    from then on a halted processor has interrupts disabled. *)
Lemma panic_impl_never_returns info i l s : rtc (panic_step info) (mk_panicking Logging i l) s ->
  (exists s', panic_step info s s') /\
  messages s = (match panic_at s with Logging => l | _ => l ++ [info] end) /\
  (panic_at s = Halted -> interrupts_on s = false).
Proof.
  intros H. cut (messages s = (match panic_at s with Logging => l | _ => l ++ [info] end) /\
    (panic_at s = Halting \/ panic_at s = Halted -> interrupts_on s = false)).
  - intros [H1 H2]. split_and!; [|done|tauto]. destruct s as [[] j k]; eexists; constructor.
  - apply (@rtc_ind_r _ (panic_step info) (fun s => messages s = (match panic_at s with Logging => l | _ => l ++ [info] end) /\
      (panic_at s = Halting \/ panic_at s = Halted -> interrupts_on s = false)) (mk_panicking Logging i l)); [|..|exact H].
    + split; [done|]. by intros [].
    + intros s1 s2 _ Hs [H1 H2]. inversion Hs; subst; cbn in *; split; try tauto; try congruence.
      all: by intros [].
Qed.

(** ** Lemmas on boxes *)

Definition page_count (b : Boxed) : Z := match b with Stack => 16 | ThePagingStructures => 516 | TheEpts => 1026 | _ => 1 end.
Definition pages (b : Boxed) : nat := Z.to_nat (page_count b).

Lemma pages_pos b : (0 < pages b)%nat.
Proof. unfold pages. destruct b; cbn [page_count]; lia. Qed.

(** The blocks of the page pool. *)
#[local] Abbreviation limit := (Z.to_nat 2304).

Lemma layout_facts b : 4096 <= layout_size (layout_of b) /\ pool_of (layout_of b) = P4096 /\
  nblocks (layout_of b) = pages b /\ layout_align (layout_of b) = 4096 /\
  layout_size (layout_of b) = 4096 * Z.of_nat (pages b).
Proof. destruct b; vm_compute; repeat split; discriminate. Qed.

Section Boxes.
Context {P : Profile} {B : Type} {BA : BitArray B}.
Implicit Types (m : Metadata B).

Definition page_bits m : list bool := ba_iter (bitmap P4096 m).

(** What [zeroed_box] does, in terms of the first fit. *)
Lemma zeroed_box_cases b m lv bytes : heap_inv m lv ->
  match find_empty_blocks (bitmap4096 m) (pages b) with
  | None => zeroed_box b (mk_memory (Some m) bytes) = Panic "handle_alloc_error"
  | Some s => exists m' p,
      zeroed_box b (mk_memory (Some m) bytes) =
        Ok (p, mk_memory (Some m') (write_bytes p 0 (layout_size (layout_of b)) bytes)) /\
      p = blocks m + Z.of_nat s * 4096 /\ p <> 0 /\ blocks m' = blocks m /\
      page_bits m' = set_range (page_bits m) s (pages b) true /\ heap_inv m' ((p, layout_of b) :: lv)
  end.
Proof.
  intros Hinv. destruct (layout_facts b) as (Hsize & Hpool & Hn & _). assert (0 < layout_size (layout_of b)) as Hpos by lia.
  pose proof (alloc_spec m lv _ Hinv Hpos) as Hs. cbv zeta in Hs. rewrite Hpool, Hn in Hs. cbn [bitmap] in Hs.
  unfold zeroed_box, bind, alloc_zeroed. cbn [heap byte].
  destruct (find_empty_blocks _ _) as [s|]; [|by rewrite Hs].
  destruct Hs as (_ & bm & Hbm & Ha). rewrite Ha. cbn [obind pbase bsize]. unfold block4096, BLOCK_SIZE_4096.
  destruct (alloc_inv m lv _ _ _ Hinv Hpos Ha) as (m' & Hm' & Hb & Hi). cbn [pbase bsize] in Hi.
  unfold block4096, BLOCK_SIZE_4096 in Hi.
  destruct (inv_base _ _ Hinv) as [Hb0 _].
  assert ((blocks m + Z.of_nat s * 4096 =? 0) = false) as E by (apply Z.eqb_neq; lia). rewrite E in Hi. rewrite !E.
  injection Hm' as <-. eexists _, _. split; [reflexivity|]. split_and!; [done|lia|done|exact Hbm|exact Hi].
Qed.

(** C38: [zeroed_box] returns memory of the heap that no live allocation uses,
    aligned as the type asks (the heap starts at a page), every byte of it
    zero, and changes no other byte; it gives up only when no run of free
    pages is long enough. *)
Theorem zeroed_box_spec b m lv bytes : heap_inv m lv -> blocks m mod 4096 = 0 ->
  (zeroed_box b (mk_memory (Some m) bytes) = Panic "handle_alloc_error" /\
   forall s, ~ free_run (page_bits m) s (pages b)) \/
  exists p m' bytes', zeroed_box b (mk_memory (Some m) bytes) = Ok (p, mk_memory (Some m') bytes') /\
    heap_inv m' ((p, layout_of b) :: lv) /\ p <> 0 /\ p mod layout_align (layout_of b) = 0 /\
    (forall i a, lv !! i = Some a -> disjoint_allocs (p, layout_of b) a) /\
    (forall a, p <= a < p + layout_size (layout_of b) -> bytes' a = 0) /\
    (forall a, ~ p <= a < p + layout_size (layout_of b) -> bytes' a = bytes a).
Proof.
  intros Hinv Hal. pose proof (zeroed_box_cases b m lv bytes Hinv) as Hc.
  pose proof (find_empty_blocks_spec (bitmap4096 m) (pages b) (pages_pos b)) as Hff.
  destruct (find_empty_blocks _ _) as [s|]; [right|by left].
  destruct Hc as (m' & p & Hz & Hp & Hp0 & _ & _ & Hi). eexists p, m', _. split; [exact Hz|].
  destruct (layout_facts b) as (_ & _ & _ & -> & _). split_and!; [exact Hi|done|..].
  - rewrite Hp. by rewrite Z.mod_add by done.
  - intros i a Ha. apply (heap_inv_disjoint m' ((p, layout_of b) :: lv) 0 (S i)); [exact Hi|lia|reflexivity|exact Ha].
  - intros a [H1 H2]. unfold write_bytes. by rewrite (proj2 (Z.leb_le _ _) H1), (proj2 (Z.ltb_lt _ _) H2).
  - intros a Ha. unfold write_bytes. destruct (Z.leb_spec p a); [|done]. destruct (Z.ltb_spec a (p + layout_size (layout_of b))); [lia|done].
Qed.

(** The regions of VMX: the revision identifier, then zeros. *)
Lemma region_new_spec b m lv bytes (cpu : Machine) basic : heap_inv m lv -> msrs cpu !! IA32_VMX_BASIC = Some basic ->
  is_ok (zeroed_box b (mk_memory (Some m) bytes)) = true ->
  exists p s, region_new b (mk_memory (Some m) bytes, cpu) = Ok (p, (s, cpu)) /\
    (forall i, 0 <= i < 4 -> byte s (p + i) = field (wrap 32 basic) (8 * i) 8) /\
    (forall i, 4 <= i < layout_size (layout_of b) -> byte s (p + i) = 0).
Proof.
  intros Hinv Hb Hok. pose proof (zeroed_box_cases b m lv bytes Hinv) as Hc.
  destruct (find_empty_blocks _ _) as [s|]; [|by rewrite Hc in Hok].
  destruct Hc as (m' & p & Hz & _ & _ & _). unfold region_new, on_memory, on_machine, bind. rewrite Hz. cbn [obind].
  rewrite (rdmsr_some _ _ _ Hb). cbn [obind store32 modify ret]. eexists _, _. split; [reflexivity|]. cbn [byte]. split.
  - intros i Hi. rewrite (proj2 (Z.leb_le _ _)), (proj2 (Z.ltb_lt _ _)) by lia. cbn [andb]. do 2 f_equal. lia.
  - intros i Hi. rewrite (proj2 (Z.ltb_ge (p + i) (p + 4))) by lia. rewrite andb_false_r. unfold write_bytes.
    by rewrite (proj2 (Z.leb_le _ _)), (proj2 (Z.ltb_lt _ _)) by lia.
Qed.

(** ** How many processors the heap suffices for *)

(** The heap as it fills up: the first [k] pages are used. *)
Definition filled (k : nat) m : Prop :=
  (k <= limit)%nat /\ page_bits m = replicate k true ++ replicate (limit - k) false.

Lemma filled_lookup k m i : filled k m -> page_bits m !! i = if decide (i < limit)%nat then Some (bool_decide (i < k)%nat) else None.
Proof.
  intros [Hk ->]. destruct (decide (i < k)%nat).
  - rewrite lookup_app_l by (rewrite length_replicate; lia). rewrite lookup_replicate_2 by done.
    by rewrite decide_True, bool_decide_true by lia.
  - rewrite lookup_app_r, length_replicate by (rewrite length_replicate; lia). case_decide.
    + rewrite lookup_replicate_2 by lia. by rewrite bool_decide_false by lia.
    + apply lookup_ge_None_2. rewrite length_replicate. lia.
Qed.

Lemma filled_fit k m n : filled k m -> (0 < n)%nat ->
  find_empty_blocks (bitmap4096 m) n = if decide (k + n <= limit)%nat then Some k else None.
Proof.
  intros Hf Hn. pose proof (find_empty_blocks_spec (bitmap4096 m) n Hn) as Hff. pose proof (fun i => filled_lookup k m i Hf) as Hl.
  change (ba_iter (bitmap4096 m)) with (page_bits m) in Hff.
  assert (forall s, free_run (page_bits m) s n <-> (k <= s /\ s + n <= limit)%nat) as Hfree.
  { intros s. split.
    - intros H. pose proof (H s ltac:(lia)) as H0. pose proof (H (s + n - 1)%nat ltac:(lia)) as H1. rewrite Hl in H0, H1.
      destruct (decide (s < limit)%nat); [|done]. destruct (decide (s + n - 1 < limit)%nat); [|done].
      injection H0 as H0. apply bool_decide_eq_false in H0. lia.
    - intros H i Hi. rewrite Hl. rewrite decide_True by lia. by rewrite bool_decide_false by lia. }
  destruct (find_empty_blocks _ n) as [s|]; cbn [first_fit] in Hff.
  - destruct Hff as [H1 H2]. apply Hfree in H1. rewrite decide_True by lia. f_equal.
    destruct (decide (s = k)) as [|Hne]; [done|]. exfalso. apply (H2 k); [lia|]. apply Hfree. lia.
  - rewrite decide_False; [done|]. intros H. apply (Hff k). apply Hfree. lia.
Qed.

Lemma filled_set_range k m m' n : filled k m -> (k + n <= limit)%nat ->
  page_bits m' = set_range (page_bits m) k n true -> filled (k + n) m'.
Proof.
  intros Hf Hn Hm'. split; [done|]. apply list_eq. intros i. rewrite Hm', set_range_lookup, (filled_lookup k m i Hf).
  destruct (decide (i < k + n)%nat).
  - rewrite lookup_app_l by (rewrite length_replicate; lia). rewrite lookup_replicate_2 by done.
    rewrite decide_True by lia. cbn. f_equal. case_decide; [done|]. apply bool_decide_true. lia.
  - rewrite lookup_app_r, length_replicate by (rewrite length_replicate; lia). destruct (decide (i < limit)%nat).
    + rewrite lookup_replicate_2 by lia. cbn. rewrite decide_False by lia. f_equal. apply bool_decide_false. lia.
    + symmetry. apply lookup_ge_None_2. rewrite length_replicate. lia.
Qed.

(** The next box, while the heap fills up. *)
Lemma next_box b k m lv bytes : heap_inv m lv -> filled k m ->
  if decide (k + pages b <= limit)%nat then
    exists p m' bytes', zeroed_box b (mk_memory (Some m) bytes) = Ok (p, mk_memory (Some m') bytes') /\
      heap_inv m' ((p, layout_of b) :: lv) /\ filled (k + pages b) m'
  else zeroed_box b (mk_memory (Some m) bytes) = Panic "handle_alloc_error".
Proof.
  intros Hinv Hf. pose proof (zeroed_box_cases b m lv bytes Hinv) as Hc.
  rewrite (filled_fit k) in Hc by (done || apply pages_pos). case_decide; [|done].
  destruct Hc as (m' & p & Hz & _ & _ & _ & Hbits & Hi). eexists _, _, _. split; [exact Hz|]. split; [done|].
  by eapply filled_set_range.
Qed.
End Boxes.

(** ** Virtualizing processors *)

(** The boxes in the order they are made: for the host by the UEFI driver, for
    the first processor with the data the guests share, for any other one.
    They are never freed while processors are virtualized. *)
Definition host_boxes (uefi : bool) : list Boxed := if uefi then [TheIdt; ThePagingStructures] else [].
Definition first_boxes (intel : bool) : list Boxed :=
  if intel then [Stack; TheVmxon; TheVmcs; TheEpts; ThePage]
  else [Stack; TheVmcb; TheVmcb; TheHostStateArea; ThePagingStructures].
Definition other_boxes (intel : bool) : list Boxed :=
  if intel then [Stack; TheVmxon; TheVmcs] else [Stack; TheVmcb; TheVmcb; TheHostStateArea].

Definition boxes (intel uefi : bool) (processors : nat) : list Boxed :=
  host_boxes uefi ++
  match processors with
  | O => []
  | S others => first_boxes intel ++ concat (replicate others (other_boxes intel))
  end.

(** The processors the heap suffices for. *)
Definition capacity (intel uefi : bool) : nat :=
  match intel, uefi with true, true => 42 | true, false => 70 | false, true => 66 | false, false => 94 end.

Section Capacity.
Context {P : Profile} {B : Type} {BA : BitArray B}.
Implicit Types (m : Metadata B).

(** The boxes are made one after the other; in between, anything of less than
    a page is allocated and freed. *)
Inductive boxes_run : list Boxed -> Memory B * live -> Memory B * live -> Prop :=
| run_done s : boxes_run [] s s
| run_box b bs s lv p s' r :
    zeroed_box b s = Ok (p, s') -> boxes_run bs (s', (p, layout_of b) :: lv) r -> boxes_run (b :: bs) (s, lv) r
| run_alloc bs s lv l p st bytes r :
    0 < layout_size l < 4096 -> alloc l (heap s) = Ok (p, st) ->
    boxes_run bs (mk_memory st bytes, if p =? 0 then lv else (p, l) :: lv) r -> boxes_run bs (s, lv) r
| run_free bs s lv i p l st bytes r :
    layout_size l < 4096 -> lv !! i = Some (p, l) -> dealloc p l (heap s) = Ok (tt, st) ->
    boxes_run bs (mk_memory st bytes, delete i lv) r -> boxes_run bs (s, lv) r.

Definition total (bs : list Boxed) : nat := list_sum (map pages bs).

Lemma total_nil : total [] = 0%nat.
Proof. done. Qed.

Lemma total_cons b bs : total (b :: bs) = (pages b + total bs)%nat.
Proof. done. Qed.

Lemma total_app a b : total (a ++ b) = (total a + total b)%nat.
Proof. unfold total. by rewrite map_app, list_sum_app. Qed.


(** Small allocations come from the other pool. *)
Lemma small_pool l : layout_size l < 4096 -> pool_of l = P128.
Proof. intros H. unfold pool_of, BLOCK_SIZE_4096. by rewrite (proj2 (Z.leb_gt _ _)) by lia. Qed.

Lemma boxes_run_filled bs s lv s' lv' m k : boxes_run bs (s, lv) (s', lv') ->
  heap s = Some m -> heap_inv m lv -> filled k m ->
  exists m', heap s' = Some m' /\ heap_inv m' lv' /\ filled (k + total bs) m'.
Proof.
  intros H. remember (s, lv) as x eqn:Hx. remember (s', lv') as y eqn:Hy. revert s lv m k Hx.
  induction H as [x|b bs s1 lv1 p s2 r Hz _ IH|bs s1 lv1 l p st by_ r Hl Ha _ IH|bs s1 lv1 i p l st by_ r Hl Hi Hd _ IH];
    intros s lv m k Hx Hm Hinv Hf; subst.
  - injection Hx as -> ->. exists m. rewrite Nat.add_0_r. done.
  - injection Hx as -> ->. destruct s as [h bytes]. cbn in Hm. subst h.
    pose proof (next_box b k m lv bytes Hinv Hf) as Hn. case_decide; [|by rewrite Hz in Hn].
    destruct Hn as (p' & m' & bytes' & Hz' & Hi & Hf'). rewrite Hz in Hz'. injection Hz' as -> ->.
    destruct (IH eq_refl _ _ m' _ eq_refl eq_refl Hi Hf') as (m2 & H1 & H2 & H3). exists m2. split_and!; [done..|].
    by rewrite total_cons, Nat.add_assoc.
  - injection Hx as -> ->. rewrite Hm in Ha. destruct Hl as [Hl0 Hl].
    destruct (alloc_inv m lv l p st Hinv Hl0 Ha) as (m' & -> & _ & Hi).
    apply (IH eq_refl _ _ m' k eq_refl eq_refl Hi). destruct Hf as [Hk Hf]. split; [done|]. rewrite <- Hf.
    rewrite alloc_unfold, (small_pool l Hl) in Ha. apply obind_ok in Ha as ([p' bm] & _ & Ha). injection Ha as _ <-. done.
  - injection Hx as -> ->. rewrite Hm in Hd. destruct (dealloc_inv m lv i p l st Hinv Hi Hd) as (m' & -> & _ & Hi').
    apply (IH eq_refl _ _ m' k eq_refl eq_refl Hi'). destruct Hf as [Hk Hf]. split; [done|]. rewrite <- Hf.
    rewrite dealloc_unfold, (small_pool l Hl) in Hd. apply obind_ok in Hd as (bm & _ & Hd). by injection Hd as <-.
Qed.

(** There is a run, of boxes only, when they fit. *)
Lemma boxes_run_exists bs m lv bytes k : heap_inv m lv -> filled k m -> (k + total bs <= limit)%nat ->
  exists r, boxes_run bs (mk_memory (Some m) bytes, lv) r.
Proof.
  revert m lv bytes k. induction bs as [|b bs IH]; intros m lv bytes k Hinv Hf Ht; [eexists; constructor|].
  rewrite total_cons in Ht.
  pose proof (next_box b k m lv bytes Hinv Hf) as Hn. rewrite decide_True in Hn by lia.
  destruct Hn as (p & m' & bytes' & Hz & Hi & Hf'). destruct (IH m' _ bytes' _ Hi Hf' ltac:(lia)) as [r Hr].
  exists r. by eapply run_box.
Qed.

(** Where a list of boxes stops fitting. *)
Lemma overflow_split bs k : (k <= limit)%nat -> (limit < k + total bs)%nat ->
  exists done b rest, bs = done ++ b :: rest /\ (k + total done <= limit < k + total done + pages b)%nat.
Proof.
  revert k. induction bs as [|b bs IH]; intros k Hk Ht; [rewrite total_nil in Ht; lia|].
  rewrite total_cons in Ht.
  destruct (decide (k + pages b <= limit)%nat) as [Hle|Hgt].
  - destruct (IH (k + pages b)%nat Hle ltac:(lia)) as (done & b' & rest & -> & H1). exists (b :: done), b', rest.
    split; [done|]. rewrite total_cons. lia.
  - exists [], b, bs. split; [done|]. rewrite total_nil. lia.
Qed.

(** The pages of a concrete list of boxes. *)
Ltac count_pages := rewrite ?total_cons, ?total_nil; unfold pages; cbn [page_count]; lia.

Lemma total_boxes intel uefi n : (0 < n)%nat ->
  Z.of_nat (total (boxes intel uefi n)) =
    (if uefi then 517 else 0) + (if intel then 1027 else 516) + (if intel then 18 else 19) * Z.of_nat n.
Proof.
  intros Hn. destruct n as [|n]; [lia|]. unfold boxes. rewrite !total_app.
  assert (Z.of_nat (total (concat (replicate n (other_boxes intel)))) = (if intel then 18 else 19) * Z.of_nat n) as Ho.
  { clear Hn. induction n as [|n IH]; [by destruct intel|]. cbn [replicate concat]. rewrite total_app.
    assert (Z.of_nat (total (other_boxes intel)) = if intel then 18 else 19) as E by (destruct intel; unfold other_boxes; count_pages).
    destruct intel; lia. }
  assert (Z.of_nat (total (host_boxes uefi)) = if uefi then 517 else 0) as Hh by (destruct uefi; unfold host_boxes; count_pages).
  assert (Z.of_nat (total (first_boxes intel)) = if intel then 1045 else 535) as Hf by (destruct intel; unfold first_boxes; count_pages).
  destruct intel; lia.
Qed.

Lemma total_capacity intel uefi n : (0 < n)%nat -> (total (boxes intel uefi n) <= limit <-> n <= capacity intel uefi)%nat.
Proof. intros Hn. pose proof (total_boxes intel uefi n Hn). destruct intel, uefi; cbn [capacity]; lia. Qed.

(** C4: how many processors the heap can virtualize.  On any heap that [init]
    made, with any use of less than a page in between, every box is made for
    up to 42 processors on Intel under UEFI (70 under Windows) and 66 on AMD
    under UEFI (94 under Windows); for one more, some box is reached and
    panics. *)
Theorem heap_capacity intel uefi n base m0 bytes : (0 < n)%nat ->
  in_width 64 base -> base + ALLOCATION_BYTES <= 2 ^ 64 -> init base None = Ok (tt, Some m0) ->
  let fresh := (mk_memory (Some m0) bytes, []) in
  ((n <= capacity intel uefi)%nat -> (exists r, boxes_run (boxes intel uefi n) fresh r) /\
     forall done b rest s lv, boxes intel uefi n = done ++ b :: rest -> boxes_run done fresh (s, lv) ->
       is_ok (zeroed_box b s) = true) /\
  ((capacity intel uefi < n)%nat -> exists done b rest, boxes intel uefi n = done ++ b :: rest /\
     (exists r, boxes_run done fresh r) /\
     forall s lv, boxes_run done fresh (s, lv) -> zeroed_box b s = Panic "handle_alloc_error").
Proof.
  intros Hn Hb0 Hb1 Hinit fresh. destruct (heap_inv_init base m0 Hb0 Hb1 Hinit) as [_ Hinv].
  assert (filled 0 m0) as Hf.
  { split; [lia|]. unfold init in Hinit. apply obind_ok in Hinit as (m & Hm & Hinit). injection Hinit as ->.
    unfold Metadata_new in Hm. invert_ok. unfold page_bits. cbn. by rewrite ba_zero_spec. }
  assert (forall done b s lv, boxes_run done fresh (s, lv) ->
    if decide (total done + pages b <= limit)%nat then is_ok (zeroed_box b s) = true
    else zeroed_box b s = Panic "handle_alloc_error") as Hnext.
  { intros done b [h by_] lv Hr.
    destruct (boxes_run_filled _ _ _ _ _ m0 0 Hr eq_refl Hinv Hf) as (m & Hm & Hi & Hf'). cbn in Hm. subst h.
    pose proof (next_box b _ m lv by_ Hi Hf') as H. rewrite Nat.add_0_l in H. case_decide; [|exact H].
    destruct H as (p & m' & by' & -> & _). done. }
  split; intros Hc.
  - apply total_capacity in Hc; [|done]. split; [by apply (boxes_run_exists _ m0 [] bytes 0)|].
    intros done b rest s lv E Hr. rewrite E, total_app, total_cons in Hc.
    pose proof (Hnext done b s lv Hr) as H. rewrite decide_True in H by lia. exact H.
  - destruct (overflow_split (boxes intel uefi n) 0) as (done & b & rest & E & H); [lia| |].
    { destruct (decide (total (boxes intel uefi n) <= limit)%nat) as [Hle|]; [|lia]. apply total_capacity in Hle; lia. }
    exists done, b, rest. split; [done|]. split; [apply (boxes_run_exists _ m0 [] bytes 0); [done..|lia]|].
    intros s lv Hr. pose proof (Hnext done b s lv Hr) as H'. by rewrite decide_False in H' by lia.
Qed.
End Capacity.

(** ** Concrete boxes *)

Module SupportExample.
Import Reference AllocatorExample.
#[local] Instance checked : Profile := true.

Lemma zeroed_box_spec_witness : exists m' bytes',
  zeroed_box TheVmcb (mk_memory (Some m0) (fun _ => 0xff)) = Ok (0x10000, mk_memory (Some m') bytes') /\
  bytes' 0x10fff = 0 /\ bytes' 0x11000 = 0xff.
Proof.
  destruct (zeroed_box_spec TheVmcb m0 [] (fun _ => 0xff) m0_inv eq_refl)
    as [[_ Hno]|(p & m' & bytes' & Hz & _ & _ & _ & _ & Hin & Hout)].
  - exfalso. apply (Hno 0%nat). intros i Hi. replace i with 0%nat by (change (pages TheVmcb) with 1%nat in Hi; lia). reflexivity.
  - assert (p = 0x10000) as ->.
    { assert (match zeroed_box TheVmcb (mk_memory (Some m0) (fun _ => 0xff)) with Ok (q, _) => q | Panic _ => 0 end = 0x10000) as E
        by (vm_compute; reflexivity).
      rewrite Hz in E. exact E. }
    change (layout_size (layout_of TheVmcb)) with 4096 in Hin, Hout.
    exists m', bytes'. split; [exact Hz|]. split; [apply Hin; lia|apply Hout; lia].
Defined.

Lemma init_m0 : init 0x10000 None = Ok (tt, Some m0).
Proof. vm_compute. reflexivity. Qed.

(** Four processors on Intel under UEFI, and a hundred on AMD under Windows. *)
Lemma heap_capacity_witness :
  (exists r, boxes_run (boxes true true 4) (mk_memory (Some m0) (fun _ => 0), []) r) /\
  (exists done b rest, boxes false false 100 = done ++ b :: rest /\
     forall s lv, boxes_run done (mk_memory (Some m0) (fun _ => 0), []) (s, lv) ->
       zeroed_box b s = Panic "handle_alloc_error").
Proof.
  assert (in_width 64 0x10000) as Hw by (unfold in_width; lia).
  assert (0x10000 + ALLOCATION_BYTES <= 2 ^ 64) as Hb by (unfold ALLOCATION_BYTES; lia).
  destruct (heap_capacity true true 4 0x10000 m0 (fun _ => 0) ltac:(lia) Hw Hb init_m0) as [H1 _].
  destruct (heap_capacity false false 100 0x10000 m0 (fun _ => 0) ltac:(lia) Hw Hb init_m0) as [_ H2].
  split; [apply H1; cbn; lia|].
  destruct H2 as (done & b & rest & E & _ & Hp); [cbn; lia|]. exists done, b, rest. split; [exact E|exact Hp].
Defined.
End SupportExample.
