(* ===== verification/Logger.v ===== *)
(** * Log output (hvcore serial_logger.rs and support.rs, win_hv logger.rs and eprintln.rs)

    The serial port driver with the interrupt guard around it, and the output
    to the Windows kernel debugger.  Formatting is the job of [core::fmt]: a
    message is the list of the strings it hands to [write_str]. *)

From S2P Require Import Prelude External Machine.

(** The levels of the [log] crate, in its order. *)
Inductive Level : Type := LError | LWarn | LInfo | LDebug | LTrace.

Definition Level_value (l : Level) : Z :=
  match l with LError => 1 | LWarn => 2 | LInfo => 3 | LDebug => 4 | LTrace => 5 end.

(** ** Port I/O *)

(** Whether interrupts are enabled; what was written, with that flag, the
    port and the byte; and what the next reads of the line status yield. *)
Record Io : Type := mk_io {
  interrupts : bool;
  written : list (bool * (Z * Z));
  inputs : list Z;
}.

Definition set_interrupts (b : bool) (s : Io) : Io := mk_io b (written s) (inputs s).

Definition outb (port data : Z) : M Io unit :=
  modify (fun s => mk_io (interrupts s) (written s ++ [(interrupts s, (port, data))]) (inputs s)).

Definition inb (port : Z) : M Io Z := fun s =>
  match inputs s with
  | [] => Panic "still polling"
  | v :: l => Ok (v, mk_io (interrupts s) (written s) l)
  end.

(** ** support.rs: [InterruptGuard] *)
Definition InterruptGuard_new : M Io bool :=
  let! enabled := gets interrupts in
  modify (set_interrupts false) ;;!
  ret enabled.

Definition InterruptGuard_drop (enabled : bool) : M Io unit :=
  if enabled then modify (set_interrupts true) else ret tt.

(** ** serial_logger.rs: [Uart] *)
Inductive SerialPort : Type := Com1 | Com2 | Com3 | Com4.

Definition SerialPort_value (p : SerialPort) : Z :=
  match p with Com1 => 0x3f8 | Com2 => 0x2f8 | Com3 => 0x3e8 | Com4 => 0x2e8 end.

Section Uart.
Context {P : Profile}.

(** [outb(port + offset, data)] *)
Definition out (port offset data : Z) : M Io unit :=
  let! p := lift (add_w 16 port offset) in outb p data.

Definition Uart_init (port baud_rate : Z) : M Io unit :=
  out port 1 0 ;;!
  out port 3 0x80 ;;!
  let! divider := lift (if baud_rate =? 0 then Panic "attempt to divide by zero" else Ok (115200 / baud_rate)) in
  let dlab_low := wrap 8 divider in
  let dlab_high := wrap 8 (Z.shiftr divider 8) in
  out port 0 dlab_low ;;!
  out port 1 dlab_high ;;!
  out port 3 0x3 ;;!
  out port 2 0xc7 ;;!
  out port 4 0xb ;;!
  out port 1 0x1.

Definition Uart_new (port : SerialPort) (baud_rate : Z) : M Io Z :=
  let port := SerialPort_value port in
  Uart_init port baud_rate ;;!
  ret port.

Definition UART_OFFSET_LINE_STATUS : Z := 5.
Definition UART_OFFSET_LINE_STATUS_THRE : Z := Z.shiftl 1 5.

(** The transmitter can take a byte. *)
Definition thre (status : Z) : bool := negb (Z.land status UART_OFFSET_LINE_STATUS_THRE =? 0).

(** The busy loop of [write_str]: reads until the transmitter is ready.  As many
    reads as there are inputs are enough. *)
Fixpoint poll (reads : nat) (port : Z) : M Io unit :=
  match reads with
  | O => mpanic "still polling"
  | S reads' =>
      let! status := inb port in
      if thre status then ret tt else poll reads' port
  end.

Definition wait_for_thre (port : Z) : M Io unit :=
  let! status_port := lift (add_w 16 port UART_OFFSET_LINE_STATUS) in
  fun s => poll (length (inputs s)) status_port s.

Fixpoint Uart_write_str (port : Z) (msg : list Z) : M Io unit :=
  match msg with
  | [] => ret tt
  | data :: msg' => wait_for_thre port ;;! outb port data ;;! Uart_write_str port msg'
  end.

(** [write_fmt]: one [write_str] after the other. *)
Fixpoint Uart_write_fmt (port : Z) (args : list (list Z)) : M Io unit :=
  match args with
  | [] => ret tt
  | s :: args' => Uart_write_str port s ;;! Uart_write_fmt port args'
  end.

Definition Serial_enabled (level : Level) : bool := Level_value level <=? Level_value LTrace.

(** [SerialLogger::log], with the guard dropped at its end. *)
Definition Serial_log (port : Z) (level : Level) (args : list (list Z)) : M Io unit :=
  if Serial_enabled level then
    let! enabled := InterruptGuard_new in
    Uart_write_fmt port args ;;!
    InterruptGuard_drop enabled
  else ret tt.
End Uart.

(** ** The kernel debugger (win_hv eprintln.rs) *)

(** [DbgPrintEx] of ["%s"]: the bytes of the buffer up to the first zero. *)
Fixpoint c_string (buffer : list Z) : list Z :=
  match buffer with
  | [] => []
  | b :: l => if b =? 0 then [] else b :: c_string l
  end.

Definition is_ascii (msg : list Z) : bool := forallb (fun b => b <? 128) msg.

(** [DbgOutput::write_str] on what the debugger has shown so far; the result
    says whether it is [Ok] or [Err]. [copy_from_slice] wants slices of the
    same length. *)
Definition Dbg_write_str (msg : list Z) : M (list Z) bool := fun shown =>
  if negb (is_ascii msg) then Ok (false, shown)
  else
    let length_ := Nat.min (256 - 1) (length msg) in
    if negb (Nat.eqb length_ (length msg)) then Panic "copy_from_slice"
    else
      let buffer := msg ++ replicate (256 - length_) 0 in
      Ok (true, shown ++ c_string buffer).

Fixpoint Dbg_write_fmt (args : list (list Z)) : M (list Z) bool :=
  match args with
  | [] => ret true
  | s :: args' => let! ok := Dbg_write_str s in if ok then Dbg_write_fmt args' else ret false
  end.

Definition print (args : list (list Z)) : M (list Z) unit :=
  let! ok := Dbg_write_fmt args in
  if ok then ret tt else mpanic "write_fmt(..).unwrap()".

(** [DbgLogger::log] *)
Definition Dbg_log (max_level : Z) (level : Level) (args : list (list Z)) : M (list Z) unit :=
  if Level_value level <=? max_level then print args else ret tt.

(** ** Registering a logger (serial_logger.rs and win_hv logger.rs [init]) *)

(** The [log] crate accepts one logger. *)
Record LogCrate (L : Type) : Type := mk_log_crate { logger : option L; max_level : Z }.
Arguments mk_log_crate {L} _ _.
Arguments logger {L} _.
Arguments max_level {L} _.

(** [LOGGER.call_once(new)], [set_logger(..).unwrap()], [set_max_level]; the
    state also has the [Once] cell. *)
Definition init_logger {L S : Type} (new : M S L) (level : Z) : M (option L * LogCrate L * S) unit :=
  fun '(cell, crate, s) =>
    let? (l, s) := match cell with Some l => Ok (l, s) | None => new s end in
    match logger crate with
    | Some _ => Panic "set_logger(logger).unwrap()"
    | None => Ok (tt, (Some l, mk_log_crate (Some l) level, s))
    end.

Definition serial_init {P : Profile} (level : Z) : M (option Z * LogCrate Z * Io) unit :=
  init_logger (Uart_new Com1 115200) level.

(** ** Lemmas *)

Section UartLemmas.
Context {P : Profile}.

(** How many bytes the transmitter will take. *)
Definition readiness (l : list Z) : nat := length (filter (fun v => thre v = true) l).

Lemma poll_ready l port b w : (0 < readiness l)%nat ->
  exists l', poll (length l) port (mk_io b w l) = Ok (tt, mk_io b w l') /\ readiness l = S (readiness l').
Proof.
  induction l as [|v l IH]; [cbn; lia|]. cbn [length poll]. unfold bind, inb. cbn [inputs interrupts written].
  unfold readiness. rewrite filter_cons. destruct (thre v) eqn:E.
  - rewrite decide_True by done. intros _. exists l. done.
  - rewrite decide_False by congruence. apply IH.
Qed.

(** A string goes out byte by byte. *)
Lemma write_str_ok port msg s : 0 <= port < 2 ^ 16 - 5 -> (length msg <= readiness (inputs s))%nat ->
  exists l, Uart_write_str port msg s =
    Ok (tt, mk_io (interrupts s) (written s ++ ((fun b => (interrupts s, (port, b))) <$> msg)) l) /\
    readiness (inputs s) = (length msg + readiness l)%nat.
Proof.
  intros Hp. revert s. induction msg as [|b msg IH]; intros s Hr.
  - exists (inputs s). cbn. rewrite app_nil_r. by destruct s.
  - cbn [length] in Hr. cbn [Uart_write_str]. unfold bind at 1, wait_for_thre.
    rewrite add_w_small by (unfold in_width, UART_OFFSET_LINE_STATUS; lia).
    rewrite bind_lift_ok. destruct s as [bi w inp]. cbn [inputs interrupts written] in *.
    destruct (poll_ready inp (port + UART_OFFSET_LINE_STATUS) bi w) as (l & -> & Hl); [lia|].
    unfold outb. rewrite bind_modify. cbn [interrupts written inputs].
    destruct (IH (mk_io bi (w ++ [(bi, (port, b))]) l)) as (l' & Hw & Hl').
    { cbn [inputs]. lia. }
    exists l'. rewrite Hw. cbn [interrupts written inputs] in *. rewrite <- app_assoc. split; [done|].
    cbn [length]. lia.
Qed.

Lemma write_fmt_ok port args s : 0 <= port < 2 ^ 16 - 5 -> (length (concat args) <= readiness (inputs s))%nat ->
  exists l, Uart_write_fmt port args s =
    Ok (tt, mk_io (interrupts s) (written s ++ ((fun b => (interrupts s, (port, b))) <$> concat args)) l).
Proof.
  intros Hp. revert s. induction args as [|msg args IH]; intros s Hr.
  - exists (inputs s). cbn. rewrite app_nil_r. by destruct s.
  - cbn [concat] in *. rewrite length_app in Hr. cbn [Uart_write_fmt].
    destruct (write_str_ok port msg s Hp) as (l & Hw & Hl); [lia|]. rewrite (bind_intro _ _ _ _ _ Hw).
    edestruct (IH (mk_io (interrupts s) (written s ++ ((fun b => (interrupts s, (port, b))) <$> msg)) l)) as (l' & Hw').
    { cbn [inputs]. lia. }
    exists l'. rewrite Hw'. cbn [interrupts written]. by rewrite fmap_app, app_assoc.
Qed.
End UartLemmas.

Lemma c_string_plain msg n : Forall (fun b => b <> 0) msg -> c_string (msg ++ replicate n 0) = msg.
Proof.
  induction 1 as [|b l Hb _ IH]; [by destruct n|]. cbn [app c_string]. rewrite (proj2 (Z.eqb_neq _ _) Hb). by rewrite IH.
Qed.

(** What [Dbg_write_str] can show. *)
Definition printable (msg : list Z) : Prop := Forall (fun b => 0 < b < 128) msg /\ (length msg <= 255)%nat.

Lemma dbg_write_str_ok msg shown : printable msg -> Dbg_write_str msg shown = Ok (true, shown ++ msg).
Proof.
  intros [Hb Hl]. unfold Dbg_write_str.
  assert (is_ascii msg = true) as ->.
  { apply forallb_forall. intros b Hin. rewrite Forall_forall in Hb. apply Z.ltb_lt.
    apply (Hb b), list_elem_of_In, Hin. }
  cbn [negb]. rewrite Nat.min_r by lia. rewrite Nat.eqb_refl. cbn [negb].
  rewrite c_string_plain; [done|]. eapply Forall_impl; [exact Hb|]. cbn. lia.
Qed.

Lemma dbg_write_fmt_app args rest : Forall printable args -> forall shown,
  Dbg_write_fmt (args ++ rest) shown = Dbg_write_fmt rest (shown ++ concat args).
Proof.
  induction 1 as [|msg args Hm _ IH]; intros sh; cbn [app concat]; [by rewrite app_nil_r|].
  cbn [Dbg_write_fmt]. rewrite (bind_intro _ _ _ _ _ (dbg_write_str_ok msg sh Hm)). rewrite IH. by rewrite app_assoc.
Qed.

Lemma print_ok args shown : Forall printable args -> print args shown = Ok (tt, shown ++ concat args).
Proof.
  intros Ha. unfold print, bind. pose proof (dbg_write_fmt_app args [] Ha shown) as H. rewrite app_nil_r in H. by rewrite H.
Qed.

(** ** Properties *)

(** C35: when the transmitter gets ready often enough, the serial log writes
    exactly the bytes of the message to the port, in order and with interrupts
    off, and then interrupts are as they were. *)
Theorem serial_log_writes {P : Profile} level args s :
  (length (concat args) <= readiness (inputs s))%nat ->
  exists l, Serial_log (SerialPort_value Com1) level args s =
    Ok (tt, mk_io (interrupts s) (written s ++ ((fun b => (false, (0x3f8, b))) <$> concat args)) l).
Proof.
  intros Hr. unfold Serial_log, InterruptGuard_new.
  destruct (write_fmt_ok 0x3f8 args (set_interrupts false s)) as (l & Hw); [lia|exact Hr|]. exists l.
  assert (Serial_enabled level = true) as -> by (by destruct level).
  change (SerialPort_value Com1) with 0x3f8. unfold bind at 1. rewrite bind_gets, bind_modify. cbn [ret].
  rewrite (bind_intro _ _ _ _ _ Hw). unfold InterruptGuard_drop.
  destruct s as [[] w i]; reflexivity.
Qed.

(** The debugger shows a message all of whose strings are at most 255
    ASCII characters, exactly; but a longer string, which [write_str] means to
    cut off, panics, as does one that is not ASCII. *)
Lemma print_spec shown :
  (forall args, Forall printable args -> print args shown = Ok (tt, shown ++ concat args)) /\
  (forall pre msg post, Forall printable pre ->
     (255 < length msg)%nat \/ is_ascii msg = false -> is_ok (print (pre ++ msg :: post) shown) = false).
Proof.
  split; [intros args; apply print_ok|].
  intros pre msg post Ha Hbad. unfold print. unfold bind at 1. rewrite (dbg_write_fmt_app pre (msg :: post) Ha).
  cbn [Dbg_write_fmt]. unfold bind at 1, Dbg_write_str. destruct (is_ascii msg) eqn:Hasc; cbn [negb]; [|done].
  destruct Hbad as [Hl|?]; [|done]. rewrite Nat.min_l by lia.
  rewrite (proj2 (Nat.eqb_neq _ _)) by lia. done.
Qed.

(** A second registration panics. *)
Lemma init_logger_twice {P : Profile} level level' s s' :
  serial_init level s = Ok (tt, s') -> is_ok (serial_init level' s') = false.
Proof.
  unfold serial_init, init_logger. destruct s as [[cell crate] io]. intros H.
  apply obind_ok in H as ([l io'] & _ & H). destruct (logger crate); [done|]. by injection H as <-.
Qed.

(** ** Witnesses *)
Module LoggerExample.
#[local] Instance checked : Profile := true.

(** "#0" and "!", with a transmitter that is busy for a while. *)
Lemma serial_log_writes_witness : exists l,
  Serial_log (SerialPort_value Com1) LInfo [[0x23; 0x30]; [0x21]] (mk_io true [] [0x0; 0x60; 0x60; 0x40; 0x20]) =
    Ok (tt, mk_io true [(false, (0x3f8, 0x23)); (false, (0x3f8, 0x30)); (false, (0x3f8, 0x21))] l).
Proof.
  exact (serial_log_writes LInfo [[0x23; 0x30]; [0x21]] (mk_io true [] [0x0; 0x60; 0x60; 0x40; 0x20]) ltac:(vm_compute; lia)).
Defined.

Lemma print_spec_witness : print [[0x4f]; [0x4b]] [] = Ok (tt, [0x4f; 0x4b]) /\
  is_ok (print [[0x4f]; replicate 256 0x41] []) = false.
Proof.
  destruct (print_spec []) as [Hok Hbad]. split.
  - apply (Hok [[0x4f]; [0x4b]]). repeat constructor; cbn; lia.
  - apply (Hbad [[0x4f]] (replicate 256 0x41) []); [repeat constructor; cbn; lia|]. left. rewrite length_replicate. lia.
Defined.
End LoggerExample.
