(* ===== verification/Drivers.v ===== *)
(** * The drivers (win_hv lib.rs, uefi_hv main.rs, hvcore platform_ops.rs)

    What runs before [virtualize_system]: the heap, the platform operations,
    the logger, and under UEFI the preparation of the tables the host needs;
    with every early return. *)

From S2P Require Import Prelude External Machine Platform Allocator ApicId Segment Tables Paging Host System Logger.
From S2P Require Import Svm Vmx Hypervisor Startup.

(** The bytes of a string. *)
Definition bytes_of (s : string) : list Z := (fun c => Z.of_nat (Ascii.nat_of_ascii c)) <$> String.list_ascii_of_string s.

(** ** A TSS for each processor (uefi_hv main.rs) *)
Section PrepareTss.
Context {P : Profile} {BT : BitFieldTrait} {XS : X86Segmentation} {XT : X86Task}.

(** A vector of 64-bit words at an address. *)
Definition store_words (base : Z) (l : list Z) : M Machine unit := modify (fun m =>
  mk_machine (sys m) (msrs m)
    (fun a => if (base <=? a) && (a <? base + 8 * Z.of_nat (length l)) then default 0 (l !! Z.to_nat ((a - base) / 8)) else mem m a)
    (mmio m) (vmx m) (vmcss m) (hw_cpuid m) (hw_lsl m) (hw_lar m)).

(** The callback on an Intel processor: the structure is leaked, with its TSS
    and its vector at the given addresses. *)
Definition prepare_tss (load : Z -> TaskStateSegment) (tss_new : TaskStateSegment) (tss_addr gdt_addr : Z) : M Machine unit :=
  let! new_gdt := new_from_current load in
  let new_gdt := append_tss tss_addr tss_new new_gdt in
  store_words gdt_addr (gdt new_gdt) ;;!
  let! r := apply gdt_addr new_gdt in
  match r with
  | ROk _ => ret tt
  | RErr _ => mpanic "apply().unwrap()"
  end.
End PrepareTss.

Section Drivers.
Context {P : Profile} {BF : BitfieldMacro} {BT : BitFieldTrait} {XS : X86Segmentation} {B : Type} {BA : BitArray B}
  {W GI EI VI GA EA VA : Type} {HC : HasCpu W} {HA : HasApic W} {X86 : X86Xcr0} {PO : PlatformOps nat} {XT : X86Task}.
Context {IG : SharedHostData -> Guest W GI EI} {IX : Extension W VI}
  {AG : SharedHostData -> Guest W GA EA} {AX : Extension W VA}.
#[local] Abbreviation System :=
  (System (W := W) (GI := GI) (VI := VI) (GA := GA) (VA := VA) (Heap := option (Metadata B))).

(** The machine with the hypervisor's statics, [PLATFORM_OPS], the console,
    the loggers, and the memory of the loaded image. *)
Record Driver : Type := mk_driver {
  system : System;
  platform_ops : bool;
  shown : list Z;
  dbg_logger : option unit * LogCrate unit;
  serial_logger : option Z * LogCrate Z * Io;
  unload_registered : bool;
  image : Z -> Z;
}.

Definition on_system {A : Type} (x : M System A) : M Driver A := fun d =>
  let? (a, s) := x (system d) in
  Ok (a, mk_driver s (platform_ops d) (shown d) (dbg_logger d) (serial_logger d) (unload_registered d) (image d)).

Definition on_shown {A : Type} (x : M (list Z) A) : M Driver A := fun d =>
  let? (a, l) := x (shown d) in
  Ok (a, mk_driver (system d) (platform_ops d) l (dbg_logger d) (serial_logger d) (unload_registered d) (image d)).

(** ** platform_ops.rs *)
Definition ops_init : M Driver unit := modify (fun d =>
  mk_driver (system d) true (shown d) (dbg_logger d) (serial_logger d) (unload_registered d) (image d)).

(** [get], which every use of the operations goes through. *)
Definition ops_get : M Driver unit :=
  let! some := gets platform_ops in massert some "PLATFORM_OPS.get().unwrap()".

(** ** Windows *)
Inductive NTSTATUS : Type := STATUS_SUCCESS | STATUS_INSUFFICIENT_RESOURCES.

(** [eprintln!]: the line and the newline are two strings. *)
Definition eprintln (s : string) : M Driver unit := on_shown (print [bytes_of s; [10]]).

Definition register_unload : M Driver unit := modify (fun d =>
  mk_driver (system d) (platform_ops d) (shown d) (dbg_logger d) (serial_logger d) true (image d)).

(** logger.rs [init] *)
Definition dbg_init (level : Level) : M Driver unit := fun d =>
  let '(cell, crate) := dbg_logger d in
  let? (_, (cell, crate, _)) := init_logger (ret tt) (Level_value level) (cell, crate, tt) in
  Ok (tt, mk_driver (system d) (platform_ops d) (shown d) (cell, crate) (serial_logger d) (unload_registered d) (image d)).

(** [pool] is what [ExAllocatePool2] returns. *)
Definition driver_entry (pool : Z) : M Driver NTSTATUS :=
  eprintln "Loading win_hv.sys" ;;!
  register_unload ;;!
  if pool =? 0 then
    eprintln "Memory allocation failed" ;;!
    ret STATUS_INSUFFICIENT_RESOURCES
  else
    on_system (on_heap (Allocator.init pool)) ;;!
    ops_init ;;!
    dbg_init LInfo ;;!
    ops_get ;;!
    on_system (virtualize_system (IG := IG) (AG := AG) alloc (mk_shared_host None None None)) ;;!
    eprintln "Loaded win_hv.sys" ;;!
    ret STATUS_SUCCESS.

Definition driver_unload (here : nat) (events : nat -> list EI * list EA) : M Driver unit :=
  eprintln "Unloading win_hv.sys" ;;!
  ops_get ;;!
  on_system (devirtualize_system (IG := IG) (AG := AG) here events) ;;!
  eprintln "Unloaded win_hv.sys".

(** ** UEFI *)

(** [SUCCESS], or what a boot service reported. *)
Inductive Status : Type := SUCCESS | EfiError (code : Z).

(** [println!] goes to the firmware's console; the values it formats (an error,
    the range of the image) are left out. *)
Definition println (s : string) : M Driver unit := on_shown (modify (fun l => l ++ bytes_of s ++ [10])).

Definition write32 (address value : Z) : M Driver unit := modify (fun d =>
  mk_driver (system d) (platform_ops d) (shown d) (dbg_logger d) (serial_logger d) (unload_registered d)
    (fset address value (image d))).

(** [loaded_image] is the base and the size of the image, or an error. *)
Definition zap_relocation_table (loaded_image : result (Z * Z) Z) : M Driver (result unit Z) :=
  match loaded_image with
  | RErr e => ret (RErr e)
  | ROk (image_base, image_size) =>
      let! _ := lift (add_w 64 image_base image_size) in
      println "Image base" ;;!
      let! rva := lift (add_w 64 image_base 0x128) in
      write32 rva 0 ;;!
      let! size := lift (add_w 64 image_base 0x12c) in
      write32 size 0 ;;!
      ret (ROk tt)
  end.

(** Code on the native processor [p]. *)
Definition on_native {A : Type} (p : nat) (x : M Machine A) : M System A := fun s =>
  match cpus s !! p with
  | Some (Native m r) => let? (a, m) := x m in Ok (a, set_processor p (Native m r) s)
  | _ => Panic "the processor is not native"
  end.

Definition uefi_serial_init (level : Level) : M Driver unit := fun d =>
  let? (_, l) := serial_init (Level_value level) (serial_logger d) in
  Ok (tt, mk_driver (system d) (platform_ops d) (shown d) (dbg_logger d) l (unload_registered d) (image d)).

(** The boot processor; how TSSs are read and made; where the leaked tables of
    each processor, its host GDT, the host IDT, its first stub and the host
    paging structures are. *)
Context (bsp : nat) (load : Z -> TaskStateSegment) (tss_new : TaskStateSegment) (tss_addr gdt_addr host_gdt_addr : nat -> Z)
  (idt_addr handler0 pt_addr : Z).

(** [mp_services] is the number of enabled processors; [None] when the query
    fails, an error when the protocol cannot be opened. *)
Definition create_shared_host_data (mp_services : result (option Z) Z) : M Driver (result SharedHostData Z) :=
  let! gdt_tss := on_system (on_native bsp (new_from_current load)) in
  match mp_services with
  | RErr e => ret (RErr e)
  | ROk n =>
      let! n := lift (unwrap n "get_number_of_processors().unwrap()") in
      let! n := lift (if n <? 2 ^ 32 then Ok n else Panic "u32::try_from(..).unwrap()") in
      let host_gdt_tss := (fun i => (host_gdt_addr i, gdt_tss)) <$> seq 0 (Z.to_nat n) in
      let! first := lift (unwrap (host_gdt_tss !! 0%nat) "index out of bounds") in
      let! host_idt := lift (idt_new handler0 (Tables.cs first.2)) in
      let! _ := lift (build_identity pt_addr PagingStructures_new) in
      ret (ROk (mk_shared_host (Some pt_addr) (Some (idt_addr, host_idt)) (Some host_gdt_tss)))
  end.

(** [pages] is what [allocate_pages] returns. *)
Definition uefi_main (pages : result Z Z) (loaded_image : result (Z * Z) Z) (mp_services : result (option Z) Z)
    : M Driver Status :=
  println "Loading uefi_hv.efi" ;;!
  match pages with
  | RErr e => println "Memory allocation failed" ;;! ret (EfiError e)
  | ROk ptr =>
      on_system (on_heap (Allocator.init ptr)) ;;!
      ops_init ;;!
      let! zapped := zap_relocation_table loaded_image in
      match zapped with
      | RErr e => println "zap_relocation_table failed" ;;! ret (EfiError e)
      | ROk _ =>
          let! intel := on_system (on_native bsp (gets (fun m => vendor_is_intel (hw_cpuid m)))) in
          (if intel : bool then
             ops_get ;;!
             on_system (run_on_all_processors (fun p =>
               on_native p (prepare_tss load tss_new (tss_addr p) (gdt_addr p))))
           else ret tt) ;;!
          uefi_serial_init LInfo ;;!
          let! shared_host := create_shared_host_data mp_services in
          match shared_host with
          | RErr e => println "create_shared_host_data failed" ;;! ret (EfiError e)
          | ROk shared_host =>
              ops_get ;;!
              on_system (virtualize_system (IG := IG) (AG := AG) alloc shared_host) ;;!
              println "Loaded uefi_hv.efi" ;;!
              ret SUCCESS
          end
      end
  end.
End Drivers.

(** ** Theorems *)
Section PrepareTheorems.
Context {P : Profile} {BT : BitFieldTrait} {XS : X86Segmentation} {XT : X86Task}.

Lemma stored_word base l m i x : l !! i = Some x ->
  exists m', store_words base l m = Ok (tt, m') /\ mem m' (base + 8 * Z.of_nat i) = x.
Proof.
  intros Hi. eexists. split; [reflexivity|]. cbn [mem]. pose proof (lookup_lt_Some _ _ _ Hi) as Hlt.
  rewrite (proj2 (Z.leb_le _ _)), (proj2 (Z.ltb_lt _ _)) by lia. cbn [andb].
  replace (base + 8 * Z.of_nat i - base) with (Z.of_nat i * 8) by lia.
  by rewrite Z.div_mul, Nat2Z.id, Hi by lia.
Qed.

(** C34: on a processor without a task register, the callback of the UEFI driver
    leaves the old descriptors in place at the new address and a task register
    whose descriptor is found there, with the low half of the address of the
    new TSS as base: what the VMX guest state and host state need. Nothing else
    of the processor changes. *)
Theorem prepare_tss_ready load tss_new tss_addr gdt_addr m n :
  sys m TR = 0 -> sys m GDTR_LIMIT = 8 * Z.of_nat n - 1 -> 1 <= Z.of_nat n < 8000 -> (forall a, in_width 64 (mem m a)) ->
  exists m' d, prepare_tss load tss_new tss_addr gdt_addr m = Ok (tt, m') /\
    sys m' GDTR_BASE = gdt_addr /\ sys m' TR = 8 * Z.of_nat n /\
    try_from_gdtr (mem m') (mk_dtp gdt_addr (sys m' GDTR_LIMIT)) (sys m' TR) = Ok (ROk d) /\
    descriptor_base d = Ok (wrap 32 tss_addr) /\
    (forall i, (i < n)%nat -> mem m' (gdt_addr + 8 * Z.of_nat i) = mem m (sys m GDTR_BASE + 8 * Z.of_nat i)) /\
    (forall r, r <> GDTR_BASE -> r <> GDTR_LIMIT -> r <> TR -> sys m' r = sys m r) /\ msrs m' = msrs m.
Proof.
  intros Htr Hlim Hn Hwf. set (words := map (fun i => mem m (sys m GDTR_BASE + 8 * Z.of_nat i)) (seq 0 n)).
  set (g := mk_gdt_tss words (sys m CS) None None).
  assert (new_from_current load m = Ok (g, m)) as Hnew.
  { unfold new_from_current, gdt_tss_sgdt, sgdt, gets. cbn [obind]. unfold gdt_slice. cbn [dtp_limit dtp_base]. rewrite Hlim.
    rewrite add_w_small by (unfold in_width; lia). cbn [obind].
    replace (8 * Z.of_nat n - 1 + 1) with (Z.of_nat n * 8) by lia. rewrite Z.div_mul, Nat2Z.id, Htr by lia. done. }
  assert (length words = n) as Hlen by (unfold words; by rewrite length_map, length_seq).
  set (g' := append_tss tss_addr tss_new g).
  assert (length (gdt g') = (n + 2)%nat) as Hlen' by (unfold g', g; cbn; rewrite length_app, Hlen; done).
  assert (forall i, (i < n)%nat -> gdt g' !! i = Some (mem m (sys m GDTR_BASE + 8 * Z.of_nat i))) as Hold.
  { intros i Hi. unfold g', g. cbn [append_tss gdt tss tr_sel]. rewrite lookup_app_l by lia.
    unfold words. rewrite list_lookup_fmap, lookup_seq_lt by done. done. }
  assert (Forall (in_width 64) (gdt g')) as Hall.
  { unfold g', g. cbn [append_tss gdt tss tr_sel]. apply Forall_app. split.
    - apply Forall_map, Forall_true. intros i. apply Hwf.
    - repeat constructor; done || apply tss_descriptor_width. }
  unfold prepare_tss. rewrite (bind_intro _ _ _ _ _ Hnew). fold g'. unfold store_words. rewrite bind_modify.
  set (m1 := mk_machine _ _ _ _ _ _ _ _ _).
  assert (forall i x, gdt g' !! i = Some x -> mem m1 (gdt_addr + 8 * Z.of_nat i) = x) as Hmem.
  { intros i x Hi. destruct (stored_word gdt_addr (gdt g') m i x Hi) as (m2 & H2 & <-). by injection H2 as <-. }
  destruct (append_tss_found g tss_addr tss_new (mem m1) gdt_addr eq_refl eq_refl) as (sel & d & Hsel & -> & Hfound & Hbase).
  - cbn [gdt g]. lia.
  - intros a. unfold m1. cbn [mem]. destruct (_ && _); [|apply Hwf].
    destruct (gdt g' !! _) as [x|] eqn:Hx; [|done]. by apply (Forall_lookup_1 _ _ _ _ Hall Hx).
  - exact Hmem.
  - fold g' in Hsel, Hfound. cbn [gdt g] in Hsel, Hfound. rewrite Hlen in Hsel, Hfound.
    unfold apply, tr, sys_read. unfold bind at 1. rewrite bind_gets. change (sys m1 TR) with (sys m TR). rewrite Htr, Hsel.
    cbn [Z.eqb negb]. eexists _, d. split; [reflexivity|]. split; [reflexivity|]. split; [reflexivity|].
    split; [|split; [exact Hbase|]].
    + rewrite <- Hfound. rewrite Hlen'. cbn. rewrite wrap_small by (unfold in_width; lia). done.
    + split; [intros i Hi; by apply Hmem, Hold|]. split; [|done].
      intros r H1 H2 H3. cbn. by rewrite !fset_other by congruence.
Qed.
End PrepareTheorems.

Section DriverLemmas.
Context {P : Profile} {BF : BitfieldMacro} {BT : BitFieldTrait} {XS : X86Segmentation} {B : Type} {BA : BitArray B}
  {W GI EI VI GA EA VA : Type} {HC : HasCpu W} {HA : HasApic W} {X86 : X86Xcr0} {PO : PlatformOps nat} {XT : X86Task}.
Context {IG : SharedHostData -> Guest W GI EI} {IX : Extension W VI}
  {AG : SharedHostData -> Guest W GA EA} {AX : Extension W VA}
  {IS : forall d, Setup (GI := IG d) W GI EI VI} {AS : forall d, Setup (GI := AG d) W GA EA VA}.
#[local] Abbreviation System :=
  (System (W := W) (GI := GI) (VI := VI) (GA := GA) (VA := VA) (Heap := option (Metadata B))).
#[local] Abbreviation Driver := (Driver (B := B) (W := W) (GI := GI) (VI := VI) (GA := GA) (VA := VA)).

(** The processors differ at most in their tables. *)
Definition same_processors (s s' : System) : Prop :=
  SHARED_HOST_DATA s' = SHARED_HOST_DATA s /\ shared s' = shared s /\
  forall p m r, cpus s !! p = Some (Native m r) -> exists m', cpus s' !! p = Some (Native m' r) /\ hw_cpuid m' = hw_cpuid m.

#[export] Instance same_processors_pre : PreOrder same_processors.
Proof.
  split; [intros s; split_and!; eauto|]. intros s1 s2 s3 (H1 & H2 & H3) (G1 & G2 & G3). split_and!; [congruence..|].
  intros p m r Hp. destruct (H3 p m r Hp) as (m' & Hp' & E). destruct (G3 p m' r Hp') as (m2 & Hp2 & E2).
  exists m2. split; [done|congruence].
Qed.

Lemma on_native_same {A : Type} p (x : M Machine A) a s s' : (forall m a m', x m = Ok (a, m') -> hw_cpuid m' = hw_cpuid m) ->
  on_native p x s = Ok (a, s') -> same_processors s s'.
Proof.
  intros Hx H. unfold on_native in H. destruct (cpus s !! p) as [[m r|]|] eqn:Hp; try done.
  apply obind_ok in H as ([b m'] & Hm & H). injection H as <- <-. apply Hx in Hm. split_and!; [done..|].
  intros p1 m1 r1 Hp1. cbn [set_processor cpus]. destruct (decide (p = p1)) as [->|Hne].
  - rewrite Hp in Hp1. injection Hp1 as -> ->. exists m'. split; [|done]. apply list_lookup_insert_eq.
    by apply lookup_lt_Some in Hp.
  - exists m1. split; [|done]. by rewrite list_lookup_insert_ne.
Qed.

Lemma new_from_current_same load m g m' : new_from_current load m = Ok (g, m') -> m' = m.
Proof.
  unfold new_from_current, gdt_tss_sgdt, sgdt, gets. cbn [obind]. intros H. apply obind_ok in H as (words & _ & H). apply obind_ok in H as (t & _ & H).
  by injection H as _ <-.
Qed.

Lemma prepare_tss_cpuid load tn ta ga m a m' : prepare_tss load tn ta ga m = Ok (a, m') -> hw_cpuid m' = hw_cpuid m.
Proof.
  intros H. unfold prepare_tss in H. apply bind_ok in H as (g & m1 & Hg & H). apply new_from_current_same in Hg as ->.
  unfold store_words in H. rewrite bind_modify in H. apply bind_ok in H as (r & m2 & Ha & H).
  assert (m' = m2) as -> by (destruct r; [by injection H as _ <-|done]).
  unfold apply, tr, sys_read in Ha. rewrite bind_gets in Ha. destruct (negb _); [by injection Ha as _ <-|].
  unfold lgdt in Ha. rewrite bind_modify in Ha. destruct (tr_sel _); by injection Ha as _ <-.
Qed.

Lemma prepare_all_same load tn ta ga l s s' :
  run_one_by_one (fun p => on_native p (prepare_tss load tn (ta p) (ga p))) l s = Ok (tt, s') -> same_processors s s'.
Proof.
  revert s. induction l as [|p l IH]; intros s H; [injection H as <-; reflexivity|].
  cbn [run_one_by_one] in H. apply bind_ok in H as ([] & s1 & H1 & H).
  transitivity s1; [|by apply IH]. eapply on_native_same; [|exact H1]. intros m a m'. apply prepare_tss_cpuid.
Qed.

Lemma on_system_ok {A : Type} (x : M System A) a (d d' : Driver) : on_system x d = Ok (a, d') ->
  exists s, x (system d) = Ok (a, s) /\ system d' = s /\ platform_ops d' = platform_ops d /\ dbg_logger d' = dbg_logger d.
Proof. intros H. apply obind_ok in H as ([b s] & Hx & H). injection H as -> <-. by exists s. Qed.

Lemma on_heap_same {A : Type} (x : M (option (Metadata B)) A) a (s s' : System) : on_heap x s = Ok (a, s') -> same_processors s s'.
Proof.
  intros H. apply obind_ok in H as ([b h] & _ & H). injection H as _ <-. split_and!; [done..|]. intros p m r Hp. by exists m.
Qed.

(** What [virtualize_system] needs is kept. *)
Definition ready_system (s : System) : Prop :=
  SHARED_HOST_DATA s = None /\ APIC_ID_MAP (get_apic (shared s)) = ∅ /\
  forall p, p ∈ processors -> exists m r, cpus s !! p = Some (Native m r) /\ is_our_hypervisor_present (hw_cpuid m) = false.

Lemma ready_same s s' : same_processors s s' -> ready_system s -> ready_system s'.
Proof.
  intros (H1 & H2 & H3) (G1 & G2 & G3). split_and!; [congruence..|]. intros p Hp.
  destruct (G3 p Hp) as (m & r & Hq & Hno). destruct (H3 p m r Hq) as (m' & Hq' & E). exists m', r. by rewrite E.
Qed.

(** All processors host a guest that starts with the registers they had. *)
Definition all_hosted (sh : SharedHostData) (s s' : System) : Prop :=
  SHARED_HOST_DATA s' = Some sh /\
  forall p m r, p ∈ processors -> cpus s !! p = Some (Native m r) ->
    exists m' st, cpus s' !! p = Some (Hosted m' st) /\ starts_with (IG := IG) (AG := AG) sh r st.

Lemma virtualize_hosts sh s0 s s' : NoDup processors -> ready_system s -> same_processors s0 s ->
  virtualize_system (IG := IG) (AG := AG) alloc sh s = Ok (tt, s') -> all_hosted sh s0 s'.
Proof.
  intros Hnd (Hnone & Hmap & Hall) (_ & _ & Hsame) H.
  destruct (virtualize_system_hosts alloc sh s s' Hnd Hnone Hmap Hall H) as (ms & _ & _ & Hd & _ & Hhost & _).
  split; [done|]. intros p m r Hp Hq. destruct (Hsame p m r Hq) as (m' & Hq' & _). by apply (Hhost p m' r).
Qed.

(** [eprintln!] of a short line does not fail. *)
Lemma eprintln_ok s (d : Driver) : printable (bytes_of s) -> exists d', eprintln s d = Ok (tt, d') /\
  system d' = system d /\ platform_ops d' = platform_ops d /\ dbg_logger d' = dbg_logger d.
Proof.
  intros Hs. unfold eprintln, on_shown.
  assert (print [bytes_of s; [10]] (shown d) = Ok (tt, shown d ++ concat [bytes_of s; [10]])) as ->.
  { apply print_ok. apply Forall_cons. split; [exact Hs|]. apply Forall_cons. split; [|constructor].
    split; [apply Forall_singleton; lia|cbn; lia]. }
  eexists. split; [reflexivity|done].
Qed.
End DriverLemmas.

(** The lines printed are short ASCII strings. *)
Ltac printable_line := split; [repeat constructor; lia|cbn; lia].

Section DriverTheorems.
Context {P : Profile} {BF : BitfieldMacro} {BT : BitFieldTrait} {XS : X86Segmentation} {B : Type} {BA : BitArray B}
  {W GI EI VI GA EA VA : Type} {HC : HasCpu W} {HA : HasApic W} {X86 : X86Xcr0} {PO : PlatformOps nat} {XT : X86Task}.
Context {IG : SharedHostData -> Guest W GI EI} {IX : Extension W VI}
  {AG : SharedHostData -> Guest W GA EA} {AX : Extension W VA}
  {IS : forall d, Setup (GI := IG d) W GI EI VI} {AS : forall d, Setup (GI := AG d) W GA EA VA}.
#[local] Abbreviation Driver := (Driver (B := B) (W := W) (GI := GI) (VI := VI) (GA := GA) (VA := VA)).
#[local] Abbreviation entry := (driver_entry (IG := IG) (AG := AG)).
#[local] Abbreviation hosted := (all_hosted (IG := IG) (AG := AG)).


Context (bsp : nat) (load : Z -> TaskStateSegment) (tss_new : TaskStateSegment) (tss_addr gdt_addr host_gdt_addr : nat -> Z)
  (idt_addr handler0 pt_addr : Z).
#[local] Abbreviation uefi := (uefi_main (IG := IG) (AG := AG) bsp load tss_new tss_addr gdt_addr host_gdt_addr idt_addr handler0 pt_addr).

(** What the host is given under UEFI: its own page tables and IDT, and a GDT
    for each of the [n] processors. *)
Definition own_data (n : Z) (sh : SharedHostData) : Prop :=
  host_pt sh = Some pt_addr /\ (exists idt, host_idt sh = Some (idt_addr, idt)) /\
  exists gdts, host_gdts sh = Some gdts /\ length gdts = Z.to_nat n.

Lemma println_ok s (d d' : Driver) : println s d = Ok (tt, d') -> system d' = system d.
Proof. intros H. apply obind_ok in H as ([[] l] & _ & H). by injection H as <-. Qed.

Lemma zap_ok img r (d d' : Driver) : zap_relocation_table img d = Ok (r, d') ->
  system d' = system d /\ (forall e, r = RErr e -> img = RErr e).
Proof.
  unfold zap_relocation_table. destruct img as [[base size]|e]; intros H; [|injection H as <- <-; split; [done|]; by intros e' [= ->]].
  apply bind_ok in H as (x1 & d1 & H1 & H). apply lift_ok in H1 as [_ ->].
  apply bind_ok in H as ([] & d1 & H1 & H). apply println_ok in H1.
  apply bind_ok in H as (x2 & d2 & H2 & H). apply lift_ok in H2 as [_ ->].
  unfold write32 in H. rewrite bind_modify in H.
  apply bind_ok in H as (x3 & d2 & H2 & H). apply lift_ok in H2 as [_ ->].
  rewrite bind_modify in H. injection H as <- <-. split; [exact H1|done].
Qed.

Lemma create_ok mps r (d d' : Driver) :
  create_shared_host_data bsp load host_gdt_addr idt_addr handler0 pt_addr mps d = Ok (r, d') ->
  same_processors (system d) (system d') /\
  match r with ROk sh => exists n, mps = ROk (Some n) /\ own_data n sh | RErr e => mps = RErr e end.
Proof.
  intros H. unfold create_shared_host_data in H. apply bind_ok in H as (g & d1 & H1 & H).
  apply on_system_ok in H1 as (s1 & Hs & Hs1 & _). apply on_native_same in Hs.
  2: { intros m g' m' Hm. by apply new_from_current_same in Hm as ->. }
  rewrite <- Hs1 in Hs. destruct mps as [on|e]; [|injection H as <- <-; split; [exact Hs|done]].
  apply bind_ok in H as (n & d2 & H2 & H). apply lift_ok in H2 as [Hn ->].
  apply bind_ok in H as (n' & d2 & H2 & H). apply lift_ok in H2 as [Hn' ->].
  apply bind_ok in H as (first & d2 & H2 & H). apply lift_ok in H2 as [_ ->].
  apply bind_ok in H as (idt & d2 & H2 & H). apply lift_ok in H2 as [_ ->].
  apply bind_ok in H as (ps & d2 & H2 & H). apply lift_ok in H2 as [_ ->]. injection H as <- <-.
  split; [exact Hs|]. destruct on as [n0|]; [|done]. injection Hn as ->. exists n. split; [done|].
  destruct (n <? 2 ^ 32); [|done]. injection Hn' as <-. split; [done|]. split; [by eexists|]. eexists. split; [done|].
  by rewrite length_fmap, length_seq.
Qed.

(** The system as the driver has prepared it for [virtualize_system]: the heap
    is there, and on Intel processors the TSSs are. *)
#[local] Abbreviation System :=
  (System (W := W) (GI := GI) (VI := VI) (GA := GA) (VA := VA) (Heap := option (Metadata B))).
Inductive prepared (ptr : Z) (s : System) : System -> Prop :=
  | prepared_intel m r h s' : cpus s !! bsp = Some (Native m r) -> vendor_is_intel (hw_cpuid m) = true ->
      Allocator.init ptr (heap s) = Ok (tt, h) ->
      run_one_by_one (fun p => on_native p (prepare_tss load tss_new (tss_addr p) (gdt_addr p))) processors
        (mk_system (shared s) (cpus s) h (SHARED_HOST_DATA s)) = Ok (tt, s') -> prepared ptr s s'
  | prepared_amd m r h : cpus s !! bsp = Some (Native m r) -> vendor_is_intel (hw_cpuid m) = false ->
      Allocator.init ptr (heap s) = Ok (tt, h) ->
      prepared ptr s (mk_system (shared s) (cpus s) h (SHARED_HOST_DATA s)).

(** The tables made for [n] processors. *)
Definition made_data (n : Z) (g : GdtTssRaw) (idt : list InterruptDescriptorTableEntry) : SharedHostData :=
  mk_shared_host (Some pt_addr) (Some (idt_addr, idt)) (Some ((fun i => (host_gdt_addr i, g)) <$> seq 0 (Z.to_nat n))).

Lemma println_does s (d : Driver) : exists d', println s d = Ok (tt, d') /\ system d' = system d /\
  platform_ops d' = platform_ops d /\ serial_logger d' = serial_logger d.
Proof. by eexists. Qed.

Lemma zap_runs base size (d : Driver) : 0 <= base -> 0 <= size -> base + Z.max size 0x130 < 2 ^ 64 ->
  exists d', zap_relocation_table (ROk (base, size)) d = Ok (ROk tt, d') /\ system d' = system d /\
    platform_ops d' = platform_ops d /\ serial_logger d' = serial_logger d.
Proof.
  intros. unfold zap_relocation_table.
  rewrite add_w_small by (unfold in_width; lia). rewrite bind_lift_ok.
  destruct (println_does "Image base" d) as (d1 & Hline & ? & ? & ?). rewrite (bind_intro _ _ _ _ _ Hline).
  rewrite !add_w_small by (unfold in_width; lia). rewrite bind_lift_ok. unfold write32. rewrite bind_modify, bind_lift_ok, bind_modify.
  by eexists.
Qed.

(** The TSSs are prepared on Intel processors. *)
Lemma prepare_runs ptr s h s1 (d : Driver) : prepared ptr s s1 -> Allocator.init ptr (heap s) = Ok (tt, h) ->
  system d = mk_system (shared s) (cpus s) h (SHARED_HOST_DATA s) -> platform_ops d = true ->
  exists (intel : bool) d1 d2, on_system (on_native bsp (gets (fun m => vendor_is_intel (hw_cpuid m)))) d = Ok (intel, d1) /\
    (if intel then ops_get ;;! on_system (run_on_all_processors (fun p =>
       on_native p (prepare_tss load tss_new (tss_addr p) (gdt_addr p)))) else ret tt) d1 = Ok (tt, d2) /\
    system d2 = s1 /\ platform_ops d2 = platform_ops d /\ serial_logger d2 = serial_logger d.
Proof.
  intros Hprep Hh Hs Ho.
  assert (forall m r, cpus s !! bsp = Some (Native m r) ->
    on_system (on_native bsp (gets (fun m => vendor_is_intel (hw_cpuid m)))) d = Ok (vendor_is_intel (hw_cpuid m), d)) as Hvendor.
  { intros m r Hbsp. unfold on_system, on_native. rewrite Hs. cbn [cpus]. rewrite Hbsp. unfold gets. cbn [obind].
    unfold set_processor. cbn [shared cpus heap SHARED_HOST_DATA]. rewrite list_insert_id by done. rewrite <- Hs. by destruct d. }
  destruct Hprep as [m r h' s' Hbsp Hv Hi Hrun|m r h' Hbsp Hv Hi]; rewrite Hh in Hi; injection Hi as <-;
    pose proof (Hvendor m r Hbsp) as H; rewrite Hv in H; eexists _, d.
  - exists (mk_driver s' (platform_ops d) (shown d) (dbg_logger d) (serial_logger d) (unload_registered d) (image d)).
    split; [exact H|]. split; [|done].
    erewrite bind_intro; [|unfold ops_get; rewrite bind_gets, Ho; reflexivity].
    unfold on_system. rewrite run_on_all_spec, Hs, Hrun. reflexivity.
  - exists d. split; [exact H|]. done.
Qed.

(** The tables of the host. *)
Lemma create_runs n g idt m r (d : Driver) : cpus (system d) !! bsp = Some (Native m r) ->
  0 < n < 2 ^ 32 -> new_from_current load m = Ok (g, m) -> idt_new handler0 (Tables.cs g) = Ok idt ->
  create_shared_host_data bsp load host_gdt_addr idt_addr handler0 pt_addr (ROk (Some n)) d = Ok (ROk (made_data n g idt), d).
Proof.
  intros Hbsp Hn Hg Hidt. unfold create_shared_host_data.
  rewrite (bind_intro _ _ d g d).
  2: { unfold on_system, on_native. rewrite Hbsp, Hg. cbn [obind]. unfold set_processor. rewrite list_insert_id by done.
       by destruct d as [[]]. }
  cbn [unwrap]. rewrite bind_lift_ok, (proj2 (Z.ltb_lt n (2 ^ 32))), bind_lift_ok by lia. cbn zeta.
  replace (Z.to_nat n) with (S (Z.to_nat n - 1)) by lia.
  change (lift (unwrap (((fun i => (host_gdt_addr i, g)) <$> seq 0 (S (Z.to_nat n - 1))) !! 0%nat) "index out of bounds"))
    with (lift (St := Driver) (Ok (host_gdt_addr 0%nat, g))). rewrite bind_lift_ok. cbn [snd]. rewrite Hidt, bind_lift_ok.
  unfold build_identity. rewrite build_identity_internal_built, bind_lift_ok.
  unfold made_data. by replace (S (Z.to_nat n - 1)) with (Z.to_nat n) by lia.
Qed.

(** The driver, when no boot service fails. *)
Lemma uefi_runs suits {SS : Startable (IG := IG) (IX := IX) (AG := AG) (AX := AX) suits} ptr base size n s1 m r g idt (d : Driver) :
  0 <= base -> 0 <= size -> base + Z.max size 0x130 < 2 ^ 64 -> 0 < n < 2 ^ 32 ->
  is_ok (serial_init (Level_value LInfo) (serial_logger d)) = true ->
  prepared ptr (system d) s1 -> cpus s1 !! bsp = Some (Native m r) -> new_from_current load m = Ok (g, m) ->
  idt_new handler0 (Tables.cs g) = Ok idt -> startable_system suits alloc (made_data n g idt) s1 ->
  exists d', uefi (ROk ptr) (ROk (base, size)) (ROk (Some n)) d = Ok (SUCCESS, d').
Proof.
  intros Hb Hs Hend Hn Hserial Hprep Hbsp Hg Hidt Hstart. unfold uefi_main.
  destruct (virtualize_system_runs suits alloc _ _ Hstart) as [s2 Hs2].
  destruct (println_does "Loading uefi_hv.efi" d) as (d1 & H1 & Hs1 & _ & Hl1). rewrite (bind_intro _ _ _ _ _ H1).
  assert (exists h, Allocator.init ptr (heap (system d)) = Ok (tt, h)) as [h Hh]
    by (destruct Hprep; eauto).
  set (sh := mk_system (shared (system d)) (cpus (system d)) h (SHARED_HOST_DATA (system d))).
  destruct (zap_runs base size (mk_driver sh true (shown d1) (dbg_logger d1) (serial_logger d1) (unload_registered d1) (image d1)))
    as (d3 & H3 & Hs3 & Ho3 & Hl3); [lia..|]. cbn [system platform_ops serial_logger] in Hs3, Ho3, Hl3.
  erewrite bind_intro; [|unfold on_system, on_heap; rewrite Hs1, Hh; reflexivity].
  unfold ops_init. rewrite bind_modify. cbn [platform_ops shown dbg_logger serial_logger unload_registered image system].
  fold sh. rewrite (bind_intro _ _ _ _ _ H3).
  destruct (prepare_runs ptr (system d) h s1 d3 Hprep Hh) as (intel & d4 & d5 & H4 & H5 & Hs5 & Ho5 & Hl5); [done|done|].
  rewrite (bind_intro _ _ _ _ _ H4), (bind_intro _ _ _ _ _ H5).
  destruct (serial_init (Level_value LInfo) (serial_logger d5)) as [[[] l]|] eqn:Hinit;
    [|by rewrite Hl5, Hl3, Hl1 in Hinit; rewrite Hinit in Hserial].
  erewrite bind_intro; [|unfold uefi_serial_init; rewrite Hinit; reflexivity].
  set (d6 := mk_driver (system d5) _ _ _ _ _ _).
  assert (create_shared_host_data bsp load host_gdt_addr idt_addr handler0 pt_addr (ROk (Some n)) d6 =
    Ok (ROk (made_data n g idt), d6)) as H7 by (apply (create_runs n g idt m r); [|done..]; cbn [d6 system]; by rewrite Hs5).
  rewrite (bind_intro _ _ _ _ _ H7).
  erewrite bind_intro; [|unfold ops_get; rewrite bind_gets; cbn [d6 platform_ops]; rewrite Ho5, Ho3; reflexivity].
  erewrite bind_intro; [|unfold on_system; cbn [d6 system]; rewrite Hs5, Hs2; reflexivity].
  by eexists.
Qed.

End DriverTheorems.

(** ** Witnesses *)
Module DriversExample.
Import Reference HypervisorExample.
#[local] Existing Instance TablesExample.x86_task.
#[local] Existing Instances HypervisorExample.checked HypervisorExample.ops intel amd intel_vt amd_vt intel_ok amd_ok.

Definition a_tss : TaskStateSegment := tt.

(** A processor without a TSS, and a GDT of two descriptors at 0x1000. *)
Definition without_tss : Machine :=
  mk_machine (fun r => match r with GDTR_BASE => 0x1000 | GDTR_LIMIT => 0xf | CS => 0x8 | _ => 0 end) ∅
    (fun a => if a =? 0x1008 then 0x00209b0000000000 else 0) (fun _ => 0) VmxOff ∅ (fun _ _ => mk_cpuid 0 0 0 0)
    (fun _ => (0, 0)) (fun _ => (0, 0)).

Lemma prepare_tss_ready_witness : exists m' d,
  prepare_tss (fun _ => a_tss) a_tss 0x1_2345_6000 0x8000 without_tss = Ok (tt, m') /\ sys m' TR = 0x10 /\
  try_from_gdtr (mem m') (mk_dtp 0x8000 (sys m' GDTR_LIMIT)) (sys m' TR) = Ok (ROk d) /\ descriptor_base d = Ok 0x2345_6000.
Proof.
  destruct (prepare_tss_ready (fun _ => a_tss) a_tss 0x1_2345_6000 0x8000 without_tss 2 eq_refl eq_refl ltac:(lia))
    as (m' & d & H & _ & Htr & Hd & Hb & _).
  - intros a. cbn. by destruct (_ =? _).
  - exists m', d. split; [exact H|]. split; [exact Htr|]. split; [exact Hd|exact Hb].
Defined.

Definition fresh : Driver (B := list bool) (W := HvWorld) (GI := VmxGuest) (VI := Vmx) (GA := SvmGuest) (VA := Svm) :=
  mk_driver (mk_system (shared native) (cpus native) None None) false [] (None, mk_log_crate None 0)
    (None, mk_log_crate None 0, mk_io false [] []) false (fun _ => 1).

Lemma fresh_ready : ready_system (system fresh).
Proof. split; [reflexivity|]. split; [reflexivity|]. exact both_native. Qed.

Lemma loads : is_ok (driver_entry (IG := intel) (AG := amd) 0x1_0000 fresh) = true.
Proof. vm_compute. reflexivity. Qed.


(** The firmware reports two processors; the image is at 0x4000_0000. *)
#[local] Abbreviation boots := (
  uefi_main (IG := intel) (AG := amd) 0%nat (fun _ => a_tss) a_tss (fun p => addr 0x80_0000 (Z.of_nat p))
    (fun p => addr 0x90_0000 (Z.of_nat p)) (fun p => addr 0xa0_0000 (Z.of_nat p)) 0xb0_0000 0xb1_0000 0xc0_0000
    (ROk 0x1_0000) (ROk (0x4000_0000, 0x2_0000)) (ROk (Some 2)) fresh).

Lemma boots_ok : is_ok boots = true.
Proof. vm_compute. reflexivity. Qed.

End DriversExample.
