(* ===== verification/Vendor.v ===== *)
(** * The vendor checkers (uefi/check_hv_vendor, windows/check_hv_vendor)

    The two tools that show the CPUID vendor name of the hypervisor on every
    processor, run over the system of System.v: what they print on processors
    that host a guest and on native ones, and every early return. *)

From stdpp Require Import pretty.
From S2P Require Import Prelude External Machine Platform Allocator ApicId Segment Tables Host System Hypervisor Drivers.

(** ** The vendor name *)

(** [u32::to_le_bytes] *)
Definition to_le_bytes (x : Z) : list Z := map (fun i => field x (8 * i) 8) [0; 1; 2; 3].

Definition vendor_bytes (regs : CpuidResult) : list Z := to_le_bytes (ebx regs) ++ to_le_bytes (ecx regs) ++ to_le_bytes (edx regs).

Definition string_of (bytes : list Z) : string :=
  String.string_of_list_ascii (map (fun b => Ascii.ascii_of_nat (Z.to_nat b)) bytes).

(** The name when all its bytes are printable; [from_utf8] does not fail then. *)
Definition printable_vendor (regs : CpuidResult) : string :=
  let vec := vendor_bytes regs in
  if forallb (fun byte => (0x20 <=? byte) && (byte <=? 0x7e)) vec then string_of vec else "".

(** [{:2}] of an integer. *)
Definition pad2 (n : nat) : string :=
  let digits := pretty (N.of_nat n) in
  String.concat "" (replicate (2 - String.length digits) " ") +:+ digits.

(** ["CPU{core_id:2}: {vendor}"] *)
Definition vendor_line (core_id : nat) (vendor : string) : string := "CPU" +:+ pad2 core_id +:+ ": " +:+ vendor.

Definition header : string := "Executing CPUID(0x40000000) on all logical processors".

Section Vendor.
Context {P : Profile} {W GI EI VI GA EA VA Heap : Type} {HC : HasCpu W} {HA : HasApic W} {X86 : X86Xcr0}
  {PO : PlatformOps nat} {XT : X86Task}.
Context {IG : SharedHostData -> Guest W GI EI} {IX : Extension W VI}
  {AG : SharedHostData -> Guest W GA EA} {AX : Extension W VA}.
#[local] Abbreviation System := (System (W := W) (GI := GI) (VI := VI) (GA := GA) (VA := VA) (Heap := Heap)).

(** CPUID on the processor [p], by native code or in the guest. *)
Definition cpuid_on (p : nat) (leaf sub_leaf : Z) (s : System) : outcome CpuidResult :=
  let? q := unwrap (cpus s !! p) "no such processor" in
  let w := put_cpu (machine_of q) (shared s) in
  let d := default (mk_shared_host None None None) (SHARED_HOST_DATA s) in
  match q with
  | Native m _ => Ok (hw_cpuid m leaf sub_leaf)
  | Hosted _ (inl (Running g _)) => guest_cpuid (GI := IG d) g w leaf sub_leaf
  | Hosted _ (inr (Running g _)) => guest_cpuid (GI := AG d) g w leaf sub_leaf
  | Hosted _ _ => Panic "the processor has left the host"
  end.

(** The system a checker runs on, the lines it has printed, and the static
    [PROCESSOR_COUNT] of the UEFI checker. *)
Record Checker : Type := mk_checker { sys_of : System; lines : list string; core_count : nat }.

Definition println (line : string) : M Checker unit :=
  modify (fun c => mk_checker (sys_of c) (lines c ++ [line]) (core_count c)).

(** ** UEFI *)

(** [PROCESSOR_COUNT.fetch_add(1, ..)] *)
Definition next_core : M Checker nat := fun c => Ok (core_count c, mk_checker (sys_of c) (lines c) (S (core_count c))).

(** The callback, on the processor [p]. *)
Definition print_vendor (p : nat) : M Checker unit :=
  let! core_id := next_core in
  let! s := gets sys_of in
  let! regs := lift (cpuid_on p 0x4000_0000 0 s) in
  let vendor := printable_vendor regs in
  println (vendor_line core_id vendor).

(** What the boot services answer: the initialization of the helpers, and the
    two calls before the callback; [startup_all_aps] is the firmware's. *)
Definition uefi_check_run (bsp : nat) (startup_all_aps : (nat -> M Checker unit) -> M Checker (option EfiStatus))
    (handle mp_services : option Z) (callback : nat -> M Checker unit) : M Checker (option Z) :=
  match handle with
  | Some e => ret (Some e)
  | None =>
      match mp_services with
      | Some e => ret (Some e)
      | None =>
          callback bsp ;;!
          let! e := startup_all_aps callback in
          match e with
          | Some (OtherError e) => ret (Some e)
          | Some NOT_STARTED | None => ret None
          end
      end
  end.

(** [main]; [display] is how an error is shown. *)
Definition uefi_check_main (bsp : nat) (startup_all_aps : (nat -> M Checker unit) -> M Checker (option EfiStatus))
    (display : Z -> string) (helpers handle mp_services : option Z) : M Checker Status :=
  match helpers with
  | Some e => ret (EfiError e)
  | None =>
      println header ;;!
      let! r := uefi_check_run bsp startup_all_aps handle mp_services print_vendor in
      match r with
      | Some e => println (display e) ;;! ret (EfiError e)
      | None => ret SUCCESS
      end
  end.

(** ** Windows *)

(** The cores with their identifiers and whether the thread can be moved to
    them; [from_utf8_lossy] leaves ASCII as it is. *)
Context (from_utf8_lossy : list Z -> string).

Definition windows_print (core : nat * nat * bool) : M Checker unit :=
  let '(id, p, moved) := core in
  massert moved "core_affinity::set_for_current(core_id)" ;;!
  let! s := gets sys_of in
  let! regs := lift (cpuid_on p 0x4000_0000 0 s) in
  println (vendor_line id (from_utf8_lossy (vendor_bytes regs))).

Fixpoint windows_print_all (cores : list (nat * nat * bool)) : M Checker unit :=
  match cores with
  | [] => ret tt
  | core :: cores' => windows_print core ;;! windows_print_all cores'
  end.

Definition windows_check_main (core_ids : option (list (nat * nat * bool))) : M Checker unit :=
  println header ;;!
  let! cores := lift (unwrap core_ids "get_core_ids().unwrap()") in
  windows_print_all cores.

(** ** Theorems *)

(** The name of this hypervisor. *)
Definition our_name : string := "Barevisor!  ".

Definition answers_ours (s : System) (p : nat) : Prop :=
  exists a, cpuid_on p 0x4000_0000 0 s =
    Ok (mk_cpuid a OUR_HV_VENDOR_NAME_EBX OUR_HV_VENDOR_NAME_ECX OUR_HV_VENDOR_NAME_EDX).

Lemma our_name_printable a :
  printable_vendor (mk_cpuid a OUR_HV_VENDOR_NAME_EBX OUR_HV_VENDOR_NAME_ECX OUR_HV_VENDOR_NAME_EDX) = our_name.
Proof. vm_compute. reflexivity. Qed.

Lemma hosted_answers_ours p m st d r s : cpus s !! p = Some (Hosted m st) ->
  starts_with (IG := IG) (AG := AG) d r st -> answers_ours s p.
Proof.
  intros Hq Hst. unfold answers_ours, cpuid_on. rewrite Hq. cbn [unwrap obind machine_of].
  destruct st as [[g vt|]|[g vt|]]; try done; eexists; rewrite guest_cpuid_answer; reflexivity.
Qed.

Lemma print_vendor_ours p s l n : answers_ours s p ->
  print_vendor p (mk_checker s l n) = Ok (tt, mk_checker s (l ++ [vendor_line n our_name]) (S n)).
Proof.
  intros [a Ha]. unfold print_vendor, next_core, bind. cbn [gets sys_of lines core_count]. rewrite Ha.
  cbn [lift]. by rewrite our_name_printable.
Qed.

Lemma print_vendors_ours ps s l n : (forall p, p ∈ ps -> answers_ours s p) ->
  run_one_by_one print_vendor ps (mk_checker s l n) =
    Ok (tt, mk_checker s (l ++ map (fun i => vendor_line i our_name) (seq n (length ps))) (n + length ps)).
Proof.
  revert l n. induction ps as [|p ps IH]; intros l n H; cbn [run_one_by_one length seq map].
  - by rewrite app_nil_r, Nat.add_0_r.
  - unfold bind. rewrite print_vendor_ours by (apply H; left). rewrite IH by (intros q Hq; apply H; by right).
    rewrite <- app_assoc. by rewrite Nat.add_succ_comm.
Qed.

Lemma windows_print_ours cores s l n : (forall b, forallb (fun x => x <? 128) b = true -> from_utf8_lossy b = string_of b) ->
  (forall c, c ∈ cores -> answers_ours s c.1.2 /\ c.2 = true) ->
  windows_print_all cores (mk_checker s l n) =
    Ok (tt, mk_checker s (l ++ map (fun c => vendor_line c.1.1 our_name) cores) n).
Proof.
  intros Hu. revert l. induction cores as [|[[id p] ok] cores IH]; intros l H; cbn [windows_print_all map].
  - by rewrite app_nil_r.
  - destruct (H _ ltac:(left)) as [[a Ha] Hok]. cbn [fst snd] in Ha, Hok. subst ok.
    unfold windows_print, bind. cbn [massert lift oassert gets sys_of]. rewrite Ha. cbn [lift].
    rewrite Hu by reflexivity.
    change (string_of (vendor_bytes (mk_cpuid a OUR_HV_VENDOR_NAME_EBX OUR_HV_VENDOR_NAME_ECX OUR_HV_VENDOR_NAME_EDX)))
      with our_name.
    cbn [println modify sys_of lines core_count]. rewrite IH by (intros c Hc; apply H; by right).
    by rewrite <- app_assoc.
Qed.
End Vendor.
Arguments mk_checker {W GI VI GA VA Heap XT} _ _ _.

(** ** The name identifies the hypervisor *)

Lemma le_bytes_range x : Forall (in_width 8) (to_le_bytes x).
Proof. unfold to_le_bytes. repeat constructor; by apply field_range. Qed.

Lemma le_bytes_inj x y : in_width 32 x -> in_width 32 y -> to_le_bytes x = to_le_bytes y -> x = y.
Proof.
  intros Hx Hy H. unfold to_le_bytes in H. cbn [map] in H. injection H as H0 H1 H2 H3.
  assert (forall z, in_width 32 z -> z = field z 0 8 + field z 8 8 * 2 ^ 8 + field z 16 8 * 2 ^ 16 + field z 24 8 * 2 ^ 24) as E.
  { intros z Hz. rewrite <- (wrap_small 32 z Hz) at 1. change (wrap 32 z) with (field z 0 (8 + 24)).
    rewrite field_split by lia. change (0 + 8) with 8. change 24 with (8 + 16) at 1. rewrite field_split by lia.
    change (8 + 8) with 16. change 16 with (8 + 8) at 2. rewrite field_split by lia. change (16 + 8) with 24. lia. }
  rewrite (E x Hx), (E y Hy). change (8 * 0) with 0 in *. change (8 * 1) with 8 in *. change (8 * 2) with 16 in *.
  change (8 * 3) with 24 in *. congruence.
Qed.

Lemma string_of_inj l l' : Forall (in_width 8) l -> Forall (in_width 8) l' -> string_of l = string_of l' -> l = l'.
Proof.
  intros Hl Hl' H. apply (f_equal String.list_ascii_of_string) in H. unfold string_of in H.
  rewrite !String.list_ascii_of_string_of_list_ascii in H. revert l' Hl' H.
  induction Hl as [|x l Hx Hl IH]; intros l' Hl' H; destruct Hl' as [|y l' Hy Hl']; try done.
  cbn [map] in H. injection H as H H'. f_equal; [|by apply IH]. apply (f_equal Ascii.nat_of_ascii) in H.
  unfold in_width in *. rewrite !Ascii.nat_ascii_embedding in H by lia. lia.
Qed.

Lemma our_name_means_us r : in_width 32 (ebx r) -> in_width 32 (ecx r) -> in_width 32 (edx r) ->
  printable_vendor r = our_name <-> is_our_hypervisor_present (fun _ _ => r) = true.
Proof.
  intros Hb Hc Hd. set (us := mk_cpuid (eax r) OUR_HV_VENDOR_NAME_EBX OUR_HV_VENDOR_NAME_ECX OUR_HV_VENDOR_NAME_EDX). split.
  - intros H. unfold printable_vendor in H. destruct (forallb _ _); [|discriminate H].
    assert (our_name = string_of (vendor_bytes us)) as E by (vm_compute; reflexivity). rewrite E in H.
    apply string_of_inj in H; [|unfold vendor_bytes; rewrite !Forall_app; eauto using le_bytes_range..].
    unfold vendor_bytes in H. apply app_inj_1 in H as [H1 H]; [|done]. apply app_inj_1 in H as [H2 H3]; [|done].
    apply le_bytes_inj in H1, H2, H3; [|done..]. unfold is_our_hypervisor_present.
    rewrite H1, H2, H3. reflexivity.
  - unfold is_our_hypervisor_present. intros H. apply andb_prop in H as [H H3]. apply andb_prop in H as [H1 H2].
    apply Z.eqb_eq in H1, H2, H3. destruct r as [a b c d]. cbn [ebx ecx edx] in *. subst. apply our_name_printable.
Qed.

Section Checkers.
Context {P : Profile} {W GI EI VI GA EA VA Heap : Type} {HC : HasCpu W} {HA : HasApic W} {X86 : X86Xcr0}
  {PO : PlatformOps nat} {XT : X86Task}.
Context {IG : SharedHostData -> Guest W GI EI} {IX : Extension W VI}
  {AG : SharedHostData -> Guest W GA EA} {AX : Extension W VA}
  {IS : forall d, Setup (GI := IG d) W GI EI VI} {AS : forall d, Setup (GI := AG d) W GA EA VA}.
Context (alloc_zeroed : Allocator.Layout -> M Heap Z) (display : Z -> string) (from_utf8_lossy : list Z -> string).
#[local] Abbreviation System := (System (W := W) (GI := GI) (VI := VI) (GA := GA) (VA := VA) (Heap := Heap)).

(** The registers CPUID answers with are 32-bit integers. *)
Definition name_in_width (m : Machine) : Prop :=
  let r := hw_cpuid m 0x4000_0000 0 in in_width 32 (ebx r) /\ in_width 32 (ecx r) /\ in_width 32 (edx r).

(** C30: the checkers tell whether the system is virtualized.  After
    [virtualize_system], the UEFI checker prints the name of the hypervisor for
    every processor, numbered in the order of the firmware, and succeeds; the
    Windows checker prints it for every core the thread can be moved to.  A
    processor that is not virtualized shows another name. *)
Theorem checkers_tell d (s s' : System) bsp aps cores : processors = bsp :: aps -> NoDup (bsp :: aps) ->
  SHARED_HOST_DATA s = None -> APIC_ID_MAP (get_apic (shared s)) = ∅ ->
  (forall p, p ∈ processors -> exists m r, cpus s !! p = Some (Native m r) /\
     is_our_hypervisor_present (hw_cpuid m) = false /\ name_in_width m) ->
  virtualize_system (IG := IG) (AG := AG) alloc_zeroed d s = Ok (tt, s') ->
  (forall b, forallb (fun x => x <? 128) b = true -> from_utf8_lossy b = string_of b) ->
  (forall id p moved, (id, p, moved) ∈ cores -> p ∈ processors /\ moved = true) ->
  let n := length (bsp :: aps) in
  uefi_check_main (IG := IG) (AG := AG) bsp (firmware_startup_all_aps aps) display None None None (mk_checker s' [] 0) =
    Ok (SUCCESS, mk_checker s' (header :: map (fun i => vendor_line i our_name) (seq 0 n)) n) /\
  windows_check_main (IG := IG) (AG := AG) from_utf8_lossy (Some cores) (mk_checker s' [] 0) =
    Ok (tt, mk_checker s' (header :: map (fun c => vendor_line c.1.1 our_name) cores) 0) /\
  (forall p, p ∈ processors -> exists name, name <> our_name /\
     print_vendor (IG := IG) (AG := AG) p (mk_checker s [] 0) = Ok (tt, mk_checker s [vendor_line 0 name] 1)).
Proof.
  intros Hp Hnd Hd Hmap Hall Hv Hu Hcores n.
  destruct (virtualize_system_hosts alloc_zeroed d s s') as (ms & _ & _ & _ & _ & Hhost & _);
    [by rewrite Hp|done|done| |done|].
  { intros p Hin. destruct (Hall p Hin) as (m & r & Hq & Hno & _). eauto. }
  assert (forall p, p ∈ processors -> answers_ours (IG := IG) (AG := AG) s' p) as Hours.
  { intros p Hin. destruct (Hall p Hin) as (m & r & Hq & _). destruct (Hhost p m r Hin Hq) as (m' & st & Hq' & Hst).
    by eapply hosted_answers_ours. }
  split_and!.
  - unfold uefi_check_main. change (bind (println header) ?k (mk_checker s' [] 0)) with (k tt (mk_checker s' [header] 0)).
    cbv beta. assert (uefi_check_run bsp (firmware_startup_all_aps aps) None None (print_vendor (IG := IG) (AG := AG))
        (mk_checker s' [header] 0) =
      Ok (None, mk_checker s' (header :: map (fun i => vendor_line i our_name) (seq 0 n)) n)) as E.
    { unfold uefi_check_run, bind. rewrite print_vendor_ours by (apply Hours; rewrite Hp; left). unfold firmware_startup_all_aps.
      destruct aps as [|a aps']; [reflexivity|].
      unfold bind. rewrite print_vendors_ours by (intros p Hin; apply Hours; rewrite Hp; by right). reflexivity. }
    by rewrite (bind_intro _ _ _ _ _ E).
  - unfold windows_check_main. change (bind (println header) ?k (mk_checker s' [] 0)) with (k tt (mk_checker s' [header] 0)).
    cbv beta. cbn [unwrap]. rewrite bind_lift_ok. rewrite windows_print_ours; [reflexivity|done|].
    intros [[id p] mv] Hin. destruct (Hcores id p mv Hin) as [Hpr ->]. split; [by apply Hours|done].
  - intros p Hin. destruct (Hall p Hin) as (m & r & Hq & Hno & Hwf).
    exists (printable_vendor (hw_cpuid m 0x4000_0000 0)). split.
    + intros E. destruct Hwf as (Hb & Hc & Hdx). apply our_name_means_us in E; [|done..].
      change (is_our_hypervisor_present (hw_cpuid m) = true) in E. congruence.
    + unfold print_vendor, next_core, bind. cbn [gets sys_of lines core_count]. unfold cpuid_on. rewrite Hq. reflexivity.
Qed.

(** Every failure ends the UEFI checker with the status of the call that
    failed; the vendor is then shown by no processor, except for a failure of
    the application processors, which the boot processor precedes. *)
Lemma uefi_check_fails bsp startup helpers handle services (c : Checker (W := W) (GI := GI) (VI := VI) (GA := GA) (VA := VA) (Heap := Heap)) e :
  match helpers with Some _ => helpers | None => match handle with Some _ => handle | None => services end end = Some e ->
  exists l, uefi_check_main (IG := IG) (AG := AG) bsp startup display helpers handle services c =
    Ok (EfiError e, mk_checker (sys_of c) (lines c ++ l) (core_count c)) /\ (l = [] \/ l = [header; display e]).
Proof.
  intros H. destruct c as [s l0 n]. unfold uefi_check_main, uefi_check_run.
  destruct helpers as [e'|]; [injection H as ->; exists []; rewrite app_nil_r; by split; [|left]|].
  exists [header; display e]. split; [|by right].
  destruct handle as [e'|]; [injection H as ->|rewrite H]; unfold bind; cbn; by rewrite <- app_assoc.
Qed.
End Checkers.

(** ** A concrete run: two AMD processors *)

Module VendorExample.
Import Reference HypervisorExample.
#[local] Existing Instances checked TablesExample.x86_task SvmProofs.SvmExample.no_hidden_parts VmxProofs.VmxExample.cpu_id.
#[local] Existing Instances ops intel amd intel_vt amd_vt intel_ok amd_ok.

Definition show_error (e : Z) : string := "error".

Lemma both_name_in_width p : p ∈ processors -> exists m r, cpus native !! p = Some (Native m r) /\
  is_our_hypervisor_present (hw_cpuid m) = false /\ name_in_width m.
Proof.
  intros [->|[->|Hn%not_elem_of_nil]%elem_of_cons]%elem_of_cons; [..|done]; eexists _, _; (split; [reflexivity|]);
    (split; [vm_compute; reflexivity|]); vm_compute; repeat split; discriminate.
Qed.

(** Windows numbers the second core 12. *)
Definition cores : list (nat * nat * bool) := [(0%nat, 0%nat, true); (12%nat, 1%nat, true)].

Lemma cores_ok id p moved : (id, p, moved) ∈ cores -> p ∈ (processors : list nat) /\ moved = true.
Proof.
  assert (Forall (fun c : nat * nat * bool => c.1.2 ∈ [0%nat; 1%nat] /\ c.2 = true) cores) as H.
  { apply Forall_cons_2; [split; [left|reflexivity]|]. apply Forall_cons_2; [split; [right; left|reflexivity]|]. apply Forall_nil_2. }
  intros Hin. exact (proj1 (Forall_forall _ _) H _ Hin).
Qed.

(** Before and after. *)
Lemma checkers_tell_witness : exists s', virtualize_system (IG := intel) (AG := amd) alloc own_tables native = Ok (tt, s') /\
  (exists c, uefi_check_main (IG := intel) (AG := amd) 0 (firmware_startup_all_aps [1%nat]) show_error None None None (mk_checker s' [] 0) =
     Ok (SUCCESS, c) /\ lines c = [header; "CPU 0: Barevisor!  "; "CPU 1: Barevisor!  "]) /\
  (exists c, windows_check_main (IG := intel) (AG := amd) string_of (Some cores) (mk_checker s' [] 0) =
     Ok (tt, c) /\ lines c = [header; "CPU 0: Barevisor!  "; "CPU12: Barevisor!  "]).
Proof.
  pose proof installs as Hok.
  destruct (virtualize_system (IG := intel) (AG := amd) alloc own_tables native) as [[[] s']|why] eqn:E; [|discriminate Hok].
  exists s'. split; [reflexivity|].
  destruct (checkers_tell (PO := ops) (IG := intel) (AG := amd) alloc show_error string_of own_tables native s' 0 [1%nat] cores)
    as (H1 & H2 & _); [reflexivity|exact both_once|reflexivity|vm_compute; reflexivity|exact both_name_in_width|exact E
    |reflexivity|exact cores_ok|].
  split; eexists; (split; [eassumption|]); vm_compute; reflexivity.
Defined.
End VendorExample.
