(* ===== verification/Xtask.v ===== *)
(** * The build and test assistant (uefi/xtask)

    cargo.rs, main.rs and vmtest/ as programs that ask the operating system for
    one action after the other; what it answers may depend on everything done
    before.  Parsing the command line is left out: [Commands] is its result. *)

From Stdlib Require Import Ascii.
From S2P Require Import Prelude Segment.

(** ** Actions *)

(** What a program asks for, with the type of the answer.  [Status] and
    [Output] are commands whose exit status the code checks, [TryOutput] is one
    whose status is ignored, and [Stdout] one of which only the output is used. *)
Inductive Action : Type -> Type :=
  | Status (program : string) (args : list string) (dir : string) : Action bool
  | Output (program : string) (args : list string) : Action bool
  | TryOutput (program : string) (args : list string) : Action unit
  | Stdout (program : string) (args : list string) : Action string
  | Canonicalize (path : string) : Action string
  | Exists (path : string) : Action bool
  | ReadFile (path : string) : Action (list Z)
  | WriteFile (path : string) (data : list Z) : Action unit
  | RemoveFile (path : string) : Action unit
  | ReadLines (path : string) : Action (list string)
  | AppendLine (path : string) (line : string) : Action unit
  | Println (line : string) : Action unit
  | Sleep (milliseconds : Z) : Action unit
  | SpawnThread (name : string) : Action unit
  | Connect (address : string) : Action unit
  | KeyEvent (down : bool) (key : Z) : Action unit
  | Disconnect : Action unit
  | WaitForCtrlC : Action unit.

Inductive Done : Type :=
  | did {R : Type} (a : Action R).

(** The answer to an action, after a history; an error is the text of it. *)
Class Os : Type := answer : forall R : Type, list Done -> Action R -> result R string.
Arguments answer {_ R} _ _.

Section Programs.
Context {OS : Os}.

(** A program adds its actions to the history and returns an [anyhow::Result],
    or panics. *)
Definition T (A : Type) : Type := list Done -> outcome (result A string * list Done).

Definition tret {A : Type} (a : A) : T A := fun h => Ok (ROk a, h).
Definition tfail {A : Type} (e : string) : T A := fun h => Ok (RErr e, h).
Definition tpanic {A : Type} (why : string) : T A := fun _ => Panic why.

(** [?] *)
Definition tbind {A B : Type} (x : T A) (k : A -> T B) : T B := fun h =>
  match x h with
  | Ok (ROk a, h') => k a h'
  | Ok (RErr e, h') => Ok (RErr e, h')
  | Panic why => Panic why
  end.

Definition act {R : Type} (a : Action R) : T R := fun h => Ok (answer h a, h ++ [did a]).

(** [.unwrap()] of the answer. *)
Definition act_unwrap {R : Type} (a : Action R) : T R := fun h =>
  match answer h a with
  | ROk r => Ok (ROk r, h ++ [did a])
  | RErr e => Panic e
  end.

(** [ensure!] *)
Definition ensure (b : bool) (e : string) : T unit := if b then tret tt else tfail e.
End Programs.

#[local] Notation "'let*' x := m 'in' k" := (tbind m (fun x => k))
  (at level 10, x pattern, m at level 100, k at level 200) : hv_scope.
#[local] Notation "m ;;* k" := (tbind m (fun _ => k)) (at level 199, right associativity) : hv_scope.

(** ** Strings of std *)

Definition is_whitespace (c : Ascii.ascii) : bool :=
  let n := Ascii.nat_of_ascii c in ((9 <=? n) && (n <=? 13) || (n =? 32))%nat.

Fixpoint trim_front (l : list Ascii.ascii) : list Ascii.ascii :=
  match l with c :: l' => if is_whitespace c then trim_front l' else l | [] => [] end.

(** [str::trim] of ASCII. *)
Definition trim (s : string) : string :=
  String.string_of_list_ascii (rev (trim_front (rev (trim_front (String.list_ascii_of_string s))))).

(** [replace('\\', "\\\\")] *)
Definition double_backslashes (s : string) : string :=
  String.string_of_list_ascii (concat (map (fun c => if (Ascii.nat_of_ascii c =? 92)%nat then [c; c] else [c])
    (String.list_ascii_of_string s))).

(** ** The host the tool was built for *)
Inductive TargetOs : Type := Linux | MacOs | Windows.

Definition os_name (os : TargetOs) : string := match os with Linux => "linux" | MacOs => "macos" | Windows => "windows" end.

Inductive Profile_ : Type := Debug | Release.
Inductive CargoAction : Type := Build | Clippy.
Inductive Package : Type := Hypervisor | CheckHvVendor | Xtask.

Definition Package_name (p : Package) : string :=
  match p with Hypervisor => "uefi_hv" | CheckHvVendor => "check_hv_vendor" | Xtask => "xtask" end.

Definition is_windows (os : TargetOs) : bool := match os with Windows => true | _ => false end.

Section Xtask.
(** [cargo] is the variable CARGO; [manifest_parent] the parent of the
    directory of the manifest. *)
Context {OS : Os} (os : TargetOs) (is_wsl : bool) (cargo : option string) (manifest_parent : string).

(** [Path::join] *)
Definition join (a b : string) : string := a +:+ (if is_windows os then "\" else "/") +:+ b.

(** ** main.rs *)
Definition project_root_dir : T string := act_unwrap (Canonicalize manifest_parent).

Definition output_dir (release : bool) : T string :=
  let* out_dir := project_root_dir in
  let out_dir := join (join out_dir "target") "x86_64-unknown-uefi" in
  let out_dir := join out_dir (if release then "release" else "debug") in
  act_unwrap (Canonicalize out_dir).

(** ** cargo.rs *)
Definition uefi_target (package : Package) : bool :=
  match package with Hypervisor | CheckHvVendor => true | Xtask => false end.

(** [data[0xd4] = 0xc], out of range a panic: the subsystem becomes that of an
    EFI runtime driver. *)
Definition transmute_to_runtime_driver (path : string) : T unit :=
  let* data := act (ReadFile path) in
  if (length data <=? 0xd4)%nat then tpanic "index out of bounds"
  else act (WriteFile path (<[0xd4%nat := 0xc]> data)).

Definition cargo_args (action : CargoAction) (package : Package) (profile : Profile_) : list string :=
  [match action with Build => "build" | Clippy => "clippy" end] ++
  (if uefi_target package then ["--target"; "x86_64-unknown-uefi"] else []) ++
  ["--package"; Package_name package] ++
  match profile with Release => ["--release"] | Debug => [] end.

Definition cargo_run (action : CargoAction) (package : Package) (profile : Profile_) : T unit :=
  let command := default "cargo" cargo in
  let* dir := project_root_dir in
  let* ok := act (Status command (cargo_args action package profile) dir) in
  ensure ok "cargo build failed" ;;*
  match action, package with
  | Build, Hypervisor =>
      let* dir := output_dir (match profile with Release => true | Debug => false end) in
      transmute_to_runtime_driver (join dir (Package_name package +:+ ".efi"))
  | _, _ => tret tt
  end.

Definition build (release : bool) : T unit :=
  let profile := if release then Release else Debug in
  cargo_run Build Hypervisor profile ;;*
  cargo_run Build CheckHvVendor profile.

Definition clippy : T unit :=
  cargo_run Clippy Hypervisor Debug ;;*
  cargo_run Clippy CheckHvVendor Debug ;;*
  cargo_run Clippy Xtask Debug.

(** ** vmtest/mod.rs *)

(** [UnixCommand]: the program and its arguments, through wsl on Windows. *)
Definition unix_program (program : string) : string := if is_windows os then "wsl" else program.
Definition unix_args (program : string) (args : list string) : list string :=
  if is_windows os then program :: args else args.

Definition unix_output (program : string) (args : list string) : T unit :=
  let* ok := act (Output (unix_program program) (unix_args program args)) in
  ensure ok (program +:+ " failed").

Definition unix_path (path : string) : T string :=
  if is_windows os then
    let* out := act_unwrap (Stdout (unix_program "wslpath") (unix_args "wslpath" ["-a"; double_backslashes path])) in
    tret (trim out)
  else tret path.

Fixpoint copy_files (image : string) (files : list string) : T unit :=
  match files with
  | [] => tret tt
  | file :: files' =>
      unix_output "mcopy" ["-o"; "-i"; image; file; "::/"] ;;*
      copy_files image files'
  end.

Definition copy_artifacts_to (image : string) (release : bool) : T unit :=
  let* out := output_dir release in
  let* out1 := unix_path out in
  let* out := output_dir release in
  let* out2 := unix_path out in
  let* root := project_root_dir in
  let* root := unix_path root in
  copy_files image [out1 +:+ "/" +:+ Package_name Hypervisor +:+ ".efi";
                    out2 +:+ "/" +:+ Package_name CheckHvVendor +:+ ".efi";
                    root +:+ "/tests/startup.nsh"].

Definition extract_samples : T unit :=
  let* there := act (Exists "./tests/samples/") in
  if there then tret tt
  else
    act (Println "Extracting sample files...") ;;*
    unix_output "7z" ["x"; "-o./tests/"; "./tests/samples.7z"].

(** The trait [TestVm]. *)
Record TestVm : Type := mk_test_vm { deploy : bool -> T unit; start : T unit }.

Definition run (vm : TestVm) (release : bool) : T unit :=
  build release ;;*
  extract_samples ;;*
  deploy vm release ;;*
  start vm.

(** ** vmtest/bochs.rs *)
Inductive Cpu : Type := Intel | Amd.

(** The two threads start and go on beside the wait; [bochs_command] is what
    the second one executes in the directory tests. *)
Definition bochs_run : T unit :=
  act (SpawnThread "nc") ;;*
  act (SpawnThread "bochs") ;;*
  act WaitForCtrlC.

Definition bochs_command (cpu : Cpu) : string * list string :=
  let cpu_type := match cpu with Intel => "intel" | Amd => "amd" end in
  let os_type := if is_windows os then "linux" else os_name os in
  let bxrc := "./bochs/" +:+ os_type +:+ "_" +:+ cpu_type +:+ ".bxrc" in
  (unix_program "bochs", unix_args "bochs" ["-q"; "-unlock"; "-f"; bxrc]).

(** What the first thread executes again and again, a second apart. *)
Definition nc_command : string * list string := (unix_program "nc", unix_args "nc" ["localhost"; "14449"]).

Definition Bochs (cpu : Cpu) : TestVm :=
  mk_test_vm (copy_artifacts_to "./tests/samples/bochs_disk.img") bochs_run.

(** ** vmtest/vmware.rs *)
Definition vmware_deploy (release : bool) : T unit :=
  unix_output "dd" ["if=/dev/zero"; "of=/tmp/vmware_cd.img"; "bs=1k"; "count=2880"] ;;*
  unix_output "mformat" ["-i"; "/tmp/vmware_cd.img"; "-f"; "2880"; "::"] ;;*
  copy_artifacts_to "/tmp/vmware_cd.img" release ;;*
  unix_output "mkisofs"
    ["-eltorito-boot"; "vmware_cd.img"; "-no-emul-boot"; "-o"; "/tmp/vmware_cd.iso"; "/tmp/vmware_cd.img"].

Definition vmrun : string :=
  if is_windows os then "C:\Program Files\VMware\VMware Workstation\vmrun.exe"
  else if is_wsl then "/mnt/c/Program Files/VMware/VMware Workstation/vmrun.exe"
  else "vmrun".

Definition vmx_path : string :=
  if is_wsl then "./tests/samples/vmware/NoOS_windows.vmx"
  else "./tests/samples/vmware/NoOS_" +:+ os_name os +:+ ".vmx".

(** The assertion on the status of the command is part of [Stdout] here: its
    failure is an error that [unwrap] turns into a panic. *)
Definition windows_path (path : string) : T string :=
  if is_wsl then
    let* out := act_unwrap (Stdout (unix_program "wslpath") (unix_args "wslpath" ["-a"; "-w"; path])) in
    tret (trim out)
  else tret path.

Definition log_file : string := if is_windows os then "\\wsl$\Ubuntu\tmp\serial.log" else "/tmp/serial.log".

Definition entry_name : string := "bios.forceSetupOnce".

Definition tail_command : string * list string := (unix_program "tail", unix_args "tail" ["-f"; "/tmp/serial.log"]).

(** Down five times, enter twice. *)
Definition keys : list Z := [0xff54; 0xff54; 0xff54; 0xff54; 0xff54; 0xff0d; 0xff0d].

(** The wait for the log file: at most [polls] looks. *)
Fixpoint wait_for_file (polls : nat) (path : string) : T unit :=
  match polls with
  | O => tpanic "still waiting"
  | S polls' =>
      let* there := act (Exists path) in
      if there then tret tt else act (Sleep 1000) ;;* wait_for_file polls' path
  end.

Fixpoint send_keys (keys : list Z) : T unit :=
  match keys with
  | [] => tret tt
  | key :: keys' =>
      act (KeyEvent true key) ;;*
      act (Sleep 1) ;;*
      act (KeyEvent false key) ;;*
      act (Sleep 1) ;;*
      send_keys keys'
  end.

(** Up to the start of the machine; returns the path for vmrun.  (The clock
    before the message is left out.) *)
Definition vmware_start : T string :=
  let* vmx_path_for_vmrun := windows_path vmx_path in
  act (TryOutput vmrun ["stop"; vmx_path_for_vmrun]) ;;*
  let* there := act (Exists log_file) in
  (if there then act (RemoveFile log_file) else tret tt) ;;*
  let* lines := act (ReadLines vmx_path) in
  let entry_exists := existsb (String.prefix entry_name) lines in
  (if entry_exists then tret tt
   else act (AppendLine vmx_path (entry_name +:+ " = " +:+ String "034" ("TRUE" +:+ String "034" "")))) ;;*
  act (Println "Starting the VMware VM") ;;*
  let product_type := match os with MacOs => "fusion" | _ => "ws" end in
  let* ok := act (Output vmrun ["-T"; product_type; "start"; vmx_path_for_vmrun]) in
  ensure ok "vmrun failed" ;;*
  tret vmx_path_for_vmrun.

(** From the keys that select the shell to the end. *)
Definition vmware_session (vmx_path_for_vmrun : string) : T unit :=
  act (Sleep 2000) ;;*
  act (Connect "localhost:5900") ;;*
  send_keys keys ;;*
  act Disconnect ;;*
  act WaitForCtrlC ;;*
  act (Println "Shutting down the VM") ;;*
  act (TryOutput vmrun ["stop"; vmx_path_for_vmrun]).

(** [run]; the thread that shows the log goes on beside the session. *)
Definition vmware_run (polls : nat) : T unit :=
  let* vmx_path_for_vmrun := vmware_start in
  wait_for_file polls log_file ;;*
  act (SpawnThread "tail") ;;*
  vmware_session vmx_path_for_vmrun.

Definition Vmware (polls : nat) : TestVm := mk_test_vm vmware_deploy (vmware_run polls).

(** ** main *)
Inductive Commands : Type := CmdBuild | CmdClippy | BochsIntel | BochsAmd | CmdVmware.

Definition main (polls : nat) (release : bool) (command : Commands) : T unit :=
  match command with
  | CmdBuild => build release
  | CmdClippy => clippy
  | BochsIntel => run (Bochs Intel) release
  | BochsAmd => run (Bochs Amd) release
  | CmdVmware => run (Vmware polls) release
  end.
End Xtask.

(** ** Nothing runs after a failure *)

Section Stops.
Context {OS : Os}.

(** Whether the code takes an answer for a success. *)
Definition good {R : Type} (a : Action R) : R -> bool :=
  match a in Action R return R -> bool with
  | Status _ _ _ => fun ok => ok
  | Output _ _ => fun ok => ok
  | _ => fun _ => true
  end.

Definition succeeded {R : Type} (h : list Done) (a : Action R) : Prop := exists r, answer h a = ROk r /\ good a r = true.

(** Every one of the actions succeeded, after those before it. *)
Fixpoint all_succeeded (h l : list Done) : Prop :=
  match l with
  | [] => True
  | did a :: l' => succeeded h a /\ all_succeeded (h ++ [did a]) l'
  end.

(** A program whose actions all succeed up to the one it fails at. *)
Definition stops {A : Type} (x : T A) : Prop := forall h r h', x h = Ok (r, h') ->
  exists l, h' = h ++ l /\
  match r with
  | ROk _ => all_succeeded h l
  | RErr _ => exists l0 (R : Type) (a : Action R), l = l0 ++ [did a] /\ all_succeeded h l0 /\ ~ succeeded (h ++ l0) a
  end.

Lemma all_succeeded_app h l1 l2 : all_succeeded h l1 -> all_succeeded (h ++ l1) l2 -> all_succeeded h (l1 ++ l2).
Proof.
  revert h. induction l1 as [|[R a] l1 IH]; intros h H1 H2; cbn in *; [by rewrite app_nil_r in H2|].
  destruct H1 as [Ha H1]. split; [done|]. apply IH; [done|]. by rewrite <- app_assoc.
Qed.

Lemma stops_ret {A : Type} (a : A) : stops (tret a).
Proof. intros h r h' H. injection H as <- <-. exists []. by rewrite app_nil_r. Qed.

Lemma stops_panic {A : Type} why : stops (tpanic (A := A) why).
Proof. by intros h r h' H. Qed.

Lemma stops_bind {A B : Type} (x : T A) (k : A -> T B) : stops x -> (forall a, stops (k a)) -> stops (tbind x k).
Proof.
  intros Hx Hk h r h' H. unfold tbind in H. destruct (x h) as [[[a|e] h1]|] eqn:E; [..|done].
  - destruct (Hx _ _ _ E) as (l1 & -> & H1). destruct (Hk a _ _ _ H) as (l2 & -> & H2). exists (l1 ++ l2).
    split; [by rewrite app_assoc|]. destruct r as [b|e].
    + by apply all_succeeded_app.
    + destruct H2 as (l0 & R & b & -> & H2 & Hb). exists (l1 ++ l0), R, b. split; [by rewrite app_assoc|].
      split; [by apply all_succeeded_app|]. by rewrite app_assoc.
  - injection H as <- <-. exact (Hx _ _ _ E).
Qed.

(** An action that succeeds when it is answered. *)
Lemma stops_act {R : Type} (a : Action R) : (forall r, good a r = true) -> stops (act a).
Proof.
  intros Hg h r h' H. injection H as <- <-. exists [did a]. split; [done|]. destruct (answer h a) as [r|e] eqn:E.
  - split; [|done]. exists r. auto.
  - exists [], R, a. split_and!; [done..|]. rewrite app_nil_r. intros (r & Hr & _). congruence.
Qed.

Lemma stops_unwrap {R : Type} (a : Action R) : (forall r, good a r = true) -> stops (act_unwrap a).
Proof.
  intros Hg h r h' H. unfold act_unwrap in H. destruct (answer h a) as [r0|e] eqn:E; [|done]. injection H as <- <-.
  exists [did a]. split; [done|]. split; [|done]. exists r0. auto.
Qed.

(** An action whose success [ensure!] checks. *)
Lemma stops_checked (a : Action bool) e : (forall b, good a b = b) -> stops (tbind (act a) (fun ok => ensure ok e)).
Proof.
  intros Hg h r h' H. unfold tbind, act in H. destruct (answer h a) as [b|e'] eqn:E.
  - unfold ensure in H. exists [did a]. destruct b; injection H as <- <-; (split; [done|]).
    + split; [|done]. exists true. auto.
    + exists [], bool, a. split_and!; [done..|]. rewrite app_nil_r. intros (r & Hr & Hb). rewrite Hg in Hb. congruence.
  - injection H as <- <-. exists [did a]. split; [done|]. exists [], bool, a. split_and!; [done..|].
    rewrite app_nil_r. intros (r & Hr & _). congruence.
Qed.

Lemma stops_checked_then {B : Type} (a : Action bool) e (k : T B) : (forall b, good a b = b) -> stops k ->
  stops (tbind (act a) (fun ok => tbind (ensure ok e) (fun _ => k))).
Proof.
  intros Hg Hk h r h' H. assert (tbind (tbind (act a) (fun ok => ensure ok e)) (fun _ => k) h = Ok (r, h')) as H'.
  { rewrite <- H. unfold tbind, act. by destruct (answer h a) as [[]|]. }
  revert H'. apply stops_bind; [by apply stops_checked|done].
Qed.
End Stops.

Create HintDb stops.
#[export] Hint Resolve stops_ret stops_panic : stops.

(** Takes a program apart. *)
Ltac stops :=
  repeat first
    [ apply stops_checked; [done|] | apply stops_checked; done | apply stops_checked_then; [done|]
    | apply stops_act; done | apply stops_unwrap; done | progress eauto with stops
    | match goal with |- stops (if ?b then _ else _) => destruct b end
    | match goal with |- stops (match ?x with _ => _ end) => destruct x end
    | apply stops_bind; [|intros ?] ].

Section XtaskStops.
Context {OS : Os} (os : TargetOs) (is_wsl : bool) (cargo : option string) (manifest_parent : string).

Lemma stops_root : stops (project_root_dir manifest_parent).
Proof. unfold project_root_dir. stops. Qed.
#[local] Hint Resolve stops_root : stops.

Lemma stops_output_dir release : stops (output_dir os manifest_parent release).
Proof. unfold output_dir. stops. Qed.
#[local] Hint Resolve stops_output_dir : stops.

Lemma stops_transmute path : stops (transmute_to_runtime_driver path).
Proof. unfold transmute_to_runtime_driver. stops. Qed.
#[local] Hint Resolve stops_transmute : stops.

Lemma stops_cargo_run action package profile : stops (cargo_run os cargo manifest_parent action package profile).
Proof. unfold cargo_run. stops. Qed.
#[local] Hint Resolve stops_cargo_run : stops.

Lemma stops_build release : stops (build os cargo manifest_parent release).
Proof. unfold build. stops. Qed.
#[local] Hint Resolve stops_build : stops.

Lemma stops_unix_output program args : stops (unix_output os program args).
Proof. unfold unix_output. stops. Qed.
#[local] Hint Resolve stops_unix_output : stops.

Lemma stops_unix_path path : stops (unix_path os path).
Proof. unfold unix_path. stops. Qed.
#[local] Hint Resolve stops_unix_path : stops.

Lemma stops_copy_files image files : stops (copy_files os image files).
Proof. induction files as [|f files IH]; cbn [copy_files]; stops. Qed.
#[local] Hint Resolve stops_copy_files : stops.

Lemma stops_copy_artifacts image release : stops (copy_artifacts_to os manifest_parent image release).
Proof. unfold copy_artifacts_to. stops. Qed.
#[local] Hint Resolve stops_copy_artifacts : stops.

Lemma stops_extract : stops (extract_samples os).
Proof. unfold extract_samples. stops. Qed.
#[local] Hint Resolve stops_extract : stops.

Lemma stops_wait polls path : stops (wait_for_file polls path).
Proof. induction polls as [|n IH]; cbn [wait_for_file]; stops. Qed.
#[local] Hint Resolve stops_wait : stops.

Lemma stops_keys l : stops (send_keys l).
Proof. induction l as [|k l IH]; cbn [send_keys]; stops. Qed.
#[local] Hint Resolve stops_keys : stops.

Lemma stops_windows_path path : stops (windows_path os is_wsl path).
Proof. unfold windows_path. stops. Qed.
#[local] Hint Resolve stops_windows_path : stops.

Lemma stops_run vm release : (forall b, stops (deploy vm b)) -> stops (start vm) ->
  stops (run os cargo manifest_parent vm release).
Proof. intros Hd Hs. unfold run. stops. Qed.

(** The assistant stops at the first action that fails: whatever the
    command, when it reports an error, the last thing it did is what failed,
    and everything before had succeeded; when it ends without an error,
    everything did.  (A best-effort stop of the virtual machine fails only when
    the program cannot be started.) *)
Lemma main_stops polls release command h r h' :
  main os is_wsl cargo manifest_parent polls release command h = Ok (r, h') ->
  exists l, h' = h ++ l /\
  match r with
  | ROk _ => all_succeeded h l
  | RErr _ => exists l0 (R : Type) (a : Action R), l = l0 ++ [did a] /\ all_succeeded h l0 /\ ~ succeeded (h ++ l0) a
  end.
Proof.
  revert h r h'. change (stops (main os is_wsl cargo manifest_parent polls release command)).
  destruct command; cbn [main].
  - stops.
  - unfold clippy. stops.
  - apply stops_run; cbn [deploy start Bochs]; [stops|unfold bochs_run; stops].
  - apply stops_run; cbn [deploy start Bochs]; [stops|unfold bochs_run; stops].
  - apply stops_run; cbn [deploy start Vmware]; [intros b; unfold vmware_deploy; stops|unfold vmware_run, vmware_start, vmware_session; stops].
Qed.
End XtaskStops.

(** ** What a successful test run has done *)

(** The commands and the files written, in order. *)
Fixpoint commands_of (l : list Done) : list (string * list string) :=
  match l with
  | [] => []
  | did a :: l' =>
      match a in Action R return list (string * list string) with
      | Status program args _ | Output program args | TryOutput program args | Stdout program args => [(program, args)]
      | _ => []
      end ++ commands_of l'
  end.

Fixpoint writes_of (l : list Done) : list (string * list Z) :=
  match l with
  | [] => []
  | did a :: l' =>
      match a in Action R return list (string * list Z) with WriteFile path data => [(path, data)] | _ => [] end ++ writes_of l'
  end.

Lemma commands_app l1 l2 : commands_of (l1 ++ l2) = commands_of l1 ++ commands_of l2.
Proof. induction l1 as [|[R a] l1 IH]; [done|]. cbn. by rewrite IH, app_assoc. Qed.

Lemma writes_app l1 l2 : writes_of (l1 ++ l2) = writes_of l1 ++ writes_of l2.
Proof. induction l1 as [|[R a] l1 IH]; [done|]. cbn. by rewrite IH, app_assoc. Qed.

(** A program that, when it succeeds, has executed these commands and written
    these files. *)
Definition does {OS : Os} {A : Type} (x : T A) (Q : A -> list (string * list string) -> list (string * list Z) -> Prop) : Prop :=
  forall h a h', x h = Ok (ROk a, h') -> exists l, h' = h ++ l /\ Q a (commands_of l) (writes_of l).

Section Does.
Context {OS : Os}.

Lemma does_ret {A : Type} (a : A) : does (tret a) (fun b cs ws => b = a /\ cs = [] /\ ws = []).
Proof. intros h b h' H. injection H as <- <-. exists []. by rewrite app_nil_r. Qed.

Lemma does_bind {A B : Type} (x : T A) (k : A -> T B) Q Q' : does x Q ->
  (forall a cs ws, Q a cs ws -> does (k a) (fun b cs' ws' => Q' b (cs ++ cs') (ws ++ ws'))) -> does (tbind x k) Q'.
Proof.
  intros Hx Hk h b h' H. unfold tbind in H. destruct (x h) as [[[a|e] h1]|] eqn:E; [|done..].
  destruct (Hx _ _ _ E) as (l1 & -> & H1). destruct (Hk _ _ _ H1 _ _ _ H) as (l2 & -> & H2). exists (l1 ++ l2).
  by rewrite app_assoc, commands_app, writes_app.
Qed.

Lemma does_weaken {A : Type} (x : T A) (Q Q' : A -> list (string * list string) -> list (string * list Z) -> Prop) :
  does x Q -> (forall a cs ws, Q a cs ws -> Q' a cs ws) -> does x Q'.
Proof. intros Hx Hq h a h' H. destruct (Hx _ _ _ H) as (l & -> & Hl). exists l. auto. Qed.

Lemma does_act {R : Type} (a : Action R) :
  does (act a) (fun _ cs ws => cs = commands_of [did a] /\ ws = writes_of [did a]).
Proof. intros h r h' H. injection H as H <-. exists [did a]. done. Qed.

Lemma does_unwrap {R : Type} (a : Action R) :
  does (act_unwrap a) (fun _ cs ws => cs = commands_of [did a] /\ ws = writes_of [did a]).
Proof.
  intros h r h' H. unfold act_unwrap in H. destruct (answer h a); [|done]. injection H as _ <-. exists [did a]. done.
Qed.

Lemma does_ensure b e : does (ensure b e) (fun _ cs ws => b = true /\ cs = [] /\ ws = []).
Proof. intros h r h' H. unfold ensure in H. destruct b; [|done]. injection H as <-. exists []. by rewrite app_nil_r. Qed.
End Does.

Section Plan.
Context {OS : Os} (os : TargetOs) (is_wsl : bool) (cargo : option string) (manifest_parent : string).
(** On Linux and macOS, where directories do not move. *)
Context (canon : string -> string) (not_windows : is_windows os = false)
  (canonical : forall h path, answer h (Canonicalize path) = ROk (canon path)).

Definition root : string := canon manifest_parent.
Definition target_dir (release : bool) : string :=
  canon (root +:+ "/target" +:+ "/x86_64-unknown-uefi" +:+ (if release then "/release" else "/debug")).

Lemma does_canonicalize path : does (act_unwrap (Canonicalize path)) (fun p cs ws => p = canon path /\ cs = [] /\ ws = []).
Proof.
  intros h r h' H. unfold act_unwrap in H. rewrite canonical in H. injection H as <- <-. by exists [did (Canonicalize path)].
Qed.

Lemma does_output_dir release :
  does (output_dir os manifest_parent release) (fun p cs ws => p = target_dir release /\ cs = [] /\ ws = []).
Proof.
  unfold output_dir, project_root_dir. eapply does_bind; [apply does_canonicalize|].
  intros ? ? ? (-> & -> & ->). eapply does_weaken; [apply does_canonicalize|].
  intros p cs ws (-> & -> & ->). split; [|done]. unfold target_dir, join. rewrite not_windows. fold root. f_equal.
  rewrite !append_assoc. by destruct release.
Qed.

Lemma does_transmute path : does (transmute_to_runtime_driver path) (fun _ cs ws => cs = [] /\
  exists data, (0xd4 < length data)%nat /\ ws = [(path, <[0xd4%nat := 0xc]> data)]).
Proof.
  unfold transmute_to_runtime_driver. eapply does_bind; [apply does_act|]. intros data ? ? [-> ->].
  destruct (Nat.leb_spec (length data) 0xd4); [by intros h a h' H'|]. eapply does_weaken; [apply does_act|].
  intros _ cs ws [-> ->]. split; [done|]. by exists data.
Qed.

(** The driver in the output directory. *)
Definition efi (release : bool) (package : Package) : string := target_dir release +:+ "/" +:+ Package_name package +:+ ".efi".

(** The driver after the build: its subsystem is that of a runtime driver. *)
Definition patched (release : bool) (ws : list (string * list Z)) : Prop :=
  exists data, (0xd4 < length data)%nat /\ ws = [(efi release Hypervisor, <[0xd4%nat := 0xc]> data)].

Definition cargo_command (action : CargoAction) (package : Package) (profile : Profile_) : string * list string :=
  (default "cargo" cargo, cargo_args action package profile).

Lemma does_cargo_run action package profile : does (cargo_run os cargo manifest_parent action package profile)
  (fun _ cs ws => cs = [cargo_command action package profile] /\
     match action, package with
     | Build, Hypervisor => patched (match profile with Release => true | Debug => false end) ws
     | _, _ => ws = []
     end).
Proof.
  unfold cargo_run, project_root_dir. eapply does_bind; [apply does_canonicalize|]. intros dir ? ? (-> & -> & ->).
  eapply does_bind; [apply does_act|]. intros ok ? ? [-> ->]. eapply does_bind; [apply does_ensure|].
  intros ? ? ? (_ & -> & ->).
  assert (does (tret tt) (fun _ cs ws => [] ++ commands_of [did (Status (default "cargo" cargo)
    (cargo_args action package profile) (canon manifest_parent))] ++ [] ++ cs = [cargo_command action package profile] /\
    [] ++ [] ++ [] ++ ws = [])) as Hret.
  { eapply does_weaken; [apply does_ret|]. by intros _ ? ? (_ & -> & ->). }
  destruct action; [|exact Hret]. destruct package; [|exact Hret..].
  eapply does_bind; [apply does_output_dir|]. intros dir ? ? (-> & -> & ->).
  eapply does_weaken; [apply does_transmute|]. intros _ ? ? [-> (data & Hd & ->)]. split; [done|]. exists data. split; [done|].
  unfold efi, join. by rewrite not_windows.
Qed.

Lemma does_unix_output program args : does (unix_output os program args) (fun _ cs ws => cs = [(program, args)] /\ ws = []).
Proof.
  unfold unix_output, unix_program, unix_args. rewrite not_windows. eapply does_bind; [apply does_act|].
  intros ok ? ? [-> ->]. eapply does_weaken; [apply does_ensure|]. by intros _ ? ? (_ & -> & ->).
Qed.

Definition mcopy (image file : string) : string * list string := ("mcopy", ["-o"; "-i"; image; file; "::/"]).

Lemma does_copy_files image files : does (copy_files os image files) (fun _ cs ws => cs = map (mcopy image) files /\ ws = []).
Proof.
  induction files as [|f files IH]; cbn [copy_files map].
  - eapply does_weaken; [apply does_ret|]. by intros _ ? ? (_ & -> & ->).
  - eapply does_bind; [apply does_unix_output|]. intros ? ? ? [-> ->]. eapply does_weaken; [exact IH|].
    by intros _ ? ? [-> ->].
Qed.

Definition artifacts (release : bool) : list string :=
  [efi release Hypervisor; efi release CheckHvVendor; root +:+ "/tests/startup.nsh"].

Lemma does_unix_path path : does (unix_path os path) (fun p cs ws => p = path /\ cs = [] /\ ws = []).
Proof. unfold unix_path. rewrite not_windows. apply does_ret. Qed.

Lemma does_copy_artifacts image release : does (copy_artifacts_to os manifest_parent image release)
  (fun _ cs ws => cs = map (mcopy image) (artifacts release) /\ ws = []).
Proof.
  unfold copy_artifacts_to. eapply does_bind; [apply does_output_dir|]. intros ? ? ? (-> & -> & ->).
  eapply does_bind; [apply does_unix_path|]. intros ? ? ? (-> & -> & ->).
  eapply does_bind; [apply does_output_dir|]. intros ? ? ? (-> & -> & ->).
  eapply does_bind; [apply does_unix_path|]. intros ? ? ? (-> & -> & ->).
  eapply does_bind; [apply does_canonicalize|]. intros ? ? ? (-> & -> & ->).
  eapply does_bind; [apply does_unix_path|]. intros ? ? ? (-> & -> & ->).
  eapply does_weaken; [apply does_copy_files|]. by intros _ ? ? [-> ->].
Qed.

Definition extract_7z : string * list string := ("7z", ["x"; "-o./tests/"; "./tests/samples.7z"]).

Lemma does_extract : does (extract_samples os) (fun _ cs ws => (cs = [] \/ cs = [extract_7z]) /\ ws = []).
Proof.
  unfold extract_samples. eapply does_bind; [apply does_act|]. intros there ? ? [-> ->]. destruct there.
  - eapply does_weaken; [apply does_ret|]. intros _ ? ? (_ & -> & ->). cbn. auto.
  - eapply does_bind; [apply does_act|]. intros ? ? ? [-> ->]. eapply does_weaken; [apply does_unix_output|].
    intros _ ? ? [-> ->]. cbn. auto.
Qed.

Definition profile_of (release : bool) : Profile_ := if release then Release else Debug.

Lemma does_build release : does (build os cargo manifest_parent release) (fun _ cs ws =>
  cs = [cargo_command Build Hypervisor (profile_of release); cargo_command Build CheckHvVendor (profile_of release)] /\
  patched release ws).
Proof.
  unfold build. eapply does_bind; [apply does_cargo_run|]. intros ? ? ? [-> Hw].
  eapply does_weaken; [apply does_cargo_run|]. intros _ ? ? [-> ->]. split; [done|]. rewrite app_nil_r. by destruct release.
Qed.

(** The commands that run on the way to the start of the virtual machine. *)
Lemma does_run vm release start_commands deploy_commands :
  does (deploy vm release) (fun _ cs ws => cs = deploy_commands /\ ws = []) ->
  does (start vm) (fun _ cs ws => cs = start_commands /\ ws = []) ->
  does (run os cargo manifest_parent vm release) (fun _ cs ws =>
    (exists samples, (samples = [] \/ samples = [extract_7z]) /\
     cs = [cargo_command Build Hypervisor (profile_of release); cargo_command Build CheckHvVendor (profile_of release)] ++
          samples ++ deploy_commands ++ start_commands) /\
    patched release ws).
Proof.
  intros Hd Hs. unfold run. eapply does_bind; [apply does_build|]. intros ? ? ? [-> Hw].
  eapply does_bind; [apply does_extract|]. intros ? samples ? [Hx ->].
  eapply does_bind; [exact Hd|]. intros ? ? ? [-> ->]. eapply does_weaken; [exact Hs|]. intros _ ? ? [-> ->].
  split; [exists samples; split; [exact Hx|reflexivity]|]. by rewrite !app_nil_r.
Qed.

Lemma does_bochs_run : does bochs_run (fun _ cs ws => cs = [] /\ ws = []).
Proof.
  unfold bochs_run. eapply does_bind; [apply does_act|]. intros ? ? ? [-> ->].
  eapply does_bind; [apply does_act|]. intros ? ? ? [-> ->]. eapply does_weaken; [apply does_act|]. by intros _ ? ? [-> ->].
Qed.

Lemma does_silent {A R : Type} (a : Action R) (k : R -> T A) Q : commands_of [did a] = [] -> writes_of [did a] = [] ->
  (forall r, does (k r) Q) -> does (tbind (act a) k) Q.
Proof. intros Hc Hw Hk. eapply does_bind; [apply does_act|]. intros r ? ? [-> ->]. rewrite Hc, Hw. exact (Hk r). Qed.

Definition nothing {A : Type} (_ : A) (cs : list (string * list string)) (ws : list (string * list Z)) : Prop := cs = [] /\ ws = [].

Lemma does_wait polls path : does (wait_for_file polls path) nothing.
Proof.
  induction polls as [|n IH]; cbn [wait_for_file]; [by intros h a h' H|]. apply does_silent; [done..|]. intros [].
  - eapply does_weaken; [apply does_ret|]. by intros ? ? ? (_ & -> & ->).
  - by apply does_silent.
Qed.

Lemma does_keys l : does (send_keys l) nothing.
Proof.
  induction l as [|k l IH]; cbn [send_keys].
  - eapply does_weaken; [apply does_ret|]. by intros ? ? ? (_ & -> & ->).
  - do 4 (apply does_silent; [done..|intros _]). exact IH.
Qed.

Definition vmware_image : list (string * list string) :=
  [("dd", ["if=/dev/zero"; "of=/tmp/vmware_cd.img"; "bs=1k"; "count=2880"]);
   ("mformat", ["-i"; "/tmp/vmware_cd.img"; "-f"; "2880"; "::"])].
Definition vmware_iso : string * list string :=
  ("mkisofs", ["-eltorito-boot"; "vmware_cd.img"; "-no-emul-boot"; "-o"; "/tmp/vmware_cd.iso"; "/tmp/vmware_cd.img"]).

Lemma does_vmware_deploy release : does (vmware_deploy os manifest_parent release) (fun _ cs ws =>
  cs = vmware_image ++ map (mcopy "/tmp/vmware_cd.img") (artifacts release) ++ [vmware_iso] /\ ws = []).
Proof.
  unfold vmware_deploy. eapply does_bind; [apply does_unix_output|]. intros ? ? ? [-> ->].
  eapply does_bind; [apply does_unix_output|]. intros ? ? ? [-> ->].
  eapply does_bind; [apply does_copy_artifacts|]. intros ? ? ? [-> ->].
  eapply does_weaken; [apply does_unix_output|]. by intros _ ? ? [-> ->].
Qed.

Context (not_wsl : is_wsl = false).

Definition vmware_commands : list (string * list string) :=
  let path := "./tests/samples/vmware/NoOS_" +:+ os_name os +:+ ".vmx" in
  [("vmrun", ["stop"; path]);
   ("vmrun", ["-T"; match os with MacOs => "fusion" | _ => "ws" end; "start"; path]);
   ("vmrun", ["stop"; path])].

Lemma does_if (b : bool) (x y : T unit) Q : does x Q -> does y Q -> does (if b then x else y) Q.
Proof. by destruct b. Qed.

Lemma does_vmware_start : does (vmware_start os is_wsl) (fun path cs ws =>
  path = "./tests/samples/vmware/NoOS_" +:+ os_name os +:+ ".vmx" /\ cs = take 2 vmware_commands /\ ws = []).
Proof.
  unfold vmware_start, windows_path, vmx_path, vmrun. rewrite not_wsl, not_windows.
  eapply does_bind; [apply does_ret|]. intros path ? ? (-> & -> & ->).
  eapply does_bind; [apply does_act|]. intros ? ? ? [-> ->].
  apply does_silent; [done..|]. intros there.
  eapply does_bind; [apply (does_if _ _ _ nothing); [apply does_act|]|]; [eapply does_weaken; [apply does_ret|]; by intros ? ? ? (_ & -> & ->)|].
  intros ? ? ? [-> ->]. apply does_silent; [done..|]. intros lines.
  eapply does_bind; [apply (does_if _ _ _ nothing); [|apply does_act]|]; [eapply does_weaken; [apply does_ret|]; by intros ? ? ? (_ & -> & ->)|].
  intros ? ? ? [-> ->]. apply does_silent; [done..|]. intros _.
  eapply does_bind; [apply does_act|]. intros ok ? ? [-> ->]. eapply does_bind; [apply does_ensure|]. intros ? ? ? (_ & -> & ->).
  eapply does_weaken; [apply does_ret|]. by intros ? ? ? (-> & -> & ->).
Qed.

Lemma does_vmware_session path : does (vmware_session os is_wsl path) (fun _ cs ws => cs = [("vmrun", ["stop"; path])] /\ ws = []).
Proof.
  unfold vmware_session, vmrun. rewrite not_wsl, not_windows. do 2 (apply does_silent; [done..|intros _]).
  eapply does_bind; [apply does_keys|]. intros ? ? ? [-> ->]. do 3 (apply does_silent; [done..|intros _]).
  eapply does_weaken; [apply does_act|]. by intros ? ? ? [-> ->].
Qed.

Lemma does_vmware_run polls : does (vmware_run os is_wsl polls) (fun _ cs ws => cs = vmware_commands /\ ws = []).
Proof.
  unfold vmware_run. eapply does_bind; [apply does_vmware_start|]. intros path ? ? (-> & -> & ->).
  eapply does_bind; [apply does_wait|]. intros ? ? ? [-> ->]. apply does_silent; [done..|intros _].
  eapply does_weaken; [apply does_vmware_session|]. by intros ? ? ? [-> ->].
Qed.

Lemma does_clippy : does (clippy os cargo manifest_parent) (fun _ cs ws =>
  cs = map (fun p => cargo_command Clippy p Debug) [Hypervisor; CheckHvVendor; Xtask] /\ ws = []).
Proof.
  unfold clippy. eapply does_bind; [apply does_cargo_run|]. intros ? ? ? [-> ->].
  eapply does_bind; [apply does_cargo_run|]. intros ? ? ? [-> ->].
  eapply does_weaken; [apply does_cargo_run|]. by intros _ ? ? [-> ->].
Qed.

End Plan.

(** ** Concrete runs *)

Module XtaskExample.
(** A system on which every command works except one. *)
Definition system (broken : string) : Os := fun R _ a =>
  match a in Action R return result R string with
  | Status program _ _ | Output program _ => ROk (negb (String.eqb program broken))
  | Stdout _ _ => ROk ""
  | Canonicalize path => ROk path
  | Exists path => ROk (String.eqb path "/tmp/serial.log")
  | ReadFile _ => ROk (replicate 300 0xa)
  | ReadLines _ => ROk ["guestOS = other"]
  | TryOutput _ _ | WriteFile _ _ | RemoveFile _ | AppendLine _ _ | Println _ | Sleep _ | SpawnThread _ | Connect _
  | KeyEvent _ _ | Disconnect | WaitForCtrlC => ROk tt
  end.

Definition outcome_of (broken : string) (command : Commands) : outcome (result unit string * list Done) :=
  main (OS := system broken) Linux false None "/src/uefi" 1 true command [].

Definition history_of (broken : string) (command : Commands) : list Done :=
  match outcome_of broken command with Ok (_, h) => h | Panic _ => [] end.

(** When mcopy does not work, nothing comes after its first run. *)
Lemma main_stops_witness : exists l0 (R : Type) (a : Action R),
  outcome_of "mcopy" BochsIntel = Ok (RErr "mcopy failed", l0 ++ [did a]) /\
  commands_of [did a] = [mcopy "./tests/samples/bochs_disk.img" "/src/uefi/target/x86_64-unknown-uefi/release/uefi_hv.efi"].
Proof.
  assert (outcome_of "mcopy" BochsIntel = Ok (RErr "mcopy failed", history_of "mcopy" BochsIntel)) as E by (vm_compute; reflexivity).
  destruct (main_stops (OS := system "mcopy") Linux false None "/src/uefi" 1 true BochsIntel [] _ _ E)
    as (l & Hl & l0 & R & a & -> & _ & _).
  exists l0, R, a. rewrite app_nil_l in Hl. split; [rewrite <- Hl; exact E|].
  assert (commands_of (l0 ++ [did a]) = commands_of (history_of "mcopy" BochsIntel)) as Hc by (rewrite <- Hl; reflexivity).
  assert (removelast (history_of "mcopy" BochsIntel) = l0) as H0 by (rewrite Hl; apply removelast_last).
  rewrite commands_app, <- H0 in Hc.
  assert (commands_of (history_of "mcopy" BochsIntel) = commands_of (removelast (history_of "mcopy" BochsIntel)) ++
    [mcopy "./tests/samples/bochs_disk.img" "/src/uefi/target/x86_64-unknown-uefi/release/uefi_hv.efi"]) as Hv
    by (vm_compute; reflexivity).
  rewrite Hv in Hc. exact (app_inv_head _ _ _ Hc).
Defined.

End XtaskExample.
